(* ===== verification/_CoqProject ===== *)
-Q . S2P
Prelude.v
GoStrings.v
GoPath.v
Machine.v
GoFlag.v
GoUrl.v
GoJson.v
JsonFacts.v
GoHttp.v
Delay.v
Config.v
Client.v
Sync.v
Cluster.v
Application.v
Fab.v
Lifecycle.v
LifecycleSpec.v
Deployment.v
DeploymentSpec.v
LeaderFinder.v
LeaderManager.v
Checker.v
CheckerCluster.v
SplitBrain.v
Proxy.v
ProxyStack.v
JsonFuel.v
JsonEncode.v
UrlFacts.v
GoInt.v
GoServe.v
EtcdBackend.v
EtcdBackendSpec.v
EtcdServer.v
GoRegexp.v
RegexpFacts.v
ErrorSet.v
GoFloat.v
SyslogChecker.v
CfApps.v
CfFakes.v
SyslogSpec.v
SyslogHealthy.v
LogSpammer.v
LogSpammerSpec.v
Fakes.v
FakesSpec.v
FakesStart.v
TestConsumer.v
TestConsumerSpec.v
KvClient.v
KvSpammer.v
KvSpammerSpec.v
KvStack.v
Watcher.v
IptablesAgent.v
MonitAgent.v
MonitAgentSpec.v
EatsConfig.v
BoshHelpers.v
AcceptFakes.v
EtcdClients.v
