(* ===== verification/Prelude.v ===== *)
(** * A verification development for etcd-release

    etcd-release runs etcd under BOSH.  The development models its Go programs:

    - [etcdfab] ([src/src/etcdfab]): [etcdfab start] decides whether the node
      bootstraps a cluster or joins one, starts etcd, waits until the node
      serves its keys and records the pid; [etcdfab stop] leaves the cluster,
      clears the data directory and kills the recorded process;
    - [etcd-proxy] ([src/src/etcd-proxy]): a proxy in front of a TLS cluster
      that sends requests to the leader, which a goroutine looks up again and
      again;
    - [etcd-consistency-checker]: asks every member for its leader once a
      second and ends when two are seen;
    - the programs its tests run beside them: the log spammer and the syslog
      checker that watch applications during an upgrade
      ([acceptance-tests/cf-tls-upgrade]) with the applications they push, and
      the fakes of etcd and of the interfaces ([etcdfab/fakes]);
    - the programs and helpers of the acceptance tests
      ([acceptance-tests/testing]): the test consumer, a small HTTP service over
      etcd; its client, the spammer that writes through it during a deployment
      and the watcher that replays etcd's events; the agents that block
      addresses with [iptables] and stop jobs with [monit]; the configuration of
      a run and the deployments it makes.

    ** How the program is modelled

    Definitions follow the Go functions, with their names.  A computation that
    logs, sleeps, touches files or processes or calls a collaborator is a
    function of type [M X A] ([Machine.v]): it takes the world (files, process
    table, the kernel's refusals, the state [X] of the collaborators, the event
    log) and ends in a value, a panic or [os.Exit], with the world it leaves.
    A Go pair [(v, err)] is a pair with an [option error].  Integers are [Z];
    where width matters it is written out: [strconv.Atoi] and the decoding of
    [int]s check the 64-bit range, counters of type [int32] wrap ([GoInt.v]),
    [float64] is IEEE binary64 ([GoFloat.v]).  Strings are byte strings.
    Goroutines that share state are transition systems ([LeaderManager.v],
    [LogSpammer.v]); objects reached by pointers live in a store ([Fakes.v]).

    Interfaces of the source are classes of operations with a second class of
    laws ([Collaborators], [ClusterClient], [SyncClient], [Getter], [Poster],
    [Putter], [CFRunner], [GuidGenerator], [ClientConfigurer], [KV], [IPTables],
    [MonitWrapper], [RemoveStore], [BoshClient]); the wiring of [main] is an
    instance and discharges the laws.  What a theorem needs of a system outside
    the repository is a class of laws of its own, with an instance that has them:
    [EtcdService] (the etcd cluster, its client library and the network, in
    [Deployment.v]), [EtcdStore] (a key-value store behind the test consumer),
    [RuleTable] (iptables: its commands on the chains of rules), [Director] (the BOSH director).  Code that is not part of the repository is a parameter: the CoreOS
    client library (record [CoreOS] of [Client.v]), parsing of X.509 key pairs
    and PEM files, serving HTTP, the order in which [range] visits a map.  Where
    a theorem is about every behaviour of the environment, the environment is a
    sequence of answers that a scripted instance plays while it records the
    calls ([Script], [ClusterScript], [AppScript], [HttpScript], [CFEnv]).

    ** Files

    - [Prelude.v]: notations, tactics, lemmas on lists.
    - [GoStrings.v], [GoPath.v], [GoFlag.v], [GoUrl.v], [GoJson.v],
      [JsonFacts.v], [GoHttp.v]: what the programs use of [strings], [fmt],
      [strconv], [path/filepath], [flag], [net/url], [encoding/json] and
      [net/http] (Go 1.8), with their lemmas.
    - [Machine.v]: errors, events, the world, the monad, [os], [ioutil] and
      [exec]; the class [Quiet] of computations that leave files and processes
      alone.
    - [Delay.v]: the [sleep] of [etcdfab/etcdfab/main.go], with its link-time
      switch, that both controllers are given.
    - [Config.v]: [etcdfab/config/config.go].
    - [Client.v]: [etcdfab/client/etcd_client.go].
    - [Sync.v]: [etcdfab/sync/controller.go].
    - [Cluster.v]: [etcdfab/cluster/controller.go].
    - [Application.v]: [etcdfab/application/application.go] and
      [etcdfab/command/wrapper.go], and the wiring of [main].
    - [Fab.v]: [etcdfab/etcdfab/main.go].
    - [Lifecycle.v], [LifecycleSpec.v]: the lemmas and the theorems about
      [Application.v].
    - [LeaderFinder.v], [LeaderManager.v]: [etcd-proxy/leaderfinder].
    - [Checker.v]: [etcd-consistency-checker/app/app.go] and [main.go].
    - [CheckerCluster.v], [SplitBrain.v]: the checker in front of nodes that tell
      what they know of their cluster, and in front of a cluster of [etcdfab]
      hosts of which one is cut off and restarted.
    - [Proxy.v]: [etcd-proxy/etcd_proxy.go].
    - [JsonFuel.v], [JsonEncode.v], [UrlFacts.v], [GoInt.v], [GoRegexp.v],
      [RegexpFacts.v], [GoFloat.v]: that the scanner's fuel is enough, encoding
      of strings, URLs of plain paths, [int32], [regexp] (backtracking search
      with its language semantics, and the parser of patterns), [float64].
    - [EtcdBackend.v], [EtcdBackendSpec.v]: [etcdfab/fakes/etcd/main.go] and
      [etcdfab/fakes/etcd/backend/main.go].
    - [EtcdServer.v]: [etcdfab/fakes/etcdserver/server.go].
    - [Fakes.v], [FakesSpec.v], [FakesStart.v]: the recording doubles of
      [etcdfab/fakes], and the sync controller and the application over them.
    - [ErrorSet.v]: [acceptance-tests/testing/helpers/error_set.go].
    - [SyslogChecker.v], [CfFakes.v], [SyslogSpec.v], [SyslogHealthy.v]:
      [cf-tls-upgrade/syslogchecker/checker.go] and its double of the [cf] tool.
    - [CfApps.v]: [cf-tls-upgrade/assets/logspinner/main.go] and
      [syslogchecker/assets/syslog_drain.go].
    - [Deployment.v], [DeploymentSpec.v]: several hosts that run [etcdfab] around
      one etcd cluster; nothing in them but the programs of [Fab.v] and the laws
      of their surroundings.
    - [ProxyStack.v]: the proxy, its leader manager and its leader finder as one
      system.
    - [GoServe.v]: the server side of [net/http] (what a handler writes and what
      the client gets of it), and queries.
    - [TestConsumer.v], [TestConsumerSpec.v]: [testing/testconsumer] (main,
      handlers, the wrapper of go-etcd).
    - [KvClient.v], [KvSpammer.v], [KvSpammerSpec.v], [KvStack.v]:
      [testing/etcd/client.go], [testing/helpers/spammer.go], and the client, the
      consumer and a store on top of each other.
    - [Watcher.v]: [testing/helpers/watcher.go].
    - [IptablesAgent.v], [MonitAgent.v], [MonitAgentSpec.v]:
      [testing/iptables_agent] and [testing/monit_agent].
    - [EatsConfig.v], [BoshHelpers.v], [EtcdClients.v]: [config.go], [guid.go],
      [deploy_etcd.go], [deploy_turbulence.go], [manifest.go] and
      [etcd_client.go] of [testing/helpers].
    - [AcceptFakes.v]: the doubles of go-etcd, of the monit agent and of the
      watcher ([testconsumer/etcd/fakes], [monit_agent/fakes],
      [helpers/fakes]) with the code they test.
    - [LogSpammer.v], [LogSpammerSpec.v]:
      [cf-tls-upgrade/logspammer/logspammer.go].

    ** What the theorems show

    - Configuration ([Config.v], [JsonFuel.v]): which file a setting comes from,
      which files are accepted (a schema of their types) and every error of the
      others, that names and URLs identify a node and follow the TLS switches,
      and that decoding ends for every text.
    - Client ([Client.v]): [Configure] on every branch, [Self] dials this node
      only, conversion of the member list.
    - Controllers ([Sync.v], [Cluster.v]): the retry loops against any sequence
      of answers, the decision between a new and an existing cluster, the
      [--initial-cluster] string read back, and that an outage of the cluster
      leads to a new one.
    - Lifecycle ([LifecycleSpec.v]): [Start] and [Stop] refine the descriptions
      [start_spec] and [stop_spec] of [Lifecycle.v], [kill], [removeDataDir] and
      [removeSelfFromCluster] on every branch, a start and a stop are inverse on
      the process table, the flags etcd is started with, and what happens to the
      process when the node does not get synced.
    - Deployment ([DeploymentSpec.v]): hosts started one after the other around an
      empty etcd cluster form one cluster that lists exactly them, and an update
      that stops and starts every host in turn always succeeds and ends with the
      members it began with.
    - Command line ([Fab.v]): exit statuses; a bad command line does nothing.
    - Proxy ([LeaderFinder.v], [LeaderManager.v], [Proxy.v]): [Find] refines
      [find_spec] and finds the leader of a working cluster; every interleaving
      of the goroutine and the readers is a run of one shared cell, never yields
      nil and never blocks a reader for good; the start-up fails closed; the
      members body is read back by an etcd client; which requests are sent on,
      and how they are changed.  In [ProxyStack.v]: in every interleaving a
      request goes to the leader that the last stored refresh found.
    - Checker ([Checker.v], [CheckerCluster.v]): a round goes on exactly when the
      leaders agree, a failure ends it, a healthy cluster is watched for ever,
      [Run] never returns without an error; the program exits with 1 in its first
      round exactly if two leaders are named; and three ways in which it ends for
      no reason, among them a node that knows no leader for a moment, and a change
      of the leader, of which it is shown before which requests it ends the
      checker and before which it does not.
    - Split brain ([SplitBrain.v]): a node that is cut off and restarted makes a
      cluster of its own without noticing; the checker, which watched the one
      cluster for ever, exits in the first round in front of the two.
    - Fakes ([EtcdBackendSpec.v], [EtcdServer.v], [FakesSpec.v],
      [FakesStart.v]): the arguments of the fake etcd arrive at its backend, the
      call counter wraps, the fake API refines a table of answers; the controllers
      over the doubles are those over their answers, and the calls [Start] makes
      to its collaborators.
    - Syslog checker ([SyslogSpec.v], [SyslogHealthy.v]): the address and the
      GUID are found exactly where they are, the commands that deploy a drain are
      followed by those that take this drain down, bounds on the errors counted,
      the float comparison of the verdict is exact, and a working platform never
      counts an error.
    - Log spammer ([LogSpammerSpec.v]): the invariant of its goroutines, [Stop]
      returns, a number makes the round trip through the log spinner, [Check]
      counts exactly the times of what is missing.
    - Test consumer and its clients ([TestConsumerSpec.v], [KvStack.v],
      [KvSpammerSpec.v]): the stack of client, consumer and store is a map; the
      invariant of the spammer, and that its verdict on a store lists exactly the
      keys the store has lost; the leader of a node is reported by name, and every
      failure as a 500.
    - Watcher ([Watcher.v]): its map is the replay of the events so far, and it
      catches up whatever breaks off.
    - Agents ([IptablesAgent.v], [MonitAgentSpec.v]): a sequence of requests is a
      list of blocked addresses, and the packets of these are dropped; the status of a job is read back from monit's
      summary; stopping a job empties its own store and no other.
    - Tests ([EatsConfig.v], [BoshHelpers.v]): which configurations are accepted;
      a GUID is read back; what the helpers read from the director, and that the
      VMs of a deployment are those its manifest makes the tests expect.

    ** Bounds

    Loops of the source with a bound keep it (20 reads in [VerifySynced], 5
    member lists in [GetInitialClusterState]).  The JSON scanner takes fuel: two
    units per nested value, and [json_fuel] gives two per character; more fuel
    never changes a result ([parse_mono]) and this much is enough for every text
    ([parse_enough]).  A star of a pattern is run as often as there are
    characters left ([star_loop]), which loses no match ([run_complete]); the
    parser of patterns has [re_fuel].  Endless loops are run for every number of
    rounds (the consistency checker, [logIP]) or along every sequence of what
    their [select] takes (the syslog checker); goroutines that share state are
    transition systems.  That the float comparison of the syslog checker is exact is
    proved by computing all cases of up to 40 iterations, and claimed for no
    more.

    ** Not modelled

    The text of JSON errors beyond their kind; the reverse proxy of the Go
    library beyond the request it is directed to send; patterns of [regexp]
    beyond the syntax the source uses; [logger] interfaces and plain
    constructors without content; the test suites themselves; BOSH templates,
    which are not Go.

    Nothing else of the Go code is left out.  What a cut-off node cannot reach is
    a state of the service in which nobody answers ([SplitBrain.v]); the packet
    filter that cuts it off in the acceptance test is modelled by itself
    ([IptablesAgent.v]) and not connected to it, since how dropped packets turn
    into the errors of the client library is not part of the repository. *)
From Stdlib Require Export Ascii.
From stdpp Require Export base tactics option list strings gmap.
From Stdlib Require Export ZArith Lia.

(** ** Scope, automation and hint databases *)

Declare Scope go_scope.
Delimit Scope go_scope with go.

Create HintDb gostr.
Create Rewrite HintDb gostr.
Create HintDb gofx.
Create Rewrite HintDb gofx.

(** Case analysis on every [match]/[if] of the goal, closing the cases that
    computation and congruence decide. *)
Ltac cases :=
  repeat (case_match; simplify_eq/=); try done.

(** [inv_pair] splits equations between pairs. *)
Ltac inv_pair :=
  repeat match goal with
  | H : (_, _) = (_, _) |- _ => injection H as ?; subst
  end.

(** ** Generic lemmas on lists *)

Section lists.
Context {A B : Type}.
Implicit Types (l k : list A).

(** The last element of [l] satisfying [f]: what a Go loop that overwrites a
    variable at every match leaves in it. *)
Definition last_match (f : A → bool) (l : list A) : option A :=
  foldl (λ acc x, if f x then Some x else acc) None l.

(** The first element satisfying [f]: a Go loop with [break] or [return]. *)
Definition first_match (f : A → bool) (l : list A) : option A :=
  head (List.filter f l).

Lemma foldl_last_match (f : A → bool) l (acc : option A) :
  foldl (λ acc x, if f x then Some x else acc) acc l =
  match last_match f l with Some x => Some x | None => acc end.
Proof.
  unfold last_match. revert acc.
  induction l as [|x l IH]; intros acc; simpl; [done|].
  rewrite (IH (if f x then Some x else acc)), (IH (if f x then Some x else None)).
  destruct (foldl _ None l); [done|]. by destruct (f x).
Qed.

Lemma last_match_snoc (f : A → bool) l x :
  last_match f (l ++ [x]) = if f x then Some x else last_match f l.
Proof. unfold last_match. by rewrite foldl_app. Qed.

Lemma last_match_Some (f : A → bool) l x :
  last_match f l = Some x → x ∈ l ∧ f x = true.
Proof.
  induction l as [|y l IH] using rev_ind; [done|].
  rewrite last_match_snoc. destruct (f y) eqn:Hy; intros; simplify_eq.
  - set_solver.
  - destruct IH; [done|]. set_solver.
Qed.

Lemma last_match_None (f : A → bool) l :
  last_match f l = None ↔ ∀ x, x ∈ l → f x = false.
Proof.
  induction l as [|y l IH] using rev_ind; [split; [set_solver|done]|].
  rewrite last_match_snoc. split.
  - destruct (f y) eqn:Hy; [done|].
    intros ? x [?| ->%list_elem_of_singleton]%elem_of_app; [by apply IH|done].
  - intros H. rewrite H by set_solver. apply IH. set_solver.
Qed.

Lemma first_match_Some (f : A → bool) l x :
  first_match f l = Some x ↔
  ∃ l1 l2, l = l1 ++ x :: l2 ∧ f x = true ∧ ∀ y, y ∈ l1 → f y = false.
Proof.
  unfold first_match. induction l as [|y l IH]; simpl.
  - split; [done|]. intros ([|]&?&?&?); simplify_eq.
  - destruct (f y) eqn:Hy; simpl.
    + split; [intros [= ->]; exists [], l; set_solver|].
      intros ([|z l1]&l2&Heq&Hf&Hl); simplify_eq/=; [done|].
      rewrite Hl in Hy by set_solver. done.
    + rewrite IH. split.
      * intros (l1&l2&->&?&?). exists (y :: l1), l2. set_solver.
      * intros ([|z l1]&l2&Heq&Hf&Hl); simplify_eq/=; [congruence|].
        exists l1, l2. set_solver.
Qed.

Lemma first_match_None (f : A → bool) l :
  first_match f l = None ↔ ∀ x, x ∈ l → f x = false.
Proof.
  unfold first_match. induction l as [|y l IH]; simpl; [set_solver|].
  destruct (f y) eqn:Hy; simpl.
  - split; [done|]. intros H. rewrite H in Hy by set_solver. done.
  - rewrite IH. set_solver.
Qed.
End lists.
