(* ===== verification/GoStrings.v ===== *)
(** * Go's [strings], [strconv] and [fmt] as the program uses them

    Byte strings are Rocq [string]s (a Go string is a sequence of bytes).
    Only the functions that appear in the modelled sources are here:
    [strings.Replace] of one ASCII character by another with [n = -1],
    [strings.Split] at a one-byte separator, [strings.Join],
    [strings.Contains], [strings.HasPrefix], [strings.TrimPrefix],
    [fmt.Sprintf("%d", i)] and [strconv.Atoi] on 64-bit [int]s. *)
From Stdlib Require Import DecimalString DecimalZ DecimalPos Decimal.
From S2P Require Import Prelude.

Open Scope Z_scope.

(** ** Characters *)

(** [has_char c s]: the byte [c] occurs in [s]. *)
Fixpoint has_char (c : ascii) (s : string) : bool :=
  match s with
  | "" => false
  | String d s' => bool_decide (c = d) || has_char c s'
  end.

Fixpoint map_string (f : ascii → ascii) (s : string) : string :=
  match s with
  | "" => ""
  | String c s' => String (f c) (map_string f s')
  end.

Fixpoint all_chars (p : ascii → bool) (s : string) : bool :=
  match s with
  | "" => true
  | String c s' => p c && all_chars p s'
  end.

(** [strings.Replace(s, old, new, -1)] for one-byte [old] and [new]. *)
Definition replace_all (old new : ascii) (s : string) : string :=
  map_string (λ c, if bool_decide (c = old) then new else c) s.

(** ** [strings] *)

(** [strings.Split(s, sep)] for a one-byte separator: never empty, and
    [Split("", sep)] is [[""]]. *)
Fixpoint Split (sep : ascii) (s : string) : list string :=
  match s with
  | "" => [""]
  | String c s' =>
      if bool_decide (c = sep) then "" :: Split sep s'
      else match Split sep s' with
           | x :: xs => String c x :: xs
           | [] => [String c ""]
           end
  end.

(** [strings.Join(l, sep)]. *)
Fixpoint Join (sep : string) (l : list string) : string :=
  match l with
  | [] => ""
  | [x] => x
  | x :: xs => x +:+ sep +:+ Join sep xs
  end.

(** [strings.HasPrefix(s, p)]. *)
Fixpoint HasPrefix (s p : string) {struct p} : bool :=
  match p, s with
  | "", _ => true
  | String c p', String d s' => bool_decide (c = d) && HasPrefix s' p'
  | String _ _, "" => false
  end.

Fixpoint drop_string (n : nat) (s : string) : string :=
  match n, s with
  | O, _ => s
  | S n', String _ s' => drop_string n' s'
  | S _, "" => ""
  end.

Definition TrimPrefix (s p : string) : string :=
  if HasPrefix s p then drop_string (String.length p) s else s.

(** [strings.Contains(s, sub)]. *)
Fixpoint Contains (s sub : string) : bool :=
  HasPrefix s sub ||
  match s with "" => false | String _ s' => Contains s' sub end.

(** [strings.TrimSpace(s)]; the spaces outside ASCII are left alone. *)
Definition is_space (c : ascii) : bool :=
  existsb (λ d, bool_decide (c = d)) [" "; "009"; "010"; "011"; "012"; "013"]%char.

Fixpoint TrimLeft (s : string) : string :=
  match s with
  | String c s' => if is_space c then TrimLeft s' else s
  | "" => ""
  end.

Fixpoint TrimRight (s : string) : string :=
  match s with
  | String c s' =>
      match TrimRight s' with
      | "" => if is_space c then "" else String c ""
      | t => String c t
      end
  | "" => ""
  end.

Definition TrimSpace (s : string) : string := TrimRight (TrimLeft s).

(** ** [fmt] and [strconv] *)

(** [fmt.Sprintf("%d", i)]. *)
Definition Sprintf_d (z : Z) : string := NilZero.string_of_int (Z.to_int z).

(** [strconv.Quote(s)] ([%q]) on strings whose non-ASCII part is printable
    UTF-8. *)
Definition dquote : ascii := "034".

Definition hex_digit (n : nat) : ascii :=
  if (n <? 10)%nat then ascii_of_nat (48 + n) else ascii_of_nat (87 + n).

Definition quote_byte (c : ascii) : string :=
  let n := nat_of_ascii c in
  match n with
  | 34%nat | 92%nat => String "\" (String c "")
  | 7%nat => "\a" | 8%nat => "\b" | 9%nat => "\t" | 10%nat => "\n"
  | 11%nat => "\v" | 12%nat => "\f" | 13%nat => "\r"
  | _ =>
      if (n <? 32)%nat || (n =? 127)%nat then
        "\x" +:+ String (hex_digit (n / 16)) (String (hex_digit (n mod 16)) "")
      else String c ""
  end.

Fixpoint concat_map_string (f : ascii → string) (s : string) : string :=
  match s with
  | "" => ""
  | String c s' => f c +:+ concat_map_string f s'
  end.

Definition Quote (s : string) : string :=
  String dquote (concat_map_string quote_byte s +:+ String dquote "").

Definition digit_of (c : ascii) : option Z :=
  match Ascii.is_nat c with Some n => Some (Z.of_nat n) | None => None end.

(** The digit loop of [strconv.ParseUint] in base 10, on an accumulator. *)
Fixpoint parse_digits (acc : Z) (s : string) : option Z :=
  match s with
  | "" => Some acc
  | String c s' =>
      match digit_of c with
      | Some d => parse_digits (10 * acc + d) s'
      | None => None
      end
  end.

Definition max_int : Z := 2 ^ 63 - 1.
Definition min_int : Z := - 2 ^ 63.
Definition in_int (z : Z) : bool := (min_int <=? z) && (z <=? max_int).

(** [strconv.Atoi]: an optional sign, at least one digit, nothing else; the
    value must fit a 64-bit [int]. [inl] carries the reason of the
    [*strconv.NumError]. *)
Definition Atoi (s : string) : string + Z :=
  let body :=
    match s with
    | String "-" s' => (true, s')
    | String "+" s' => (false, s')
    | _ => (false, s)
    end in
  match body.2 with
  | "" => inl "invalid syntax"
  | digits =>
      match parse_digits 0 digits with
      | None => inl "invalid syntax"
      | Some n =>
          let v := if body.1 then - n else n in
          if in_int v then inr v else inl "value out of range"
      end
  end.

(** ** Lemmas: characters *)

Lemma app_cons_s x (a b : string) : String x a +:+ b = String x (a +:+ b).
Proof. done. Qed.

Lemma app_nil_s (s : string) : s +:+ "" = s.
Proof. induction s as [|x s IH]; [done|]. by rewrite app_cons_s, IH. Qed.

Lemma app_assoc_s (a b c : string) : a +:+ b +:+ c = (a +:+ b) +:+ c.
Proof. induction a as [|x a IH]; [done|]. by rewrite !app_cons_s, IH. Qed.

Lemma has_char_app c a b : has_char c (a +:+ b) = has_char c a || has_char c b.
Proof.
  induction a as [|x a IH]; [done|]. rewrite app_cons_s. simpl.
  by rewrite IH, orb_assoc.
Qed.

Lemma all_chars_app p a b : all_chars p (a +:+ b) = all_chars p a && all_chars p b.
Proof.
  induction a as [|x a IH]; [done|]. rewrite app_cons_s. simpl.
  by rewrite IH, andb_assoc.
Qed.

Lemma all_chars_has p c s : all_chars p s = true → p c = false → has_char c s = false.
Proof.
  induction s as [|x s IH]; simpl; [done|]. intros [??]%andb_true_iff Hc.
  rewrite IH by done. case_bool_decide; [congruence|done].
Qed.

Lemma has_char_replace old new s :
  old ≠ new → has_char old (replace_all old new s) = false.
Proof.
  intros Hne. unfold replace_all. induction s as [|c s IH]; simpl; [done|].
  rewrite IH. repeat case_bool_decide; congruence || done.
Qed.

Lemma has_char_replace_other c old new s :
  c ≠ new → has_char c s = false → has_char c (replace_all old new s) = false.
Proof.
  intros Hne. unfold replace_all. induction s as [|d s IH]; simpl; [done|].
  intros [??]%orb_false_iff. rewrite IH by done.
  repeat case_bool_decide; simplify_eq; done.
Qed.

Lemma replace_all_id old new s : has_char old s = false → replace_all old new s = s.
Proof.
  unfold replace_all. induction s as [|d s IH]; simpl; [done|].
  intros [Hd ?]%orb_false_iff. rewrite IH by done.
  apply bool_decide_eq_false in Hd. rewrite bool_decide_false by congruence. done.
Qed.

Lemma length_app_s (a b : string) :
  String.length (a +:+ b) = (String.length a + String.length b)%nat.
Proof. induction a as [|x a IH]; [done|]. rewrite app_cons_s. simpl. by rewrite IH. Qed.

Lemma app_inj_l_s (a b c : string) : a +:+ b = a +:+ c → b = c.
Proof. apply String.app_inj. Qed.

Lemma app_inj_r_s (a b c : string) : a +:+ c = b +:+ c → a = b.
Proof.
  revert b. induction a as [|x a IH]; intros [|y b]; rewrite ?app_cons_s; intros H; [done| | |].
  - apply (f_equal String.length) in H. change ("" +:+ c) with c in H. simpl in H.
    rewrite length_app_s in H. lia.
  - apply (f_equal String.length) in H. change ("" +:+ c) with c in H. simpl in H.
    rewrite length_app_s in H. lia.
  - injection H as -> H. f_equal. by apply IH.
Qed.

(** ** Lemmas: [Split] and [Join] *)

Lemma Split_not_nil sep s : Split sep s ≠ [].
Proof. destruct s; simpl; [done|]. repeat case_match; done. Qed.

Lemma Split_no_sep sep s x : x ∈ Split sep s → has_char sep x = false.
Proof.
  revert x. induction s as [|c s IH]; simpl; intros x.
  - by intros ->%list_elem_of_singleton.
  - case_bool_decide as Hc.
    + intros [->|?]%elem_of_cons; [done|by apply IH].
    + destruct (Split sep s) as [|y ys] eqn:Hs; [by destruct (Split_not_nil sep s)|].
      intros [->|?]%elem_of_cons; [|apply IH; set_solver]. simpl.
      rewrite IH by set_solver. rewrite bool_decide_false by congruence. done.
Qed.

Lemma Split_id sep s : has_char sep s = false → Split sep s = [s].
Proof.
  induction s as [|c s IH]; simpl; [done|].
  intros [Hc Hs]%orb_false_iff. apply bool_decide_eq_false in Hc.
  rewrite bool_decide_false by congruence. by rewrite IH.
Qed.

(** Splitting at an occurrence of the separator. *)
Lemma Split_app_sep sep a b :
  Split sep (a +:+ String sep b) = Split sep a ++ Split sep b.
Proof.
  induction a as [|c a IH].
  - simpl. by rewrite bool_decide_true.
  - rewrite app_cons_s. simpl. rewrite IH. case_bool_decide; [done|].
    destruct (Split sep a) eqn:Hs; [by destruct (Split_not_nil sep a)|done].
Qed.

Lemma Join_cons sep x y l : Join sep (x :: y :: l) = x +:+ sep +:+ Join sep (y :: l).
Proof. done. Qed.

(** [Split] inverts [Join] when no element contains the separator. *)
Lemma Split_Join sep l :
  l ≠ [] → (∀ x, x ∈ l → has_char sep x = false) →
  Split sep (Join (String sep "") l) = l.
Proof.
  induction l as [|x [|y l] IH]; [done| |]; intros _ Hl.
  - simpl. apply Split_id. set_solver.
  - rewrite Join_cons. change (String sep "" +:+ ?t) with (String sep t).
    rewrite Split_app_sep, IH by set_solver.
    rewrite (Split_id _ x) by set_solver. done.
Qed.

Lemma Join_Split sep s : Join (String sep "") (Split sep s) = s.
Proof.
  induction s as [|c s IH]; simpl; [done|].
  destruct (Split sep s) as [|y ys] eqn:Hs; [by destruct (Split_not_nil sep s)|].
  case_bool_decide as Hc.
  - rewrite Join_cons, IH, Hc. done.
  - rewrite <-IH. by destruct ys.
Qed.

(** ** Lemmas: prefixes *)

Lemma HasPrefix_nil s : HasPrefix s "" = true.
Proof. by destruct s. Qed.

Lemma HasPrefix_app p s : HasPrefix (p +:+ s) p = true.
Proof.
  induction p as [|c p IH]; [apply HasPrefix_nil|].
  rewrite app_cons_s. simpl. by rewrite bool_decide_true.
Qed.

Lemma HasPrefix_true s p : HasPrefix s p = true → ∃ t, s = p +:+ t.
Proof.
  revert s. induction p as [|c p IH]; intros s; [by exists s|].
  destruct s as [|d s]; simpl; [done|].
  intros [->%bool_decide_eq_true [t ->]%IH]%andb_true_iff. by exists t.
Qed.

Lemma drop_string_app p s : drop_string (String.length p) (p +:+ s) = s.
Proof. induction p as [|c p IH]; [done|]. rewrite app_cons_s. done. Qed.

Lemma TrimPrefix_app p s : TrimPrefix (p +:+ s) p = s.
Proof. unfold TrimPrefix. by rewrite HasPrefix_app, drop_string_app. Qed.

Lemma TrimLeft_spaces a s : all_chars is_space a = true → TrimLeft (a +:+ s) = TrimLeft s.
Proof.
  induction a as [|c a IH]; [done|]. rewrite app_cons_s. cbn [all_chars TrimLeft].
  intros [-> Ha]%andb_true_iff. by apply IH.
Qed.

(** A text without spaces around it. *)
Definition trimmed (s : string) : Prop := TrimSpace s = s.

Lemma TrimSpace_spaces a s : all_chars is_space a = true → TrimSpace (a +:+ s) = TrimSpace s.
Proof. intros Ha. unfold TrimSpace. by rewrite TrimLeft_spaces. Qed.

Lemma Contains_app a sub b : Contains (a +:+ sub +:+ b) sub = true.
Proof.
  induction a as [|c a IH].
  - change ("" +:+ ?x) with x. pose proof (HasPrefix_app sub b) as Hp.
    revert Hp. destruct (sub +:+ b); simpl; intros Hp; by rewrite Hp.
  - rewrite app_cons_s. simpl. rewrite IH. apply orb_true_r.
Qed.

Lemma Contains_true s sub : Contains s sub = true → ∃ a b, s = a +:+ sub +:+ b.
Proof.
  induction s as [|c s IH]; cbn [Contains]; intros [Ha|Ha]%orb_true_iff.
  - apply HasPrefix_true in Ha as [t Ht]. exists "", t. exact Ht.
  - done.
  - apply HasPrefix_true in Ha as [t Ht]. exists "", t. exact Ht.
  - destruct (IH Ha) as (a&b&->). exists (String c a), b. by rewrite app_cons_s.
Qed.

Lemma Contains_app_l a b sub : Contains a sub = true → Contains (a +:+ b) sub = true.
Proof.
  intros (x&y&->)%Contains_true. rewrite <-!app_assoc_s. apply Contains_app.
Qed.

#[export] Hint Rewrite app_nil_s has_char_app all_chars_app HasPrefix_app
  TrimPrefix_app : gostr.
#[export] Hint Resolve Split_not_nil Split_no_sep HasPrefix_app Contains_app : gostr.

(** ** Lemmas: decimal numbers *)

Definition is_digit (c : ascii) : bool := bool_decide (is_Some (digit_of c)).

Fixpoint uint_string_value (acc : Z) (u : Decimal.uint) : Z :=
  match u with
  | Decimal.Nil => acc
  | D0 u => uint_string_value (10 * acc + 0) u
  | D1 u => uint_string_value (10 * acc + 1) u
  | D2 u => uint_string_value (10 * acc + 2) u
  | D3 u => uint_string_value (10 * acc + 3) u
  | D4 u => uint_string_value (10 * acc + 4) u
  | D5 u => uint_string_value (10 * acc + 5) u
  | D6 u => uint_string_value (10 * acc + 6) u
  | D7 u => uint_string_value (10 * acc + 7) u
  | D8 u => uint_string_value (10 * acc + 8) u
  | D9 u => uint_string_value (10 * acc + 9) u
  end.

Lemma parse_digits_uint acc u :
  parse_digits acc (NilEmpty.string_of_uint u) = Some (uint_string_value acc u).
Proof. revert acc. induction u; intros acc; [done|..]; simpl; apply IHu. Qed.

Lemma uint_string_value_pos acc u :
  uint_string_value (Zpos acc) u = Zpos (Pos.of_uint_acc u acc).
Proof.
  revert acc. induction u; intros acc; [done|..]; cbn [uint_string_value Pos.of_uint_acc];
    (etrans; [|apply IHu]); f_equal; lia.
Qed.

Lemma uint_string_value_0 u : uint_string_value 0 u = Z.of_uint u.
Proof.
  unfold Z.of_uint. induction u as [|u IHu|u|u|u|u|u|u|u|u|u];
    [done|apply IHu|exact (uint_string_value_pos 1 u)|exact (uint_string_value_pos 2 u)
    |exact (uint_string_value_pos 3 u)|exact (uint_string_value_pos 4 u)
    |exact (uint_string_value_pos 5 u)|exact (uint_string_value_pos 6 u)
    |exact (uint_string_value_pos 7 u)|exact (uint_string_value_pos 8 u)
    |exact (uint_string_value_pos 9 u)].
Qed.

Lemma all_digits_uint u : all_chars is_digit (NilEmpty.string_of_uint u) = true.
Proof. induction u; [done|..]; exact IHu. Qed.

(** [NilZero] prints the empty digit list as ["0"]. *)
Lemma string_of_uint_cases u :
  (NilZero.string_of_uint u = "0" ∧ u = Decimal.Nil) ∨
  (NilZero.string_of_uint u = NilEmpty.string_of_uint u ∧ u ≠ Decimal.Nil).
Proof. destruct u; [by left|..]; right; done. Qed.

Lemma parse_digits_NilZero u :
  parse_digits 0 (NilZero.string_of_uint u) = Some (Z.of_uint u).
Proof.
  destruct (string_of_uint_cases u) as [[-> ->]|[-> _]]; [done|].
  by rewrite parse_digits_uint, uint_string_value_0.
Qed.

Lemma all_digits_NilZero u : all_chars is_digit (NilZero.string_of_uint u) = true.
Proof.
  destruct (string_of_uint_cases u) as [[-> _]|[-> _]]; [done|apply all_digits_uint].
Qed.

Lemma NilZero_uint_head u : ∃ c s, NilZero.string_of_uint u = String c s ∧ is_digit c = true.
Proof. destruct u; eexists _, _; split; reflexivity. Qed.

Lemma Sprintf_d_nonneg z :
  0 ≤ z → ∃ u, Sprintf_d z = NilZero.string_of_uint u ∧ Z.of_uint u = z.
Proof.
  intros Hz. destruct (Z.to_int z) as [u|u] eqn:Hi.
  - exists u. unfold Sprintf_d. rewrite Hi. split; [done|].
    rewrite <-(DecimalZ.of_to z), Hi. done.
  - destruct z; simpl in Hi; [done|done|lia].
Qed.

Lemma Sprintf_d_neg z :
  z < 0 → ∃ u, Sprintf_d z = String "-" (NilZero.string_of_uint u) ∧ Z.of_uint u = - z.
Proof.
  intros Hz. destruct (Z.to_int z) as [u|u] eqn:Hi.
  - destruct z; simpl in Hi; [done|lia|done].
  - exists u. unfold Sprintf_d. rewrite Hi. split; [done|].
    rewrite <-(DecimalZ.of_to z), Hi. simpl. lia.
Qed.

Lemma Sprintf_d_digits z : 0 ≤ z → all_chars is_digit (Sprintf_d z) = true.
Proof. intros (u&->&_)%Sprintf_d_nonneg. apply all_digits_NilZero. Qed.

Lemma Sprintf_d_chars z c :
  is_digit c = false → c ≠ "-"%char → has_char c (Sprintf_d z) = false.
Proof.
  intros Hc Hm. destruct (decide (0 ≤ z)) as [Hz|Hz].
  - eapply all_chars_has; [by apply Sprintf_d_digits|done].
  - destruct (Sprintf_d_neg z) as (u&->&_); [lia|]. simpl.
    rewrite bool_decide_false by done.
    eapply all_chars_has; [apply all_digits_NilZero|done].
Qed.

(** [strconv.Atoi] inverts [fmt.Sprintf("%d", _)] on every 64-bit [int]. *)
Lemma Atoi_Sprintf_d z : in_int z = true → Atoi (Sprintf_d z) = inr z.
Proof.
  intros Hz. destruct (decide (0 ≤ z)) as [Hp|Hp].
  - destruct (Sprintf_d_nonneg z Hp) as (u&->&<-).
    destruct (NilZero_uint_head u) as (c&s&Hs&Hc). unfold Atoi. rewrite Hs.
    assert (parse_digits 0 (String c s) = Some (Z.of_uint u)) as Hd
      by (rewrite <-Hs; apply parse_digits_NilZero).
    revert Hc Hd. destruct c as [[] [] [] [] [] [] [] []]; try done;
      intros _ Hd; cbv beta iota zeta delta [snd fst]; by rewrite Hd, Hz.
  - destruct (Sprintf_d_neg z) as (u&->&Hu); [lia|].
    destruct (NilZero_uint_head u) as (c&s&Hs&Hc).
    unfold Atoi. cbn [snd fst]. rewrite Hs, <-Hs, parse_digits_NilZero, Hu.
    by rewrite Z.opp_involutive, Hz.
Qed.

Lemma Sprintf_d_inj y z : in_int y = true → in_int z = true →
  Sprintf_d y = Sprintf_d z → y = z.
Proof.
  intros Hy%Atoi_Sprintf_d Hz%Atoi_Sprintf_d Heq. rewrite Heq in Hy. congruence.
Qed.

Example Atoi_examples :
  Atoi "42" = inr 42 ∧ Atoi "-7" = inr (-7) ∧ Atoi "+7" = inr 7 ∧ Atoi "007" = inr 7 ∧
  Atoi "" = inl "invalid syntax" ∧ Atoi "-" = inl "invalid syntax" ∧
  Atoi "4 " = inl "invalid syntax" ∧
  Atoi "9223372036854775808" = inl "value out of range" ∧
  Atoi "-9223372036854775808" = inr (- 2 ^ 63).
Proof. by vm_compute. Qed.
