(* ===== verification/GoPath.v ===== *)
(** * Go's [path/filepath] on Unix, and path resolution by the kernel

    [filepath.Clean] and [filepath.Join] as the program uses them, and the
    lexical resolution of a path against a working directory (the file system
    of [Machine.v] has no symbolic links, so [..] is lexical).  The point of
    the file is [resolve_Join]: the path that [filepath.Join(dir, name)] prints
    names the entry [name] of [dir], whatever the spelling of [dir]. *)
From S2P Require Import Prelude GoStrings.

Definition slash : ascii := "/".

(** ** Clean and Join *)

(** One component of [filepath.Clean], on the output stack (innermost first). *)
Definition clean_step (rooted : bool) (out : list string) (c : string) : list string :=
  if bool_decide (c = "") || bool_decide (c = ".") then out
  else if bool_decide (c = "..") then
    match out with
    | x :: out' => if bool_decide (x = "..") then ".." :: out else out'
    | [] => if rooted then [] else [".."]
    end
  else c :: out.

Definition is_rooted (p : string) : bool := HasPrefix p "/".

(** [filepath.Clean(path)]. *)
Definition Clean (p : string) : string :=
  if bool_decide (p = "") then "."
  else
    let out := rev (foldl (clean_step (is_rooted p)) [] (Split slash p)) in
    if is_rooted p then "/" +:+ Join "/" out
    else match out with [] => "." | _ => Join "/" out end.

(** [filepath.Join(elem...)]: leading empty elements are dropped, and an
    all-empty list joins to the empty string. *)
Fixpoint filepath_Join (elems : list string) : string :=
  match elems with
  | [] => ""
  | e :: es => if bool_decide (e = "") then filepath_Join es else Clean (Join "/" elems)
  end.

(** ** Resolution *)

(** One step of a path walk; directories are lists of names, innermost first. *)
Definition walk_step (dir : list string) (c : string) : list string :=
  if bool_decide (c = "") || bool_decide (c = ".") then dir
  else if bool_decide (c = "..") then tail dir
  else c :: dir.

(** The location a non-empty path names, as the list of names from the root. *)
Definition resolve (cwd : list string) (p : string) : list string :=
  rev (foldl walk_step (if is_rooted p then [] else rev cwd) (Split slash p)).

(** A name a directory can hold. *)
Definition valid_name (c : string) : Prop :=
  c ≠ "" ∧ c ≠ "." ∧ c ≠ ".." ∧ has_char slash c = false.

#[export] Instance valid_name_dec c : Decision (valid_name c).
Proof. unfold valid_name. apply _. Defined.

(** ** Lemmas *)

(** What [Clean] keeps on its stack: names, and [..] at the bottom of an
    unrooted path. *)
Definition clean_comp (c : string) : Prop := c ≠ "" ∧ c ≠ "." ∧ has_char slash c = false.

Lemma clean_step_comp rooted out c :
  has_char slash c = false → Forall clean_comp out → Forall clean_comp (clean_step rooted out c).
Proof.
  intros Hc Hout. unfold clean_step, clean_comp in *.
  repeat case_bool_decide; simpl; try done.
  - destruct out as [|x out]; [destruct rooted|]; [done|by constructor|].
    inversion Hout; subst. case_bool_decide; [by constructor|done].
  - constructor; [done|done].
Qed.

Lemma foldl_clean_comp rooted l out :
  (∀ c, c ∈ l → has_char slash c = false) → Forall clean_comp out →
  Forall clean_comp (foldl (clean_step rooted) out l).
Proof.
  revert out. induction l as [|c l IH]; intros out Hl Hout; [done|].
  simpl. apply IH; [set_solver|]. apply clean_step_comp; [set_solver|done].
Qed.

(** A rooted [Clean] is a walk from the root. *)
Lemma clean_step_rooted out c :
  Forall (λ x, x ≠ "..") out → clean_step true out c = walk_step out c ∧
  Forall (λ x, x ≠ "..") (walk_step out c).
Proof.
  intros Hout. unfold clean_step, walk_step.
  repeat case_bool_decide; simpl; try done.
  - destruct out as [|x out]; [done|]. inversion Hout; subst.
    by rewrite bool_decide_false.
  - split; [done|]. by constructor.
Qed.

Lemma foldl_clean_rooted l out :
  Forall (λ x, x ≠ "..") out → foldl (clean_step true) out l = foldl walk_step out l.
Proof.
  revert out. induction l as [|c l IH]; intros out Hout; [done|]. simpl.
  destruct (clean_step_rooted out c Hout) as [-> ?]. by apply IH.
Qed.

Lemma rev_cons_app {A} (x : A) l : rev (x :: l) = rev l ++ [x].
Proof. done. Qed.

Lemma walk_step_skip dir c :
  bool_decide (c = "") || bool_decide (c = ".") = true → walk_step dir c = dir.
Proof. intros Hc. unfold walk_step. by rewrite Hc. Qed.

Lemma walk_step_up dir : walk_step dir ".." = tail dir.
Proof. done. Qed.

Lemma walk_step_name dir c : clean_comp c → c ≠ ".." → walk_step dir c = c :: dir.
Proof. intros (?&?&_) ?. unfold walk_step. by rewrite !bool_decide_false. Qed.

(** Walking the cleaned components is walking the original ones. *)
Lemma walk_clean_step rooted cwd out c :
  (rooted = true → cwd = []) → Forall clean_comp out →
  foldl walk_step cwd (rev (clean_step rooted out c)) =
  walk_step (foldl walk_step cwd (rev out)) c.
Proof.
  intros Hr Hout. unfold clean_step.
  destruct (bool_decide (c = "") || bool_decide (c = ".")) eqn:Hc.
  { by rewrite walk_step_skip. }
  clear Hc. case_bool_decide as Hd; [|by rewrite rev_cons_app, foldl_app].
  subst c. destruct out as [|x out].
  { destruct rooted; [by rewrite (Hr eq_refl)|done]. }
  inversion Hout as [|? ? Hx]; subst. case_bool_decide.
  - by rewrite (rev_cons_app ".."), foldl_app.
  - rewrite rev_cons_app, foldl_app. simpl. by rewrite (walk_step_name _ x).
Qed.

Lemma walk_foldl_clean rooted cwd l out :
  (rooted = true → cwd = []) → (∀ c, c ∈ l → has_char slash c = false) →
  Forall clean_comp out →
  foldl walk_step cwd (rev (foldl (clean_step rooted) out l)) =
  foldl walk_step (foldl walk_step cwd (rev out)) l.
Proof.
  intros Hr. revert out. induction l as [|c l IH]; intros out Hl Hout; [done|].
  simpl. rewrite IH.
  - by rewrite walk_clean_step.
  - set_solver.
  - apply clean_step_comp; [set_solver|done].
Qed.

(** The printed form of a component list and back. *)
Lemma Split_rooted s : Split slash ("/" +:+ s) = "" :: Split slash s.
Proof. done. Qed.

Lemma is_rooted_app_name a b : a ≠ "" → is_rooted (a +:+ b) = is_rooted a.
Proof.
  destruct a as [|c a]; [done|]. intros _. rewrite app_cons_s.
  unfold is_rooted. done.
Qed.

Lemma is_rooted_slash s : is_rooted ("/" +:+ s) = true.
Proof. unfold is_rooted. apply HasPrefix_app. Qed.

Lemma no_slash_unrooted s : has_char slash s = false → is_rooted s = false.
Proof.
  destruct s as [|c s]; [done|]. simpl. intros [Hc _]%orb_false_iff.
  unfold is_rooted. simpl. unfold slash in Hc. by rewrite Hc.
Qed.

Lemma Join_unrooted l x :
  clean_comp x → is_rooted (Join "/" (x :: l)) = false.
Proof.
  intros (Hx&_&Hs). destruct l as [|y l]; [by apply no_slash_unrooted|].
  rewrite Join_cons, is_rooted_app_name by done. by apply no_slash_unrooted.
Qed.

Lemma clean_comps_no_slash l c : Forall clean_comp l → c ∈ l → has_char slash c = false.
Proof. rewrite Forall_forall. intros H Hc. by destruct (H c Hc) as (_&_&?). Qed.

(** [Clean] does not change the location a path names. *)
Lemma resolve_Clean cwd p : p ≠ "" → resolve cwd (Clean p) = resolve cwd p.
Proof.
  intros Hp. unfold Clean. rewrite bool_decide_false by done.
  set (out := foldl _ [] _).
  assert (Forall clean_comp out) as Hout.
  { apply foldl_clean_comp; [apply Split_no_sep|constructor]. }
  assert (Forall clean_comp (rev out)) as Hrev.
  { rewrite Forall_forall in Hout |- *. intros x Hx. apply Hout.
    by rewrite list_elem_of_In, in_rev, <-list_elem_of_In. }
  assert (∀ d, (is_rooted p = true → d = []) →
    foldl walk_step d (rev out) = foldl walk_step d (Split slash p)) as Hwalk.
  { intros d Hd. unfold out. rewrite walk_foldl_clean; [done|done|apply Split_no_sep|done]. }
  clearbody out. unfold resolve at 2. destruct (is_rooted p) eqn:Hr.
  - unfold resolve. rewrite is_rooted_slash, Split_rooted. simpl. f_equal.
    rewrite <-Hwalk by done. destruct (rev out) as [|x l]; [done|].
    rewrite Split_Join; [done|done|]. intros c. by apply clean_comps_no_slash.
  - rewrite <-Hwalk by done. destruct (rev out) as [|x l]; [done|].
    unfold resolve. rewrite Join_unrooted by (by inversion Hrev). f_equal.
    rewrite Split_Join; [done|done|]. intros c. by apply clean_comps_no_slash.
Qed.

Lemma Clean_not_empty p : Clean p ≠ "".
Proof.
  unfold Clean. case_bool_decide; [done|]. destruct (is_rooted p); [done|].
  set (out := foldl _ [] _).
  assert (Forall clean_comp out) as Hout
    by (apply foldl_clean_comp; [apply Split_no_sep|constructor]).
  destruct (rev out) as [|x l] eqn:Hrev; [done|].
  assert (clean_comp x) as (Hx&_).
  { rewrite Forall_forall in Hout. apply Hout. rewrite list_elem_of_In, in_rev, Hrev. by left. }
  destruct l as [|y l]; [done|]. rewrite Join_cons. by destruct x.
Qed.

Lemma Join_not_empty d c : d ≠ "" → filepath_Join [d; c] ≠ "".
Proof. intros Hd. simpl. rewrite bool_decide_false by done. apply Clean_not_empty. Qed.

(** [filepath.Join(dir, name)] names the entry [name] of [dir]. *)
Lemma resolve_Join cwd d c :
  d ≠ "" → valid_name c →
  resolve cwd (filepath_Join [d; c]) = resolve cwd d ++ [c].
Proof.
  intros Hd (Hc&H1&H2&Hs). simpl. rewrite bool_decide_false by done.
  rewrite resolve_Clean by (by destruct d). unfold resolve.
  rewrite is_rooted_app_name by done. change ("/" +:+ c) with (String slash c).
  rewrite Split_app_sep, foldl_app, (Split_id _ c) by done. simpl.
  by rewrite walk_step_name.
Qed.

Example Clean_examples :
  Clean "" = "." ∧ Clean "/a//b/../c/." = "/a/c" ∧ Clean "../../x/" = "../../x" ∧
  Clean "/.." = "/" ∧ Clean "a/.." = "." ∧
  filepath_Join ["/var/vcap/sys/run/etcd"; "etcd.pid"] = "/var/vcap/sys/run/etcd/etcd.pid" ∧
  filepath_Join [""; "etcd.pid"] = "etcd.pid".
Proof. by vm_compute. Qed.
