(* ===== verification/Machine.v ===== *)
(** * The machine the programs run on

    Go errors, log events, the world a program runs in (file system, process
    table, the kernel's refusals, the state of the collaborators, the event
    log), the effect monad, and the [os], [ioutil], [exec] and [lager] calls the
    sources make.

    A computation takes the world and ends in a value, in a panic or in
    [os.Exit]; the world it leaves is kept in every case.  Collaborators that
    are not under [src/] live in the type parameter [X] of [World]. *)
From S2P Require Import Prelude GoStrings GoPath.

(** ** Go errors

    The dynamic types of the [error] values the sources create or receive.
    [ErrorString] is [errors.New]/[fmt.Errorf] and stands also for the errors
    of libraries, of which the sources use only [Error()].  The texts of the
    [encoding/json] errors are not modelled beyond their kind. *)
Inductive error :=
  | ErrorString (s : string)
  | PathError (op path errno : string)
  | NumError (fn num reason : string)
  | SyntaxError
  | UnmarshalTypeError (value ty : string).

#[export] Instance error_eq_dec : EqDecision error.
Proof. solve_decision. Defined.

(** [err.Error()]. *)
Definition Error (e : error) : string :=
  match e with
  | ErrorString s => s
  | PathError op path errno => op +:+ " " +:+ path +:+ ": " +:+ errno
  | NumError fn num reason =>
      "strconv." +:+ fn +:+ ": parsing " +:+ Quote num +:+ ": " +:+ reason
  | SyntaxError => "invalid JSON"
  | UnmarshalTypeError v ty =>
      "json: cannot unmarshal " +:+ v +:+ " into Go value of type " +:+ ty
  end.

(** ** Log events *)

(** The values of [lager.Data]. *)
Inductive value :=
  | VStr (s : string)
  | VInt (z : Z)
  | VStrs (l : list string)
  | VRecs (l : list (list (string * value))).

Definition data : Type := list (string * value).

(** What a run does to the outside, in order: log lines, sleeps (in
    nanoseconds), process and file operations, requests to collaborators, and
    lines printed. *)
Inductive event :=
  | Info (action : string) (d : data)
  | LogError (action : string) (e : error)
  | Slept (ns : Z)
  | Call (op : string) (args : list string)
  | Stdout (line : string)
  | Stderr (line : string).

Definition Second : Z := 1000000000.

(** ** The world *)

Record Process := mkProcess { proc_path : string; proc_args : list string }.

Inductive node :=
  | File (contents : string)
  | Dir.

(** The kernel's part: the working directory, which file operations it refuses
    (and with which [errno]), whether [exec] fails, the pid of the next
    process, which kills it refuses, and the members of a process group. *)
Record Kernel := mkKernel {
  k_cwd : list string;
  k_deny : string → list string → option string;
  k_exec : string → list string → option error;
  k_pid : gmap Z Process → Z;
  k_kill : Z → option string;
  k_group : Z → list Z
}.

(** A kernel that refuses nothing and hands out the pid after the largest one
    in use. *)
Definition permissive_kernel : Kernel :=
  mkKernel [] (λ _ _, None) (λ _ _, None)
    (λ ps, 1 + map_fold (λ pid _ acc, Z.max pid acc) 1 ps)%Z (λ _, None) (λ _, []).

Record World (X : Type) := mkWorld {
  fs : gmap (list string) node;
  procs : gmap Z Process;
  kernel : Kernel;
  svc : X;
  log : list event
}.
Arguments mkWorld {X} _ _ _ _ _.
Arguments fs {X} _.
Arguments procs {X} _.
Arguments kernel {X} _.
Arguments svc {X} _.
Arguments log {X} _.

Inductive outcome (A : Type) :=
  | Val (a : A)
  | Panicked (msg : string)
  | Exited (code : Z).
Arguments Val {A} _.
Arguments Panicked {A} _.
Arguments Exited {A} _.

Definition M (X A : Type) : Type := World X → outcome A * World X.

#[export] Instance M_ret X : MRet (M X) := λ A a w, (Val a, w).
#[export] Instance M_bind X : MBind (M X) := λ A B f m w,
  match m w with
  | (Val a, w') => f a w'
  | (Panicked s, w') => (Panicked s, w')
  | (Exited n, w') => (Exited n, w')
  end.

Definition panic {X A} (msg : string) : M X A := λ w, (Panicked msg, w).
Definition exit {X A} (code : Z) : M X A := λ w, (Exited code, w).

(** What the Go runtime panics with. *)
Definition nil_dereference : string :=
  "runtime error: invalid memory address or nil pointer dereference".
Definition out_of_range : string := "runtime error: index out of range".

Section world.
Context {X : Type}.
Implicit Types w : World X.

Definition emit (e : event) w : World X :=
  mkWorld (fs w) (procs w) (kernel w) (svc w) (log w ++ [e]).
Definition set_fs (f : gmap (list string) node) w : World X :=
  mkWorld f (procs w) (kernel w) (svc w) (log w).
Definition set_procs (p : gmap Z Process) w : World X :=
  mkWorld (fs w) p (kernel w) (svc w) (log w).
Definition set_svc (x : X) w : World X :=
  mkWorld (fs w) (procs w) (kernel w) x (log w).

Definition tell (e : event) : M X unit := λ w, (Val tt, emit e w).
Definition get_svc : M X X := λ w, (Val (svc w), w).
Definition put_svc (x : X) : M X unit := λ w, (Val tt, set_svc x w).

(** [logger.Info(action, data)], [logger.Error(action, err)]. *)
Definition log_info (action : string) (d : data) : M X unit := tell (Info action d).
Definition log_error (action : string) (e : error) : M X unit := tell (LogError action e).

(** [sleep(d)]. *)
Definition sleep (ns : Z) : M X unit := tell (Slept ns).
End world.

(** Two worlds that differ in collaborators and log only. *)
Definition same_os {X} (w w' : World X) : Prop :=
  fs w' = fs w ∧ procs w' = procs w ∧ kernel w' = kernel w.

#[export] Instance same_os_equiv X : Equivalence (@same_os X).
Proof. split; unfold same_os; [intros ?|intros ??|intros ???]; naive_solver congruence. Qed.

(** ** File system calls *)

Definition ENOENT : string := "no such file or directory".
Definition EISDIR : string := "is a directory".
Definition ENOTDIR : string := "not a directory".
Definition ENOTEMPTY : string := "directory not empty".

(** [l] lies strictly below [d]. *)
Definition below (d l : list string) : bool := bool_decide (d `prefix_of` l ∧ d ≠ l).
(** [l] is [d] or lies below it. *)
Definition at_or_below (d l : list string) : bool := bool_decide (d `prefix_of` l).

(** Where a path points; the empty path names nothing. *)
Definition locate {X} (w : World X) (p : string) : option (list string) :=
  if bool_decide (p = "") then None else Some (resolve (k_cwd (kernel w)) p).

(** The names [Readdirnames(-1)] lists in [d]. *)
Definition child_names (f : gmap (list string) node) (d : list string) : list string :=
  remove_dups (omap (λ kv, if below d kv.1 then kv.1 !! length d else None) (map_to_list f)).

(** The tree at [d] gone. *)
Definition prune (d : list string) (f : gmap (list string) node) : gmap (list string) node :=
  filter (λ kv, at_or_below d kv.1 = false) f.

Section os.
Context {X : Type}.
Implicit Types w : World X.

Definition deny w (op : string) (l : list string) : option string := k_deny (kernel w) op l.

Definition read_file (p : string) w : string * option error :=
  match locate w p with
  | None => ("", Some (PathError "open" p ENOENT))
  | Some l =>
      match deny w "open" l with
      | Some errno => ("", Some (PathError "open" p errno))
      | None =>
          match fs w !! l with
          | None => ("", Some (PathError "open" p ENOENT))
          | Some Dir => ("", Some (PathError "read" p EISDIR))
          | Some (File c) => (c, None)
          end
      end
  end.

(** [ioutil.ReadFile(p)]. *)
Definition ReadFile (p : string) : M X (string * option error) := λ w,
  (Val (read_file p w), emit (Call "ioutil.ReadFile" [p]) w).

(** Opening [l] for writing with [O_CREATE|O_TRUNC]. *)
Definition write_refused (p : string) (l : list string) w : option error :=
  match deny w "create" l with
  | Some errno => Some (PathError "open" p errno)
  | None =>
      match fs w !! l with
      | Some Dir => Some (PathError "open" p EISDIR)
      | Some (File _) => None
      | None =>
          match fs w !! removelast l with
          | Some Dir => None
          | Some (File _) => Some (PathError "open" p ENOTDIR)
          | None => Some (PathError "open" p ENOENT)
          end
      end
  end.

(** [ioutil.WriteFile(p, contents, perm)]. *)
Definition WriteFile (p contents : string) : M X (option error) := λ w,
  let w1 := emit (Call "ioutil.WriteFile" [p]) w in
  match locate w p with
  | None => (Val (Some (PathError "open" p ENOENT)), w1)
  | Some l =>
      match write_refused p l w with
      | Some e => (Val (Some e), w1)
      | None => (Val None, set_fs (<[l := File contents]> (fs w)) w1)
      end
  end.

(** [os.Open(p)]: the handle is the location opened, [None] for [nil]. *)
Definition Open (p : string) : M X (option (list string) * option error) := λ w,
  let w1 := emit (Call "os.Open" [p]) w in
  match locate w p with
  | None => (Val (None, Some (PathError "open" p ENOENT)), w1)
  | Some l =>
      match deny w "open" l, fs w !! l with
      | Some errno, _ => (Val (None, Some (PathError "open" p errno)), w1)
      | None, None => (Val (None, Some (PathError "open" p ENOENT)), w1)
      | None, Some _ => (Val (Some l, None), w1)
      end
  end.

(** [d.Readdirnames(-1)]; on a nil handle it returns [os.ErrInvalid]. *)
Definition Readdirnames (d : option (list string)) : M X (list string * option error) := λ w,
  let w1 := emit (Call "Readdirnames" []) w in
  match d with
  | None => (Val ([], Some (ErrorString "invalid argument")), w1)
  | Some l =>
      match deny w "readdir" l, fs w !! l with
      | Some errno, _ => (Val ([], Some (ErrorString ("readdirent: " +:+ errno))), w1)
      | None, Some Dir => (Val (child_names (fs w) l, None), w1)
      | None, _ => (Val ([], Some (ErrorString ("readdirent: " +:+ ENOTDIR))), w1)
      end
  end.

(** [os.RemoveAll(p)]: nothing to do for a path that does not exist. *)
Definition RemoveAll (p : string) : M X (option error) := λ w,
  let w1 := emit (Call "os.RemoveAll" [p]) w in
  match locate w p with
  | None => (Val None, w1)
  | Some l =>
      match deny w "removeall" l with
      | Some errno => (Val (Some (PathError "remove" p errno)), w1)
      | None => (Val None, set_fs (prune l (fs w)) w1)
      end
  end.

(** Removing the entry [l], a file or an empty directory. *)
Definition remove_refused (p : string) (l : list string) w : option error :=
  match deny w "remove" l, fs w !! l with
  | Some errno, _ => Some (PathError "remove" p errno)
  | None, None => Some (PathError "remove" p ENOENT)
  | None, Some (File _) => None
  | None, Some Dir =>
      match child_names (fs w) l with [] => None | _ => Some (PathError "remove" p ENOTEMPTY) end
  end.

(** [os.Remove(p)]. *)
Definition Remove (p : string) : M X (option error) := λ w,
  let w1 := emit (Call "os.Remove" [p]) w in
  match locate w p with
  | None => (Val (Some (PathError "remove" p ENOENT)), w1)
  | Some l =>
      match remove_refused p l w with
      | Some e => (Val (Some e), w1)
      | None => (Val None, set_fs (delete l (fs w)) w1)
      end
  end.

(** ** Processes *)

(** [cmd := exec.Command(path, args...); cmd.Start()], and
    [cmd.Process.Pid] when it succeeds. *)
Definition exec_start (path : string) (args : list string) : M X (Z * option error) := λ w,
  let w1 := emit (Call "exec" (path :: args)) w in
  match k_exec (kernel w) path args with
  | Some e => (Val (0%Z, Some e), w1)
  | None =>
      let pid := k_pid (kernel w) (procs w) in
      (Val (pid, None), set_procs (<[pid := mkProcess path args]> (procs w)) w1)
  end.

(** The processes a kill of [pid] ends: a negative number means a group. *)
Definition kill_victims w (pid : Z) : list Z :=
  if (pid <? 0)%Z then k_group (kernel w) pid else [pid].

Definition kill_refused w (pid : Z) : option error :=
  if bool_decide (pid = -1)%Z then Some (ErrorString "os: process already released")
  else if bool_decide (pid = 0)%Z then Some (ErrorString "os: process not initialized")
  else
    match k_kill (kernel w) pid with
    | Some errno => Some (ErrorString errno)
    | None =>
        if existsb (λ v, bool_decide (is_Some (procs w !! v))) (kill_victims w pid) then None
        else Some (ErrorString "os: process already finished")
    end.

(** [process.Kill()] on the handle [os.FindProcess(pid)] returned (on Unix
    [FindProcess] always succeeds). *)
Definition process_kill (pid : Z) : M X (option error) := λ w,
  let w1 := emit (Call "kill" [Sprintf_d pid]) w in
  match kill_refused w pid with
  | Some e => (Val (Some e), w1)
  | None => (Val None, set_procs (foldr delete (procs w) (kill_victims w pid)) w1)
  end.
End os.

(** ** Lemmas: the monad *)

Section monad.
Context {X : Type}.

Lemma bind_Val {A B} (m : M X A) (f : A → M X B) w a w' :
  m w = (Val a, w') → (m ≫= f) w = f a w'.
Proof. unfold mbind, M_bind. by intros ->. Qed.

Lemma bind_inv {A B} (m : M X A) (f : A → M X B) w b w' :
  (m ≫= f) w = (Val b, w') → ∃ a w1, m w = (Val a, w1) ∧ f a w1 = (Val b, w').
Proof.
  unfold mbind, M_bind. destruct (m w) as [[a|s|n] w1]; [|done..].
  intros H. by exists a, w1.
Qed.

Lemma ret_inv {A} (a b : A) (w w' : World X) :
  (mret a : M X A) w = (Val b, w') → a = b ∧ w = w'.
Proof. by intros [= -> ->]. Qed.

Lemma bind_Panicked {A B} (m : M X A) (f : A → M X B) w s w' :
  m w = (Panicked s, w') → (m ≫= f) w = (Panicked s, w').
Proof. unfold mbind, M_bind. by intros ->. Qed.

(** The monad laws hold pointwise. *)
Lemma ret_bind {A B} (a : A) (f : A → M X B) w : (mret a ≫= f) w = f a w.
Proof. done. Qed.

Lemma bind_ret {A} (m : M X A) w : (m ≫= mret) w = m w.
Proof. unfold mbind, M_bind. by destruct (m w) as [[]]. Qed.

Lemma bind_assoc {A B C} (m : M X A) (f : A → M X B) (g : B → M X C) w :
  ((m ≫= f) ≫= g) w = (m ≫= (λ a, f a ≫= g)) w.
Proof. unfold mbind, M_bind. by destruct (m w) as [[]]. Qed.
End monad.

(** Inversion of a run that ended in a value. *)
Ltac run_inv :=
  repeat match goal with
  | H : mret _ _ = (Val _, _) |- _ => apply ret_inv in H as [??]
  end; simplify_eq/=.

(** ** Computations that touch neither files nor processes *)

Class Quiet {X A} (m : M X A) : Prop := quiet w : same_os w (m w).2.

Section quiet.
Context {X : Type}.

#[export] Instance quiet_ret {A} (a : A) : Quiet (mret a : M X A).
Proof. intros w. done. Qed.
#[export] Instance quiet_tell e : Quiet (tell e : M X unit).
Proof. intros w. done. Qed.
#[export] Instance quiet_info a d : Quiet (log_info a d : M X unit).
Proof. intros w. done. Qed.
#[export] Instance quiet_error a e : Quiet (log_error a e : M X unit).
Proof. intros w. done. Qed.
#[export] Instance quiet_sleep n : Quiet (sleep n : M X unit).
Proof. intros w. done. Qed.
#[export] Instance quiet_get : Quiet (get_svc : M X X).
Proof. intros w. done. Qed.
#[export] Instance quiet_put x : Quiet (put_svc x : M X unit).
Proof. intros w. done. Qed.
#[export] Instance quiet_panic {A} s : Quiet (panic s : M X A).
Proof. intros w. done. Qed.

#[export] Instance quiet_bind {A B} (m : M X A) (f : A → M X B) :
  Quiet m → (∀ a, Quiet (f a)) → Quiet (m ≫= f).
Proof.
  intros Hm Hf w. unfold mbind, M_bind. pose proof (quiet (m := m) w) as Hw.
  destruct (m w) as [[a|s|n] w1]; simpl in *; [|done..].
  etrans; [done|apply Hf].
Qed.

#[export] Instance quiet_if {A} (b : bool) (m k : M X A) :
  Quiet m → Quiet k → Quiet (if b then m else k).
Proof. by destruct b. Qed.

#[export] Instance quiet_match_option {A B} (o : option A) (m : A → M X B) k :
  (∀ a, Quiet (m a)) → Quiet k → Quiet (match o with Some a => m a | None => k end).
Proof. destruct o; eauto. Qed.

#[export] Instance quiet_match_pair {A B C} (p : A * B) (m : A → B → M X C) :
  (∀ a b, Quiet (m a b)) → Quiet (let '(a, b) := p in m a b).
Proof. destruct p; eauto. Qed.
End quiet.

(** Running the calls that always return. *)
Section runs.
Context {X : Type}.
Implicit Types w : World X.

Lemma run_ReadFile p w :
  ReadFile p w = (Val (read_file p w), emit (Call "ioutil.ReadFile" [p]) w).
Proof. done. Qed.
Lemma run_info a d w : log_info a d w = (Val tt, emit (Info a d) w).
Proof. done. Qed.
Lemma run_error a e w : log_error a e w = (Val tt, emit (LogError a e) w).
Proof. done. Qed.
Lemma run_sleep n w : sleep n w = (Val tt, emit (Slept n) w).
Proof. done. Qed.
Lemma run_ret {A} (a : A) w : (mret a : M X A) w = (Val a, w).
Proof. done. Qed.

(** Reading is a function of the files and the kernel. *)
Lemma read_file_emit p (e : event) w : read_file p (emit e w) = read_file p w.
Proof. done. Qed.
Lemma read_file_same_os p w w' : same_os w w' → read_file p w' = read_file p w.
Proof. intros (Hf&_&Hk). unfold read_file, locate, deny. by rewrite Hf, Hk. Qed.

#[export] Instance quiet_ReadFile p : Quiet (ReadFile p : M X (string * option error)).
Proof. intros w. done. Qed.
End runs.

(** One step of a run: the head computation is known to return. *)
Ltac step H := rewrite (bind_Val _ _ _ _ _ H).
Ltac steps :=
  repeat first
    [ rewrite (bind_Val _ _ _ _ _ (run_info _ _ _))
    | rewrite (bind_Val _ _ _ _ _ (run_error _ _ _))
    | rewrite (bind_Val _ _ _ _ _ (run_sleep _ _))
    | rewrite (bind_Val _ _ _ _ _ (run_ReadFile _ _)), ?read_file_emit
    | rewrite run_ret ].

(** ** Lemmas: the file system *)

Lemma below_true d l : below d l = true ↔ ∃ c k, l = d ++ c :: k.
Proof.
  unfold below. rewrite bool_decide_eq_true. split.
  - intros [[[|c k] ->] Hne]; [by rewrite app_nil_r in Hne|eauto].
  - intros (c&k&->). split; [by eexists|]. intros Heq.
    apply (f_equal length) in Heq. rewrite length_app in Heq. simpl in Heq. lia.
Qed.

Lemma at_or_below_true d l : at_or_below d l = true ↔ ∃ k, l = d ++ k.
Proof. apply bool_decide_eq_true. Qed.

Lemma below_child d l : below d l = true ↔ ∃ c, at_or_below (d ++ [c]) l = true.
Proof.
  rewrite below_true. setoid_rewrite at_or_below_true. split.
  - intros (c&k&->). exists c, k. by rewrite <-app_assoc.
  - intros (c&k&->). exists c, k. by rewrite <-app_assoc.
Qed.

Lemma elem_of_child_names f d c :
  c ∈ child_names f d ↔ ∃ l, is_Some (f !! l) ∧ at_or_below (d ++ [c]) l = true.
Proof.
  unfold child_names. rewrite elem_of_remove_dups, list_elem_of_omap. split.
  - intros ([l n]&Hl&Hc). apply elem_of_map_to_list in Hl. simpl in Hc.
    destruct (below d l) eqn:Hb; [|done]. exists l. split; [eauto|].
    apply below_true in Hb as (c'&k&->). rewrite at_or_below_true.
    rewrite list_lookup_middle in Hc by done. simplify_eq.
    exists k. by rewrite <-app_assoc.
  - intros (l&[n Hn]&Hl). exists (l, n). rewrite elem_of_map_to_list. split; [done|].
    simpl. assert (below d l = true) as -> by (apply below_child; eauto).
    apply at_or_below_true in Hl as [k ->].
    rewrite <-app_assoc. simpl. by rewrite list_lookup_middle.
Qed.

Lemma lookup_prune d f l : prune d f !! l = if at_or_below d l then None else f !! l.
Proof.
  unfold prune. destruct (at_or_below d l) eqn:Hl.
  - apply map_lookup_filter_None. right. intros n _. simpl. by rewrite Hl.
  - destruct (f !! l) eqn:Hf.
    + by apply map_lookup_filter_Some.
    + apply map_lookup_filter_None. by left.
Qed.

(** Pruning the listed children of [d] removes exactly what lies below [d]. *)
Lemma lookup_prune_children f d names l :
  foldl (λ f c, prune (d ++ [c]) f) f names !! l =
  if existsb (λ c, at_or_below (d ++ [c]) l) names then None else f !! l.
Proof.
  revert f. induction names as [|c names IH]; intros f; simpl; [done|].
  rewrite IH, lookup_prune. destruct (at_or_below (d ++ [c]) l); simpl; [|done].
  by destruct (existsb _ names).
Qed.

Lemma prune_all_children f d l :
  foldl (λ f c, prune (d ++ [c]) f) f (child_names f d) !! l =
  if below d l then None else f !! l.
Proof.
  rewrite lookup_prune_children.
  destruct (existsb _ _) eqn:He.
  - apply existsb_exists in He as (c&_&Hc).
    assert (below d l = true) as -> by (apply below_child; eauto). done.
  - destruct (below d l) eqn:Hb; [|done]. destruct (f !! l) as [n|] eqn:Hf; [|done].
    apply below_child in Hb as [c Hc]. exfalso.
    assert (existsb (λ c, at_or_below (d ++ [c]) l) (child_names f d) = true) as Ht.
    { apply existsb_exists. exists c. split; [|done].
      apply list_elem_of_In, elem_of_child_names. eauto. }
    congruence.
Qed.

#[export] Hint Resolve quiet_ret quiet_tell quiet_info quiet_error quiet_sleep quiet_get
  quiet_put quiet_panic quiet_ReadFile quiet_bind quiet_if quiet_match_option quiet_match_pair : gofx.
