(* ===== verification/GoFlag.v ===== *)
(** * Go's [flag] package, for sets of string flags

    [FlagSet.Parse] as the programs use it (Go 1.8): one or two dashes, the value
    after [=] or in the next argument, [--] and the first argument that is no
    flag end the flags. *)
From S2P Require Import Prelude GoStrings GoPath Machine.

(** [StringVar(&v, name, default, usage)]. *)
Record flag_def := mkFlag { fd_name : string; fd_default : string; fd_usage : string }.

Inductive flag_result :=
  | Parsed (values : gmap string string) (rest : list string)
  | Help
  | BadFlag (message : string).

(** The name and the value of [name=value]; the first character is never [=]. *)
Fixpoint cut_flag (s : string) : string * option string :=
  match s with
  | "" => ("", None)
  | String c s' =>
      if bool_decide (c = "="%char) then ("", Some s')
      else let '(n, v) := cut_flag s' in (String c n, v)
  end.

Definition defined (defs : list flag_def) (name : string) : bool :=
  existsb (λ d, bool_decide (fd_name d = name)) defs.

(** What an argument is: one or two dashes start a flag. *)
Inductive arg := Operand | Terminator | FlagArg (text : string).

Definition classify (s : string) : arg :=
  if negb (HasPrefix s "-") || bool_decide (s = "-") then Operand
  else if bool_decide (s = "--") then Terminator
  else FlagArg (drop_string (if HasPrefix s "--" then 2 else 1) s).

Fixpoint parse_args (defs : list flag_def) (args : list string) (values : gmap string string) :
    flag_result :=
  match args with
  | [] => Parsed values []
  | s :: rest =>
      match classify s with
      | Operand => Parsed values args
      | Terminator => Parsed values rest
      | FlagArg text =>
        if bool_decide (text = "") || HasPrefix text "-" || HasPrefix text "=" then
          BadFlag ("bad flag syntax: " +:+ s)
        else
          let '(name, value) := cut_flag text in
          if defined defs name then
            match value, rest with
            | Some v, _ => parse_args defs rest (<[name := v]> values)
            | None, v :: rest' => parse_args defs rest' (<[name := v]> values)
            | None, [] => BadFlag ("flag needs an argument: -" +:+ name)
            end
          else if bool_decide (name = "help") || bool_decide (name = "h") then Help
          else BadFlag ("flag provided but not defined: -" +:+ name)
      end
  end.

(** The values before parsing. *)
Definition defaults (defs : list flag_def) : gmap string string :=
  list_to_map ((λ d, (fd_name d, fd_default d)) <$> defs).

Definition parse_flag_args (defs : list flag_def) (args : list string) : flag_result :=
  parse_args defs args (defaults defs).

Definition value_of (values : gmap string string) (name : string) : string :=
  default "" (values !! name).

(** The flags of a command line in their order: what the [Set] of a [flag.Value]
    is called with. *)
Fixpoint flag_occurrences (defs : list flag_def) (args : list string) : list (string * string) :=
  match args with
  | [] => []
  | s :: rest =>
      match classify s with
      | FlagArg text =>
          if bool_decide (text = "") || HasPrefix text "-" || HasPrefix text "=" then []
          else
            let '(name, value) := cut_flag text in
            if defined defs name then
              match value, rest with
              | Some v, _ => (name, v) :: flag_occurrences defs rest
              | None, v :: rest' => (name, v) :: flag_occurrences defs rest'
              | None, [] => []
              end
            else []
      | _ => []
      end
  end.

(** [PrintDefaults] writes one entry per flag. *)
Definition PrintDefaults {X} (defs : list flag_def) : M X unit :=
  foldr (λ d k, _ ← tell (Stderr ("  -" +:+ fd_name d +:+ " string: " +:+ fd_usage d)); k)
    (mret tt) defs.

#[global] Arguments PrintDefaults : simpl never.

(** The usage message of a flag set of name [set]. *)
Definition Usage {X} (set : string) (defs : list flag_def) : M X unit :=
  _ ← tell (Stderr ("Usage of " +:+ set +:+ ":")); PrintDefaults defs.

(** [FlagSet.Parse]: a bad command line is reported on standard error with the usage
    message, [-h] and [-help] print the usage message. *)
Definition FlagSet_Parse {X} (set : string) (defs : list flag_def) (args : list string) :
    M X (option (gmap string string)) :=
  match parse_flag_args defs args with
  | Parsed values _ => mret (Some values)
  | Help => _ ← Usage set defs; mret None
  | BadFlag message => _ ← tell (Stderr message); _ ← Usage set defs; mret None
  end.

(** ** Lemmas *)

Lemma cut_flag_no_eq s : has_char "=" s = false → cut_flag s = (s, None).
Proof.
  induction s as [|c s IH]; [done|]. simpl. intros [Hc Hs]%orb_false_iff.
  rewrite bool_decide_false; [by rewrite IH|].
  apply bool_decide_eq_false in Hc. congruence.
Qed.

Lemma cut_flag_eq n v : has_char "=" n = false → cut_flag (n +:+ "=" +:+ v) = (n, Some v).
Proof.
  induction n as [|c n IH]; [done|]. rewrite app_cons_s. simpl. intros [Hc Hs]%orb_false_iff.
  rewrite bool_decide_false; [by rewrite IH|].
  apply bool_decide_eq_false in Hc. congruence.
Qed.

(** A flag name as the programs define them. *)
Definition plain_name (n : string) : Prop :=
  n ≠ "" ∧ HasPrefix n "-" = false ∧ has_char "=" n = false.

#[export] Instance plain_name_dec n : Decision (plain_name n).
Proof. unfold plain_name. apply _. Defined.

Lemma classify_flag n :
  n ≠ "" → HasPrefix n "-" = false →
  classify ("-" +:+ n) = FlagArg n ∧ classify ("--" +:+ n) = FlagArg n.
Proof.
  destruct n as [|c n]; [done|]. intros _ Hc. unfold classify.
  change ("--" +:+ String c n) with (String "-" (String "-" (String c n))).
  change ("-" +:+ String c n) with (String "-" (String c n)).
  assert (HasPrefix (String "-" (String c n)) "--" = false) as -> by exact Hc.
  assert (c ≠ "-"%char) as Hne by (by intros ->).
  by rewrite !bool_decide_false by congruence.
Qed.

Lemma plain_name_app n v :
  plain_name n → n +:+ v ≠ "" ∧ HasPrefix (n +:+ v) "-" = false ∧ HasPrefix (n +:+ v) "=" = false.
Proof.
  intros (Hne&Hd&Heq). destruct n as [|c n]; [done|]. rewrite app_cons_s.
  split_and!; [done|exact Hd|]. simpl in *. apply orb_false_iff in Heq as [Hc _].
  apply andb_false_iff. left. apply bool_decide_eq_false in Hc.
  apply bool_decide_eq_false. congruence.
Qed.

(** All spellings of a flag with its value, in front of any command line. *)
Lemma parse_args_flag defs n v rest values :
  plain_name n → defined defs n = true →
  let parsed := parse_args defs rest (<[n := v]> values) in
  parse_args defs (("-" +:+ n) :: v :: rest) values = parsed ∧
  parse_args defs (("--" +:+ n) :: v :: rest) values = parsed ∧
  parse_args defs (("-" +:+ n +:+ "=" +:+ v) :: rest) values = parsed ∧
  parse_args defs (("--" +:+ n +:+ "=" +:+ v) :: rest) values = parsed.
Proof.
  intros Hn Hdef parsed.
  destruct (plain_name_app n ("=" +:+ v) Hn) as (H1&H2&H3).
  destruct (plain_name_app n "" Hn) as (H4&H5&H6). rewrite app_nil_s in *.
  destruct (classify_flag _ H1 H2) as [Hc1 Hc2], (classify_flag _ H4 H5) as [Hc3 Hc4].
  unfold parsed. cbn [parse_args]. rewrite Hc1, Hc2, Hc3, Hc4, H2, H3, H5, H6.
  rewrite !bool_decide_false by done. destruct Hn as (_&_&Heq).
  by rewrite cut_flag_eq, cut_flag_no_eq, Hdef by done.
Qed.

(** The values a parse ends with are those of the flags, the last one of each
    name. *)
Lemma parse_args_occurrences defs args values values' rest :
  parse_args defs args values = Parsed values' rest →
  values' = foldl (λ m kv, <[kv.1 := kv.2]> m) values (flag_occurrences defs args).
Proof.
  revert values. induction args as [args IH] using (well_founded_induction
    (Wf_nat.well_founded_ltof _ (@length string))). unfold Wf_nat.ltof in IH.
  intros values. destruct args as [|s args]; [by intros [= ->]|]. cbn [parse_args flag_occurrences].
  destruct (classify s) as [| |text]; [by intros [= ->]..|].
  destruct (_ || _); [done|]. destruct (cut_flag text) as [n [v|]].
  - destruct (defined defs n); [|by case_match]. intros H. apply IH in H; [done|simpl; lia].
  - destruct (defined defs n); [|by case_match]. destruct args as [|v args]; [done|].
    intros H. apply IH in H; [done|simpl; lia].
Qed.
