(* ===== verification/GoUrl.v ===== *)
(** * Go's [net/url] as the programs use it

    [url.Parse], the [URL] it fills and [URL.String], following the package of
    Go 1.8: the scheme, opaque, authority, path, query and fragment parts, with
    the escapes each part allows. *)
From S2P Require Import Prelude GoStrings GoPath Machine.

Open Scope Z_scope.

(** ** Data *)

Record Userinfo := mkUser { username : string; password : option string }.

Record URL := mkURL {
  Scheme : string;
  Opaque : string;
  User : option Userinfo;
  Host : string;
  Path : string;
  RawPath : string;
  ForceQuery : bool;
  RawQuery : string;
  Fragment : string
}.

#[export] Instance Userinfo_eq_dec : EqDecision Userinfo.
Proof. solve_decision. Defined.
#[export] Instance URL_eq_dec : EqDecision URL.
Proof. solve_decision. Defined.

Definition zero_URL : URL := mkURL "" "" None "" "" "" false "" "".

(** ** Characters and cuts *)

Definition char_code (c : ascii) : Z := Z.of_N (N_of_ascii c).
Definition between (lo hi : ascii) (c : ascii) : bool :=
  (char_code lo <=? char_code c) && (char_code c <=? char_code hi).
Definition is_alpha (c : ascii) : bool := between "a" "z" c || between "A" "Z" c.
Definition is_num (c : ascii) : bool := between "0" "9" c.
Definition lower (c : ascii) : ascii :=
  if between "A" "Z" c then ascii_of_N (N_of_ascii c + 32) else c.

(** [strings.ToLower] on ASCII. *)
Definition ToLower (s : string) : string := map_string lower s.

(** [split(s, c, cutc)]: at the first [c], dropped if [cutc]. *)
Fixpoint split (c : ascii) (cutc : bool) (s : string) : string * string :=
  match s with
  | "" => ("", "")
  | String d s' =>
      if bool_decide (d = c) then ("", if cutc then s' else s)
      else let '(a, b) := split c cutc s' in (String d a, b)
  end.

(** At the last [c], which is dropped; [None] without one. *)
Fixpoint split_last (c : ascii) (s : string) : option (string * string) :=
  match s with
  | "" => None
  | String d s' =>
      match split_last c s' with
      | Some (a, b) => Some (String d a, b)
      | None => if bool_decide (d = c) then Some ("", s') else None
      end
  end.

(** ** Escapes *)

Inductive encoding :=
  | encodePath | encodeHost | encodeZone | encodeUserPassword | encodeFragment.

#[export] Instance encoding_eq_dec : EqDecision encoding.
Proof. solve_decision. Defined.

Definition shouldEscape (c : ascii) (mode : encoding) : bool :=
  let among s := has_char c s in
  if is_alpha c || is_num c then false
  else if (bool_decide (mode = encodeHost) || bool_decide (mode = encodeZone)) &&
          (among "!$&'()*+,;=:[]<>" || bool_decide (c = dquote)) then false
  else if among "-_.~" then false
  else if among "$&+,/:;=?@" then
    match mode with
    | encodePath => bool_decide (c = "?"%char)
    | encodeUserPassword => among "@/?:"
    | encodeFragment => false
    | encodeHost | encodeZone => true
    end
  else true.

Definition hex (c : ascii) : option Z :=
  if is_num c then Some (char_code c - 48)
  else if between "a" "f" c then Some (char_code c - 87)
  else if between "A" "F" c then Some (char_code c - 55)
  else None.

Definition EscapeError (s : string) : string := "invalid URL escape " +:+ Quote s.

Definition first_chars (n : nat) (s : string) : string := String.substring 0 n s.

Definition sum_map {A B} (f : A → B) (r : string + A) : string + B :=
  match r with inl e => inl e | inr a => inr (f a) end.

(** [unescape(s, mode)]; on the left the error's text. *)
Fixpoint unescape (s : string) (mode : encoding) : string + string :=
  match s with
  | "" => inr ""
  | String "%" s1 =>
      match s1 with
      | String a (String b s') =>
          match hex a, hex b with
          | Some x, Some y =>
              let v := ascii_of_N (Z.to_N (16 * x + y)) in
              let esc := first_chars 3 s in
              if bool_decide (mode = encodeHost) && (x <? 8) && negb (bool_decide (esc = "%25")) then
                inl (EscapeError esc)
              else if bool_decide (mode = encodeZone) && negb (bool_decide (esc = "%25")) &&
                      negb (bool_decide (v = " "%char)) && shouldEscape v encodeHost then
                inl (EscapeError esc)
              else sum_map (String v) (unescape s' mode)
          | _, _ => inl (EscapeError (first_chars 3 s))
          end
      | _ => inl (EscapeError (first_chars 3 s))
      end
  | String c s' =>
      if (bool_decide (mode = encodeHost) || bool_decide (mode = encodeZone)) &&
         (char_code c <? 128) && shouldEscape c mode then
        inl ("invalid character " +:+ Quote (String c "") +:+ " in host name")
      else sum_map (String c) (unescape s' mode)
  end.

Definition upper_hex (n : Z) : ascii :=
  ascii_of_N (Z.to_N (if n <? 10 then 48 + n else 55 + n)).

(** [escape(s, mode)]. *)
Fixpoint escape (s : string) (mode : encoding) : string :=
  match s with
  | "" => ""
  | String c s' =>
      if shouldEscape c mode then
        String "%" (String (upper_hex (char_code c / 16)) (String (upper_hex (char_code c mod 16))
          (escape s' mode)))
      else String c (escape s' mode)
  end.

(** ** [Parse] *)

(** [getscheme(rawurl)]: scheme and rest. *)
Fixpoint getscheme_loop (i : nat) (rawurl s : string) (acc : string) : string + string * string :=
  match s with
  | "" => inr ("", rawurl)
  | String c s' =>
      if is_alpha c then getscheme_loop (S i) rawurl s' (acc +:+ String c "")
      else if is_num c || has_char c "+-." then
        if bool_decide (i = O) then inr ("", rawurl)
        else getscheme_loop (S i) rawurl s' (acc +:+ String c "")
      else if bool_decide (c = ":"%char) then
        if bool_decide (i = O) then inl "missing protocol scheme" else inr (acc, s')
      else inr ("", rawurl)
  end.

Definition getscheme (rawurl : string) : string + string * string :=
  getscheme_loop 0 rawurl rawurl "".

(** [validOptionalPort]: empty, or a colon and digits. *)
Definition validOptionalPort (port : string) : bool :=
  match port with
  | "" => true
  | String c s => bool_decide (c = ":"%char) && all_chars is_num s
  end.

(** [strings.Index(s, "%25")]: what is before it, and the rest with it. *)
Fixpoint cut_zone (s : string) : option (string * string) :=
  if HasPrefix s "%25" then Some ("", s)
  else match s with
       | "" => None
       | String c s' =>
           match cut_zone s' with Some (a, b) => Some (String c a, b) | None => None end
       end.

Definition parseHost (host : string) : string + string :=
  if HasPrefix host "[" then
    match split_last "]" host with
    | None => inl "missing ']' in host"
    | Some (inside, colonPort) =>
        if negb (validOptionalPort colonPort) then
          inl ("invalid port " +:+ Quote colonPort +:+ " after host")
        else
          match cut_zone inside with
          | Some (addr, zone) =>
              match unescape addr encodeHost, unescape zone encodeZone,
                    unescape ("]" +:+ colonPort) encodeHost with
              | inl e, _, _ | inr _, inl e, _ | inr _, inr _, inl e => inl e
              | inr h1, inr h2, inr h3 => inr (h1 +:+ h2 +:+ h3)
              end
          | None => unescape host encodeHost
          end
    end
  else unescape host encodeHost.

Definition parseAuthority (authority : string) : string + option Userinfo * string :=
  match split_last "@" authority with
  | None => sum_map (λ h, (None, h)) (parseHost authority)
  | Some (userinfo, host) =>
      match parseHost host with
      | inl e => inl e
      | inr h =>
          if negb (has_char ":" userinfo) then
            sum_map (λ u, (Some (mkUser u None), h)) (unescape userinfo encodeUserPassword)
          else
            let '(u, p) := split ":" true userinfo in
            match unescape u encodeUserPassword, unescape p encodeUserPassword with
            | inl e, _ | inr _, inl e => inl e
            | inr u, inr p => inr (Some (mkUser u (Some p)), h)
            end
      end
  end.

(** [setPath]: the path and the hint of its encoding. *)
Definition setPath (p : string) : string + string * string :=
  match unescape p encodePath with
  | inl e => inl e
  | inr path => inr (path, if bool_decide (p = escape path encodePath) then "" else p)
  end.

Fixpoint count_char (c : ascii) (s : string) : nat :=
  match s with
  | "" => O
  | String d s' => (if bool_decide (d = c) then S else id) (count_char c s')
  end.

(** The query of [rest]: what is before it, whether it ends in a lone [?], the
    query. *)
Definition cut_query (rest : string) : string * bool * string :=
  let '(a, b) := split "?" true rest in
  if (count_char "?" rest =? 1)%nat && bool_decide (b = "") then (a, true, "") else (a, false, b).

(** [parse(rawurl, false)]: without the fragment. *)
Definition parse_url (rawurl : string) : string + URL :=
  if bool_decide (rawurl = "*") then inr (mkURL "" "" None "" "*" "" false "" "") else
  match getscheme rawurl with
  | inl e => inl e
  | inr (scheme, rest) =>
      let scheme := ToLower scheme in
      let '(rest, force, query) := cut_query rest in
      if negb (HasPrefix rest "/") && negb (bool_decide (scheme = "")) then
        inr (mkURL scheme rest None "" "" "" force query "")
      else if negb (HasPrefix rest "/") && has_char ":" (split "/" true rest).1 then
        inl "first path segment in URL cannot contain colon"
      else
        match
          (if (negb (bool_decide (scheme = "")) || negb (HasPrefix rest "///")) &&
              HasPrefix rest "//" then
             let '(authority, rest) := split "/" false (drop_string 2 rest) in
             sum_map (λ uh, (uh, rest)) (parseAuthority authority)
           else inr ((None, ""), rest))
        with
        | inl e => inl e
        | inr ((user, host), rest) =>
            match setPath rest with
            | inl e => inl e
            | inr (path, rawpath) => inr (mkURL scheme "" user host path rawpath force query "")
            end
        end
  end.

(** [url.Parse(rawurl)]; on the left the text of the [*url.Error]. *)
Definition Parse (rawurl : string) : string + URL :=
  let '(u, frag) := split "#" true rawurl in
  match parse_url u with
  | inl e => inl ("parse " +:+ u +:+ ": " +:+ e)
  | inr (mkURL s o us h p rp f q _ as url) =>
      if bool_decide (frag = "") then inr url
      else match unescape frag encodeFragment with
           | inl e => inl ("parse " +:+ rawurl +:+ ": " +:+ e)
           | inr fr => inr (mkURL s o us h p rp f q fr)
           end
  end.

(** ** [String] *)

(** [validEncodedPath]. *)
Definition validEncodedPath (s : string) : bool :=
  all_chars (λ c, has_char c "!$&'()*+,;=:@[]%" || negb (shouldEscape c encodePath)) s.

Definition EscapedPath (u : URL) : string :=
  if negb (bool_decide (RawPath u = "")) && validEncodedPath (RawPath u) &&
     bool_decide (unescape (RawPath u) encodePath = inr (Path u)) then RawPath u
  else if bool_decide (Path u = "*") then "*"
  else escape (Path u) encodePath.

Definition Userinfo_String (u : Userinfo) : string :=
  escape (username u) encodeUserPassword +:+
  match password u with None => "" | Some p => ":" +:+ escape p encodeUserPassword end.

(** [u.String()]. *)
Definition URL_String (u : URL) : string :=
  (if bool_decide (Scheme u = "") then "" else Scheme u +:+ ":") +:+
  (if negb (bool_decide (Opaque u = "")) then Opaque u
   else
     (if negb (bool_decide (Scheme u = "")) || negb (bool_decide (Host u = "")) ||
         negb (bool_decide (User u = None)) then
        "//" +:+ (match User u with Some i => Userinfo_String i +:+ "@" | None => "" end) +:+
        (if bool_decide (Host u = "") then "" else escape (Host u) encodeHost)
      else "") +:+
     (let path := EscapedPath u in
      (if negb (bool_decide (path = "")) && negb (HasPrefix path "/") &&
          negb (bool_decide (Host u = "")) then "/" else "") +:+
      (if bool_decide (Scheme u = "") && bool_decide (Host u = "") &&
          bool_decide (User u = None) && negb (HasPrefix path "/") &&
          has_char ":" (split "/" true path).1 then "./" else "") +:+
      path)) +:+
  (if ForceQuery u || negb (bool_decide (RawQuery u = "")) then "?" +:+ RawQuery u else "") +:+
  (if bool_decide (Fragment u = "") then "" else "#" +:+ escape (Fragment u) encodeFragment).

(** ** Lemmas: plain authorities *)

(** The characters of host names and ports. *)
Definition plain_host (c : ascii) : bool := is_alpha c || is_num c || has_char c "-.:".

Lemma plain_host_excludes c d :
  plain_host d = false → plain_host c = true → bool_decide (c = d) = false.
Proof. intros Hd Hc. apply bool_decide_eq_false. congruence. Qed.

Lemma unescape_cons c s mode :
  c ≠ "%"%char →
  unescape (String c s) mode =
    if (bool_decide (mode = encodeHost) || bool_decide (mode = encodeZone)) &&
       (char_code c <? 128) && shouldEscape c mode then
      inl ("invalid character " +:+ Quote (String c "") +:+ " in host name")
    else sum_map (String c) (unescape s mode).
Proof. destruct c as [[] [] [] [] [] [] [] []]; intros Hc; try reflexivity. done. Qed.

Lemma plain_host_safe c : plain_host c = true → shouldEscape c encodeHost = false.
Proof. destruct c as [[] [] [] [] [] [] [] []]; by vm_compute. Qed.

Lemma unescape_plain s : all_chars plain_host s = true → unescape s encodeHost = inr s.
Proof.
  induction s as [|c s IH]; [done|]. cbn [all_chars]. intros [Hc Hs]%andb_true_iff.
  rewrite unescape_cons by (by intros ->). rewrite (plain_host_safe c Hc), andb_false_r.
  by rewrite IH.
Qed.

Lemma escape_plain s : all_chars plain_host s = true → escape s encodeHost = s.
Proof.
  induction s as [|c s IH]; [done|]. simpl. intros [Hc Hs]%andb_true_iff.
  rewrite (plain_host_safe c Hc). by rewrite IH.
Qed.

Lemma split_plain d b s :
  plain_host d = false → all_chars plain_host s = true → split d b s = (s, "").
Proof.
  intros Hd. induction s as [|c s IH]; [done|]. simpl. intros [Hc Hs]%andb_true_iff.
  by rewrite plain_host_excludes, IH.
Qed.

Lemma split_last_plain d s :
  plain_host d = false → all_chars plain_host s = true → split_last d s = None.
Proof.
  intros Hd. induction s as [|c s IH]; [done|]. simpl. intros [Hc Hs]%andb_true_iff.
  by rewrite IH, plain_host_excludes.
Qed.

Lemma count_char_plain d s :
  plain_host d = false → all_chars plain_host s = true → count_char d s = O.
Proof.
  intros Hd. induction s as [|c s IH]; [done|]. simpl. intros [Hc Hs]%andb_true_iff.
  by rewrite plain_host_excludes, IH.
Qed.

Lemma parseAuthority_plain s :
  all_chars plain_host s = true → parseAuthority s = inr (None, s).
Proof.
  intros Hs. unfold parseAuthority. rewrite split_last_plain by done.
  assert (parseHost s = inr s) as ->; [|done].
  unfold parseHost. destruct s as [|c s]; [done|].
  assert (HasPrefix (String c s) "[" = false) as ->; [|by apply unescape_plain].
  simpl in *. apply andb_true_iff in Hs as [Hc _]. apply andb_false_iff. left.
  apply bool_decide_eq_false. by intros <-.
Qed.

(** The URL of a scheme and a plain authority. *)
Definition authority_URL (scheme auth : string) : URL :=
  mkURL scheme "" None auth "" "" false "" "".

Lemma Parse_authority (tls : bool) auth :
  all_chars plain_host auth = true →
  let scheme := if tls then "https" else "http" in
  Parse (scheme +:+ "://" +:+ auth) = inr (authority_URL scheme auth).
Proof.
  intros Ha. cbv zeta. unfold Parse.
  assert (split "#" true ((if tls then "https" else "http") +:+ "://" +:+ auth) =
    ((if tls then "https" else "http") +:+ "://" +:+ auth, "")) as ->.
  { destruct tls; rewrite !app_cons_s; simpl split; by rewrite split_plain. }
  assert (parse_url ((if tls then "https" else "http") +:+ "://" +:+ auth) =
    inr (authority_URL (if tls then "https" else "http") auth)) as ->; [|done].
  unfold parse_url. rewrite bool_decide_false by (by destruct tls).
  assert (getscheme ((if tls then "https" else "http") +:+ "://" +:+ auth) =
    inr (if tls then "https" else "http", "//" +:+ auth)) as -> by (by destruct tls).
  assert (cut_query ("//" +:+ auth) = ("//" +:+ auth, false, "")) as Hq.
  { unfold cut_query. rewrite !app_cons_s, app_nil_s || rewrite !app_cons_s. simpl.
    by rewrite split_plain, count_char_plain. }
  assert (ToLower (if tls then "https" else "http") = (if tls then "https" else "http"))
    as -> by (by destruct tls).
  rewrite Hq. change (HasPrefix ("//" +:+ auth) "/") with true. cbn [negb andb].
  change (HasPrefix ("//" +:+ auth) "//") with true. rewrite andb_true_r.
  rewrite bool_decide_false by (by destruct tls). cbn [negb orb].
  change (drop_string 2 ("//" +:+ auth)) with auth.
  by rewrite split_plain, parseAuthority_plain by done.
Qed.

Lemma authority_URL_String (tls : bool) auth :
  all_chars plain_host auth = true →
  let scheme := if tls then "https" else "http" in
  URL_String (authority_URL scheme auth) = scheme +:+ "://" +:+ auth.
Proof.
  intros Ha. cbv zeta. unfold URL_String. cbn [Scheme Opaque User Host Path RawPath ForceQuery
    RawQuery Fragment authority_URL]. rewrite escape_plain by done.
  destruct tls; rewrite ?app_cons_s, ?app_nil_s; simpl;
    (case_bool_decide; [by subst|by rewrite ?app_nil_s]).
Qed.

Example Parse_examples :
  Parse "http://10.0.0.1:4001" = inr (authority_URL "http" "10.0.0.1:4001") ∧
  Parse "HTTP://u:p%41@[::1]:80/a%2fb?q=1#f" =
    inr (mkURL "http" "" (Some (mkUser "u" (Some "pA"))) "[::1]:80" "/a/b" "/a%2fb" false "q=1" "f") ∧
  Parse "%%%%" = inl ("parse %%%%: invalid URL escape " +:+ Quote "%%%") ∧
  Parse ":foo" = inl "parse :foo: missing protocol scheme" ∧
  Parse "10.0.0.1:4001" = inl "parse 10.0.0.1:4001: first path segment in URL cannot contain colon" ∧
  Parse "mailto:a@b" = inr (mkURL "mailto" "a@b" None "" "" "" false "" "").
Proof. by vm_compute. Qed.
