(* ===== verification/GoJson.v ===== *)
(** * Go's [encoding/json] as the program uses it

    A parser of JSON texts following the scanner of [encoding/json] (Go 1.8),
    and decoding into structs, slices, strings, booleans and [int]s following
    its [decodeState]: an object is read key by key in order, a key selects the
    field with that exact name and otherwise the first field whose name equals
    it up to case, [null] leaves scalars and structs as they are, a value of
    the wrong kind is remembered as the error while decoding goes on.

    Limits: error texts are kinds only, and a slice that is decoded twice from
    one document keeps no hidden elements beyond its length. *)
From S2P Require Import Prelude GoStrings GoPath Machine.

(** ** Values *)

Inductive json :=
  | JNull
  | JBool (b : bool)
  | JNumber (literal : string)
  | JString (s : string)
  | JArray (l : list json)
  | JObject (kvs : list (string * json)).

(** ** Characters and UTF-8 *)

Definition code (c : ascii) : Z := Z.of_N (N_of_ascii c).
Definition chr (z : Z) : ascii := ascii_of_N (Z.to_N z).
Definition in_range (lo hi : Z) (c : ascii) : bool := (lo <=? code c)%Z && (code c <=? hi)%Z.

Definition is_ws (c : ascii) : bool :=
  existsb (Z.eqb (code c)) [32; 9; 10; 13]%Z.
Definition is_dec (c : ascii) : bool := in_range 48 57 c.

Definition hex_value (c : ascii) : option Z :=
  if in_range 48 57 c then Some (code c - 48)%Z
  else if in_range 97 102 c then Some (code c - 87)%Z
  else if in_range 65 70 c then Some (code c - 55)%Z
  else None.

Fixpoint skip_ws (s : string) : string :=
  match s with
  | String c s' => if is_ws c then skip_ws s' else s
  | "" => ""
  end.

(** [utf8.EncodeRune]; a surrogate or out-of-range rune encodes U+FFFD. *)
Definition rune_error : string := String (chr 239) (String (chr 191) (String (chr 189) "")).

Definition utf8_encode (r : Z) : string :=
  if (r <? 128)%Z then String (chr r) ""
  else if (r <? 2048)%Z then
    String (chr (192 + r / 64)) (String (chr (128 + r mod 64)) "")
  else if ((55296 <=? r) && (r <=? 57343) || (1114111 <? r))%Z then rune_error
  else if (r <? 65536)%Z then
    String (chr (224 + r / 4096)) (String (chr (128 + (r / 64) mod 64))
      (String (chr (128 + r mod 64)) ""))
  else
    String (chr (240 + r / 262144)) (String (chr (128 + (r / 4096) mod 64))
      (String (chr (128 + (r / 64) mod 64)) (String (chr (128 + r mod 64)) ""))).

(** The length of the UTF-8 sequence that starts [s], if there is one. *)
Definition utf8_len (s : string) : option nat :=
  let cont := in_range 128 191 in
  match s with
  | String c0 s0 =>
      if (code c0 <? 128)%Z then Some 1%nat
      else match s0 with
      | String c1 s1 =>
          if in_range 194 223 c0 && cont c1 then Some 2%nat
          else match s1 with
          | String c2 s2 =>
              let lo := if bool_decide (code c0 = 224%Z) then 160%Z else 128%Z in
              let hi := if bool_decide (code c0 = 237%Z) then 159%Z else 191%Z in
              if in_range 224 239 c0 && in_range lo hi c1 && cont c2 then Some 3%nat
              else match s2 with
              | String c3 _ =>
                  let lo := if bool_decide (code c0 = 240%Z) then 144%Z else 128%Z in
                  let hi := if bool_decide (code c0 = 244%Z) then 143%Z else 191%Z in
                  if in_range 240 244 c0 && in_range lo hi c1 && cont c2 && cont c3
                  then Some 4%nat else None
              | "" => None
              end
          | "" => None
          end
      | "" => None
      end
  | "" => None
  end.

Fixpoint take_string (n : nat) (s : string) : string :=
  match n, s with
  | S n', String c s' => String c (take_string n' s')
  | _, _ => ""
  end.

(** ** The scanner: string literals *)

(** After the opening quote: the raw literal and what follows the closing
    quote; [None] for a control character, a bad escape or a missing quote. *)
Fixpoint scan_string (s : string) : option (string * string) :=
  match s with
  | "" => None
  | String c s' =>
      if bool_decide (c = dquote) then Some ("", s')
      else if (code c <? 32)%Z then None
      else if bool_decide (code c = 92%Z) then
        match s' with
        | String e s'' =>
            if bool_decide (e = "u"%char) then
              match s'' with
              | String h1 (String h2 (String h3 (String h4 rest))) =>
                  match hex_value h1, hex_value h2, hex_value h3, hex_value h4 with
                  | Some _, Some _, Some _, Some _ =>
                      '(raw, r) ← scan_string rest;
                      Some (String c (String e (String h1 (String h2 (String h3 (String h4 raw))))), r)
                  | _, _, _, _ => None
                  end
              | _ => None
              end
            else if existsb (Z.eqb (code e)) [98; 102; 110; 114; 116; 92; 47; 34]%Z then
              '(raw, r) ← scan_string s''; Some (String c (String e raw), r)
            else None
        | "" => None
        end
      else '(raw, r) ← scan_string s'; Some (String c raw, r)
  end.

(** [getu4]: the rune of a [\uXXXX] at the start of [s]. *)
Definition getu4 (s : string) : option (Z * string) :=
  match s with
  | String b (String u (String h1 (String h2 (String h3 (String h4 rest))))) =>
      if bool_decide (code b = 92%Z) && bool_decide (u = "u"%char) then
        v1 ← hex_value h1; v2 ← hex_value h2; v3 ← hex_value h3; v4 ← hex_value h4;
        Some ((((v1 * 16 + v2) * 16 + v3) * 16 + v4)%Z, rest)
      else None
  | _ => None
  end.

Definition is_surrogate (r : Z) : bool := ((55296 <=? r) && (r <=? 57343))%Z.

(** [utf16.DecodeRune] of a valid pair. *)
Definition decode_pair (r1 r2 : Z) : option Z :=
  if ((55296 <=? r1) && (r1 <? 56320) && (56320 <=? r2) && (r2 <? 57344))%Z
  then Some ((r1 - 55296) * 1024 + (r2 - 56320) + 65536)%Z else None.

Definition simple_escape (e : ascii) : ascii :=
  let c := code e in
  if bool_decide (c = 98%Z) then chr 8 else if bool_decide (c = 102%Z) then chr 12
  else if bool_decide (c = 110%Z) then chr 10 else if bool_decide (c = 114%Z) then chr 13
  else if bool_decide (c = 116%Z) then chr 9 else e.

(** [unquote] on a scanned literal; [fuel] bounds the number of runes, and the
    literal's length is enough. *)
Fixpoint unquote (fuel : nat) (s : string) : string :=
  match fuel with
  | O => ""
  | S fuel =>
      match s with
      | "" => ""
      | String c s' =>
          if bool_decide (code c = 92%Z) then
            match getu4 s with
            | Some (r, rest) =>
                if is_surrogate r then
                  match getu4 rest with
                  | Some (r2, rest2) =>
                      match decode_pair r r2 with
                      | Some rr => utf8_encode rr +:+ unquote fuel rest2
                      | None => rune_error +:+ unquote fuel rest
                      end
                  | None => rune_error +:+ unquote fuel rest
                  end
                else utf8_encode r +:+ unquote fuel rest
            | None =>
                match s' with
                | String e s'' => String (simple_escape e) (unquote fuel s'')
                | "" => ""
                end
            end
          else
            match utf8_len s with
            | Some n => take_string n s +:+ unquote fuel (drop_string n s)
            | None => rune_error +:+ unquote fuel s'
            end
      end
  end.

Definition parse_string (s : string) : option (string * string) :=
  '(raw, rest) ← scan_string s; Some (unquote (String.length raw) raw, rest).

(** ** The scanner: numbers and values *)

Fixpoint span_digits (s : string) : string * string :=
  match s with
  | String c s' =>
      if is_dec c then let '(d, r) := span_digits s' in (String c d, r) else ("", s)
  | "" => ("", "")
  end.

(** The fraction and the exponent: absent, or with at least one digit. *)
Definition scan_frac (s : string) : option (string * string) :=
  match s with
  | String c s' =>
      if bool_decide (c = "."%char) then
        match span_digits s' with
        | ("", _) => None
        | (d, r) => Some (String c d, r)
        end
      else Some ("", s)
  | "" => Some ("", s)
  end.

Definition scan_exp (s : string) : option (string * string) :=
  match s with
  | String c s' =>
      if bool_decide (c = "e"%char) || bool_decide (c = "E"%char) then
        let '(sign, s'') :=
          match s' with
          | String g r => if bool_decide (g = "+"%char) || bool_decide (g = "-"%char)
                          then (String g "", r) else ("", s')
          | "" => ("", s')
          end in
        match span_digits s'' with
        | ("", _) => None
        | (d, r) => Some (String c (sign +:+ d), r)
        end
      else Some ("", s)
  | "" => Some ("", s)
  end.

(** An optional minus, [0] or digits that do not start with [0], then an
    optional fraction and an optional exponent. *)
Definition scan_number (s : string) : option (string * string) :=
  let '(sign, s1) :=
    match s with
    | String c s' => if bool_decide (c = "-"%char) then (String c "", s') else ("", s)
    | "" => ("", s)
    end in
  '(int, s2) ←
    match s1 with
    | String c s' =>
        if bool_decide (c = "0"%char) then Some (String c "", s')
        else match span_digits s1 with ("", _) => None | r => Some r end
    | "" => None
    end;
  '(frac, s3) ← scan_frac s2;
  '(exp, s4) ← scan_exp s3;
  Some (sign +:+ int +:+ frac +:+ exp, s4).

Definition expect (lit s : string) : option string :=
  if HasPrefix s lit then Some (drop_string (String.length lit) s) else None.

(** [parse_value fuel s]: the value at the start of [s] (leading white space
    allowed) and the rest.  Each nested value costs two units of fuel, and a
    text of length [n] holds fewer than [n + 1] nested values. *)
Fixpoint parse_value (fuel : nat) (s : string) : option (json * string) :=
  match fuel with
  | O => None
  | S fuel =>
      let s := skip_ws s in
      match s with
      | "" => None
      | String c s' =>
          if bool_decide (c = "{"%char) then
            match skip_ws s' with
            | String c' r =>
                if bool_decide (c' = "}"%char) then Some (JObject [], r)
                else '(kvs, r) ← parse_members fuel s'; Some (JObject kvs, r)
            | "" => None
            end
          else if bool_decide (c = "["%char) then
            match skip_ws s' with
            | String c' r =>
                if bool_decide (c' = "]"%char) then Some (JArray [], r)
                else '(l, r) ← parse_elements fuel s'; Some (JArray l, r)
            | "" => None
            end
          else if bool_decide (c = dquote) then
            '(str, r) ← parse_string s'; Some (JString str, r)
          else if bool_decide (c = "t"%char) then r ← expect "true" s; Some (JBool true, r)
          else if bool_decide (c = "f"%char) then r ← expect "false" s; Some (JBool false, r)
          else if bool_decide (c = "n"%char) then r ← expect "null" s; Some (JNull, r)
          else '(lit, r) ← scan_number s; Some (JNumber lit, r)
      end
  end
with parse_elements (fuel : nat) (s : string) : option (list json * string) :=
  match fuel with
  | O => None
  | S fuel =>
      '(v, r) ← parse_value fuel s;
      match skip_ws r with
      | String c r' =>
          if bool_decide (c = ","%char) then
            '(l, r'') ← parse_elements fuel r'; Some (v :: l, r'')
          else if bool_decide (c = "]"%char) then Some ([v], r')
          else None
      | "" => None
      end
  end
with parse_members (fuel : nat) (s : string) : option (list (string * json) * string) :=
  match fuel with
  | O => None
  | S fuel =>
      match skip_ws s with
      | String q s' =>
          if bool_decide (q = dquote) then
            '(k, r) ← parse_string s';
            match skip_ws r with
            | String c r' =>
                if bool_decide (c = ":"%char) then
                  '(v, r'') ← parse_value fuel r';
                  match skip_ws r'' with
                  | String c' r3 =>
                      if bool_decide (c' = ","%char) then
                        '(kvs, r4) ← parse_members fuel r3; Some ((k, v) :: kvs, r4)
                      else if bool_decide (c' = "}"%char) then Some ([(k, v)], r3)
                      else None
                  | "" => None
                  end
                else None
            | "" => None
            end
          else None
      | "" => None
      end
  end.

Definition json_fuel (s : string) : nat := S (S (2 * String.length s)).

(** A whole text: one value and white space. *)
Definition parse_json (s : string) : option json :=
  match parse_value (json_fuel s) s with
  | Some (j, r) => match skip_ws r with "" => Some j | _ => None end
  | None => None
  end.

(** JSON text written with single quotes, for examples. *)
Definition single_quoted (s : string) : string := replace_all "'" dquote s.

Example parse_json_examples :
  parse_json (single_quoted " {'a\u00e9': [1, -2.5e+3, true , null, {}], 'b':[]} ") =
    Some (JObject [("aé", JArray [JNumber "1"; JNumber "-2.5e+3"; JBool true; JNull; JObject []]);
                   ("b", JArray [])]) ∧
  parse_json "[01]" = None ∧ parse_json "[1,]" = None ∧ parse_json "" = None.
Proof. by vm_compute. Qed.

(** ** Decoding *)

(** What decoding a Go type [T] does with a value, starting from the current
    contents of the destination: the new contents and the saved error.
    [jzero] is Go's zero value of [T], [jtype] its name in error messages. *)
Class FromJson (T : Type) := {
  jzero : T;
  jtype : string;
  jdecode : json → T → T * option error
}.

(** [UnmarshalTypeError.Value] of a value that does not fit. *)
Definition json_kind (j : json) : string :=
  match j with
  | JNull => "null"
  | JBool _ => "bool"
  | JNumber _ => "number"
  | JString _ => "string"
  | JArray _ => "array"
  | JObject _ => "object"
  end.

Definition mismatch {T} (ty : string) (j : json) (old : T) : T * option error :=
  (old, Some (UnmarshalTypeError (json_kind j) ty)).

#[export] Instance string_FromJson : FromJson string := {|
  jzero := "";
  jtype := "string";
  jdecode j old :=
    match j with
    | JNull => (old, None)
    | JString s => (s, None)
    | _ => mismatch "string" j old
    end
|}.

#[export] Instance bool_FromJson : FromJson bool := {|
  jzero := false;
  jtype := "bool";
  jdecode j old :=
    match j with
    | JNull => (old, None)
    | JBool b => (b, None)
    | _ => mismatch "bool" j old
    end
|}.

(** An [int] takes a literal that [strconv.ParseInt(lit, 10, 64)] accepts. *)
#[export] Instance int_FromJson : FromJson Z := {|
  jzero := 0%Z;
  jtype := "int";
  jdecode j old :=
    match j with
    | JNull => (old, None)
    | JNumber lit =>
        match Atoi lit with
        | inr z => (z, None)
        | inl _ => (old, Some (UnmarshalTypeError ("number " +:+ lit) "int"))
        end
    | _ => mismatch "int" j old
    end
|}.

Definition first_error (e1 e2 : option error) : option error :=
  match e1 with Some _ => e1 | None => e2 end.

(** A slice: element [i] is decoded over the old element [i]. *)
Fixpoint decode_elems {T} `{FromJson T} (l : list json) (old : list T) : list T * option error :=
  match l with
  | [] => ([], None)
  | j :: l' =>
      let '(x, e) := jdecode j (default jzero (head old)) in
      let '(xs, e') := decode_elems l' (tail old) in
      (x :: xs, first_error e e')
  end.

#[export] Instance slice_FromJson {T} `{FromJson T} : FromJson (list T) := {|
  jzero := [];
  jtype := "[]" +:+ jtype;
  jdecode j old :=
    match j with
    | JNull => ([], None)
    | JArray l => decode_elems l old
    | _ => mismatch ("[]" +:+ jtype) j old
    end
|}.

(** *** Structs *)

(** A field: its name in JSON and how it is decoded in place. *)
Record jfield (T : Type) := JField {
  jf_name : string;
  jf_decode : json → T → T * option error
}.
Arguments JField {T} _ _.
Arguments jf_name {T} _.
Arguments jf_decode {T} _ _ _.

(** A field of type [F] given its selector and its update. *)
Definition mk_field {T F} `{FromJson F} (name : string) (get : T → F) (set : F → T → T) : jfield T :=
  JField name (λ j t, let '(v, e) := jdecode j (get t) in (set v t, e)).

Definition to_lower (c : ascii) : ascii := if in_range 65 90 c then chr (code c + 32) else c.

(** Keys up to case: ASCII letters, the Kelvin sign (a [k]) and the long s. *)
Fixpoint fold_key (s : string) : string :=
  match s with
  | "" => ""
  | String c s1 =>
      match s1 with
      | "" => String (to_lower c) ""
      | String c1 s2 =>
          if bool_decide (code c = 197 ∧ code c1 = 191)%Z then String "s" (fold_key s2)
          else match s2 with
          | String c2 s3 =>
              if bool_decide (code c = 226 ∧ code c1 = 132 ∧ code c2 = 170)%Z
              then String "k" (fold_key s3)
              else String (to_lower c) (fold_key s1)
          | "" => String (to_lower c) (fold_key s1)
          end
      end
  end.

Definition find_field {T} (fields : list (jfield T)) (key : string) : option (jfield T) :=
  match first_match (λ f, bool_decide (jf_name f = key)) fields with
  | Some f => Some f
  | None => first_match (λ f, bool_decide (fold_key (jf_name f) = fold_key key)) fields
  end.

Definition decode_member {T} (fields : list (jfield T)) (acc : T * option error)
    (kv : string * json) : T * option error :=
  match find_field fields kv.1 with
  | Some f => let '(t, e) := jf_decode f kv.2 acc.1 in (t, first_error acc.2 e)
  | None => acc
  end.

Definition decode_struct {T} (ty : string) (fields : list (jfield T)) (j : json) (t : T) :
    T * option error :=
  match j with
  | JNull => (t, None)
  | JObject kvs => foldl (decode_member fields) (t, None) kvs
  | _ => mismatch ty j t
  end.

(** [json.Unmarshal(text, &t)]: the text is checked as a whole first. *)
Definition Unmarshal {T} `{FromJson T} (text : string) (t : T) : T * option error :=
  match parse_json text with
  | None => (t, Some SyntaxError)
  | Some j => jdecode j t
  end.

(** [json.NewDecoder(r).Decode(&t)]: one value, the rest of the stream unread. *)
Definition Decode {T} `{FromJson T} (text : string) (t : T) : T * option error :=
  match parse_value (json_fuel text) text with
  | None => (t, Some (if bool_decide (skip_ws text = "") then ErrorString "EOF" else SyntaxError))
  | Some (j, _) => jdecode j t
  end.

(** ** Lemmas: decoding structs *)

(** The name of the struct field a key selects. *)
Definition selected {T} (fields : list (jfield T)) (key : string) : option string :=
  jf_name <$> find_field fields key.

Lemma find_field_elem {T} (fields : list (jfield T)) key f :
  find_field fields key = Some f → f ∈ fields.
Proof.
  unfold find_field. destruct (first_match _ fields) eqn:H1.
  - intros ?; simplify_eq. apply first_match_Some in H1 as (?&?&->&_). set_solver.
  - intros (?&?&->&_)%first_match_Some. set_solver.
Qed.

(** An exact name always selects its own field. *)
Lemma selected_exact {T} (fields : list (jfield T)) key :
  key ∈ (jf_name <$> fields) → selected fields key = Some key.
Proof.
  intros (f&->&Hf)%list_elem_of_fmap. unfold selected, find_field.
  destruct (first_match _ fields) as [g|] eqn:Hg.
  - apply first_match_Some in Hg as (?&?&_&Hg&_).
    apply bool_decide_eq_true in Hg. simpl. by rewrite Hg.
  - pose proof (proj1 (first_match_None _ _) Hg f Hf) as Hn.
    by apply bool_decide_eq_false in Hn.
Qed.

(** The value an object leaves in the field [name], starting from [old]: each
    key that selects the field is decoded over the previous value, in order. *)
Definition field_value {T F} `{FromJson F} (fields : list (jfield T)) (name : string)
    (kvs : list (string * json)) (old : F) : F :=
  foldl (λ v kv, if bool_decide (selected fields kv.1 = Some name)
                 then (jdecode kv.2 v).1 else v) old kvs.

(** A selector [get] that the field [name] decodes into and that the other
    fields leave alone. *)
Definition field_lens {T F} `{FromJson F} (fields : list (jfield T)) (name : string)
    (get : T → F) : Prop :=
  ∀ f, f ∈ fields → ∀ j t,
    get (jf_decode f j t).1 =
    if bool_decide (jf_name f = name) then (jdecode j (get t)).1 else get t.

Lemma decode_member_get {T F} `{FromJson F} (fields : list (jfield T)) name (get : T → F) acc kv :
  field_lens fields name get →
  get (decode_member fields acc kv).1 =
  if bool_decide (selected fields kv.1 = Some name)
  then (jdecode kv.2 (get acc.1)).1 else get acc.1.
Proof.
  intros Hl. unfold decode_member, selected.
  destruct (find_field fields kv.1) as [f|] eqn:Hf; simpl; [|done].
  pose proof (Hl f (find_field_elem _ _ _ Hf) kv.2 acc.1) as Hg.
  destruct (jf_decode f kv.2 acc.1) as [t e]; simpl in *. rewrite Hg.
  repeat case_bool_decide; congruence.
Qed.

Lemma decode_struct_get {T F} `{FromJson F} ty (fields : list (jfield T)) name (get : T → F) kvs t :
  field_lens fields name get →
  get (decode_struct ty fields (JObject kvs) t).1 = field_value fields name kvs (get t).
Proof.
  intros Hl. simpl. unfold field_value.
  change (get t) with (get (t, @None error).1). generalize (t, @None error).
  induction kvs as [|kv kvs IH]; intros acc; simpl; [done|].
  by rewrite IH, (decode_member_get fields name get acc kv Hl).
Qed.

(** [null] and unselected keys change nothing. *)
Lemma field_value_untouched {T F} `{FromJson F} (fields : list (jfield T)) name kvs (old : F) :
  (∀ k v, (k, v) ∈ kvs → selected fields k ≠ Some name) → field_value fields name kvs old = old.
Proof.
  revert old. induction kvs as [|[k v] kvs IH]; intros old Hk; [done|].
  unfold field_value. simpl. rewrite bool_decide_false by (apply (Hk k v); set_solver).
  apply IH. intros k' v' ?. apply (Hk k' v'). set_solver.
Qed.

(** The last member that selects the field decides. *)
Lemma field_value_last {T F} `{FromJson F} (fields : list (jfield T)) name kvs k v post (old x : F) :
  selected fields k = Some name → (∀ y, jdecode v y = (x, None)) →
  (∀ k' v', (k', v') ∈ post → selected fields k' ≠ Some name) →
  field_value fields name (kvs ++ (k, v) :: post) old = x.
Proof.
  intros Hs Hv Hpost. unfold field_value. rewrite foldl_app. simpl.
  rewrite bool_decide_true, Hv by done. by apply (field_value_untouched fields name).
Qed.
