(* ===== verification/JsonFacts.v ===== *)
(** * Facts about the JSON scanner

    More fuel never changes a result of [parse_value], and strings of plain
    characters scan to themselves: what is needed to read JSON texts with
    symbolic strings in them. *)
From S2P Require Import Prelude GoStrings GoPath Machine GoJson.

(** ** Fuel *)

Lemma parse_mono n m :
  (n ≤ m)%nat →
  (∀ s r, parse_value n s = Some r → parse_value m s = Some r) ∧
  (∀ s r, parse_elements n s = Some r → parse_elements m s = Some r) ∧
  (∀ s r, parse_members n s = Some r → parse_members m s = Some r).
Proof.
  revert m. induction n as [|n IH]; intros m Hm; [done|].
  destruct m as [|m]; [lia|]. destruct (IH m) as (IHv&IHe&IHm); [lia|]. clear IH Hm.
  split_and!; intros s r.
  - cbn [parse_value]. cbv zeta. destruct (skip_ws s) as [|c s']; [done|].
    case_bool_decide.
    { destruct (skip_ws s') as [|c' r']; [done|]. case_bool_decide; [done|].
      destruct (parse_members n s') as [[kvs r2]|] eqn:Hm; [|done]. by rewrite (IHm _ _ Hm). }
    case_bool_decide; [|done].
    destruct (skip_ws s') as [|c' r']; [done|]. case_bool_decide; [done|].
    destruct (parse_elements n s') as [[l r2]|] eqn:He; [|done]. by rewrite (IHe _ _ He).
  - cbn [parse_elements].
    destruct (parse_value n s) as [[v r1]|] eqn:Hv; [|done]. rewrite (IHv _ _ Hv).
    cbn [mbind option_bind]. destruct (skip_ws r1) as [|c r2]; [done|]. case_bool_decide; [|done].
    destruct (parse_elements n r2) as [[l r3]|] eqn:He; [|done]. by rewrite (IHe _ _ He).
  - cbn [parse_members]. destruct (skip_ws s) as [|q s']; [done|].
    case_bool_decide; [|done]. destruct (parse_string s') as [[k r1]|]; [|done].
    cbn [mbind option_bind]. destruct (skip_ws r1) as [|c r2]; [done|]. case_bool_decide; [|done].
    destruct (parse_value n r2) as [[v r3]|] eqn:Hv; [|done]. rewrite (IHv _ _ Hv).
    cbn [mbind option_bind]. destruct (skip_ws r3) as [|c' r4]; [done|]. case_bool_decide; [|done].
    destruct (parse_members n r4) as [[kvs r5]|] eqn:Hm; [|done]. by rewrite (IHm _ _ Hm).
Qed.

Lemma parse_value_mono n m s r :
  (n ≤ m)%nat → parse_value n s = Some r → parse_value m s = Some r.
Proof. intros H. by apply parse_mono. Qed.

(** A text whose value is found with [n] units of fuel. *)
Lemma parse_json_fuel n s j :
  (n ≤ json_fuel s)%nat → parse_value n s = Some (j, "") → parse_json s = Some j.
Proof. intros Hn H. unfold parse_json. by rewrite (parse_value_mono n _ _ _ Hn H). Qed.

(** ** Plain strings *)

(** Printable ASCII except the double quote and the backslash. *)
Definition plain_json (c : ascii) : bool :=
  in_range 32 127 c && negb (bool_decide (c = dquote)) && negb (bool_decide (code c = 92%Z)).

Lemma plain_json_true c :
  plain_json c = true →
  c ≠ dquote ∧ code c ≠ 92%Z ∧ (code c <? 32)%Z = false ∧ (code c <? 128)%Z = true.
Proof.
  unfold plain_json, in_range.
  intros [[[H1 H2]%andb_true_iff H3%negb_true_iff]%andb_true_iff H4%negb_true_iff]%andb_true_iff.
  apply bool_decide_eq_false in H3, H4. split_and!; [done..|lia|lia].
Qed.

Lemma scan_plain s rest :
  all_chars plain_json s = true → scan_string (s +:+ String dquote rest) = Some (s, rest).
Proof.
  induction s as [|c s IH].
  { intros _. rewrite <-(app_nil_s ""). done. }
  cbn [all_chars]. intros [Hc Hs]%andb_true_iff.
  destruct (plain_json_true c Hc) as (Hq&Hb&H32&_). rewrite app_cons_s. cbn [scan_string].
  rewrite bool_decide_false, H32, bool_decide_false by done. by rewrite IH.
Qed.

Lemma unquote_plain s :
  all_chars plain_json s = true → unquote (String.length s) s = s.
Proof.
  induction s as [|c s IH]; [done|]. cbn [all_chars]. intros [Hc Hs]%andb_true_iff.
  destruct (plain_json_true c Hc) as (Hq&Hb&_&H128). cbn [String.length unquote].
  rewrite bool_decide_false by done. unfold utf8_len. rewrite H128. cbn [take_string drop_string].
  by rewrite app_cons_s, IH.
Qed.

Lemma parse_string_plain s rest :
  all_chars plain_json s = true → parse_string (s +:+ String dquote rest) = Some (s, rest).
Proof.
  intros Hs. unfold parse_string. rewrite scan_plain by done. cbn [mbind option_bind].
  by rewrite unquote_plain.
Qed.

(** ** Reading a text piece by piece

    One lemma per production, with the white space where the scanner allows it;
    [k] is a key of plain characters. *)

Lemma value_string n s v r :
  all_chars plain_json v = true →
  skip_ws s = String dquote (v +:+ String dquote r) → parse_value (S n) s = Some (JString v, r).
Proof. intros Hv Hs. cbn [parse_value]. rewrite Hs. cbn iota. simpl. by rewrite parse_string_plain. Qed.

Lemma value_object n s s' c r kvs rest :
  skip_ws s = String "{" s' → skip_ws s' = String c r → c ≠ "}"%char →
  parse_members n s' = Some (kvs, rest) → parse_value (S n) s = Some (JObject kvs, rest).
Proof.
  intros Hs Hs' Hc Hm. cbn [parse_value]. rewrite Hs. cbn iota. rewrite bool_decide_true, Hs' by done.
  by rewrite bool_decide_false, Hm.
Qed.

Lemma value_array n s s' c r l rest :
  skip_ws s = String "[" s' → skip_ws s' = String c r → c ≠ "]"%char →
  parse_elements n s' = Some (l, rest) → parse_value (S n) s = Some (JArray l, rest).
Proof.
  intros Hs Hs' Hc Hm. cbn [parse_value]. rewrite Hs. cbn iota.
  rewrite bool_decide_false, bool_decide_true, Hs' by done. by rewrite bool_decide_false, Hm.
Qed.

Lemma elements_last n s v r rest :
  parse_value n s = Some (v, r) → skip_ws r = String "]" rest →
  parse_elements (S n) s = Some ([v], rest).
Proof.
  intros Hv Hr. cbn [parse_elements]. rewrite Hv. cbn [mbind option_bind]. by rewrite Hr.
Qed.

Lemma members_cons n s k r1 r2 v r3 r4 kvs rest :
  all_chars plain_json k = true →
  skip_ws s = String dquote (k +:+ String dquote r1) → skip_ws r1 = String ":" r2 →
  parse_value n r2 = Some (v, r3) → skip_ws r3 = String "," r4 →
  parse_members n r4 = Some (kvs, rest) →
  parse_members (S n) s = Some ((k, v) :: kvs, rest).
Proof.
  intros Hk Hs Hr1 Hv Hr3 Hm. cbn [parse_members]. rewrite Hs, bool_decide_true by done.
  rewrite parse_string_plain by done. cbn [mbind option_bind].
  rewrite Hr1, bool_decide_true by done. rewrite Hv. cbn [mbind option_bind].
  by rewrite Hr3, bool_decide_true, Hm.
Qed.

Lemma members_last n s k r1 r2 v r3 rest :
  all_chars plain_json k = true →
  skip_ws s = String dquote (k +:+ String dquote r1) → skip_ws r1 = String ":" r2 →
  parse_value n r2 = Some (v, r3) → skip_ws r3 = String "}" rest →
  parse_members (S n) s = Some ([(k, v)], rest).
Proof.
  intros Hk Hs Hr1 Hv Hr3. cbn [parse_members]. rewrite Hs, bool_decide_true by done.
  rewrite parse_string_plain by done. cbn [mbind option_bind].
  rewrite Hr1, bool_decide_true by done. rewrite Hv. cbn [mbind option_bind]. by rewrite Hr3.
Qed.
