(* ===== verification/GoHttp.v ===== *)
(** * HTTP requests

    The [net/http] client as an interface: a GET request is answered by an
    error or by a response whose body ends or breaks off.  [HttpScript.client]
    answers from a function of the call's number and URL and records the URLs. *)
From S2P Require Import Prelude GoStrings GoPath Machine GoJson.

Record Response := mkResponse {
  StatusCode : Z;
  Body : string;
  BodyErr : option error
}.

Definition StatusOK : Z := 200.

(** [client.Get(url)]. *)
Class Getter (X : Type) := http_Get : string → M X (error + Response).
Class GetterLaws (X : Type) `{Getter X} :=
  http_Get_quiet url :: Quiet (http_Get url : M X (error + Response)).

(** [ioutil.ReadAll(resp.Body)]. *)
Definition ReadAll (r : Response) : string * option error := (Body r, BodyErr r).

(** [json.NewDecoder(resp.Body).Decode(&t)]: a body that breaks off inside the
    value gives the error of reading it. *)
Definition DecodeBody {T} `{FromJson T} (r : Response) (t : T) : T * option error :=
  match BodyErr r with
  | None => Decode (Body r) t
  | Some e =>
      match parse_value (json_fuel (Body r)) (Body r) with
      | Some (j, _) => jdecode j t
      | None => (t, Some e)
      end
  end.

Module HttpScript.
(** The URLs requested so far. *)
Definition state : Type := list string.

Definition client (f : nat → string → error + Response) : Getter state := λ url,
  s ← get_svc; _ ← put_svc (s ++ [url]); mret (f (length s) url).
End HttpScript.

#[global] Instance HttpScript_laws f : @GetterLaws HttpScript.state (HttpScript.client f).
Proof. intros url. unfold http_Get, HttpScript.client. apply _. Qed.

Lemma run_scripted_Get f url (w : World HttpScript.state) :
  http_Get (Getter := HttpScript.client f) url w =
  (Val (f (length (svc w)) url), set_svc (svc w ++ [url]) w).
Proof. done. Qed.
