(* ===== verification/Delay.v ===== *)
(** * The [sleep] of [src/etcdfab/etcdfab/main.go]

    [main] hands both controllers a function that sleeps, or does not if the
    program was linked with [disableDelay] set, as the tests do. *)
From S2P Require Import Prelude GoStrings GoPath Machine.

Open Scope Z_scope.

Module Delay.
Definition sleep {X} (disableDelay : string) (duration : Z) : M X unit :=
  if bool_decide (disableDelay = "true") then mret tt else Machine.sleep duration.
End Delay.

(** What a duration is worth then. *)
Definition waits (disableDelay : string) (duration : Z) : Z :=
  if bool_decide (disableDelay = "true") then 0 else duration.

(** Total time slept in a log, in nanoseconds. *)
Definition slept (l : list event) : Z :=
  foldr (λ e acc, match e with Slept n => n + acc | _ => acc end) 0 l.

Lemma slept_app l k : slept (l ++ k) = slept l + slept k.
Proof. induction l as [|[] l IH]; simpl; lia. Qed.

Lemma waits_add d a b : waits d (a + b) = waits d a + waits d b.
Proof. unfold waits. by case_bool_decide. Qed.

Lemma waits_0 d : waits d 0 = 0.
Proof. unfold waits. by case_bool_decide. Qed.

#[export] Instance quiet_Delay {X} d n : Quiet (Delay.sleep d n : M X unit).
Proof. unfold Delay.sleep. case_bool_decide; apply _. Qed.

Lemma run_Delay {X} d n (w : World X) :
  ∃ w', Delay.sleep d n w = (Val tt, w') ∧ same_os w w' ∧ svc w' = svc w ∧
    slept (log w') = slept (log w) + waits d n.
Proof.
  unfold Delay.sleep, waits. case_bool_decide.
  - exists w. split_and!; [done..|lia].
  - eexists. split; [reflexivity|]. split_and!; [done..|]. simpl. rewrite slept_app. simpl. lia.
Qed.
