(* ===== verification/Config.v ===== *)
(** * [src/etcdfab/config/config.go]

    The configuration read from the two JSON files of the job, and the names,
    URLs and paths derived from it. *)
From S2P Require Import Prelude GoStrings GoPath Machine GoJson.

Open Scope Z_scope.

(** ** Data *)

Definition clientPort : Z := 4001.
Definition peerPort : Z := 7001.
Definition etcdPidFilename : string := "etcd.pid".

Record Node := mkNode {
  Name : string;
  Index : Z;
  ExternalIP : string
}.

Record Etcd := mkEtcd {
  EtcdPath : string;
  CertDir_ : string;
  RunDir : string;
  DataDir : string;
  HeartbeatInterval : Z;
  ElectionTimeout : Z;
  PeerRequireSSL : bool;
  PeerIP : string;
  RequireSSL_ : bool;
  ClientIP : string;
  AdvertiseURLsDNSSuffix : string;
  Machines : list string;
  EnableDebugLogging : bool
}.

Record Config := mkConfig { cfg_Node : Node; cfg_Etcd : Etcd }.

#[export] Instance Node_eq_dec : EqDecision Node.
Proof. solve_decision. Defined.
#[export] Instance Etcd_eq_dec : EqDecision Etcd.
Proof. solve_decision. Defined.
#[export] Instance Config_eq_dec : EqDecision Config.
Proof. solve_decision. Defined.

(** Go's zero values. *)
Definition zero_Node : Node := mkNode "" 0 "".
Definition zero_Etcd : Etcd := mkEtcd "" "" "" "" 0 0 false "" false "" "" [] false.
Definition zero_Config : Config := mkConfig zero_Node zero_Etcd.

Definition defaultConfig : Config :=
  mkConfig zero_Node
    (mkEtcd "/var/vcap/packages/etcd/etcd" "/var/vcap/jobs/etcd/config/certs"
       "/var/vcap/sys/run/etcd" "/var/vcap/store/etcd" 0 0 false "" false "" "" [] false).

(** ** Decoding: the struct tags *)

Definition Node_fields : list (jfield Node) := [
  mk_field "Name" Name (λ v n, mkNode v (Index n) (ExternalIP n));
  mk_field "Index" Index (λ v n, mkNode (Name n) v (ExternalIP n));
  mk_field "external_ip" ExternalIP (λ v n, mkNode (Name n) (Index n) v)
].

#[export] Instance Node_FromJson : FromJson Node := {|
  jzero := zero_Node;
  jtype := "config.Node";
  jdecode := decode_struct "config.Node" Node_fields
|}.

Definition Etcd_fields : list (jfield Etcd) := [
  mk_field "etcd_path" EtcdPath
    (λ v '(mkEtcd _ b c d e f g h i j k l m), mkEtcd v b c d e f g h i j k l m);
  mk_field "cert_dir" CertDir_
    (λ v '(mkEtcd a _ c d e f g h i j k l m), mkEtcd a v c d e f g h i j k l m);
  mk_field "run_dir" RunDir
    (λ v '(mkEtcd a b _ d e f g h i j k l m), mkEtcd a b v d e f g h i j k l m);
  mk_field "data_dir" DataDir
    (λ v '(mkEtcd a b c _ e f g h i j k l m), mkEtcd a b c v e f g h i j k l m);
  mk_field "heartbeat_interval_in_milliseconds" HeartbeatInterval
    (λ v '(mkEtcd a b c d _ f g h i j k l m), mkEtcd a b c d v f g h i j k l m);
  mk_field "election_timeout_in_milliseconds" ElectionTimeout
    (λ v '(mkEtcd a b c d e _ g h i j k l m), mkEtcd a b c d e v g h i j k l m);
  mk_field "peer_require_ssl" PeerRequireSSL
    (λ v '(mkEtcd a b c d e f _ h i j k l m), mkEtcd a b c d e f v h i j k l m);
  mk_field "peer_ip" PeerIP
    (λ v '(mkEtcd a b c d e f g _ i j k l m), mkEtcd a b c d e f g v i j k l m);
  mk_field "require_ssl" RequireSSL_
    (λ v '(mkEtcd a b c d e f g h _ j k l m), mkEtcd a b c d e f g h v j k l m);
  mk_field "client_ip" ClientIP
    (λ v '(mkEtcd a b c d e f g h i _ k l m), mkEtcd a b c d e f g h i v k l m);
  mk_field "advertise_urls_dns_suffix" AdvertiseURLsDNSSuffix
    (λ v '(mkEtcd a b c d e f g h i j _ l m), mkEtcd a b c d e f g h i j v l m);
  mk_field "Machines" Machines
    (λ v '(mkEtcd a b c d e f g h i j k _ m), mkEtcd a b c d e f g h i j k v m);
  mk_field "enable_debug_logging" EnableDebugLogging
    (λ v '(mkEtcd a b c d e f g h i j k l _), mkEtcd a b c d e f g h i j k l v)
].

#[export] Instance Etcd_FromJson : FromJson Etcd := {|
  jzero := zero_Etcd;
  jtype := "config.Etcd";
  jdecode := decode_struct "config.Etcd" Etcd_fields
|}.

Definition Config_fields : list (jfield Config) := [
  mk_field "Node" cfg_Node (λ v c, mkConfig v (cfg_Etcd c));
  mk_field "Etcd" cfg_Etcd (λ v c, mkConfig (cfg_Node c) v)
].

#[export] Instance Config_FromJson : FromJson Config := {|
  jzero := zero_Config;
  jtype := "config.Config";
  jdecode := decode_struct "config.Config" Config_fields
|}.

(** ** [ConfigFromJSONs] *)

Section config.
Context {X : Type}.

Definition ConfigFromJSONs (configFilePath linkConfigFilePath : string) :
    M X (Config * option error) :=
  let config := defaultConfig in
  '(configFileContents, err) ← ReadFile configFilePath;
  match err with
  | Some err => mret (zero_Config, Some (ErrorString ("error reading config file: " +:+ Error err)))
  | None =>
      let '(config, err) := Unmarshal configFileContents config in
      match err with
      | Some err => mret (zero_Config, Some err)
      | None =>
          '(linkConfigFileContents, err) ← ReadFile linkConfigFilePath;
          match err with
          | Some err =>
              mret (zero_Config, Some (ErrorString ("error reading link config file: " +:+ Error err)))
          | None =>
              if (0 <? String.length linkConfigFileContents)%nat then
                let '(etcd, err) := Unmarshal linkConfigFileContents (cfg_Etcd config) in
                match err with
                | Some err => mret (zero_Config, Some err)
                | None => mret (mkConfig (cfg_Node config) etcd, None)
                end
              else mret (config, None)
          end
      end
  end.
End config.

(** ** Derived names *)

Definition NodeName (c : Config) : string :=
  replace_all "_" "-" (Name (cfg_Node c)) +:+ "-" +:+ Sprintf_d (Index (cfg_Node c)).

Definition PidFile (c : Config) : string :=
  filepath_Join [RunDir (cfg_Etcd c); etcdPidFilename].

Definition RequireSSL (c : Config) : bool := RequireSSL_ (cfg_Etcd c).

Definition CertDir (c : Config) : string := CertDir_ (cfg_Etcd c).

Definition AdvertisePeerURL (c : Config) : string :=
  if PeerRequireSSL (cfg_Etcd c) then
    "https://" +:+ NodeName c +:+ "." +:+ AdvertiseURLsDNSSuffix (cfg_Etcd c) +:+ ":" +:+ Sprintf_d peerPort
  else "http://" +:+ ExternalIP (cfg_Node c) +:+ ":" +:+ Sprintf_d peerPort.

Definition AdvertiseClientURL (c : Config) : string :=
  if RequireSSL_ (cfg_Etcd c) then
    "https://" +:+ NodeName c +:+ "." +:+ AdvertiseURLsDNSSuffix (cfg_Etcd c) +:+ ":" +:+ Sprintf_d clientPort
  else "http://" +:+ ExternalIP (cfg_Node c) +:+ ":" +:+ Sprintf_d clientPort.

Definition ListenPeerURL (c : Config) : string :=
  let protocol := if PeerRequireSSL (cfg_Etcd c) then "https" else "http" in
  protocol +:+ "://" +:+ PeerIP (cfg_Etcd c) +:+ ":" +:+ Sprintf_d peerPort.

Definition ListenClientURL (c : Config) : string :=
  let protocol := if RequireSSL_ (cfg_Etcd c) then "https" else "http" in
  protocol +:+ "://" +:+ ClientIP (cfg_Etcd c) +:+ ":" +:+ Sprintf_d clientPort.

Definition EtcdClientEndpoints (c : Config) : list string :=
  if RequireSSL_ (cfg_Etcd c) then
    ["https://" +:+ AdvertiseURLsDNSSuffix (cfg_Etcd c) +:+ ":" +:+ Sprintf_d clientPort]
  else
    (λ machine, "http://" +:+ machine +:+ ":" +:+ Sprintf_d clientPort) <$> Machines (cfg_Etcd c).

Definition EtcdClientSelfEndpoint (c : Config) : string :=
  if RequireSSL_ (cfg_Etcd c) then
    "https://" +:+ NodeName c +:+ "." +:+ AdvertiseURLsDNSSuffix (cfg_Etcd c) +:+ ":" +:+ Sprintf_d clientPort
  else "http://" +:+ ExternalIP (cfg_Node c) +:+ ":" +:+ Sprintf_d clientPort.

(** ** Lemmas: the pieces of the decoded configuration *)

Ltac solve_lens :=
  intros f Hf j t; unfold Etcd_fields, Node_fields, Config_fields in Hf;
  repeat (apply elem_of_cons in Hf as [->|Hf];
    [destruct t; cbn [jf_decode jf_name mk_field];
     first [rewrite bool_decide_true by done | rewrite bool_decide_false by done];
     cbn -[jdecode]; by destruct (jdecode j _)|]);
  by apply elem_of_nil in Hf.

Lemma lens_Node : field_lens Config_fields "Node" cfg_Node.
Proof. solve_lens. Qed.
Lemma lens_Etcd : field_lens Config_fields "Etcd" cfg_Etcd.
Proof. solve_lens. Qed.

(** What an object leaves in the [Etcd] part: one value per struct tag, the
    tag's last value in the object or the old one. *)
Definition merge_Etcd (kvs : list (string * json)) (old : Etcd) : Etcd :=
  mkEtcd
    (field_value Etcd_fields "etcd_path" kvs (EtcdPath old))
    (field_value Etcd_fields "cert_dir" kvs (CertDir_ old))
    (field_value Etcd_fields "run_dir" kvs (RunDir old))
    (field_value Etcd_fields "data_dir" kvs (DataDir old))
    (field_value Etcd_fields "heartbeat_interval_in_milliseconds" kvs (HeartbeatInterval old))
    (field_value Etcd_fields "election_timeout_in_milliseconds" kvs (ElectionTimeout old))
    (field_value Etcd_fields "peer_require_ssl" kvs (PeerRequireSSL old))
    (field_value Etcd_fields "peer_ip" kvs (PeerIP old))
    (field_value Etcd_fields "require_ssl" kvs (RequireSSL_ old))
    (field_value Etcd_fields "client_ip" kvs (ClientIP old))
    (field_value Etcd_fields "advertise_urls_dns_suffix" kvs (AdvertiseURLsDNSSuffix old))
    (field_value Etcd_fields "Machines" kvs (Machines old))
    (field_value Etcd_fields "enable_debug_logging" kvs (EnableDebugLogging old)).

Lemma Etcd_eta (e : Etcd) :
  e = mkEtcd (EtcdPath e) (CertDir_ e) (RunDir e) (DataDir e) (HeartbeatInterval e)
        (ElectionTimeout e) (PeerRequireSSL e) (PeerIP e) (RequireSSL_ e) (ClientIP e)
        (AdvertiseURLsDNSSuffix e) (Machines e) (EnableDebugLogging e).
Proof. by destruct e. Qed.

Lemma decode_Etcd kvs old :
  (decode_struct "config.Etcd" Etcd_fields (JObject kvs) old).1 = merge_Etcd kvs old.
Proof.
  rewrite (Etcd_eta (decode_struct _ _ _ _).1). unfold merge_Etcd.
  f_equal; apply decode_struct_get; solve_lens.
Qed.

Lemma decode_Config kvs old :
  (decode_struct "config.Config" Config_fields (JObject kvs) old).1 =
  mkConfig (field_value Config_fields "Node" kvs (cfg_Node old))
           (field_value Config_fields "Etcd" kvs (cfg_Etcd old)).
Proof.
  destruct (decode_struct _ _ _ _).1 as [n e] eqn:Hd. f_equal.
  - change n with (cfg_Node (mkConfig n e)). rewrite <-Hd.
    apply decode_struct_get, lens_Node.
  - change e with (cfg_Etcd (mkConfig n e)). rewrite <-Hd.
    apply decode_struct_get, lens_Etcd.
Qed.

#[export] Instance quiet_ConfigFromJSONs {X} p q :
  Quiet (ConfigFromJSONs p q : M X (Config * option error)).
Proof.
  unfold ConfigFromJSONs. apply quiet_bind; [apply _|intros [c err]].
  destruct err; [apply _|]. destruct (Unmarshal _ _) as [cfg [e|]]; [apply _|].
  apply quiet_bind; [apply _|intros [l err]]. destruct err; [apply _|].
  destruct (0 <? _)%nat; [|apply _]. destruct (Unmarshal _ _) as [? [|]]; apply _.
Qed.

(** ** Properties of [ConfigFromJSONs] *)

(** The configuration read by a run that succeeded, from the two files'
    contents. *)
Lemma ConfigFromJSONs_success {X} p q (w w' : World X) cfg :
  ConfigFromJSONs p q w = (Val (cfg, None), w') →
  ∃ c1 c2 cfg1, read_file p w = (c1, None) ∧ read_file q w = (c2, None) ∧
    Unmarshal c1 defaultConfig = (cfg1, None) ∧
    ((c2 = "" ∧ cfg = cfg1) ∨
     (∃ e, c2 ≠ "" ∧ Unmarshal c2 (cfg_Etcd cfg1) = (e, None) ∧ cfg = mkConfig (cfg_Node cfg1) e)).
Proof.
  unfold ConfigFromJSONs. intros ([c1 err]&w1&[= H1 <-]&H)%bind_inv.
  destruct err; [done|]. destruct (Unmarshal c1 defaultConfig) as [cfg1 [e|]] eqn:Hu; [done|].
  apply bind_inv in H as ([c2 err]&w2&[= H2 <-]&H). rewrite read_file_emit in H2.
  destruct err; [done|]. exists c1, c2, cfg1. split_and!; [done..|].
  destruct (Nat.ltb_spec 0 (String.length c2)) as [Hlt|Hle].
  - right. destruct (Unmarshal c2 _) as [e [|]]; run_inv.
    exists e. split_and!; [|done..]. intros ->. simpl in Hlt. lia.
  - left. destruct c2; simpl in Hle; [|lia]. by run_inv.
Qed.

(** C13: a successful [ConfigFromJSONs] gives the fields the link file sets
    precedence over the config file's, and those over the defaults, field by
    field (the last occurrence of a key counts); the [Node] part never depends
    on the link file. *)
Theorem ConfigFromJSONs_precedence {X} p q (w w' : World X) cfg c1 c2 kvs1 :
  ConfigFromJSONs p q w = (Val (cfg, None), w') →
  read_file p w = (c1, None) → parse_json c1 = Some (JObject kvs1) →
  read_file q w = (c2, None) →
  let etcd1 := field_value Config_fields "Etcd" kvs1 (cfg_Etcd defaultConfig) in
  cfg_Node cfg = field_value Config_fields "Node" kvs1 zero_Node ∧
  (c2 = "" → cfg_Etcd cfg = etcd1) ∧
  (∀ kvs2, parse_json c2 = Some (JObject kvs2) → cfg_Etcd cfg = merge_Etcd kvs2 etcd1).
Proof.
  intros H Hc1 Hp1 Hc2. apply ConfigFromJSONs_success in H as (c1'&c2'&cfg1&Hr1&Hr2&Hu&Hcase).
  rewrite Hc1 in Hr1. rewrite Hc2 in Hr2. injection Hr1 as <-. injection Hr2 as <-.
  unfold Unmarshal in Hu. rewrite Hp1 in Hu.
  assert (cfg1 = (decode_struct "config.Config" Config_fields (JObject kvs1) defaultConfig).1)
    as -> by (change (jdecode ?j ?o) with (decode_struct "config.Config" Config_fields j o) in Hu;
              by rewrite Hu).
  rewrite decode_Config in *. destruct Hcase as [[-> ->]|(e&Hne&He&->)]; intros etcd1.
  - split_and!; [done..|]. intros kvs2 Hp2. by vm_compute in Hp2.
  - split_and!; [done|done|]. intros kvs2 Hp2. unfold Unmarshal in He. rewrite Hp2 in He.
    change (jdecode ?j ?o) with (decode_struct "config.Etcd" Etcd_fields j o) in He.
    cbn [cfg_Etcd] in He |- *. rewrite <-decode_Etcd. unfold etcd1. by rewrite He.
Qed.

(** [ConfigFromJSONs] always returns: either without an error, or with the
    zero [Config]; it fails with the prefixed read error of the first file it
    cannot read, and it changes neither files nor processes. *)
Theorem ConfigFromJSONs_errors {X} p q (w : World X) :
  ∃ cfg err w', ConfigFromJSONs p q w = (Val (cfg, err), w') ∧ same_os w w' ∧
    (is_Some err → cfg = zero_Config) ∧
    (∀ e, (read_file p w).2 = Some e →
       err = Some (ErrorString ("error reading config file: " +:+ Error e))) ∧
    (∀ c1 cfg1 e, read_file p w = (c1, None) → Unmarshal c1 defaultConfig = (cfg1, None) →
       (read_file q w).2 = Some e →
       err = Some (ErrorString ("error reading link config file: " +:+ Error e))) ∧
    (∀ c1, read_file p w = (c1, None) → parse_json c1 = None → err = Some SyntaxError).
Proof.
  unfold ConfigFromJSONs. steps.
  destruct (read_file p w) as [c1 [e1|]] eqn:H1; steps.
  { eexists _, _, _. split; [done|]. split; [done|]. naive_solver. }
  destruct (Unmarshal c1 defaultConfig) as [cfg1 [e|]] eqn:Hu; steps.
  { eexists _, _, _. split; [done|]. split; [done|]. split_and!; [naive_solver|naive_solver| |].
    { intros c cfg e' [= <-]. congruence. }
    intros c [= <-] Hp. unfold Unmarshal in Hu. rewrite Hp in Hu. naive_solver. }
  assert (parse_json c1 ≠ None) as Hp.
  { intros Hp. unfold Unmarshal in Hu. by rewrite Hp in Hu. }
  destruct (read_file q w) as [c2 [e2|]] eqn:H2; steps.
  { eexists _, _, _. split; [done|]. split; [done|]. naive_solver. }
  destruct (0 <? String.length c2)%nat; [destruct (Unmarshal c2 _) as [? [|]]|];
    steps; eexists _, _, _; (split; [done|]); (split; [done|]); naive_solver.
Qed.

(** A world with two files, for the witnesses. *)
Definition two_files (c1 c2 : string) : World unit :=
  mkWorld (<[["c.json"] := File c1]> (<[["l.json"] := File c2]> (<[[] := Dir]> ∅)))
    ∅ permissive_kernel tt [].

Definition sample_config : string :=
  single_quoted "{'node': {'name': 'etcd_z1', 'index': 2, 'external_ip': '10.0.0.2'}, 'etcd': {'run_dir': '/run', 'require_ssl': true, 'machines': ['10.0.0.1']}}".
Definition sample_link : string :=
  single_quoted "{'Machines': ['10.0.0.1', '10.0.0.2'], 'require_ssl': false, 'REQUIRE_SSL': true, 'client_ip': null}".

Lemma ConfigFromJSONs_precedence_witness :
  ∃ cfg kvs1, cfg_Node cfg = field_value Config_fields "Node" kvs1 zero_Node ∧
    cfg_Node cfg = mkNode "etcd_z1" 2 "10.0.0.2" ∧
    RequireSSL_ (cfg_Etcd cfg) = true ∧ Machines (cfg_Etcd cfg) = ["10.0.0.1"; "10.0.0.2"] ∧
    RunDir (cfg_Etcd cfg) = "/run" ∧ DataDir (cfg_Etcd cfg) = "/var/vcap/store/etcd".
Proof.
  destruct (ConfigFromJSONs "/c.json" "/l.json" (two_files sample_config sample_link))
    as [[[cfg [e|]]|s|n] w'] eqn:H; [by vm_compute in H| |by vm_compute in H..].
  destruct (parse_json sample_config) as [[| | | | |kvs1]|] eqn:Hp; try by vm_compute in Hp.
  exists cfg, kvs1. split.
  - eapply (ConfigFromJSONs_precedence "/c.json" "/l.json" _ w' cfg sample_config sample_link kvs1);
      [exact H|reflexivity|exact Hp|reflexivity].
  - vm_compute in H. injection H as <- _. by vm_compute.
Defined.

(** ** Properties of the derived names and URLs *)

Lemma NodeName_no_underscore c : has_char "_" (NodeName c) = false.
Proof.
  unfold NodeName. rewrite !has_char_app, has_char_replace by done. simpl.
  by apply Sprintf_d_chars.
Qed.

(** The text after the last dash is determined. *)
Lemma dash_split_inj a b x y :
  has_char "-" x = false → has_char "-" y = false →
  a +:+ "-" +:+ x = b +:+ "-" +:+ y → a = b ∧ x = y.
Proof.
  intros Hx Hy Heq. assert (Split "-" (a +:+ String "-" x) = Split "-" (b +:+ String "-" y))
    as Hs by (f_equal; exact Heq).
  rewrite !Split_app_sep, (Split_id _ x), (Split_id _ y) in Hs by done.
  apply app_inj_tail in Hs as [Hab ->]. split; [|done].
  by rewrite <-(Join_Split "-" a), Hab, Join_Split.
Qed.

(** Two nodes whose names agree after replacing underscores and whose
    indices differ never share a member name: [NodeName] determines the
    dashed job name and the (non-negative, 64-bit) index, and holds no
    underscore. *)
Theorem NodeName_inj c d :
  0 ≤ Index (cfg_Node c) ≤ max_int → 0 ≤ Index (cfg_Node d) ≤ max_int →
  NodeName c = NodeName d →
  Index (cfg_Node c) = Index (cfg_Node d) ∧
  replace_all "_" "-" (Name (cfg_Node c)) = replace_all "_" "-" (Name (cfg_Node d)) ∧
  has_char "_" (NodeName c) = false.
Proof.
  intros Hc Hd Heq.
  assert (∀ z, 0 ≤ z ≤ max_int → in_int z = true ∧ has_char "-" (Sprintf_d z) = false) as Hz.
  { intros z Hz. split.
    - unfold in_int. apply andb_true_iff. split; apply Z.leb_le; [|lia].
      unfold min_int. lia.
    - eapply all_chars_has; [apply Sprintf_d_digits; lia|done]. }
  destruct (Hz _ Hc) as [Hic Hdc], (Hz _ Hd) as [Hid Hdd].
  apply dash_split_inj in Heq as [Hn Hi]; [|done..].
  split_and!; [by apply Sprintf_d_inj|done|apply NodeName_no_underscore].
Qed.

Lemma NodeName_inj_witness :
  let c := mkConfig (mkNode "etcd_z1" 3 "") zero_Etcd in
  let d := mkConfig (mkNode "etcd-z1" 3 "") zero_Etcd in
  Index (cfg_Node c) = Index (cfg_Node d) ∧
  replace_all "_" "-" (Name (cfg_Node c)) = replace_all "_" "-" (Name (cfg_Node d)) ∧
  has_char "_" (NodeName c) = false.
Proof.
  intros c d. apply (NodeName_inj c d); [by vm_compute|by vm_compute|by vm_compute].
Defined.

(** Within one deployment (one DNS suffix and one TLS setting) the peer URL
    a node advertises identifies it: with peer TLS two configurations advertise
    the same peer URL exactly when they have the same member name, without it
    exactly when they have the same external IP. *)
Theorem AdvertisePeerURL_identifies c d :
  PeerRequireSSL (cfg_Etcd c) = PeerRequireSSL (cfg_Etcd d) →
  AdvertiseURLsDNSSuffix (cfg_Etcd c) = AdvertiseURLsDNSSuffix (cfg_Etcd d) →
  AdvertisePeerURL c = AdvertisePeerURL d ↔
  if PeerRequireSSL (cfg_Etcd c) then NodeName c = NodeName d
  else ExternalIP (cfg_Node c) = ExternalIP (cfg_Node d).
Proof.
  intros Hssl Hdns. unfold AdvertisePeerURL. rewrite <-Hssl, <-Hdns.
  destruct (PeerRequireSSL (cfg_Etcd c)); (split; [|by intros ->]);
    intros Heq%app_inj_l_s; by apply app_inj_r_s in Heq.
Qed.

Lemma AdvertisePeerURL_identifies_witness :
  let c := mkConfig (mkNode "etcd" 0 "10.0.0.1") zero_Etcd in
  let d := mkConfig (mkNode "etcd" 1 "10.0.0.2") zero_Etcd in
  AdvertisePeerURL c ≠ AdvertisePeerURL d.
Proof.
  intros c d H. apply (AdvertisePeerURL_identifies c d) in H; [by vm_compute in H|done|done].
Defined.

(** The scheme of every URL follows the TLS switches: the peer listener and
    the advertised peer URL are [https] exactly when [peer_require_ssl] is set,
    the client listener, the advertised client URL and every endpoint the etcd
    client dials exactly when [require_ssl] is set; and the client's self
    endpoint is the client URL the node advertises. *)
Theorem URL_schemes c :
  let https s := HasPrefix s "https://" in
  let http s := HasPrefix s "http://" in
  https (ListenPeerURL c) = PeerRequireSSL (cfg_Etcd c) ∧
  https (AdvertisePeerURL c) = PeerRequireSSL (cfg_Etcd c) ∧
  https (ListenClientURL c) = RequireSSL c ∧
  https (AdvertiseClientURL c) = RequireSSL c ∧
  http (ListenPeerURL c) = negb (PeerRequireSSL (cfg_Etcd c)) ∧
  http (ListenClientURL c) = negb (RequireSSL c) ∧
  EtcdClientSelfEndpoint c = AdvertiseClientURL c ∧
  ∀ e, e ∈ EtcdClientEndpoints c → https e = RequireSSL c.
Proof.
  intros https http. unfold ListenPeerURL, AdvertisePeerURL, ListenClientURL,
    AdvertiseClientURL, EtcdClientSelfEndpoint, EtcdClientEndpoints, RequireSSL.
  destruct (PeerRequireSSL _), (RequireSSL_ _); split_and!; try done.
  all: intros e; first [by intros ->%list_elem_of_singleton|by intros (m&->&_)%list_elem_of_fmap].
Qed.

(** The pid file is the entry [etcd.pid] of the run directory, however the
    directory is spelled. *)
Theorem PidFile_in_RunDir c cwd :
  RunDir (cfg_Etcd c) ≠ "" →
  resolve cwd (PidFile c) = resolve cwd (RunDir (cfg_Etcd c)) ++ [etcdPidFilename].
Proof. intros H. apply resolve_Join; [done|by vm_compute]. Qed.

Lemma PidFile_in_RunDir_witness :
  resolve [] (PidFile defaultConfig) = ["var"; "vcap"; "sys"; "run"; "etcd"; "etcd.pid"].
Proof. rewrite (PidFile_in_RunDir defaultConfig []); [done|done]. Defined.
