(* ===== verification/Client.v ===== *)
(** * [src/etcdfab/client/etcd_client.go]

    The wrapper around the CoreOS etcd client.  That library (package
    [github.com/coreos/etcd/client] and [pkg/transport]) is not under [src/]:
    it is the parameter [CoreOS], a record of the functions the wrapper calls
    on a remote state [R].  A client value of the library is an interface, so
    it may be nil; a call on nil panics. *)
From S2P Require Import Prelude GoStrings GoPath Machine GoJson Config.

Open Scope Z_scope.

(** ** The library *)

(** [coreosetcdclient.Member]. *)
Record RawMember := mkRawMember {
  raw_ID : string;
  raw_Name : string;
  raw_PeerURLs : list string;
  raw_ClientURLs : list string
}.

(** The fields of [transport.TLSInfo] the wrapper sets. *)
Record TLSInfo := mkTLSInfo {
  CAFile : string;
  CertFile : string;
  KeyFile : string;
  ClientCertAuth : bool
}.

(** [coreosetcdclient.Config]; the transport is nil in the zero value. *)
Record ClientConfig (T : Type) := mkClientConfig {
  Endpoints : list string;
  Transport : option T;
  HeaderTimeoutPerRequest : Z
}.
Arguments mkClientConfig {T} _ _ _.
Arguments Endpoints {T} _.
Arguments Transport {T} _.
Arguments HeaderTimeoutPerRequest {T} _.

Record CoreOS (R T C : Type) := mkCoreOS {
  DefaultTransport : T;
  lib_NewTransport : gmap (list string) node → TLSInfo → T * option error;
  lib_New : ClientConfig T → option C * option error;
  lib_List : C → R → (list RawMember * option error) * R;
  lib_Add : C → string → R → (RawMember * option error) * R;
  lib_Remove : C → string → R → option error * R;
  lib_Get : C → string → R → option error * R
}.
Arguments DefaultTransport {R T C} _.
Arguments lib_NewTransport {R T C} _ _ _.
Arguments lib_New {R T C} _ _.
Arguments lib_List {R T C} _ _ _.
Arguments lib_Add {R T C} _ _ _ _.
Arguments lib_Remove {R T C} _ _ _ _.
Arguments lib_Get {R T C} _ _ _ _.

(** ** Data *)

Record Member := mkMember {
  m_ID : string;
  m_Name : string;
  m_PeerURLs : list string;
  m_ClientURLs : list string
}.

#[export] Instance Member_eq_dec : EqDecision Member.
Proof. solve_decision. Defined.

Definition zero_Member : Member := mkMember "" "" [] [].

(** The interface the wrapper is configured from. *)
Class ClientConfigurer (A : Type) := {
  cc_EtcdClientEndpoints : A → list string;
  cc_EtcdClientSelfEndpoint : A → string;
  cc_RequireSSL : A → bool;
  cc_CertDir : A → string
}.

#[export] Instance Config_configurer : ClientConfigurer Config := {|
  cc_EtcdClientEndpoints := EtcdClientEndpoints;
  cc_EtcdClientSelfEndpoint := EtcdClientSelfEndpoint;
  cc_RequireSSL := RequireSSL;
  cc_CertDir := CertDir
|}.

Record EtcdClient (T C : Type) := mkEtcdClient {
  coreosEtcdClient : option C;
  clientConfig : ClientConfig T;
  selfEndpoint : string
}.
Arguments mkEtcdClient {T C} _ _ _.
Arguments coreosEtcdClient {T C} _.
Arguments clientConfig {T C} _.
Arguments selfEndpoint {T C} _.

(** What the program's collaborators share: the one [*EtcdClient] that [main]
    hands to the application and to both controllers, and the remote state. *)
Record Services (R T C : Type) := mkServices {
  sv_client : EtcdClient T C;
  sv_remote : R
}.
Arguments mkServices {R T C} _ _.
Arguments sv_client {R T C} _.
Arguments sv_remote {R T C} _.

Definition NewEtcdClient {T C} : EtcdClient T C := mkEtcdClient None (mkClientConfig [] None 0) "".

Definition member_value (m : Member) : list (string * value) :=
  [("ID", VStr (m_ID m)); ("Name", VStr (m_Name m)); ("PeerURLs", VStrs (m_PeerURLs m));
   ("ClientURLs", VStrs (m_ClientURLs m))].

(** The conversion of the library's member record. *)
Definition of_raw (m : RawMember) : Member :=
  mkMember (raw_ID m) (raw_Name m) (raw_PeerURLs m) (raw_ClientURLs m).

(** ** Operations *)

Section client.
Context {R T C : Type} (lib : CoreOS R T C).
Notation E := (EtcdClient T C).
Notation MS := (M (Services R T C)).

Definition shared : MS E := s ← get_svc; mret (sv_client s).
Definition set_shared (e : E) : MS unit :=
  s ← get_svc; put_svc (mkServices e (sv_remote s)).

(** A request of the library on the remote state; [nil] panics. *)
Definition request {A} (e : E) (op : string) (args : list string)
    (call : C → R → A * R) : MS A :=
  match coreosEtcdClient e with
  | None => panic "runtime error: invalid memory address or nil pointer dereference"
  | Some c =>
      _ ← tell (Call op args);
      s ← get_svc;
      let '(a, r) := call c (sv_remote s) in
      _ ← put_svc (mkServices (sv_client s) r);
      mret a
  end.

(** [newTransport]: the certificate files are read from the file system. *)
Definition newTransport (info : TLSInfo) : MS (T * option error) :=
  λ w, (Val (lib_NewTransport lib (fs w) info), w).

(** The TLS files of the client, in the certificate directory. *)
Definition client_tls_info {A} `{ClientConfigurer A} (etcdfabConfig : A) : TLSInfo :=
  mkTLSInfo (filepath_Join [cc_CertDir etcdfabConfig; "server-ca.crt"])
    (filepath_Join [cc_CertDir etcdfabConfig; "client.crt"])
    (filepath_Join [cc_CertDir etcdfabConfig; "client.key"])
    (cc_RequireSSL etcdfabConfig).

Definition Configure {A} `{ClientConfigurer A} (etcdfabConfig : A) : MS (option error) :=
  let endpoints := cc_EtcdClientEndpoints etcdfabConfig in
  e ← shared;
  let e := mkEtcdClient (coreosEtcdClient e) (clientConfig e)
             (cc_EtcdClientSelfEndpoint etcdfabConfig) in
  _ ← set_shared e;
  _ ← log_info "etcd-client.configure.config"
        [("endpoints", VStrs endpoints); ("self-endpoint", VStr (selfEndpoint e))];
  '(tns, err) ←
    (if cc_RequireSSL etcdfabConfig then newTransport (client_tls_info etcdfabConfig)
    else mret (DefaultTransport lib, None));
  match err with
  | Some err => mret (Some err)
  | None =>
      let cfg := mkClientConfig endpoints (Some tns) Second in
      let '(c, err) := lib_New lib cfg in
      _ ← set_shared (mkEtcdClient c cfg (selfEndpoint e));
      match err with Some err => mret (Some err) | None => mret None end
  end.

(** [e.Self()]: a copy of the client that talks to this node only. *)
Definition Self (e : E) : option E * option error :=
  let cfg := mkClientConfig [selfEndpoint e] (Transport (clientConfig e))
               (HeaderTimeoutPerRequest (clientConfig e)) in
  let '(c, err) := lib_New lib cfg in
  match err with
  | Some err => (None, Some err)
  | None => (Some (mkEtcdClient c cfg (selfEndpoint e)), None)
  end.

Definition MemberList (e : E) : MS (list Member * option error) :=
  '(memberList, err) ← request e "members.list" [] (lib_List lib);
  match err with
  | Some err => mret ([], Some err)
  | None => mret (foldl (λ members m, members ++ [of_raw m]) [] memberList, None)
  end.

Definition MemberAdd (e : E) (peerURL : string) : MS (Member * option error) :=
  '(m, err) ← request e "members.add" [peerURL] (λ c, lib_Add lib c peerURL);
  match err with
  | Some err => mret (zero_Member, Some err)
  | None => mret (of_raw m, None)
  end.

Definition MemberRemove (e : E) (memberID : string) : MS (option error) :=
  err ← request e "members.remove" [memberID] (λ c, lib_Remove lib c memberID);
  match err with Some err => mret (Some err) | None => mret None end.

Definition Keys (e : E) : MS (option error) :=
  request e "keys.get" [""] (λ c, lib_Get lib c "").
End client.

(** ** A small etcd library, for the witnesses

    A cluster that answers or not, whose key space becomes readable after a
    number of failed reads, and whose new members have no name. *)
Module Sim.
Record state := mkState {
  members : list RawMember;
  up : bool;
  unreadable : nat
}.

Definition down : error := ErrorString "client: etcd cluster is unavailable or misconfigured".

Definition lib : CoreOS state string (list string) := {|
  DefaultTransport := "default";
  lib_NewTransport f info :=
    match f !! resolve [] (CAFile info) with
    | Some (File _) => ("tls " +:+ CAFile info, None)
    | _ => ("", Some (PathError "open" (CAFile info) ENOENT))
    end;
  lib_New cfg :=
    match Endpoints cfg with
    | [] => (None, Some (ErrorString "client: no endpoints available"))
    | l => (Some l, None)
    end;
  lib_List _ s := (if up s then (members s, None) else ([], Some down), s);
  lib_Add _ url s :=
    if up s then
      let m := mkRawMember ("id-" +:+ url) "" [url] [] in
      ((m, None), mkState (members s ++ [m]) true (unreadable s))
    else ((mkRawMember "" "" [] [], Some down), s);
  lib_Remove _ id s :=
    if up s && existsb (λ m, bool_decide (raw_ID m = id)) (members s) then
      (None, mkState (List.filter (λ m, negb (bool_decide (raw_ID m = id))) (members s))
               true (unreadable s))
    else (Some (ErrorString "405: Method Not Allowed"), s);
  lib_Get _ _ s :=
    match unreadable s with
    | O => (None, s)
    | S n => (Some down, mkState (members s) (up s) n)
    end
|}.

Definition services (l : list RawMember) (n : nat) : Services state string (list string) :=
  mkServices NewEtcdClient (mkState l true n).
End Sim.

(** ** Lemmas *)

Lemma foldl_snoc_map {A B} (f : A → B) l acc :
  foldl (λ r x, r ++ [f x]) acc l = acc ++ (f <$> l).
Proof.
  revert acc. induction l as [|x l IH]; intros acc; simpl; [by rewrite app_nil_r|].
  by rewrite IH, <-app_assoc.
Qed.

Section laws.
Context {R T C : Type} (lib : CoreOS R T C).

#[export] Instance quiet_request {A} (e : EtcdClient T C) op args (call : C → R → A * R) :
  Quiet (request e op args call).
Proof.
  unfold request. destruct (coreosEtcdClient e) as [c|]; [|apply _].
  apply quiet_bind; [apply _|intros _]. apply quiet_bind; [apply _|intros s].
  destruct (call c (sv_remote s)). apply _.
Qed.
#[export] Instance quiet_MemberList e : Quiet (MemberList lib e).
Proof. unfold MemberList. apply quiet_bind; [apply _|intros [? []]; apply _]. Qed.
#[export] Instance quiet_MemberAdd e u : Quiet (MemberAdd lib e u).
Proof. unfold MemberAdd. apply quiet_bind; [apply _|intros [? []]; apply _]. Qed.
#[export] Instance quiet_MemberRemove e i : Quiet (MemberRemove lib e i).
Proof. unfold MemberRemove. apply _. Qed.
#[export] Instance quiet_Keys e : Quiet (Keys lib e).
Proof. unfold Keys. apply _. Qed.

#[export] Instance quiet_Configure {A} `{ClientConfigurer A} (cfg : A) :
  Quiet (Configure lib cfg).
Proof.
  unfold Configure, shared, set_shared. apply quiet_bind; [apply _|intros e].
  apply quiet_bind; [apply _|intros _]. apply quiet_bind; [apply _|intros _].
  apply quiet_bind; [destruct (cc_RequireSSL cfg); [by intros w|apply _]|].
  intros [tns [err|]]; [apply _|]. destruct (lib_New lib _) as [c err].
  destruct err; apply _.
Qed.

(** A request on a client that was configured. *)
Definition requested (op : string) (args : list string) (r : R) (w : World (Services R T C)) :=
  set_svc (mkServices (sv_client (svc w)) r) (emit (Call op args) w).

Lemma run_request {A} (e : EtcdClient T C) c op args (call : C → R → A * R) w :
  coreosEtcdClient e = Some c →
  request e op args call w =
  (Val (call c (sv_remote (svc w))).1,
   requested op args (call c (sv_remote (svc w))).2 w).
Proof.
  intros He. unfold request. rewrite He. unfold mbind, M_bind. simpl.
  by destruct (call c (sv_remote (svc w))).
Qed.

(** *** Properties *)

(** [Configure], on every branch.  It never panics and touches neither
    files, processes nor the cluster.  The self endpoint is always replaced;
    when the TLS transport cannot be built its error is returned and the
    previous client stays in use; otherwise the client becomes the one the
    library builds for the configured endpoints, the default transport
    without TLS or the transport of the certificate directory with TLS, and
    a timeout of one second. *)
Theorem Configure_spec {A} `{ClientConfigurer A} (cfg : A) w :
  let '(tns, terr) :=
    if cc_RequireSSL cfg then lib_NewTransport lib (fs w) (client_tls_info cfg)
    else (DefaultTransport lib, None) in
  let config := mkClientConfig (cc_EtcdClientEndpoints cfg) (Some tns) Second in
  let old := sv_client (svc w) in
  ∃ err e w', Configure lib cfg w = (Val err, w') ∧ same_os w w' ∧
    svc w' = mkServices e (sv_remote (svc w)) ∧
    selfEndpoint e = cc_EtcdClientSelfEndpoint cfg ∧
    match terr with
    | Some terr =>
        err = Some terr ∧ coreosEtcdClient e = coreosEtcdClient old ∧
        clientConfig e = clientConfig old
    | None =>
        (coreosEtcdClient e, err) = lib_New lib config ∧ clientConfig e = config
    end.
Proof.
  unfold Configure, shared, set_shared, mbind, M_bind, newTransport. simpl.
  destruct (cc_RequireSSL cfg); [destruct (lib_NewTransport _ _ _) as [tns [terr|]]|];
    simpl; [|destruct (lib_New lib _) as [c [err|]]..];
    eexists _, _, _; split_and!; done.
Qed.

(** [Self] gives a client that dials the self endpoint and nothing else,
    with the transport (so the TLS identity) and the timeout of the client
    it is made from; after a successful [Configure] that endpoint is the
    client URL the node advertises, and a second [Self] gives the same
    client again. *)
Theorem Self_dials_self cfg w w' :
  Configure lib cfg w = (Val None, w') →
  ∀ e, Self lib (sv_client (svc w')) = (Some e, None) →
  Endpoints (clientConfig e) = [AdvertiseClientURL cfg] ∧
  Transport (clientConfig e) = Transport (clientConfig (sv_client (svc w'))) ∧
  HeaderTimeoutPerRequest (clientConfig e) = Second ∧
  lib_New lib (clientConfig e) = (coreosEtcdClient e, None) ∧
  Self lib e = (Some e, None).
Proof.
  intros Hc e. pose proof (Configure_spec cfg w) as Hs. revert Hs.
  destruct (if cc_RequireSSL cfg then _ else _) as [tns terr].
  intros (err&e0&w1&Hc'&_&Hsvc&Hself&Hcase). rewrite Hc in Hc'. injection Hc' as <- <-.
  destruct terr; [naive_solver|]. destruct Hcase as [_ Hcfg]. rewrite Hsvc. simpl.
  unfold Self. rewrite Hcfg, Hself. simpl.
  destruct (lib_New lib _) as [c [err|]] eqn:Hn; [done|]. intros [= <-].
  cbn [clientConfig coreosEtcdClient selfEndpoint Endpoints Transport HeaderTimeoutPerRequest].
  rewrite !Hn. split_and!; try done.
Qed.

(** [MemberList] converts the library's records field by field and in
    order; on an error it returns an empty list with the library's error. *)
Theorem MemberList_spec e c w :
  coreosEtcdClient e = Some c →
  let '((raws, err), r) := lib_List lib c (sv_remote (svc w)) in
  MemberList lib e w =
  (Val (match err with Some err => ([], Some err) | None => (of_raw <$> raws, None) end),
   requested "members.list" [] r w).
Proof.
  intros Hc. unfold MemberList. step (run_request e c "members.list" [] (lib_List lib) w Hc).
  destruct (lib_List lib c (sv_remote (svc w))) as [[raws [err|]] r]; simpl; [done|].
  by rewrite foldl_snoc_map.
Qed.
End laws.

(** ** Witnesses *)

Module ClientWitness.
Definition w0 : World (Services Sim.state string (list string)) :=
  mkWorld ∅ ∅ permissive_kernel
    (Sim.services [mkRawMember "a" "etcd-0" ["http://10.0.0.1:7001"] ["http://10.0.0.1:4001"]] 0) [].
Definition cfg : Config :=
  mkConfig (mkNode "etcd" 0 "10.0.0.1")
    (mkEtcd "/etcd" "/certs" "/run" "/data" 50 1000 false "" false "" "" ["10.0.0.1"; "10.0.0.2"] false).
Definition w1 := (Configure Sim.lib cfg w0).2.
Definition e1 := default NewEtcdClient (Self Sim.lib (sv_client (svc w1))).1.
End ClientWitness.

Lemma Self_dials_self_witness :
  Endpoints (clientConfig (sv_client (svc ClientWitness.w1))) =
    ["http://10.0.0.1:4001"; "http://10.0.0.2:4001"] ∧
  Endpoints (clientConfig ClientWitness.e1) = ["http://10.0.0.1:4001"].
Proof.
  split; [by vm_compute|].
  destruct (Self_dials_self Sim.lib ClientWitness.cfg ClientWitness.w0 ClientWitness.w1
    ltac:(by vm_compute) ClientWitness.e1 ltac:(by vm_compute)) as [H _].
  exact H.
Defined.

Lemma MemberList_spec_witness :
  MemberList Sim.lib (sv_client (svc ClientWitness.w1)) ClientWitness.w1 =
  (Val ([mkMember "a" "etcd-0" ["http://10.0.0.1:7001"] ["http://10.0.0.1:4001"]], None),
   requested "members.list" [] (sv_remote (svc ClientWitness.w0)) ClientWitness.w1).
Proof.
  pose proof (MemberList_spec Sim.lib (sv_client (svc ClientWitness.w1))
    ["http://10.0.0.1:4001"; "http://10.0.0.2:4001"] ClientWitness.w1 ltac:(by vm_compute)) as H.
  exact H.
Defined.
