(* ===== verification/Sync.v ===== *)
(** * [src/etcdfab/sync/controller.go]

    The controller that waits, after etcd was started, until the node itself
    serves its key space.  The etcd client is an interface of the controller:
    the class [SyncClient]; the function that sleeps is a parameter. *)
From S2P Require Import Prelude GoStrings GoPath Machine Delay Config Client.

Open Scope Z_scope.

Definition maxSyncCalls : nat := 20.

(** The client interface: [Self] gives a client of this node (of type [E]). *)
Class SyncClient (X E : Type) := {
  sy_Self : M X (option E * option error);
  sy_Keys : option E → M X (option error)
}.

(** The interface only talks to the cluster. *)
Class SyncClientLaws (X E : Type) `{SyncClient X E} := {
  sy_Self_quiet :: Quiet (sy_Self : M X (option E * option error));
  sy_Keys_quiet e :: Quiet (sy_Keys e : M X (option error))
}.

(** The controller's fields: the client and the logger come with the class and the
    monad, the function that sleeps is kept. *)
Record Controller (X : Type) := mkController { c_sleep : Z → M X unit }.
Arguments mkController {X} _.
Arguments c_sleep {X} _ _.
Definition NewController {X} (sleep : Z → M X unit) : Controller X := mkController sleep.

Section sync.
Context {X E : Type} `{SyncClient X E} (sleep : Z → M X unit).

(** The loop [for i := 0; i < maxSyncCalls; i++], with [n] rounds left and
    the error of the previous round. *)
Fixpoint verify_loop (e : option E) (n : nat) (err : option error) : M X (option error) :=
  match n with
  | O => mret err
  | S n' =>
      _ ← log_info "sync.verify-synced.check-keys"
            [("index", VInt (Z.of_nat (maxSyncCalls - n)))];
      err ← sy_Keys e;
      match err with
      | None => mret None
      | Some err =>
          _ ← log_error "sync.verify-synced.check-keys.failed" err;
          _ ← sleep (1 * Second);
          verify_loop e n' (Some err)
      end
  end.

Definition VerifySynced : M X (option error) :=
  _ ← log_info "sync.verify-synced" [("max-sync-calls", VInt (Z.of_nat maxSyncCalls))];
  '(selfEtcdClient, err) ← sy_Self;
  match err with
  | Some err => mret (Some err)
  | None => verify_loop selfEtcdClient maxSyncCalls None
  end.

#[export] Instance quiet_verify_loop e n err `{!SyncClientLaws X E} `{!∀ d, Quiet (sleep d)} :
  Quiet (verify_loop e n err).
Proof.
  revert err. induction n as [|n IH]; intros err; [apply _|].
  apply quiet_bind; [apply _|intros _]. apply quiet_bind; [apply _|intros [e'|]]; [|apply _].
  apply quiet_bind; [apply _|intros _]. apply quiet_bind; [apply _|intros _]. apply IH.
Qed.

#[export] Instance quiet_VerifySynced `{!SyncClientLaws X E} `{!∀ d, Quiet (sleep d)} :
  Quiet VerifySynced.
Proof.
  unfold VerifySynced. apply quiet_bind; [apply _|intros _].
  apply quiet_bind; [apply _|intros [s [e|]]]; apply _.
Qed.
End sync.

(** ** The wrapper of [Client.v] as the interface *)

#[export] Instance EtcdClient_SyncClient {R T C} (lib : CoreOS R T C) :
  SyncClient (Services R T C) (EtcdClient T C) := {|
  sy_Self := e ← shared; mret (Self lib e);
  sy_Keys e :=
    match e with
    | Some e => Keys lib e
    | None => panic "runtime error: invalid memory address or nil pointer dereference"
    end
|}.

#[export] Instance EtcdClient_SyncClientLaws {R T C} (lib : CoreOS R T C) :
  @SyncClientLaws (Services R T C) (EtcdClient T C) (EtcdClient_SyncClient lib).
Proof.
  split; [apply _|]. intros [e|]; simpl; apply _.
Qed.

(** ** Abstract specification

    An environment is the sequence of answers that [Keys] gives: [f k] answers
    call number [k].  [script] is the client that plays it and counts the
    calls. *)
Module Script.
Definition client (self : option error) (f : nat → option error) : SyncClient nat unit := {|
  sy_Self := mret (match self with Some e => (None, Some e) | None => (Some tt, None) end);
  sy_Keys _ := k ← get_svc; _ ← put_svc (S k); mret (f k)
|}.

(** The first answer among [k, k+1, ..., k+n-1] that is no error. *)
Fixpoint first_ok (f : nat → option error) (k n : nat) : option nat :=
  match n with
  | O => None
  | S n' => match f k with None => Some k | Some _ => first_ok f (S k) n' end
  end.

(** What one round that fails adds to the log. *)
Definition failed_round (i : nat) (e : error) : list event :=
  [Info "sync.verify-synced.check-keys" [("index", VInt (Z.of_nat i))];
   LogError "sync.verify-synced.check-keys.failed" e; Slept (1 * Second)].
End Script.

Lemma first_ok_Some f k n j :
  Script.first_ok f k n = Some j ↔
  (k ≤ j < k + n)%nat ∧ f j = None ∧ ∀ i, (k ≤ i < j)%nat → f i ≠ None.
Proof.
  revert k. induction n as [|n IH]; intros k; simpl; [split; [done|lia]|].
  destruct (f k) as [e|] eqn:Hk.
  - rewrite IH. split; intros (?&?&Hb); (split; [|split; [done|]]).
    + lia.
    + intros i ?. destruct (decide (i = k)) as [->|]; [congruence|]. apply Hb. lia.
    + destruct (decide (j = k)) as [->|]; [congruence|]. lia.
    + intros i ?. apply Hb. lia.
  - split.
    + intros [= <-]. split_and!; [lia..|done|]. intros; lia.
    + intros (?&?&Hb). f_equal. destruct (decide (k = j)); [done|].
      exfalso. apply (Hb k); [lia|done].
Qed.

Section script.
Context (disableDelay : string) (self : option error) (f : nat → option error).
Let client := Script.client self f.
Existing Instance client.

Lemma verify_loop_run n k err (w : World nat) :
  svc w = k →
  ∃ w', verify_loop (Delay.sleep disableDelay) (Some tt) n err w =
    (Val (match Script.first_ok f k n with
          | Some _ => None
          | None => if bool_decide (n = O) then err else f (k + n - 1)%nat
          end), w') ∧
  let rounds := match Script.first_ok f k n with Some j => (j - k)%nat | None => n end in
  svc w' = (match Script.first_ok f k n with Some j => S j | None => (k + n)%nat end) ∧
  slept (log w') = slept (log w) + waits disableDelay (Z.of_nat rounds * Second) ∧ same_os w w'.
Proof.
  revert k err w. induction n as [|n IH]; intros k err w Hk.
  { exists w. simpl. rewrite waits_0. split_and!; [done|lia|lia|done]. }
  cbn [verify_loop Script.first_ok]. steps.
  set (w1 := emit (Info _ _) w).
  assert (sy_Keys (SyncClient := client) (Some tt) w1 = (Val (f k), set_svc (S k) w1)) as Hrun.
  { simpl. unfold mbind, M_bind. simpl. by rewrite <-Hk. }
  assert (slept (log w1) = slept (log w)) as Hw1.
  { unfold w1. simpl log. rewrite slept_app. simpl. lia. }
  step Hrun. destruct (f k) as [e|] eqn:Hf.
  - steps. set (w2 := emit _ _).
    assert (slept (log w2) = slept (log w)) as Hw2.
    { rewrite <-Hw1. unfold w2. simpl log. rewrite slept_app. simpl. lia. }
    destruct (run_Delay disableDelay (1 * Second) w2) as (w3&Hd&Hos3&Hs3&Hsl3). step Hd.
    destruct (IH (S k) (Some e) w3) as (w'&->&Hs&Hsl&Hos); [by rewrite Hs3|].
    exists w'. split; [|split_and!].
    + do 2 f_equal. destruct (Script.first_ok f (S k) n); [done|].
      destruct n as [|n]; simpl; [rewrite <-Hf|]; f_equal; lia.
    + rewrite Hs. destruct (Script.first_ok f (S k) n); lia.
    + rewrite Hsl, Hsl3, Hw2, <-Z.add_assoc, <-waits_add. do 2 f_equal. unfold Second.
      destruct (Script.first_ok f (S k) n) as [j|] eqn:Hj; [apply first_ok_Some in Hj|]; lia.
    + by etrans; [|exact Hos].
  - exists (set_svc (S k) w1). rewrite Nat.sub_diag. simpl Z.of_nat. rewrite waits_0.
    split_and!; [done|done|by rewrite Z.add_0_r|done].
Qed.
End script.

(** ** Properties *)

(** C11: [VerifySynced] against any answer of [Self] and any sequence [f] of
    answers of this node's key space.  Without a client it returns that error
    and reads nothing.  Otherwise it returns no error exactly when one of the
    first 20 reads succeeds, and the error of the 20th if none does; it stops at
    the first success (so it makes one call more than there are failures before
    it, 20 at most) and sleeps one second after every failure, the 20th
    included, unless delays are switched off.  The loop always ends. *)
Theorem VerifySynced_script disableDelay self f (w : World nat) :
  svc w = O →
  ∃ r w', VerifySynced (H := Script.client self f) (Delay.sleep disableDelay) w = (Val r, w') ∧
  match self, Script.first_ok f 0 20 with
  | Some e, _ => r = Some e ∧ svc w' = O ∧ slept (log w') = slept (log w)
  | None, Some j =>
      r = None ∧ svc w' = S j ∧
      slept (log w') = slept (log w) + waits disableDelay (Z.of_nat j * Second)
  | None, None =>
      r = f 19%nat ∧ svc w' = 20%nat ∧
      slept (log w') = slept (log w) + waits disableDelay (20 * Second)
  end.
Proof.
  intros Hw. unfold VerifySynced. steps. set (w1 := emit _ w).
  assert (slept (log w1) = slept (log w)) as Hw1.
  { unfold w1. simpl log. rewrite slept_app. simpl. lia. }
  destruct self as [e|]; [by exists (Some e), w1|].
  assert (sy_Self (SyncClient := Script.client None f) w1 = (Val (Some tt, None), w1)) as Hself
    by done.
  step Hself.
  destruct (verify_loop_run disableDelay None f maxSyncCalls 0 None w1 Hw) as (w'&->&Hs&Hsl&_).
  eexists _, w'. split; [done|]. rewrite Hs, Hsl, Hw1. unfold maxSyncCalls.
  destruct (Script.first_ok f 0 20) as [j|]; [by rewrite Nat.sub_0_r|done].
Qed.

Lemma VerifySynced_script_witness :
  let f k := if (k <? 3)%nat then Some (ErrorString "501") else None in
  ∃ r w', VerifySynced (H := Script.client None f) (Delay.sleep "")
      (mkWorld ∅ ∅ permissive_kernel 0%nat []) = (Val r, w') ∧
    r = None ∧ svc w' = 4%nat ∧ slept (log w') = 3 * Second.
Proof.
  intros f.
  destruct (VerifySynced_script "" None f (mkWorld ∅ ∅ permissive_kernel 0%nat []) eq_refl)
    as (r&w'&Hr&H1&H2&H3).
  exists r, w'. split_and!; [exact Hr|exact H1|exact H2|exact H3].
Defined.
