(* ===== verification/Cluster.v ===== *)
(** * [src/etcdfab/cluster/controller.go]

    The controller that decides, before etcd is started, whether this node
    bootstraps a new cluster or joins an existing one.  The etcd client is an
    interface of the controller: the class [ClusterClient]; the function that
    sleeps is a parameter. *)
From S2P Require Import Prelude GoStrings GoPath Machine Delay Config Client Sync.

Open Scope Z_scope.

Record InitialClusterState := mkInitialClusterState { Members : string; State : string }.

Definition zero_InitialClusterState : InitialClusterState := mkInitialClusterState "" "".

Class ClusterClient (X : Type) := {
  cl_MemberList : M X (list Member * option error);
  cl_MemberAdd : string → M X (Member * option error)
}.

Class ClusterClientLaws (X : Type) `{ClusterClient X} := {
  cl_MemberList_quiet :: Quiet (cl_MemberList : M X (list Member * option error));
  cl_MemberAdd_quiet u :: Quiet (cl_MemberAdd u : M X (Member * option error))
}.

(** One entry of the [--initial-cluster] flag: [fmt.Sprintf("%s=%s", _, _)]. *)
Definition entry (name url : string) : string := name +:+ "=" +:+ url.

(** The controller's fields: the client and the logger come with the class and the
    monad, the function that sleeps is kept. *)
Record Controller (X : Type) := mkController { c_sleep : Z → M X unit }.
Arguments mkController {X} _.
Arguments c_sleep {X} _ _.
Definition NewController {X} (sleep : Z → M X unit) : Controller X := mkController sleep.

Section cluster.
Context {X : Type} `{ClusterClient X} (sleep : Z → M X unit).

(** The loop [for i := 0; i < 5; i++] with [n] rounds left; the value of the
    last call is kept even when it failed. *)
Fixpoint member_list_loop (n : nat) (priorMemberList : list Member) : M X (list Member) :=
  match n with
  | O => mret priorMemberList
  | S n' =>
      _ ← log_info "cluster.get-initial-cluster-state.member-list" [];
      '(priorMemberList, err) ← cl_MemberList;
      match err with
      | Some err =>
          _ ← log_error "cluster.get-initial-cluster-state.member-list.failed" err;
          _ ← sleep (1 * Second);
          member_list_loop n' priorMemberList
      | None => mret priorMemberList
      end
  end.

(** [for _, member := range priorMemberList]: the entries, and whether one of
    them has this node's peer URL; [PeerURLs[0]] panics on an empty slice. *)
Fixpoint prior_entries (etcdfabConfig : Config) (l : list Member) (members : list string)
    (selfIsPartOfPriorMembers : bool) : M X (list string * bool) :=
  match l with
  | [] => mret (members, selfIsPartOfPriorMembers)
  | member :: l' =>
      match m_PeerURLs member with
      | [] => panic "runtime error: index out of range"
      | url :: _ =>
          prior_entries etcdfabConfig l' (members ++ [entry (m_Name member) url])
            (if bool_decide (url = AdvertisePeerURL etcdfabConfig) then true
             else selfIsPartOfPriorMembers)
      end
  end.

Definition GetInitialClusterState (etcdfabConfig : Config) :
    M X (InitialClusterState * option error) :=
  priorMemberList ← member_list_loop 5 [];
  let none := bool_decide ((priorMemberList : list Member) = []) in
  _ ← (if none then
         log_info "cluster.get-initial-cluster-state.member-list.no-members-found" []
       else mret tt);
  found ←
    (if none then mret ("new", [], false)
     else
       _ ← log_info "cluster.get-initial-cluster-state.member-list.members"
             [("prior_members", VRecs (member_value <$> priorMemberList))];
       '(members, self) ← prior_entries etcdfabConfig priorMemberList [] false;
       mret ("existing", members, self));
  let '(state, members, selfIsPartOfPriorMembers) := (found : string * list string * bool) in
  '(members, err) ←
    (if selfIsPartOfPriorMembers return M X (list string * option error)
     then mret (members, None)
     else
       err ← (if none return M X (option error) then mret None
              else
                '(_, err) ← cl_MemberAdd (AdvertisePeerURL etcdfabConfig);
                match err with
                | Some err => mret (Some err)
                | None => _ ← sleep (2 * Second); mret None
                end);
       match err with
       | Some err => mret ([], Some err)
       | None =>
           mret (members ++ [entry (NodeName etcdfabConfig) (AdvertisePeerURL etcdfabConfig)],
                 None)
       end);
  match err with
  | Some err => mret (zero_InitialClusterState, Some err)
  | None =>
      let initialCluster := mkInitialClusterState (Join "," members) state in
      _ ← log_info "cluster.get-initial-cluster-state.return"
            [("initial_cluster_state",
              VRecs [[("Members", VStr (Members initialCluster));
                      ("State", VStr (State initialCluster))]])];
      mret (initialCluster, None)
  end.

#[export] Instance quiet_member_list_loop n l `{!ClusterClientLaws X} `{!∀ d, Quiet (sleep d)} :
  Quiet (member_list_loop n l).
Proof.
  revert l. induction n as [|n IH]; intros l; [apply _|]. cbn [member_list_loop].
  apply quiet_bind; [apply _|intros _]. apply quiet_bind; [apply _|intros [l' [e|]]]; [|apply _].
  apply quiet_bind; [apply _|intros _]. apply quiet_bind; [apply _|intros _]. apply IH.
Qed.

#[export] Instance quiet_prior_entries c l acc b : Quiet (prior_entries c l acc b).
Proof.
  revert acc b. induction l as [|m l IH]; intros acc b; [apply _|]. cbn [prior_entries].
  destruct (m_PeerURLs m); [apply _|]. apply IH.
Qed.

#[export] Instance quiet_GetInitialClusterState c `{!ClusterClientLaws X}
    `{!∀ d, Quiet (sleep d)} :
  Quiet (GetInitialClusterState c).
Proof.
  unfold GetInitialClusterState. apply quiet_bind; [apply _|intros prior].
  apply quiet_bind; [apply _|intros _]. apply quiet_bind.
  { apply quiet_if; [apply _|]. apply quiet_bind; [apply _|intros _].
    apply quiet_bind; [apply _|intros [ms b]; apply _]. }
  intros [[state ms] b]. apply quiet_bind; [|intros [ms' [e|]]; apply _].
  apply quiet_if; [apply _|]. apply quiet_bind; [|intros [e|]; apply _].
  apply quiet_if; [apply _|]. apply quiet_bind; [apply _|intros [m [e|]]; apply _].
Qed.
End cluster.

(** ** The wrapper of [Client.v] as the interface *)

#[export] Instance EtcdClient_ClusterClient {R T C} (lib : CoreOS R T C) :
  ClusterClient (Services R T C) := {|
  cl_MemberList := e ← shared; MemberList lib e;
  cl_MemberAdd u := e ← shared; MemberAdd lib e u
|}.

#[export] Instance EtcdClient_ClusterClientLaws {R T C} (lib : CoreOS R T C) :
  @ClusterClientLaws (Services R T C) (EtcdClient_ClusterClient lib).
Proof. split; [apply _|]. intros u. simpl. apply _. Qed.

(** ** Abstract specification

    An environment is the sequence of answers of [MemberList] and the answer of
    [MemberAdd] to each URL; [ClusterScript.client] plays it and records the
    calls. *)
Module ClusterScript.
Record state := mkState { lists : nat; adds : list string }.

Definition client (f : nat → list Member * option error) (add : string → option error) :
    ClusterClient state := {|
  cl_MemberList :=
    s ← get_svc; _ ← put_svc (mkState (S (lists s)) (adds s)); mret (f (lists s));
  cl_MemberAdd u :=
    s ← get_svc; _ ← put_svc (mkState (lists s) (adds s ++ [u])); mret (zero_Member, add u)
|}.
End ClusterScript.

(** The prior members the controller works with: the first answer without an
    error among the first five, else the fifth. *)
Definition prior_members (f : nat → list Member * option error) : list Member :=
  match Script.first_ok (λ k, (f k).2) 0 5 with
  | Some j => (f j).1
  | None => (f 4%nat).1
  end.

Definition has_peer_url (m : Member) : bool := negb (bool_decide (m_PeerURLs m = [])).
Definition first_url (m : Member) : string := default "" (head (m_PeerURLs m)).
Definition member_entry (m : Member) : string := entry (m_Name m) (first_url m).
Definition self_entry (c : Config) : string := entry (NodeName c) (AdvertisePeerURL c).
Definition lists_self (c : Config) (l : list Member) : bool :=
  existsb (λ m, bool_decide (first_url m = AdvertisePeerURL c)) l.

(** The outcome for the prior members [prior], and the URLs added. *)
Definition initial_state_spec (c : Config) (add : string → option error) (prior : list Member) :
    outcome (InitialClusterState * option error) * list string :=
  if negb (forallb has_peer_url prior) then
    (Panicked "runtime error: index out of range", [])
  else if bool_decide (prior = []) then
    (Val (mkInitialClusterState (self_entry c) "new", None), [])
  else if lists_self c prior then
    (Val (mkInitialClusterState (Join "," (member_entry <$> prior)) "existing", None), [])
  else
    (Val (match add (AdvertisePeerURL c) with
          | Some e => (zero_InitialClusterState, Some e)
          | None => (mkInitialClusterState
                       (Join "," ((member_entry <$> prior) ++ [self_entry c])) "existing", None)
          end), [AdvertisePeerURL c]).

(** ** Lemmas *)

Lemma prior_entries_run {X} (c : Config) l acc b (w : World X) :
  prior_entries c l acc b w =
  if forallb has_peer_url l then (Val (acc ++ (member_entry <$> l), b || lists_self c l), w)
  else (Panicked "runtime error: index out of range", w).
Proof.
  revert acc b. induction l as [|m l IH]; intros acc b; simpl.
  - by rewrite app_nil_r, orb_false_r.
  - destruct m as [i n [|u us] cs]; simpl; [done|].
    rewrite IH, <-app_assoc. destruct (forallb has_peer_url l); [|done].
    do 3 f_equal. change (first_url _) with u.
    case_bool_decide; simpl; [by rewrite orb_true_r|done].
Qed.

Section clusterscript.
Context (disableDelay : string).
Context (f : nat → list Member * option error) (add : string → option error).
Let client := ClusterScript.client f add.
Existing Instance client.

Lemma run_scripted_list k (w : World ClusterScript.state) :
  ClusterScript.lists (svc w) = k →
  cl_MemberList w =
  (Val (f k), set_svc (ClusterScript.mkState (S k) (ClusterScript.adds (svc w))) w).
Proof. by intros <-. Qed.

Lemma member_list_loop_run n k l (w : World ClusterScript.state) :
  ClusterScript.lists (svc w) = k →
  ∃ w', member_list_loop (Delay.sleep disableDelay) n l w =
    (Val (match Script.first_ok (λ k, (f k).2) k n with
          | Some j => (f j).1
          | None => if bool_decide (n = O) then l else (f (k + n - 1)%nat).1
          end), w') ∧ same_os w w' ∧
  ClusterScript.adds (svc w') = ClusterScript.adds (svc w) ∧
  match Script.first_ok (λ k, (f k).2) k n with
  | Some j => ClusterScript.lists (svc w') = S j ∧
      slept (log w') = slept (log w) + waits disableDelay (Z.of_nat (j - k) * Second)
  | None => ClusterScript.lists (svc w') = (k + n)%nat ∧
      slept (log w') = slept (log w) + waits disableDelay (Z.of_nat n * Second)
  end.
Proof.
  revert k l w. induction n as [|n IH]; intros k l w Hk.
  { exists w. simpl. rewrite waits_0. split_and!; [done..|lia|lia]. }
  cbn [member_list_loop Script.first_ok]. steps. set (w1 := emit _ w).
  assert (slept (log w1) = slept (log w)) as Hw1.
  { unfold w1. simpl log. rewrite slept_app. simpl. lia. }
  step (run_scripted_list k w1 Hk). destruct (f k) as [l' [e|]] eqn:Hf; cbn [snd].
  - steps. set (w2 := emit _ _).
    assert (slept (log w2) = slept (log w)) as Hw2.
    { rewrite <-Hw1. unfold w2. simpl log. rewrite slept_app. simpl. lia. }
    destruct (run_Delay disableDelay (1 * Second) w2) as (w3&Hd&Hos3&Hs3&Hsl3). step Hd.
    destruct (IH (S k) l' w3) as (w'&->&Hos&Ha&Hs); [by rewrite Hs3|].
    exists w'. split_and!.
    + do 2 f_equal. destruct (Script.first_ok _ (S k) n); [done|].
      destruct n as [|n]; simpl.
      * replace (k + 1 - 1)%nat with k by lia. by rewrite Hf.
      * do 2 f_equal. lia.
    + etrans; [|exact Hos]. by etrans; [|exact Hos3].
    + by rewrite Ha, Hs3.
    + destruct (Script.first_ok _ (S k) n) as [j|] eqn:Hj; destruct Hs as [-> ->];
        rewrite Hsl3, Hw2, <-Z.add_assoc, <-waits_add; unfold Second;
        [apply first_ok_Some in Hj|]; (split; [done || lia|]); do 2 f_equal; lia.
  - rewrite Hf. eexists. split; [done|]. split_and!; [done..|].
    rewrite Nat.sub_diag. simpl Z.of_nat. rewrite waits_0, Z.add_0_r. exact Hw1.
Qed.
End clusterscript.

(** ** Properties *)

(** A whole run against the answers [f] and [add]. *)
Lemma GetInitialClusterState_run disableDelay f add c (w : World ClusterScript.state) :
  svc w = ClusterScript.mkState 0 [] →
  let spec := initial_state_spec c add (prior_members f) in
  ∃ w', GetInitialClusterState (H := ClusterScript.client f add) (Delay.sleep disableDelay) c w =
      (spec.1, w') ∧
    ClusterScript.adds (svc w') = spec.2 ∧ same_os w w' ∧
    ClusterScript.lists (svc w') =
      match Script.first_ok (λ k, (f k).2) 0 5 with Some j => S j | None => 5%nat end.
Proof.
  intros Hw spec. unfold GetInitialClusterState.
  destruct (member_list_loop_run disableDelay f add 5 0 [] w) as (w1&Hrun&Hos&Ha&Hs);
    [by rewrite Hw|].
  change (member_list_loop (H := ClusterScript.client f add) (Delay.sleep disableDelay) 5 [] w =
    (Val (prior_members f), w1)) in Hrun. step Hrun. clear Hrun. rewrite Hw in Ha. simpl in Ha.
  assert (ClusterScript.lists (svc w1) =
    match Script.first_ok (λ k, (f k).2) 0 5 with Some j => S j | None => 5%nat end) as Hlists
    by (destruct (Script.first_ok _ 0 5); naive_solver). clear Hs.
  unfold spec, initial_state_spec. clear spec. generalize (prior_members f). intros prior.
  destruct (decide (prior = [])) as [->|Hne].
  { cbn beta iota. rewrite bool_decide_true by done. steps. simpl.
    eexists. split; [done|]. split_and!; done. }
  rewrite bool_decide_false by done. steps. unfold mbind, M_bind. simpl.
  rewrite prior_entries_run. destruct (forallb has_peer_url prior); simpl.
  2:{ eexists. split; [done|]. split_and!; done. }
  destruct (lists_self c prior); simpl.
  { eexists. split; [done|]. split_and!; done. }
  destruct (add (AdvertisePeerURL c)) as [e|]; simpl;
    [|unfold Delay.sleep; case_bool_decide; simpl];
    (eexists; split; [done|]; split_and!; [simpl; by rewrite Ha|done|done]).
Qed.

(** C7: [GetInitialClusterState] against any sequence [f] of [MemberList]
    answers and any answer of [MemberAdd]: it asks for the members until an
    answer has no error, five times at most, one second apart unless delays are
    switched off, and from the members it got
    - panics if a member has no peer URL;
    - bootstraps a ["new"] cluster of this node alone if there are none;
    - lists the prior members, state ["existing"], if one of them has this
      node's peer URL;
    - and otherwise registers exactly this node's peer URL, gives up with the
      error of that call if it fails, and else appends this node's entry,
      state ["existing"]. *)
Theorem GetInitialClusterState_script disableDelay f add c (w : World ClusterScript.state) :
  svc w = ClusterScript.mkState 0 [] →
  let spec := initial_state_spec c add (prior_members f) in
  ∃ w', GetInitialClusterState (H := ClusterScript.client f add) (Delay.sleep disableDelay) c w =
      (spec.1, w') ∧
    ClusterScript.adds (svc w') = spec.2 ∧ same_os w w' ∧
    ClusterScript.lists (svc w') =
      match Script.first_ok (λ k, (f k).2) 0 5 with Some j => S j | None => 5%nat end.
Proof. apply GetInitialClusterState_run. Qed.

Lemma GetInitialClusterState_script_witness :
  let f k := if (k <? 2)%nat then ([], Some (ErrorString "timeout"))
             else ([mkMember "1" "etcd-0" ["http://10.0.0.1:7001"] []], None) in
  let c := mkConfig (mkNode "etcd" 1 "10.0.0.2") zero_Etcd in
  ∃ w', GetInitialClusterState (H := ClusterScript.client f (λ _, None)) (Delay.sleep "true") c
      (mkWorld ∅ ∅ permissive_kernel (ClusterScript.mkState 0 []) []) =
    (Val (mkInitialClusterState
            "etcd-0=http://10.0.0.1:7001,etcd-1=http://10.0.0.2:7001" "existing", None), w') ∧
    ClusterScript.adds (svc w') = ["http://10.0.0.2:7001"] ∧ ClusterScript.lists (svc w') = 3%nat.
Proof.
  intros f c.
  destruct (GetInitialClusterState_script "true" f (λ _, None) c
    (mkWorld ∅ ∅ permissive_kernel (ClusterScript.mkState 0 []) []) eq_refl)
    as (w'&Hr&Ha&_&Hl).
  exists w'. split_and!; [exact Hr|exact Ha|exact Hl].
Defined.

(** How etcd reads the [--initial-cluster] flag: comma-separated entries, each
    split at its first equals sign. *)
Fixpoint cut_eq (s : string) : string * string :=
  match s with
  | "" => ("", "")
  | String c s' =>
      if bool_decide (c = "="%char) then ("", s')
      else let '(a, b) := cut_eq s' in (String c a, b)
  end.

Definition parse_initial_cluster (s : string) : list (string * string) :=
  cut_eq <$> Split "," s.

Lemma cut_eq_entry name url : has_char "=" name = false → cut_eq (entry name url) = (name, url).
Proof.
  unfold entry. induction name as [|c name IH]; [done|]. rewrite app_cons_s. simpl.
  intros [Hc Hn]%orb_false_iff. apply bool_decide_eq_false in Hc.
  rewrite bool_decide_false by congruence. by rewrite IH.
Qed.

Lemma parse_entries (l : list (string * string)) :
  l ≠ [] →
  (∀ n u, (n, u) ∈ l → has_char "=" n = false ∧ has_char "," n = false ∧ has_char "," u = false) →
  parse_initial_cluster (Join "," ((λ nu, entry nu.1 nu.2) <$> l)) = l.
Proof.
  intros Hne Hl. unfold parse_initial_cluster. rewrite Split_Join.
  - clear Hne. induction l as [|[n u] l IH]; [done|]. simpl.
    rewrite cut_eq_entry by (apply (Hl n u); set_solver). f_equal.
    apply IH. intros n' u' ?. apply Hl. set_solver.
  - by destruct l.
  - intros x ([n u]&->&Hx)%list_elem_of_fmap. destruct (Hl n u Hx) as (_&Hn&Hu).
    unfold entry. simpl. rewrite !has_char_app, Hn, Hu. done.
Qed.

(** C15: the string handed to [--initial-cluster] reads back as the prior members
    in order, followed by this node when it was not among them; so this node's
    peer URL is always listed.  (Member names free of [=] and [,], URLs free
    of [,].) *)
Theorem initial_cluster_roundtrip disableDelay f add c (w w' : World ClusterScript.state) ics :
  svc w = ClusterScript.mkState 0 [] →
  GetInitialClusterState (H := ClusterScript.client f add) (Delay.sleep disableDelay) c w =
    (Val (ics, None), w') →
  let prior := prior_members f in
  let nodes := (λ m, (m_Name m, first_url m)) <$> prior in
  let self := (NodeName c, AdvertisePeerURL c) in
  (∀ n u, (n, u) ∈ self :: nodes →
     has_char "=" n = false ∧ has_char "," n = false ∧ has_char "," u = false) →
  parse_initial_cluster (Members ics) = nodes ++ (if lists_self c prior then [] else [self]) ∧
  AdvertisePeerURL c ∈ (parse_initial_cluster (Members ics)).*2 ∧
  (State ics = "new" ↔ prior = []).
Proof.
  intros Hw Hr prior nodes self Hclean.
  destruct (GetInitialClusterState_run disableDelay f add c w Hw) as (w1&Hr'&_).
  rewrite Hr in Hr'. fold prior in Hr'. injection Hr' as Hspec _. clearbody prior.
  assert (Members ics = Join "," ((λ nu, entry nu.1 nu.2) <$>
      (nodes ++ if lists_self c prior then [] else [self])) ∧
    (State ics = "new" ↔ prior = [])) as [-> Hstate].
  { assert (member_entry <$> prior = (λ nu, entry nu.1 nu.2) <$> nodes) as Hm
      by (unfold nodes; by rewrite <-list_fmap_compose).
    revert Hspec. unfold initial_state_spec. destruct (negb _); [done|].
    case_bool_decide as Hp; [subst prior; by intros [= ->]|].
    destruct (lists_self c prior); [|destruct (add _)]; intros [= ->];
      simpl; rewrite Hm, ?fmap_app, ?app_nil_r; done. }
  assert (nodes ++ (if lists_self c prior then [] else [self]) ≠ []) as Hne.
  { unfold nodes. by destruct prior. }
  rewrite parse_entries; [|done|].
  - split_and!; [done| |done]. rewrite fmap_app, elem_of_app.
    destruct (lists_self c prior) eqn:Hs; [left|right; set_solver].
    apply existsb_exists in Hs as (m&Hm&<-%bool_decide_eq_true).
    unfold nodes. rewrite <-list_fmap_compose. apply list_elem_of_fmap. exists m.
    split; [done|by apply list_elem_of_In].
  - intros n u Hin. apply Hclean. destruct (lists_self c prior); set_solver.
Qed.

Lemma initial_cluster_roundtrip_witness :
  let f (_ : nat) := ([mkMember "1" "etcd-0" ["http://10.0.0.1:7001"] []], @None error) in
  let c := mkConfig (mkNode "etcd" 1 "10.0.0.2") zero_Etcd in
  ∃ ics w', GetInitialClusterState (H := ClusterScript.client f (λ _, None)) (Delay.sleep "true") c
      (mkWorld ∅ ∅ permissive_kernel (ClusterScript.mkState 0 []) []) = (Val (ics, None), w') ∧
    parse_initial_cluster (Members ics) =
      [("etcd-0", "http://10.0.0.1:7001"); ("etcd-1", "http://10.0.0.2:7001")].
Proof.
  intros f c. eexists _, _. split; [by vm_compute|].
  eapply (initial_cluster_roundtrip "true" f (λ _, None) c
    (mkWorld ∅ ∅ permissive_kernel (ClusterScript.mkState 0 []) [])); [done|by vm_compute|].
  intros n u Hin. assert (Hall : forallb (λ nu, negb (has_char "=" nu.1) && negb (has_char "," nu.1)
    && negb (has_char "," nu.2)) ((NodeName c, AdvertisePeerURL c) ::
      ((λ m, (m_Name m, first_url m)) <$> prior_members f)) = true) by (by vm_compute).
  rewrite forallb_forall in Hall. specialize (Hall (n, u)).
  rewrite <-list_elem_of_In in Hall. specialize (Hall Hin). simpl in Hall.
  by destruct (has_char "=" n), (has_char "," n), (has_char "," u).
Defined.

Section outage.
Context {R T C : Type} (disableDelay : string) (lib : CoreOS R T C).

(** [P]: a state of the remote side in which nobody answers. *)
Lemma member_list_loop_outage (P : R → Prop) cl n l (w : World (Services R T C)) :
  coreosEtcdClient (sv_client (svc w)) = Some cl → P (sv_remote (svc w)) →
  (∀ r, P r → (lib_List lib cl r).1.2 ≠ None ∧ P (lib_List lib cl r).2) →
  ∃ w', member_list_loop (H := EtcdClient_ClusterClient lib) (Delay.sleep disableDelay) n l w =
      (Val (if bool_decide (n = O) then l else []), w') ∧
    same_os w w' ∧ sv_client (svc w') = sv_client (svc w) ∧ P (sv_remote (svc w')) ∧
    slept (log w') = slept (log w) + waits disableDelay (Z.of_nat n * Second).
Proof.
  intros Hcl HP Hdown. revert l w Hcl HP. induction n as [|n IH]; intros l w Hcl HP.
  { exists w. simpl Z.of_nat. rewrite waits_0. split_and!; [done..|lia]. }
  cbn [member_list_loop]. steps. set (w1 := emit _ w).
  pose proof (MemberList_spec lib (sv_client (svc w1)) cl w1 Hcl) as Hl.
  pose proof (Hdown (sv_remote (svc w1)) HP) as Hd.
  destruct (lib_List lib cl _) as [[raws [e|]] r]; [|by destruct Hd].
  change (MemberList lib (sv_client (svc w1)) w1) with
    (cl_MemberList (ClusterClient := EtcdClient_ClusterClient lib) w1) in Hl.
  step Hl. steps.
  match goal with |- context [mbind _ (Delay.sleep _ ?n) ?w0] =>
    destruct (run_Delay disableDelay n w0) as (w3&Hd3&Hos3&Hs3&Hsl3); step Hd3 end.
  destruct (IH [] w3) as (w'&->&Hos&Hc&HP'&Hs); [by rewrite Hs3|rewrite Hs3; apply Hd|].
  exists w'. split; [by case_bool_decide|]. split; [|split; [by rewrite Hc, Hs3|split; [done|]]].
  { etrans; [|exact Hos]. by etrans; [|exact Hos3]. }
  rewrite Hs, Hsl3. simpl log. rewrite !slept_app. simpl slept.
  rewrite !Z.add_0_r, <-Z.add_assoc, <-waits_add. do 2 f_equal. unfold Second. lia.
Qed.

Lemma outage_run (P : R → Prop) cl c (w : World (Services R T C)) :
  coreosEtcdClient (sv_client (svc w)) = Some cl → P (sv_remote (svc w)) →
  (∀ r, P r → (lib_List lib cl r).1.2 ≠ None ∧ P (lib_List lib cl r).2) →
  ∃ w', GetInitialClusterState (H := EtcdClient_ClusterClient lib) (Delay.sleep disableDelay) c w =
      (Val (mkInitialClusterState (self_entry c) "new", None), w') ∧
    same_os w w' ∧ sv_client (svc w') = sv_client (svc w) ∧ P (sv_remote (svc w')) ∧
    slept (log w') = slept (log w) + waits disableDelay (5 * Second).
Proof.
  intros Hcl HP Hdown. unfold GetInitialClusterState.
  destruct (member_list_loop_outage P cl 5 [] w Hcl HP Hdown) as (w1&Hr&Hos&Hc&HP'&Hs).
  change (member_list_loop (H := EtcdClient_ClusterClient lib) (Delay.sleep disableDelay) 5 [] w =
    (Val [], w1)) in Hr.
  step Hr. rewrite bool_decide_true by done. steps. simpl. steps.
  eexists. split; [done|]. split; [exact Hos|]. split_and!; [done..|].
  simpl log. rewrite !slept_app, Hs. simpl slept. rewrite !Z.add_0_r. done.
Qed.

(** Over the real client, when every [MemberList] request fails (no
    endpoint answers), the controller gives up after five requests and five
    seconds and bootstraps a ["new"] cluster made of this node alone; it
    registers nothing. *)
Theorem outage_bootstraps_new cl c (w : World (Services R T C)) :
  coreosEtcdClient (sv_client (svc w)) = Some cl →
  (∀ r, (lib_List lib cl r).1.2 ≠ None) →
  ∃ w', GetInitialClusterState (H := EtcdClient_ClusterClient lib) (Delay.sleep disableDelay) c w =
      (Val (mkInitialClusterState (self_entry c) "new", None), w') ∧
    same_os w w' ∧ slept (log w') = slept (log w) + waits disableDelay (5 * Second).
Proof.
  intros Hcl Hdown. destruct (outage_run (λ _, True) cl c w Hcl I) as (w'&?&?&_&_&?); eauto.
Qed.
End outage.

Lemma outage_bootstraps_new_witness :
  let lib := mkCoreOS Sim.state string (list string) "" (lib_NewTransport Sim.lib)
    (lib_New Sim.lib) (λ _ s, (([], Some Sim.down), s)) (lib_Add Sim.lib)
    (lib_Remove Sim.lib) (lib_Get Sim.lib) in
  let w := mkWorld ∅ ∅ permissive_kernel
    (mkServices (mkEtcdClient (Some ["http://10.0.0.9:4001"]) (mkClientConfig [] None 0) "")
       (Sim.mkState [] false 0)) [] in
  let c := mkConfig (mkNode "etcd" 1 "10.0.0.2") zero_Etcd in
  ∃ w', GetInitialClusterState (H := EtcdClient_ClusterClient lib) (Delay.sleep "") c w =
    (Val (mkInitialClusterState "etcd-1=http://10.0.0.2:7001" "new", None), w').
Proof.
  intros lib w c.
  destruct (outage_bootstraps_new "" lib ["http://10.0.0.9:4001"] c w eq_refl) as (w'&Hr&_); [done|].
  exists w'. exact Hr.
Defined.
