(* ===== verification/Application.v ===== *)
(** * [src/etcdfab/application/application.go] and [src/etcdfab/command/wrapper.go]

    Starting and stopping the etcd process of a node.  The Go struct's
    collaborators are interfaces: here one class [Collaborators] with their
    methods and one class [CollaboratorLaws] with what the application's
    theorems need of them. *)
From S2P Require Import Prelude GoStrings GoPath Machine GoJson Delay Config Client Sync Cluster.

Open Scope Z_scope.

(** ** [command/wrapper.go] *)

Module Wrapper.
(** The writers the child inherits do not matter to the model. *)
Definition Start {X} (commandPath : string) (commandArgs : list string) :
    M X (Z * option error) :=
  '(pid, err) ← exec_start commandPath commandArgs;
  match err with
  | Some err => mret (0, Some err)
  | None => mret (pid, None)
  end.

Definition Kill {X} (pid : Z) : M X (option error) :=
  err ← process_kill pid;
  match err with Some err => mret (Some err) | None => mret None end.
End Wrapper.

(** ** The collaborators *)

Class Collaborators (X : Type) := {
  command_Start : string → list string → M X (Z * option error);
  command_Kill : Z → M X (option error);
  etcdClient_Configure : Config → M X (option error);
  etcdClient_MemberRemove : string → M X (option error);
  etcdClient_MemberList : M X (list Member * option error);
  clusterController_GetInitialClusterState : Config → M X (InitialClusterState * option error);
  syncController_VerifySynced : M X (option error)
}.

(** The command runs processes on the machine; the others talk to the cluster
    and leave files and processes alone. *)
Class CollaboratorLaws (X : Type) `{Collaborators X} := {
  Start_is_exec p args w : command_Start p args w = Wrapper.Start p args w;
  Kill_is_kill pid w : command_Kill pid w = Wrapper.Kill pid w;
  Configure_quiet c :: Quiet (etcdClient_Configure c : M X (option error));
  MemberRemove_quiet i :: Quiet (etcdClient_MemberRemove i : M X (option error));
  MemberList_quiet :: Quiet (etcdClient_MemberList : M X (list Member * option error));
  GetInitialClusterState_quiet c ::
    Quiet (clusterController_GetInitialClusterState c : M X (InitialClusterState * option error));
  VerifySynced_quiet :: Quiet (syncController_VerifySynced : M X (option error))
}.

Record Application := mkApplication {
  configFilePath : string;
  linkConfigFilePath : string
}.

(** [NewArgs] and [New]; the collaborators and the writers are the class. *)
Record NewArgs := mkNewArgs {
  na_ConfigFilePath : string;
  na_LinkConfigFilePath : string
}.
Definition New (args : NewArgs) : Application :=
  mkApplication (na_ConfigFilePath args) (na_LinkConfigFilePath args).

(** ** Operations *)

Section application.
Context {X : Type} `{Collaborators X}.

(** [buildEtcdArgs]: the flags, in order. *)
Definition etcd_args (cfg : Config) : list string :=
  let etcd := cfg_Etcd cfg in
  ["--name"; NodeName cfg]
  ++ (if EnableDebugLogging etcd then ["--debug"] else [])
  ++ ["--data-dir"; DataDir etcd]
  ++ ["--heartbeat-interval"; Sprintf_d (HeartbeatInterval etcd)]
  ++ ["--election-timeout"; Sprintf_d (ElectionTimeout etcd)]
  ++ ["--listen-peer-urls"; ListenPeerURL cfg]
  ++ ["--listen-client-urls"; ListenClientURL cfg]
  ++ ["--initial-advertise-peer-urls"; AdvertisePeerURL cfg]
  ++ ["--advertise-client-urls"; AdvertiseClientURL cfg]
  ++ (if RequireSSL_ etcd then
        ["--client-cert-auth";
         "--trusted-ca-file"; filepath_Join [CertDir cfg; "server-ca.crt"];
         "--cert-file"; filepath_Join [CertDir cfg; "server.crt"];
         "--key-file"; filepath_Join [CertDir cfg; "server.key"]]
      else [])
  ++ (if PeerRequireSSL etcd then
        ["--peer-client-cert-auth";
         "--peer-trusted-ca-file"; filepath_Join [CertDir cfg; "peer-ca.crt"];
         "--peer-cert-file"; filepath_Join [CertDir cfg; "peer.crt"];
         "--peer-key-file"; filepath_Join [CertDir cfg; "peer.key"]]
      else []).

Definition buildEtcdArgs (cfg : Config) : M X (list string) :=
  _ ← log_info "application.build-etcd-flags" [("node-name", VStr (NodeName cfg))];
  mret (etcd_args cfg).

(** [kill(pidPath)]. *)
Definition kill (pidPath : string) : M X (option error) :=
  _ ← log_info "application.read-pid-file" [("pid-file", VStr pidPath)];
  '(pidFileContents, err) ← ReadFile pidPath;
  match err with
  | Some err => _ ← log_error "application.read-pid-file.failed" err; mret (Some err)
  | None =>
      _ ← log_info "application.convert-pid-file-to-pid" [];
      match Atoi pidFileContents with
      | inl reason =>
          let err := NumError "Atoi" pidFileContents reason in
          _ ← log_error "application.convert-pid-file-to-pid.failed" err; mret (Some err)
      | inr pid =>
          _ ← log_info "application.kill-pid" [("pid", VInt pid)];
          err ← command_Kill pid;
          match err with
          | Some err => _ ← log_error "application.kill-pid.failed" err; mret (Some err)
          | None =>
              _ ← log_info "application.remove-pid-file" [];
              err ← Remove pidPath;
              match err with
              | Some err => _ ← log_error "application.remove-pid-file.failed" err; mret (Some err)
              | None => mret None
              end
          end
      end
  end.

Definition log_if (action : string) (err : option error) : M X unit :=
  match err with Some err => log_error action err | None => mret tt end.

(** The loop of [removeDataDir]: every name is removed, the error of the last
    removal is kept. *)
Fixpoint remove_files (dir : string) (files : list string) (err : option error) :
    M X (option error) :=
  match files with
  | [] => mret err
  | file :: files' =>
      err ← RemoveAll (filepath_Join [dir; file]);
      remove_files dir files' err
  end.

Definition removeDataDir (cfg : Config) : M X unit :=
  let dir := DataDir (cfg_Etcd cfg) in
  _ ← log_info "application.remove-data-dir" [("data-dir", VStr dir)];
  '(d, err) ← Open dir;
  _ ← log_if "application.remove-data-dir" err;
  '(files, err) ← Readdirnames d;
  _ ← log_if "application.remove-data-dir" err;
  err ← remove_files dir files err;
  log_if "application.remove-data-dir" err.

(** The id of the last member with this node's name, [""] without one. *)
Definition self_member_id (cfg : Config) (memberList : list Member) : string :=
  foldl (λ memberID member,
    if bool_decide (m_Name member = NodeName cfg) then m_ID member else memberID)
    "" memberList.

Definition removeSelfFromCluster (cfg : Config) : M X unit :=
  '(memberList, err) ← etcdClient_MemberList;
  _ ← log_if "application.etcd-client.member-list.failed" err;
  let memberID := self_member_id cfg memberList in
  _ ← log_info "application.etcd-client.member-remove" [("member-id", VStr memberID)];
  err ← etcdClient_MemberRemove memberID;
  log_if "application.etcd-client.member-remove.failed" err.

Definition priorClusterHadOtherNodes (nodeName : string) : M X bool :=
  _ ← log_info "application.etcd-client.member-list" [];
  '(memberList, err) ← etcdClient_MemberList;
  match err with
  | Some err => _ ← log_error "application.etcd-client.member-list.failed" err; mret false
  | None =>
      _ ← log_info "application.etcd-client.member-list"
            [("member-list", VRecs (member_value <$> memberList))];
      match memberList with
      | [m] =>
          if bool_decide (m_Name m = nodeName) then mret false
          else if negb (bool_decide (m_Name m = nodeName)) then mret true
          else mret false
      | _ => if (1 <? length memberList)%nat then mret true else mret false
      end
  end.

Definition Start (a : Application) : M X (option error) :=
  '(cfg, err) ← ConfigFromJSONs (configFilePath a) (linkConfigFilePath a);
  match err with
  | Some err => _ ← log_error "application.read-config-file.failed" err; mret (Some err)
  | None =>
  err ← etcdClient_Configure cfg;
  match err with
  | Some err => _ ← log_error "application.etcd-client.configure.failed" err; mret (Some err)
  | None =>
  '(initialClusterState, err) ← clusterController_GetInitialClusterState cfg;
  match err with
  | Some err =>
      _ ← log_error "application.cluster-controller.get-initial-cluster-state.failed" err;
      mret (Some err)
  | None =>
  etcdArgs ← buildEtcdArgs cfg;
  let etcdArgs := etcdArgs ++ ["--initial-cluster"; Members initialClusterState;
                               "--initial-cluster-state"; State initialClusterState] in
  _ ← log_info "application.start"
        [("etcd-path", VStr (EtcdPath (cfg_Etcd cfg))); ("etcd-args", VStrs etcdArgs)];
  '(pid, err) ← command_Start (EtcdPath (cfg_Etcd cfg)) etcdArgs;
  match err with
  | Some err => _ ← log_error "application.start.failed" err; mret (Some err)
  | None =>
  _ ← log_info "application.synchronized-controller.verify-synced" [];
  syncErr ← syncController_VerifySynced;
  match syncErr with
  | Some syncErr =>
      _ ← log_error "application.synchronized-controller.verify-synced.failed" syncErr;
      _ ← (if bool_decide (State initialClusterState = "existing") then
             _ ← log_info "application.remove-self-from-cluster" [];
             removeSelfFromCluster cfg
           else mret tt);
      _ ← removeDataDir cfg;
      _ ← log_info "application.kill" [];
      killErr ← kill (PidFile cfg);
      match killErr with
      | Some killErr => mret (Some killErr)
      | None => mret (Some syncErr)
      end
  | None =>
  _ ← log_info "application.write-pid-file" [("pid", VInt pid); ("path", VStr (PidFile cfg))];
  err ← WriteFile (PidFile cfg) (Sprintf_d pid);
  match err with
  | Some err => _ ← log_error "application.write-pid-file.failed" err; mret (Some err)
  | None => _ ← log_info "application.start.success" []; mret None
  end end end end end end.

Definition Stop (a : Application) : M X (option error) :=
  _ ← log_info "application.stop" [];
  '(cfg, err) ← ConfigFromJSONs (configFilePath a) (linkConfigFilePath a);
  match err with
  | Some err => _ ← log_error "application.read-config-file.failed" err; mret (Some err)
  | None =>
  err ← etcdClient_Configure cfg;
  match err with
  | Some err => _ ← log_error "application.etcd-client.configure.failed" err; mret (Some err)
  | None =>
  teardown ← priorClusterHadOtherNodes (NodeName cfg);
  _ ← (if (teardown : bool) then
         _ ← log_info "application.remove-self-from-cluster" [];
         removeSelfFromCluster cfg
       else mret tt);
  _ ← removeDataDir cfg;
  _ ← log_info "application.kill" [];
  err ← kill (PidFile cfg);
  match err with
  | Some err => mret (Some err)
  | None => _ ← log_info "application.stop.success" []; mret None
  end end end.
End application.

(** ** The wiring of [main]

    One [*EtcdClient] serves the application and both controllers, one function
    sleeps for them; commands run on the machine. *)
#[export] Instance Services_Collaborators {R T C} (disableDelay : string) (lib : CoreOS R T C) :
  Collaborators (Services R T C) := {|
  command_Start := Wrapper.Start;
  command_Kill := Wrapper.Kill;
  etcdClient_Configure := Configure lib;
  etcdClient_MemberRemove i := e ← shared; MemberRemove lib e i;
  etcdClient_MemberList := e ← shared; MemberList lib e;
  clusterController_GetInitialClusterState :=
    GetInitialClusterState (H := EtcdClient_ClusterClient lib)
      (Cluster.c_sleep (Cluster.NewController (Delay.sleep disableDelay)));
  syncController_VerifySynced :=
    VerifySynced (H := EtcdClient_SyncClient lib)
      (Sync.c_sleep (Sync.NewController (Delay.sleep disableDelay)))
|}.

#[export] Instance Services_CollaboratorLaws {R T C} disableDelay (lib : CoreOS R T C) :
  @CollaboratorLaws (Services R T C) (Services_Collaborators disableDelay lib).
Proof.
  split; intros; simpl; try apply _; try done.
Qed.
