(* ===== verification/Fab.v ===== *)
(** * [src/etcdfab/etcdfab/main.go]

    The command line of [etcdfab] and the exit status of its two commands.  The
    collaborators [main] wires together are [Services_Collaborators] of
    [Application.v]; here they stay a parameter. *)
From S2P Require Import Prelude GoStrings GoPath Machine GoFlag GoJson Config Client Sync.
From S2P Require Import Cluster Application.

Open Scope Z_scope.

(** ** Definitions *)

Record etcdfabFlags := mkFlags { ConfigFilePath : string; LinkConfigFilePath : string }.

Definition etcdfab_flag_defs : list flag_def := [
  mkFlag "config-file" "" "Path to the etcdfab config file. Generated by the etcd-release using BOSH deployment manifest properties.";
  mkFlag "config-link-file" "" "Path to the etcdfab link config file. This will override any properties with bosh links."
].

Definition command_line : string :=
  "COMMAND: " +:+ Quote "start" +:+ " or " +:+ Quote "stop".

Section main.
Context {X : Type} `{Collaborators X}.

(** [parseFlags()], on [os.Args]. *)
Definition parseFlags (args : list string) : M X etcdfabFlags :=
  if (length args <? 3)%nat then
    _ ← tell (Stderr "Usage: etcdfab COMMAND OPTIONS");
    _ ← tell (Stderr command_line);
    _ ← tell (Stderr "OPTIONS:");
    _ ← PrintDefaults etcdfab_flag_defs;
    exit 1
  else
    values ← FlagSet_Parse "flags" etcdfab_flag_defs (drop 2 args);
    match values with
    | None => exit 1
    | Some values =>
        mret (mkFlags (value_of values "config-file") (value_of values "config-link-file"))
    end.

(** [stderr.Printf("Error during ...: %s", err); os.Exit(1)]. *)
Definition report (command : string) (err : option error) : M X unit :=
  match err with
  | None => mret tt
  | Some err =>
      _ ← tell (Stderr ("Error during " +:+ command +:+ ": " +:+ Error err));
      exit 1
  end.

Definition main (args : list string) : M X unit :=
  flags ← parseFlags args;
  let app := New (mkNewArgs (ConfigFilePath flags) (LinkConfigFilePath flags)) in
  match args !! 1%nat with
  | None => panic "runtime error: index out of range"
  | Some command =>
      if bool_decide (command = "start") then
        err ← Start app; report "start" err
      else if bool_decide (command = "stop") then
        err ← Stop app; report "stop" err
      else
        _ ← tell (Stderr "Usage: etcdfab COMMAND OPTIONS");
        _ ← tell (Stderr command_line);
        exit 1
  end.
End main.

(** The exit status the shell sees: a panic exits with 2. *)
Definition exit_status {A} (o : outcome A) : Z :=
  match o with Val _ => 0 | Panicked _ => 2 | Exited n => n end.

(** ** Lemmas *)

Lemma run_tell {X} e (w : World X) : tell e w = (Val tt, emit e w).
Proof. done. Qed.

Lemma PrintDefaults_run {X} defs (w : World X) :
  ∃ w', PrintDefaults defs w = (Val tt, w') ∧ same_os w w' ∧ svc w' = svc w.
Proof.
  unfold PrintDefaults. revert w. induction defs as [|d defs IH]; intros w; simpl.
  { by eexists. }
  rewrite (bind_Val _ _ _ _ _ (run_tell _ w)).
  match goal with |- context [foldr _ _ _ ?w0] => destruct (IH w0) as (w'&->&Hos&Hs) end.
  exists w'. split_and!; [done|apply Hos..|exact Hs].
Qed.

Lemma FlagSet_Parse_run {X} set defs args (w : World X) :
  ∃ w', FlagSet_Parse set defs args w =
    (Val (match parse_flag_args defs args with Parsed values _ => Some values | _ => None end), w') ∧
    same_os w w' ∧ svc w' = svc w.
Proof.
  unfold FlagSet_Parse, Usage. destruct (parse_flag_args defs args) as [values rest| |m].
  - by eexists.
  - unfold mbind, M_bind. simpl.
    match goal with |- context [PrintDefaults defs ?w0] =>
      destruct (PrintDefaults_run defs w0) as (w'&->&Hos&Hs) end.
    exists w'. split_and!; [done|apply Hos..|exact Hs].
  - unfold mbind, M_bind. simpl.
    match goal with |- context [PrintDefaults defs ?w0] =>
      destruct (PrintDefaults_run defs w0) as (w'&->&Hos&Hs) end.
    exists w'. split_and!; [done|apply Hos..|exact Hs].
Qed.

(** [parseFlags] of three arguments or more. *)
Lemma parseFlags_run {X} args (w : World X) :
  (3 ≤ length args)%nat →
  ∃ w', parseFlags args w =
    (match parse_flag_args etcdfab_flag_defs (drop 2 args) with
     | Parsed values _ =>
         Val (mkFlags (value_of values "config-file") (value_of values "config-link-file"))
     | _ => Exited 1
     end, w') ∧ same_os w w' ∧ svc w' = svc w.
Proof.
  intros Hl. unfold parseFlags. destruct (Nat.ltb_spec (length args) 3); [lia|].
  destruct (FlagSet_Parse_run "flags" etcdfab_flag_defs (drop 2 args) w) as (w'&Hr&Hos&Hs). step Hr.
  exists w'. destruct (parse_flag_args _ _); (split; [done|split; [apply Hos|done]]).
Qed.

(** ** Properties *)

(** A command line that is no use of [etcdfab] (fewer than three
    arguments, a flag that does not parse, or a first argument other than
    [start] and [stop]) ends with exit status 1 and a message on standard
    error, before anything is read, started, killed or sent. *)
Theorem main_usage {X} `{Collaborators X} args (w : World X) :
  (length args < 3)%nat ∨
  (∀ values rest, parse_flag_args etcdfab_flag_defs (drop 2 args) ≠ Parsed values rest) ∨
  (∀ c, args !! 1%nat = Some c → c ≠ "start" ∧ c ≠ "stop") →
  ∃ w', main args w = (Exited 1, w') ∧ same_os w w' ∧ svc w' = svc w.
Proof.
  intros Hbad. destruct (decide (length args < 3)%nat) as [Hl|Hl].
  { unfold main, parseFlags. destruct (Nat.ltb_spec (length args) 3); [|lia].
    unfold mbind, M_bind. simpl. by eexists. }
  destruct Hbad as [?|Hbad]; [lia|].
  destruct (parseFlags_run args w) as (w1&Hr&Hos&Hs); [lia|].
  unfold main. unfold mbind at 1, M_bind. rewrite Hr.
  destruct (parse_flag_args _ _) as [values rest| |m] eqn:Hp; [|by exists w1..].
  destruct Hbad as [Hbad|Hbad]; [by destruct (Hbad values rest)|].
  destruct args as [|a0 [|a1 args]]; simpl in Hl; [lia|lia|]. simpl.
  destruct (Hbad a1 eq_refl) as [H1 H2]. rewrite !bool_decide_false by done.
  eexists. split; [reflexivity|]. split; [exact Hos|exact Hs].
Qed.

Lemma main_usage_witness :
  ∃ w', main (H := Services_Collaborators "true" Sim.lib) ["etcdfab"; "restart"; "--config-file=/c.json"]
    ClientWitness.w0 = (Exited 1, w') ∧ same_os ClientWitness.w0 w'.
Proof.
  destruct (main_usage (H := Services_Collaborators "true" Sim.lib)
    ["etcdfab"; "restart"; "--config-file=/c.json"] ClientWitness.w0) as (w'&Hr&Hos&_).
  - right. right. intros c [= <-]. split; discriminate.
  - exists w'. split; [exact Hr|exact Hos].
Defined.

(** The exit status of a command that gives an error or none. *)
Definition command_status (o : outcome (option error)) : Z :=
  match o with
  | Val None => 0
  | Val (Some _) => 1
  | Panicked _ => 2
  | Exited n => n
  end.

Lemma report_run {X} command (m : M X (option error)) (w : World X) :
  let r := (err ← m; report command err) w in
  same_os (m w).2 r.2 ∧ svc r.2 = svc (m w).2 ∧ exit_status r.1 = command_status (m w).1.
Proof.
  unfold mbind, M_bind. destruct (m w) as [[[e|]|s|n] w1]; (split; [done|by split]).
Qed.

(** The spellings of the two flags [etcd_ctl] uses. *)
Lemma fab_flags_parse p q :
  parse_flag_args etcdfab_flag_defs ["--config-file"; p; "--config-link-file"; q] =
    Parsed (<["config-link-file" := q]> (<["config-file" := p]> (defaults etcdfab_flag_defs))) [].
Proof.
  unfold parse_flag_args. change "--config-file" with ("--" +:+ "config-file").
  change "--config-link-file" with ("--" +:+ "config-link-file").
  rewrite (proj1 (proj2 (parse_args_flag etcdfab_flag_defs "config-file" p _ _
    ltac:(by apply (bool_decide_unpack _)) eq_refl))).
  by rewrite (proj1 (proj2 (parse_args_flag etcdfab_flag_defs "config-link-file" q _ _
    ltac:(by apply (bool_decide_unpack _)) eq_refl))).
Qed.

(** The command lines of the job's control script,
    [etcdfab start|stop --config-file p --config-link-file q] for any two paths,
    run [Start] and [Stop] on those paths: the files, the processes and the
    collaborators end as that operation leaves them, and the exit status is 0
    if it returns no error, 1 if it returns one, and 2 if it panics. *)
Theorem main_runs_command {X} `{Collaborators X} (start : bool) p q (w : World X) :
  let args := ["etcdfab"; if start then "start" else "stop";
               "--config-file"; p; "--config-link-file"; q] in
  let a := mkApplication p q in
  ∃ w0, same_os w w0 ∧ svc w0 = svc w ∧
  let run := (if start then Start a else Stop a) w0 in
  same_os run.2 (main args w).2 ∧ svc (main args w).2 = svc run.2 ∧
  exit_status (main args w).1 = command_status run.1.
Proof.
  intros args a. destruct (parseFlags_run args w) as (w0&Hr&Hos&Hs); [simpl; lia|].
  assert (drop 2 args = ["--config-file"; p; "--config-link-file"; q]) as Hd by done.
  rewrite Hd, fab_flags_parse in Hr.
  assert (∀ d, value_of (<["config-link-file" := q]> (<["config-file" := p]> d)) "config-file" = p ∧
    value_of (<["config-link-file" := q]> (<["config-file" := p]> d)) "config-link-file" = q) as Hv.
  { intros d. unfold value_of. by rewrite lookup_insert_ne, !lookup_insert_eq by done. }
  destruct (Hv (defaults etcdfab_flag_defs)) as [Hp Hq]. rewrite Hp, Hq in Hr.
  exists w0. split; [done|]. split; [done|]. unfold main. step Hr. clear Hr.
  unfold args. clear args Hd. destruct start.
  - exact (report_run "start" (Start a) w0).
  - exact (report_run "stop" (Stop a) w0).
Qed.
