(* ===== verification/Lifecycle.v ===== *)
(** * The lifecycle of the etcd process

    What [Application.v]'s operations do to files and processes: [kill] and
    [removeDataDir] on every branch, the calls [removeSelfFromCluster] makes,
    and [Start] and [Stop] against an abstract description of each. *)
From S2P Require Import Prelude GoStrings GoPath Machine GoJson Config Client Sync Cluster.
From S2P Require Import Application.

Open Scope Z_scope.

(** ** Abstract descriptions *)

(** Every entry of the file system has proper names. *)
Definition names_ok (f : gmap (list string) node) : Prop :=
  ∀ l, is_Some (f !! l) → Forall valid_name l.

Lemma names_ok_decide f :
  bool_decide (map_Forall (λ l (_ : node), Forall valid_name l) f) = true → names_ok f.
Proof. intros H%bool_decide_eq_true l [n Hn]. exact (H l n Hn). Qed.

(** The location of the data directory, of the pid file. *)
Definition data_dir {X} (w : World X) (cfg : Config) : list string :=
  resolve (k_cwd (kernel w)) (DataDir (cfg_Etcd cfg)).
Definition pid_loc {X} (w : World X) (cfg : Config) : list string :=
  resolve (k_cwd (kernel w)) (PidFile cfg).

(** The command line of the etcd process. *)
Definition etcd_command (cfg : Config) (ics : InitialClusterState) : list string :=
  etcd_args cfg ++ ["--initial-cluster"; Members ics; "--initial-cluster-state"; State ics].
Definition etcd_process (cfg : Config) (ics : InitialClusterState) : Process :=
  mkProcess (EtcdPath (cfg_Etcd cfg)) (etcd_command cfg ics).

(** The file system with what lies below [d] cleared, as far as the kernel
    lets it. *)
Definition cleared (d : list string) (f f' : gmap (list string) node) : Prop :=
  ∀ l, (below d l = false → f' !! l = f !! l) ∧ (f' !! l = f !! l ∨ f' !! l = None).

(** Killing the process a pid file names: the result, the files and the
    processes after it. *)
Definition kill_outcome {X} (pidPath : string) (w : World X) (r : option error)
    (f : gmap (list string) node) (ps : gmap Z Process) : Prop :=
  match read_file pidPath w with
  | (_, Some e) => r = Some e ∧ f = fs w ∧ ps = procs w
  | (c, None) =>
      match Atoi c with
      | inl reason => r = Some (NumError "Atoi" c reason) ∧ f = fs w ∧ ps = procs w
      | inr pid =>
          match kill_refused w pid with
          | Some e => r = Some e ∧ f = fs w ∧ ps = procs w
          | None =>
              ps = foldr delete (procs w) (kill_victims w pid) ∧
              ∃ l, locate w pidPath = Some l ∧
              match remove_refused pidPath l w with
              | Some e => r = Some e ∧ f = fs w
              | None => r = None ∧ f = delete l (fs w)
              end
          end
      end
  end.

(** The directory is there and the kernel lets it be listed and emptied. *)
Definition clearable {X} (w : World X) (dir : string) (d : list string) : Prop :=
  dir ≠ "" ∧ fs w !! d = Some Dir ∧ deny w "open" d = None ∧ deny w "readdir" d = None ∧
  ∀ c, deny w "removeall" (d ++ [c]) = None.

(** The file system [f] with what lies below the data directory cleared, all of
    it if the kernel agrees. *)
Definition data_dir_removed {X} (cfg : Config) (w : World X) (f : gmap (list string) node) : Prop :=
  cleared (data_dir w cfg) (fs w) f ∧
  (clearable w (DataDir (cfg_Etcd cfg)) (data_dir w cfg) →
   ∀ l, below (data_dir w cfg) l = true → f !! l = None).

(** ** Lemmas *)

Lemma locate_PidFile {X} (w : World X) cfg : locate w (PidFile cfg) = Some (pid_loc w cfg).
Proof.
  unfold locate, pid_loc. rewrite bool_decide_false; [done|].
  unfold PidFile. destruct (decide (RunDir (cfg_Etcd cfg) = "")) as [->|];
    [done|by apply Join_not_empty].
Qed.

Lemma read_file_located {X} p (w : World X) c :
  read_file p w = (c, None) → ∃ l, locate w p = Some l ∧ fs w !! l = Some (File c).
Proof.
  unfold read_file. destruct (locate w p) as [l|]; [|done].
  destruct (deny w "open" l); [done|]. destruct (fs w !! l) as [[c'|]|] eqn:Hl; [|done..].
  intros [= ->]. eauto.
Qed.

Section runs.
Context {X : Type} `{HC : Collaborators X} {HL : CollaboratorLaws X}.
Implicit Types w : World X.

(** A command started, on every branch. *)
Definition launched (p : string) (args : list string) w : World X :=
  set_procs (<[k_pid (kernel w) (procs w) := mkProcess p args]> (procs w))
    (emit (Call "exec" (p :: args)) w).

Lemma run_command_Start p args w :
  command_Start p args w =
  match k_exec (kernel w) p args with
  | Some e => (Val (0, Some e), emit (Call "exec" (p :: args)) w)
  | None => (Val (k_pid (kernel w) (procs w), None), launched p args w)
  end.
Proof.
  rewrite Start_is_exec. unfold Wrapper.Start, exec_start, mbind, M_bind.
  by destruct (k_exec _ _ _).
Qed.

Lemma run_command_Kill pid w :
  command_Kill pid w =
  let w1 := emit (Call "kill" [Sprintf_d pid]) w in
  match kill_refused w pid with
  | Some e => (Val (Some e), w1)
  | None => (Val None, set_procs (foldr delete (procs w) (kill_victims w pid)) w1)
  end.
Proof.
  rewrite Kill_is_kill. unfold Wrapper.Kill, process_kill, mbind, M_bind.
  by destruct (kill_refused w pid).
Qed.

Lemma run_buildEtcdArgs cfg w :
  buildEtcdArgs cfg w = (Val (etcd_args cfg),
    emit (Info "application.build-etcd-flags" [("node-name", VStr (NodeName cfg))]) w).
Proof. done. Qed.

(** The kill outcome is a function of files, processes and kernel. *)
Lemma kill_outcome_same_os p w w' r f ps :
  same_os w w' → kill_outcome p w r f ps → kill_outcome p w' r f ps.
Proof.
  intros Hos. unfold kill_outcome. rewrite (read_file_same_os p w w' Hos).
  destruct Hos as (Hf&Hp&Hk).
  unfold kill_refused, kill_victims, remove_refused, locate, deny. by rewrite Hf, Hp, Hk.
Qed.

Lemma run_log_if a e w : ∃ w', log_if a e w = (Val tt, w') ∧ same_os w w' ∧ svc w' = svc w.
Proof. destruct e; eexists; done. Qed.

Lemma kill_run pidPath w :
  ∃ r w', kill pidPath w = (Val r, w') ∧ kernel w' = kernel w ∧ svc w' = svc w ∧
    kill_outcome pidPath w r (fs w') (procs w').
Proof.
  unfold kill, kill_outcome. steps. destruct (read_file pidPath w) as [c [e|]] eqn:Hr; steps.
  { eexists _, _. done. }
  destruct (Atoi c) as [reason|pid]; steps.
  { eexists _, _. done. }
  set (w1 := emit _ _). pose proof (run_command_Kill pid w1) as Hk.
  change (kill_refused w1 pid) with (kill_refused w pid) in Hk.
  destruct (kill_refused w pid) as [e|] eqn:Hkill; simpl in Hk; step Hk; steps.
  { eexists _, _. done. }
  apply read_file_located in Hr as (l&Hloc&Hl). unfold mbind, M_bind.
  match goal with |- context [Remove pidPath ?w2] => set (w3 := w2) end.
  unfold Remove. change (locate w3 pidPath) with (locate w pidPath). rewrite Hloc.
  change (remove_refused pidPath l w3) with (remove_refused pidPath l w).
  destruct (remove_refused pidPath l w) as [e|] eqn:Hrem; simpl;
    eexists _, _; (split; [done|]); (split; [done|]); (split; [done|]); (split; [done|]);
    exists l; rewrite Hrem; done.
Qed.
End runs.

(** ** [removeDataDir] *)

(** The entries among [names] the kernel lets go. *)
Definition removable {X} (w : World X) (d : list string) (names : list string) : list string :=
  filter (λ c, deny w "removeall" (d ++ [c]) = None) names.

Section remove.
Context {X : Type}.
Implicit Types w : World X.

Lemma run_RemoveAll dir c w d :
  dir ≠ "" → valid_name c → resolve (k_cwd (kernel w)) dir = d →
  ∃ r w', RemoveAll (filepath_Join [dir; c]) w = (Val r, w') ∧
    procs w' = procs w ∧ kernel w' = kernel w ∧ svc w' = svc w ∧
    fs w' = foldl (λ f c, prune (d ++ [c]) f) (fs w) (removable w d [c]).
Proof.
  intros Hdir Hc Hd. unfold RemoveAll, locate, removable.
  rewrite bool_decide_false, resolve_Join, Hd by first [done|by apply Join_not_empty].
  destruct (deny w "removeall" (d ++ [c])) as [e|] eqn:He.
  - rewrite filter_cons_False by (by rewrite He). eexists _, _. done.
  - rewrite filter_cons_True by done. eexists _, _. done.
Qed.

Lemma remove_files_run dir names err w d :
  dir ≠ "" → Forall valid_name names → resolve (k_cwd (kernel w)) dir = d →
  ∃ r w', remove_files dir names err w = (Val r, w') ∧
    procs w' = procs w ∧ kernel w' = kernel w ∧ svc w' = svc w ∧
    fs w' = foldl (λ f c, prune (d ++ [c]) f) (fs w) (removable w d names).
Proof.
  intros Hdir. revert err w. induction names as [|c names IH]; intros err w Hn Hd.
  { eexists _, _. done. }
  inversion Hn as [|?? Hc Hns]; subst.
  destruct (run_RemoveAll dir c w _ Hdir Hc eq_refl) as (r1&w1&Hrun&Hp&Hk&Hs&Hf).
  cbn [remove_files]. step Hrun.
  destruct (IH r1 w1 Hns) as (r2&w2&->&Hp2&Hk2&Hs2&Hf2); [by rewrite Hk|].
  eexists r2, w2. split; [done|]. split_and!; [congruence..|].
  rewrite Hf2, Hf, <-foldl_app. f_equal. unfold removable.
  change (c :: names) with ([c] ++ names). rewrite filter_app. f_equal.
  apply list_filter_iff. intros x. unfold deny. by rewrite Hk.
Qed.

Lemma child_names_valid f d : names_ok f → Forall valid_name (child_names f d).
Proof.
  intros Hf. apply Forall_forall. intros c (l&Hl&Hb)%elem_of_child_names.
  apply at_or_below_true in Hb as [k ->]. specialize (Hf _ Hl).
  rewrite Forall_forall in Hf. apply Hf. set_solver.
Qed.

Lemma cleared_refl d f : cleared d f f.
Proof. intros l. eauto. Qed.

Lemma cleared_children w d names :
  cleared d (fs w) (foldl (λ f c, prune (d ++ [c]) f) (fs w) (removable w d names)).
Proof.
  intros l. rewrite lookup_prune_children. split.
  - intros Hb. destruct (existsb _ _) eqn:He; [|done].
    apply existsb_exists in He as (c&_&Hc). exfalso.
    assert (below d l = true) by (apply below_child; eauto). congruence.
  - destruct (existsb _ _); eauto.
Qed.

Lemma removable_all w d names :
  (∀ c, deny w "removeall" (d ++ [c]) = None) → removable w d names = names.
Proof.
  intros H. unfold removable. induction names as [|c names IH]; [done|].
  rewrite filter_cons_True by done. by rewrite IH.
Qed.

Lemma run_Open dir w d :
  resolve (k_cwd (kernel w)) dir = d →
  ∃ h err, Open dir w = (Val (h, err), emit (Call "os.Open" [dir]) w) ∧
    (h = None ∨ h = Some d ∧ dir ≠ "") ∧ (clearable w dir d → h = Some d).
Proof.
  intros <-. unfold Open, locate, clearable. case_bool_decide; [naive_solver|].
  destruct (deny w "open" _); [naive_solver|].
  destruct (fs w !! _); [|naive_solver]. eexists _, _. naive_solver.
Qed.

Lemma run_Readdirnames h w :
  ∃ files err, Readdirnames h w = (Val (files, err), emit (Call "Readdirnames" []) w) ∧
    (files = [] ∨ ∃ d, h = Some d ∧ files = child_names (fs w) d) ∧
    (∀ d, h = Some d → fs w !! d = Some Dir → deny w "readdir" d = None →
      files = child_names (fs w) d).
Proof.
  unfold Readdirnames. destruct h as [d|]; [|naive_solver].
  destruct (deny w "readdir" d) eqn:?; [naive_solver|].
  destruct (fs w !! d) as [[]|] eqn:?; eexists _, _; naive_solver.
Qed.

Lemma removeDataDir_run cfg w :
  names_ok (fs w) →
  ∃ w', removeDataDir cfg w = (Val tt, w') ∧
    procs w' = procs w ∧ kernel w' = kernel w ∧ svc w' = svc w ∧
    data_dir_removed cfg w (fs w').
Proof.
  intros Hok. unfold removeDataDir, data_dir_removed, data_dir. set (dir := DataDir (cfg_Etcd cfg)).
  set (d := resolve _ dir). steps. set (w1 := emit _ w).
  destruct (run_Open dir w1 d eq_refl) as (h&err&Ho&Hh&Hcl). step Ho. cbn beta iota. clear Ho.
  destruct (run_log_if "application.remove-data-dir" err (emit (Call "os.Open" [dir]) w1))
    as (w2&Hl&(Hf2&Hp2&Hk2)&Hs2). step Hl. clear Hl.
  destruct (run_Readdirnames h w2) as (files&err2&Hr&Hfiles&Hall). step Hr. cbn beta iota. clear Hr.
  destruct (run_log_if "application.remove-data-dir" err2 (emit (Call "Readdirnames" []) w2))
    as (w3&Hl&(Hf3&Hp3&Hk3)&Hs3). step Hl. clear Hl.
  simpl in *. unfold deny in Hall. rewrite Hf2, Hk2 in *. simpl in *.
  assert (Forall valid_name files ∧ (dir ≠ "" ∨ files = [])) as [Hnames Hdir].
  { destruct Hfiles as [->|(d'&->&->)]; [split; [constructor|by right]|].
    destruct Hh as [|[[= ->] ?]]; [done|]. split; [by apply child_names_valid|by left]. }
  assert (∃ r w', remove_files dir files err2 w3 = (Val r, w') ∧ procs w' = procs w3 ∧
    kernel w' = kernel w3 ∧ svc w' = svc w3 ∧
    fs w' = foldl (λ f c, prune (d ++ [c]) f) (fs w3) (removable w3 d files))
    as (r&w4&Hrun&Hp4&Hk4&Hs4&Hf4).
  { destruct Hdir as [Hdir| ->]; [|eexists _, _; done].
    apply remove_files_run; [done|done|]. by rewrite Hk3. }
  step Hrun. edestruct (run_log_if "application.remove-data-dir" r w4)
    as (w5&->&(Hf5&Hp5&Hk5)&Hs5).
  assert (removable w3 d files = removable w d files) as Hrem.
  { apply list_filter_iff. intros c. unfold deny. by rewrite Hk3. }
  exists w5. rewrite Hf5, Hf4, Hf3, Hrem. split; [done|]. split_and!; [congruence..| |].
  - apply cleared_children.
  - intros Hclear l Hb. destruct Hclear as (?&Hd&Ho&Hrd&Hra).
    rewrite (Hall d), removable_all by (try apply Hcl; done).
    by rewrite prune_all_children, Hb.
Qed.
End remove.

(** The cluster, as a [MemberList] answer shows it, had nodes other than [name]. *)
Definition had_others (name : string) (answer : list Member * option error) : bool :=
  match answer.2 with
  | Some _ => false
  | None =>
      match answer.1 with
      | [] => false
      | [m] => negb (bool_decide (m_Name m = name))
      | _ :: _ :: _ => true
      end
  end.

(** What [Start] does once etcd was started and is synced: the pid file. *)
Definition synced_spec {X} (cfg : Config) (w : World X) (pid : Z) (r : option error)
    (f : gmap (list string) node) : Prop :=
  match write_refused (PidFile cfg) (pid_loc w cfg) w with
  | Some e => r = Some e ∧ f = fs w
  | None => r = None ∧ f = <[pid_loc w cfg := File (Sprintf_d pid)]> (fs w)
  end.

(** The undoing that [Start] and [Stop] share: the data directory cleared, then
    whatever process the pid file names killed. *)
Definition undo_spec {X} (cfg : Config) (w : World X) (k : option error)
    (f : gmap (list string) node) (ps : gmap Z Process) : Prop :=
  ∃ f1, data_dir_removed cfg w f1 ∧ kill_outcome (PidFile cfg) (set_fs f1 w) k f ps.

Lemma run_WriteFile {X} cfg c (w : World X) :
  WriteFile (PidFile cfg) c w =
  match write_refused (PidFile cfg) (pid_loc w cfg) w with
  | Some e => (Val (Some e), emit (Call "ioutil.WriteFile" [PidFile cfg]) w)
  | None => (Val None, set_fs (<[pid_loc w cfg := File c]> (fs w))
                         (emit (Call "ioutil.WriteFile" [PidFile cfg]) w))
  end.
Proof. unfold WriteFile. by rewrite locate_PidFile. Qed.

Lemma synced_run {X} cfg pid (w : World X) :
  ∃ r w', (err ← WriteFile (PidFile cfg) (Sprintf_d pid);
           match err with
           | Some err => _ ← log_error "application.write-pid-file.failed" err; mret (Some err)
           | None => _ ← log_info "application.start.success" []; mret None
           end) w = (Val r, w') ∧ kernel w' = kernel w ∧ procs w' = procs w ∧ svc w' = svc w ∧
    synced_spec cfg w pid r (fs w').
Proof.
  unfold synced_spec. pose proof (run_WriteFile cfg (Sprintf_d pid) w) as Hrun.
  destruct (write_refused _ _ w) as [e|]; step Hrun; steps; by eexists _, _.
Qed.

Lemma undo_run {X A} `{CollaboratorLaws X} (K : option error → M X A) cfg (w : World X) :
  names_ok (fs w) →
  ∃ k w', (_ ← removeDataDir cfg; _ ← log_info "application.kill" [];
           k ← kill (PidFile cfg); K k) w = K k w' ∧
    kernel w' = kernel w ∧ svc w' = svc w ∧ undo_spec cfg w k (fs w') (procs w').
Proof.
  intros Hok. destruct (removeDataDir_run cfg w Hok) as (w1&Hr&Hp&Hk&Hs&Hd). step Hr. steps.
  destruct (kill_run (PidFile cfg) (emit (Info "application.kill" []) w1))
    as (k&w2&Hrun&Hk2&Hs2&Hout). step Hrun.
  exists k, w2. split; [done|]. split_and!; [simpl in *; congruence..|].
  exists (fs w1). split; [done|]. eapply kill_outcome_same_os; [|exact Hout].
  unfold same_os. simpl. by rewrite Hp, Hk.
Qed.

(** ** An environment as data

    What the cluster answers to the application: the result of [Configure], of
    the cluster controller, of the sync controller, of every [MemberList] in
    turn and of [MemberRemove].  [AppScript.collaborators] plays the answers and
    records the calls; processes are the machine's. *)
Module AppScript.
Record answers := mkAnswers {
  configure : Config → option error;
  initial : Config → InitialClusterState * option error;
  synced : option error;
  lists : nat → list Member * option error;
  remove : string → option error
}.
Record state := mkState { listed : nat; removed : list string }.

Definition collaborators (an : answers) : Collaborators state := {|
  command_Start := Wrapper.Start;
  command_Kill := Wrapper.Kill;
  etcdClient_Configure c := mret (configure an c);
  etcdClient_MemberRemove i :=
    s ← get_svc; _ ← put_svc (mkState (listed s) (removed s ++ [i])); mret (remove an i);
  etcdClient_MemberList :=
    s ← get_svc; _ ← put_svc (mkState (S (listed s)) (removed s)); mret (lists an (listed s));
  clusterController_GetInitialClusterState c := mret (initial an c);
  syncController_VerifySynced := mret (synced an)
|}.

#[global] Instance laws an : @CollaboratorLaws state (collaborators an).
Proof. split; intros; simpl; try apply _; try done. Qed.
End AppScript.

Section scripted.
Context (an : AppScript.answers).
Local Hint Extern 0 (Collaborators AppScript.state) =>
  exact (AppScript.collaborators an) : typeclass_instances.
Notation W := (World AppScript.state).
Implicit Types w : W.

Lemma run_MemberList w :
  etcdClient_MemberList w =
  (Val (AppScript.lists an (AppScript.listed (svc w))),
   set_svc (AppScript.mkState (S (AppScript.listed (svc w))) (AppScript.removed (svc w))) w).
Proof. done. Qed.

Lemma run_Configure cfg w : etcdClient_Configure cfg w = (Val (AppScript.configure an cfg), w).
Proof. done. Qed.
Lemma run_GetInitialClusterState cfg w :
  clusterController_GetInitialClusterState cfg w = (Val (AppScript.initial an cfg), w).
Proof. done. Qed.
Lemma run_VerifySynced w : syncController_VerifySynced w = (Val (AppScript.synced an), w).
Proof. done. Qed.

Lemma run_MemberRemove i w :
  etcdClient_MemberRemove i w =
  (Val (AppScript.remove an i),
   set_svc (AppScript.mkState (AppScript.listed (svc w)) (AppScript.removed (svc w) ++ [i])) w).
Proof. done. Qed.

Lemma removeSelf_run cfg w :
  ∃ w', removeSelfFromCluster cfg w = (Val tt, w') ∧ same_os w w' ∧
    svc w' = AppScript.mkState (S (AppScript.listed (svc w)))
      (AppScript.removed (svc w) ++
         [self_member_id cfg (AppScript.lists an (AppScript.listed (svc w))).1]).
Proof.
  unfold removeSelfFromCluster. step (run_MemberList w).
  destruct (AppScript.lists an _) as [l err]. cbn beta iota.
  match goal with |- context [mbind _ (log_if ?a err) ?w0] =>
    destruct (run_log_if a err w0) as (w1&Hl&Ho1&Hs1) end.
  step Hl. steps. step (run_MemberRemove (self_member_id cfg l) (emit
    (Info "application.etcd-client.member-remove" [("member-id", VStr (self_member_id cfg l))]) w1)).
  match goal with |- context [log_if ?a (AppScript.remove an ?i) ?w0] =>
    destruct (run_log_if a (AppScript.remove an i) w0) as (w2&->&Ho2&Hs2) end.
  exists w2. split; [done|]. split.
  - etrans; [|exact Ho2]. etrans; [|exact Ho1]. done.
  - rewrite Hs2. simpl. by rewrite Hs1.
Qed.

Lemma prior_run name w :
  ∃ w', priorClusterHadOtherNodes name w =
      (Val (had_others name (AppScript.lists an (AppScript.listed (svc w)))), w') ∧ same_os w w' ∧
    svc w' = AppScript.mkState (S (AppScript.listed (svc w))) (AppScript.removed (svc w)).
Proof.
  unfold priorClusterHadOtherNodes. steps.
  step (run_MemberList (emit (Info "application.etcd-client.member-list" []) w)).
  change (svc (emit _ w)) with (svc w).
  unfold had_others.
  destruct (AppScript.lists an _) as [l [e|]]; cbn iota beta; steps; [eexists; done|].
  destruct l as [|m [|m' l]]; simpl; [eexists; done| |eexists; done].
  case_bool_decide; simpl; eexists; done.
Qed.

(** The calls a run of [Start] makes when the node does not get synced. *)
Definition unsynced_calls (cfg : Config) (ics : InitialClusterState) : AppScript.state :=
  if bool_decide (State ics = "existing") then
    AppScript.mkState 1 [self_member_id cfg (AppScript.lists an 0).1]
  else AppScript.mkState 0 [].

(** [Start], from the configuration it read. *)
Definition start_spec (cfg : Config) w (r : option error) w' : Prop :=
  match AppScript.configure an cfg, AppScript.initial an cfg with
  | Some e, _ | None, (_, Some e) => r = Some e ∧ same_os w w' ∧ svc w' = svc w
  | None, (ics, None) =>
      match k_exec (kernel w) (EtcdPath (cfg_Etcd cfg)) (etcd_command cfg ics) with
      | Some e => r = Some e ∧ same_os w w' ∧ svc w' = svc w
      | None =>
          let pid := k_pid (kernel w) (procs w) in
          let ps := <[pid := etcd_process cfg ics]> (procs w) in
          match AppScript.synced an with
          | None => synced_spec cfg w pid r (fs w') ∧ procs w' = ps ∧ svc w' = svc w
          | Some e =>
              svc w' = unsynced_calls cfg ics ∧
              ∃ k, undo_spec cfg (set_procs ps w) k (fs w') (procs w') ∧
                r = Some (default e k)
          end
      end
  end.

(** [Stop], from the configuration it read. *)
Definition stop_spec (cfg : Config) w (r : option error) w' : Prop :=
  match AppScript.configure an cfg with
  | Some e => r = Some e ∧ same_os w w' ∧ svc w' = svc w
  | None =>
      svc w' = (if had_others (NodeName cfg) (AppScript.lists an 0) then
                  AppScript.mkState 2 [self_member_id cfg (AppScript.lists an 1).1]
                else AppScript.mkState 1 []) ∧
      undo_spec cfg w r (fs w') (procs w')
  end.
End scripted.

Lemma Config_run {X} p q (w : World X) :
  ∃ cfg err w1, ConfigFromJSONs p q w = (Val (cfg, err), w1) ∧ same_os w w1 ∧ svc w1 = svc w.
Proof.
  unfold ConfigFromJSONs. steps. destruct (read_file p w) as [c1 [e|]]; steps; [by do 3 eexists|].
  destruct (Unmarshal c1 _) as [c [e|]]; steps; [by do 3 eexists|].
  destruct (read_file q w) as [c2 [e|]]; steps; [by do 3 eexists|].
  destruct (0 <? String.length c2)%nat; [destruct (Unmarshal c2 _) as [? [|]]|];
    steps; by do 3 eexists.
Qed.

Lemma undo_spec_same_os {X} cfg (w w' : World X) k f ps :
  same_os w w' → undo_spec cfg w k f ps → undo_spec cfg w' k f ps.
Proof.
  intros Hos (f1&[Hc Hall]&Hk). exists f1. split.
  - destruct Hos as (Hf&_&Hke). unfold data_dir_removed, data_dir, clearable, deny in *.
    by rewrite Hf, Hke.
  - eapply kill_outcome_same_os; [|exact Hk]. destruct Hos as (_&Hp&Hke). by split_and!.
Qed.

Lemma synced_spec_same_os {X} cfg (w w' : World X) pid r f :
  fs w' = fs w → kernel w' = kernel w → synced_spec cfg w pid r f → synced_spec cfg w' pid r f.
Proof.
  intros Hf Hk. unfold synced_spec, pid_loc, write_refused, deny. by rewrite Hf, Hk.
Qed.

Section lifecycle.
Context (an : AppScript.answers).
Local Hint Extern 0 (Collaborators AppScript.state) =>
  exact (AppScript.collaborators an) : typeclass_instances.
Notation W := (World AppScript.state).
Implicit Types w : W.

(** What the two ends of [Start] do after the launch. *)
Lemma unsynced_run cfg ics e w :
  svc w = AppScript.mkState 0 [] → names_ok (fs w) →
  ∃ r w', (_ ← (if bool_decide (State ics = "existing") then
                  _ ← log_info "application.remove-self-from-cluster" [];
                  removeSelfFromCluster cfg
                else mret tt);
           _ ← removeDataDir cfg; _ ← log_info "application.kill" [];
           killErr ← kill (PidFile cfg);
           match killErr with
           | Some killErr => mret (Some killErr)
           | None => mret (Some e)
           end) w = (Val r, w') ∧ kernel w' = kernel w ∧
    svc w' = unsynced_calls an cfg ics ∧
    ∃ k, undo_spec cfg w k (fs w') (procs w') ∧ r = Some (default e k).
Proof.
  intros Hs Hok.
  assert (∃ w1, (if bool_decide (State ics = "existing") then
                  _ ← log_info "application.remove-self-from-cluster" [];
                  removeSelfFromCluster cfg
                else mret tt) w = (Val tt, w1) ∧ same_os w w1 ∧ svc w1 = unsynced_calls an cfg ics)
    as (w1&Hr&Hos&Hs1).
  { unfold unsynced_calls. case_bool_decide; [|by eexists]. steps.
    match goal with |- context [removeSelfFromCluster cfg ?w0] =>
      destruct (removeSelf_run an cfg w0) as (w1&->&Hos&Hs1) end.
    exists w1. split_and!; [done|exact Hos|]. rewrite Hs1. simpl. by rewrite Hs. }
  step Hr. pose proof Hos as (Hf&_&Hk).
  destruct (undo_run (λ k, match k with Some k => mret (Some k) | None => mret (Some e) end)
    cfg w1) as (k&w2&->&Hk2&Hs2&Hu); [by rewrite Hf|].
  exists (Some (default e k)), w2. split; [by destruct k|]. split_and!; [congruence..|].
  exists k. split; [|done]. eapply undo_spec_same_os; [|exact Hu]. by symmetry.
Qed.

Lemma Start_run a cfg w w1 :
  svc w = AppScript.mkState 0 [] → names_ok (fs w) →
  ConfigFromJSONs (configFilePath a) (linkConfigFilePath a) w = (Val (cfg, None), w1) →
  ∃ r w', Start a w = (Val r, w') ∧ kernel w' = kernel w ∧ start_spec an cfg w r w'.
Proof.
  intros Hs Hok Hcfg. destruct (Config_run (configFilePath a) (linkConfigFilePath a) w)
    as (cfg'&err&w1'&Hcfg'&(Hf1&Hp1&Hk1)&Hs1).
  rewrite Hcfg in Hcfg'. injection Hcfg' as <- <- <-.
  unfold Start, start_spec. step Hcfg. cbn iota beta.
  step (run_Configure an cfg w1). destruct (AppScript.configure an cfg) as [e|]; steps.
  { eexists _, _. done. }
  step (run_GetInitialClusterState an cfg w1). destruct (AppScript.initial an cfg) as [ics [e|]]; cbn iota beta; steps.
  { eexists _, _. done. }
  step (run_buildEtcdArgs cfg w1). steps. fold (etcd_command cfg ics).
  match goal with |- context [mbind _ (command_Start ?p ?l) ?w0] =>
    pose proof (run_command_Start p l w0) as Hrun; set (w2 := w0) in * end.
  change (kernel w2) with (kernel w1) in Hrun. change (procs w2) with (procs w1) in Hrun.
  rewrite Hk1, Hp1 in Hrun. destruct (k_exec (kernel w) _ _) as [e|]; step Hrun; cbn iota beta; steps.
  { eexists _, _. done. }
  set (w3 := launched _ _ w2).
  match goal with |- context [mbind _ syncController_VerifySynced ?w0] =>
    pose proof (run_VerifySynced an w0) as H1; set (w4 := w0) in *
  end.
  assert (same_os (set_procs (<[k_pid (kernel w) (procs w) := etcd_process cfg ics]> (procs w)) w)
    w4) as (Hf4&Hp4&Hk4).
  { unfold same_os, w4, w3, launched, w2. simpl. by rewrite Hf1, Hk1, Hp1. }
  assert (svc w4 = svc w) as Hs4 by exact Hs1. clearbody w4. step H1. clear H1 Hrun w3 w2.
  simpl in Hf4, Hp4, Hk4.
  destruct (AppScript.synced an) as [e|]; steps.
  - match goal with |- context [mbind _ (if _ then _ else _) ?w0] =>
      destruct (unsynced_run cfg ics e w0) as (r&w'&->&Hk'&Hs'&k&Hu&->) end;
      [simpl; by rewrite Hs4|simpl; by rewrite Hf4|].
    eexists _, w'. split; [done|]. split_and!; [by rewrite Hk'|done|].
    exists k. split; [|done]. eapply undo_spec_same_os; [|exact Hu].
    unfold same_os. simpl. by rewrite Hf4, Hp4, Hk4.
  - match goal with |- context [mbind _ (WriteFile _ (Sprintf_d ?pid)) ?w0] =>
      destruct (synced_run cfg pid w0) as (r&w'&->&Hk'&Hp'&Hs'&Hsp) end.
    eexists _, w'. split; [done|]. simpl in *. split_and!; [congruence| |congruence..].
    eapply synced_spec_same_os; [| |exact Hsp]; simpl; congruence.
Qed.

Lemma Stop_run a cfg w w1 :
  svc w = AppScript.mkState 0 [] → names_ok (fs w) →
  ConfigFromJSONs (configFilePath a) (linkConfigFilePath a)
    (emit (Info "application.stop" []) w) = (Val (cfg, None), w1) →
  ∃ r w', Stop a w = (Val r, w') ∧ kernel w' = kernel w ∧ stop_spec an cfg w r w'.
Proof.
  intros Hs Hok Hcfg. set (w0 := emit _ w) in Hcfg.
  destruct (Config_run (configFilePath a) (linkConfigFilePath a) w0)
    as (cfg'&err&w1'&Hcfg'&(Hf1&Hp1&Hk1)&Hs1).
  rewrite Hcfg in Hcfg'. injection Hcfg' as <- <- <-. simpl in *.
  unfold Stop, stop_spec. steps. step Hcfg. cbn iota beta.
  step (run_Configure an cfg w1). destruct (AppScript.configure an cfg) as [e|]; steps.
  { eexists _, _. done. }
  destruct (prior_run an (NodeName cfg) w1) as (w2&Hr&(Hf2&Hp2&Hk2)&Hs2). step Hr. clear Hr.
  rewrite Hs1, Hs in *. simpl in *.
  set (b := had_others (NodeName cfg) _) in *.
  assert (∃ w3, (if b then
                   _ ← log_info "application.remove-self-from-cluster" [];
                   removeSelfFromCluster cfg
                 else mret tt) w2 = (Val tt, w3) ∧ same_os w2 w3 ∧
    svc w3 = (if b then AppScript.mkState 2 [self_member_id cfg (AppScript.lists an 1).1]
              else AppScript.mkState 1 [])) as (w3&Hr&(Hf3&Hp3&Hk3)&Hs3).
  { destruct b; [|by eexists]. steps.
    match goal with |- context [removeSelfFromCluster cfg ?w0] =>
      destruct (removeSelf_run an cfg w0) as (w3&->&Hos&Hs3) end.
    exists w3. split_and!; [done|apply Hos..|]. rewrite Hs3. simpl. by rewrite Hs2. }
  step Hr. clear Hr.
  match goal with |- context [mbind (λ err, @?K err) (kill (PidFile cfg))] =>
    destruct (undo_run K cfg w3) as (k&w4&->&Hk4&Hs4&Hu); [by rewrite Hf3, Hf2, Hf1|] end.
  exists k, (match k with Some _ => w4 | None => emit (Info "application.stop.success" []) w4 end).
  split; [by destruct k|]. assert (undo_spec cfg w k (fs w4) (procs w4)) as Hu'.
  { eapply undo_spec_same_os; [|exact Hu]. unfold same_os. split_and!; congruence. }
  destruct k; simpl; split_and!; try congruence; exact Hu'.
Qed.
End lifecycle.
