(* ===== verification/LifecycleSpec.v ===== *)
(** * The lifecycle of the etcd process: theorems

    Properties of [Application.v], from the lemmas of [Lifecycle.v]. *)
From S2P Require Import Prelude GoStrings GoPath Machine GoJson Config Client Sync Cluster.
From S2P Require Import Application Lifecycle.

Open Scope Z_scope.

(** ** Lemmas *)

(** The configuration read is a function of the two files. *)
Lemma Config_ext {X} p q (w w' : World X) r w1 :
  read_file p w' = read_file p w → read_file q w' = read_file q w →
  ConfigFromJSONs p q w = (Val r, w1) → ∃ w1', ConfigFromJSONs p q w' = (Val r, w1').
Proof.
  intros Hp Hq. unfold ConfigFromJSONs. steps. rewrite Hp.
  destruct (read_file p w) as [c1 [e|]]; steps; [intros [= <- _]; eauto|].
  destruct (Unmarshal c1 _) as [c [e|]]; steps; [intros [= <- _]; eauto|].
  rewrite Hq.
  destruct (read_file q w) as [c2 [e|]]; steps; [intros [= <- _]; eauto|].
  destruct (0 <? String.length c2)%nat; [destruct (Unmarshal c2 _) as [? [|]]|];
    steps; intros [= <- _]; eauto.
Qed.

Lemma walk_valid dir l :
  Forall valid_name dir → (∀ c, c ∈ l → has_char slash c = false) →
  Forall valid_name (foldl walk_step dir l).
Proof.
  revert dir. induction l as [|c l IH]; intros dir Hd Hl; [done|]. simpl.
  apply IH; [|set_solver]. unfold walk_step.
  destruct (bool_decide (c = "") || bool_decide (c = ".")) eqn:Hc; [done|].
  apply orb_false_iff in Hc as [?%bool_decide_eq_false ?%bool_decide_eq_false].
  case_bool_decide; [by destruct Hd|]. constructor; [|done].
  split_and!; [done..|]. apply Hl. set_solver.
Qed.

(** Locations have proper names. *)
Lemma resolve_valid cwd p : Forall valid_name cwd → Forall valid_name (resolve cwd p).
Proof.
  intros Hc. unfold resolve. apply Forall_rev, walk_valid.
  - destruct (is_rooted p); [constructor|by apply Forall_rev].
  - apply Split_no_sep.
Qed.

(** Reading a file away from one written location. *)
Lemma read_file_insert {X} p l n (w : World X) f' :
  f' = <[l := n]> (fs w) → resolve (k_cwd (kernel w)) p ≠ l →
  read_file p (set_fs f' w) = read_file p w.
Proof.
  intros -> Hne. unfold read_file, locate, deny. simpl. case_bool_decide; [done|].
  destruct (k_deny _ _ _); [done|]. by rewrite lookup_insert_ne.
Qed.

(** So a file written elsewhere does not change the configuration. *)
Lemma Config_reread {X} p q cfg l n (w w' : World X) :
  fs w' = <[l := n]> (fs w) → kernel w' = kernel w →
  resolve (k_cwd (kernel w)) p ≠ l → resolve (k_cwd (kernel w)) q ≠ l →
  (∃ w1, ConfigFromJSONs p q w = (Val (cfg, None), w1)) →
  ∃ w1', ConfigFromJSONs p q w' = (Val (cfg, None), w1').
Proof.
  intros Hf Hk Hp Hq [w1 Hc]. eapply Config_ext; [| |exact Hc];
    [rewrite <-(read_file_insert p l n w (fs w') Hf Hp)|rewrite <-(read_file_insert q l n w (fs w') Hf Hq)];
    unfold read_file, locate, deny; simpl; by rewrite Hk.
Qed.

Lemma Start_config_error {X} `{Collaborators X} a cfg e (w w1 : World X) :
  ConfigFromJSONs (configFilePath a) (linkConfigFilePath a) w = (Val (cfg, Some e), w1) →
  ∃ w', Start a w = (Val (Some e), w') ∧ same_os w w' ∧ svc w' = svc w.
Proof.
  intros Hc. destruct (Config_run (configFilePath a) (linkConfigFilePath a) w)
    as (?&?&w1'&Hc'&Hos&Hs). rewrite Hc in Hc'. injection Hc' as <- <- <-.
  unfold Start. step Hc. cbn iota beta. steps. by eexists.
Qed.

Lemma Stop_config_error {X} `{Collaborators X} a cfg e (w w1 : World X) :
  ConfigFromJSONs (configFilePath a) (linkConfigFilePath a)
    (emit (Info "application.stop" []) w) = (Val (cfg, Some e), w1) →
  ∃ w', Stop a w = (Val (Some e), w') ∧ same_os w w' ∧ svc w' = svc w.
Proof.
  intros Hc. destruct (Config_run (configFilePath a) (linkConfigFilePath a)
    (emit (Info "application.stop" []) w)) as (?&?&w1'&Hc'&Hos&Hs).
  rewrite Hc in Hc'. injection Hc' as <- <- <-.
  unfold Stop. steps. step Hc. cbn iota beta. steps. by eexists.
Qed.

(** The last member of the node's name. *)
Lemma self_member_id_last cfg l :
  self_member_id cfg l =
  match last_match (λ m, bool_decide (m_Name m = NodeName cfg)) l with
  | Some m => m_ID m
  | None => ""
  end.
Proof.
  unfold self_member_id. induction l as [|m l IH] using rev_ind; [done|].
  rewrite foldl_app, last_match_snoc. simpl. rewrite IH. by case_bool_decide.
Qed.

(** ** Properties: [kill], [removeDataDir], [removeSelfFromCluster] *)

(** [kill], with the wiring of [main], always returns and does this to the
    machine: an unreadable pid file, contents that are no number, and a process
    that cannot be killed give their error and leave files and processes as
    they were; otherwise the processes the number names are gone, and then the
    pid file is, or the error of its removal is returned. *)
Theorem kill_spec {R T C} disableDelay (lib : CoreOS R T C) pidPath (w : World (Services R T C)) :
  ∃ r w', kill (H := Services_Collaborators disableDelay lib) pidPath w = (Val r, w') ∧
    kernel w' = kernel w ∧ svc w' = svc w ∧ kill_outcome pidPath w r (fs w') (procs w').
Proof. exact (kill_run (HL := Services_CollaboratorLaws disableDelay lib) pidPath w). Qed.

(** [removeDataDir] always returns and kills nothing; it never touches a
    location that is not strictly below the data directory (the directory itself
    stays), it only ever removes, and when the directory exists and the kernel
    refuses nothing, nothing is left below it.  In the other cases (the
    directory cannot be opened or listed, an entry cannot be removed) it goes on
    and the caller is not told. *)
Theorem removeDataDir_spec {X} cfg (w : World X) :
  names_ok (fs w) →
  let d := data_dir w cfg in
  ∃ w', removeDataDir cfg w = (Val tt, w') ∧ procs w' = procs w ∧
    (∀ l, below d l = false → fs w' !! l = fs w !! l) ∧
    (∀ l, fs w' !! l = fs w !! l ∨ fs w' !! l = None) ∧
    (clearable w (DataDir (cfg_Etcd cfg)) d → ∀ l, below d l = true → fs w' !! l = None).
Proof.
  intros Hok d. destruct (removeDataDir_run cfg w Hok) as (w'&Hr&Hp&_&_&Hc&Hall).
  exists w'. split_and!; [done|done|apply Hc..|exact Hall].
Qed.

(** [removeSelfFromCluster] always returns; it asks for the members once
    and removes exactly one member: the last one that has this node's name.
    When none has (the list failed, or the node was added but etcd never
    started, so that its name is still empty) it still sends a removal, for the
    empty id. *)
Theorem removeSelf_calls an cfg w :
  svc w = AppScript.mkState 0 [] →
  let l := (AppScript.lists an 0).1 in
  ∃ w' id, removeSelfFromCluster (H := AppScript.collaborators an) cfg w = (Val tt, w') ∧
    same_os w w' ∧ svc w' = AppScript.mkState 1 [id] ∧
    (∀ l1 m l2, l = l1 ++ m :: l2 → m_Name m = NodeName cfg →
      (∀ m', m' ∈ l2 → m_Name m' ≠ NodeName cfg) → id = m_ID m) ∧
    ((∀ m, m ∈ l → m_Name m ≠ NodeName cfg) → id = "").
Proof.
  intros Hw l. destruct (removeSelf_run an cfg w) as (w'&Hr&Hos&Hs). rewrite Hw in Hs.
  exists w', (self_member_id cfg l). split_and!; [done|apply Hos..|exact Hs| |].
  - intros l1 m l2 -> Hm Hl2. rewrite self_member_id_last. unfold last_match.
    rewrite foldl_app. simpl. rewrite bool_decide_true by done. rewrite foldl_last_match.
    assert (last_match (λ m, bool_decide (m_Name m = NodeName cfg)) l2 = None) as ->; [|done].
    apply last_match_None. intros m' ?. apply bool_decide_eq_false. auto.
  - intros Hl. rewrite self_member_id_last.
    assert (last_match (λ m, bool_decide (m_Name m = NodeName cfg)) l = None) as ->; [|done].
    apply last_match_None. intros m' ?. apply bool_decide_eq_false. auto.
Qed.

(** ** Properties: [Start] and [Stop] refine their descriptions *)

(** C1: [Start] against any environment always returns (no panic) and does what
    [start_spec] says: an unreadable configuration, a failing [Configure], a
    failing cluster controller and a failing exec are returned and leave files
    and processes alone; otherwise exactly one process is added, etcd with the
    configured flags; synced, its pid is written to the pid file; not synced,
    the node is removed from the cluster exactly if it joined an existing one,
    the data directory is cleared, and the process that the pid file names is
    killed, and the error returned is the kill's, if there is one, and the sync
    error otherwise. *)
Theorem Start_refines an a (w : World AppScript.state) :
  svc w = AppScript.mkState 0 [] → names_ok (fs w) →
  ∃ r w', Start (H := AppScript.collaborators an) a w = (Val r, w') ∧ kernel w' = kernel w ∧
    match (ConfigFromJSONs (configFilePath a) (linkConfigFilePath a) w).1 with
    | Val (cfg, None) => start_spec an cfg w r w'
    | Val (_, Some e) => r = Some e ∧ same_os w w' ∧ svc w' = svc w
    | _ => False
    end.
Proof.
  intros Hs Hok. destruct (Config_run (configFilePath a) (linkConfigFilePath a) w)
    as (cfg&[e|]&w1&Hc&_); rewrite Hc; simpl.
  - destruct (Start_config_error (H := AppScript.collaborators an) a cfg e w w1 Hc)
      as (w'&Hr&Hos&Hs'). exists (Some e), w'. split_and!; try done. apply Hos.
  - by apply (Start_run an a cfg w w1).
Qed.

(** C2: [Stop] against any environment always returns and does what [stop_spec]
    says: without a configuration or a client nothing happens; otherwise the
    node is removed from the cluster exactly if the member list could be read
    and shows a node besides this one (more than one member, or a single member
    of another name), at most one removal being sent; the data directory is
    cleared in any case, the process the pid file names is killed, and the
    result is that of the kill. *)
Theorem Stop_refines an a (w : World AppScript.state) :
  svc w = AppScript.mkState 0 [] → names_ok (fs w) →
  ∃ r w', Stop (H := AppScript.collaborators an) a w = (Val r, w') ∧ kernel w' = kernel w ∧
    match (ConfigFromJSONs (configFilePath a) (linkConfigFilePath a)
             (emit (Info "application.stop" []) w)).1 with
    | Val (cfg, None) => stop_spec an cfg w r w'
    | Val (_, Some e) => r = Some e ∧ same_os w w' ∧ svc w' = svc w
    | _ => False
    end.
Proof.
  intros Hs Hok. destruct (Config_run (configFilePath a) (linkConfigFilePath a)
    (emit (Info "application.stop" []) w)) as (cfg&[e|]&w1&Hc&_); rewrite Hc; simpl.
  - destruct (Stop_config_error (H := AppScript.collaborators an) a cfg e w w1 Hc)
      as (w'&Hr&Hos&Hs'). exists (Some e), w'. split_and!; try done. apply Hos.
  - by apply (Stop_run an a cfg w w1).
Qed.

(** ** Properties: the process across [Start] and [Stop] *)

(** What a start that succeeds needs. *)
Record startable (an : AppScript.answers) (a : Application) (cfg : Config)
    (ics : InitialClusterState) (w : World AppScript.state) : Prop := {
  st_fresh : svc w = AppScript.mkState 0 [];
  st_names : names_ok (fs w);
  st_config : ∃ w1, ConfigFromJSONs (configFilePath a) (linkConfigFilePath a) w =
                (Val (cfg, None), w1);
  st_configure : AppScript.configure an cfg = None;
  st_initial : AppScript.initial an cfg = (ics, None);
  st_exec : k_exec (kernel w) (EtcdPath (cfg_Etcd cfg)) (etcd_command cfg ics) = None
}.

Lemma startable_run an a cfg ics w :
  startable an a cfg ics w →
  ∃ r w', Start (H := AppScript.collaborators an) a w = (Val r, w') ∧ kernel w' = kernel w ∧
    let ps := <[k_pid (kernel w) (procs w) := etcd_process cfg ics]> (procs w) in
    match AppScript.synced an with
    | None => synced_spec cfg w (k_pid (kernel w) (procs w)) r (fs w') ∧ procs w' = ps ∧
              svc w' = svc w
    | Some e =>
        svc w' = unsynced_calls an cfg ics ∧
        ∃ k, undo_spec cfg (set_procs ps w) k (fs w') (procs w') ∧ r = Some (default e k)
    end.
Proof.
  intros [Hs Hok [w1 Hc] Hconf Hinit Hexec].
  destruct (Start_run an a cfg w w1 Hs Hok Hc) as (r&w'&Hr&Hk&Hspec).
  exists r, w'. split; [done|]. split; [done|].
  unfold start_spec in Hspec. by rewrite Hconf, Hinit, Hexec in Hspec.
Qed.

(** Reading the pid file after the data directory was cleared around it. *)
Lemma read_pid_cleared {X} cfg (w : World X) f :
  data_dir_removed cfg w f → below (data_dir w cfg) (pid_loc w cfg) = false →
  read_file (PidFile cfg) (set_fs f w) = read_file (PidFile cfg) w.
Proof.
  intros [Hc _] Hb. unfold read_file. change (locate (set_fs f w) ?p) with (locate w p).
  rewrite locate_PidFile. unfold deny. simpl. destruct (Hc (pid_loc w cfg)) as [Hl _].
  by rewrite Hl.
Qed.

(** Undoing with a pid file that names a live process the kernel lets die. *)
Lemma undo_recorded {X} cfg (w : World X) pid k f ps :
  below (data_dir w cfg) (pid_loc w cfg) = false →
  read_file (PidFile cfg) w = (Sprintf_d pid, None) → 0 < pid ≤ max_int →
  is_Some (procs w !! pid) → k_kill (kernel w) pid = None →
  deny w "remove" (pid_loc w cfg) = None →
  undo_spec cfg w k f ps →
  k = None ∧ ps = delete pid (procs w) ∧
  ∃ f1, data_dir_removed cfg w f1 ∧ f = delete (pid_loc w cfg) f1.
Proof.
  intros Hb Hread Hpid Hlive Hkok Hden (f1&Hd&Hkill). unfold kill_outcome in Hkill.
  rewrite (read_pid_cleared cfg _ f1 Hd Hb), Hread, Atoi_Sprintf_d in Hkill
    by (unfold in_int, min_int; apply andb_true_iff; split; apply Z.leb_le; lia).
  assert (kill_victims w pid = [pid]) as Hv.
  { unfold kill_victims. destruct (Z.ltb_spec pid 0); [lia|done]. }
  assert (kill_refused w pid = None) as Hr.
  { unfold kill_refused. rewrite !bool_decide_false, Hkok, Hv by lia. simpl.
    by rewrite bool_decide_true. }
  change (kill_refused (set_fs f1 w) pid) with (kill_refused w pid) in Hkill.
  change (kill_victims (set_fs f1 w) pid) with (kill_victims w pid) in Hkill.
  change (locate (set_fs f1 w) ?p) with (locate w p) in Hkill.
  rewrite Hr, Hv, locate_PidFile in Hkill. simpl in Hkill.
  destruct Hkill as (->&l&[= <-]&Hrem). revert Hrem. unfold remove_refused, deny. simpl.
  unfold deny in Hden. rewrite Hden.
  apply read_file_located in Hread as (l&Hl&Hf). rewrite locate_PidFile in Hl.
  injection Hl as <-. destruct Hd as [Hc Hall]. destruct (Hc (pid_loc w cfg)) as [Heq _].
  rewrite Heq, Hf by done. intros [-> ->]. split_and!; [done..|]. by exists f1.
Qed.

(** C16: a node that does not get synced and has no pid file (the pid file is
    only written after the sync) is not stopped by [Start]: the data directory
    is cleared but the etcd process that was just started keeps running, no
    process is ended, and the error returned is that of opening the pid file,
    not the sync error. *)
Theorem Start_unsynced_leaves_process an a cfg ics e e' (w : World AppScript.state) :
  startable an a cfg ics w → AppScript.synced an = Some e →
  below (data_dir w cfg) (pid_loc w cfg) = false →
  (read_file (PidFile cfg) w).2 = Some e' →
  ∃ w', Start (H := AppScript.collaborators an) a w = (Val (Some e'), w') ∧
    procs w' = <[k_pid (kernel w) (procs w) := etcd_process cfg ics]> (procs w) ∧
    data_dir_removed cfg w (fs w') ∧ svc w' = unsynced_calls an cfg ics.
Proof.
  intros Hst He Hb Hread. destruct (startable_run an a cfg ics w Hst) as (r&w'&Hr&_&Hspec).
  rewrite He in Hspec. destruct Hspec as (Hsvc&k&(f1&Hd&Hkill)&->).
  unfold kill_outcome in Hkill. rewrite (read_pid_cleared cfg _ f1 Hd Hb) in Hkill.
  change (read_file ?p (set_procs ?ps w)) with (read_file p w) in Hkill.
  destruct (read_file (PidFile cfg) w) as [c [?|]]; [|done]. simpl in *. simplify_eq.
  destruct Hkill as (->&Hf&Hp). exists w'. split_and!; [done|exact Hp| |done].
  by rewrite Hf.
Qed.

(** A node that does not get synced and finds a pid file of an earlier
    process ends that process and not the one it started (unless the pid is the
    same), removes the file, and returns the sync error. *)
Theorem Start_unsynced_kills_recorded an a cfg ics e old (w : World AppScript.state) :
  startable an a cfg ics w → AppScript.synced an = Some e →
  below (data_dir w cfg) (pid_loc w cfg) = false →
  0 < old ≤ max_int → read_file (PidFile cfg) w = (Sprintf_d old, None) →
  is_Some (procs w !! old) → k_kill (kernel w) old = None →
  deny w "remove" (pid_loc w cfg) = None →
  let pid := k_pid (kernel w) (procs w) in
  ∃ w', Start (H := AppScript.collaborators an) a w = (Val (Some e), w') ∧
    procs w' = delete old (<[pid := etcd_process cfg ics]> (procs w)) ∧
    (pid ≠ old → procs w' !! pid = Some (etcd_process cfg ics)) ∧
    fs w' !! pid_loc w cfg = None.
Proof.
  intros Hst He Hb Hold Hread Hlive Hkok Hden pid.
  destruct (startable_run an a cfg ics w Hst) as (r&w'&Hr&_&Hspec).
  rewrite He in Hspec. destruct Hspec as (Hsvc&k&Hu&->).
  apply (undo_recorded _ _ old) in Hu as (->&Hp&f1&_&Hf); [|try done..].
  - exists w'. split_and!; [done|exact Hp| |].
    + intros Hne. rewrite Hp. simpl. by simplify_map_eq.
    + rewrite Hf. apply lookup_delete_eq.
  - simpl. destruct (decide (pid = old)) as [Heq|]; [rewrite <-Heq|]; by simplify_map_eq.
Qed.

(** C6: a start that succeeds and the stop after it are inverse on the process
    table: [Start] adds etcd, with the configured command line, under a pid that
    the pid file holds and that reads back as the same number; a later [Stop]
    (a new run of the program, any answers of the cluster) ends exactly that
    process, removes the pid file, adds nothing, and changes nothing outside the
    data directory. *)
Theorem Start_then_Stop an an2 a cfg ics (w : World AppScript.state) :
  let pid := k_pid (kernel w) (procs w) in
  let l := pid_loc w cfg in
  startable an a cfg ics w → AppScript.synced an = None → AppScript.configure an2 cfg = None →
  Forall valid_name (k_cwd (kernel w)) →
  resolve (k_cwd (kernel w)) (configFilePath a) ≠ l →
  resolve (k_cwd (kernel w)) (linkConfigFilePath a) ≠ l →
  below (data_dir w cfg) l = false → write_refused (PidFile cfg) l w = None →
  deny w "open" l = None → deny w "remove" l = None → k_kill (kernel w) pid = None →
  0 < pid ≤ max_int → procs w !! pid = None →
  ∃ w1 w2, Start (H := AppScript.collaborators an) a w = (Val None, w1) ∧
    procs w1 = <[pid := etcd_process cfg ics]> (procs w) ∧
    fs w1 !! l = Some (File (Sprintf_d pid)) ∧ Atoi (Sprintf_d pid) = inr pid ∧
    Stop (H := AppScript.collaborators an2) a (set_svc (AppScript.mkState 0 []) w1) =
      (Val None, w2) ∧
    procs w2 = procs w ∧ fs w2 !! l = None ∧
    (∀ l', l' ≠ l → below (data_dir w cfg) l' = false → fs w2 !! l' = fs w !! l') ∧
    (∀ l', l' ≠ l → fs w2 !! l' = fs w !! l' ∨ fs w2 !! l' = None).
Proof.
  intros pid l Hst Hsy Hc2 Hcwd Hca Hcl Hb Hwr Hop Hrm Hki Hpid Hfresh.
  destruct (startable_run an a cfg ics w Hst) as (r&w1&Hr1&Hk1&Hspec).
  rewrite Hsy in Hspec. destruct Hspec as (Hsp&Hp1&_).
  unfold synced_spec in Hsp. fold l pid in Hsp, Hp1. rewrite Hwr in Hsp. destruct Hsp as [-> Hf1].
  set (w1' := set_svc (AppScript.mkState 0 []) w1).
  destruct (Config_reread _ _ cfg l _ w (emit (Info "application.stop" []) w1') Hf1 Hk1 Hca Hcl
    (st_config _ _ _ _ _ Hst)) as [wc' Hcfg'].
  assert (names_ok (fs w1')) as Hok.
  { intros l' [n Hn]. change (fs w1') with (fs w1) in Hn. rewrite Hf1 in Hn.
    destruct (decide (l' = l)) as [->|]; [by apply resolve_valid|].
    rewrite lookup_insert_ne in Hn by done. by apply (st_names _ _ _ _ _ Hst). }
  destruct (Stop_run an2 a cfg w1' wc' eq_refl Hok Hcfg') as (r&w2&Hr2&_&Hspec).
  unfold stop_spec in Hspec. rewrite Hc2 in Hspec. destruct Hspec as [_ Hu].
  assert (pid_loc w1' cfg = l ∧ data_dir w1' cfg = data_dir w cfg) as [Hl Hd].
  { unfold pid_loc, data_dir. simpl. by rewrite Hk1. }
  apply (undo_recorded _ _ pid) in Hu as (->&Hp2&f1&Hrm1&Hf2).
  - exists w1, w2. rewrite Hl in Hf2. split_and!; try done.
    + rewrite Hf1. by simplify_map_eq.
    + apply Atoi_Sprintf_d. unfold in_int, min_int. apply andb_true_iff.
      split; apply Z.leb_le; lia.
    + rewrite Hp2. simpl. rewrite Hp1. by apply delete_insert_id.
    + rewrite Hf2. apply lookup_delete_eq.
    + intros l' Hne Hbl. rewrite Hf2, lookup_delete_ne by done.
      destruct Hrm1 as [Hcl1 _]. rewrite Hd in Hcl1. rewrite (proj1 (Hcl1 l') Hbl).
      simpl. rewrite Hf1. by simplify_map_eq.
    + intros l' Hne. rewrite Hf2, lookup_delete_ne by done.
      destruct Hrm1 as [Hcl1 _]. destruct (proj2 (Hcl1 l')) as [-> | ->]; [left|by right].
      simpl. rewrite Hf1. by simplify_map_eq.
  - by rewrite Hl, Hd.
  - unfold read_file. rewrite locate_PidFile, Hl. unfold deny in *. simpl.
    rewrite Hk1, Hop, Hf1. by simplify_map_eq.
  - done.
  - simpl. rewrite Hp1. by simplify_map_eq.
  - simpl. by rewrite Hk1.
  - rewrite Hl. unfold deny in *. simpl. by rewrite Hk1.
Qed.

(** ** Properties: the flags of the etcd process *)

(** How etcd's flag set reads a command line: three flags take no value, every
    other one takes the next argument; [None] for what it would refuse. *)
Definition switches : list string := ["--debug"; "--client-cert-auth"; "--peer-client-cert-auth"].

Fixpoint flags_of (args : list string) : option (list (string * string)) :=
  match args with
  | [] => Some []
  | f :: rest =>
      if negb (HasPrefix f "--") then None
      else if bool_decide (f ∈ switches) then cons (f, "true") <$> flags_of rest
      else match rest with
           | [] => None
           | v :: rest' => cons (f, v) <$> flags_of rest'
           end
  end.

Definition flag (f : string) (fl : list (string * string)) : option string :=
  snd <$> head (List.filter (λ kv, bool_decide (kv.1 = f)) fl).

Lemma etcd_flags cfg ics :
  ∃ fl, flags_of (etcd_command cfg ics) = Some fl ∧
    flag "--name" fl = Some (NodeName cfg) ∧
    flag "--data-dir" fl = Some (DataDir (cfg_Etcd cfg)) ∧
    flag "--initial-advertise-peer-urls" fl = Some (AdvertisePeerURL cfg) ∧
    flag "--advertise-client-urls" fl = Some (AdvertiseClientURL cfg) ∧
    flag "--initial-cluster" fl = Some (Members ics) ∧
    flag "--initial-cluster-state" fl = Some (State ics).
Proof.
  unfold etcd_command, etcd_args.
  destruct (EnableDebugLogging _), (RequireSSL_ (cfg_Etcd cfg)), (PeerRequireSSL (cfg_Etcd cfg));
    (eexists; split; [reflexivity|]); split_and!; reflexivity.
Qed.

(** C14: etcd reads the command line [Start] builds without an error and no flag
    twice, and its values agree with what the rest of the program uses: the name
    is the node's member name, the data directory is the one [removeDataDir]
    clears, the advertised peer URL is the one the cluster controller registers,
    the advertised client URL is the one [VerifySynced] dials.  Client
    certificates are required, with the CA, certificate and key of the
    certificate directory, exactly when the client listener is [https], and the
    same for peers. *)
Theorem etcd_command_flags cfg ics :
  ∃ fl, flags_of (etcd_command cfg ics) = Some fl ∧ NoDup fl.*1 ∧
    flag "--name" fl = Some (NodeName cfg) ∧
    flag "--data-dir" fl = Some (DataDir (cfg_Etcd cfg)) ∧
    flag "--initial-advertise-peer-urls" fl = Some (AdvertisePeerURL cfg) ∧
    flag "--advertise-client-urls" fl = Some (EtcdClientSelfEndpoint cfg) ∧
    flag "--initial-cluster" fl = Some (Members ics) ∧
    flag "--initial-cluster-state" fl = Some (State ics) ∧
    (∃ u, flag "--listen-client-urls" fl = Some u ∧
      HasPrefix u "https://" = bool_decide (flag "--client-cert-auth" fl = Some "true") ∧
      let file f := if HasPrefix u "https://" then Some (filepath_Join [CertDir cfg; f]) else None in
      flag "--trusted-ca-file" fl = file "server-ca.crt" ∧
      flag "--cert-file" fl = file "server.crt" ∧ flag "--key-file" fl = file "server.key") ∧
    (∃ u, flag "--listen-peer-urls" fl = Some u ∧
      HasPrefix u "https://" = bool_decide (flag "--peer-client-cert-auth" fl = Some "true") ∧
      let file f := if HasPrefix u "https://" then Some (filepath_Join [CertDir cfg; f]) else None in
      flag "--peer-trusted-ca-file" fl = file "peer-ca.crt" ∧
      flag "--peer-cert-file" fl = file "peer.crt" ∧ flag "--peer-key-file" fl = file "peer.key").
Proof.
  unfold etcd_command, etcd_args, ListenClientURL, ListenPeerURL.
  destruct (EnableDebugLogging _), (RequireSSL_ (cfg_Etcd cfg)) eqn:Hs,
    (PeerRequireSSL (cfg_Etcd cfg)) eqn:Hp;
    (eexists; split; [reflexivity|]); (split; [apply (bool_decide_unpack _); vm_compute; exact I|]);
    split_and!; try reflexivity; (eexists; split_and!; reflexivity).
Qed.

(** ** Witnesses *)

Module LifecycleWitness.
Definition a : Application := mkApplication "/c.json" "/l.json".
Definition other : Process := mkProcess "/old" [].
(** A machine with the two configuration files, a run directory, a data
    directory that is not empty, and one process. *)
Definition files : gmap (list string) node :=
  <[["c.json"] := File sample_config]> (<[["l.json"] := File ""]>
  (<[["run"] := Dir]> (<[["var"; "vcap"; "store"; "etcd"] := Dir]>
  (<[["var"; "vcap"; "store"; "etcd"; "member"] := Dir]>
  (<[["var"; "vcap"; "store"; "etcd"; "member"; "wal"] := File "w"]> ∅))))).
Definition w : World AppScript.state :=
  mkWorld files {[ 7 := other ]} permissive_kernel (AppScript.mkState 0 []) [].
(** The same with the pid file of an earlier process. *)
Definition w_stale : World AppScript.state :=
  set_fs (<[["run"; "etcd.pid"] := File "7"]> files) w.
Definition cfg : Config :=
  match ConfigFromJSONs "/c.json" "/l.json" w with
  | (Val (c, _), _) => c
  | _ => zero_Config
  end.
Definition ics : InitialClusterState :=
  mkInitialClusterState "etcd-z1-2=https://etcd-z1-2.:7001" "existing".
Definition members : list Member :=
  [mkMember "m1" "etcd-z1-1" ["http://10.0.0.1:7001"] [];
   mkMember "m2" "" ["http://10.0.0.2:7001"] []].
Definition answers (synced : option error) : AppScript.answers :=
  AppScript.mkAnswers (λ _, None) (λ _, (ics, None)) synced (λ _, (members, None)) (λ _, None).
Definition timeout : error := ErrorString "timeout".

Lemma startable_w s : startable (answers s) a cfg ics w.
Proof.
  split; try done; [by apply names_ok_decide; vm_compute|].
  eexists. vm_compute. reflexivity.
Qed.
Lemma startable_stale s : startable (answers s) a cfg ics w_stale.
Proof.
  split; try done; [by apply names_ok_decide; vm_compute|].
  eexists. vm_compute. reflexivity.
Qed.
End LifecycleWitness.

Lemma removeDataDir_spec_witness :
  let w := LifecycleWitness.w in
  ∃ w', removeDataDir LifecycleWitness.cfg w = (Val tt, w') ∧ procs w' = procs w ∧
    fs w' !! ["run"] = Some Dir ∧
    fs w' !! ["var"; "vcap"; "store"; "etcd"; "member"; "wal"] = None.
Proof.
  intros w. destruct (removeDataDir_spec LifecycleWitness.cfg w
    ltac:(by apply names_ok_decide; vm_compute)) as (w'&Hr&Hp&Hk&_&Hall).
  exists w'. split_and!; [exact Hr|exact Hp|rewrite Hk; by vm_compute|].
  apply Hall; [|by vm_compute]. split_and!; try done; by vm_compute.
Defined.

Lemma removeSelf_calls_witness :
  ∃ w', removeSelfFromCluster
      (H := AppScript.collaborators (LifecycleWitness.answers None))
      LifecycleWitness.cfg LifecycleWitness.w = (Val tt, w') ∧ AppScript.removed (svc w') = [""].
Proof.
  destruct (removeSelf_calls (LifecycleWitness.answers None) LifecycleWitness.cfg
    LifecycleWitness.w eq_refl) as (w'&id&Hr&_&Hs&_&Hid).
  exists w'. split; [exact Hr|]. rewrite Hs, Hid; [done|].
  intros m Hm. apply (bool_decide_unpack _).
  assert (Forall (λ m, m_Name m ≠ NodeName LifecycleWitness.cfg) LifecycleWitness.members) as Hall
    by (apply (bool_decide_unpack _); vm_compute; exact I).
  apply bool_decide_pack. rewrite Forall_forall in Hall. by apply Hall.
Defined.

Lemma Start_refines_witness :
  ∃ r w', Start (H := AppScript.collaborators (LifecycleWitness.answers None))
      LifecycleWitness.a LifecycleWitness.w = (Val r, w') ∧
    start_spec (LifecycleWitness.answers None) LifecycleWitness.cfg LifecycleWitness.w r w'.
Proof.
  destruct (Start_refines (LifecycleWitness.answers None) LifecycleWitness.a LifecycleWitness.w
    eq_refl ltac:(by apply names_ok_decide; vm_compute)) as (r&w'&Hr&_&Hs).
  exists r, w'. split; [exact Hr|exact Hs].
Defined.

Lemma Stop_refines_witness :
  ∃ r w', Stop (H := AppScript.collaborators (LifecycleWitness.answers None))
      LifecycleWitness.a LifecycleWitness.w_stale = (Val r, w') ∧
    stop_spec (LifecycleWitness.answers None) LifecycleWitness.cfg LifecycleWitness.w_stale r w' ∧
    AppScript.removed (svc w') = [""].
Proof.
  destruct (Stop_refines (LifecycleWitness.answers None) LifecycleWitness.a
    LifecycleWitness.w_stale eq_refl ltac:(by apply names_ok_decide; vm_compute))
    as (r&w'&Hr&_&Hs).
  exists r, w'. split; [exact Hr|]. split; [exact Hs|].
  destruct Hs as [Hs _]. rewrite Hs. by vm_compute.
Defined.

Lemma Start_unsynced_leaves_process_witness :
  let an := LifecycleWitness.answers (Some LifecycleWitness.timeout) in
  let w := LifecycleWitness.w in
  ∃ w', Start (H := AppScript.collaborators an) LifecycleWitness.a w =
      (Val (Some (PathError "open" "/run/etcd.pid" ENOENT)), w') ∧
    procs w' !! 8 = Some (etcd_process LifecycleWitness.cfg LifecycleWitness.ics) ∧
    procs w' !! 7 = Some LifecycleWitness.other.
Proof.
  intros an w. destruct (Start_unsynced_leaves_process an LifecycleWitness.a LifecycleWitness.cfg
    LifecycleWitness.ics LifecycleWitness.timeout (PathError "open" "/run/etcd.pid" ENOENT) w
    (LifecycleWitness.startable_w _) eq_refl ltac:(by vm_compute) ltac:(by vm_compute))
    as (w'&Hr&Hp&_).
  exists w'. split; [exact Hr|]. rewrite Hp.
  change (k_pid (kernel w) (procs w)) with 8. by split.
Defined.

Lemma Start_unsynced_kills_recorded_witness :
  let an := LifecycleWitness.answers (Some LifecycleWitness.timeout) in
  let w := LifecycleWitness.w_stale in
  ∃ w', Start (H := AppScript.collaborators an) LifecycleWitness.a w =
      (Val (Some LifecycleWitness.timeout), w') ∧
    procs w' !! 8 = Some (etcd_process LifecycleWitness.cfg LifecycleWitness.ics) ∧
    procs w' !! 7 = None.
Proof.
  intros an w. destruct (Start_unsynced_kills_recorded an LifecycleWitness.a LifecycleWitness.cfg
    LifecycleWitness.ics LifecycleWitness.timeout 7 w (LifecycleWitness.startable_stale _) eq_refl
    ltac:(by vm_compute) ltac:(by split) ltac:(by vm_compute) ltac:(by eexists) eq_refl eq_refl)
    as (w'&Hr&Hp&Hk&_).
  exists w'. split; [exact Hr|]. split; [by apply Hk|].
  rewrite Hp. change (k_pid (kernel w) (procs w)) with 8. done.
Defined.

Lemma Start_then_Stop_witness :
  let an := LifecycleWitness.answers None in
  let w := LifecycleWitness.w in
  ∃ w1 w2, Start (H := AppScript.collaborators an) LifecycleWitness.a w = (Val None, w1) ∧
    fs w1 !! ["run"; "etcd.pid"] = Some (File "8") ∧
    Stop (H := AppScript.collaborators an) LifecycleWitness.a
      (set_svc (AppScript.mkState 0 []) w1) = (Val None, w2) ∧
    procs w2 = {[ 7 := LifecycleWitness.other ]}.
Proof.
  intros an w. destruct (Start_then_Stop an an LifecycleWitness.a LifecycleWitness.cfg
    LifecycleWitness.ics w (LifecycleWitness.startable_w _) eq_refl eq_refl
    ltac:(constructor) ltac:(by vm_compute) ltac:(by vm_compute) ltac:(by vm_compute)
    ltac:(by vm_compute) eq_refl eq_refl eq_refl ltac:(by split) eq_refl)
    as (w1&w2&H1&_&Hf&_&H2&Hp&_).
  exists w1, w2. split; [exact H1|]. split; [exact Hf|]. split; [exact H2|exact Hp].
Defined.
