(* ===== verification/Deployment.v ===== *)
(** * A cluster of nodes, deployed one after another

    [etcdfab start] and [etcdfab stop] of several machines around one etcd
    cluster: the application with the real controllers and the real client
    wrapper, over an etcd service.  etcd itself, its client library and the
    network are parameters: the class [EtcdService] states what is used of
    them.  The manifests under [src/manifests] deploy with [serial: true] and
    [max_in_flight: 1], so that one command runs at a time. *)
From S2P Require Import Prelude GoStrings GoPath Machine GoJson Delay Config Client Sync Cluster.
From S2P Require Import Application Lifecycle LifecycleSpec.

Open Scope Z_scope.

(** ** etcd *)

(** Whether etcd, started with [args], finds nothing in its data directory. *)
Definition clean {X} (args : list string) (w : World X) : bool :=
  match flags_of args ≫= flag "--data-dir" with
  | Some d => bool_decide (child_names (fs w) (resolve (k_cwd (kernel w)) d) = [])
  | None => true
  end.

(** A member whose etcd was never started has no client URL. *)
Definition started (m : RawMember) : Prop := raw_ClientURLs m ≠ [].

Definition unstarted_member (id url : string) : RawMember := mkRawMember id "" [url] [].

(** What the program relies on.  [etcd clean args] is what a process started
    with this command line does to the cluster; [cluster r] is the membership,
    [None] while there is no cluster; [serves endpoints ms] says that a client
    of these endpoints reaches one of the members [ms] that run. *)
Class EtcdService {R T C : Type} (lib : CoreOS R T C) (etcd : bool → list string → R → R) := {
  cluster : R → option (list RawMember);
  serves : list string → list RawMember → Prop;
  dials : C → list string;
  valid_url : string → Prop;

  (** a client of the library dials the endpoints it was made for *)
  New_dials cfg : Endpoints cfg ≠ [] →
    ∃ c, lib_New lib cfg = (Some c, None) ∧ dials c = Endpoints cfg;
  (** a started member can be reached at its own client URL *)
  serves_self u m ms : m ∈ ms → u ∈ raw_ClientURLs m → serves [u] ms;
  (** without a cluster nobody answers *)
  List_down c r : cluster r = None →
    ∃ l e r', lib_List lib c r = ((l, Some e), r') ∧ cluster r' = None;
  (** with every member running, the requests are answered and take effect *)
  List_up c r ms : cluster r = Some ms → serves (dials c) ms → Forall started ms →
    ∃ r', lib_List lib c r = ((ms, None), r') ∧ cluster r' = Some ms;
  Get_up c r ms : cluster r = Some ms → serves (dials c) ms → Forall started ms →
    ∃ r', lib_Get lib c "" r = (None, r') ∧ cluster r' = Some ms;
  Add_up c url r ms : cluster r = Some ms → serves (dials c) ms → Forall started ms →
    valid_url url → (∀ m, m ∈ ms → url ∉ raw_PeerURLs m) →
    ∃ id r', lib_Add lib c url r = ((unstarted_member id url, None), r') ∧
      cluster r' = Some (ms ++ [unstarted_member id url]) ∧ id ∉ raw_ID <$> ms;
  Remove_up c id r ms : cluster r = Some ms → serves (dials c) ms → Forall started ms →
    id ∈ raw_ID <$> ms →
    ∃ r', lib_Remove lib c id r = (None, r') ∧
      cluster r' = Some (filter (λ m, raw_ID m ≠ id) ms);
  (** a process with an empty data directory bootstraps a cluster of its own *)
  etcd_bootstraps args fl r name purl curl : cluster r = None →
    flags_of args = Some fl → valid_url purl → valid_url curl →
    flag "--name" fl = Some name → flag "--initial-advertise-peer-urls" fl = Some purl →
    flag "--advertise-client-urls" fl = Some curl →
    parse_initial_cluster <$> flag "--initial-cluster" fl = Some [(name, purl)] →
    flag "--initial-cluster-state" fl = Some "new" →
    ∃ id, cluster (etcd true args r) = Some [mkRawMember id name [purl] [curl]];
  (** or joins one it was added to, if [--initial-cluster] has the peer URLs of
      the members and its own name *)
  etcd_joins args fl r ms id name purl curl entries :
    cluster r = Some (ms ++ [unstarted_member id purl]) → Forall started ms →
    flags_of args = Some fl → valid_url purl → valid_url curl →
    flag "--name" fl = Some name → flag "--initial-advertise-peer-urls" fl = Some purl →
    flag "--advertise-client-urls" fl = Some curl →
    parse_initial_cluster <$> flag "--initial-cluster" fl = Some entries →
    entries.*2 ≡ₚ concat (raw_PeerURLs <$> ms) ++ [purl] → NoDup entries.*2 →
    (name, purl) ∈ entries → flag "--initial-cluster-state" fl = Some "existing" →
    cluster (etcd true args r) = Some (ms ++ [mkRawMember id name [purl] [curl]])
}.

(** ** Machines around a cluster *)

Record Host := mkHost {
  h_fs : gmap (list string) node;
  h_procs : gmap Z Process;
  h_kernel : Kernel;
  h_app : Application
}.

Section deployment.
Context {R T C : Type} (disableDelay : string) (lib : CoreOS R T C)
  (etcd : bool → list string → R → R).
Notation X := (Services R T C).

(** [command.Start]: once it runs, the process takes part in the cluster. *)
Definition takes_part (args : list string) : M X unit := λ w,
  (Val tt, set_svc (mkServices (sv_client (svc w)) (etcd (clean args w) args (sv_remote (svc w)))) w).

Definition launch (path : string) (args : list string) : M X (Z * option error) :=
  '(pid, err) ← Wrapper.Start path args;
  match err with
  | Some err => mret (pid, Some err)
  | None => _ ← takes_part args; mret (pid, None)
  end.

(** The wiring of [main], with processes that do something. *)
Definition deployed : Collaborators X :=
  let wired := Services_Collaborators disableDelay lib in {|
    command_Start := launch;
    command_Kill := @command_Kill _ wired;
    etcdClient_Configure := @etcdClient_Configure _ wired;
    etcdClient_MemberRemove := @etcdClient_MemberRemove _ wired;
    etcdClient_MemberList := @etcdClient_MemberList _ wired;
    clusterController_GetInitialClusterState := @clusterController_GetInitialClusterState _ wired;
    syncController_VerifySynced := @syncController_VerifySynced _ wired
  |}.

(** A run of the program on a host: a new process, a new client. *)
Definition boot (h : Host) (r : R) : World X :=
  mkWorld (h_fs h) (h_procs h) (h_kernel h) (mkServices NewEtcdClient r) [].
Definition host_after (h : Host) (w : World X) : Host :=
  mkHost (fs w) (procs w) (h_kernel h) (h_app h).

Definition start_host (h : Host) (r : R) : outcome (option error) * Host * R :=
  let '(o, w) := Start (H := deployed) (h_app h) (boot h r) in
  (o, host_after h w, sv_remote (svc w)).
Definition stop_host (h : Host) (r : R) : outcome (option error) * Host * R :=
  let '(o, w) := Stop (H := deployed) (h_app h) (boot h r) in
  (o, host_after h w, sv_remote (svc w)).

(** One host after the other, as long as the command succeeds. *)
Fixpoint deploy (hs : list Host) (r : R) : list Host * list Host * R :=
  match hs with
  | [] => ([], [], r)
  | h :: hs' =>
      match start_host h r with
      | (Val None, h', r') =>
          let '(up, rest, r'') := deploy hs' r' in (h' :: up, rest, r'')
      | (_, h', r') => ([], h' :: hs', r')
      end
  end.

(** An update of hosts that run: each is stopped and started again; [None] when
    a command fails. *)
Definition recreate (h : Host) (r : R) : option (Host * R) :=
  match stop_host h r with
  | (Val None, h1, r1) =>
      match start_host h1 r1 with (Val None, h2, r2) => Some (h2, r2) | _ => None end
  | _ => None
  end.
Fixpoint update (hs : list Host) (r : R) : option (list Host * R) :=
  match hs with
  | [] => Some ([], r)
  | h :: hs' =>
      '(h', r1) ← recreate h r; '(hs'', r2) ← update hs' r1; Some (h' :: hs'', r2)
  end.
End deployment.

(** ** What is expected *)

(** The member that a node with this configuration is. *)
Definition is_member (cfg : Config) (m : RawMember) : Prop :=
  raw_Name m = NodeName cfg ∧ raw_PeerURLs m = [AdvertisePeerURL cfg] ∧
  raw_ClientURLs m = [AdvertiseClientURL cfg].

(** How the nodes [cfgs] are told to start: the first one alone, every other one
    with those before it. *)
Definition cluster_state (cfgs : list Config) (cfg : Config) : InitialClusterState :=
  mkInitialClusterState (Join "," (self_entry <$> cfgs ++ [cfg]))
    (if bool_decide (cfgs = []) then "new" else "existing").

(** The controller's steps when the cluster answers and the node is new to it. *)
Lemma joins_steps {Y} `{ClusterClient Y} (slp : Z → M Y unit) cfg prior (w0 w1 : World Y)
    (Post : World Y → Prop) :
  member_list_loop slp 5 [] w0 = (Val prior, w1) → prior ≠ [] →
  forallb has_peer_url prior = true → lists_self cfg prior = false →
  (∀ l, ∃ m (w2 w3 : World Y), cl_MemberAdd (AdvertisePeerURL cfg)
      (mkWorld (fs w1) (procs w1) (kernel w1) (svc w1) l) = (Val (m, None), w2) ∧
    slp (2 * Second) w2 = (Val tt, w3) ∧ ∀ e, Post (emit e w3)) →
  ∃ w', GetInitialClusterState slp cfg w0 =
    (Val (mkInitialClusterState (Join "," ((member_entry <$> prior) ++ [self_entry cfg])) "existing",
      None), w') ∧ Post w'.
Proof.
  intros Hl Hne Hurls Hself Hadd. unfold GetInitialClusterState. step Hl.
  rewrite bool_decide_false by done. steps. unfold mbind, M_bind. simpl.
  rewrite prior_entries_run, Hurls, Hself. simpl.
  match goal with |- context [cl_MemberAdd _ ?w] => destruct (Hadd (log w)) as (m&w2&w3&Ha&Hs&HP) end.
  simpl in Ha. unfold emit. rewrite Ha, Hs. simpl. eexists. split; [done|apply HP].
Qed.

Section expected.
Context {R T C : Type} (disableDelay : string) (lib : CoreOS R T C)
  (etcd : bool → list string → R → R) `{!EtcdService lib etcd}.
Notation X := (Services R T C).

(** The cluster is up and its members are these nodes, in this order. *)
Definition holds (cfgs : list Config) (r : R) : Prop :=
  match cfgs with
  | [] => cluster r = None
  | _ => ∃ ms, cluster r = Some ms ∧ Forall2 is_member cfgs ms ∧ NoDup (raw_ID <$> ms)
  end.

(** Nodes that fit together: names and URLs of their own, which are proper, and
    every node's endpoints reach any of them that run. *)
Record deployment (cfgs : list Config) : Prop := {
  dp_names : NoDup (NodeName <$> cfgs);
  dp_peers : NoDup (AdvertisePeerURL <$> cfgs);
  dp_urls : ∀ c, c ∈ cfgs → valid_url (AdvertisePeerURL c) ∧ valid_url (AdvertiseClientURL c);
  dp_clean : ∀ c, c ∈ cfgs → has_char "=" (NodeName c) = false ∧
    has_char "," (NodeName c) = false ∧ has_char "," (AdvertisePeerURL c) = false;
  dp_endpoints : ∀ c, c ∈ cfgs → EtcdClientEndpoints c ≠ [];
  dp_serves : ∀ c ms, c ∈ cfgs → ms ≠ [] → Forall (λ m, ∃ c', c' ∈ cfgs ∧ is_member c' m) ms →
    serves (EtcdClientEndpoints c) ms
}.

(** A host on which the program can work: it reads its configuration, the TLS
    files are usable, etcd can be executed and the pid file written. *)
Record usable (h : Host) (cfg : Config) : Prop := {
  us_names : names_ok (h_fs h);
  us_config : ∀ r : R, ∃ w1, ConfigFromJSONs (configFilePath (h_app h)) (linkConfigFilePath (h_app h))
    (boot (T := T) (C := C) h r) = (Val (cfg, None), w1);
  us_tls : RequireSSL cfg = true →
    (lib_NewTransport lib (h_fs h) (client_tls_info cfg)).2 = None;
  us_exec : ∀ args, k_exec (h_kernel h) (EtcdPath (cfg_Etcd cfg)) args = None
}.

Definition host_dir (h : Host) (p : string) : list string := resolve (k_cwd (h_kernel h)) p.

(** The next start will do. *)
Record ready (h : Host) (cfg : Config) : Prop := {
  rd_usable : usable h cfg;
  rd_data : child_names (h_fs h) (host_dir h (DataDir (cfg_Etcd cfg))) = [];
  rd_pid : ∀ r : R, write_refused (PidFile cfg) (host_dir h (PidFile cfg))
    (boot (T := T) (C := C) h r) = None
}.

(** A host on which etcd runs: the pid file names the process, the kernel
    refuses nothing, and the program's own files are outside the data
    directory. *)
Record running (h : Host) (cfg : Config) (pid : Z) : Prop := {
  rn_usable : usable h cfg;
  rn_allowed : ∀ op l, k_deny (h_kernel h) op l = None;
  rn_data : DataDir (cfg_Etcd cfg) ≠ "" ∧ h_fs h !! host_dir h (DataDir (cfg_Etcd cfg)) = Some Dir;
  rn_pid : 0 < pid ≤ max_int ∧ is_Some (h_procs h !! pid) ∧ k_kill (h_kernel h) pid = None;
  rn_pid_file : h_fs h !! host_dir h (PidFile cfg) = Some (File (Sprintf_d pid));
  rn_run_dir : h_fs h !! removelast (host_dir h (PidFile cfg)) = Some Dir;
  rn_outside : ∀ l, l ∈ [host_dir h (PidFile cfg); removelast (host_dir h (PidFile cfg));
      host_dir h (configFilePath (h_app h)); host_dir h (linkConfigFilePath (h_app h))] →
    below (host_dir h (DataDir (cfg_Etcd cfg))) l = false;
  rn_apart : host_dir h (configFilePath (h_app h)) ≠ host_dir h (PidFile cfg) ∧
    host_dir h (linkConfigFilePath (h_app h)) ≠ host_dir h (PidFile cfg);
  rn_tls : RequireSSL cfg = true → ∀ f,
    (∀ l, below (host_dir h (DataDir (cfg_Etcd cfg))) l = false → l ≠ host_dir h (PidFile cfg) →
      f !! l = h_fs h !! l) →
    (lib_NewTransport lib f (client_tls_info cfg)).2 = None
}.

(** The host after a stop. *)
Definition stopped_host (cfg : Config) (pid : Z) (h h' : Host) : Prop :=
  h_procs h' = delete pid (h_procs h) ∧ h_kernel h' = h_kernel h ∧ h_app h' = h_app h ∧
  h_fs h' !! host_dir h (PidFile cfg) = None ∧
  (∀ l, below (host_dir h (DataDir (cfg_Etcd cfg))) l = true → h_fs h' !! l = None) ∧
  (∀ l, below (host_dir h (DataDir (cfg_Etcd cfg))) l = false → l ≠ host_dir h (PidFile cfg) →
    h_fs h' !! l = h_fs h !! l).

(** The host after a start among the nodes [cfgs]. *)
Definition started_host (cfgs : list Config) (cfg : Config) (h h' : Host) : Prop :=
  let pid := k_pid (h_kernel h) (h_procs h) in
  h_procs h' = <[pid := etcd_process cfg (cluster_state cfgs cfg)]> (h_procs h) ∧
  h_fs h' = <[host_dir h (PidFile cfg) := File (Sprintf_d pid)]> (h_fs h) ∧
  h_kernel h' = h_kernel h ∧ h_app h' = h_app h.

(** ** Lemmas *)

Lemma is_member_started cfgs ms : Forall2 is_member cfgs ms → Forall started ms.
Proof.
  induction 1 as [|c m cfgs ms (_&_&Hm) _ IH]; constructor; [|done]. unfold started. by rewrite Hm.
Qed.

Lemma members_of_deployment cfgs ms (all : list Config) :
  Forall2 is_member cfgs ms → (∀ c, c ∈ cfgs → c ∈ all) →
  Forall (λ m, ∃ c', c' ∈ all ∧ is_member c' m) ms.
Proof.
  induction 1 as [|c m cfgs ms Hm _ IH]; intros Hin; constructor.
  - exists c. split; [apply Hin; set_solver|done].
  - apply IH. set_solver.
Qed.

Lemma members_peers cfgs ms :
  Forall2 is_member cfgs ms → concat (raw_PeerURLs <$> ms) = AdvertisePeerURL <$> cfgs.
Proof.
  induction 1 as [|c m cfgs ms (_&Hp&_) _ IH]; [done|]. csimpl. by rewrite Hp, IH.
Qed.

Lemma members_entries cfgs ms :
  Forall2 is_member cfgs ms → member_entry <$> (of_raw <$> ms) = self_entry <$> cfgs.
Proof.
  induction 1 as [|c m cfgs ms (Hn&Hp&_) _ IH]; [done|]. simpl. f_equal; [|exact IH].
  unfold member_entry, first_url, self_entry. simpl. by rewrite Hn, Hp.
Qed.

Lemma members_have_urls cfgs ms :
  Forall2 is_member cfgs ms → forallb has_peer_url (of_raw <$> ms) = true.
Proof.
  induction 1 as [|c m cfgs ms (Hn&Hp&_) _ IH]; [done|]. csimpl. rewrite IH.
  unfold has_peer_url. simpl. by rewrite Hp.
Qed.

Lemma members_not_self cfgs ms cfg :
  Forall2 is_member cfgs ms → AdvertisePeerURL cfg ∉ AdvertisePeerURL <$> cfgs →
  lists_self cfg (of_raw <$> ms) = false.
Proof.
  induction 1 as [|c m cfgs ms (Hn&Hp&_) _ IH]; [done|]. csimpl.
  intros [Hne Hnin]%not_elem_of_cons. rewrite IH by done.
  unfold first_url. simpl. rewrite Hp. simpl. by rewrite bool_decide_false.
Qed.

(** *** The collaborators over a cluster *)

Local Hint Extern 0 (Collaborators (Services R T C)) =>
  exact (deployed disableDelay lib etcd) : typeclass_instances.
Implicit Types w : World X.

(** The client after [Configure]. *)
Definition configured (cfg : Config) (e : EtcdClient T C) : Prop :=
  selfEndpoint e = AdvertiseClientURL cfg ∧
  ∃ c, coreosEtcdClient e = Some c ∧ dials c = EtcdClientEndpoints cfg.

Lemma Configure_run cfg w :
  EtcdClientEndpoints cfg ≠ [] →
  (RequireSSL cfg = true → (lib_NewTransport lib (fs w) (client_tls_info cfg)).2 = None) →
  ∃ e w', Configure lib cfg w = (Val None, w') ∧ same_os w w' ∧
    svc w' = mkServices e (sv_remote (svc w)) ∧ configured cfg e.
Proof.
  intros He Htls. pose proof (Configure_spec lib cfg w) as Hs. revert Hs.
  assert (∃ tns, (if RequireSSL cfg then lib_NewTransport lib (fs w) (client_tls_info cfg)
    else (DefaultTransport lib, None)) = (tns, None)) as [tns Htns].
  { destruct (RequireSSL cfg); [|eauto]. specialize (Htls eq_refl).
    destruct (lib_NewTransport _ _ _) as [tns terr]. simpl in Htls. subst. eauto. }
  change (cc_RequireSSL cfg) with (RequireSSL cfg). rewrite Htns.
  intros (err&e&w'&Hr&Hos&Hsvc&Hself&Hnew&_).
  destruct (New_dials (mkClientConfig (EtcdClientEndpoints cfg) (Some tns) Second) He) as (c&Hc&Hd).
  change (cc_EtcdClientEndpoints cfg) with (EtcdClientEndpoints cfg) in Hnew.
  rewrite Hc in Hnew. injection Hnew as Hec ->.
  exists e, w'. split_and!; [done..|]. split; [exact Hself|]. by exists c.
Qed.

(** A request leaves files, processes and the client alone. *)
Definition moved (ms : option (list RawMember)) w w' : Prop :=
  same_os w w' ∧ sv_client (svc w') = sv_client (svc w) ∧ cluster (sv_remote (svc w')) = ms.

Lemma moved_trans ms1 ms2 w1 w2 w3 : moved ms1 w1 w2 → moved ms2 w2 w3 → moved ms2 w1 w3.
Proof. intros (Ho1&Hc1&_) (Ho2&Hc2&?). split_and!; [by etrans|congruence|done]. Qed.

(** What logging leaves: the same world but for the log. *)
Lemma moved_log ms w w' l :
  moved ms (mkWorld (fs w) (procs w) (kernel w) (svc w) l) w' → moved ms w w'.
Proof. done. Qed.

Section requests.
Context (c : C) (ms : list RawMember) (w : World X).
Context (Hc : coreosEtcdClient (sv_client (svc w)) = Some c)
  (Hms : cluster (sv_remote (svc w)) = Some ms) (Hserves : serves (dials c) ms)
  (Hstarted : Forall started ms).

Lemma MemberList_up :
  ∃ w', etcdClient_MemberList w = (Val (of_raw <$> ms, None), w') ∧ moved (Some ms) w w'.
Proof.
  pose proof (MemberList_spec lib (sv_client (svc w)) c w Hc) as Hl.
  destruct (List_up c _ ms Hms Hserves Hstarted) as (r'&Heq&Hr'). rewrite Heq in Hl.
  eexists. split; [exact Hl|]. split_and!; done.
Qed.

Lemma MemberList_first :
  ∃ w', member_list_loop (H := EtcdClient_ClusterClient lib) (Delay.sleep disableDelay) 5 [] w =
    (Val (of_raw <$> ms), w') ∧ moved (Some ms) w w'.
Proof.
  cbn [member_list_loop]. steps.
  pose proof (MemberList_spec lib (sv_client (svc w)) c
    (emit (Info "cluster.get-initial-cluster-state.member-list" []) w) Hc) as Hl.
  destruct (List_up c _ ms Hms Hserves Hstarted) as (r'&Heq&Hr').
  simpl in Hl. rewrite Heq in Hl.
  change (MemberList lib (sv_client (svc w)) ?w0) with
    (cl_MemberList (ClusterClient := EtcdClient_ClusterClient lib) w0) in Hl.
  step Hl. eexists. split; [done|]. split_and!; done.
Qed.

Lemma Keys_up self :
  coreosEtcdClient self = Some c →
  ∃ w', Keys lib self w = (Val None, w') ∧ moved (Some ms) w w'.
Proof.
  intros Hself. unfold Keys. rewrite (run_request self c _ _ _ w Hself).
  destruct (Get_up c _ ms Hms Hserves Hstarted) as (r'&->&Hr').
  eexists. split; [done|]. split_and!; done.
Qed.

Lemma MemberAdd_up url :
  valid_url url → (∀ m, m ∈ ms → url ∉ raw_PeerURLs m) →
  ∃ id w', cl_MemberAdd (ClusterClient := EtcdClient_ClusterClient lib) url w =
      (Val (of_raw (unstarted_member id url), None), w') ∧ id ∉ raw_ID <$> ms ∧
    moved (Some (ms ++ [unstarted_member id url])) w w'.
Proof.
  intros Hurl Hnew. destruct (Add_up c url _ ms Hms Hserves Hstarted Hurl Hnew) as (id&r'&Heq&Hr'&Hid).
  simpl. unfold mbind, M_bind. simpl. unfold MemberAdd.
  step (run_request (sv_client (svc w)) c "members.add" [url] (λ c, lib_Add lib c url) w Hc).
  rewrite Heq. simpl. eexists id, _. split; [done|]. split_and!; done.
Qed.

Lemma MemberRemove_up id :
  id ∈ raw_ID <$> ms →
  ∃ w', etcdClient_MemberRemove id w = (Val None, w') ∧
    moved (Some (filter (λ m, raw_ID m ≠ id) ms)) w w'.
Proof.
  intros Hid. destruct (Remove_up c id _ ms Hms Hserves Hstarted Hid) as (r'&Heq&Hr').
  simpl. unfold mbind, M_bind. simpl. unfold MemberRemove.
  step (run_request (sv_client (svc w)) c "members.remove" [id] (λ c, lib_Remove lib c id) w Hc).
  rewrite Heq. simpl. eexists. split; [done|]. split_and!; done.
Qed.
End requests.

(** Nobody answers yet: the node bootstraps. *)
Lemma bootstrap_run cfg w :
  configured cfg (sv_client (svc w)) → cluster (sv_remote (svc w)) = None →
  ∃ w', clusterController_GetInitialClusterState cfg w = (Val (cluster_state [] cfg, None), w') ∧
    same_os w w' ∧ sv_client (svc w') = sv_client (svc w) ∧ cluster (sv_remote (svc w')) = None.
Proof.
  intros (_&c&Hc&_) Hr.
  destruct (outage_run disableDelay lib (λ r, cluster r = None) c cfg w Hc Hr)
    as (w'&Hrun&Hos&Hcl&Hr'&_).
  { intros r Hd. destruct (List_down c r Hd) as (l&e&r'&->&?). done. }
  exists w'. split_and!; try done.
Qed.

(** The cluster answers and does not know the node: the node is added. *)
Lemma join_run cfgs cfg ms w :
  configured cfg (sv_client (svc w)) → cluster (sv_remote (svc w)) = Some ms →
  cfgs ≠ [] → Forall2 is_member cfgs ms → serves (EtcdClientEndpoints cfg) ms →
  valid_url (AdvertisePeerURL cfg) → AdvertisePeerURL cfg ∉ AdvertisePeerURL <$> cfgs →
  ∃ id w', clusterController_GetInitialClusterState cfg w =
      (Val (cluster_state cfgs cfg, None), w') ∧ id ∉ raw_ID <$> ms ∧
    moved (Some (ms ++ [unstarted_member id (AdvertisePeerURL cfg)])) w w'.
Proof.
  intros (_&c&Hc&Hd) Hms Hne Hall Hserves Hurl Hnew.
  assert (of_raw <$> ms ≠ []) as Hne' by (by destruct Hall).
  rewrite <-Hd in Hserves. pose proof (is_member_started _ _ Hall) as Hst.
  destruct (MemberList_first c ms w Hc Hms Hserves Hst) as (w1&Hl&Hm1).
  assert (∀ m, m ∈ ms → AdvertisePeerURL cfg ∉ raw_PeerURLs m) as Hfresh.
  { intros m Hm Hin. apply Hnew. rewrite <-(members_peers _ _ Hall).
    apply list_elem_of_In, in_concat. exists (raw_PeerURLs m).
    split; apply list_elem_of_In; [by apply list_elem_of_fmap_2|done]. }
  destruct Hm1 as (Hos1&Hcl1&Hms1).
  unfold cluster_state. rewrite bool_decide_false, fmap_app, <-(members_entries _ _ Hall) by done.
  edestruct (joins_steps (H := EtcdClient_ClusterClient lib) (Delay.sleep disableDelay) cfg
    (of_raw <$> ms) w w1 (λ w', ∃ id, id ∉ raw_ID <$> ms ∧
      moved (Some (ms ++ [unstarted_member id (AdvertisePeerURL cfg)])) w w'))
    as (w'&Hr&id&Hid&Hm); [done|done|by eapply members_have_urls|by eapply members_not_self| |].
  { intros l. edestruct (MemberAdd_up c ms (mkWorld (fs w1) (procs w1) (kernel w1) (svc w1) l))
      as (id&w2&Ha&Hid&Ho2&Hc2&Hm2); [simpl; by rewrite Hcl1|done..|].
    destruct (run_Delay disableDelay (2 * Second) w2) as (w3&Hs&Ho3&Hs3&_).
    eexists _, w2, w3. split; [exact Ha|]. split; [exact Hs|]. intros e. exists id. split; [done|].
    split_and!; [|simpl; rewrite Hs3, Hc2; exact Hcl1|simpl; by rewrite Hs3].
    etrans; [exact Hos1|]. etrans; [exact Ho2|exact Ho3]. }
  by exists id, w'.
Qed.
(** Reading the configuration and configuring the client. *)
Lemma prepared h cfg r w :
  usable h cfg → EtcdClientEndpoints cfg ≠ [] → same_os (boot h r) w → svc w = svc (boot h r) →
  ∃ w1 w2, ConfigFromJSONs (configFilePath (h_app h)) (linkConfigFilePath (h_app h)) w =
      (Val (cfg, None), w1) ∧
    etcdClient_Configure cfg w1 = (Val None, w2) ∧ same_os (boot h r) w2 ∧
    sv_remote (svc w2) = r ∧ configured cfg (sv_client (svc w2)).
Proof.
  intros [_ Hconf Htls _] He Hos Hsvc. destruct (Hconf r) as [w0 Hcfg0].
  destruct (Config_ext _ _ (boot h r) w _ w0 (read_file_same_os _ _ _ Hos)
    (read_file_same_os _ _ _ Hos) Hcfg0) as [w1 Hcfg].
  destruct (Config_run (configFilePath (h_app h)) (linkConfigFilePath (h_app h)) w)
    as (cfg'&err&w1'&Hcfg'&Hos1&Hs1). rewrite Hcfg in Hcfg'. injection Hcfg' as <- <- <-.
  destruct (Configure_run cfg w1) as (e&w2&Hrun&Hos2&Hs2&Hc); [done| |].
  { destruct Hos1 as (->&_), Hos as (->&_). exact Htls. }
  exists w1, w2. rewrite Hs2, Hs1, Hsvc. split_and!; try done.
  etrans; [exact Hos|]. etrans; [exact Hos1|exact Hos2].
Qed.

(** *** One start *)

Lemma holds_up cfgs r : cfgs ≠ [] →
  holds cfgs r ↔ ∃ ms, cluster r = Some ms ∧ Forall2 is_member cfgs ms ∧ NoDup (raw_ID <$> ms).
Proof. by destruct cfgs. Qed.

Lemma snoc_not_nil {A} (l : list A) x : l ++ [x] ≠ [].
Proof. by destruct l. Qed.

(** The cluster knows of the node, whose etcd does not run yet. *)
Definition awaits (cfgs : list Config) (cfg : Config) (r : R) : Prop :=
  match cfgs with
  | [] => cluster r = None
  | _ => ∃ ms id, cluster r = Some (ms ++ [unstarted_member id (AdvertisePeerURL cfg)]) ∧
      Forall2 is_member cfgs ms ∧ NoDup (raw_ID <$> ms) ∧ id ∉ raw_ID <$> ms
  end.

Section one.
Context (all cfgs : list Config) (cfg : Config).
Context (Hdep : deployment all) (Hin : ∀ c, c ∈ cfgs ++ [cfg] → c ∈ all)
  (Hnd : NoDup (AdvertisePeerURL <$> cfgs ++ [cfg])).

Lemma one_in : cfg ∈ all.
Proof. apply Hin. set_solver. Qed.

Lemma one_new : AdvertisePeerURL cfg ∉ AdvertisePeerURL <$> cfgs.
Proof.
  rewrite fmap_app in Hnd. apply NoDup_app in Hnd as (_&Hd&_). intros H. apply (Hd _ H). set_solver.
Qed.

Lemma initial_run w :
  configured cfg (sv_client (svc w)) → holds cfgs (sv_remote (svc w)) →
  ∃ w', clusterController_GetInitialClusterState cfg w = (Val (cluster_state cfgs cfg, None), w') ∧
    same_os w w' ∧ sv_client (svc w') = sv_client (svc w) ∧ awaits cfgs cfg (sv_remote (svc w')).
Proof.
  intros Hc Hh. pose proof one_in as Hcfg. pose proof one_new as Hnew.
  destruct cfgs as [|c0 l] eqn:Hl; [by apply bootstrap_run|]. rewrite <-Hl in *.
  assert (∃ ms, cluster (sv_remote (svc w)) = Some ms ∧ Forall2 is_member cfgs ms ∧
    NoDup (raw_ID <$> ms)) as (ms&Hms&Hall&Hids) by (by rewrite Hl in Hh |- *).
  destruct (join_run cfgs cfg ms w) as (id&w'&Hr&Hid&Ho&Hcl&Hms'); try done.
  - by rewrite Hl.
  - apply (dp_serves _ Hdep); [done| |].
    + destruct Hall; [by simplify_eq|done].
    + eapply members_of_deployment; [exact Hall|]. intros c ?. apply Hin. set_solver.
  - by apply (dp_urls _ Hdep).
  - exists w'. split_and!; [done..|]. rewrite Hl in Hall |- *. by exists ms, id.
Qed.

Definition named (c : Config) : string * string := (NodeName c, AdvertisePeerURL c).

Lemma state_parses :
  parse_initial_cluster (Members (cluster_state cfgs cfg)) = named <$> cfgs ++ [cfg].
Proof.
  unfold cluster_state. cbn [Members].
  assert (self_entry <$> cfgs ++ [cfg] = (λ nu, entry nu.1 nu.2) <$> (named <$> cfgs ++ [cfg])) as ->
    by (by rewrite <-list_fmap_compose).
  apply parse_entries.
  - rewrite fmap_app. by destruct (named <$> cfgs).
  - intros n u (c&[= -> ->]&Hc)%list_elem_of_fmap. apply (dp_clean _ Hdep), Hin, Hc.
Qed.

(** The process started with this state makes the node a member that runs. *)
Lemma joined r :
  awaits cfgs cfg r → holds (cfgs ++ [cfg]) (etcd true (etcd_command cfg (cluster_state cfgs cfg)) r).
Proof.
  intros Hw. destruct (dp_urls _ Hdep cfg one_in) as [Hpu Hcu].
  destruct (etcd_flags cfg (cluster_state cfgs cfg)) as (fl&Hfl&Hn&_&Hp&Hcl&Hic&Hst).
  pose proof state_parses as Hparse.
  apply holds_up; [apply snoc_not_nil|].
  destruct (decide (cfgs = [])) as [Hnil|Hne].
  - rewrite Hnil in Hw. destruct (etcd_bootstraps (etcd_command cfg (cluster_state cfgs cfg)) fl r
      (NodeName cfg) (AdvertisePeerURL cfg) (AdvertiseClientURL cfg)) as [id Hid]; try done.
    + rewrite Hic. trans (Some (parse_initial_cluster (Members (cluster_state cfgs cfg)))); [done|].
      by rewrite Hparse, Hnil.
    + rewrite Hst. unfold cluster_state. by rewrite bool_decide_true.
    + eexists. split; [exact Hid|]. rewrite Hnil. split; [|apply NoDup_singleton].
      by repeat constructor.
  - assert (∃ ms id, cluster r = Some (ms ++ [unstarted_member id (AdvertisePeerURL cfg)]) ∧
      Forall2 is_member cfgs ms ∧ NoDup (raw_ID <$> ms) ∧ id ∉ raw_ID <$> ms)
      as (ms&id&Hms&Hall&Hids&Hid) by (by destruct cfgs).
    pose proof (etcd_joins (etcd_command cfg (cluster_state cfgs cfg)) fl r ms id (NodeName cfg)
      (AdvertisePeerURL cfg) (AdvertiseClientURL cfg) (named <$> cfgs ++ [cfg])) as Hj.
    eexists. split; [apply Hj; try done|split].
    + by eapply is_member_started.
    + rewrite Hic. trans (Some (parse_initial_cluster (Members (cluster_state cfgs cfg)))); [done|].
      by rewrite Hparse.
    + rewrite (members_peers _ _ Hall), <-list_fmap_compose, fmap_app. done.
    + by rewrite <-list_fmap_compose.
    + rewrite fmap_app. set_solver.
    + rewrite Hst. unfold cluster_state. by rewrite bool_decide_false.
    + apply Forall2_app; [done|]. by repeat constructor.
    + rewrite fmap_app. apply NoDup_app. split_and!; [done|set_solver|apply NoDup_singleton].
Qed.

(** The node then serves its keys. *)
Lemma synced_up w :
  configured cfg (sv_client (svc w)) → holds (cfgs ++ [cfg]) (sv_remote (svc w)) →
  ∃ w', syncController_VerifySynced w = (Val None, w') ∧ same_os w w' ∧
    holds (cfgs ++ [cfg]) (sv_remote (svc w')).
Proof.
  intros (Hself&_) (ms&Hms&Hall&Hids)%holds_up; [|apply snoc_not_nil].
  apply Forall2_app_inv_l in Hall as (ms1&l&Hall1&Hl&->).
  apply Forall2_cons_inv_l in Hl as (m&?&Hm&->%Forall2_nil_inv_l&->).
  assert (Forall2 is_member (cfgs ++ [cfg]) (ms1 ++ [m])) as Hall
    by (apply Forall2_app; [done|]; constructor; [done|constructor]).
  set (e := sv_client (svc w)) in *.
  destruct (New_dials (mkClientConfig [selfEndpoint e] (Transport (clientConfig e))
    (HeaderTimeoutPerRequest (clientConfig e))) ltac:(done)) as (c&Hc&Hd). simpl in Hd.
  assert (Self lib e = (Some (mkEtcdClient (Some c) (mkClientConfig [selfEndpoint e]
    (Transport (clientConfig e)) (HeaderTimeoutPerRequest (clientConfig e))) (selfEndpoint e)), None))
    as Hs by (unfold Self; by rewrite Hc).
  simpl. unfold VerifySynced. steps. unfold mbind at 1, M_bind at 1. simpl. fold e. rewrite Hs.
  cbn [verify_loop maxSyncCalls]. steps.
  match goal with |- context [Keys lib ?s] => set (self := s) end.
  match goal with |- context [emit ?a (emit ?b w)] =>
    destruct (Keys_up c (ms1 ++ [m]) (emit a (emit b w)) Hms) with (self := self)
      as (w'&Hk&Ho&_&Hms') end; [|by eapply is_member_started|done|].
  { rewrite Hd, Hself. apply (serves_self _ m); [set_solver|]. destruct Hm as (_&_&->). set_solver. }
  step Hk. exists w'. split; [done|]. split; [exact Ho|]. apply holds_up; [apply snoc_not_nil|].
  by exists (ms1 ++ [m]).
Qed.
(** The launch, from where the cluster awaits the node. *)
Lemma launch_up w :
  awaits cfgs cfg (sv_remote (svc w)) →
  k_exec (kernel w) (EtcdPath (cfg_Etcd cfg)) (etcd_command cfg (cluster_state cfgs cfg)) = None →
  child_names (fs w) (data_dir w cfg) = [] →
  let pid := k_pid (kernel w) (procs w) in
  ∃ w', command_Start (EtcdPath (cfg_Etcd cfg)) (etcd_command cfg (cluster_state cfgs cfg)) w =
      (Val (pid, None), w') ∧
    same_os (set_procs (<[pid := etcd_process cfg (cluster_state cfgs cfg)]> (procs w)) w) w' ∧
    sv_client (svc w') = sv_client (svc w) ∧ holds (cfgs ++ [cfg]) (sv_remote (svc w')).
Proof.
  intros Hw Hexec Hdata pid. simpl. unfold launch, Wrapper.Start, exec_start, takes_part, mbind, M_bind.
  rewrite Hexec. simpl. eexists. split; [done|]. split; [done|]. split; [done|]. simpl.
  match goal with |- context [etcd ?b _ _] => assert (b = true) as -> end; [|by apply joined].
  unfold clean. destruct (etcd_flags cfg (cluster_state cfgs cfg)) as (fl&Hfl&_&Hd&_).
  rewrite Hfl. simpl. rewrite Hd. by rewrite bool_decide_true.
Qed.

Lemma start_run h r :
  ready h cfg → holds cfgs r →
  ∃ w' : World X, Start (h_app h) (boot h r) = (Val None, w') ∧ started_host cfgs cfg h (host_after h w') ∧
    holds (cfgs ++ [cfg]) (sv_remote (svc w')).
Proof.
  intros [Hus Hdata Hpid] Hr.
  destruct (prepared h cfg r (boot h r) Hus) as (w1&w2&Hcfg&Hrun&Hos2&Hs2&He); [|done..|].
  { apply (dp_endpoints _ Hdep), one_in. }
  unfold Start. step Hcfg. cbn iota beta. step Hrun. clear Hcfg Hrun.
  destruct (initial_run w2 He) as (w3&Hrun&Hos3&Hc3&Hw3); [by rewrite Hs2|].
  step Hrun. clear Hrun. cbn iota beta. steps. step (run_buildEtcdArgs cfg w3). steps.
  fold (etcd_command cfg (cluster_state cfgs cfg)).
  match goal with |- context [mbind _ (command_Start _ _) ?w] => set (w4 := w) end.
  assert (same_os (boot (T := T) (C := C) h r) w4) as (Hf4&Hp4&Hk4)
    by (etrans; [exact Hos2|exact Hos3]).
  destruct (launch_up w4) as (w5&Hrun&(Hf5&Hp5&Hk5)&Hc5&Hw5);
    [exact Hw3|rewrite Hk4; apply (us_exec _ _ Hus)|by unfold data_dir; rewrite Hf4, Hk4|].
  step Hrun. clear Hrun. cbn iota beta. steps.
  match goal with |- context [mbind _ syncController_VerifySynced ?w] => set (w6 := w) end.
  destruct (synced_up w6) as (w7&Hrun&(Hf7&Hp7&Hk7)&Hw7); [|exact Hw5|].
  { change (sv_client (svc w6)) with (sv_client (svc w5)).
    rewrite Hc5. change (svc w4) with (svc w3). by rewrite Hc3. }
  step Hrun. clear Hrun. cbn iota beta. steps.
  match goal with |- context [mbind _ (WriteFile _ (Sprintf_d ?p)) ?w] =>
    destruct (synced_run cfg p w) as (o&w'&->&Hk'&Hp'&Hs'&Hsp) end.
  simpl in Hf4, Hp4, Hk4, Hf5, Hp5, Hk5, Hf7, Hp7, Hk7, Hk', Hp', Hs'.
  unfold synced_spec, write_refused, deny, pid_loc in Hsp. simpl in Hsp.
  specialize (Hpid r). unfold write_refused, deny, host_dir in Hpid. simpl in Hpid.
  rewrite Hk7, Hf7, Hk5, Hf5, Hk4, Hf4, Hpid in Hsp. destruct Hsp as [-> Hf'].
  exists w'. split; [done|]. split; [|by rewrite Hs'].
  unfold started_host. simpl. split_and!; [by rewrite Hp', Hp7, Hp5, Hp4, Hk4| |done..].
  by rewrite Hf', Hp4.
Qed.
End one.

(** *** One stop *)

Lemma filter_all {A} (P : A → Prop) `{∀ x, Decision (P x)} (l : list A) : (∀ x, x ∈ l → P x) → filter P l = l.
Proof.
  induction l as [|x l IH]; intros Hl; [done|].
  rewrite filter_cons_True by (apply Hl; set_solver). f_equal. apply IH. set_solver.
Qed.

Section leave.
Context (l1 : list Config) (cfg : Config) (l2 : list Config).

(** The members of the cluster, with the node's own. *)
Definition around (ms1 : list RawMember) (m : RawMember) (ms2 : list RawMember) : Prop :=
  Forall2 is_member l1 ms1 ∧ is_member cfg m ∧ Forall2 is_member l2 ms2 ∧
  NoDup (raw_ID <$> ms1 ++ m :: ms2).

Lemma holds_around r : holds (l1 ++ cfg :: l2) r →
  ∃ ms1 m ms2, cluster r = Some (ms1 ++ m :: ms2) ∧ around ms1 m ms2.
Proof.
  intros (ms&Hms&Hall&Hids)%holds_up; [|by destruct l1].
  apply Forall2_app_inv_l in Hall as (ms1&ms'&H1&Hall&->).
  apply Forall2_cons_inv_l in Hall as (m&ms2&Hm&H2&->). by exists ms1, m, ms2.
Qed.

Context (all : list Config) (Hdep : deployment all) (Hin : ∀ c, c ∈ l1 ++ cfg :: l2 → c ∈ all).

Lemma around_served ms1 m ms2 : around ms1 m ms2 →
  serves (EtcdClientEndpoints cfg) (ms1 ++ m :: ms2) ∧ Forall started (ms1 ++ m :: ms2).
Proof.
  intros (H1&Hm&H2&_). assert (Forall2 is_member (l1 ++ cfg :: l2) (ms1 ++ m :: ms2)) as H
    by (apply Forall2_app; [done|by constructor]).
  split; [|by eapply is_member_started]. apply (dp_serves _ Hdep); [apply Hin; set_solver|by destruct ms1|].
  by eapply members_of_deployment.
Qed.

(** Nobody else has the node's name. *)
Context (Hnd : NoDup (NodeName <$> l1 ++ cfg :: l2)).

Lemma self_id ms1 m ms2 : around ms1 m ms2 →
  self_member_id cfg (of_raw <$> ms1 ++ m :: ms2) = raw_ID m.
Proof.
  intros (H1&(Hn&_)&H2&_). unfold self_member_id. rewrite fmap_app, foldl_app. csimpl.
  rewrite bool_decide_true by done. simpl.
  rewrite fmap_app, fmap_cons in Hnd. apply NoDup_app in Hnd as (_&_&Hnd2).
  apply NoDup_cons in Hnd2 as [Hnot _]. clear Hin H1.
  induction H2 as [|c m' l2' ms2' (Hn'&_) _ IH]; [done|]. csimpl in *.
  apply not_elem_of_cons in Hnot as [Hne Hnot].
  rewrite bool_decide_false by (simpl; congruence). by apply IH.
Qed.

Lemma others_left ms1 m ms2 : around ms1 m ms2 →
  filter (λ m', raw_ID m' ≠ raw_ID m) (ms1 ++ m :: ms2) = ms1 ++ ms2 ∧
  NoDup (raw_ID <$> ms1 ++ ms2).
Proof.
  intros (_&_&_&Hids). rewrite filter_app, filter_cons_False by (intros []; done).
  rewrite fmap_app, fmap_cons in Hids. apply NoDup_app in Hids as (Hn1&Hd&Hn2).
  apply NoDup_cons in Hn2 as [Hnot Hn2]. split.
  - f_equal; apply filter_all; intros m' Hm' Heq.
    + apply (Hd (raw_ID m')); [by apply list_elem_of_fmap_2|]. rewrite Heq. set_solver.
    + apply Hnot. rewrite <-Heq. by apply list_elem_of_fmap_2.
  - rewrite fmap_app. apply NoDup_app. split_and!; [done|set_solver|done].
Qed.
(** [priorClusterHadOtherNodes] sees them. *)
Lemma others_seen w ms1 m ms2 :
  l1 ++ l2 ≠ [] → configured cfg (sv_client (svc w)) →
  cluster (sv_remote (svc w)) = Some (ms1 ++ m :: ms2) → around ms1 m ms2 →
  ∃ w', priorClusterHadOtherNodes (NodeName cfg) w = (Val true, w') ∧
    moved (Some (ms1 ++ m :: ms2)) w w'.
Proof.
  intros Hne (_&c&Hc&Hd) Hms Ha. destruct (around_served _ _ _ Ha) as [Hs Hst]. rewrite <-Hd in Hs.
  unfold priorClusterHadOtherNodes. steps.
  destruct (MemberList_up c _ (emit (Info "application.etcd-client.member-list" []) w) Hc Hms Hs Hst)
    as (w'&Hl&Hm). step Hl. cbn iota beta. steps. destruct Ha as (H1&_&H2&_).
  destruct H1 as [|? m1 ? ms1' _ [|]], H2 as [|? m2 ? ms2' _ [|]]; try done;
    (eexists; split; [done|exact Hm]).
Qed.

(** [removeSelfFromCluster] takes the node out. *)
Lemma removed_run w ms1 m ms2 :
  configured cfg (sv_client (svc w)) →
  cluster (sv_remote (svc w)) = Some (ms1 ++ m :: ms2) → around ms1 m ms2 →
  ∃ w', removeSelfFromCluster cfg w = (Val tt, w') ∧ moved (Some (ms1 ++ ms2)) w w'.
Proof.
  intros (_&c&Hc&Hd) Hms Ha. destruct (around_served _ _ _ Ha) as [Hs Hst]. rewrite <-Hd in Hs.
  destruct (others_left _ _ _ Ha) as [Hf _].
  destruct (MemberList_up c _ w Hc Hms Hs Hst) as (w1&Hl&Ho1&Hc1&Hm1).
  unfold removeSelfFromCluster. step Hl. cbn iota beta zeta. rewrite (self_id _ _ _ Ha).
  cbn [log_if]. step (run_ret tt w1). steps.
  match goal with |- context [mbind _ (etcdClient_MemberRemove _) ?w0] =>
    destruct (MemberRemove_up c _ w0 ltac:(by rewrite <-Hc, <-Hc1) Hm1 Hs Hst (raw_ID m))
      as (w2&Hr&Ho2&Hc2&Hm2) end; [rewrite fmap_app; set_solver|].
  step Hr. exists w2. split; [done|]. rewrite Hf in Hm2. split_and!; [|by rewrite Hc2|done].
  etrans; [exact Ho1|exact Ho2].
Qed.
End leave.

(** Undoing on a host on which etcd runs. *)
Lemma undone h cfg pid w k w' :
  running h cfg pid → same_os (boot (T := T) (C := C) h (sv_remote (svc w))) w →
  undo_spec cfg w k (fs w') (procs w') → k = None ∧ stopped_host cfg pid h (host_after h w').
Proof.
  intros Hrn (Hf&Hp&Hk) Hu. simpl in Hf, Hp, Hk.
  destruct (rn_pid _ _ _ Hrn) as (Hpid&Hlive&Hkill). pose proof (rn_outside _ _ _ Hrn) as Hout.
  assert (data_dir w cfg = host_dir h (DataDir (cfg_Etcd cfg)) ∧
    pid_loc w cfg = host_dir h (PidFile cfg)) as [Hd Hl]
    by (unfold data_dir, pid_loc, host_dir; by rewrite Hk).
  apply (undo_recorded _ _ pid) in Hu as (->&Hps&f1&[Hc Hall]&Hf'); rewrite ?Hd, ?Hl.
  - split; [done|]. unfold stopped_host. simpl. rewrite Hf', Hl, Hps, Hp. rewrite Hd in Hc, Hall.
    rewrite Hf in Hc. split_and!; [done..|apply lookup_delete_eq| |].
    + intros l Hb. destruct (decide (l = host_dir h (PidFile cfg))) as [->|];
        [apply lookup_delete_eq|]. rewrite lookup_delete_ne by done. apply Hall; [|done].
      destruct (rn_data _ _ _ Hrn) as [Hne Hdir]. unfold clearable, deny. rewrite Hk, Hf.
      split_and!; [done|done| | |intros c]; apply (rn_allowed _ _ _ Hrn).
    + intros l Hb Hne. rewrite lookup_delete_ne by done. by apply Hc.
  - apply Hout. set_solver.
  - unfold read_file. rewrite locate_PidFile, Hl. unfold deny. rewrite Hk, (rn_allowed _ _ _ Hrn), Hf.
    by rewrite (rn_pid_file _ _ _ Hrn).
  - done.
  - by rewrite Hp.
  - by rewrite Hk.
  - unfold deny. rewrite Hk. apply (rn_allowed _ _ _ Hrn).
Qed.

(** The end of a stop: the data directory and the process go. *)
Lemma torn_down h cfg pid r w :
  running h cfg pid → same_os (boot (T := T) (C := C) h r) w →
  ∃ w', (_ ← removeDataDir cfg;
         _ ← log_info "application.kill" [];
         err ← kill (PidFile cfg);
         match err with
         | Some err => mret (Some err)
         | None => _ ← log_info "application.stop.success" []; mret None
         end) w = (Val None, w') ∧ stopped_host cfg pid h (host_after h w') ∧ svc w' = svc w.
Proof.
  intros Hrn Hos.
  change (@kill X (deployed disableDelay lib etcd) (PidFile cfg)) with
    (@kill X (Services_Collaborators disableDelay lib) (PidFile cfg)).
  match goal with |- context [mbind (λ err, @?K err) (kill (PidFile cfg))] =>
    destruct (undo_run (H := Services_Collaborators disableDelay lib) K cfg w) as (k&w6&->&_&Hs6&Hu) end.
  { destruct Hos as (->&_). apply (us_names _ _ (rn_usable _ _ _ Hrn)). }
  destruct (undone h cfg pid w k w6 Hrn Hos Hu) as [-> Hst].
  eexists. split; [by steps|]. by split; [exact Hst|].
Qed.

Lemma stop_run all l1 cfg l2 h pid r :
  deployment all → (∀ c, c ∈ l1 ++ cfg :: l2 → c ∈ all) → NoDup (NodeName <$> l1 ++ cfg :: l2) →
  l1 ++ l2 ≠ [] → running h cfg pid → holds (l1 ++ cfg :: l2) r →
  ∃ w' : World X, Stop (h_app h) (boot h r) = (Val None, w') ∧
    stopped_host cfg pid h (host_after h w') ∧ holds (l1 ++ l2) (sv_remote (svc w')).
Proof.
  intros Hdep Hin Hnd Hne Hrn Hr. pose proof (rn_usable _ _ _ Hrn) as Hus.
  set (w0 := emit (Info "application.stop" []) (boot h r) : World X).
  destruct (prepared h cfg r w0 Hus) as (w1&w2&Hcfg&Hrun&Hos2&Hs2&He); [|done..|].
  { apply (dp_endpoints _ Hdep), Hin. set_solver. }
  unfold Stop. steps. fold w0. step Hcfg. cbn iota beta. step Hrun. clear Hcfg Hrun.
  rewrite <-Hs2 in Hr. apply holds_around in Hr as (ms1&m&ms2&Hms&Ha).
  destruct (others_seen l1 cfg l2 all Hdep Hin Hnd w2 ms1 m ms2 Hne He Hms Ha) as (w3&Hrun&Ho3&Hc3&Hm3).
  step Hrun. clear Hrun. cbn iota beta.
  set (w4 := emit (Info "application.remove-self-from-cluster" []) w3).
  destruct (removed_run l1 cfg l2 all Hdep Hin Hnd w4 ms1 m ms2) as (w5&Hrun&Ho5&Hc5&Hm5);
    [change (svc w4) with (svc w3); by rewrite Hc3|done|done|].
  assert ((_ ← log_info "application.remove-self-from-cluster" []; removeSelfFromCluster cfg) w3 =
    (Val tt, w5)) as H1 by (by steps). step H1. clear H1 Hrun.
  destruct (torn_down h cfg pid r w5 Hrn) as (w6&->&Hst&Hs6);
    [etrans; [exact Hos2|]; etrans; [exact Ho3|exact Ho5]|].
  exists w6. split; [done|]. split; [exact Hst|]. rewrite Hs6.
  destruct (decide (l1 ++ l2 = [])) as [|]; [done|]. apply holds_up; [done|].
  exists (ms1 ++ ms2). split; [done|]. split; [|by eapply others_left].
  destruct Ha as (?&_&?&_). by apply Forall2_app.
Qed.

(** A node that cannot reach anybody stops, too; it stays a member of the cluster
    it cannot reach. *)
Lemma stop_alone h cfg pid r :
  EtcdClientEndpoints cfg ≠ [] → running h cfg pid → cluster r = None →
  ∃ w' : World X, Stop (h_app h) (boot h r) = (Val None, w') ∧
    stopped_host cfg pid h (host_after h w') ∧ cluster (sv_remote (svc w')) = None.
Proof.
  intros He Hrn Hr. set (w0 := emit (Info "application.stop" []) (boot h r) : World X).
  destruct (prepared h cfg r w0 (rn_usable _ _ _ Hrn) He) as (w1&w2&Hcfg&Hrun&Hos2&Hs2&_&c&Hc&_); [done..|].
  unfold Stop. steps. fold w0. step Hcfg. cbn iota beta. step Hrun. clear Hcfg Hrun.
  set (w3 := emit (Info "application.etcd-client.member-list" []) w2).
  pose proof (MemberList_spec lib (sv_client (svc w3)) c w3 Hc) as Hl.
  destruct (List_down c (sv_remote (svc w3))) as (l&e&r'&Hdown&Hr'); [simpl; by rewrite Hs2|].
  rewrite Hdown in Hl.
  assert (∃ w4, priorClusterHadOtherNodes (NodeName cfg) w2 = (Val false, w4) ∧ same_os w2 w4 ∧
    cluster (sv_remote (svc w4)) = None) as (w4&Hp&Hos4&Hr4).
  { unfold priorClusterHadOtherNodes. steps. fold w3.
    change (MemberList lib (sv_client (svc w3)) w3) with (etcdClient_MemberList w3) in Hl. step Hl.
    by eexists. }
  step Hp. cbn iota beta. step (run_ret tt w4).
  destruct (torn_down h cfg pid r w4 Hrn) as (w5&->&Hst&Hs5); [by etrans; [exact Hos2|]|].
  exists w5. rewrite Hs5. by split_and!.
Qed.

(** A host that was stopped can be started again. *)
Lemma read_file_apart p h h' (r r' : R) cfg pid :
  stopped_host cfg pid h h' → host_dir h p ≠ host_dir h (PidFile cfg) →
  below (host_dir h (DataDir (cfg_Etcd cfg))) (host_dir h p) = false →
  read_file p (boot (T := T) (C := C) h' r') = read_file p (boot (T := T) (C := C) h r).
Proof.
  intros (_&Hk&_&_&_&Hf) Hne Hb. unfold read_file, locate, deny. simpl. rewrite Hk.
  case_bool_decide; [done|]. specialize (Hf _ Hb Hne). unfold host_dir in Hf. by rewrite Hf.
Qed.

Lemma stopped_ready h h' cfg pid :
  running h cfg pid → stopped_host cfg pid h h' → ready h' cfg.
Proof.
  intros Hrn Hst. pose proof Hst as (_&Hk&Ha&Hpid&Hb&Hf).
  assert (∀ p, host_dir h' p = host_dir h p) as Hd by (intros p; unfold host_dir; by rewrite Hk).
  pose proof (rn_outside _ _ _ Hrn) as Hout. destruct (rn_usable _ _ _ Hrn) as [Hnames Hconf Htls Hexec].
  split; [split| |].
  - intros l [n Hl]. destruct (below (host_dir h (DataDir (cfg_Etcd cfg))) l) eqn:Hbl;
      [rewrite Hb in Hl by done; done|].
    destruct (decide (l = host_dir h (PidFile cfg))) as [->|Hne]; [congruence|].
    apply Hnames. rewrite Hf in Hl by done. by eexists.
  - intros r. rewrite Ha. destruct (Hconf r) as [w1 Hc]. eapply Config_ext; [| |exact Hc];
      apply (read_file_apart _ _ _ _ _ _ _ Hst); try apply (rn_apart _ _ _ Hrn); apply Hout; set_solver.
  - intros Hs. by apply (rn_tls _ _ _ Hrn).
  - intros args. by rewrite Hk.
  - rewrite Hd. apply elem_of_nil_inv. intros c (l&[n Hl]&Hc)%elem_of_child_names.
    rewrite Hb in Hl; [done|]. apply below_child. eauto.
  - intros r. unfold write_refused, deny. simpl. rewrite Hk, (rn_allowed _ _ _ Hrn), Hd, Hpid.
    rewrite Hf, (rn_run_dir _ _ _ Hrn); [done|apply Hout; set_solver|].
    intros Heq. pose proof (rn_pid_file _ _ _ Hrn) as H1. rewrite <-Heq, (rn_run_dir _ _ _ Hrn) in H1. done.
Qed.

(** *** The hosts in turn *)

Lemma deploy_run all before cfgs hs r :
  deployment all → (∀ c, c ∈ before ++ cfgs → c ∈ all) →
  NoDup (AdvertisePeerURL <$> before ++ cfgs) → Forall2 ready hs cfgs → holds before r →
  ∃ hs' r', deploy disableDelay lib etcd hs r = (hs', [], r') ∧ holds (before ++ cfgs) r' ∧
    length hs' = length hs ∧
    ∀ i h cfg h', hs !! i = Some h → cfgs !! i = Some cfg → hs' !! i = Some h' →
      started_host (before ++ take i cfgs) cfg h h'.
Proof.
  intros Hdep. revert before r. revert cfgs.
  induction hs as [|h hs IH]; intros cfgs before r Hin Hnd Hall Hr.
  { apply Forall2_nil_inv_l in Hall as ->. exists [], r. rewrite app_nil_r. by split_and!. }
  apply Forall2_cons_inv_l in Hall as (cfg&cfgs'&Hready&Hall&->).
  rewrite cons_middle, app_assoc in Hin, Hnd.
  destruct (start_run all before cfg Hdep) with (h := h) (r := r) as (w&Hs&Hst&Hw); [|  |done..|].
  { intros c Hc. apply Hin. set_solver. }
  { rewrite fmap_app in Hnd. by apply NoDup_app in Hnd as (?&_). }
  destruct (IH cfgs' (before ++ [cfg]) (sv_remote (svc w)) Hin Hnd Hall Hw)
    as (hs'&r'&Hd&Hr'&Hlen&Hi).
  exists (host_after h w :: hs'), r'. cbn [deploy]. unfold start_host. rewrite Hs, Hd.
  split_and!; [done|by rewrite <-app_assoc in Hr'|simpl; congruence|].
  intros [|i] h0 cfg0 h'; simpl; [intros [= <-] [= <-] [= <-]; by rewrite app_nil_r|].
  intros H1 H2 H3. rewrite cons_middle, app_assoc. eauto.
Qed.
(** One host of a cluster that runs, stopped and started again. *)
Lemma recreate_run all cfg cfgs h pid r :
  deployment all → (∀ c, c ∈ cfg :: cfgs → c ∈ all) → NoDup (NodeName <$> cfg :: cfgs) →
  NoDup (AdvertisePeerURL <$> cfg :: cfgs) → cfgs ≠ [] → running h cfg pid → holds (cfg :: cfgs) r →
  ∃ h1 h2 r', recreate disableDelay lib etcd h r = Some (h2, r') ∧ holds (cfgs ++ [cfg]) r' ∧
    stopped_host cfg pid h h1 ∧ started_host cfgs cfg h1 h2.
Proof.
  intros Hdep Hin Hnames Hpeers Hne Hrn Hr.
  destruct (stop_run all [] cfg cfgs h pid r) as (w1&Hs1&Hst1&Hr1); [done..|].
  destruct (start_run all cfgs cfg) with (h := host_after h w1) (r := sv_remote (svc w1))
    as (w2&Hs2&Hst2&Hr2); [done| | |by eapply stopped_ready|done|].
  { intros c Hc. apply Hin. set_solver. }
  { rewrite fmap_app. rewrite fmap_cons in Hpeers. apply NoDup_cons in Hpeers as [Hnot Hnd].
    apply NoDup_app. split_and!; [done| |apply NoDup_singleton].
    intros x Hx ->%list_elem_of_singleton. done. }
  exists (host_after h w1), (host_after (host_after h w1) w2), (sv_remote (svc w2)).
  unfold recreate, stop_host, start_host. by rewrite Hs1, Hs2.
Qed.

(** A host of that cluster that is cut off from it, stopped and started again:
    nobody answers it, and it makes a cluster of its own. *)
Lemma recreate_alone all cfg h pid r :
  deployment all → cfg ∈ all → running h cfg pid → cluster r = None →
  ∃ h1 h2 r', recreate disableDelay lib etcd h r = Some (h2, r') ∧ holds [cfg] r' ∧
    stopped_host cfg pid h h1 ∧ started_host [] cfg h1 h2.
Proof.
  intros Hdep Hin Hrn Hr.
  destruct (stop_alone h cfg pid r) as (w1&Hs1&Hst1&Hr1); [by apply (dp_endpoints _ Hdep)|done..|].
  destruct (start_run all [] cfg Hdep) with (h := host_after h w1) (r := sv_remote (svc w1))
    as (w2&Hs2&Hst2&Hr2); [set_solver|apply NoDup_singleton|by eapply stopped_ready|done|].
  exists (host_after h w1), (host_after (host_after h w1) w2), (sv_remote (svc w2)).
  unfold recreate, stop_host, start_host. by rewrite Hs1, Hs2.
Qed.

Lemma update_run all todo before hs r :
  deployment all → (∀ c, c ∈ todo ++ before → c ∈ all) → NoDup (NodeName <$> todo ++ before) →
  NoDup (AdvertisePeerURL <$> todo ++ before) → (2 ≤ length (todo ++ before))%nat →
  Forall2 (λ h c, ∃ pid, running h c pid) hs todo → holds (todo ++ before) r →
  ∃ hs' r', update disableDelay lib etcd hs r = Some (hs', r') ∧ holds (before ++ todo) r' ∧
    length hs' = length hs ∧
    ∀ i h cfg h', hs !! i = Some h → todo !! i = Some cfg → hs' !! i = Some h' →
      ∃ pid h1, stopped_host cfg pid h h1 ∧
        started_host (drop (S i) todo ++ before ++ take i todo) cfg h1 h'.
Proof.
  intros Hdep. revert before hs r.
  induction todo as [|cfg todo IH]; intros before hs r Hin Hnames Hpeers Hlen Hall Hr.
  { apply Forall2_nil_inv_r in Hall as ->. exists [], r. rewrite app_nil_r. by split_and!. }
  apply Forall2_cons_inv_r in Hall as (h&hs'&[pid Hrn]&Hall&->).
  destruct (recreate_run all cfg (todo ++ before) h pid r) as (h1&h2&r1&Hrec&Hr1&Hst1&Hst2);
    [done..| |done|done|].
  { intros Heq. simpl in Hlen. rewrite Heq in Hlen. simpl in Hlen. lia. }
  rewrite <-app_assoc in Hr1.
  assert (todo ++ before ++ [cfg] ≡ₚ (cfg :: todo) ++ before) as Hperm
    by (rewrite app_assoc, (Permutation_app_comm _ [cfg]); done).
  destruct (IH (before ++ [cfg]) hs' r1) as (hs2&r2&Hup&Hr2&Hl2&Hi); try done.
  { intros c Hc. apply Hin. by rewrite <-Hperm. }
  { by rewrite Hperm. }
  { by rewrite Hperm. }
  { by rewrite Hperm. }
  exists (h2 :: hs2), r2. cbn [update]. rewrite Hrec. simpl. rewrite Hup. simpl.
  split_and!; [done|by rewrite <-app_assoc in Hr2|congruence|].
  intros [|i] h0 cfg0 h'; simpl.
  - intros [= <-] [= <-] [= <-]. exists pid, h1. by rewrite drop_0, app_nil_r.
  - intros H1 H2 H3. destruct (Hi i h0 cfg0 h' H1 H2 H3) as (pid'&h1'&?&Hst). exists pid', h1'.
    split; [done|]. by rewrite <-app_assoc in Hst.
Qed.
End expected.

Arguments deployment {R T C lib etcd _} _.
Arguments holds {R T C lib etcd _} _ _.
Arguments usable {R T C} lib h cfg.
Arguments ready {R T C} lib h cfg.
Arguments running {R T C} lib h cfg pid.
