(* ===== verification/DeploymentSpec.v ===== *)
(** * Deploying and updating a cluster

    The theorems about [Deployment.v]: nodes started one after another form one
    cluster, and a rolling update keeps it.  [MemCluster] is a small etcd
    service that satisfies the laws, for the witnesses. *)
From S2P Require Import Prelude GoStrings GoPath Machine GoJson Delay Config Client Sync Cluster.
From S2P Require Import Application Lifecycle LifecycleSpec Deployment.

Open Scope Z_scope.

Section properties.
Context {R T C : Type} (disableDelay : string) (lib : CoreOS R T C)
  (etcd : bool → list string → R → R) `{!EtcdService lib etcd}.

(** ** Properties *)

(** C3: nodes that fit together, started one after another on machines that are
    ready, become one cluster: every start succeeds; each node is given the nodes
    before it and itself, the first one alone as a new cluster, the others as an
    existing one; each machine runs one more process and its pid file holds the
    pid; and in the end the members of the cluster are the nodes, by name and
    URLs, in the order in which they were started. *)
Theorem serial_deployment cfgs hs r :
  deployment cfgs → Forall2 (ready lib) hs cfgs → cluster r = None →
  ∃ hs' r', deploy disableDelay lib etcd hs r = (hs', [], r') ∧ holds cfgs r' ∧
    ∀ i h cfg, hs !! i = Some h → cfgs !! i = Some cfg →
      ∃ h', hs' !! i = Some h' ∧ started_host (take i cfgs) cfg h h' ∧
        parse_initial_cluster (Members (cluster_state (take i cfgs) cfg)) =
          named <$> take i cfgs ++ [cfg] ∧
        (State (cluster_state (take i cfgs) cfg) = "new" ↔ i = O).
Proof.
  intros Hdep Hall Hr.
  destruct (deploy_run disableDelay lib etcd cfgs [] cfgs hs r Hdep) as (hs'&r'&Hd&Hr'&Hlen&Hi);
    [done|apply (dp_peers _ _ _ Hdep)|done|done|].
  exists hs', r'. split_and!; [done..|]. intros i h cfg Hh Hc.
  assert (is_Some (hs' !! i)) as [h' Hh'].
  { apply lookup_lt_is_Some. rewrite Hlen. by apply lookup_lt_Some in Hh. }
  exists h'. split_and!; [done|by eapply Hi| |].
  - apply (state_parses lib etcd cfgs); [done|]. rewrite <-(take_S_r _ _ _ Hc). intros c Hin.
    rewrite <-(take_drop (S i) cfgs). set_solver.
  - unfold cluster_state. destruct i as [|i]; simpl; [done|].
    destruct cfgs as [|c0 l]; [done|]. by rewrite bool_decide_false.
Qed.

(** C4: a rolling update of a cluster of two or more nodes: stopping and starting
    one node after the other always succeeds; a node that stops leaves the
    cluster, its process and its data are gone and the rest of its machine is
    untouched; a node that starts joins the nodes that run at that time; and in
    the end the cluster has the members it had, in the same order. *)
Theorem rolling_update cfgs hs r :
  deployment cfgs → (2 ≤ length cfgs)%nat → Forall2 (λ h c, ∃ pid, running lib h c pid) hs cfgs →
  holds cfgs r →
  ∃ hs' r', update disableDelay lib etcd hs r = Some (hs', r') ∧ holds cfgs r' ∧
    ∀ i h cfg, hs !! i = Some h → cfgs !! i = Some cfg →
      ∃ pid h1 h', hs' !! i = Some h' ∧ stopped_host cfg pid h h1 ∧
        started_host (drop (S i) cfgs ++ take i cfgs) cfg h1 h'.
Proof.
  intros Hdep Hlen Hall Hr.
  destruct (update_run disableDelay lib etcd cfgs cfgs [] hs r Hdep) as (hs'&r'&Hu&Hr'&Hl&Hi);
    rewrite ?app_nil_r; [done|apply (dp_names _ _ _ Hdep)|apply (dp_peers _ _ _ Hdep)|done..|].
  exists hs', r'. split_and!; [done..|]. intros i h cfg Hh Hc.
  assert (is_Some (hs' !! i)) as [h' Hh'].
  { apply lookup_lt_is_Some. rewrite Hl. by apply lookup_lt_Some in Hh. }
  destruct (Hi i h cfg h' Hh Hc Hh') as (pid&h1&?&?). by exists pid, h1, h'.
Qed.
End properties.

(** ** A small etcd service *)

Module MemCluster.
Definition state : Type := option (list RawMember).

Definition served (endpoints : list string) (ms : list RawMember) : bool :=
  existsb (λ m, existsb (λ u, bool_decide (u ∈ endpoints)) (raw_ClientURLs m)) ms.

Definition down : error := ErrorString "client: etcd cluster is unavailable or misconfigured".

Definition when {A} (c : list string) (s : state) (no : A) (yes : list RawMember → A) : A :=
  match s with
  | Some ms => if served c ms then yes ms else no
  | None => no
  end.

Definition lib : CoreOS state string (list string) := {|
  DefaultTransport := "default";
  lib_NewTransport f info := ("tls", None);
  lib_New cfg :=
    match Endpoints cfg with
    | [] => (None, Some (ErrorString "client: no endpoints available"))
    | l => (Some l, None)
    end;
  lib_List c s := (when c s ([], Some down) (λ ms, (ms, None)), s);
  lib_Add c url s := when c s ((mkRawMember "" "" [] [], Some down), s) (λ ms,
    let m := unstarted_member (fresh (raw_ID <$> ms)) url in ((m, None), Some (ms ++ [m])));
  lib_Remove c id s := when c s (Some down, s) (λ ms,
    (None, Some (filter (λ m, raw_ID m ≠ id) ms)));
  lib_Get c _ s := (when c s (Some down) (λ _, None), s)
|}.

Definition entered (name purl curl : string) (m : RawMember) : RawMember :=
  if bool_decide (raw_PeerURLs m = [purl]) then mkRawMember (raw_ID m) name [purl] [curl] else m.

Definition etcd (clean : bool) (args : list string) (s : state) : state :=
  match flags_of args with
  | Some fl =>
      match flag "--name" fl, flag "--initial-advertise-peer-urls" fl,
        flag "--advertise-client-urls" fl, flag "--initial-cluster" fl with
      | Some name, Some purl, Some curl, Some nodes =>
          if negb clean then s
          else match s with
               | None =>
                   if bool_decide (flag "--initial-cluster-state" fl = Some "new") &&
                      bool_decide (parse_initial_cluster nodes = [(name, purl)])
                   then Some [mkRawMember "1" name [purl] [curl]] else None
               | Some ms =>
                   if bool_decide (flag "--initial-cluster-state" fl = Some "existing") &&
                      bool_decide ((name, purl) ∈ parse_initial_cluster nodes)
                   then Some (entered name purl curl <$> ms) else s
               end
      | _, _, _, _ => s
      end
  | None => s
  end.

Lemma served_self u m ms : m ∈ ms → u ∈ raw_ClientURLs m → served [u] ms = true.
Proof.
  intros Hm Hu. apply existsb_exists. exists m. rewrite <-list_elem_of_In. split; [done|].
  apply existsb_exists. exists u. rewrite <-list_elem_of_In. split; [done|].
  apply bool_decide_eq_true. set_solver.
Qed.

#[global] Instance service : EtcdService lib etcd.
Proof.
  refine {| cluster (r : state) := r; serves es ms := served es ms = true; dials (c : list string) := c;
            valid_url _ := True |}.
  - intros [[|e l] t n] He; [done|]. by eexists.
  - apply served_self.
  - intros c r ->. by do 3 eexists.
  - intros c r ms -> Hs _. simpl. unfold when. rewrite Hs. by eexists.
  - intros c r ms -> Hs _. simpl. unfold when. rewrite Hs. by eexists.
  - intros c url r ms -> Hs _ _ _. simpl. unfold when. rewrite Hs. eexists _, _.
    split; [done|]. split; [done|]. apply infinite_is_fresh.
  - intros c id r ms -> Hs _ _. simpl. unfold when. rewrite Hs. by eexists.
  - intros args fl r name purl curl Hcl Hfl _ _ Hn Hp Hc Hic Hst. simpl in Hcl. subst r.
    unfold etcd. rewrite Hfl, Hn, Hp, Hc, Hst. destruct (flag "--initial-cluster" fl) as [nodes|]; [|done].
    injection Hic as Hic. rewrite Hic, !bool_decide_true by done. by eexists.
  - intros args fl r ms i name purl curl entries Hcl _ Hfl _ _ Hn Hp Hc Hic Hperm Hnd Hin Hst.
    simpl in Hcl. subst r. unfold etcd. rewrite Hfl, Hn, Hp, Hc, Hst.
    destruct (flag "--initial-cluster" fl) as [nodes|]; [|done]. injection Hic as ->.
    rewrite !bool_decide_true by done. simpl. f_equal. rewrite fmap_app. f_equal.
    + rewrite <-(list_fmap_id ms) at 2. apply list_fmap_ext. intros k m Hm. unfold entered.
      rewrite bool_decide_false; [done|]. intros Heq. rewrite Hperm in Hnd.
      apply NoDup_app in Hnd as (_&Hd&_). apply (Hd purl); [|set_solver].
      apply list_elem_of_In, in_concat. exists (raw_PeerURLs m). rewrite <-!list_elem_of_In.
      split; [apply list_elem_of_fmap_2; by eapply list_elem_of_lookup_2|rewrite Heq; set_solver].
    + simpl. unfold entered. simpl. by rewrite bool_decide_true.
Defined.
End MemCluster.

(** ** Witnesses *)

Module DeploymentWitness.
Definition config (i : string) : string := single_quoted
  ("{'node': {'name': 'etcd', 'index': " +:+ i +:+ ", 'external_ip': '10.0.0." +:+ i +:+
   "'}, 'etcd': {'run_dir': '/run', 'peer_ip': '10.0.0." +:+ i +:+
   "', 'client_ip': '10.0.0." +:+ i +:+ "', 'machines': ['10.0.0.0', '10.0.0.1', '10.0.0.2']}}").
Definition files (i : string) : gmap (list string) node :=
  <[["c.json"] := File (config i)]> (<[["l.json"] := File ""]>
  (<[["run"] := Dir]> (<[["var"; "vcap"; "store"; "etcd"] := Dir]> ∅))).
Definition a : Application := mkApplication "/c.json" "/l.json".
Definition host (i : string) : Host := mkHost (files i) ∅ permissive_kernel a.
(** A host on which etcd runs with the pid 7 and has data. *)
Definition busy (i : string) : Host := mkHost
  (<[["run"; "etcd.pid"] := File "7"]> (<[["var"; "vcap"; "store"; "etcd"; "wal"] := File "w"]> (files i)))
  {[ 7 := mkProcess "/etcd" [] ]} permissive_kernel a.

Definition cfg (i : string) : Config :=
  match ConfigFromJSONs "/c.json" "/l.json"
    (boot (T := string) (C := list string) (host i) (None : MemCluster.state)) with
  | (Val (c, _), _) => c
  | _ => zero_Config
  end.
Definition indices : list string := ["0"; "1"; "2"].
Definition cfgs : list Config := cfg <$> indices.

Lemma reach c c' : c ∈ cfgs → c' ∈ cfgs → AdvertiseClientURL c' ∈ EtcdClientEndpoints c.
Proof.
  intros Hc Hc'. assert (forallb (λ c, forallb (λ c', bool_decide
    (AdvertiseClientURL c' ∈ EtcdClientEndpoints c)) cfgs) cfgs = true) as H by (by vm_compute).
  rewrite forallb_forall in H. apply list_elem_of_In, H in Hc. rewrite forallb_forall in Hc.
  apply list_elem_of_In, Hc in Hc'. by apply bool_decide_eq_true in Hc'.
Qed.

Lemma fits : deployment (lib := MemCluster.lib) (etcd := MemCluster.etcd) cfgs.
Proof.
  split.
  - apply (bool_decide_unpack _). vm_compute. exact I.
  - apply (bool_decide_unpack _). vm_compute. exact I.
  - by split.
  - apply Forall_forall. repeat (apply Forall_cons; split; [vm_compute; done|]). constructor.
  - apply Forall_forall. repeat (apply Forall_cons; split; [vm_compute; done|]). constructor.
  - intros c [|m ms] Hc Hne Hall; [done|]. apply Forall_cons in Hall as [(c'&Hc'&_&_&Hu) _].
    pose proof (reach c c' Hc Hc') as Hin.
    simpl. unfold MemCluster.served. simpl. rewrite Hu. simpl. by rewrite bool_decide_true.
Qed.

Lemma ready_host i : i ∈ indices → ready MemCluster.lib (host i) (cfg i).
Proof.
  revert i. apply Forall_forall.
  repeat (apply Forall_cons; split; [|]); [..|constructor];
    (split; [split; [by apply names_ok_decide; vm_compute|intros r; eexists; vm_compute; reflexivity|done|done]
            |by vm_compute|intros r; by vm_compute]).
Qed.

Lemma running_host i : i ∈ indices → running MemCluster.lib (busy i) (cfg i) 7.
Proof.
  revert i. apply Forall_forall.
  repeat (apply Forall_cons; split; [|]); [..|constructor];
    (split; [split; [by apply names_ok_decide; vm_compute|intros r; eexists; vm_compute; reflexivity
                    |done|done]
            |done|by vm_compute|split_and!; [done|done|eexists; vm_compute; reflexivity|done]
            |by vm_compute|by vm_compute| |by vm_compute|done];
     apply Forall_forall; repeat (apply Forall_cons; split; [by vm_compute|]); constructor).
Qed.

Definition members : list RawMember :=
  (λ i, mkRawMember i (NodeName (cfg i)) [AdvertisePeerURL (cfg i)] [AdvertiseClientURL (cfg i)])
  <$> indices.

Lemma up : holds (lib := MemCluster.lib) (etcd := MemCluster.etcd) cfgs (Some members).
Proof.
  exists members. split; [done|]. split.
  - repeat constructor.
  - apply (bool_decide_unpack _). vm_compute. exact I.
Qed.
End DeploymentWitness.

Lemma serial_deployment_witness :
  ∃ hs' r', deploy "" MemCluster.lib MemCluster.etcd (DeploymentWitness.host <$> ["0"; "1"; "2"])
      (None : MemCluster.state) = (hs', [], r') ∧
    holds (lib := MemCluster.lib) (etcd := MemCluster.etcd) DeploymentWitness.cfgs r' ∧
    ∃ h', hs' !! 2%nat = Some h' ∧ h_fs h' !! ["run"; "etcd.pid"] = Some (File "2") ∧
    parse_initial_cluster (Members (cluster_state (take 2 DeploymentWitness.cfgs)
      (DeploymentWitness.cfg "2"))) =
      [("etcd-0", "http://10.0.0.0:7001"); ("etcd-1", "http://10.0.0.1:7001");
       ("etcd-2", "http://10.0.0.2:7001")].
Proof.
  destruct (serial_deployment "" MemCluster.lib MemCluster.etcd DeploymentWitness.cfgs
    (DeploymentWitness.host <$> ["0"; "1"; "2"]) None DeploymentWitness.fits) as (hs'&r'&Hd&Hr&Hi).
  - repeat constructor; apply DeploymentWitness.ready_host; set_solver.
  - done.
  - destruct (Hi 2%nat _ _ eq_refl eq_refl) as (h'&Hh&(_&Hf&_)&Hp&_).
    exists hs', r'. split; [exact Hd|]. split; [exact Hr|]. exists h'. split; [exact Hh|].
    split; [|rewrite Hp; by vm_compute]. rewrite Hf. apply lookup_insert_eq.
Defined.

Lemma rolling_update_witness :
  ∃ hs' r', update "true" MemCluster.lib MemCluster.etcd
      (DeploymentWitness.busy <$> ["0"; "1"; "2"]) (Some DeploymentWitness.members) = Some (hs', r') ∧
    holds (lib := MemCluster.lib) (etcd := MemCluster.etcd) DeploymentWitness.cfgs r'.
Proof.
  destruct (rolling_update "true" MemCluster.lib MemCluster.etcd DeploymentWitness.cfgs
    (DeploymentWitness.busy <$> ["0"; "1"; "2"]) (Some DeploymentWitness.members)
    DeploymentWitness.fits) as (hs'&r'&Hu&Hr&_).
  - simpl. lia.
  - repeat constructor; exists 7; apply DeploymentWitness.running_host; set_solver.
  - apply DeploymentWitness.up.
  - exists hs', r'. by split.
Defined.
