(* ===== verification/LeaderFinder.v ===== *)
(** * [src/etcd-proxy/leaderfinder/finder.go]

    Finding the URL of the leader of an etcd cluster from the answers of one
    address: the list of members and the leader's id. *)
From S2P Require Import Prelude GoStrings GoPath Machine GoUrl GoJson GoHttp.

(** ** Data *)

Definition NoAddressesProvided : error := ErrorString "no addresses have been provided".
Definition LeaderNotFound : error := ErrorString "leader not found".
Definition MembersNotFound : error := ErrorString "no etcd members could be found".
Definition NoClientURLs : error := ErrorString "no etcd member client urls could be found".
Definition NoClientURLsForLeader : error := ErrorString "no etcd member client url for leader".

Record member := mkmember { ClientURLs : list string; ID : string }.
Record members := mkmembers { Members : list member }.
Record leaderInfo := mkleaderInfo { Leader : string }.
Record self := mkself { LeaderInfo : leaderInfo }.

Record Finder := mkFinder { address : string }.
Definition NewFinder (address : string) : Finder := mkFinder address.

Definition member_fields : list (jfield member) := [
  mk_field "clientURLs" ClientURLs (λ v m, mkmember v (ID m));
  mk_field "id" ID (λ v m, mkmember (ClientURLs m) v)
].
#[export] Instance member_FromJson : FromJson member := {|
  jzero := mkmember [] "";
  jtype := "leaderfinder.member";
  jdecode := decode_struct "leaderfinder.member" member_fields
|}.
Definition members_fields : list (jfield members) := [
  mk_field "members" Members (λ v _, mkmembers v)
].
#[export] Instance members_FromJson : FromJson members := {|
  jzero := mkmembers [];
  jtype := "leaderfinder.members";
  jdecode := decode_struct "leaderfinder.members" members_fields
|}.
Definition leaderInfo_fields : list (jfield leaderInfo) := [
  mk_field "leader" Leader (λ v _, mkleaderInfo v)
].
#[export] Instance leaderInfo_FromJson : FromJson leaderInfo := {|
  jzero := mkleaderInfo "";
  jtype := "leaderfinder.leaderInfo";
  jdecode := decode_struct "leaderfinder.leaderInfo" leaderInfo_fields
|}.
Definition self_fields : list (jfield self) := [
  mk_field "leaderInfo" LeaderInfo (λ v _, mkself v)
].
#[export] Instance self_FromJson : FromJson self := {|
  jzero := mkself (mkleaderInfo "");
  jtype := "leaderfinder.self";
  jdecode := decode_struct "leaderfinder.self" self_fields
|}.

(** ** [Find] *)

(** The loop over the members: it stops at the first one with the leader's id;
    [None] is the early return of an error. *)
Fixpoint leader_loop (leaderID : string) (l : list member) : option string :=
  match l with
  | [] => Some ""
  | m :: l' =>
      if bool_decide (ID m = leaderID) then
        match ClientURLs m with
        | [] => None
        | u :: _ => Some u
        end
      else leader_loop leaderID l'
  end.

Section finder.
Context {X : Type} `{Getter X}.

Definition Find (f : Finder) : M X (option URL * option error) :=
  if bool_decide (address f = "") then mret (None, Some (ErrorString "no address provided"))
  else
  resp ← http_Get (address f +:+ "/v2/members");
  match resp with
  | inl err => mret (None, Some err)
  | inr resp =>
      let '(ms, err) := DecodeBody resp (jzero : members) in
      match err with
      | Some err => mret (None, Some err)
      | None =>
          if bool_decide (length (Members ms) = O) then mret (None, Some MembersNotFound)
          else
          resp ← http_Get (address f +:+ "/v2/stats/self");
          match resp with
          | inl err => mret (None, Some err)
          | inr resp =>
              let '(s, err) := DecodeBody resp (jzero : self) in
              match err with
              | Some err => mret (None, Some err)
              | None =>
                  match leader_loop (Leader (LeaderInfo s)) (Members ms) with
                  | None => mret (None, Some NoClientURLsForLeader)
                  | Some leaderURL =>
                      if bool_decide (leaderURL = "") then mret (None, Some LeaderNotFound)
                      else
                        match Parse leaderURL with
                        | inl err => mret (None, Some (ErrorString err))
                        | inr leader => mret (Some leader, None)
                        end
                  end
              end
          end
      end
  end.
End finder.

(** ** Abstract specification *)

(** What a request asked for: the decoded value, or the error. *)
Definition answer {T} `{FromJson T} (r : error + Response) : error + T :=
  match r with
  | inl e => inl e
  | inr resp =>
      match DecodeBody resp jzero with
      | (_, Some e) => inl e
      | (t, None) => inr t
      end
  end.

(** The leader's URL among the members. *)
Definition leader_of (ms : list member) (leaderID : string) : error + URL :=
  match first_match (λ m, bool_decide (ID m = leaderID)) ms with
  | None => inl LeaderNotFound
  | Some m =>
      match ClientURLs m with
      | [] => inl NoClientURLsForLeader
      | u :: _ =>
          if bool_decide (u = "") then inl LeaderNotFound
          else match Parse u with inl e => inl (ErrorString e) | inr url => inr url end
      end
  end.

(** The result, and the URLs requested. *)
Definition find_spec (f : nat → string → error + Response) (addr : string) :
    (error + URL) * list string :=
  let u1 := addr +:+ "/v2/members" in
  let u2 := addr +:+ "/v2/stats/self" in
  if bool_decide (addr = "") then (inl (ErrorString "no address provided"), [])
  else
    match answer (f 0%nat u1) : error + members with
    | inl e => (inl e, [u1])
    | inr ms =>
        if bool_decide (Members ms = []) then (inl MembersNotFound, [u1])
        else
          match answer (f 1%nat u2) : error + self with
          | inl e => (inl e, [u1; u2])
          | inr s => (leader_of (Members ms) (Leader (LeaderInfo s)), [u1; u2])
          end
    end.

Definition as_pair {A} (r : error + A) : option A * option error :=
  match r with inl e => (None, Some e) | inr a => (Some a, None) end.

(** ** Lemmas *)

Lemma leader_loop_spec id l :
  leader_loop id l =
  match first_match (λ m, bool_decide (ID m = id)) l with
  | None => Some ""
  | Some m => head (ClientURLs m)
  end.
Proof.
  unfold first_match. induction l as [|m l IH]; [done|]. cbn [leader_loop List.filter].
  case_bool_decide; [|done]. cbn [head]. by destruct (ClientURLs m).
Qed.

#[export] Instance quiet_Find {X} `{GetterLaws X} f : Quiet (Find f).
Proof.
  unfold Find, NewFinder. apply quiet_if; [apply _|]. apply quiet_bind; [apply _|intros [e|r1]]; [apply _|].
  destruct (DecodeBody r1 _) as [ms [e|]]; [apply _|]. apply quiet_if; [apply _|].
  apply quiet_bind; [apply _|intros [e|r2]]; [apply _|].
  destruct (DecodeBody r2 _) as [s [e|]]; [apply _|].
  destruct (leader_loop _ _) as [u|]; [|apply _]. apply quiet_if; [apply _|].
  destruct (Parse u); apply _.
Qed.

Lemma Find_run f addr (w : World HttpScript.state) :
  svc w = [] →
  ∃ w', Find (H := HttpScript.client f) (NewFinder addr) w =
      (Val (as_pair (find_spec f addr).1), w') ∧
    same_os w w' ∧ log w' = log w ∧ svc w' = (find_spec f addr).2.
Proof.
  intros Hw. unfold Find, NewFinder, find_spec. cbn [address]. case_bool_decide as Ha; [by eexists|].
  set (u1 := addr +:+ "/v2/members"). set (u2 := addr +:+ "/v2/stats/self").
  step (run_scripted_Get f u1 w). rewrite Hw. cbn [length]. unfold answer.
  destruct (f 0%nat u1) as [e|r1]; [by eexists|].
  destruct (DecodeBody r1 _) as [ms [e|]]; [by eexists|].
  destruct (Members ms) as [|m l] eqn:Hms; [by eexists|]. cbn [length].
  rewrite !bool_decide_false by done.
  step (run_scripted_Get f u2 (set_svc ([] ++ [u1]) w)). cbn [svc set_svc app length].
  destruct (f 1%nat u2) as [e|r2]; [by eexists|].
  destruct (DecodeBody r2 _) as [s [e|]]; [by eexists|].
  rewrite leader_loop_spec. unfold leader_of. destruct (first_match _ _) as [m'|]; [|by eexists].
  destruct (ClientURLs m') as [|u us]; [by eexists|]. cbn [head].
  case_bool_decide; [by eexists|]. destruct (Parse u); by eexists.
Qed.

(** ** Properties *)

(** C12: [Find] against any answers: it always returns, with a URL exactly when
    it returns no error; it sends nothing without an address, and otherwise one
    request for the members and, only if that gave at least one, one for the
    leader's id, both to its own address; the URL is the first client URL of
    the first member with the leader's id, and every failure on the way is the
    error returned. *)
Theorem Find_refines f addr (w : World HttpScript.state) :
  svc w = [] →
  ∃ w', Find (H := HttpScript.client f) (NewFinder addr) w =
      (Val (as_pair (find_spec f addr).1), w') ∧
    same_os w w' ∧ svc w' = (find_spec f addr).2.
Proof. intros Hw. destruct (Find_run f addr w Hw) as (w'&?&?&_&?). by exists w'. Qed.

(** C17: a cluster that works is found: when the members list contains the
    leader, under an id no member before it has, with a client URL [http://] or
    [https://] on a plain host and port, [Find] returns that URL with its scheme
    and host. *)
Theorem Find_leader f addr ms s (tls : bool) auth l1 m l2 us (w : World HttpScript.state) :
  let scheme := if tls then "https" else "http" in
  svc w = [] → addr ≠ "" → all_chars plain_host auth = true →
  answer (f 0%nat (addr +:+ "/v2/members")) = inr ms →
  answer (f 1%nat (addr +:+ "/v2/stats/self")) = inr s →
  Members ms = l1 ++ m :: l2 → ID m = Leader (LeaderInfo s) →
  (∀ m', m' ∈ l1 → ID m' ≠ ID m) →
  ClientURLs m = (scheme +:+ "://" +:+ auth) :: us →
  ∃ url w', Find (H := HttpScript.client f) (NewFinder addr) w = (Val (Some url, None), w') ∧
    Scheme url = scheme ∧ Host url = auth ∧ URL_String url = scheme +:+ "://" +:+ auth.
Proof.
  intros scheme Hw Ha Hauth H1 H2 Hms Hid Hl1 Hus.
  set (url := authority_URL scheme auth).
  assert (Find (H := HttpScript.client f) (NewFinder addr) w =
    (Val (Some url, None), set_svc [addr +:+ "/v2/members"; addr +:+ "/v2/stats/self"] w)) as Hf.
  { unfold answer in H1, H2. unfold Find, NewFinder. cbn [address]. rewrite bool_decide_false by done.
    step (run_scripted_Get f (addr +:+ "/v2/members") w). rewrite Hw. cbn [length].
    destruct (f 0%nat _) as [e|r1]; [done|]. destruct (DecodeBody r1 _) as [ms' [e|]]; [done|].
    injection H1 as ->. rewrite bool_decide_false by (by rewrite Hms; destruct l1).
    match goal with |- context [mbind _ (http_Get ?u) ?w0] => step (run_scripted_Get f u w0) end.
    cbn [svc set_svc app length].
    destruct (f 1%nat _) as [e|r2]; [done|]. destruct (DecodeBody r2 _) as [s' [e|]]; [done|].
    injection H2 as ->. rewrite leader_loop_spec, (proj2 (first_match_Some _ _ m)).
    - rewrite Hus. cbn [head]. rewrite bool_decide_false by (by destruct tls).
      unfold scheme. by rewrite Parse_authority.
    - exists l1, l2. split; [done|]. rewrite bool_decide_true by done. split; [done|].
      intros m' Hm'. apply bool_decide_eq_false. rewrite <-Hid. by apply Hl1. }
  exists url, (set_svc [addr +:+ "/v2/members"; addr +:+ "/v2/stats/self"] w).
  split_and!; [done..|]. by apply authority_URL_String.
Qed.

(** ** Witnesses *)

Module FinderWitness.
Definition members_json : string := single_quoted
  "{'members': [{'id': 'a', 'clientURLs': []}, {'id': 'b', 'clientURLs': ['http://10.0.0.2:4001', 'x']}]}".
Definition self_json : string := single_quoted "{'leaderInfo': {'leader': 'b'}, 'name': 'n'}".
Definition f (n : nat) (url : string) : error + Response :=
  inr (mkResponse 200 (match n with O => members_json | _ => self_json end) None).
Definition w : World HttpScript.state := mkWorld ∅ ∅ permissive_kernel [] [].
End FinderWitness.

Lemma Find_refines_witness :
  ∃ w', Find (H := HttpScript.client FinderWitness.f) (NewFinder "http://etcd:4001")
      FinderWitness.w = (Val (Some (authority_URL "http" "10.0.0.2:4001"), None), w') ∧
    svc w' = ["http://etcd:4001/v2/members"; "http://etcd:4001/v2/stats/self"].
Proof.
  destruct (Find_refines FinderWitness.f "http://etcd:4001" FinderWitness.w eq_refl)
    as (w'&Hr&_&Hs).
  exists w'. split; [rewrite Hr; by vm_compute|rewrite Hs; by vm_compute].
Defined.

Lemma Find_leader_witness :
  ∃ url w', Find (H := HttpScript.client FinderWitness.f) (NewFinder "http://etcd:4001")
      FinderWitness.w = (Val (Some url, None), w') ∧ Host url = "10.0.0.2:4001".
Proof.
  destruct (Find_leader FinderWitness.f "http://etcd:4001"
    (mkmembers [mkmember [] "a"; mkmember ["http://10.0.0.2:4001"; "x"] "b"])
    (mkself (mkleaderInfo "b")) false "10.0.0.2:4001" [mkmember [] "a"]
    (mkmember ["http://10.0.0.2:4001"; "x"] "b") [] ["x"] FinderWitness.w)
    as (url&w'&Hr&_&Hh&_); try done.
  - intros m' ->%list_elem_of_singleton. done.
  - exists url, w'. split; [exact Hr|exact Hh].
Defined.
