(* ===== verification/LeaderManager.v ===== *)
(** * [src/etcd-proxy/leaderfinder/manager.go]

    The address that the goroutine of [NewManager] refreshes and that every
    proxied request reads, as a transition system.  A step is one lock, one
    access or one unlock of one thread, so that every interleaving of the
    goroutine ([Background]) with any number of calls of [LeaderOrDefault]
    ([Reader n]) is a run; what [Find] returns is the environment's choice. *)
From S2P Require Import Prelude GoStrings GoPath Machine GoUrl.

(** ** States *)

Inductive thread := Background | Reader (n : nat).
#[export] Instance thread_eq_dec : EqDecision thread.
Proof. solve_decision. Defined.

(** Where the goroutine is: asleep, in [Find], and in [setAddress(a)] before the
    lock, holding it, and after the assignment. *)
Inductive bg_pc :=
  | Sleeping | Finding | SetLock (a : option URL) | SetHeld (a : option URL) | SetUnlock.

(** Where a call of [LeaderOrDefault] is. *)
Inductive rd_pc := ReadLock | ReadHeld | ReadUnlock (a : option URL).

Record Manager := mkManager {
  m_mutex : option thread;
  m_address : option URL;
  m_bg : bg_pc;
  m_readers : gmap nat rd_pc
}.

Inductive label :=
  | Tau
  | Found (r : option URL * option error)
  | Set_ (a : option URL)
  | Called (n : nat)
  | Read (n : nat) (a : option URL)
  | Returned (n : nat) (a : option URL).

Section manager.
Context (defaultEtcdURL : URL).

(** The address the loop body sets for a result of [Find]. *)
Definition next_address (r : option URL * option error) : option URL :=
  match r with
  | (_, Some _) => Some defaultEtcdURL
  | (leaderURL, None) => leaderURL
  end.

Definition NewManager : Manager := mkManager None (Some defaultEtcdURL) Sleeping ∅.

(** One step of the goroutine ([for { sleep; Find; setAddress }]) or of a call
    of [LeaderOrDefault]. *)
Inductive step : Manager → label → Manager → Prop :=
  | step_wake mu a rs :
      step (mkManager mu a Sleeping rs) Tau (mkManager mu a Finding rs)
  | step_find mu a rs r :
      step (mkManager mu a Finding rs) (Found r) (mkManager mu a (SetLock (next_address r)) rs)
  | step_set_lock a b rs :
      step (mkManager None a (SetLock b) rs) Tau (mkManager (Some Background) a (SetHeld b) rs)
  | step_set mu a b rs :
      step (mkManager mu a (SetHeld b) rs) (Set_ b) (mkManager mu b SetUnlock rs)
  | step_set_unlock mu a rs :
      step (mkManager mu a SetUnlock rs) Tau (mkManager None a Sleeping rs)
  | step_call mu a bg rs n :
      rs !! n = None →
      step (mkManager mu a bg rs) (Called n) (mkManager mu a bg (<[n := ReadLock]> rs))
  | step_read_lock a bg rs n :
      rs !! n = Some ReadLock →
      step (mkManager None a bg rs) Tau
           (mkManager (Some (Reader n)) a bg (<[n := ReadHeld]> rs))
  | step_read mu a bg rs n :
      rs !! n = Some ReadHeld →
      step (mkManager mu a bg rs) (Read n a) (mkManager mu a bg (<[n := ReadUnlock a]> rs))
  | step_return mu a bg rs n b :
      rs !! n = Some (ReadUnlock b) →
      step (mkManager mu a bg rs) (Returned n b) (mkManager None a bg (delete n rs)).

(** Runs, with their labels. *)
Inductive steps_from : Manager → list label → Manager → Prop :=
  | steps_nil m : steps_from m [] m
  | steps_snoc m t m1 l m2 :
      steps_from m t m1 → step m1 l m2 → steps_from m (t ++ [l]) m2.

Definition run (t : list label) (m : Manager) : Prop := steps_from NewManager t m.

(** ** Invariant: the mutex *)

Definition bg_inside (p : bg_pc) : bool :=
  match p with SetHeld _ | SetUnlock => true | _ => false end.
Definition rd_inside (p : rd_pc) : bool :=
  match p with ReadLock => false | _ => true end.

(** The thread is between its lock and its unlock. *)
Definition inside (m : Manager) (t : thread) : Prop :=
  match t with
  | Background => bg_inside (m_bg m) = true
  | Reader n => ∃ p, m_readers m !! n = Some p ∧ rd_inside p = true
  end.

Definition mutex_ok (m : Manager) : Prop := ∀ t, inside m t ↔ m_mutex m = Some t.

(** A reader that holds the mutex after its read holds the address. *)
Definition read_ok (m : Manager) : Prop :=
  ∀ n a, m_readers m !! n = Some (ReadUnlock a) → a = m_address m.

Lemma inside_insert mu a bg rs n p t :
  inside (mkManager mu a bg (<[n := p]> rs)) t ↔
  if decide (t = Reader n) then rd_inside p = true else inside (mkManager mu a bg rs) t.
Proof.
  destruct t as [|k]; simpl; [done|]. destruct (decide (Reader k = Reader n)) as [[= ->]|Hne].
  - rewrite lookup_insert_eq. naive_solver.
  - rewrite lookup_insert_ne by congruence. done.
Qed.

Lemma inside_delete mu a bg rs n t :
  inside (mkManager mu a bg (delete n rs)) t ↔ t ≠ Reader n ∧ inside (mkManager mu a bg rs) t.
Proof.
  destruct t as [|k]; simpl; [naive_solver|]. destruct (decide (k = n)) as [->|Hne].
  - rewrite lookup_delete_eq. naive_solver.
  - rewrite lookup_delete_ne by done. naive_solver.
Qed.

(** Whether a thread is inside depends on its own part only. *)
Lemma inside_bg mu a bg mu' a' bg' rs t :
  bg_inside bg = bg_inside bg' → inside (mkManager mu a bg rs) t ↔ inside (mkManager mu' a' bg' rs) t.
Proof. intros H. destruct t; simpl; [by rewrite H|done]. Qed.

Lemma inside_bg_change mu a bg mu' a' bg' rs t :
  inside (mkManager mu a bg rs) t ↔
  if decide (t = Background) then bg_inside bg = true else inside (mkManager mu' a' bg' rs) t.
Proof. by destruct t. Qed.

Lemma step_mutex_ok m l m' : step m l m' → mutex_ok m → mutex_ok m'.
Proof.
  intros Hstep Hok t. specialize (Hok t) as Ht. destruct Hstep; simpl m_mutex in *.
  - by rewrite (inside_bg mu a Finding mu a Sleeping).
  - by rewrite (inside_bg mu a (SetLock _) mu a Finding).
  - rewrite (inside_bg_change _ _ _ None a (SetLock b)). case_decide as Hd; naive_solver.
  - by rewrite (inside_bg mu b SetUnlock mu a (SetHeld b)).
  - assert (mu = Some Background) as -> by (by apply (Hok Background)).
    rewrite (inside_bg_change _ _ _ (Some Background) a SetUnlock). case_decide; naive_solver.
  - rewrite inside_insert. case_decide as Hd; [|done]. subst t. simpl. split; [done|].
    intros Hmu. apply Ht in Hmu as (p&Hp&_). simpl in Hp. congruence.
  - rewrite inside_insert. case_decide; [naive_solver|].
    rewrite (inside_bg (Some _) a bg None a bg) by done. naive_solver.
  - rewrite inside_insert. case_decide as Hd; [|done]. subst t.
    rewrite <-Ht. simpl. naive_solver.
  - assert (mu = Some (Reader n)) as -> by (apply (Hok (Reader n)); simpl; eauto).
    rewrite inside_delete.
    rewrite (inside_bg None a bg (Some (Reader n)) a bg) by done. naive_solver.
Qed.

Lemma step_read_ok m l m' : step m l m' → mutex_ok m → read_ok m → read_ok m'.
Proof.
  intros Hstep Hok Hrd k c Hk. destruct Hstep; simpl in *; try by eapply Hrd.
  - assert (mu = Some Background) as -> by (by apply (Hok Background)).
    assert (Some Background = Some (Reader k)) as [=]; apply (Hok (Reader k)); simpl; eauto.
  - apply lookup_insert_Some in Hk as [[_ [=]]|[_ Hk]]. by eapply Hrd.
  - apply lookup_insert_Some in Hk as [[_ [=]]|[_ Hk]]. by eapply Hrd.
  - apply lookup_insert_Some in Hk as [[_ [= ->]]|[_ Hk]]; [done|]. by eapply Hrd.
  - apply lookup_delete_Some in Hk as [_ Hk]. by eapply Hrd.
Qed.

Lemma run_ok t m : run t m → mutex_ok m ∧ read_ok m.
Proof.
  unfold run. intros Hrun. remember NewManager as m0 eqn:Hm0. induction Hrun; subst.
  - split; [|intros k c Hk; simpl in Hk; by rewrite lookup_empty in Hk].
    intros [|k]; simpl; [done|]. rewrite lookup_empty. naive_solver.
  - destruct IHHrun; [done|]. split; [by eapply step_mutex_ok|by eapply step_read_ok].
Qed.

(** ** Abstract specification: one shared cell

    The cell holds the default URL at first, a [Set_] replaces its contents,
    a [Read] and a [Returned] see them; the other labels do not concern it. *)
Inductive cell_step : option URL → label → option URL → Prop :=
  | cell_set a b : cell_step a (Set_ b) b
  | cell_read a n : cell_step a (Read n a) a
  | cell_return a n : cell_step a (Returned n a) a
  | cell_other a l :
      match l with Tau | Found _ | Called _ => True | _ => False end → cell_step a l a.

Inductive cell_run : list label → option URL → Prop :=
  | cell_nil : cell_run [] (Some defaultEtcdURL)
  | cell_snoc t a l b : cell_run t a → cell_step a l b → cell_run (t ++ [l]) b.

(** The last of the values set, the default before the first. *)
Definition last_set (t : list label) : option URL :=
  foldl (λ a l, match l with Set_ b => b | _ => a end) (Some defaultEtcdURL) t.

Lemma cell_run_last_set t a : cell_run t a → a = last_set t.
Proof.
  induction 1 as [|t a l b Hrun IH Hstep]; [done|]. unfold last_set. rewrite foldl_app.
  fold (last_set t). rewrite <-IH. simpl. by destruct Hstep as [| | |? []].
Qed.

Lemma run_cell t m : run t m → cell_run t (m_address m).
Proof.
  unfold run. intros Hrun. remember NewManager as m0 eqn:Hm0.
  induction Hrun as [|m t m1 l m2 Hrun IH Hstep]; subst; [constructor|].
  eapply cell_snoc; [by apply IH|]. destruct (run_ok t m1 Hrun) as [_ Hrd]. clear IH Hrun.
  destruct Hstep; simpl in *; try by constructor.
  assert (b = a) as -> by (by apply (Hrd n)). constructor.
Qed.

(** ** Where the values come from *)

Definition sound (t : list label) (a : option URL) : Prop :=
  a = Some defaultEtcdURL ∨ ∃ r, Found r ∈ t ∧ a = next_address r.

Lemma sound_snoc t l a : sound t a → sound (t ++ [l]) a.
Proof. intros [->|(r&Hr&->)]; [by left|]. right. exists r. set_solver. Qed.

Definition pending_sound (t : list label) (p : bg_pc) : Prop :=
  match p with SetLock b | SetHeld b => sound t b | _ => True end.

Lemma run_sound t m : run t m → sound t (m_address m) ∧ pending_sound t (m_bg m).
Proof.
  unfold run. intros Hrun. remember NewManager as m0 eqn:Hm0.
  induction Hrun as [|m t m1 l m2 Hrun IH Hstep]; subst; [split; [by left|done]|].
  destruct (IH eq_refl) as [Ha Hp]. clear IH.
  assert (pending_sound (t ++ [l]) (m_bg m1)) as Hp'.
  { destruct (m_bg m1); simpl in *; try done; by apply sound_snoc. }
  destruct Hstep; simpl in *; (split; [by apply sound_snoc|]); try done.
  right. exists r. set_solver.
Qed.

Lemma run_app_inv t l m : run (t ++ [l]) m → ∃ m1, run t m1 ∧ step m1 l m.
Proof.
  unfold run. intros H. remember NewManager as m0 eqn:Hm0. remember (t ++ [l]) as t' eqn:Ht.
  destruct H as [m|m t1 m1 l1 m2 Hrun Hstep]; [by destruct t|].
  apply app_inj_tail in Ht as [-> ->]. eauto.
Qed.

Lemma run_prefix t t' m : run (t ++ t') m → ∃ m1, run t m1.
Proof.
  revert m. induction t' as [|l t' IH] using rev_ind; intros m; [rewrite app_nil_r; eauto|].
  rewrite app_assoc. intros (m1&H&_)%run_app_inv. by eapply IH.
Qed.

(** ** Progress *)

Lemma steps_one m l m' : step m l m' → steps_from m [l] m'.
Proof. intros H. eapply (steps_snoc m []); [constructor|done]. Qed.

Lemma steps_app m t m1 t' m2 : steps_from m t m1 → steps_from m1 t' m2 → steps_from m (t ++ t') m2.
Proof.
  intros H H'. induction H' as [|m1 t' m2 l m3 H' IH Hstep]; [by rewrite app_nil_r|].
  rewrite app_assoc. eapply steps_snoc; [by apply IH|done].
Qed.

(** The holder lets the mutex go in two steps at most, and leaves the calls
    of others alone. *)
Lemma mutex_released m :
  mutex_ok m →
  ∃ t m', steps_from m t m' ∧ (length t ≤ 2)%nat ∧ m_mutex m' = None ∧
    ∀ n, m_readers m !! n = Some ReadLock → m_readers m' !! n = Some ReadLock.
Proof.
  destruct m as [[[|k]|] a bg rs]; intros Hok; simpl in *.
  - assert (bg_inside bg = true) as Hb by (by apply (Hok Background)).
    destruct bg as [| |b|b|]; try done.
    + eexists _, _. split; [eapply steps_app; eapply steps_one; constructor|]. by split_and!.
    + eexists _, _. split; [eapply steps_one; constructor|]. split_and!; [simpl; lia|done..].
  - destruct (proj2 (Hok (Reader k)) eq_refl) as (p&Hp&Hin). simpl in Hp.
    destruct p as [| |b]; [done| |].
    + eexists _, _. split.
      { eapply steps_app; eapply steps_one; [by apply step_read|].
        apply step_return, lookup_insert_eq. }
      split_and!; [done..|]. intros n Hn. simpl.
      rewrite lookup_delete_ne, lookup_insert_ne by congruence. done.
    + eexists _, _. split; [by eapply steps_one, step_return|]. split_and!; [simpl; lia|done|].
      intros n Hn. simpl. rewrite lookup_delete_ne by congruence. done.
  - eexists [], _. split; [constructor|]. split_and!; [simpl; lia|done..].
Qed.

(** A call that waits for a free mutex returns in three steps. *)
Lemma free_mutex_returns a bg rs n :
  rs !! n = Some ReadLock →
  ∃ m', steps_from (mkManager None a bg rs) [Tau; Read n a; Returned n a] m'.
Proof.
  intros Hn. eexists. eapply (steps_snoc _ [Tau; Read n a]); [eapply (steps_snoc _ [Tau])|].
  - by eapply steps_one, step_read_lock.
  - eapply step_read, lookup_insert_eq.
  - eapply step_return, lookup_insert_eq.
Qed.

(** ** Properties *)

(** C8: every interleaving of the goroutine with any number of calls of
    [LeaderOrDefault] is a run of a single shared cell that starts with the
    default URL: at every moment at most one thread is between its lock and
    its unlock, the address is the last one set, and every call returns what
    the cell held while it had the mutex. *)
Theorem manager_refines_cell t m :
  run t m →
  cell_run t (m_address m) ∧ m_address m = last_set t ∧
  ∀ u v, inside m u → inside m v → u = v.
Proof.
  intros Hrun. pose proof (run_cell t m Hrun) as Hcell.
  split_and!; [done|by apply cell_run_last_set|].
  destruct (run_ok t m Hrun) as [Hok _]. intros u v Hu%Hok Hv%Hok. congruence.
Qed.

(** [LeaderOrDefault] never returns nil: provided [Find] returns a URL
    whenever it returns no error, what a call returns is the default URL or a
    URL that [Find] returned without an error before. *)
Theorem LeaderOrDefault_sound t n a m :
  (∀ r, Found r ∈ t → r.2 = None → is_Some r.1) →
  run (t ++ [Returned n a]) m →
  ∃ u, a = Some u ∧ (u = defaultEtcdURL ∨ Found (Some u, None) ∈ t).
Proof.
  intros Hfind (m1&Hrun&Hstep)%run_app_inv.
  assert (a = m_address m1) as Ha.
  { destruct (run_ok t m1 Hrun) as [_ Hrd]. inversion Hstep; subst. by apply (Hrd n). }
  destruct (run_sound t m1 Hrun) as [[Hs|(r&Hr&Hs)] _]; rewrite Ha, Hs; [by eauto|].
  specialize (Hfind r Hr). destruct r as [u [e|]]; simpl in *; [by eauto|].
  destruct Hfind as [v ->]; [done|]. eauto.
Qed.

(** No call of [LeaderOrDefault] is stuck: in every reachable state a call
    that has not returned can be brought to its return by at most five steps
    of the threads (the holder of the mutex letting it go, then its own), and
    it then returns the address. *)
Theorem LeaderOrDefault_returns t m n p :
  run t m → m_readers m !! n = Some p →
  ∃ t' m' a, steps_from m t' m' ∧ (length t' ≤ 5)%nat ∧ Returned n a ∈ t'.
Proof.
  intros Hrun Hn. destruct (run_ok t m Hrun) as [Hok _]. destruct p as [| |b].
  - destruct (mutex_released m Hok) as (t1&[mu a bg rs]&Hs&Hl&Hmu&Hw). simpl in *. subst mu.
    destruct (free_mutex_returns a bg rs n (Hw n Hn)) as [m' Hm'].
    exists (t1 ++ [Tau; Read n a; Returned n a]), m', a. split; [by eapply steps_app|].
    rewrite length_app. simpl. split; [lia|]. set_solver.
  - destruct m as [mu a bg rs]. eexists [Read n a; Returned n a], _, a. split.
    + eapply (steps_snoc _ [_]); [by eapply steps_one, step_read|].
      eapply step_return, lookup_insert_eq.
    + simpl. split; [lia|]. set_solver.
  - destruct m as [mu a bg rs]. eexists [Returned n b], _, b. split; [by eapply steps_one, step_return|].
    simpl. split; [lia|]. set_solver.
Qed.
End manager.

(** ** Witnesses *)

Module ManagerWitness.
Definition d : URL := authority_URL "https" "etcd:4001".
Definition u : URL := authority_URL "https" "etcd-0:4001".
(** The leader is found and set, and a call reads it. *)
Definition t : list label :=
  [Tau; Found (Some u, None); Called 0; Tau; Set_ (Some u); Tau; Tau; Read 0 (Some u)].
Definition m_waiting : Manager :=
  mkManager (Some Background) (Some d) (SetHeld (Some u)) {[ 0%nat := ReadLock ]}.
Definition m_read : Manager :=
  mkManager (Some (Reader 0)) (Some u) Sleeping {[ 0%nat := ReadUnlock (Some u) ]}.

Lemma run_waiting : run d [Tau; Found (Some u, None); Called 0; Tau] m_waiting.
Proof.
  apply (steps_snoc _ _ [Tau; Found (Some u, None); Called 0]
    (mkManager None (Some d) (SetLock (Some u)) {[ 0%nat := ReadLock ]})); [|constructor].
  apply (steps_snoc _ _ [Tau; Found (Some u, None)] (mkManager None (Some d) (SetLock (Some u)) ∅));
    [|by apply step_call].
  apply (steps_snoc _ _ [Tau] (mkManager None (Some d) Finding ∅)); [|by apply (step_find d)].
  apply (steps_snoc _ _ [] (NewManager d)); [constructor|constructor].
Qed.

Lemma run_read : run d t m_read.
Proof.
  apply (steps_snoc _ _ [Tau; Found (Some u, None); Called 0; Tau; Set_ (Some u); Tau; Tau]
    (mkManager (Some (Reader 0)) (Some u) Sleeping {[ 0%nat := ReadHeld ]}));
    [|by apply step_read].
  apply (steps_snoc _ _ [Tau; Found (Some u, None); Called 0; Tau; Set_ (Some u); Tau]
    (mkManager None (Some u) Sleeping {[ 0%nat := ReadLock ]})); [|by apply step_read_lock].
  apply (steps_snoc _ _ [Tau; Found (Some u, None); Called 0; Tau; Set_ (Some u)]
    (mkManager (Some Background) (Some u) SetUnlock {[ 0%nat := ReadLock ]})); [|constructor].
  apply (steps_snoc _ _ [Tau; Found (Some u, None); Called 0; Tau] m_waiting); [|constructor].
  exact run_waiting.
Qed.
End ManagerWitness.

Lemma manager_refines_cell_witness :
  m_address ManagerWitness.m_read = last_set ManagerWitness.d ManagerWitness.t.
Proof.
  destruct (manager_refines_cell ManagerWitness.d _ _ ManagerWitness.run_read) as (_&H&_). exact H.
Defined.

Lemma LeaderOrDefault_sound_witness :
  ∃ u, Some ManagerWitness.u = Some u ∧
    (u = ManagerWitness.d ∨ Found (Some u, None) ∈ ManagerWitness.t).
Proof.
  apply (LeaderOrDefault_sound ManagerWitness.d ManagerWitness.t 0 (Some ManagerWitness.u)
    (mkManager None (Some ManagerWitness.u) Sleeping ∅)).
  - intros r Hr _. unfold ManagerWitness.t in Hr.
    rewrite !elem_of_cons, elem_of_nil in Hr. naive_solver.
  - eapply steps_snoc; [exact ManagerWitness.run_read|]. by apply step_return.
Defined.

Lemma LeaderOrDefault_returns_witness :
  ∃ t' m' a, steps_from ManagerWitness.d ManagerWitness.m_waiting t' m' ∧
    (length t' ≤ 5)%nat ∧ Returned 0 a ∈ t'.
Proof.
  exact (LeaderOrDefault_returns ManagerWitness.d _ _ 0 ReadLock ManagerWitness.run_waiting eq_refl).
Defined.
