(* ===== verification/Checker.v ===== *)
(** * [src/etcd-consistency-checker/app/app.go] and its [main.go]

    The checker asks every cluster member for its leader, once a second, until
    two leaders are seen or a request fails. *)
From S2P Require Import Prelude GoStrings GoPath Machine GoFlag GoJson GoHttp.

Open Scope Z_scope.

(** ** Data *)

Record Config := mkConfig {
  ClusterMembers : list string;
  CA : string;
  Cert : string;
  Key : string
}.

(** [App]: the logger comes with the monad. *)
Record App (X : Type) := mkApp { config : Config; sleeper : Z → M X unit }.
Arguments mkApp {X} _ _.
Arguments config {X} _.
Arguments sleeper {X} _ _.
Definition New {X} (config : Config) (sleeper : Z → M X unit) : App X := mkApp config sleeper.

Record member := mkmember { ClientURLs : list string; ID : string }.
Record members := mkmembers { Members : list member }.
Record leader := mkleader { Leader : string }.
Record self := mkself { LeaderInfo : leader }.

Definition member_fields : list (jfield member) := [
  mk_field "clientURLs" ClientURLs (λ v m, mkmember v (ID m));
  mk_field "id" ID (λ v m, mkmember (ClientURLs m) v)
].
#[export] Instance member_FromJson : FromJson member := {|
  jzero := mkmember [] "";
  jtype := "app.member";
  jdecode := decode_struct "app.member" member_fields
|}.
Definition members_fields : list (jfield members) := [
  mk_field "members" Members (λ v _, mkmembers v)
].
#[export] Instance members_FromJson : FromJson members := {|
  jzero := mkmembers [];
  jtype := "app.members";
  jdecode := decode_struct "app.members" members_fields
|}.
Definition leader_fields : list (jfield leader) := [
  mk_field "leader" Leader (λ v _, mkleader v)
].
#[export] Instance leader_FromJson : FromJson leader := {|
  jzero := mkleader "";
  jtype := "app.leader";
  jdecode := decode_struct "app.leader" leader_fields
|}.
Definition self_fields : list (jfield self) := [
  mk_field "leaderInfo" LeaderInfo (λ v _, mkself v)
].
#[export] Instance self_FromJson : FromJson self := {|
  jzero := mkself (mkleader "");
  jtype := "app.self";
  jdecode := decode_struct "app.self" self_fields
|}.

(** The client [newHttpClient] builds: the contents of the certificate, key and
    CA files, if TLS is configured. *)
Record http_client := mkClient { tls_files : option (string * string * string) }.

(** ** Operations *)

(** The errors of a node that is down. *)
Definition unreachable (e : error) : bool :=
  Contains (Error e) "no route to host" || Contains (Error e) "no such host" ||
  Contains (Error e) "connection refused".

Definition unexpected_status (resp : Response) (buf : string) : error :=
  ErrorString ("unexpected status code " +:+ Sprintf_d (StatusCode resp) +:+ " - " +:+ buf).

(** The loop of [getNodeURL]: the first member with the leader's id. *)
Fixpoint find_node_url (leaderID : string) (l : list member) : option (list string) :=
  match l with
  | [] => None
  | m :: l' => if bool_decide (ID m = leaderID) then Some (ClientURLs m)
               else find_node_url leaderID l'
  end.

(** [fmt.Sprintf("%v", l)]. *)
Definition Sprintf_v (l : list string) : string := "[" +:+ Join " " l +:+ "]".

Section app.
(** The requests of a client; [tls.X509KeyPair] on the contents of two files;
    the order in which [range] visits a map, which Go leaves open. *)
Context {X : Type} (Get : http_client → Getter X).
Context (X509KeyPair : string → string → option error).
Context (map_order : gmap string string → list (string * string)).

Definition newHttpClient (ca cert key : string) : M X (option http_client * option error) :=
  if negb (bool_decide (ca = "")) && negb (bool_decide (cert = "")) &&
     negb (bool_decide (key = "")) then
    '(certPEM, err) ← ReadFile cert;
    match err with
    | Some err => mret (None, Some err)
    | None =>
    '(keyPEM, err) ← ReadFile key;
    match err with
    | Some err => mret (None, Some err)
    | None =>
    match X509KeyPair certPEM keyPEM with
    | Some err => mret (None, Some err)
    | None =>
    '(caCert, err) ← ReadFile ca;
    match err with
    | Some err => mret (None, Some err)
    | None => mret (Some (mkClient (Some (certPEM, keyPEM, caCert))), None)
    end end end end
  else mret (Some (mkClient None), None).

Definition leaderFromSelf (client : http_client) (url : string) : M X (string * option error) :=
  resp ← http_Get (Getter := Get client) (url +:+ "/v2/stats/self");
  match resp with
  | inl err => if unreachable err then mret ("", None) else mret ("", Some err)
  | inr resp =>
      let '(buf, err) := ReadAll resp in
      match err with
      | Some err => mret ("", Some err)
      | None =>
          if bool_decide (StatusCode resp = StatusOK) then
            let '(s, err) := Unmarshal buf (jzero : self) in
            match err with
            | Some err => mret ("", Some err)
            | None => mret (Leader (LeaderInfo s), None)
            end
          else mret ("", Some (unexpected_status resp buf))
      end
  end.

Definition getNodeURL (client : http_client) (url leaderID : string) :
    M X (string * option error) :=
  resp ← http_Get (Getter := Get client) (url +:+ "/v2/members");
  match resp with
  | inl err => if unreachable err then mret ("", None) else mret ("", Some err)
  | inr resp =>
      let '(buf, err) := ReadAll resp in
      match err with
      | Some err => mret ("", Some err)
      | None =>
          if bool_decide (StatusCode resp = StatusOK) then
            let '(ms, err) := Unmarshal buf (jzero : members) in
            match err with
            | Some err => mret ("", Some err)
            | None =>
                match find_node_url leaderID (Members ms) with
                | Some [] => panic "runtime error: index out of range"
                | Some (u :: _) => mret (u, None)
                | None => mret ("", Some (unexpected_status resp buf))
                end
            end
          else mret ("", Some (unexpected_status resp buf))
      end
  end.

(** [logger.Printf("[ERR] %s\n", err); return err]. *)
Definition report_error {A} (err : error) (k : error → A) : M X A :=
  _ ← tell (Stdout ("[ERR] " +:+ Error err)); mret (k err).

(** [for _, member := range a.config.ClusterMembers]: the early error, or the
    leaders seen. *)
Fixpoint member_loop (client : http_client) (l : list string) (leaders : gmap string string) :
    M X (error + gmap string string) :=
  match l with
  | [] => mret (inr leaders)
  | m :: l' =>
      '(leader, err) ← leaderFromSelf client m;
      match err with
      | Some err => report_error err inl
      | None =>
          '(leaderURL, err) ← getNodeURL client m leader;
          match err with
          | Some err => report_error err inl
          | None =>
              member_loop client l'
                (if negb (bool_decide (leader = "")) then <[leader := leaderURL]> leaders
                 else leaders)
          end
      end
  end.

(** One round of the loop of [Run]: [Some err] when it returns. *)
Definition round (client : http_client) (a : App X) : M X (option error) :=
  r ← member_loop client (ClusterMembers (config a)) ∅;
  match r with
  | inl err => mret (Some err)
  | inr leaders =>
      let leaderURLs := snd <$> map_order leaders in
      if (1 <? length leaderURLs)%nat then
        let err := ErrorString ("more than one leader exists: " +:+ Sprintf_v leaderURLs) in
        report_error err Some
      else
        _ ← tell (Stdout ("[INFO] the leader is " +:+ Sprintf_v leaderURLs));
        _ ← sleeper a (1 * Second);
        mret None
  end.

(** [for { ... }], [n] rounds of it: [None] when it still runs, else what [Run]
    returned. *)
Fixpoint rounds (n : nat) (client : http_client) (a : App X) :
    M X (option (option error)) :=
  match n with
  | O => mret None
  | S n' =>
      r ← round client a;
      match r with
      | Some err => mret (Some (Some err))
      | None => rounds n' client a
      end
  end.

Definition Run (n : nat) (a : App X) : M X (option (option error)) :=
  if bool_decide (length (ClusterMembers (config a)) = O) then
    mret (Some (Some (ErrorString "at least one cluster member is required")))
  else
    '(client, err) ← newHttpClient (CA (config a)) (Cert (config a)) (Key (config a));
    match err with
    | Some err => mret (Some (Some err))
    | None => rounds n (default (mkClient None) client) a
    end.
End app.

(** ** [main.go] *)

Definition checker_flag_defs : list flag_def := [
  mkFlag "cluster-members" "" "comma seperated list of cluster members";
  mkFlag "ca-cert" "" "path to the CA Certificate file";
  mkFlag "cert" "" "path to the Certificate file";
  mkFlag "key" "" "path to the Key file"
].

Record Flags := mkFlags {
  fl_ClusterMembers : string;
  fl_CA : string;
  fl_Cert : string;
  fl_Key : string
}.
Definition flags_of_values (values : gmap string string) : Flags :=
  mkFlags (value_of values "cluster-members") (value_of values "ca-cert")
    (value_of values "cert") (value_of values "key").

(** The configuration of the parsed flags. *)
Definition config_of_flags (flags : Flags) : Config :=
  mkConfig (Split "," (fl_ClusterMembers flags)) (fl_CA flags) (fl_Cert flags) (fl_Key flags).

(** [main], [n] rounds: [flag.Parse] exits with 2 on a bad command line,
    [log.Fatal] with 1. *)
Definition main {X} (Get : http_client → Getter X) X509KeyPair map_order (n : nat)
    (args : list string) : M X unit :=
  values ← FlagSet_Parse (default "" (head args)) checker_flag_defs (drop 1 args);
  match values with
  | None => exit 2
  | Some values =>
      r ← Run Get X509KeyPair map_order n (New (config_of_flags (flags_of_values values)) sleep);
      match r with
      | Some (Some err) => _ ← tell (Stderr (Error err)); exit 1
      | _ => mret tt
      end
  end.

(** ** Abstract specification *)

(** What the answer to [/v2/stats/self] says about the leader: its id, empty for
    a node that is down, or the error that ends the checker. *)
Definition self_result (r : error + Response) : error + string :=
  match r with
  | inl e => if unreachable e then inr "" else inl e
  | inr resp =>
      match BodyErr resp with
      | Some e => inl e
      | None =>
          if bool_decide (StatusCode resp = StatusOK) then
            match Unmarshal (Body resp) (jzero : self) with
            | (_, Some e) => inl e
            | (s, None) => inr (Leader (LeaderInfo s))
            end
          else inl (unexpected_status resp (Body resp))
      end
  end.

(** What the answer to [/v2/members] gives for the leader's URL. *)
Definition url_result (leaderID : string) (r : error + Response) : outcome (error + string) :=
  match r with
  | inl e => Val (if unreachable e then inr "" else inl e)
  | inr resp =>
      match BodyErr resp with
      | Some e => Val (inl e)
      | None =>
          if bool_decide (StatusCode resp = StatusOK) then
            match Unmarshal (Body resp) (jzero : members) with
            | (_, Some e) => Val (inl e)
            | (ms, None) =>
                match first_match (λ m, bool_decide (ID m = leaderID)) (Members ms) with
                | None => Val (inl (unexpected_status resp (Body resp)))
                | Some m =>
                    match ClientURLs m with
                    | [] => Panicked "runtime error: index out of range"
                    | u :: _ => Val (inr u)
                    end
                end
            end
          else Val (inl (unexpected_status resp (Body resp)))
      end
  end.

Section spec.
(** The answer to request number [k] for a URL. *)
Context (f : nat → string → error + Response).

(** A node asked at request [k]: its leader's id and URL. *)
Definition node_result (k : nat) (m : string) : outcome (error + string * string) :=
  match self_result (f k (m +:+ "/v2/stats/self")) with
  | inl e => Val (inl e)
  | inr id =>
      match url_result id (f (S k) (m +:+ "/v2/members")) with
      | Val (inl e) => Val (inl e)
      | Val (inr u) => Val (inr (id, u))
      | Panicked s => Panicked s
      | Exited n => Exited n
      end
  end.

(** What the nodes report, if every one of them does. *)
Fixpoint reports (k : nat) (l : list string) : option (list (string * string)) :=
  match l with
  | [] => Some []
  | m :: l' =>
      match node_result k m with
      | Val (inr r) => match reports (S (S k)) l' with Some rs => Some (r :: rs) | None => None end
      | _ => None
      end
  end.
End spec.

Definition node_requests (m : string) : list string :=
  [m +:+ "/v2/stats/self"; m +:+ "/v2/members"].

(** The leaders map of a list of reports; a node without a leader adds nothing. *)
Definition add_leader (acc : gmap string string) (r : string * string) : gmap string string :=
  if negb (bool_decide (r.1 = "")) then <[r.1 := r.2]> acc else acc.
Definition leaders_of (rs : list (string * string)) : gmap string string := foldl add_leader ∅ rs.

(** All leaders reported are one. *)
Definition agree (rs : list (string * string)) : Prop :=
  ∀ r r', r ∈ rs → r' ∈ rs → r.1 ≠ "" → r'.1 ≠ "" → r.1 = r'.1.

(** ** Lemmas *)

Lemma find_node_url_first id l :
  find_node_url id l = ClientURLs <$> first_match (λ m, bool_decide (ID m = id)) l.
Proof.
  unfold first_match. induction l as [|m l IH]; [done|]. cbn [find_node_url List.filter].
  by case_bool_decide.
Qed.

Lemma foldl_add_leader_dom rs acc :
  dom (foldl add_leader acc rs) = dom acc ∪ list_to_set (filter (λ id, id ≠ "") rs.*1).
Proof.
  revert acc. induction rs as [|[id u] rs IH]; intros acc; simpl; [set_solver|].
  rewrite IH. unfold add_leader. simpl. case_bool_decide; simpl.
  - rewrite filter_cons_False by naive_solver. done.
  - rewrite filter_cons_True by done. rewrite dom_insert_L. set_solver.
Qed.

Lemma leaders_of_size rs : (size (leaders_of rs) ≤ 1)%nat ↔ agree rs.
Proof.
  rewrite <-size_dom. unfold leaders_of, agree. rewrite foldl_add_leader_dom, dom_empty_L.
  rewrite (left_id_L ∅ (∪)). set (ids := filter _ _).
  assert (∀ id, id ∈ ids ↔ id ≠ "" ∧ ∃ u, (id, u) ∈ rs) as Hids.
  { intros id. unfold ids. rewrite list_elem_of_filter, list_elem_of_fmap. split.
    - intros (Hid&[i u]&->&Hr). split; [done|]. by exists u.
    - intros (Hid&u&Hr). split; [done|]. by exists (id, u). }
  clearbody ids. split.
  - intros Hsize [i u] [j v] Hr Hr' Hi Hj. simpl in *.
    assert (i ∈ (list_to_set ids : gset string)) as Hii by (apply elem_of_list_to_set, Hids; eauto).
    assert (j ∈ (list_to_set ids : gset string)) as Hjj by (apply elem_of_list_to_set, Hids; eauto).
    destruct (decide (i = j)) as [|Hne]; [done|]. exfalso.
    assert (size ({[i; j]} : gset string) ≤ size (list_to_set ids : gset string))%nat as Hle
      by (apply subseteq_size; set_solver).
    rewrite size_union, !size_singleton in Hle by set_solver. lia.
  - intros Hag. destruct ids as [|i ids]; [rewrite list_to_set_nil, size_empty; lia|].
    assert ((list_to_set (i :: ids) : gset string) ⊆ {[i]}) as Hsub.
    { intros j Hj. apply elem_of_list_to_set, Hids in Hj as (Hj&v&Hv).
      destruct (proj1 (Hids i)) as (Hi&u&Hu); [by left|].
      apply elem_of_singleton. by apply (Hag (j, v) (i, u)). }
    apply subseteq_size in Hsub. by rewrite size_singleton in Hsub.
Qed.

Section runs.
Context (f : http_client → nat → string → error + Response).
Context (X509KeyPair : string → string → option error).
Context (map_order : gmap string string → list (string * string)).
Let Get : http_client → Getter HttpScript.state := λ c, HttpScript.client (f c).
Notation W := (World HttpScript.state).

(** The world after the requests [urls]. *)
Definition asked (urls : list string) (w : W) : W := set_svc (svc w ++ urls) w.

Lemma leaderFromSelf_run c url (w : W) :
  leaderFromSelf Get c url w =
  (Val (match self_result (f c (length (svc w)) (url +:+ "/v2/stats/self")) with
        | inl e => ("", Some e)
        | inr id => (id, None)
        end), asked [url +:+ "/v2/stats/self"] w).
Proof.
  unfold leaderFromSelf, Get. step (run_scripted_Get (f c) (url +:+ "/v2/stats/self") w).
  unfold self_result, ReadAll. destruct (f c _ _) as [e|[st b be]]; cbn [BodyErr StatusCode Body].
  { by destruct (unreachable e). }
  destruct be; [done|]. case_bool_decide; [|done]. by destruct (Unmarshal b _) as [s [e|]].
Qed.

Lemma getNodeURL_run c url id (w : W) :
  getNodeURL Get c url id w =
  (match url_result id (f c (length (svc w)) (url +:+ "/v2/members")) with
   | Val (inl e) => Val ("", Some e)
   | Val (inr u) => Val (u, None)
   | Panicked s => Panicked s
   | Exited n => Exited n
   end, asked [url +:+ "/v2/members"] w).
Proof.
  unfold getNodeURL, Get. step (run_scripted_Get (f c) (url +:+ "/v2/members") w).
  unfold url_result, ReadAll. destruct (f c _ _) as [e|[st b be]]; cbn [BodyErr StatusCode Body].
  { by destruct (unreachable e). }
  destruct be; [done|]. case_bool_decide; [|done]. destruct (Unmarshal b _) as [ms [e|]]; [done|].
  rewrite find_node_url_first. destruct (first_match _ _) as [m|]; [|done]. simpl.
  by destruct (ClientURLs m).
Qed.

(** Nodes that report are asked twice each, in order. *)
Lemma member_loop_reports c l rest acc rs (w : W) :
  reports (f c) (length (svc w)) l = Some rs →
  member_loop Get c (l ++ rest) acc w =
  member_loop Get c rest (foldl add_leader acc rs) (asked (l ≫= node_requests) w).
Proof.
  revert acc rs w. induction l as [|m l IH]; intros acc rs w; simpl.
  { intros [= <-]. unfold asked. rewrite app_nil_r. by destruct w. }
  unfold node_result. intros Hr. pose proof (leaderFromSelf_run c m w) as H1.
  destruct (self_result _) as [e|id]; [done|]. step H1. cbn iota beta. clear H1.
  pose proof (getNodeURL_run c m id (asked [m +:+ "/v2/stats/self"] w)) as H2.
  cbn [asked svc set_svc] in H2. rewrite length_app, Nat.add_comm in H2. cbn [length Nat.add] in H2.
  destruct (url_result _ _) as [[e|u]|s|n]; [done| |done..]. step H2. cbn iota beta. clear H2.
  destruct (reports _ _ _) as [rs'|] eqn:Hr'; [|done]. injection Hr as <-.
  rewrite (IH _ rs').
  - simpl. f_equal. unfold asked. simpl. by rewrite <-!app_assoc.
  - simpl. rewrite !length_app. simpl. by replace (length (svc w) + 1 + 1)%nat
      with (S (S (length (svc w)))) by lia.
Qed.

(** A node that cannot be asked ends the loop with its error. *)
Lemma member_loop_error c m rest acc e (w : W) :
  node_result (f c) (length (svc w)) m = Val (inl e) →
  ∃ w', member_loop Get c (m :: rest) acc w = (Val (inl e), w') ∧ same_os w w' ∧
    log w' = log w ++ [Stdout ("[ERR] " +:+ Error e)] ∧
    (svc w' = svc w ++ [m +:+ "/v2/stats/self"] ∨ svc w' = svc w ++ node_requests m).
Proof.
  unfold node_result. intros Hr. cbn [member_loop]. pose proof (leaderFromSelf_run c m w) as H1.
  destruct (self_result _) as [e'|id]; step H1; cbn iota beta; clear H1.
  { simplify_eq. eexists. split; [reflexivity|]. split_and!; [done..|by left]. }
  pose proof (getNodeURL_run c m id (asked [m +:+ "/v2/stats/self"] w)) as H2.
  cbn [asked svc set_svc] in H2. rewrite length_app, Nat.add_comm in H2. cbn [length Nat.add] in H2.
  destruct (url_result _ _) as [[e'|u]|s|n]; simplify_eq. step H2. cbn iota beta.
  eexists. split; [reflexivity|]. split_and!; [done..|right]. simpl. by rewrite <-app_assoc.
Qed.
End runs.

Lemma requests_length l : length (l ≫= node_requests) = (2 * length l)%nat.
Proof.
  induction l as [|m l IH]; [done|]. rewrite bind_cons, length_app, IH. simpl. lia.
Qed.

Section properties.
Context (f : http_client → nat → string → error + Response).
Context (map_order : gmap string string → list (string * string)).
Let Get : http_client → Getter HttpScript.state := λ c, HttpScript.client (f c).
Notation W := (World HttpScript.state).

(** [range] visits every entry of a map once. *)
Definition visits_all : Prop := ∀ m, map_order m ≡ₚ map_to_list m.

Lemma round_run c cfg rs (w : W) :
  visits_all → reports (f c) (length (svc w)) (ClusterMembers cfg) = Some rs →
  ∃ r w', round Get map_order c (New cfg sleep) w = (Val r, w') ∧ same_os w w' ∧
    svc w' = svc w ++ (ClusterMembers cfg ≫= node_requests) ∧
    (if bool_decide (size (leaders_of rs) ≤ 1)%nat then
       r = None ∧ ∃ line, log w' = log w ++ [Stdout line; Slept (1 * Second)]
     else ∃ urls, urls ≡ₚ (map_to_list (leaders_of rs)).*2 ∧
       r = Some (ErrorString ("more than one leader exists: " +:+ Sprintf_v urls))).
Proof.
  intros Hord Hrep. unfold round. cbn [config sleeper New].
  pose proof (member_loop_reports f c (ClusterMembers cfg) [] ∅ rs w Hrep) as Hl.
  rewrite app_nil_r in Hl. step Hl. clear Hl. fold (leaders_of rs).
  assert (length (map_order (leaders_of rs)).*2 = size (leaders_of rs)) as Hlen.
  { by rewrite length_fmap, (Hord _), length_map_to_list. }
  rewrite Hlen. case_bool_decide as Hs; destruct (Nat.ltb_spec 1 (size (leaders_of rs))); try lia.
  - eexists _, _. split; [reflexivity|]. split_and!; [done..|]. eexists. simpl.
    by rewrite <-app_assoc.
  - eexists _, _. split; [reflexivity|]. split_and!; [done..|].
    eexists. split; [|reflexivity]. by rewrite (Hord _).
Qed.

Lemma rounds_healthy c cfg n (w : W) :
  visits_all →
  (∀ k, ∃ rs, reports (f c) k (ClusterMembers cfg) = Some rs ∧ agree rs) →
  ∃ w', rounds Get map_order n c (New cfg sleep) w = (Val None, w') ∧ same_os w w' ∧
    svc w' = svc w ++ mjoin (replicate n (ClusterMembers cfg ≫= node_requests)) ∧
    ∃ l, log w' = log w ++ l ∧ length l = (2 * n)%nat ∧
      ∀ i e, l !! i = Some e → e = Slept (1 * Second) ∨ ∃ line, e = Stdout line.
Proof.
  intros Hord Hh. revert w. induction n as [|n IH]; intros w; simpl.
  { exists w. rewrite app_nil_r. split_and!; [done..|]. exists []. rewrite app_nil_r. done. }
  destruct (Hh (length (svc w))) as (rs&Hrs&Hag).
  destruct (round_run c cfg rs w Hord Hrs) as (r&w1&Hr&Hos&Hs&Hcase).
  rewrite bool_decide_true in Hcase by (by apply leaders_of_size).
  destruct Hcase as (->&line&Hl). step Hr.
  destruct (IH w1) as (w2&->&Hos2&Hs2&l&Hl2&Hlen&Hev). exists w2. split_and!; [done| | |].
  - by etrans.
  - by rewrite Hs2, Hs, <-app_assoc.
  - exists ([Stdout line; Slept (1 * Second)] ++ l). rewrite Hl2, Hl, <-app_assoc.
    split; [done|]. split; [simpl; lia|].
    intros [|[|i]] e He; simpl in *; simplify_eq; eauto.
Qed.

(** ** Properties *)

(** C9: a round in which every node reports (its own leader, or being down)
    asks each node twice, in order, and lets the checker go on exactly when
    the leaders reported are all the same; otherwise it ends it with the
    error that lists the leaders' URLs, once each, in whatever order [range]
    visits them. *)
Theorem round_detects_split c cfg rs (w : W) :
  visits_all → reports (f c) (length (svc w)) (ClusterMembers cfg) = Some rs →
  ∃ r w', round Get map_order c (New cfg sleep) w = (Val r, w') ∧ same_os w w' ∧
    svc w' = svc w ++ (ClusterMembers cfg ≫= node_requests) ∧
    (r = None ↔ agree rs) ∧
    (∀ e, r = Some e → ∃ urls, urls ≡ₚ (map_to_list (leaders_of rs)).*2 ∧
       e = ErrorString ("more than one leader exists: " +:+ Sprintf_v urls)).
Proof.
  intros Hord Hrep. destruct (round_run c cfg rs w Hord Hrep) as (r&w'&Hr&Hos&Hs&Hcase).
  exists r, w'. split_and!; [done|apply Hos..|done| |]; rewrite <-?leaders_of_size;
    case_bool_decide; [naive_solver..| |].
  - destruct Hcase as (->&_). done.
  - destruct Hcase as (urls&?&->). intros e [= <-]. eauto.
Qed.

(** A node whose request fails other than by being down, or whose answer
    cannot be used, ends the checker with that error, which is printed; the
    nodes after it are not asked, and leaders found before it are forgotten. *)
Theorem round_stops_at_failure c cfg l1 m l2 rs e (w : W) :
  ClusterMembers cfg = l1 ++ m :: l2 →
  reports (f c) (length (svc w)) l1 = Some rs →
  node_result (f c) (length (svc w) + 2 * length l1) m = Val (inl e) →
  ∃ w', round Get map_order c (New cfg sleep) w = (Val (Some e), w') ∧ same_os w w' ∧
    log w' = log w ++ [Stdout ("[ERR] " +:+ Error e)] ∧
    svc w' `prefix_of` svc w ++ (l1 ≫= node_requests) ++ node_requests m.
Proof.
  intros Hcfg Hrep Hfail. unfold round. cbn [config sleeper New]. rewrite Hcfg.
  pose proof (member_loop_reports f c l1 (m :: l2) ∅ rs w Hrep) as Hl.
  assert (length (svc (asked (l1 ≫= node_requests) w)) = length (svc w) + 2 * length l1)%nat as Hk.
  { simpl. by rewrite length_app, requests_length. }
  destruct (member_loop_error f c m l2 (foldl add_leader ∅ rs) e
    (asked (l1 ≫= node_requests) w)) as (w'&Hr&Hos&Hlog&Hs); [by rewrite Hk|].
  rewrite Hr in Hl. step Hl. exists w'. split; [done|]. split; [exact Hos|]. split; [exact Hlog|].
  simpl in Hs. destruct Hs as [-> | ->]; rewrite <-app_assoc.
  - exists [m +:+ "/v2/members"]. by rewrite <-!app_assoc.
  - done.
Qed.

Context (X509KeyPair : string → string → option error).

(** On a cluster that always reports one leader the checker never ends:
    after any number [n] of rounds [Run] still runs; it has asked every node
    twice a round and slept one second a round, and printed one line a round. *)
Theorem Run_healthy_forever n cfg c (w w1 : W) :
  visits_all → ClusterMembers cfg ≠ [] →
  newHttpClient X509KeyPair (CA cfg) (Cert cfg) (Key cfg) w = (Val (Some c, None), w1) →
  (∀ k, ∃ rs, reports (f c) k (ClusterMembers cfg) = Some rs ∧ agree rs) →
  ∃ w', Run Get X509KeyPair map_order n (New cfg sleep) w = (Val None, w') ∧
    svc w' = svc w1 ++ mjoin (replicate n (ClusterMembers cfg ≫= node_requests)) ∧
    ∃ l, log w' = log w1 ++ l ∧ length l = (2 * n)%nat.
Proof.
  intros Hord Hne Hc Hh. unfold Run. cbn [config New]. rewrite bool_decide_false by (by destruct (ClusterMembers cfg)).
  step Hc. cbn iota beta. simpl default.
  destruct (rounds_healthy c cfg n w1 Hord Hh) as (w'&->&_&Hs&l&Hl&Hlen&_). eauto 8.
Qed.

(** [Run] never returns without an error: whatever the answers, after any
    number of rounds it still runs or has returned an error. *)
Theorem Run_never_nil n cfg (w w' : W) r :
  Run Get X509KeyPair map_order n (New cfg sleep) w = (Val r, w') → r = None ∨ ∃ e, r = Some (Some e).
Proof.
  unfold Run. case_bool_decide as Hne; [intros; run_inv; eauto|]. clear Hne.
  intros ([c [e|]]&w1&_&H)%bind_inv; [run_inv; eauto|].
  revert w1 H. induction n as [|n IH]; intros w1 H; simpl in H; [run_inv; eauto|].
  apply bind_inv in H as ([e|]&w2&_&H); [run_inv; eauto|]. by apply IH in H.
Qed.
End properties.

(** The check for an empty member list never fires for the program: the list
    [main] passes is never empty (joining it gives the flag's value back), and
    without [-cluster-members] it holds one empty name, so that the first
    request goes to [/v2/stats/self] without a host and the program exits with
    1 and that request's error. *)
Theorem main_without_members (f : http_client → nat → string → error + Response) X509KeyPair
    map_order n e prog (w : World HttpScript.state) :
  svc w = [] → f (mkClient None) 0%nat "/v2/stats/self" = inl e → unreachable e = false →
  (∀ flags, ClusterMembers (config_of_flags flags) ≠ [] ∧
     Join "," (ClusterMembers (config_of_flags flags)) = fl_ClusterMembers flags) ∧
  ∃ w', main (λ c, HttpScript.client (f c)) X509KeyPair map_order (S n) [prog] w = (Exited 1, w') ∧
    svc w' = ["/v2/stats/self"].
Proof.
  intros Hw He Hun. split.
  { intros flags. split; [apply Split_not_nil|apply Join_Split]. }
  unfold main. assert (FlagSet_Parse (default "" (head [prog])) checker_flag_defs (drop 1 [prog]) w =
    (Val (Some (defaults checker_flag_defs)), w)) as H1 by done.
  step H1. clear H1. cbn iota.
  assert (Run (λ c, HttpScript.client (f c)) X509KeyPair map_order (S n)
    (New (config_of_flags (flags_of_values (defaults checker_flag_defs))) sleep) w = (Val (Some (Some e)),
      emit (Stdout ("[ERR] " +:+ Error e)) (set_svc ["/v2/stats/self"] w))) as H1.
  { assert (config_of_flags (flags_of_values (defaults checker_flag_defs)) = mkConfig [""] "" "" "") as -> by done.
    unfold Run. cbn [config New ClusterMembers length CA Cert Key]. rewrite bool_decide_false by done.
    assert (newHttpClient X509KeyPair "" "" "" w = (Val (Some (mkClient None), None), w)) as H1 by done.
    step H1. clear H1. cbn iota beta. cbn [default rounds].
    assert (round (λ c, HttpScript.client (f c)) map_order (mkClient None) (New (mkConfig [""] "" "" "") sleep) w =
      (Val (Some e), emit (Stdout ("[ERR] " +:+ Error e)) (set_svc ["/v2/stats/self"] w))) as H1.
    { unfold round. cbn [config New ClusterMembers member_loop].
      pose proof (leaderFromSelf_run f (mkClient None) "" w) as H1. rewrite Hw in H1. cbn [length] in H1.
      change ("" +:+ "/v2/stats/self") with "/v2/stats/self" in H1. rewrite He in H1.
      cbn [self_result] in H1. rewrite Hun in H1. unfold asked in H1. rewrite Hw in H1.
      unfold mbind, M_bind. rewrite H1. done. }
    by step H1. }
  step H1. eexists. split; [reflexivity|]. done.
Qed.

(** ** Witnesses *)

Module CheckerWitness.
Definition self_json (id : string) : string :=
  single_quoted ("{'leaderInfo': {'leader': '" +:+ id +:+ "'}}").
Definition members_json : string := single_quoted
  "{'members': [{'id': 'a', 'clientURLs': ['http://a:4001']}, {'id': 'b', 'clientURLs': ['http://b:4001']}]}".
Definition ok (body : string) : error + Response := inr (mkResponse 200 body None).
Definition down : error := ErrorString "dial tcp 10.0.0.3:4001: connection refused".
(** Nodes [http://a] and [http://b] name [ida] and [idb], others are down. *)
Definition f (ida idb : string) (n : nat) (url : string) : error + Response :=
  if bool_decide (url = "http://a/v2/stats/self") then ok (self_json ida)
  else if bool_decide (url = "http://b/v2/stats/self") then ok (self_json idb)
  else if HasPrefix url "http://a/" || HasPrefix url "http://b/" then ok members_json
  else inl down.
Definition cfg : Config := mkConfig ["http://a"; "http://b"; "http://c"] "" "" "".
Definition w : World HttpScript.state := mkWorld ∅ ∅ permissive_kernel [] [].
End CheckerWitness.

Lemma round_detects_split_witness :
  ∃ e w', round (λ _, HttpScript.client (CheckerWitness.f "a" "b")) map_to_list
      (mkClient None) (New CheckerWitness.cfg sleep) CheckerWitness.w = (Val (Some e), w') ∧
    ∃ urls, urls ≡ₚ ["http://a:4001"; "http://b:4001"] ∧
      e = ErrorString ("more than one leader exists: " +:+ Sprintf_v urls).
Proof.
  destruct (round_detects_split (λ _, CheckerWitness.f "a" "b") map_to_list (mkClient None)
    CheckerWitness.cfg [("a", "http://a:4001"); ("b", "http://b:4001"); ("", "")] CheckerWitness.w
    ltac:(intros m; reflexivity) ltac:(by vm_compute)) as ([e|]&w'&Hr&_&_&Hnone&Hsome).
  - exists e, w'. split; [exact Hr|]. destruct (Hsome e eq_refl) as (urls&Hp&He).
    exists urls. split; [|exact He]. rewrite Hp. by vm_compute.
  - exfalso. specialize (proj1 Hnone eq_refl ("a", "http://a:4001") ("b", "http://b:4001")
      ltac:(set_solver) ltac:(set_solver) ltac:(done) ltac:(done)). done.
Defined.

Lemma round_stops_at_failure_witness :
  ∃ w', round (λ _, HttpScript.client (λ _ url,
      if HasPrefix url "http://b" then inl (ErrorString "timeout")
      else CheckerWitness.f "a" "a" 0 url)) map_to_list
      (mkClient None) (New CheckerWitness.cfg sleep) CheckerWitness.w =
    (Val (Some (ErrorString "timeout")), w').
Proof.
  destruct (round_stops_at_failure (λ _ _ url,
      if HasPrefix url "http://b" then inl (ErrorString "timeout")
      else CheckerWitness.f "a" "a" 0 url) map_to_list (mkClient None) CheckerWitness.cfg
    ["http://a"] "http://b" ["http://c"] [("a", "http://a:4001")] (ErrorString "timeout")
    CheckerWitness.w eq_refl ltac:(by vm_compute) ltac:(by vm_compute)) as (w'&Hr&_).
  exists w'. exact Hr.
Defined.

Lemma Run_healthy_forever_witness :
  ∃ w', Run (λ _, HttpScript.client (CheckerWitness.f "a" "a")) (λ _ _, None) map_to_list 3
      (New CheckerWitness.cfg sleep) CheckerWitness.w = (Val None, w') ∧ length (svc w') = 18%nat.
Proof.
  destruct (Run_healthy_forever (λ _, CheckerWitness.f "a" "a") map_to_list (λ _ _, None) 3
    CheckerWitness.cfg (mkClient None) CheckerWitness.w CheckerWitness.w
    ltac:(intros m; reflexivity) ltac:(done) eq_refl) as (w'&Hr&Hs&_).
  - intros k. exists [("a", "http://a:4001"); ("a", "http://a:4001"); ("", "")].
    split; [by vm_compute|]. intros [i u] [j v] Hr Hr' Hi Hj.
    rewrite !elem_of_cons, elem_of_nil in Hr, Hr'. simpl in *. naive_solver.
  - exists w'. split; [exact Hr|]. rewrite Hs. by vm_compute.
Defined.

Lemma Run_never_nil_witness :
  ∃ r w', Run (λ _, HttpScript.client (CheckerWitness.f "a" "b")) (λ _ _, None) map_to_list 5
      (New CheckerWitness.cfg sleep) CheckerWitness.w = (Val r, w') ∧ (r = None ∨ ∃ e, r = Some (Some e)).
Proof.
  destruct (Run (λ _, HttpScript.client (CheckerWitness.f "a" "b")) (λ _ _, None) map_to_list 5
    (New CheckerWitness.cfg sleep) CheckerWitness.w) as [[r|s|k] w'] eqn:Hr; [|by vm_compute in Hr..].
  exists r, w'. split; [done|].
  exact (Run_never_nil (λ _, CheckerWitness.f "a" "b") map_to_list (λ _ _, None) 5
    CheckerWitness.cfg CheckerWitness.w w' r Hr).
Defined.

Lemma main_without_members_witness :
  ∃ w', main (λ _, HttpScript.client (λ _ _, inl (ErrorString "unsupported protocol scheme")))
      (λ _ _, None) map_to_list 1 ["checker"] CheckerWitness.w = (Exited 1, w').
Proof.
  destruct (main_without_members (λ _ _ _, inl (ErrorString "unsupported protocol scheme"))
    (λ _ _, None) map_to_list 0 (ErrorString "unsupported protocol scheme") "checker"
    CheckerWitness.w eq_refl eq_refl eq_refl) as [_ (w'&Hr&_)].
  exists w'. exact Hr.
Defined.
