(* ===== verification/CheckerCluster.v ===== *)
(** * The checker in front of a cluster

    [etcd-consistency-checker] against nodes that know the members of their
    cluster and its leader, as etcd's HTTP API tells them: [/v2/stats/self] and
    [/v2/members] of a node that answers are JSON, a node that is down refuses
    the connection or cannot be found.  What a node knows is the parameter; at
    the end it changes, or there is no leader. *)
From S2P Require Import Prelude GoStrings GoPath Machine GoFlag GoJson GoHttp Checker.

Open Scope Z_scope.

(** ** Nodes *)

(** What a node knows: the members of its cluster and the id of their leader. *)
Record view := mkView { v_members : list member; v_leader : string }.

(** The URL of the leader, if it is one of the members and has one. *)
Definition leader_URL (v : view) : option string :=
  first_match (λ m, bool_decide (ID m = v_leader v)) (v_members v) ≫= head ∘ ClientURLs.

(** There is a leader and it can be found. *)
Definition led (v : view) : Prop := v_leader v ≠ "" ∧ is_Some (leader_URL v).

(** How a node answers request number [k]; [None]: it is down. *)
Definition tells (f : nat → string → error + Response) (k : nat) (url : string) (v : option view) : Prop :=
  match v with
  | None => ∃ e e', f k (url +:+ "/v2/stats/self") = inl e ∧ unreachable e = true ∧
      f k (url +:+ "/v2/members") = inl e' ∧ unreachable e' = true
  | Some v => ∃ b s b', f k (url +:+ "/v2/stats/self") = inr (mkResponse 200 b None) ∧
      Unmarshal b (jzero : self) = (s, None) ∧ Leader (LeaderInfo s) = v_leader v ∧
      f k (url +:+ "/v2/members") = inr (mkResponse 200 b' None) ∧
      Unmarshal b' (jzero : members) = (mkmembers (v_members v), None)
  end.

(** What the checker makes of it. *)
Definition report (v : option view) : string * string :=
  match v with Some v => (v_leader v, default "" (leader_URL v)) | None => ("", "") end.

(** No two nodes name different leaders. *)
Definition one_leader (views : list (option view)) : Prop :=
  ∀ v v', Some v ∈ views → Some v' ∈ views → v_leader v = v_leader v'.

(** ** Lemmas *)

(** A node asked twice in a row.  Its leader may change in between; the members
    do not. *)
Lemma node_result_view f k url v v' :
  tells f k url (Some v) → tells f (S k) url (Some v') → v_members v' = v_members v → led v →
  node_result f k url = Val (inr (report (Some v))).
Proof.
  intros (b&s&_&H1&Hs&Hl&_) (_&_&b'&_&_&_&H2&Hm) Heq (_&u&Hu).
  unfold node_result. rewrite H1, H2. unfold self_result, url_result. cbn [BodyErr StatusCode Body].
  rewrite Hs, Hm, Hl, Heq, !(bool_decide_true (200 = StatusOK)) by done. cbn [Members].
  unfold report. rewrite Hu. unfold leader_URL in Hu.
  destruct (first_match _ (v_members v)) as [m|]; [|done]. simpl in Hu.
  destruct (ClientURLs m) as [|u' l]; [done|]. by injection Hu as ->.
Qed.

Lemma node_result_down f k url :
  tells f k url None → tells f (S k) url None → node_result f k url = Val (inr (report None)).
Proof.
  intros (e&_&H1&He&_) (_&e'&_&_&H2&He'). unfold node_result, self_result, url_result.
  by rewrite H1, H2, He, He'.
Qed.

Section static.
(** The nodes the checker is given; they do not change their views. *)
Context (f : nat → string → error + Response) (urls : list string) (views : list (option view)).
Context (Htells : ∀ k, Forall2 (tells f k) urls views).
Context (Hled : ∀ v, Some v ∈ views → led v).

Lemma reports_views k : reports f k urls = Some (report <$> views).
Proof.
  revert k. induction urls as [|u us IH] in views, Htells, Hled |- *; intros k.
  { by rewrite (Forall2_nil_inv_l _ _ (Htells 0%nat)). }
  destruct (Forall2_cons_inv_l _ _ _ _ (Htells k)) as (v&vs&_&_&->).
  assert (∀ k, tells f k u v ∧ Forall2 (tells f k) us vs) as Hall
    by (intros k'; specialize (Htells k'); by apply Forall2_cons in Htells).
  cbn [reports]. assert (node_result f k u = Val (inr (report v))) as ->.
  { destruct v as [v|].
    - apply (node_result_view f k u v v); try apply Hall; [done|]. apply Hled. set_solver.
    - apply node_result_down; apply Hall. }
  rewrite (IH vs); [done|intros k'; apply Hall|]. intros v' ?. apply Hled. set_solver.
Qed.

Lemma agree_views : agree (report <$> views) ↔ one_leader views.
Proof.
  assert (∀ v, Some v ∈ views → v_leader v ≠ "") as Hne by (intros v Hv; by destruct (Hled v Hv)).
  unfold agree, one_leader. split.
  - intros H v v' Hv Hv'. apply (H (report (Some v)) (report (Some v'))).
    + by apply list_elem_of_fmap_2.
    + by apply list_elem_of_fmap_2.
    + by apply Hne.
    + by apply Hne.
  - intros H r r' ([v|]&->&Hv)%list_elem_of_fmap ([v'|]&->&Hv')%list_elem_of_fmap; simpl; try done.
    intros _ _. by apply H.
Qed.
End static.

(** A program that ends: [main] exits with 1 once [Run] has returned an error. *)
Lemma main_exits {X} (Get : http_client → Getter X) X509KeyPair map_order n args values e (w w' : World X) :
  parse_flag_args checker_flag_defs (drop 1 args) = Parsed values [] →
  Run Get X509KeyPair map_order n (New (config_of_flags (flags_of_values values)) sleep) w =
    (Val (Some (Some e)), w') →
  main Get X509KeyPair map_order n args w = (Exited 1, emit (Stderr (Error e)) w').
Proof.
  intros Hp Hr. unfold main.
  assert (FlagSet_Parse (X := X) (default "" (head args)) checker_flag_defs (drop 1 args) w =
    (Val (Some values), w)) as H1 by (unfold FlagSet_Parse; by rewrite Hp).
  step H1. cbn iota. by step Hr.
Qed.

(** The command line that gives the checker these nodes. *)
Definition members_args (prog : string) (urls : list string) : list string :=
  [prog; "-cluster-members=" +:+ Join "," urls].

Lemma members_args_config prog urls :
  urls ≠ [] → (∀ u, u ∈ urls → has_char "," u = false) →
  ∃ values, parse_flag_args checker_flag_defs (drop 1 (members_args prog urls)) = Parsed values [] ∧
    config_of_flags (flags_of_values values) = mkConfig urls "" "" "".
Proof.
  intros Hne Hc. exists (<["cluster-members" := Join "," urls]> (defaults checker_flag_defs)). split.
  - unfold parse_flag_args, members_args. simpl drop.
    change ("-cluster-members=" +:+ Join "," urls) with
      ("-" +:+ "cluster-members" +:+ "=" +:+ Join "," urls).
    rewrite (proj1 (proj2 (proj2 (parse_args_flag checker_flag_defs "cluster-members" (Join "," urls) []
      (defaults checker_flag_defs) ltac:(by apply (bool_decide_unpack _)) eq_refl)))). done.
  - unfold config_of_flags, flags_of_values. cbn [fl_ClusterMembers fl_CA fl_Cert fl_Key].
    unfold value_of. rewrite lookup_insert_eq, !lookup_insert_ne by done. simpl default.
    by rewrite (Split_Join "," urls).
Qed.

Section watched.
Context (f : http_client → nat → string → error + Response).
Context (X509KeyPair : string → string → option error).
Context (map_order : gmap string string → list (string * string)) (Hord : visits_all map_order).
Let Get : http_client → Getter HttpScript.state := λ c, HttpScript.client (f c).
Notation W := (World HttpScript.state).
Notation plain := (mkClient None).

Context (urls : list string) (Hne : urls ≠ []) (Hcomma : ∀ u, u ∈ urls → has_char "," u = false).

(** [Run] without TLS asks with a plain client from the first round on. *)
Lemma Run_plain n (w : W) :
  Run Get X509KeyPair map_order n (New (mkConfig urls "" "" "") sleep) w =
  rounds Get map_order n plain (New (mkConfig urls "" "" "") sleep) w.
Proof.
  unfold Run. cbn [config New ClusterMembers CA Cert Key]. rewrite bool_decide_false by (by destruct urls).
  by step (eq_refl : newHttpClient (X := HttpScript.state) X509KeyPair "" "" "" w = (Val (Some plain, None), w)).
Qed.

(** Rounds in which the reports agree are followed by the rest. *)
Lemma quiet_rounds q (w : W) :
  (∀ j, (j < q)%nat → ∃ rs,
     reports (f plain) (length (svc w) + j * (2 * length urls)) urls = Some rs ∧ agree rs) →
  ∃ w' : W, svc w' = svc w ++ mjoin (replicate q (urls ≫= node_requests)) ∧
    ∀ n, rounds Get map_order (q + n) plain (New (mkConfig urls "" "" "") sleep) w =
         rounds Get map_order n plain (New (mkConfig urls "" "" "") sleep) w'.
Proof.
  revert w. induction q as [|q IH]; intros w H; simpl.
  { exists w. by rewrite app_nil_r. }
  destruct (H 0%nat) as (rs&Hrs&Hag); [lia|]. rewrite Nat.add_0_r in Hrs.
  destruct (round_run f map_order plain (mkConfig urls "" "" "") rs w Hord Hrs)
    as (r&w1&Hr&_&Hs&Hcase).
  rewrite bool_decide_true in Hcase by (by apply leaders_of_size). destruct Hcase as (->&_).
  destruct (IH w1) as (w2&Hs2&Hrest).
  { intros j Hj. destruct (H (S j)) as (rs'&Hrs'&Hag'); [lia|]. exists rs'. split; [|done].
    rewrite Hs, length_app, requests_length. cbn [ClusterMembers]. rewrite <-Hrs'. f_equal. lia. }
  exists w2. split; [by rewrite Hs2, Hs, <-app_assoc|]. intros n. unfold Get in *. step Hr. apply Hrest.
Qed.

(** A round in which they disagree ends the program. *)
Lemma split_round_exits rs prog q n (w w1 : W) :
  (∀ n, rounds Get map_order (q + n) plain (New (mkConfig urls "" "" "") sleep) w =
        rounds Get map_order n plain (New (mkConfig urls "" "" "") sleep) w1) →
  reports (f plain) (length (svc w1)) urls = Some rs → ¬ agree rs →
  ∃ leaders w', main Get X509KeyPair map_order (q + S n) (members_args prog urls) w = (Exited 1, w') ∧
    svc w' = svc w1 ++ (urls ≫= node_requests) ∧
    leaders ≡ₚ (map_to_list (leaders_of rs)).*2 ∧
    last (log w') = Some (Stderr ("more than one leader exists: " +:+ Sprintf_v leaders)).
Proof.
  intros Hq Hrs Hag.
  destruct (members_args_config prog urls Hne Hcomma) as (values&Hp&Hcfg).
  destruct (round_run f map_order plain (mkConfig urls "" "" "") rs w1 Hord Hrs)
    as (r&w'&Hr&_&Hs&Hcase).
  rewrite bool_decide_false in Hcase by (by rewrite leaders_of_size).
  destruct Hcase as (leaders&Hperm&->).
  assert (Run Get X509KeyPair map_order (q + S n) (New (config_of_flags (flags_of_values values)) sleep) w =
    (Val (Some (Some (ErrorString ("more than one leader exists: " +:+ Sprintf_v leaders)))), w')) as Hrun.
  { rewrite Hcfg, Run_plain, Hq. cbn [rounds]. unfold Get. by step Hr. }
  exists leaders. eexists. split; [by apply (main_exits _ _ _ _ _ _ _ _ _ Hp Hrun)|].
  split; [exact Hs|]. split; [exact Hperm|]. simpl. apply last_snoc.
Qed.

Context (views : list (option view)) (Htells : ∀ k, Forall2 (tells (f plain) k) urls views).
Context (Hled : ∀ v, Some v ∈ views → led v).

(** One leader: the checker watches for ever. *)
Lemma one_leader_runs n (w : W) :
  one_leader views →
  ∃ w', Run Get X509KeyPair map_order n (New (mkConfig urls "" "" "") sleep) w = (Val None, w') ∧
    svc w' = svc w ++ mjoin (replicate n (urls ≫= node_requests)).
Proof.
  intros Hone. rewrite Run_plain.
  destruct (rounds_healthy f map_order plain (mkConfig urls "" "" "") n w Hord) as (w'&Hr&_&Hs&_); [|eauto].
  intros k. exists (report <$> views). split; [by apply reports_views|by apply agree_views].
Qed.

(** Several: the first round ends it. *)
Lemma several_leaders_exit prog n (w : W) :
  ¬ one_leader views →
  ∃ leaders w', main Get X509KeyPair map_order (S n) (members_args prog urls) w = (Exited 1, w') ∧
    svc w' = svc w ++ (urls ≫= node_requests) ∧
    leaders ≡ₚ (map_to_list (leaders_of (report <$> views))).*2 ∧
    last (log w') = Some (Stderr ("more than one leader exists: " +:+ Sprintf_v leaders)).
Proof.
  intros Hone. apply (split_round_exits (report <$> views) prog 0 n w w); [done|by apply reports_views|].
  by rewrite agree_views.
Qed.

(** ** Properties *)

(** C19: in front of nodes that keep their views, each of them down or with a leader
    among its members, the checker that [main] runs for their URLs never ends if
    the nodes that are up name one leader, and asks every node twice a round;
    otherwise it exits with 1 in its first round, after it has asked every node,
    with a message that lists the URL of each leader. *)
Theorem checker_verdict prog n (w : W) :
  (one_leader views →
   ∃ w', Run Get X509KeyPair map_order n (New (mkConfig urls "" "" "") sleep) w = (Val None, w') ∧
     svc w' = svc w ++ mjoin (replicate n (urls ≫= node_requests))) ∧
  (¬ one_leader views →
   ∃ leaders w', main Get X509KeyPair map_order (S n) (members_args prog urls) w = (Exited 1, w') ∧
     svc w' = svc w ++ (urls ≫= node_requests) ∧
     leaders ≡ₚ (map_to_list (leaders_of (report <$> views))).*2 ∧
     last (log w') = Some (Stderr ("more than one leader exists: " +:+ Sprintf_v leaders))) ∧
  (∃ values, parse_flag_args checker_flag_defs (drop 1 (members_args prog urls)) = Parsed values [] ∧
     config_of_flags (flags_of_values values) = mkConfig urls "" "" "").
Proof.
  split; [by apply one_leader_runs|]. split; [by apply several_leaders_exit|].
  by apply members_args_config.
Qed.
End watched.

(** ** A node that knows no leader *)

Section leaderless.
Context (f : http_client → nat → string → error + Response).
Context (X509KeyPair : string → string → option error).
Context (map_order : gmap string string → list (string * string)) (Hord : visits_all map_order).
Let Get : http_client → Getter HttpScript.state := λ c, HttpScript.client (f c).
Notation W := (World HttpScript.state).
Notation plain := (mkClient None).

(** The request to [/v2/members] of a node that named no leader. *)
Lemma leaderless_loop url rest acc r1 r2 s ms (w : W) :
  let k := length (svc w) in
  f plain k (url +:+ "/v2/stats/self") = inr r1 → StatusCode r1 = 200 → BodyErr r1 = None →
  Unmarshal (Body r1) (jzero : self) = (s, None) → Leader (LeaderInfo s) = "" →
  f plain (S k) (url +:+ "/v2/members") = inr r2 → StatusCode r2 = 200 → BodyErr r2 = None →
  Unmarshal (Body r2) (jzero : members) = (ms, None) → (∀ x, x ∈ Members ms → ID x ≠ "") →
  let e := "unexpected status code 200 - " +:+ Body r2 in
  ∃ w', member_loop Get plain (url :: rest) acc w = (Val (inl (ErrorString e)), w') ∧
    svc w' = svc w ++ node_requests url ∧ log w' = log w ++ [Stdout ("[ERR] " +:+ e)].
Proof.
  intros k H1 Hs1 Hb1 Hu1 Hl H2 Hs2 Hb2 Hu2 Hids e.
  assert (self_result (inr r1) = inr "") as Hself.
  { unfold self_result. by rewrite Hb1, Hs1, Hu1, Hl. }
  assert (url_result "" (inr r2) = Val (inl (ErrorString e))) as Hurl.
  { unfold url_result, unexpected_status. rewrite Hb2, Hs2, Hu2. rewrite (bool_decide_true (200 = StatusOK)) by done.
    cbn iota. rewrite (proj2 (first_match_None _ _)); [done|].
    intros x Hx. apply bool_decide_eq_false. by apply Hids. }
  cbn [member_loop]. pose proof (leaderFromSelf_run f plain url w) as Hr1. fold k in Hr1.
  rewrite H1, Hself in Hr1. step Hr1. cbn iota beta. clear Hr1.
  pose proof (getNodeURL_run f plain url "" (asked [url +:+ "/v2/stats/self"] w)) as Hr2.
  cbn [asked svc set_svc] in Hr2. rewrite length_app, Nat.add_comm in Hr2. cbn [length Nat.add] in Hr2.
  fold k in Hr2. rewrite H2, Hurl in Hr2. step Hr2. cbn iota beta.
  eexists. split; [reflexivity|]. split; [|done]. simpl. by rewrite <-app_assoc.
Qed.

(** C20: a node that answers but knows no leader (an election is going on) ends
    the checker: [/v2/members] is searched for the empty id, no member has it,
    and [main] prints and exits with 1 and the error [unexpected status code
    200] although the node answered as it should; the nodes after it are not
    asked.  The nodes before it, which may know a leader or be down, have been
    asked and passed over; a node that is down knows no leader either, but a
    cluster whose every node is down is watched for ever. *)
Theorem no_leader_is_an_error prog n before (views : list (option view)) url after r1 r2 s ms (w : W) :
  (∀ u, u ∈ before ++ url :: after → has_char "," u = false) →
  (∀ k, Forall2 (tells (f plain) k) before views) → (∀ v, Some v ∈ views → led v) →
  let k := (length (svc w) + 2 * length before)%nat in
  f plain k (url +:+ "/v2/stats/self") = inr r1 → StatusCode r1 = 200 → BodyErr r1 = None →
  Unmarshal (Body r1) (jzero : self) = (s, None) → Leader (LeaderInfo s) = "" →
  f plain (S k) (url +:+ "/v2/members") = inr r2 → StatusCode r2 = 200 → BodyErr r2 = None →
  Unmarshal (Body r2) (jzero : members) = (ms, None) → (∀ x, x ∈ Members ms → ID x ≠ "") →
  let e := "unexpected status code 200 - " +:+ Body r2 in
  (∃ w', main Get X509KeyPair map_order (S n) (members_args prog (before ++ url :: after)) w = (Exited 1, w') ∧
     svc w' = svc w ++ (before ≫= node_requests) ++ [url +:+ "/v2/stats/self"; url +:+ "/v2/members"] ∧
     log w' = log w ++ [Stdout ("[ERR] " +:+ e); Stderr e]) ∧
  ∀ g : http_client → nat → string → error + Response,
    (∀ k u, u ∈ before ++ url :: after → tells (g plain) k u None) →
    ∃ w', Run (λ c, HttpScript.client (g c)) X509KeyPair map_order n
        (New (mkConfig (before ++ url :: after) "" "" "") sleep) w = (Val None, w') ∧
      svc w' = svc w ++ mjoin (replicate n ((before ++ url :: after) ≫= node_requests)).
Proof.
  intros Hcomma Htells Hled k H1 Hs1 Hb1 Hu1 Hl H2 Hs2 Hb2 Hu2 Hids e.
  assert (before ++ url :: after ≠ []) as Hne by (by destruct before).
  split.
  - destruct (members_args_config prog _ Hne Hcomma) as (values&Hp&Hcfg).
    pose proof (member_loop_reports f plain before (url :: after) ∅ (report <$> views) w
      (reports_views (f plain) before views Htells Hled _)) as Hloop.
    assert (length (svc (asked (before ≫= node_requests) w)) = k) as Hk
      by (simpl; by rewrite length_app, requests_length).
    destruct (leaderless_loop url after (foldl add_leader ∅ (report <$> views)) r1 r2 s ms
      (asked (before ≫= node_requests) w)) as (w'&Hr&Hsvc&Hlog); try done; [by rewrite Hk..|].
    unfold Get in Hr. rewrite Hr in Hloop. eexists. split.
    { eapply main_exits; [exact Hp|]. unfold Get. rewrite Hcfg, Run_plain by done. cbn [rounds].
      assert (round Get map_order plain (New (mkConfig (before ++ url :: after) "" "" "") sleep) w =
        (Val (Some (ErrorString e)), w')) as Hround by (unfold round; by step Hloop).
      by step Hround. }
    simpl. rewrite Hsvc, Hlog. simpl. by rewrite <-!app_assoc.
  - intros g Hdown. set (urls := before ++ url :: after) in *.
    destruct (one_leader_runs g X509KeyPair map_order Hord urls Hne Hcomma (replicate (length urls) None)) with (n := n) (w := w)
      as (w'&Hr&Hs); [..|by exists w'].
    + intros k'. apply Forall2_same_length_lookup_2; [by rewrite length_replicate|].
      intros i u v Hu [-> _]%lookup_replicate. apply Hdown. by eapply list_elem_of_lookup_2.
    + by intros v [? _]%elem_of_replicate.
    + by intros v v' [? _]%elem_of_replicate.
Qed.
End leaderless.

(** ** A leader that changes *)

Section changing.
Context (f : http_client → nat → string → error + Response).
Context (X509KeyPair : string → string → option error).
Context (map_order : gmap string string → list (string * string)) (Hord : visits_all map_order).
Let Get : http_client → Getter HttpScript.state := λ c, HttpScript.client (f c).
Notation W := (World HttpScript.state).
Notation plain := (mkClient None).
Context (urls : list string) (Hne : urls ≠ []) (Hcomma : ∀ u, u ∈ urls → has_char "," u = false).

(** All nodes answer, know the same members and, at request [k], the leader
    [lead k]. *)
Context (ms : list member) (l1 l2 : string) (change : nat).
Let lead (k : nat) : string := if (k <? change)%nat then l1 else l2.
Context (Htells : ∀ k url, url ∈ urls → tells (f plain) k url (Some (mkView ms (lead k)))).
Context (Hl1 : led (mkView ms l1)) (Hl2 : led (mkView ms l2)) (Hl : l1 ≠ l2).

(** What a leader is reported as. *)
Let as_leader (l : string) : string * string := report (Some (mkView ms l)).

(** Node [i] of a round that begins at request [k] is asked for the leader at
    request [k + 2 * i]. *)
Lemma reports_changing k us :
  us ⊆ urls →
  reports (f plain) k us = Some ((λ i, as_leader (lead (k + 2 * i))) <$> seq 0 (length us)).
Proof.
  assert (∀ k, led (mkView ms (lead k))) as Hled by (intros k'; unfold lead; by destruct (_ <? _)%nat).
  revert k. induction us as [|u us IH]; intros k Hsub; [done|]. cbn [reports length seq].
  assert (u ∈ urls) as Hu by (apply Hsub; by left).
  rewrite (node_result_view _ k u (mkView ms (lead k)) (mkView ms (lead (S k)))); [|by apply Htells..|done|done].
  rewrite (IH (S (S k))) by (intros x Hx; apply Hsub; by right).
  rewrite fmap_cons, Nat.add_0_r, <-fmap_S_seq, <-list_fmap_compose. do 2 f_equal.
  apply list_fmap_ext. intros i j _. simpl. do 2 f_equal. lia.
Qed.

Lemma agree_changing k n :
  agree ((λ i, as_leader (lead (k + 2 * i))) <$> seq 0 n) ↔ ¬ (k < change ≤ k + 2 * (n - 1))%nat.
Proof.
  split.
  - intros Hag Hc. apply Hl.
    assert ((as_leader l1).1 = (as_leader l2).1) as ?; [|done].
    apply Hag; [| |apply Hl1|apply Hl2]; apply list_elem_of_fmap.
    + exists 0%nat. split; [|apply elem_of_seq; lia]. unfold lead. by rewrite (proj2 (Nat.ltb_lt _ _)) by lia.
    + exists (n - 1)%nat. split; [|apply elem_of_seq; lia]. unfold lead.
      by rewrite (proj2 (Nat.ltb_ge _ _)) by lia.
  - intros Hc r r' (i&->&Hi%elem_of_seq)%list_elem_of_fmap (j&->&Hj%elem_of_seq)%list_elem_of_fmap _ _.
    assert (lead (k + 2 * i) = lead (k + 2 * j)) as ->; [|done]. unfold lead.
    destruct (Nat.ltb_spec (k + 2 * i) change), (Nat.ltb_spec (k + 2 * j) change); try done; lia.
Qed.

(** The map of the leaders reported. *)
Lemma leaders_of_leds (ls : list string) (acc : gmap string string) l :
  (∀ l, l ∈ ls → led (mkView ms l)) →
  foldl add_leader acc (as_leader <$> ls) !! l =
  if bool_decide (l ∈ ls) then leader_URL (mkView ms l) else acc !! l.
Proof.
  revert acc. induction ls as [|x ls IH]; intros acc Hled; simpl; [done|].
  rewrite IH by (intros; apply Hled; by right).
  destruct (Hled x) as [Hx (u&Hu)]; [by left|]. simpl in Hx.
  assert (add_leader acc (as_leader x) = <[x := u]> acc) as ->.
  { unfold add_leader, as_leader, report. cbn [fst snd v_leader]. by rewrite Hu, bool_decide_false. }
  destruct (decide (l ∈ ls)) as [Hin|Hin].
  { by rewrite !bool_decide_true by (try done; by right). }
  rewrite (bool_decide_false (l ∈ ls)) by done. destruct (decide (l = x)) as [->|Hlx].
  - rewrite lookup_insert_eq, bool_decide_true by (by left). done.
  - rewrite lookup_insert_ne, bool_decide_false by (rewrite ?not_elem_of_cons; done). done.
Qed.

Lemma leaders_changing k n :
  (k < change ≤ k + 2 * (n - 1))%nat →
  (map_to_list (leaders_of ((λ i, as_leader (lead (k + 2 * i))) <$> seq 0 n))).*2 ≡ₚ
  [(as_leader l1).2; (as_leader l2).2].
Proof.
  intros Hc. destruct Hl1 as [_ (u1&Hu1)], Hl2 as [_ (u2&Hu2)].
  rewrite (list_fmap_compose (λ i, lead (k + 2 * i)) as_leader).
  set (ls := (λ i, lead (k + 2 * i)) <$> seq 0 n).
  assert (∀ l, l ∈ ls ↔ l = l1 ∨ l = l2) as Hls.
  { intros l. unfold ls. rewrite list_elem_of_fmap. split.
    - intros (i&->&_). unfold lead. destruct (_ <? _)%nat; auto.
    - intros [-> | ->]; [exists 0%nat|exists (n - 1)%nat]; (split; [|apply elem_of_seq; lia]); unfold lead.
      + by rewrite (proj2 (Nat.ltb_lt _ _)) by lia.
      + by rewrite (proj2 (Nat.ltb_ge _ _)) by lia. }
  assert (leaders_of (as_leader <$> ls) = <[l1 := u1]> {[l2 := u2]}) as ->.
  { apply map_eq. intros l. unfold leaders_of. rewrite leaders_of_leds by (intros l' [-> | ->]%Hls; done).
    destruct (decide (l = l1)) as [->|H1].
    { rewrite bool_decide_true, lookup_insert_eq by (apply Hls; auto). done. }
    rewrite lookup_insert_ne by done. destruct (decide (l = l2)) as [->|H2].
    - rewrite bool_decide_true, lookup_singleton_eq by (apply Hls; auto). done.
    - rewrite bool_decide_false, lookup_empty, lookup_singleton_ne by (rewrite ?Hls; naive_solver). done. }
  rewrite map_to_list_insert by (by apply lookup_singleton_ne). rewrite map_to_list_singleton.
  unfold as_leader, report. by rewrite Hu1, Hu2.
Qed.

(** C21: the requests of a round are not made at one time.  When the leader of a
    sound cluster, on which all nodes agree at every moment, changes before
    request number [change], the checker asks on for ever if the change falls
    between two rounds or after the last node of a round has named its leader;
    if it falls anywhere else, between the first node's answer of a round and
    the last node's, the checker exits with 1 at the end of that round, with the
    message that lists the old and the new leader as two leaders. *)
Theorem leader_change_ends_checker prog n (w : W) :
  svc w = [] →
  let per_round := (2 * length urls)%nat in
  let q := (change / per_round)%nat in
  let URL l := default "" (leader_URL (mkView ms l)) in
  ((0 < change mod per_round ≤ 2 * (length urls - 1))%nat →
   ∃ leaders w', main Get X509KeyPair map_order (q + S n) (members_args prog urls) w = (Exited 1, w') ∧
     svc w' = mjoin (replicate (S q) (urls ≫= node_requests)) ∧
     leaders ≡ₚ [URL l1; URL l2] ∧
     last (log w') = Some (Stderr ("more than one leader exists: " +:+ Sprintf_v leaders))) ∧
  (¬ (0 < change mod per_round ≤ 2 * (length urls - 1))%nat →
   ∃ w', Run Get X509KeyPair map_order n (New (mkConfig urls "" "" "") sleep) w = (Val None, w') ∧
     svc w' = mjoin (replicate n (urls ≫= node_requests))).
Proof.
  intros Hw per_round q URL.
  assert (0 < length urls)%nat as Hlen by (destruct urls; simpl; [done|lia]).
  pose proof (Nat.div_mod_eq change per_round) as Hdiv.
  pose proof (Nat.mod_upper_bound change per_round ltac:(unfold per_round; lia)) as Hmod. fold q in Hdiv.
  assert (∀ q' (w : W), svc w = [] →
    (∀ j, (j < q')%nat → ¬ (j * per_round < change ≤ j * per_round + 2 * (length urls - 1))%nat) →
    ∃ w' : W, svc w' = mjoin (replicate q' (urls ≫= node_requests)) ∧
      ∀ n, rounds Get map_order (q' + n) plain (New (mkConfig urls "" "" "") sleep) w =
           rounds Get map_order n plain (New (mkConfig urls "" "" "") sleep) w') as Hquiet.
  { intros q' w0 Hw0 Hj. destruct (quiet_rounds f map_order Hord urls q' w0) as (w'&Hs&Hr).
    - intros j Hjq. eexists. rewrite reports_changing by done. split; [done|].
      rewrite agree_changing, Hw0. by apply Hj.
    - exists w'. by rewrite Hs, Hw0. }
  split.
  - intros Hc. destruct (Hquiet q w Hw) as (w1&Hs1&Hr1).
    { intros j Hj. nia. }
    assert (length (svc w1) = q * per_round)%nat as Hk.
    { rewrite Hs1. clear. induction q as [|q IH]; simpl; [done|]. by rewrite length_app, requests_length, IH. }
    destruct (split_round_exits f X509KeyPair map_order Hord urls Hne Hcomma _ prog q n w w1 Hr1
      (reports_changing (length (svc w1)) urls ltac:(done))) as (leaders&w'&Hr&Hs&Hp&Hlast).
    { rewrite agree_changing, Hk. intros Hag. apply Hag. lia. }
    exists leaders, w'. split; [exact Hr|]. split; [|split; [|exact Hlast]].
    + rewrite Hs, Hs1, replicate_S_end, join_app. simpl. by rewrite app_nil_r.
    + rewrite Hp, leaders_changing by (rewrite Hk; lia). done.
  - intros Hc. destruct (Hquiet n w Hw) as (w'&Hs&Hr).
    { intros j _ Hj. apply Hc. unfold per_round in *.
      rewrite <-(Nat.mod_unique change (2 * length urls) j (change - j * (2 * length urls))); lia. }
    exists w'. split; [|done]. unfold Get in *. rewrite Run_plain by done. specialize (Hr 0%nat). by rewrite Nat.add_0_r in Hr.
Qed.
End changing.

(** ** Witnesses *)

Module CheckerClusterWitness.
Definition ms : list member := [mkmember ["http://a:4001"] "a"; mkmember ["http://b:4001"] "b"].
Definition urls : list string := ["http://a"; "http://b"; "http://c"].
(** The third node is down. *)
Definition views (ida idb : string) : list (option view) :=
  [Some (mkView ms ida); Some (mkView ms idb); None].

Lemma a_tells ida idb k : Unmarshal (CheckerWitness.self_json ida) (jzero : self) = (mkself (mkleader ida), None) →
  tells (CheckerWitness.f ida idb) k "http://a" (Some (mkView ms ida)).
Proof.
  intros H. exists (CheckerWitness.self_json ida), (mkself (mkleader ida)), CheckerWitness.members_json.
  by split_and!.
Qed.
Lemma b_tells ida idb k : Unmarshal (CheckerWitness.self_json idb) (jzero : self) = (mkself (mkleader idb), None) →
  tells (CheckerWitness.f ida idb) k "http://b" (Some (mkView ms idb)).
Proof.
  intros H. exists (CheckerWitness.self_json idb), (mkself (mkleader idb)), CheckerWitness.members_json.
  by split_and!.
Qed.

Lemma nodes_tell ida idb k :
  ida ∈ ["a"; "b"] → idb ∈ ["a"; "b"] → Forall2 (tells (CheckerWitness.f ida idb) k) urls (views ida idb).
Proof.
  assert (∀ i, i ∈ ["a"; "b"] → Unmarshal (CheckerWitness.self_json i) (jzero : self) =
    (mkself (mkleader i), None)) as H
    by (apply Forall_forall; repeat (apply Forall_cons; split; [by vm_compute|]); constructor).
  intros Ha Hb. apply Forall2_cons. split; [by apply a_tells, H|].
  apply Forall2_cons. split; [by apply b_tells, H|].
  apply Forall2_cons. split; [by exists CheckerWitness.down, CheckerWitness.down|constructor].
Qed.

Lemma all_led ida idb : ida ∈ ["a"; "b"] → idb ∈ ["a"; "b"] → ∀ v, Some v ∈ views ida idb → led v.
Proof.
  assert (∀ i, i ∈ ["a"; "b"] → led (mkView ms i)) as H
    by (apply Forall_forall; repeat (apply Forall_cons; split; [by split; [|eexists]|]); constructor).
  intros Ha Hb v Hv. unfold views in Hv. rewrite !elem_of_cons, elem_of_nil in Hv.
  destruct Hv as [[= ->]|[[= ->]|[?|[]]]]; [by apply H..|done].
Qed.
End CheckerClusterWitness.

Lemma checker_verdict_witness :
  (∃ w', Run (λ c, HttpScript.client (CheckerWitness.f "b" "b")) (λ _ _, None) map_to_list 7
     (New (mkConfig CheckerClusterWitness.urls "" "" "") sleep) CheckerWitness.w = (Val None, w')) ∧
  (∃ w', main (λ c, HttpScript.client (CheckerWitness.f "a" "b")) (λ _ _, None) map_to_list 1
     ["checker"; "-cluster-members=http://a,http://b,http://c"] CheckerWitness.w = (Exited 1, w')).
Proof.
  split.
  - destruct (checker_verdict (λ _, CheckerWitness.f "b" "b") (λ _ _, None) map_to_list
      ltac:(by intros m) CheckerClusterWitness.urls ltac:(done)
      ltac:(apply Forall_forall; by repeat constructor) (CheckerClusterWitness.views "b" "b")
      ltac:(intros k; apply CheckerClusterWitness.nodes_tell; set_solver)
      ltac:(apply CheckerClusterWitness.all_led; set_solver) "checker" 7 CheckerWitness.w)
      as [Hrun _].
    destruct Hrun as (w'&Hr&_); [|by exists w'].
    intros v v' Hv Hv'. unfold CheckerClusterWitness.views in *.
    rewrite !elem_of_cons, elem_of_nil in Hv, Hv'.
    by destruct Hv as [[= ->]|[[= ->]|[?|[]]]], Hv' as [[= ->]|[[= ->]|[?|[]]]].
  - destruct (checker_verdict (λ _, CheckerWitness.f "a" "b") (λ _ _, None) map_to_list
      ltac:(by intros m) CheckerClusterWitness.urls ltac:(done)
      ltac:(apply Forall_forall; by repeat constructor) (CheckerClusterWitness.views "a" "b")
      ltac:(intros k; apply CheckerClusterWitness.nodes_tell; set_solver)
      ltac:(apply CheckerClusterWitness.all_led; set_solver) "checker" 0 CheckerWitness.w)
      as (_&Hexit&_).
    destruct Hexit as (leaders&w'&Hr&_); [|by exists w'].
    intros Hone. discriminate (Hone (mkView CheckerClusterWitness.ms "a")
      (mkView CheckerClusterWitness.ms "b") ltac:(by left) ltac:(by right; left)).
Defined.

Module LeaderChangeWitness.
Definition f (change : nat) (c : http_client) (k : nat) : string → error + Response :=
  let l := if (k <? change)%nat then "a" else "b" in CheckerWitness.f l l k.

Lemma change_tells change k url :
  url ∈ ["http://a"; "http://b"] →
  tells (f change (mkClient None)) k url
    (Some (mkView CheckerClusterWitness.ms (if (k <? change)%nat then "a" else "b"))).
Proof.
  set (l := if (k <? change)%nat then "a" else "b").
  assert (Unmarshal (CheckerWitness.self_json l) (jzero : self) = (mkself (mkleader l), None)) as Hl
    by (unfold l; destruct (k <? change)%nat; by vm_compute).
  pose proof (CheckerClusterWitness.a_tells l l k Hl) as Ha.
  pose proof (CheckerClusterWitness.b_tells l l k Hl) as Hb.
  rewrite !elem_of_cons, elem_of_nil. intros [->|[->|[]]]; [exact Ha|exact Hb].
Qed.
End LeaderChangeWitness.

Lemma leader_change_ends_checker_witness :
  (∃ leaders w', main (λ c, HttpScript.client (LeaderChangeWitness.f 6 c)) (λ _ _, None) map_to_list 3
     ["checker"; "-cluster-members=http://a,http://b"] CheckerWitness.w = (Exited 1, w') ∧
     leaders ≡ₚ ["http://a:4001"; "http://b:4001"] ∧
     last (log w') = Some (Stderr ("more than one leader exists: " +:+ Sprintf_v leaders))) ∧
  (∃ w', Run (λ c, HttpScript.client (LeaderChangeWitness.f 7 c)) (λ _ _, None) map_to_list 9
     (New (mkConfig ["http://a"; "http://b"] "" "" "") sleep) CheckerWitness.w = (Val None, w')).
Proof.
  assert (led (mkView CheckerClusterWitness.ms "a")) as Ha by (split; [done|by eexists]).
  assert (led (mkView CheckerClusterWitness.ms "b")) as Hb by (split; [done|by eexists]).
  assert (∀ u, u ∈ ["http://a"; "http://b"] → has_char "," u = false) as Hc
    by (apply Forall_forall; by repeat constructor).
  split.
  - destruct (leader_change_ends_checker (LeaderChangeWitness.f 6) (λ _ _, None) map_to_list ltac:(by intros m)
      ["http://a"; "http://b"] ltac:(done) Hc CheckerClusterWitness.ms "a" "b" 6
      (LeaderChangeWitness.change_tells 6) Ha Hb ltac:(done) "checker" 1 CheckerWitness.w eq_refl) as [Hexit _].
    destruct Hexit as (leaders&w'&Hr&_&Hp&Hl); [by apply (bool_decide_unpack _); vm_compute|].
    exists leaders, w'. split; [exact Hr|]. split; [exact Hp|exact Hl].
  - destruct (leader_change_ends_checker (LeaderChangeWitness.f 7) (λ _ _, None) map_to_list ltac:(by intros m)
      ["http://a"; "http://b"] ltac:(done) Hc CheckerClusterWitness.ms "a" "b" 7
      (LeaderChangeWitness.change_tells 7) Ha Hb ltac:(done) "checker" 9 CheckerWitness.w eq_refl) as [_ Hrun].
    destruct Hrun as (w'&Hr&_); [by apply (bool_decide_unpack _); vm_compute|]. by exists w'.
Defined.

(** The second of three nodes knows no leader. *)
Lemma no_leader_is_an_error_witness :
  ∃ w', main (λ _, HttpScript.client (CheckerWitness.f "a" "")) (λ _ _, None) map_to_list 1
      ["checker"; "-cluster-members=http://a,http://b,http://c"] CheckerWitness.w = (Exited 1, w') ∧
    log w' = [Stdout ("[ERR] unexpected status code 200 - " +:+ CheckerWitness.members_json);
              Stderr ("unexpected status code 200 - " +:+ CheckerWitness.members_json)] ∧
    length (svc w') = 4%nat.
Proof.
  destruct (no_leader_is_an_error (λ _, CheckerWitness.f "a" "") (λ _ _, None) map_to_list
    ltac:(by intros m) "checker" 0 ["http://a"] [Some (mkView CheckerClusterWitness.ms "a")] "http://b" ["http://c"]
    (mkResponse 200 (CheckerWitness.self_json "") None)
    (mkResponse 200 CheckerWitness.members_json None) (mkself (mkleader ""))
    (mkmembers CheckerClusterWitness.ms) CheckerWitness.w) as [(w'&Hr&Hs&Hl) _]; try done.
  - apply Forall_forall. by repeat constructor.
  - intros k. apply Forall2_cons. split; [|constructor].
    apply CheckerClusterWitness.a_tells. by vm_compute.
  - intros v [=->]%list_elem_of_singleton. by split; [|eexists].
  - refine (proj1 (Forall_forall (λ x, ID x ≠ "") _) _). by repeat constructor.
  - exists w'. split; [exact Hr|]. split; [exact Hl|]. by rewrite Hs.
Defined.
