(* ===== verification/SplitBrain.v ===== *)
(** * A node that is cut off, and what the checker sees

    [etcdfab] on the hosts of a cluster, one of which loses its connection to the
    others and is stopped and started again meanwhile, and
    [etcd-consistency-checker] in front of all of them: the scenario of
    [acceptance-tests/deploy/split_brain_one_leader_test.go].  What the cut-off
    host can reach is a service state of its own, in which nobody answers. *)
From S2P Require Import Prelude GoStrings GoPath Machine GoJson GoHttp Checker CheckerCluster.
From S2P Require Import Delay Config Client Sync Cluster Application Lifecycle LifecycleSpec Deployment.
From S2P Require Import DeploymentSpec.

Open Scope Z_scope.

(** ** The leaders of a round *)

(** If every id is reported with one URL, the leaders map holds the reports. *)
Lemma lookup_leaders rs i u :
  (∀ r, r ∈ rs → r.1 ≠ "") → (∀ r r', r ∈ rs → r' ∈ rs → r.1 = r'.1 → r = r') →
  leaders_of rs !! i = Some u ↔ (i, u) ∈ rs.
Proof.
  induction rs as [|[j v] rs IH] using rev_ind; intros Hne Hfun.
  { unfold leaders_of. simpl. rewrite lookup_empty. set_solver. }
  unfold leaders_of in *. rewrite foldl_app. simpl. unfold add_leader at 1. simpl.
  rewrite bool_decide_false by (apply (Hne (j, v)); set_solver). simpl.
  rewrite elem_of_app, list_elem_of_singleton, lookup_insert_Some, IH by set_solver. split.
  - intros [[-> ->]|[_ ?]]; [by right|by left].
  - intros [Hin|[= -> ->]]; [|by left]. destruct (decide (j = i)) as [->|]; [|by right].
    left. split; [done|]. assert ((i, v) = (i, u)) as [=]; [apply Hfun; set_solver|done].
Qed.

Lemma two_leaders rs a b :
  a ∈ rs → b ∈ rs → (∀ r, r ∈ rs → r = a ∨ r = b) → a.1 ≠ "" → b.1 ≠ "" → a.1 ≠ b.1 →
  map_to_list (leaders_of rs) ≡ₚ [a; b].
Proof.
  intros Ha Hb Hall Hane Hbne Hne. apply NoDup_Permutation.
  - apply NoDup_map_to_list.
  - apply NoDup_cons. split; [intros ->%list_elem_of_singleton; done|apply NoDup_singleton].
  - intros [i u]. rewrite elem_of_map_to_list, lookup_leaders.
    + rewrite !elem_of_cons, elem_of_nil. split; [intros []%Hall; auto|].
      intros [->|[->|[]]]; done.
    + intros r [->| ->]%Hall; done.
    + intros r r' [->| ->]%Hall [->| ->]%Hall Heq; congruence.
Qed.

(** ** etcd's API *)

Definition api_member (m : RawMember) : member := mkmember (raw_ClientURLs m) (raw_ID m).

(** What a node of a cluster knows. *)
Definition knows (ms : list RawMember) (lead : RawMember) : view :=
  mkView (api_member <$> ms) (raw_ID lead).

Lemma leader_URL_knows ms lead :
  lead ∈ ms → NoDup (raw_ID <$> ms) → leader_URL (knows ms lead) = head (raw_ClientURLs lead).
Proof.
  unfold leader_URL, knows, first_match. cbn [v_members v_leader].
  induction ms as [|m ms IH]; [set_solver|]. csimpl. intros Hin [Hnot Hnd]%NoDup_cons.
  case_bool_decide as Heq; simpl.
  - apply elem_of_cons in Hin as [->|Hin]; [done|].
    exfalso. apply Hnot. rewrite Heq. by apply list_elem_of_fmap_2.
  - apply elem_of_cons in Hin as [->|Hin]; [done|]. by apply IH.
Qed.

Lemma report_self self :
  report (Some (knows [self] self)) = (raw_ID self, default "" (head (raw_ClientURLs self))).
Proof.
  unfold report. rewrite leader_URL_knows; [done|by left|apply NoDup_singleton].
Qed.

Section split.
Context {R T C : Type} (disableDelay : string) (lib : CoreOS R T C)
  (etcd : bool → list string → R → R) `{!EtcdService lib etcd}.
Context (X509KeyPair : string → string → option error).
Context (map_order : gmap string string → list (string * string)) (Hord : visits_all map_order).

(** The node [cfg] among the nodes of a deployment. *)
Context (l1 : list Config) (cfg : Config) (l2 : list Config).
Notation nodes := (l1 ++ cfg :: l2).
Notation urls := (AdvertiseClientURL <$> nodes).
Context (Hcomma : ∀ u, u ∈ urls → has_char "," u = false).

(** The views of the nodes, if the node [cfg] has one of its own. *)
Definition views (others self : view) : list (option view) :=
  ((λ _, Some others) <$> l1) ++ Some self :: ((λ _, Some others) <$> l2).

Lemma elem_of_views others self v :
  v ∈ views others self → v = Some self ∨ v = Some others.
Proof.
  unfold views. rewrite elem_of_app, elem_of_cons.
  intros [(c&->&Hc)%list_elem_of_fmap|[->|(c&->&Hc)%list_elem_of_fmap]]; auto.
Qed.

Lemma self_in_views others self : Some self ∈ views others self.
Proof. unfold views. set_solver. Qed.
Lemma others_in_views others self : l1 ++ l2 ≠ [] → Some others ∈ views others self.
Proof.
  intros Hne. unfold views. rewrite elem_of_app, elem_of_cons, !list_elem_of_fmap.
  destruct l1 as [|c l]; [|left; exists c; set_solver].
  destruct l2 as [|c l]; [done|right; right; exists c; set_solver].
Qed.

Lemma all_tell f k others self :
  (∀ c, c ∈ l1 ++ l2 → tells f k (AdvertiseClientURL c) (Some others)) →
  tells f k (AdvertiseClientURL cfg) (Some self) →
  Forall2 (tells f k) urls (views others self).
Proof.
  intros Ho Hs. unfold views. rewrite fmap_app, fmap_cons.
  assert (∀ l, (∀ c, c ∈ l → c ∈ l1 ++ l2) →
    Forall2 (tells f k) (AdvertiseClientURL <$> l) ((λ _, Some others) <$> l)) as Hl.
  { induction l as [|c l IH]; intros Hin; constructor; [apply Ho, Hin; set_solver|].
    apply IH. set_solver. }
  apply Forall2_app; [apply Hl; set_solver|]. constructor; [done|apply Hl; set_solver].
Qed.

Lemma knows_led ms lead :
  lead ∈ ms → NoDup (raw_ID <$> ms) → Forall started ms → raw_ID lead ≠ "" → led (knows ms lead).
Proof.
  intros Hin Hnd Hst Hid. split; [done|]. rewrite leader_URL_knows by done.
  rewrite Forall_forall in Hst. specialize (Hst _ Hin). unfold started in Hst.
  destruct (raw_ClientURLs lead); [done|]. by eexists.
Qed.

(** Every node answers for a cluster that has a leader: the cut-off node for its
    own, the others for theirs. *)
Record answering (f : http_client → nat → string → error + Response) (ms : list RawMember)
    (lead self : RawMember) : Prop := {
  an_lead : lead ∈ ms ∧ raw_ID lead ≠ "";
  an_self : raw_ID self ≠ "" ∧ raw_ID self ≠ raw_ID lead;
  an_others : ∀ k c, c ∈ l1 ++ l2 →
    tells (f (mkClient None)) k (AdvertiseClientURL c) (Some (knows ms lead));
  an_cut_off : ∀ k, tells (f (mkClient None)) k (AdvertiseClientURL cfg) (Some (knows [self] self))
}.

(** The checker in front of two clusters. *)
Lemma two_clusters_exit f ms lead self prog n (w : World HttpScript.state) :
  l1 ++ l2 ≠ [] → answering f ms lead self → NoDup (raw_ID <$> ms) → Forall started ms →
  raw_ClientURLs self = [AdvertiseClientURL cfg] →
  ∃ u leaders w', Checker.main (λ c, HttpScript.client (f c)) X509KeyPair map_order (S n)
      (members_args prog urls) w = (Exited 1, w') ∧
    head (raw_ClientURLs lead) = Some u ∧ leaders ≡ₚ [u; AdvertiseClientURL cfg] ∧
    last (log w') = Some (Stderr ("more than one leader exists: " +:+ Sprintf_v leaders)).
Proof.
  intros Hne [[Hin Hid] [Hsid Hdiff] Hothers Hself] Hnd Hst Hurl.
  assert (led (knows ms lead)) as Hled by (by apply knows_led).
  assert (led (knows [self] self)) as Hled'.
  { apply knows_led; [set_solver|apply NoDup_singleton| |done].
    apply Forall_singleton. unfold started. by rewrite Hurl. }
  destruct (several_leaders_exit f X509KeyPair map_order Hord urls) with
    (views := views (knows ms lead) (knows [self] self)) (prog := prog) (n := n) (w := w)
    as (leaders&w'&Hr&_&Hperm&Hlog).
  - by destruct l1.
  - done.
  - intros k. apply all_tell; [by apply Hothers|done].
  - intros v [[= ->]|[= ->]]%elem_of_views; done.
  - intros Hone. apply Hdiff.
    by apply (Hone _ _ (self_in_views _ _) (others_in_views (knows ms lead) _ Hne)).
  - destruct Hled as (_&u&Hu). pose proof Hu as Hu'. rewrite leader_URL_knows in Hu' by done.
    exists u, leaders, w'. split_and!; [done..| |done]. rewrite Hperm.
    rewrite (two_leaders _ (raw_ID lead, u) (raw_ID self, AdvertiseClientURL cfg)); [done| | | |done|done|by simpl].
    + apply list_elem_of_fmap. exists (Some (knows ms lead)). simpl. rewrite Hu.
      split; [done|by apply others_in_views].
    + apply list_elem_of_fmap. exists (Some (knows [self] self)). split; [|apply self_in_views].
      by rewrite report_self, Hurl.
    + intros r (v&->&[->| ->]%elem_of_views)%list_elem_of_fmap; [right|left].
      * by rewrite report_self, Hurl.
      * simpl. by rewrite Hu.
Qed.
(** The checker in front of one cluster. *)
Lemma one_cluster_runs f ms lead n (w : World HttpScript.state) :
  lead ∈ ms → raw_ID lead ≠ "" → NoDup (raw_ID <$> ms) → Forall started ms →
  (∀ k c, c ∈ nodes → tells (f (mkClient None)) k (AdvertiseClientURL c) (Some (knows ms lead))) →
  ∃ w', Run (λ c, HttpScript.client (f c)) X509KeyPair map_order n
    (Checker.New (Checker.mkConfig urls "" "" "") Machine.sleep) w = (Val None, w').
Proof.
  intros Hin Hid Hnd Hst Htells.
  destruct (one_leader_runs f X509KeyPair map_order Hord urls) with
    (views := views (knows ms lead) (knows ms lead)) (n := n) (w := w) as (w'&Hr&_).
  - by destruct l1.
  - done.
  - intros k. apply all_tell; [|apply Htells; set_solver]. intros c Hc. apply Htells. set_solver.
  - intros v [[= ->]|[= ->]]%elem_of_views; by apply knows_led.
  - by intros v v' [[= ->]|[= ->]]%elem_of_views [[= ->]|[= ->]]%elem_of_views.
  - by exists w'.
Qed.

(** ** Property *)

(** C5: a node of a cluster of several, cut off from the others and stopped and
    started again, starts without an error and is then alone in a cluster of its
    own, although the others' cluster still has it as a member.  If every node's
    etcd tells what it knows, and the leaders of the two clusters have different
    ids, the checker that is given all nodes exits with 1 in its first round and
    names the URLs of both leaders; before, in front of the one cluster, it never
    ends. *)
Theorem isolated_restart_detected h pid r r0 :
  deployment nodes → l1 ++ l2 ≠ [] → running lib h cfg pid → holds nodes r → cluster r0 = None →
  ∃ h1 h' r0' ms self, recreate disableDelay lib etcd h r0 = Some (h', r0') ∧
    stopped_host cfg pid h h1 ∧ started_host [] cfg h1 h' ∧
    cluster r = Some ms ∧ Forall2 is_member nodes ms ∧
    cluster r0' = Some [self] ∧ is_member cfg self ∧
    (∀ f lead n (w : World HttpScript.state), lead ∈ ms → raw_ID lead ≠ "" →
       (∀ k c, c ∈ nodes → tells (f (mkClient None)) k (AdvertiseClientURL c) (Some (knows ms lead))) →
       ∃ w', Run (λ c, HttpScript.client (f c)) X509KeyPair map_order n
         (Checker.New (Checker.mkConfig urls "" "" "") Machine.sleep) w = (Val None, w')) ∧
    (∀ f lead prog n (w : World HttpScript.state), answering f ms lead self →
       ∃ u leaders w', Checker.main (λ c, HttpScript.client (f c)) X509KeyPair map_order (S n)
           (members_args prog urls) w = (Exited 1, w') ∧
         head (raw_ClientURLs lead) = Some u ∧ leaders ≡ₚ [u; AdvertiseClientURL cfg] ∧
         last (log w') = Some (Stderr ("more than one leader exists: " +:+ Sprintf_v leaders))).
Proof.
  intros Hdep Hne Hrn (ms&Hms&Hall&Hids)%holds_up Hr0; [|by destruct l1].
  destruct (recreate_alone disableDelay lib etcd nodes cfg h pid r0 Hdep) as (h1&h'&r0'&Hrec&Hr&Hst1&Hst2);
    [set_solver|done..|].
  apply holds_up in Hr as (ms'&Hms'&Hall'&_); [|done].
  apply Forall2_cons_inv_l in Hall' as (self&?&Hself&->%Forall2_nil_inv_l&->).
  pose proof (is_member_started _ _ Hall) as Hst.
  exists h1, h', r0', ms, self. do 7 (split; [done|]). split; intros.
  - by eapply one_cluster_runs.
  - apply (two_clusters_exit f ms lead self prog n w); try done. apply Hself.
Qed.
End split.

(** ** Witness *)

Module SplitBrainWitness.
Import DeploymentWitness.
(** Three nodes; [etcd-1] is cut off, [etcd-0] leads the others. *)
Definition l1 : list Config := [cfg "0"].
Definition l2 : list Config := [cfg "2"].
Definition lead : RawMember :=
  mkRawMember "0" (NodeName (cfg "0")) [AdvertisePeerURL (cfg "0")] [AdvertiseClientURL (cfg "0")].
Definition self : RawMember :=
  mkRawMember "1" (NodeName (cfg "1")) [AdvertisePeerURL (cfg "1")] [AdvertiseClientURL (cfg "1")].

Definition api (l : list string) : string := single_quoted
  ("{'members': [" +:+ Join ", " ((λ i, "{'id': '" +:+ i +:+ "', 'name': 'etcd-" +:+ i +:+
     "', 'clientURLs': ['http://10.0.0." +:+ i +:+ ":4001']}") <$> l) +:+ "]}").
Definition f (_ : nat) (url : string) : error + Response :=
  let alone := HasPrefix url "http://10.0.0.1:4001/" in
  inr (mkResponse 200 (if Contains url "/v2/stats/" then CheckerWitness.self_json (if alone then "1" else "0")
                       else api (if alone then ["1"] else indices)) None).

Lemma urls_value : AdvertiseClientURL <$> l1 ++ cfg "1" :: l2 =
  ["http://10.0.0.0:4001"; "http://10.0.0.1:4001"; "http://10.0.0.2:4001"].
Proof. by vm_compute. Qed.

Lemma all_answer : answering l1 (cfg "1") l2 (λ _, f) members lead self.
Proof.
  split.
  - split; [by left|done].
  - done.
  - intros k. apply Forall_forall.
    repeat (apply Forall_cons; split;
      [eexists _, (mkself (mkleader "0")), _; split; [reflexivity|]; split; [by vm_compute|];
       split; [done|]; split; [reflexivity|]; by vm_compute|]). constructor.
  - intros k. eexists _, (mkself (mkleader "1")), _. split; [reflexivity|]. split; [by vm_compute|].
    split; [done|]. split; [reflexivity|]. by vm_compute.
Qed.
End SplitBrainWitness.

Lemma isolated_restart_detected_witness :
  ∃ h' leaders w', recreate "" MemCluster.lib MemCluster.etcd (DeploymentWitness.busy "1")
      (None : MemCluster.state) = Some (h', Some [SplitBrainWitness.self]) ∧
    Checker.main (λ _, HttpScript.client SplitBrainWitness.f) (λ _ _, None) map_to_list 1
      ["checker"; "-cluster-members=http://10.0.0.0:4001,http://10.0.0.1:4001,http://10.0.0.2:4001"]
      CheckerWitness.w = (Exited 1, w') ∧
    leaders ≡ₚ ["http://10.0.0.0:4001"; "http://10.0.0.1:4001"] ∧
    last (log w') = Some (Stderr ("more than one leader exists: " +:+ Sprintf_v leaders)).
Proof.
  destruct (isolated_restart_detected "" MemCluster.lib MemCluster.etcd (λ _ _, None) map_to_list
    ltac:(by intros m) SplitBrainWitness.l1 (DeploymentWitness.cfg "1") SplitBrainWitness.l2
    ltac:(rewrite SplitBrainWitness.urls_value; apply Forall_forall; by repeat constructor)
    (DeploymentWitness.busy "1") 7 (Some DeploymentWitness.members) None DeploymentWitness.fits ltac:(done)
    (DeploymentWitness.running_host "1" ltac:(set_solver)) DeploymentWitness.up eq_refl)
    as (h1&h'&r0'&ms&self&Hrec&_&_&Hms&_&Hr0&_&_&Hexit).
  injection Hms as <-.
  assert (snd <$> recreate "" MemCluster.lib MemCluster.etcd (DeploymentWitness.busy "1")
    (None : MemCluster.state) = Some (Some [SplitBrainWitness.self])) as Hval by (by vm_compute).
  rewrite Hrec in Hval. injection Hval as ->. injection Hr0 as <-.
  destruct (Hexit (λ _, SplitBrainWitness.f) SplitBrainWitness.lead "checker" 0%nat CheckerWitness.w
    SplitBrainWitness.all_answer) as (u&leaders&w'&Hr&[= <-]&Hl&Hlog).
  unfold members_args in Hr. rewrite SplitBrainWitness.urls_value in Hr.
  exists h', leaders, w'. split; [exact Hrec|]. split; [exact Hr|]. split; [|exact Hlog]. exact Hl.
Defined.
