(* ===== verification/Proxy.v ===== *)
(** * [src/etcd-proxy/etcd_proxy.go]

    The TLS-terminating proxy: its start-up, its two handlers and the director
    that points every proxied request at the leader. *)
From S2P Require Import Prelude GoStrings GoPath Machine GoFlag GoUrl GoJson JsonFacts GoHttp.
From S2P Require Import LeaderFinder LeaderManager.

Open Scope Z_scope.

(** ** Data *)

Record Flags := mkFlags {
  EtcdDNSSuffix : string;
  EtcdPort : string;
  IP : string;
  Port : string;
  CACertFilePath : string;
  CertFilePath : string;
  KeyFilePath : string;
  AdvertiseIP : string
}.

Definition proxy_flag_defs : list flag_def := [
  mkFlag "etcd-dns-suffix" "" "domain of etcd cluster";
  mkFlag "etcd-port" "4001" "port that etcd server is running on";
  mkFlag "ip" "" "ip that proxy server binds to";
  mkFlag "port" "" "port of the proxy server";
  mkFlag "cacert" "" "path to the etcd ca certificate";
  mkFlag "cert" "" "path to the etcd client certificate";
  mkFlag "key" "" "path to the etcd client key";
  mkFlag "advertise-ip" "" "ip to advertise in for client url in /v2/members"
].

Definition flags_of_values (values : gmap string string) : Flags :=
  mkFlags (value_of values "etcd-dns-suffix") (value_of values "etcd-port")
    (value_of values "ip") (value_of values "port") (value_of values "cacert")
    (value_of values "cert") (value_of values "key") (value_of values "advertise-ip").

(** The [tls.Config] built: the contents of the key pair and the CA; peers are
    always verified. *)
Record tls_config := mkTLS {
  Certificate : string * string;
  InsecureSkipVerify : bool;
  RequireClientCert : bool;
  RootCAs : string;
  ClientCAs : string
}.

(** The part of an incoming request the handlers look at. *)
Record Request := mkRequest { Method : string; req_URL : URL }.

(** ** Handlers *)

Definition nl : string := String "010" "".
Fixpoint tabs (n : nat) : string :=
  match n with O => "" | S n => String "009" (tabs n) end.

(** The body of [/v2/members], a raw string with two holes. *)
Definition members_response (flags : Flags) : string :=
  let q := single_quoted in
  q "{" +:+ nl +:+
  tabs 3 +:+ q "'members': [" +:+ nl +:+
  tabs 4 +:+ q "{" +:+ nl +:+
  tabs 5 +:+ q "'id':'xxxxxxxxxxxxxxxx'," +:+ nl +:+
  tabs 5 +:+ q "'name':'proxy'," +:+ nl +:+
  tabs 5 +:+ q "'clientURLs': ['http://" +:+ AdvertiseIP flags +:+ ":" +:+ Port flags +:+ q "']" +:+ nl +:+
  tabs 4 +:+ q "}" +:+ nl +:+
  tabs 3 +:+ q "]" +:+ nl +:+
  tabs 2 +:+ q "}".

(** The director: the scheme and the host of the leader, the rest untouched. *)
Definition director (target : URL) (req : Request) : Request :=
  let 'mkURL _ o u _ p rp f q fr := req_URL req in
  mkRequest (Method req) (mkURL (Scheme target) o u (Host target) p rp f q fr).

(** What a request is answered with: a redirect to a clean path, the members
    body, or what the leader answers to the directed request. *)
Inductive action :=
  | Redirect (path : string)
  | Respond (body : string)
  | Forward (req : Request).

Fixpoint ends_with (c : ascii) (s : string) : bool :=
  match s with
  | "" => false
  | String d "" => bool_decide (d = c)
  | String _ s' => ends_with c s'
  end.

(** [http.cleanPath] of the default mux. *)
Definition cleanPath (p : string) : string :=
  match p with
  | "" => "/"
  | _ =>
      let p := if HasPrefix p "/" then p else "/" +:+ p in
      let np := Clean p in
      if ends_with "/" p && negb (bool_decide (np = "/"))
      then np +:+ "/" else np
  end.

(** The mux with the patterns [/v2/members] and [/]; [target] is what
    [LeaderOrDefault] returns. *)
Definition handle (flags : Flags) (target : URL) (req : Request) : action :=
  let path := Path (req_URL req) in
  if negb (bool_decide (Method req = "CONNECT")) && negb (bool_decide (cleanPath path = path)) then
    Redirect (cleanPath path)
  else if bool_decide (path = "/v2/members") then Respond (members_response flags)
  else Forward (director target req).

(** ** Start-up *)

(** [fail(message)]. *)
Definition fail {X A} (message : string) : M X A := _ ← tell (Stderr message); exit 1.

Section proxy.
(** The requests of the HTTP client, [tls.X509KeyPair] and
    [AppendCertsFromPEM] on file contents, and serving on an address, which
    returns only with an error. *)
Context {X : Type} (Get : tls_config → Getter X).
Context (X509KeyPair : string → string → option error) (AppendCertsFromPEM : string → bool).
Context (ListenAndServe : string → M X error).

Definition buildTLSConfig (caCertFilePath certFilePath keyFilePath : string) : M X tls_config :=
  '(certPEM, err) ← ReadFile certFilePath;
  match err with
  | Some err => fail (Error err)
  | None =>
  '(keyPEM, err) ← ReadFile keyFilePath;
  match err with
  | Some err => fail (Error err)
  | None =>
  match X509KeyPair certPEM keyPEM with
  | Some err => fail (Error err)
  | None =>
  '(certBytes, err) ← ReadFile caCertFilePath;
  match err with
  | Some err => fail (Error err)
  | None =>
      if negb (AppendCertsFromPEM certBytes) then fail "cacert is not a PEM encoded file"
      else mret (mkTLS (certPEM, keyPEM) false true certBytes certBytes)
  end end end end.

Definition run_proxy (flags : Flags) : M X unit :=
  let etcdRawURL := "https://" +:+ EtcdDNSSuffix flags +:+ ":" +:+ EtcdPort flags in
  match Parse etcdRawURL with
  | inl err => fail ("failed to parse etcd-dns-suffix and etcd-port " +:+ err)
  | inr etcdURL =>
      transport ← buildTLSConfig (CACertFilePath flags) (CertFilePath flags) (KeyFilePath flags);
      '(_, err) ← Find (H := Get transport) (NewFinder (URL_String etcdURL));
      match err with
      | Some err => fail ("failed to reach etcd-cluster: " +:+ Error err)
      | None =>
          _ ← buildTLSConfig (CACertFilePath flags) (CertFilePath flags) (KeyFilePath flags);
          err ← ListenAndServe (IP flags +:+ ":" +:+ Port flags);
          fail (Error err)
      end
  end.

(** [main]: [flag.Parse] exits with 2 on a bad command line. *)
Definition proxy_main (args : list string) : M X unit :=
  values ← FlagSet_Parse (default "" (head args)) proxy_flag_defs (drop 1 args);
  match values with
  | None => exit 2
  | Some values => run_proxy (flags_of_values values)
  end.
End proxy.

(** ** Lemmas *)

(** Reading the members body. *)
Lemma members_response_json flags :
  all_chars plain_json (AdvertiseIP flags) = true → all_chars plain_json (Port flags) = true →
  parse_value (json_fuel (members_response flags)) (members_response flags) =
  Some (JObject [("members", JArray [JObject [
    ("id", JString "xxxxxxxxxxxxxxxx"); ("name", JString "proxy");
    ("clientURLs", JArray [JString ("http://" +:+ AdvertiseIP flags +:+ ":" +:+ Port flags)])]])], "").
Proof.
  intros Hip Hport. apply (parse_value_mono 12).
  { unfold json_fuel, members_response. do 6 (rewrite ?app_cons_s; simpl String.length). lia. }
  set (url := "http://" +:+ AdvertiseIP flags +:+ ":" +:+ Port flags).
  assert (all_chars plain_json url = true) as Hurl.
  { unfold url. by rewrite !all_chars_app, Hip, Hport. }
  assert (∃ pre post, members_response flags = pre +:+ url +:+ post ∧
    pre = single_quoted "{" +:+ nl +:+ tabs 3 +:+ single_quoted "'members': [" +:+ nl +:+
      tabs 4 +:+ single_quoted "{" +:+ nl +:+
      tabs 5 +:+ single_quoted "'id':'xxxxxxxxxxxxxxxx'," +:+ nl +:+
      tabs 5 +:+ single_quoted "'name':'proxy'," +:+ nl +:+
      tabs 5 +:+ single_quoted "'clientURLs': ['" ∧
    post = single_quoted "']" +:+ nl +:+ tabs 4 +:+ single_quoted "}" +:+ nl +:+
      tabs 3 +:+ single_quoted "]" +:+ nl +:+ tabs 2 +:+ single_quoted "}")
    as (pre&post&->&->&->).
  { eexists _, _. split; [|split; reflexivity]. unfold url, members_response.
    rewrite <-!app_assoc_s. reflexivity. }
  eapply value_object; [reflexivity|reflexivity|done|].
  eapply (members_last _ _ "members"); [done|reflexivity|reflexivity| |].
  eapply value_array; [reflexivity|reflexivity|done|].
  eapply elements_last.
  eapply value_object; [reflexivity|reflexivity|done|].
  eapply (members_cons _ _ "id"); [done|reflexivity|reflexivity| | |].
  { apply (value_string _ _ "xxxxxxxxxxxxxxxx"); [done|reflexivity]. }
  { reflexivity. }
  eapply (members_cons _ _ "name"); [done|reflexivity|reflexivity| | |].
  { apply (value_string _ _ "proxy"); [done|reflexivity]. }
  { reflexivity. }
  eapply (members_last _ _ "clientURLs"); [done|reflexivity|reflexivity| |].
  { eapply value_array; [reflexivity|reflexivity|done|].
    eapply elements_last; [apply (value_string _ _ url); [done|reflexivity]|reflexivity]. }
  all: reflexivity.
Qed.

(** What [buildTLSConfig] gets from the files: a message, or the configuration. *)
Definition tls_result {X} (X509KeyPair : string → string → option error)
    (AppendCertsFromPEM : string → bool) (ca cert key : string) (w : World X) :
    string + tls_config :=
  match read_file cert w, read_file key w, read_file ca w with
  | (_, Some e), _, _ => inl (Error e)
  | (_, None), (_, Some e), _ => inl (Error e)
  | (certPEM, None), (keyPEM, None), (caPEM, cerr) =>
      match X509KeyPair certPEM keyPEM with
      | Some e => inl (Error e)
      | None =>
          match cerr with
          | Some e => inl (Error e)
          | None =>
              if AppendCertsFromPEM caPEM then inr (mkTLS (certPEM, keyPEM) false true caPEM caPEM)
              else inl "cacert is not a PEM encoded file"
          end
      end
  end.

(** The addresses served on, in a log. *)
Definition listened (l : list event) : list (list string) :=
  omap (λ e, match e with
             | Call op args => if bool_decide (op = "listen") then Some args else None
             | _ => None
             end) l.

Lemma listened_app l k : listened (l ++ k) = listened l ++ listened k.
Proof. apply omap_app. Qed.

(** A run that changes neither files, processes nor collaborators, and does not
    serve. *)
Definition silent {X} (w w' : World X) : Prop :=
  same_os w w' ∧ svc w' = svc w ∧ listened (log w') = listened (log w).

Lemma silent_emit {X} e (w w' : World X) :
  silent w w' → listened [e] = [] → silent w (emit e w').
Proof.
  intros (Hos&Hs&Hl) He. split_and!; [apply Hos..|done|]. simpl.
  by rewrite listened_app, He, app_nil_r.
Qed.

Lemma fail_run {X A} msg (w : World X) : fail (A := A) msg w = (Exited 1, emit (Stderr msg) w).
Proof. done. Qed.

Lemma buildTLSConfig_run {X} X509KeyPair AppendCertsFromPEM ca cert key (w : World X) :
  ∃ w', buildTLSConfig X509KeyPair AppendCertsFromPEM ca cert key w =
    (match tls_result X509KeyPair AppendCertsFromPEM ca cert key w with
     | inl _ => Exited 1
     | inr c => Val c
     end, w') ∧ silent w w'.
Proof.
  unfold buildTLSConfig, tls_result. steps.
  assert (silent w w) as H0 by (by split_and!).
  destruct (read_file cert w) as [c1 [e|]]; steps; [rewrite fail_run; eexists; split;
    [done|by repeat apply silent_emit]|].
  destruct (read_file key w) as [c2 [e|]]; steps; [rewrite fail_run; eexists; split;
    [done|by repeat apply silent_emit]|].
  destruct (X509KeyPair c1 c2) as [e|]; steps.
  { destruct (read_file ca w). rewrite fail_run. eexists; split; [done|by repeat apply silent_emit]. }
  destruct (read_file ca w) as [c3 [e|]]; steps; [rewrite fail_run; eexists; split;
    [done|by repeat apply silent_emit]|].
  destruct (AppendCertsFromPEM c3); simpl negb; cbn iota; steps; rewrite ?fail_run;
    eexists; (split; [done|by repeat apply silent_emit]).
Qed.

(** ** An environment as data: HTTP answers and the error of serving *)

Module ProxyScript.
Definition serve (e : error) (addr : string) : M HttpScript.state error :=
  _ ← tell (Call "listen" [addr]); mret e.
End ProxyScript.

Section properties.
Context (f : tls_config → nat → string → error + Response).
Context (X509KeyPair : string → string → option error) (AppendCertsFromPEM : string → bool).
Context (e : error).
Notation W := (World HttpScript.state).

(** The leader as the start-up check finds it: a message, or a URL, and the
    requests made. *)
Definition startup (flags : Flags) (w : W) : (string + URL) * list string :=
  match Parse ("https://" +:+ EtcdDNSSuffix flags +:+ ":" +:+ EtcdPort flags) with
  | inl err => (inl err, [])
  | inr u =>
      match tls_result X509KeyPair AppendCertsFromPEM (CACertFilePath flags)
              (CertFilePath flags) (KeyFilePath flags) w with
      | inl err => (inl err, [])
      | inr c =>
          let '(r, urls) := find_spec (f c) (URL_String u) in
          (match r with inl err => inl (Error err) | inr l => inr l end, urls)
      end
  end.

(** C10: the proxy fails closed.  Whatever its flags, files and answers, the
    start-up ends in exit status 1 and changes no file and no process; it
    serves, on the one address [ip:port], exactly if the URL of the cluster
    parses, the key pair and the CA can be read and used, and the cluster
    answers with a leader; and before that it sends the requests of one
    [Find] and no other. *)
Theorem run_proxy_fails_closed flags (w : W) :
  svc w = [] →
  ∃ w', run_proxy (λ c, HttpScript.client (f c)) X509KeyPair AppendCertsFromPEM
      (ProxyScript.serve e) flags w = (Exited 1, w') ∧ same_os w w' ∧
    svc w' = (startup flags w).2 ∧
    listened (log w') = listened (log w) ++
      match (startup flags w).1 with
      | inl _ => []
      | inr _ => [[IP flags +:+ ":" +:+ Port flags]]
      end.
Proof.
  intros Hw. unfold run_proxy, startup. destruct (Parse _) as [err|u].
  { rewrite fail_run. eexists. split; [done|]. split_and!; [done..|].
    simpl. by rewrite listened_app, !app_nil_r. }
  set (ca := CACertFilePath flags). set (cert := CertFilePath flags). set (key := KeyFilePath flags).
  destruct (buildTLSConfig_run X509KeyPair AppendCertsFromPEM ca cert key w)
    as (w1&Hr&Hos1&Hs1&Hl1).
  destruct (tls_result _ _ ca cert key w) as [err|c] eqn:Htls.
  { unfold mbind at 1, M_bind. rewrite Hr. eexists. split; [done|].
    split_and!; [apply Hos1..|by rewrite Hs1|by rewrite Hl1, app_nil_r]. }
  step Hr. clear Hr. destruct (Find_run (f c) (URL_String u) w1) as (w2&Hr&Hos2&Hl2&Hs2);
    [by rewrite Hs1|].
  step Hr. clear Hr. destruct (find_spec (f c) (URL_String u)) as [[err|l] urls]; cbn [as_pair fst snd] in *.
  { rewrite fail_run. eexists. split; [done|]. split_and!; try by etrans; [apply Hos1|apply Hos2].
    - done.
    - simpl. by rewrite listened_app, Hl2, Hl1. }
  destruct (buildTLSConfig_run X509KeyPair AppendCertsFromPEM ca cert key w2)
    as (w3&Hr&Hos3&Hs3&Hl3).
  assert (tls_result X509KeyPair AppendCertsFromPEM ca cert key w2 = inr c) as Htls2.
  { rewrite <-Htls. unfold tls_result.
    by rewrite !(read_file_same_os _ w w2) by (by etrans). }
  rewrite Htls2 in Hr. step Hr. unfold ProxyScript.serve, mbind, M_bind. simpl. rewrite fail_run.
  eexists. split; [done|]. split.
  { etrans; [exact Hos1|]. etrans; [exact Hos2|]. exact Hos3. }
  split; [by simpl; rewrite Hs3|]. simpl. rewrite !listened_app, Hl3, Hl2, Hl1.
  simpl. by rewrite app_nil_r.
Qed.
End properties.

(** For a DNS suffix and a port of plain characters the start-up asks the
    cluster under [https://suffix:port]: the URL parses, to that scheme and host
    and no path, and prints back as itself, so the first request is
    [https://suffix:port/v2/members]. *)
Theorem startup_asks_cluster f X509KeyPair AppendCertsFromPEM flags c (w : World HttpScript.state) :
  let auth := EtcdDNSSuffix flags +:+ ":" +:+ EtcdPort flags in
  all_chars plain_host auth = true →
  tls_result X509KeyPair AppendCertsFromPEM (CACertFilePath flags) (CertFilePath flags)
    (KeyFilePath flags) w = inr c →
  Parse ("https://" +:+ auth) = inr (authority_URL "https" auth) ∧
  ∃ rest, (startup f X509KeyPair AppendCertsFromPEM flags w).2 =
    ("https://" +:+ auth +:+ "/v2/members") :: rest.
Proof.
  intros auth Hauth Htls.
  assert (Parse ("https://" +:+ auth) = inr (authority_URL "https" auth)) as Hp
    by exact (Parse_authority true auth Hauth).
  assert (URL_String (authority_URL "https" auth) = "https://" +:+ auth) as Hstr
    by exact (authority_URL_String true auth Hauth).
  split; [exact Hp|]. unfold startup. fold auth. rewrite Hp, Htls, Hstr.
  unfold find_spec. rewrite bool_decide_false by done. rewrite <-app_assoc_s.
  destruct (answer _) as [err|ms]; [by eexists|]. case_bool_decide; [by eexists|].
  destruct (answer _); by eexists.
Qed.

(** What the proxy answers to [/v2/members] is read back by an etcd client
    (and by the proxy's own [Finder]) as one member whose client URL is the
    address the proxy is advertised under, for an address and a port of plain
    characters. *)
Theorem members_response_decodes flags :
  all_chars plain_json (AdvertiseIP flags) = true → all_chars plain_json (Port flags) = true →
  DecodeBody (mkResponse 200 (members_response flags) None) (jzero : LeaderFinder.members) =
  (mkmembers [mkmember ["http://" +:+ AdvertiseIP flags +:+ ":" +:+ Port flags] "xxxxxxxxxxxxxxxx"],
   None).
Proof.
  intros Hip Hport. unfold DecodeBody, Decode. cbn [BodyErr Body].
  rewrite members_response_json by done. reflexivity.
Qed.

(** A request is sent on to the current leader exactly if its path is clean
    (or it is a [CONNECT]) and is not [/v2/members]; it then differs from what
    came in only in the scheme and the host of its URL, which are the leader's.
    Everything else is answered by the proxy itself: [/v2/members] by the
    members body, an unclean path by a redirect to a different path. *)
Theorem handle_spec flags target req :
  let u := req_URL req in
  match handle flags target req with
  | Forward out =>
      Method out = Method req ∧ Scheme (req_URL out) = Scheme target ∧
      Host (req_URL out) = Host target ∧ Path (req_URL out) = Path u ∧
      RawPath (req_URL out) = RawPath u ∧ RawQuery (req_URL out) = RawQuery u ∧
      User (req_URL out) = User u ∧ Fragment (req_URL out) = Fragment u ∧
      Path u ≠ "/v2/members" ∧ (Method req = "CONNECT" ∨ cleanPath (Path u) = Path u)
  | Respond body => Path u = "/v2/members" ∧ body = members_response flags
  | Redirect p => Method req ≠ "CONNECT" ∧ p = cleanPath (Path u) ∧ p ≠ Path u
  end.
Proof.
  destruct req as [m [s o us h p rp fq q fr]]. unfold handle. cbn [req_URL Path Method].
  destruct (decide (m = "CONNECT")) as [Hm|Hm], (decide (cleanPath p = p)) as [Hc|Hc],
    (decide (p = "/v2/members")) as [Hp|Hp];
    rewrite ?(bool_decide_true _ Hm), ?(bool_decide_false _ Hm), ?(bool_decide_true _ Hc),
      ?(bool_decide_false _ Hc), ?(bool_decide_true _ Hp), ?(bool_decide_false _ Hp);
    simpl; split_and!; auto.
Qed.

(** ** Witnesses *)

Module ProxyWitness.
Definition flags : Flags :=
  mkFlags "etcd.cf.internal" "4001" "127.0.0.1" "4001" "/ca" "/cert" "/key" "10.0.0.9".
Definition w : World HttpScript.state :=
  mkWorld (<[["ca"] := File "CA"]> (<[["cert"] := File "CERT"]> (<[["key"] := File "KEY"]> ∅)))
    ∅ permissive_kernel [] [].
Definition tls : tls_config := mkTLS ("CERT", "KEY") false true "CA" "CA".
End ProxyWitness.

Lemma run_proxy_fails_closed_witness :
  ∃ w', run_proxy (λ _, HttpScript.client FinderWitness.f) (λ _ _, None) (λ _, true)
      (ProxyScript.serve (ErrorString "in use")) ProxyWitness.flags ProxyWitness.w = (Exited 1, w') ∧
    listened (log w') = [["127.0.0.1:4001"]] ∧
    svc w' = ["https://etcd.cf.internal:4001/v2/members";
              "https://etcd.cf.internal:4001/v2/stats/self"].
Proof.
  destruct (run_proxy_fails_closed (λ _, FinderWitness.f) (λ _ _, None) (λ _, true)
    (ErrorString "in use") ProxyWitness.flags ProxyWitness.w eq_refl) as (w'&Hr&_&Hs&Hl).
  exists w'. split; [exact Hr|]. split; [rewrite Hl; by vm_compute|rewrite Hs; by vm_compute].
Defined.

Lemma startup_asks_cluster_witness :
  ∃ rest, (startup (λ _, FinderWitness.f) (λ _ _, None) (λ _, true) ProxyWitness.flags
      ProxyWitness.w).2 = "https://etcd.cf.internal:4001/v2/members" :: rest.
Proof.
  destruct (startup_asks_cluster (λ _, FinderWitness.f) (λ _ _, None) (λ _, true)
    ProxyWitness.flags ProxyWitness.tls ProxyWitness.w eq_refl ltac:(by vm_compute)) as [_ H].
  exact H.
Defined.

Lemma members_response_decodes_witness :
  DecodeBody (mkResponse 200 (members_response ProxyWitness.flags) None)
    (jzero : LeaderFinder.members) =
  (mkmembers [mkmember ["http://10.0.0.9:4001"] "xxxxxxxxxxxxxxxx"], None).
Proof. exact (members_response_decodes ProxyWitness.flags eq_refl eq_refl). Defined.
