(* ===== verification/ProxyStack.v ===== *)
(** * The proxy while it serves

    [etcd_proxy.go] with [leaderfinder]: the goroutine asks the cluster again
    and again, every request asks [LeaderOrDefault] where to go.  The leader
    manager is [LeaderManager.v]'s transition system, what a refresh finds is
    [LeaderFinder.v]'s [Find] over the cluster's answers at that time, and a
    request is sent where [Proxy.v]'s [handle] sends it. *)
From S2P Require Import Prelude GoStrings GoPath Machine GoJson GoUrl GoHttp LeaderFinder LeaderManager Proxy.

(** What the cluster answers during one refresh. *)
Notation answers := (nat → string → error + Response).

(** The results of [Find] in a run, and the addresses set. *)
Definition founds (t : list label) : list (option URL * option error) :=
  omap (λ l, match l with Found r => Some r | _ => None end) t.
Definition sets (t : list label) : list (option URL) :=
  omap (λ l, match l with Set_ a => Some a | _ => None end) t.

(** The address a refresh leads to: the leader, or the cluster's own URL. *)
Definition found_or_default (u : URL) (f : answers) : URL :=
  match (find_spec f (URL_String u)).1 with inr leader => leader | inl _ => u end.

Section proxying.
Context (u : URL).

(** The refresh whose result is not stored yet. *)
Definition in_flight (p : bg_pc) : list (option URL) :=
  match p with SetLock a | SetHeld a => [a] | _ => [] end.

Lemma founds_sets t m :
  run u t m → next_address u <$> founds t = sets t ++ in_flight (m_bg m).
Proof.
  unfold run. intros Hrun. remember (NewManager u) as m0 eqn:Hm0.
  induction Hrun as [|m t m1 l m2 Hrun IH Hstep]; subst; [done|]. specialize (IH eq_refl).
  unfold founds, sets in *. rewrite !omap_app, fmap_app, IH.
  destruct Hstep; simpl; rewrite ?app_nil_r; simplify_list_eq; done.
Qed.

Lemma last_set_sets t : last_set u t = default (Some u) (last (sets t)).
Proof.
  unfold last_set, sets. induction t as [|l t IH] using rev_ind; [done|].
  rewrite foldl_app, IH, omap_app. destruct l; simpl; rewrite ?app_nil_r; try done.
  by rewrite last_snoc.
Qed.

Lemma next_address_find f :
  next_address u (as_pair (find_spec f (URL_String u)).1) = Some (found_or_default u f).
Proof. unfold found_or_default. by destruct (find_spec f (URL_String u)).1. Qed.

(** The address after refreshes with these answers. *)
Lemma address_of_answers t m (l : list answers) :
  run u t m → founds t = (λ f, as_pair (find_spec f (URL_String u)).1) <$> l →
  ∃ k, (k ≤ length l ≤ S k)%nat ∧
    m_address m = Some (default u (found_or_default u <$> last (take k l))).
Proof.
  intros Hrun Hf. pose proof (founds_sets t m Hrun) as Hs.
  rewrite Hf, <-list_fmap_compose in Hs.
  assert (sets t = Some ∘ found_or_default u <$> take (length (sets t)) l) as Hsets.
  { rewrite fmap_take. transitivity (take (length (sets t)) (sets t ++ in_flight (m_bg m)));
      [by rewrite take_app_length|]. rewrite <-Hs. f_equal. apply list_fmap_ext.
    intros i f _. apply next_address_find. }
  exists (length (sets t)). split.
  - apply (f_equal length) in Hs. rewrite length_fmap, length_app in Hs.
    destruct (m_bg m); simpl in Hs; lia.
  - rewrite (cell_run_last_set u t _ (run_cell u t m Hrun)), last_set_sets.
    rewrite Hsets at 1. rewrite fmap_last. by destruct (last (take _ l)).
Qed.

(** ** Property *)

(** C18: while the goroutine refreshes the address against whatever the cluster
    answers and requests come in at any time, a request that is to be forwarded
    goes to the leader that the last refresh stored found, or to the cluster's
    own URL if that refresh failed or none was stored yet; at most one refresh is
    behind.  It never goes to nil, and all of the request but the scheme and the
    host of its URL stays as it came in. *)
Theorem proxy_follows_leader flags (l : list answers) t n a m req :
  run u (t ++ [Returned n a]) m →
  founds t = (λ f, as_pair (find_spec f (URL_String u)).1) <$> l →
  cleanPath (Path (req_URL req)) = Path (req_URL req) → Path (req_URL req) ≠ "/v2/members" →
  ∃ k target out, (k ≤ length l ≤ S k)%nat ∧ a = Some target ∧
    target = default u (found_or_default u <$> last (take k l)) ∧
    handle flags target req = Forward out ∧
    Method out = Method req ∧ Path (req_URL out) = Path (req_URL req) ∧
    RawQuery (req_URL out) = RawQuery (req_URL req) ∧
    Scheme (req_URL out) = Scheme target ∧ Host (req_URL out) = Host target.
Proof.
  intros (m1&Hrun&Hstep)%run_app_inv Hf Hclean Hpath.
  destruct (address_of_answers t m1 l Hrun Hf) as (k&Hk&Ha).
  assert (a = m_address m1) as Heq.
  { destruct (run_ok u t m1 Hrun) as [_ Hrd]. inversion Hstep; subst. by apply (Hrd n). }
  exists k, (default u (found_or_default u <$> last (take k l))). rewrite Heq, Ha.
  pose proof (handle_spec flags (default u (found_or_default u <$> last (take k l))) req) as Hh.
  destruct (handle flags _ req) as [p|b|out]; [destruct Hh as (_&Hp&Hne); congruence|by destruct Hh|].
  exists out. simpl in Hh. destruct Hh as (H1&H2&H3&H4&_&H6&_).
  split_and!; try done; lia.
Qed.
End proxying.

(** ** Witness *)

Module ProxyStackWitness.
Definition u : URL := authority_URL "https" "etcd:4001".
Definition leader : URL := authority_URL "http" "10.0.0.2:4001".
(** One refresh finds the leader; then a request asks for the address. *)
Definition t : list label :=
  [Tau; Found (Some leader, None); Tau; Set_ (Some leader); Tau; Called 0; Tau; Read 0 (Some leader)].

Lemma run_t : run u (t ++ [Returned 0 (Some leader)])
  (mkManager None (Some leader) Sleeping (delete 0%nat (<[0%nat := ReadUnlock (Some leader)]>
    (<[0%nat := ReadHeld]> (<[0%nat := ReadLock]> ∅))))).
Proof.
  apply (steps_app u _ t (mkManager (Some (Reader 0)) (Some leader) Sleeping
    (<[0%nat := ReadUnlock (Some leader)]> (<[0%nat := ReadHeld]> (<[0%nat := ReadLock]> ∅))))).
  - unfold t. do 8 (eapply (steps_app u _ [_]); [apply steps_one; econstructor; by simplify_map_eq|]).
    constructor.
  - apply steps_one, step_return. by simplify_map_eq.
Qed.
End ProxyStackWitness.

Lemma proxy_follows_leader_witness :
  ∃ out, handle ProxyWitness.flags ProxyStackWitness.leader
      (mkRequest "GET" (mkURL "" "" None "proxy:4002" "/v2/keys/a" "" false "wait=true" "")) =
      Forward out ∧
    Host (req_URL out) = "10.0.0.2:4001" ∧ RawQuery (req_URL out) = "wait=true".
Proof.
  destruct (proxy_follows_leader ProxyStackWitness.u ProxyWitness.flags [FinderWitness.f]
    ProxyStackWitness.t 0 (Some ProxyStackWitness.leader) _
    (mkRequest "GET" (mkURL "" "" None "proxy:4002" "/v2/keys/a" "" false "wait=true" ""))
    ProxyStackWitness.run_t ltac:(by vm_compute) ltac:(by vm_compute) ltac:(done))
    as (k&target&out&_&[= <-]&_&Hf&_&_&Hq&_&Hh).
  exists out. split; [exact Hf|]. split; [exact Hh|exact Hq].
Defined.
