(* ===== verification/JsonFuel.v ===== *)
(** * The fuel of the JSON scanner is enough

    [json_fuel] gives two units of fuel per character.  With that much, or more,
    the scanner never gives up for lack of fuel: its result on a text does not
    depend on the fuel.  Errors of decoding are errors of type, so that a syntax
    error of a program means that its text is not JSON; and decoding succeeds
    exactly for the values that fit a schema, which is written down here for the
    two configuration files. *)
From S2P Require Import Prelude GoStrings GoPath Machine GoJson JsonFacts Config.

(** ** What the scanner consumes *)

Notation len := String.length.

Lemma skip_ws_le s : (len (skip_ws s) ≤ len s)%nat.
Proof. induction s as [|c s IH]; simpl; [done|]. destruct (is_ws c); simpl; lia. Qed.

Lemma scan_string_lt n s raw r : (len s ≤ n)%nat → scan_string s = Some (raw, r) → (len r < len s)%nat.
Proof.
  revert s raw r. induction n as [|n IH]; intros s raw r Hn; [by destruct s; [|simpl in Hn; lia]|].
  destruct s as [|c s]; [done|]. simpl in Hn. cbn [scan_string len].
  case_bool_decide; [intros [= _ <-]; lia|]. destruct (code c <? 32)%Z; [done|].
  case_bool_decide.
  - destruct s as [|e s]; [done|]. simpl in Hn. cbn [len]. case_bool_decide.
    + destruct s as [|h1 [|h2 [|h3 [|h4 s]]]]; try done. simpl in Hn. cbn [len].
      repeat (case_match; [|done]).
      destruct (scan_string s) as [[raw' r']|] eqn:Hs; [|done]. simpl. intros [= _ <-].
      apply IH in Hs; lia.
    + destruct (existsb _ _); [|done]. destruct (scan_string s) as [[raw' r']|] eqn:Hs; [|done].
      simpl. intros [= _ <-]. apply IH in Hs; lia.
  - destruct (scan_string s) as [[raw' r']|] eqn:Hs; [|done]. simpl. intros [= _ <-].
    apply IH in Hs; lia.
Qed.

Lemma parse_string_lt s v r : parse_string s = Some (v, r) → (len r < len s)%nat.
Proof.
  unfold parse_string. destruct (scan_string s) as [[raw r']|] eqn:Hs; [|done].
  simpl. intros [= _ <-]. by eapply scan_string_lt.
Qed.

Lemma span_digits_le s d r : span_digits s = (d, r) → (len s = len d + len r)%nat.
Proof.
  revert d r. induction s as [|c s IH]; intros d r; simpl; [by intros [= <- <-]|].
  destruct (is_dec c); [|by intros [= <- <-]].
  destruct (span_digits s) as [d' r'] eqn:Hs. intros [= <- <-]. simpl. by rewrite (IH _ _ eq_refl).
Qed.

Lemma scan_frac_le s d r : scan_frac s = Some (d, r) → (len r ≤ len s)%nat.
Proof.
  destruct s as [|c s]; simpl; [by intros [= _ <-]|]. case_bool_decide; [|by intros [= _ <-]].
  destruct (span_digits s) as [[|x d'] r'] eqn:Hs; [done|]. intros [= _ <-].
  apply span_digits_le in Hs. simpl in Hs. lia.
Qed.

Lemma scan_exp_le s d r : scan_exp s = Some (d, r) → (len r ≤ len s)%nat.
Proof.
  destruct s as [|c s]; simpl; [by intros [= _ <-]|].
  destruct (_ || _); [|by intros [= _ <-]].
  assert (∀ s1, (len s1 ≤ len s)%nat → ∀ g d r, match span_digits s1 with
    | ("", _) => None | (d, r) => Some (String c (g +:+ d), r) end = Some (d, r) →
    (len r ≤ S (len s))%nat) as Hd.
  { intros s1 Hl g d' r' H. destruct (span_digits s1) as [[|x d1] r1] eqn:Hs; [done|].
    apply span_digits_le in Hs. simpl in Hs. injection H as _ <-. lia. }
  destruct s as [|g s]; [by apply Hd|].
  destruct (_ || _); apply Hd; simpl; lia.
Qed.

Lemma scan_number_lt s v r : scan_number s = Some (v, r) → (len r < len s)%nat.
Proof.
  unfold scan_number.
  assert (∀ sign s1, (len s1 ≤ len s)%nat →
    ('(int, s2) ← match s1 with
      | String c s' =>
          if bool_decide (c = "0"%char) then Some (String c "", s')
          else match span_digits s1 with ("", _) => None | r => Some r end
      | "" => None
      end;
     '(frac, s3) ← scan_frac s2; '(exp, s4) ← scan_exp s3;
     Some (sign +:+ int +:+ frac +:+ exp, s4)) = Some (v, r) → (len r < len s)%nat) as H.
  { intros sign s1 Hl H.
    match type of H with mbind _ ?o = _ => destruct o as [[int s2]|] eqn:Hi; [|done] end.
    simpl in H. destruct (scan_frac s2) as [[frac s3]|] eqn:Hf; [|done].
    simpl in H. destruct (scan_exp s3) as [[ex s4]|] eqn:He; [|done]. injection H as _ <-.
    apply scan_frac_le in Hf. apply scan_exp_le in He.
    destruct s1 as [|c s1]; [done|]. case_bool_decide; [injection Hi as _ <-; simpl in *; lia|].
    destruct (span_digits (String c s1)) as [[|x d] r1] eqn:Hs; [done|]. injection Hi as _ <-.
    apply span_digits_le in Hs. simpl in *. lia. }
  destruct s as [|c s]; [done|].
  case_bool_decide; [apply (H (String c "") s)|apply (H "" (String c s))]; simpl; lia.
Qed.

Lemma expect_lt lit s r : expect lit s = Some r → lit ≠ "" → (len r < len s)%nat.
Proof.
  unfold expect. destruct (HasPrefix s lit) eqn:Hp; [|done]. intros [= <-] Hl.
  apply HasPrefix_true in Hp as [t ->]. rewrite drop_string_app, length_app_s.
  destruct lit; simpl; [done|lia].
Qed.

(** Every construct consumes something. *)
Lemma parse_lt n :
  (∀ s v r, parse_value n s = Some (v, r) → (len r < len s)%nat) ∧
  (∀ s v r, parse_elements n s = Some (v, r) → (len r < len s)%nat) ∧
  (∀ s v r, parse_members n s = Some (v, r) → (len r < len s)%nat).
Proof.
  induction n as [|n (IHv&IHe&IHm)]; [by split_and!|].
  split_and!; intros s v r.
  - cbn [parse_value]. cbv zeta. pose proof (skip_ws_le s) as Hws.
    destruct (skip_ws s) as [|c s'] eqn:Hs; [done|]. simpl in Hws. pose proof (skip_ws_le s').
    case_bool_decide.
    { destruct (skip_ws s') as [|c' r']; [done|]. simpl in *.
      case_bool_decide; [intros [= _ <-]; lia|].
      destruct (parse_members n s') as [[kvs r2]|] eqn:Hm; [|done]. intros [= _ <-].
      apply IHm in Hm. lia. }
    case_bool_decide.
    { destruct (skip_ws s') as [|c' r']; [done|]. simpl in *.
      case_bool_decide; [intros [= _ <-]; lia|].
      destruct (parse_elements n s') as [[l r2]|] eqn:He; [|done]. intros [= _ <-].
      apply IHe in He. lia. }
    case_bool_decide.
    { destruct (parse_string s') as [[str r2]|] eqn:Hp; [|done]. intros [= _ <-].
      apply parse_string_lt in Hp. lia. }
    do 3 (case_bool_decide;
      [match goal with |- context [expect ?l ?x] => destruct (expect l x) as [r2|] eqn:Hx; [|done] end;
       intros [= _ <-]; apply expect_lt in Hx; [simpl in Hx; lia|done]|]).
    destruct (scan_number (String c s')) as [[lit r2]|] eqn:Hnum; [|done]. intros [= _ <-].
    apply scan_number_lt in Hnum. simpl in Hnum. lia.
  - cbn [parse_elements]. destruct (parse_value n s) as [[x r1]|] eqn:Hv; [|done].
    cbn [mbind option_bind]. apply IHv in Hv. pose proof (skip_ws_le r1).
    destruct (skip_ws r1) as [|c r2]; [done|]. simpl in *. case_bool_decide.
    + destruct (parse_elements n r2) as [[l r3]|] eqn:He; [|done]. intros [= _ <-].
      apply IHe in He. lia.
    + case_bool_decide; [|done]. intros [= _ <-]. lia.
  - cbn [parse_members]. pose proof (skip_ws_le s). destruct (skip_ws s) as [|q s']; [done|].
    simpl in *. case_bool_decide; [|done].
    destruct (parse_string s') as [[k r1]|] eqn:Hk; [|done]. cbn [mbind option_bind].
    apply parse_string_lt in Hk. pose proof (skip_ws_le r1).
    destruct (skip_ws r1) as [|c r2]; [done|]. simpl in *. case_bool_decide; [|done].
    destruct (parse_value n r2) as [[x r3]|] eqn:Hv; [|done]. cbn [mbind option_bind].
    apply IHv in Hv. pose proof (skip_ws_le r3).
    destruct (skip_ws r3) as [|c' r4]; [done|]. simpl in *. case_bool_decide.
    + destruct (parse_members n r4) as [[kvs r5]|] eqn:Hm; [|done]. intros [= _ <-].
      apply IHm in Hm. lia.
    + case_bool_decide; [|done]. intros [= _ <-]. lia.
Qed.

(** ** Enough fuel *)

Lemma parse_enough n m :
  (n ≤ m)%nat →
  (∀ s, (2 * len s + 1 ≤ n)%nat → parse_value m s = parse_value n s) ∧
  (∀ s, (2 * len s + 2 ≤ n)%nat → parse_elements m s = parse_elements n s) ∧
  (∀ s, (2 * len s + 2 ≤ n)%nat → parse_members m s = parse_members n s).
Proof.
  revert m. induction n as [|n IH]; intros m Hm; [split_and!; lia|].
  destruct m as [|m]; [lia|]. destruct (IH m) as (IHv&IHe&IHm); [lia|]. clear IH Hm.
  destruct (parse_lt n) as (Ltv&Lte&Ltm).
  split_and!; intros s Hn.
  - cbn [parse_value]. cbv zeta. pose proof (skip_ws_le s) as Hws.
    destruct (skip_ws s) as [|c s'] eqn:Hs; [done|]. simpl in Hws.
    by rewrite IHm, IHe by lia.
  - cbn [parse_elements]. rewrite IHv by lia.
    destruct (parse_value n s) as [[x r1]|] eqn:Hv; [|done]. cbn [mbind option_bind].
    apply Ltv in Hv. pose proof (skip_ws_le r1).
    destruct (skip_ws r1) as [|c r2]; [done|]. simpl in *. by rewrite IHe by lia.
  - cbn [parse_members]. pose proof (skip_ws_le s). destruct (skip_ws s) as [|q s']; [done|].
    simpl in *. case_bool_decide; [|done].
    destruct (parse_string s') as [[k r1]|] eqn:Hk; [|done]. cbn [mbind option_bind].
    apply parse_string_lt in Hk. pose proof (skip_ws_le r1).
    destruct (skip_ws r1) as [|c r2]; [done|]. simpl in *. case_bool_decide; [|done].
    rewrite IHv by lia. destruct (parse_value n r2) as [[x r3]|] eqn:Hv; [|done].
    cbn [mbind option_bind]. apply Ltv in Hv. pose proof (skip_ws_le r3).
    destruct (skip_ws r3) as [|c' r4]; [done|]. simpl in *. by rewrite IHm by lia.
Qed.

(** No amount of fuel reads more than [json_fuel]. *)
Lemma parse_value_any n s v r :
  parse_value n s = Some (v, r) → parse_value (json_fuel s) s = Some (v, r).
Proof.
  intros H. destruct (decide (n ≤ json_fuel s)%nat) as [Hn|Hn].
  - by eapply parse_value_mono.
  - rewrite <-H. symmetry. apply (parse_enough (json_fuel s) n); unfold json_fuel in *; lia.
Qed.

(** A text is JSON if some amount of fuel reads it to its end. *)
Definition is_json (s : string) : Prop :=
  ∃ n v r, parse_value n s = Some (v, r) ∧ skip_ws r = "".

Lemma parse_json_complete s : is_Some (parse_json s) ↔ is_json s.
Proof.
  unfold parse_json. split.
  - destruct (parse_value _ s) as [[v r]|] eqn:Hp; [|by intros [? ?]].
    destruct (skip_ws r) eqn:Hr; [|by intros [? ?]]. intros _. by eexists _, v, r.
  - intros (n&v&r&H&Hr). rewrite (parse_value_any _ _ _ _ H), Hr. eauto.
Qed.

(** ** Errors of decoding *)

Definition type_error (e : error) : Prop := ∃ v ty, e = UnmarshalTypeError v ty.

Class DecodesTyped (T : Type) `{FromJson T} :=
  decode_typed j (t : T) e : (jdecode j t).2 = Some e → type_error e.

Ltac typed := intros j t e; destruct j; simpl; try done; intros [= <-]; by eexists _, _.

#[export] Instance string_typed : DecodesTyped string.
Proof. typed. Qed.
#[export] Instance bool_typed : DecodesTyped bool.
Proof. typed. Qed.
#[export] Instance int_typed : DecodesTyped Z.
Proof.
  intros j t e. destruct j; simpl; try done; try (intros [= <-]; by eexists _, _).
  destruct (Atoi literal); [|done]. intros [= <-]. by eexists _, _.
Qed.

#[export] Instance slice_typed {T} `{DecodesTyped T} : DecodesTyped (list T).
Proof.
  intros j t e. destruct j as [| | | |l|]; simpl; try done; try (intros [= <-]; by eexists _, _).
  revert t e. induction l as [|x l IH]; intros t e; simpl; [done|].
  destruct (jdecode x _) as [y e1] eqn:Hx, (decode_elems l (tail t)) as [ys e2] eqn:Hl. simpl.
  destruct e1 as [e1|]; simpl.
  - intros [= <-]. apply (decode_typed x (default jzero (head t))). by rewrite Hx.
  - intros ->. apply (IH (tail t)). by rewrite Hl.
Qed.

Definition field_typed {T} (f : jfield T) : Prop :=
  ∀ j t e, (jf_decode f j t).2 = Some e → type_error e.

Lemma mk_field_typed {T F} `{DecodesTyped F} name (get : T → F) set :
  field_typed (mk_field name get set).
Proof.
  intros j t e. simpl. destruct (jdecode j (get t)) as [v e'] eqn:Hd. simpl.
  intros ->. apply (decode_typed j (get t)). by rewrite Hd.
Qed.

Lemma decode_struct_typed {T} ty (fields : list (jfield T)) j t e :
  Forall field_typed fields → (decode_struct ty fields j t).2 = Some e → type_error e.
Proof.
  intros Hf. destruct j as [| | | | |kvs]; simpl; try done; try (intros [= <-]; by eexists _, _).
  assert (∀ acc, (∀ e, acc.2 = Some e → type_error e) →
    ∀ e, (foldl (decode_member fields) acc kvs).2 = Some e → type_error e) as H.
  { induction kvs as [|kv kvs IH]; intros acc Hacc; simpl; [done|]. apply IH.
    unfold decode_member. destruct (find_field fields kv.1) as [f|] eqn:Hff; [|done].
    destruct (jf_decode f kv.2 acc.1) as [t' e'] eqn:Hd. simpl. intros e0.
    destruct acc.2 as [e1|] eqn:He1; simpl; [intros [= <-]; by apply Hacc|]. intros ->.
    rewrite Forall_forall in Hf. apply (Hf f (find_field_elem _ _ _ Hff) kv.2 acc.1). by rewrite Hd. }
  intros He. by apply (H (t, None)) in He.
Qed.

#[export] Instance Node_typed : DecodesTyped Node.
Proof. intros j t e. apply decode_struct_typed. repeat constructor; apply mk_field_typed. Qed.
#[export] Instance Etcd_typed : DecodesTyped Etcd.
Proof. intros j t e. apply decode_struct_typed. repeat constructor; apply mk_field_typed. Qed.
#[export] Instance Config_typed : DecodesTyped Config.
Proof. intros j t e. apply decode_struct_typed. repeat constructor; apply mk_field_typed. Qed.


(** ** Theorems *)

(** The outcomes of [ConfigFromJSONs] along its branches. *)
Lemma ConfigFromJSONs_cases {X} p q (w : World X) :
  ∃ cfg err w', ConfigFromJSONs p q w = (Val (cfg, err), w') ∧
  ((∃ e, (read_file p w).2 = Some e ∧
      err = Some (ErrorString ("error reading config file: " +:+ Error e))) ∨
   ∃ c, read_file p w = (c, None) ∧
   ((∃ e, (Unmarshal c defaultConfig).2 = Some e ∧ err = Some e) ∨
    ∃ cfg1, Unmarshal c defaultConfig = (cfg1, None) ∧
    ((∃ e, (read_file q w).2 = Some e ∧
        err = Some (ErrorString ("error reading link config file: " +:+ Error e))) ∨
     ∃ c2, read_file q w = (c2, None) ∧
     (c2 = "" ∧ err = None ∨ c2 ≠ "" ∧ err = (Unmarshal c2 (cfg_Etcd cfg1)).2)))).
Proof.
  unfold ConfigFromJSONs. steps.
  destruct (read_file p w) as [c [e|]] eqn:Hp; steps.
  { eexists _, _, _. split; [done|]. left. by exists e. }
  destruct (Unmarshal c defaultConfig) as [cfg1 [e|]] eqn:Hu; steps.
  { eexists _, _, _. split; [done|]. right. exists c. split; [done|]. left.
    exists e. by rewrite Hu. }
  destruct (read_file q w) as [c2 [e|]] eqn:Hq; steps.
  { eexists _, _, _. split; [done|]. right. exists c. split; [done|]. right. exists cfg1.
    split; [done|]. left. by exists e. }
  destruct c2 as [|x c2]; steps.
  { eexists _, _, _. split; [done|]. right. exists c. split; [done|]. right. exists cfg1.
    split; [done|]. right. exists "". split; [done|]. by left. }
  destruct (Unmarshal (String x c2) (cfg_Etcd cfg1)) as [etcd [e|]] eqn:Hu2;
    cbn [String.length Nat.ltb Nat.leb]; steps; eexists _, _, _; (split; [done|]); right;
    exists c; (split; [done|]); right; exists cfg1; (split; [done|]); right;
    exists (String x c2); (split; [done|]); right;
    (split; [done|by rewrite Hu2]).
Qed.


(** *** Types of the files *)

(** The values the configuration's types take; [null] is taken everywhere. *)
Definition fits_string (j : json) : bool :=
  match j with JNull | JString _ => true | _ => false end.
Definition fits_bool (j : json) : bool :=
  match j with JNull | JBool _ => true | _ => false end.
Definition fits_int (j : json) : bool :=
  match j with
  | JNull => true
  | JNumber lit => match Atoi lit with inr _ => true | inl _ => false end
  | _ => false
  end.
Definition fits_list (p : json → bool) (j : json) : bool :=
  match j with JNull => true | JArray l => forallb p l | _ => false end.

(** The value that goes with a key: under its exact name, or up to case. *)
Definition schema : Type := list (string * (json → bool)).
Definition schema_find (sch : schema) (key : string) : option (json → bool) :=
  match first_match (λ f, bool_decide (f.1 = key)) sch with
  | Some f => Some f.2
  | None => snd <$> first_match (λ f, bool_decide (fold_key f.1 = fold_key key)) sch
  end.
Definition fits_struct (sch : schema) (j : json) : bool :=
  match j with
  | JNull => true
  | JObject kvs => forallb (λ kv, match schema_find sch kv.1 with Some p => p kv.2 | None => true end) kvs
  | _ => false
  end.

(** The two files: the link file holds the inner part of the config file. *)
Definition fits_link : json → bool := fits_struct [
  ("etcd_path", fits_string); ("cert_dir", fits_string); ("run_dir", fits_string);
  ("data_dir", fits_string); ("heartbeat_interval_in_milliseconds", fits_int);
  ("election_timeout_in_milliseconds", fits_int); ("peer_require_ssl", fits_bool);
  ("peer_ip", fits_string); ("require_ssl", fits_bool); ("client_ip", fits_string);
  ("advertise_urls_dns_suffix", fits_string); ("Machines", fits_list fits_string);
  ("enable_debug_logging", fits_bool)].
Definition fits_config : json → bool := fits_struct [
  ("Node", fits_struct [("Name", fits_string); ("Index", fits_int); ("external_ip", fits_string)]);
  ("Etcd", fits_link)].

(** A text that is JSON and fits, and one that is JSON and does not. *)
Definition well_typed (p : json → bool) (c : string) : Prop := ∃ j, parse_json c = Some j ∧ p j = true.
Definition mistyped (p : json → bool) (c : string) : Prop := ∃ j, parse_json c = Some j ∧ p j = false.

(** Decoding a [T] succeeds exactly for the values that fit. *)
Definition decodes_fitting (T : Type) `{FromJson T} (p : json → bool) : Prop :=
  ∀ j (t : T), (jdecode j t).2 = None ↔ p j = true.

Lemma first_error_None (e1 e2 : option error) : first_error e1 e2 = None ↔ e1 = None ∧ e2 = None.
Proof. destruct e1; simpl; naive_solver. Qed.

Lemma string_fitting : decodes_fitting string fits_string.
Proof. intros j t. by destruct j. Qed.
Lemma bool_fitting : decodes_fitting bool fits_bool.
Proof. intros j t. by destruct j. Qed.
Lemma int_fitting : decodes_fitting Z fits_int.
Proof. intros j t. destruct j; simpl; try done. by destruct (Atoi literal). Qed.

Lemma list_fitting {T} `{FromJson T} p : decodes_fitting T p → decodes_fitting (list T) (fits_list p).
Proof.
  intros Hp j t. destruct j as [| | | |l|]; try done. cbn [jdecode slice_FromJson fits_list].
  revert t. induction l as [|x l IH]; intros t; simpl; [done|].
  pose proof (Hp x (default jzero (head t))) as Hx. specialize (IH (tail t)).
  destruct (jdecode x _) as [y e1], (decode_elems l (tail t)) as [ys e2]. simpl in *.
  by rewrite first_error_None, Hx, IH, andb_true_iff.
Qed.

Definition field_fitting {T} (f : jfield T) (s : string * (json → bool)) : Prop :=
  jf_name f = s.1 ∧ ∀ j t, (jf_decode f j t).2 = None ↔ s.2 j = true.

Lemma mk_field_fitting {T F} `{FromJson F} name (get : T → F) set p :
  decodes_fitting F p → field_fitting (mk_field name get set) (name, p).
Proof.
  intros Hp. split; [done|]. intros j t. simpl. pose proof (Hp j (get t)) as H1.
  by destruct (jdecode j (get t)).
Qed.

Lemma first_match_fitting {T} (q : string → bool) (fields : list (jfield T)) sch :
  Forall2 field_fitting fields sch →
  match first_match (λ f, q (jf_name f)) fields, first_match (λ s, q s.1) sch with
  | Some f, Some s => field_fitting f s
  | None, None => True
  | _, _ => False
  end.
Proof.
  unfold first_match. induction 1 as [|f s fields sch Hfs _ IH]; simpl; [done|].
  destruct Hfs as [Hn Hd]. rewrite Hn. by destruct (q s.1).
Qed.

Lemma find_field_fitting {T} (fields : list (jfield T)) sch key :
  Forall2 field_fitting fields sch →
  match find_field fields key, schema_find sch key with
  | Some f, Some p => ∀ j t, (jf_decode f j t).2 = None ↔ p j = true
  | None, None => True
  | _, _ => False
  end.
Proof.
  intros H. unfold find_field, schema_find.
  pose proof (first_match_fitting (λ n, bool_decide (n = key)) fields sch H) as H1.
  pose proof (first_match_fitting (λ n, bool_decide (fold_key n = fold_key key)) fields sch H) as H2.
  simpl in *. destruct (first_match _ fields) as [f|], (first_match _ sch) as [s|]; try done; [by destruct H1|].
  destruct (first_match _ fields) as [f|], (first_match _ sch) as [s|]; try done. by destruct H2.
Qed.

Lemma struct_fitting {T} `{FromJson T} ty (fields : list (jfield T)) sch :
  (∀ j (t : T), jdecode j t = decode_struct ty fields j t) →
  Forall2 field_fitting fields sch → decodes_fitting T (fits_struct sch).
Proof.
  intros Heq Hf j t. rewrite Heq. destruct j as [| | | | |kvs]; simpl; try done.
  assert (∀ acc : T * option error, (foldl (decode_member fields) acc kvs).2 = None ↔ acc.2 = None ∧
    forallb (λ kv, match schema_find sch kv.1 with Some p => p kv.2 | None => true end) kvs = true) as Hacc.
  { induction kvs as [|kv kvs IH]; intros acc; simpl; [naive_solver|].
    rewrite IH, andb_true_iff. unfold decode_member.
    pose proof (find_field_fitting fields sch kv.1 Hf) as Hk.
    destruct (find_field fields kv.1) as [f|], (schema_find sch kv.1) as [p|]; try done; [|naive_solver].
    specialize (Hk kv.2 acc.1). destruct (jf_decode f kv.2 acc.1) as [t' e']. simpl in *.
    rewrite first_error_None, Hk. naive_solver. }
  rewrite Hacc. naive_solver.
Qed.

Ltac fields_fit :=
  repeat (apply Forall2_cons; split; [apply mk_field_fitting|]); try by constructor.

Lemma Node_fitting : decodes_fitting Node
  (fits_struct [("Name", fits_string); ("Index", fits_int); ("external_ip", fits_string)]).
Proof.
  apply (struct_fitting "config.Node" Node_fields); [done|].
  fields_fit; first [apply string_fitting|apply int_fitting].
Qed.

Lemma Etcd_fitting : decodes_fitting Etcd fits_link.
Proof.
  apply (struct_fitting "config.Etcd" Etcd_fields); [done|].
  fields_fit; first [apply string_fitting|apply int_fitting|apply bool_fitting
                    |apply list_fitting, string_fitting].
Qed.

Lemma Config_fitting : decodes_fitting Config fits_config.
Proof.
  apply (struct_fitting "config.Config" Config_fields); [done|].
  fields_fit; [apply Node_fitting|apply Etcd_fitting].
Qed.

(** The three verdicts on a text. *)
Lemma Unmarshal_fitting {T} `{DecodesTyped T} p c (t : T) :
  decodes_fitting T p →
  ((Unmarshal c t).2 = None ∧ well_typed p c ∧ ¬ mistyped p c ∧ is_json c) ∨
  ((Unmarshal c t).2 = Some SyntaxError ∧ ¬ well_typed p c ∧ ¬ mistyped p c ∧ ¬ is_json c) ∨
  ∃ v ty, (Unmarshal c t).2 = Some (UnmarshalTypeError v ty) ∧
    ¬ well_typed p c ∧ mistyped p c ∧ is_json c.
Proof.
  intros Hp. setoid_rewrite <-parse_json_complete. unfold Unmarshal, well_typed, mistyped.
  destruct (parse_json c) as [j|]; simpl.
  2: { right; left. split; [done|]. split; [naive_solver|]. split; [naive_solver|]. by intros [??]. }
  pose proof (Hp j t) as Hj. destruct (p j) eqn:Hpj.
  - left. split; [by apply Hj|]. split; [eauto|]. split; [|eauto]. intros (?&[= <-]&?). congruence.
  - right; right. destruct (jdecode j t).2 as [e|] eqn:He; [|discriminate (proj1 Hj eq_refl)].
    destruct (decode_typed j t e He) as (v&ty&->). exists v, ty. split; [done|].
    split; [intros (?&[= <-]&?); congruence|]. split; eauto.
Qed.

(** C26: [ConfigFromJSONs] succeeds exactly if both files can be read, the config
    file is JSON whose members have the types of the configuration, and the link
    file is empty or JSON whose members have the types of the [Etcd] part (keys
    up to case, [null] everywhere, other keys ignored); otherwise it fails with
    the error of the first of these that does not hold: the prefixed read error
    of the config file, its syntax or type error, the prefixed read error of the
    link file, its syntax or type error. *)
Theorem ConfigFromJSONs_verdict {X} p q (w : World X) :
  let config_ok c := well_typed fits_config c in
  ∃ cfg err w', ConfigFromJSONs p q w = (Val (cfg, err), w') ∧
    (err = None ↔ ∃ c c2, read_file p w = (c, None) ∧ config_ok c ∧
       read_file q w = (c2, None) ∧ (c2 = "" ∨ well_typed fits_link c2)) ∧
    (∀ e, (read_file p w).2 = Some e →
       err = Some (ErrorString ("error reading config file: " +:+ Error e))) ∧
    (∀ c e, read_file p w = (c, None) → config_ok c → (read_file q w).2 = Some e →
       err = Some (ErrorString ("error reading link config file: " +:+ Error e))) ∧
    ((∃ v ty, err = Some (UnmarshalTypeError v ty)) ↔
       ∃ c, read_file p w = (c, None) ∧ (mistyped fits_config c ∨
         config_ok c ∧ ∃ c2, read_file q w = (c2, None) ∧ mistyped fits_link c2)) ∧
    (err = Some SyntaxError ↔
       ∃ c, read_file p w = (c, None) ∧ (¬ is_json c ∨
         config_ok c ∧ ∃ c2, read_file q w = (c2, None) ∧ c2 ≠ "" ∧ ¬ is_json c2)).
Proof.
  intros config_ok. destruct (ConfigFromJSONs_cases p q w) as (cfg&err&w'&H&Hc). exists cfg, err, w'.
  split; [exact H|]. clear H.
  destruct Hc as [(e&He& ->)|(c&Hp&Hc)].
  { destruct (read_file p w) as [c0 e0]. simpl in He. subst e0. naive_solver. }
  rewrite Hp. pose proof (Unmarshal_fitting fits_config c defaultConfig Config_fitting) as Hf.
  fold (config_ok c) in Hf.
  destruct Hc as [(e&He& ->)|(cfg1&Hu&Hc)].
  { rewrite He in Hf. destruct Hf as [([=]&_)|[([= ->]&?&?&?)|(v&ty&[= ->]&?&?&?)]]; naive_solver. }
  rewrite Hu in Hf. destruct Hf as [(_&Hok&Hm&Hj)|[([=]&_)|(?&?&[=]&_)]].
  destruct Hc as [(e&He& ->)|(c2&Hq&Hc)].
  { destruct (read_file q w) as [c0 e0]. simpl in He. subst e0. naive_solver. }
  rewrite Hq. assert (¬ mistyped fits_link "") as Hempty by (intros (j&Hj'&_); by vm_compute in Hj').
  destruct Hc as [[-> ->]|[Hne ->]]; [naive_solver|].
  destruct (Unmarshal_fitting fits_link c2 (cfg_Etcd cfg1) Etcd_fitting)
    as [(He&?&?&?)|[(He&?&?&?)|(v&ty&He&?&?&?)]]; rewrite He; naive_solver.
Qed.
