(* ===== verification/JsonEncode.v ===== *)
(** * [json.Marshal] of strings

    [encodeState.string] of Go 1.8 with HTML escaping, [Marshal] of a slice of
    strings, and the round trip through the scanner for valid UTF-8. *)
From S2P Require Import Prelude GoStrings GoPath Machine GoJson JsonFacts JsonFuel.

Open Scope Z_scope.

(** ** Encoding *)

(** The bytes below 128 that are copied: [htmlSafeSet]. *)
Definition html_safe (c : ascii) : bool :=
  (32 <=? code c) && negb (existsb (Z.eqb (code c)) [34; 92; 60; 62; 38]).

Definition escape_byte (c : ascii) : string :=
  if existsb (Z.eqb (code c)) [92; 34] then String "\" (String c "")
  else if code c =? 10 then "\n" else if code c =? 13 then "\r" else if code c =? 9 then "\t"
  else "\u00" +:+ String (hex_digit (Z.to_nat (code c / 16)))
                    (String (hex_digit (Z.to_nat (code c mod 16))) "").

(** U+2028 and U+2029. *)
Definition line_separator (r : string) : option string :=
  match r with
  | String a (String b (String c "")) =>
      if bool_decide (code a = 226 ∧ code b = 128 ∧ code c = 168) then Some "\u2028"
      else if bool_decide (code a = 226 ∧ code b = 128 ∧ code c = 169) then Some "\u2029"
      else None
  | _ => None
  end.

(** One rune of [n] bytes at the start of [s]. *)
Definition encode_rune (n : nat) (s : string) : string :=
  match s with
  | "" => ""
  | String c _ =>
      if code c <? 128 then if html_safe c then String c "" else escape_byte c
      else default (take_string n s) (line_separator (take_string n s))
  end.

Fixpoint encode_runes (fuel : nat) (s : string) : string :=
  match fuel with
  | O => ""
  | S fuel =>
      match s with
      | "" => ""
      | String _ s' =>
          match utf8_len s with
          | Some n => encode_rune n s +:+ encode_runes fuel (drop_string n s)
          | None => "\ufffd" +:+ encode_runes fuel s'
          end
      end
  end.

Definition Marshal_string (s : string) : string :=
  String dquote (encode_runes (len s) s +:+ String dquote "").

(** [json.Marshal(l)] for a slice that is not nil; it has no error. *)
Definition Marshal_strings (l : list string) : string :=
  "[" +:+ Join "," (Marshal_string <$> l) +:+ "]".

Example Marshal_examples :
  Marshal_strings ["--name"; "a<b>&" +:+ String "009" "é"; "x\y"; ""] =
    single_quoted "['--name','a\u003cb\u003e\u0026\té','x\\y','']" ∧
  Marshal_strings [] = "[]" ∧
  Marshal_string (String (chr 255) "") = single_quoted "'\ufffd'" ∧
  Marshal_string (utf8_encode 8232) = single_quoted "'\u2028'".
Proof. by vm_compute. Qed.

(** ** Valid UTF-8 *)

Fixpoint valid_runes (fuel : nat) (s : string) : bool :=
  match fuel with
  | O => true
  | S fuel =>
      match s with
      | "" => true
      | String _ _ =>
          match utf8_len s with
          | Some n => valid_runes fuel (drop_string n s)
          | None => false
          end
      end
  end.

(** [utf8.ValidString(s)]. *)
Definition ValidString (s : string) : bool := valid_runes (len s) s.

(** ** Lemmas: one rune *)

(** What [utf8_len] accepts: one byte below 128, or bytes from 128 on. *)
Lemma utf8_len_cases s n :
  utf8_len s = Some n →
  (∃ c s', s = String c s' ∧ n = 1%nat ∧ (code c <? 128) = true) ∨
  (∃ r s', s = r +:+ s' ∧ len r = n ∧ (2 ≤ n)%nat ∧ all_chars (λ c, 128 <=? code c) r = true ∧
     ∀ z, utf8_len (r +:+ z) = Some n).
Proof.
  destruct s as [|c0 s0]; [done|]. cbn [utf8_len].
  destruct (code c0 <? 128) eqn:H0; [intros [= <-]; left; eauto|]. intros H. right.
  assert (128 <=? code c0 = true) as H0' by (apply Z.ltb_ge in H0; by apply Z.leb_le).
  assert (∀ lo hi c, 128 <= lo → in_range lo hi c = true → (128 <=? code c) = true) as Hr.
  { intros lo hi c Hlo [Hc _]%andb_true_iff. apply Z.leb_le in Hc. apply Z.leb_le. lia. }
  destruct s0 as [|c1 s1]; [done|].
  destruct (in_range 194 223 c0 && in_range 128 191 c1) eqn:E2.
  { injection H as <-. exists (String c0 (String c1 "")), s1.
    pose proof E2 as [_ Hc1]%andb_true_iff. split_and!; [done..| |].
    - cbn [all_chars]. rewrite H0', (Hr 128 191 c1) by done. done.
    - intros z. rewrite !app_cons_s. cbn [utf8_len]. by rewrite H0, E2. }
  destruct s1 as [|c2 s2]; [done|]. cbv zeta in H.
  match type of H with (if ?b then _ else _) = _ => destruct b eqn:E3 end.
  { injection H as <-. exists (String c0 (String c1 (String c2 ""))), s2.
    pose proof E3 as [[_ Hc1]%andb_true_iff Hc2]%andb_true_iff. split_and!; [done..|lia| |].
    - cbn [all_chars]. rewrite H0', (Hr 128 191 c2) by done.
      erewrite (Hr _ _ c1); [done| |exact Hc1]. case_bool_decide; lia.
    - intros z. rewrite !app_cons_s. cbn [utf8_len]. cbv zeta. by rewrite H0, E2, E3. }
  destruct s2 as [|c3 s3]; [done|].
  match type of H with (if ?b then _ else _) = _ => destruct b eqn:E4; [|done] end.
  injection H as <-. exists (String c0 (String c1 (String c2 (String c3 "")))), s3.
  pose proof E4 as [[[_ Hc1]%andb_true_iff Hc2]%andb_true_iff Hc3]%andb_true_iff.
  split_and!; [done..|lia| |].
  - cbn [all_chars]. rewrite H0', (Hr 128 191 c2), (Hr 128 191 c3) by done.
    erewrite (Hr _ _ c1); [done| |exact Hc1]. case_bool_decide; lia.
  - intros z. rewrite !app_cons_s. cbn [utf8_len]. cbv zeta. by rewrite H0, E2, E3, E4.
Qed.

Lemma take_string_len u s : take_string (len u) (u +:+ s) = u.
Proof. induction u as [|x u IH]; [done|]. rewrite app_cons_s. simpl. by rewrite IH. Qed.

(** A piece [p] of a literal that stands for the text [t]. *)
Definition piece (p t : string) : Prop :=
  p ≠ "" ∧
  (∀ z, scan_string (p +:+ z) = '(raw, r) ← scan_string z; Some (p +:+ raw, r)) ∧
  (∀ k z, unquote (S k) (p +:+ z) = t +:+ unquote k z).

Lemma unquote_simple e z k :
  e ≠ "u"%char →
  unquote (S k) (String "\" (String e z)) = String (simple_escape e) (unquote k z).
Proof.
  intros He. assert (getu4 (String "\" (String e z)) = None) as Hg.
  { do 4 (destruct z as [|? z]; [done|]). simpl. by rewrite bool_decide_false. }
  cbn [unquote]. rewrite bool_decide_true by done. by rewrite Hg.
Qed.

Lemma piece_ascii c :
  (code c <? 128) = true → piece (if html_safe c then String c "" else escape_byte c) (String c "").
Proof.
  destruct c as [[] [] [] [] [] [] [] []]; intros H; try discriminate H; clear H;
    (split; [discriminate|split; intros; first [reflexivity|by apply unquote_simple]]).
Qed.

Lemma scan_high r z :
  all_chars (λ c, 128 <=? code c) r = true →
  scan_string (r +:+ z) = '(raw, t) ← scan_string z; Some (r +:+ raw, t).
Proof.
  induction r as [|c r IH]; cbn [all_chars].
  { intros _. change ("" +:+ z) with z. by destruct (scan_string z) as [[]|]. }
  intros [Hc%Z.leb_le Hr]%andb_true_iff. rewrite app_cons_s. cbn [scan_string].
  rewrite bool_decide_false by (intros ->; vm_compute in Hc; done).
  rewrite (proj2 (Z.ltb_ge _ _)) by lia. rewrite bool_decide_false by lia.
  rewrite IH by done. destruct (scan_string z) as [[raw t]|]; [|done].
  cbn [mbind option_bind]. by rewrite app_cons_s.
Qed.

Lemma piece_high r n :
  len r = n → (2 ≤ n)%nat → all_chars (λ c, 128 <=? code c) r = true →
  (∀ z, utf8_len (r +:+ z) = Some n) → piece r r.
Proof.
  intros Hn H2 Hr Hu. split; [intros ->; simpl in Hn; lia|].
  split; [intros z; by apply scan_high|]. intros k z.
  specialize (Hu z). destruct r as [|c r]; [simpl in Hn; lia|]. rewrite app_cons_s in *.
  cbn [unquote]. simpl in Hr. apply andb_true_iff in Hr as [Hc%Z.leb_le _].
  rewrite bool_decide_false by lia. rewrite Hu, <-Hn, <-app_cons_s.
  by rewrite (take_string_len (String c r)), drop_string_app.
Qed.

Lemma line_separator_spec r p :
  line_separator r = Some p → piece p r.
Proof.
  destruct r as [|a [|b [|c [|]]]]; try done. unfold line_separator.
  assert (∀ d n, code d = n → d = chr n) as Hchr.
  { intros d n <-. unfold chr, code. by rewrite N2Z.id, ascii_N_embedding. }
  case_bool_decide as H1; [|case_bool_decide as H2; [|done]]; intros [= <-];
    destruct_and!; rewrite (Hchr a _ ltac:(done)), (Hchr b _ ltac:(done)), (Hchr c _ ltac:(done));
    (split; [discriminate|split; intros; reflexivity]).
Qed.

Lemma encode_piece s n :
  utf8_len s = Some n → piece (encode_rune n s) (take_string n s) ∧
    (len (drop_string n s) < len s)%nat ∧ s = take_string n s +:+ drop_string n s.
Proof.
  intros Hn. destruct (utf8_len_cases s n Hn) as [(c&s'&->&->&Hc)|(r&s'&->&Hl&H2&Hr&Hu)].
  - unfold encode_rune. rewrite Hc. split; [by apply piece_ascii|]. split; [simpl; lia|done].
  - assert (take_string n (r +:+ s') = r) as Ht by (rewrite <-Hl; apply take_string_len).
    assert (drop_string n (r +:+ s') = s') as Hd by (rewrite <-Hl; apply drop_string_app).
    rewrite Ht, Hd. split; [|split; [rewrite length_app_s; lia|done]].
    assert (encode_rune n (r +:+ s') = default r (line_separator r)) as ->.
    { unfold encode_rune. rewrite Ht. destruct r as [|c r]; [simpl in Hl; lia|].
      rewrite app_cons_s. simpl in Hr. apply andb_true_iff in Hr as [Hc%Z.leb_le _].
      by rewrite (proj2 (Z.ltb_ge _ _)) by lia. }
    destruct (line_separator r) as [p|] eqn:Hp; [by apply line_separator_spec|].
    by apply (piece_high r n).
Qed.

(** ** The round trip *)

Lemma encode_scans n s :
  (len s ≤ n)%nat → valid_runes n s = true →
  (∀ rest, scan_string (encode_runes n s +:+ String dquote rest) = Some (encode_runes n s, rest)) ∧
  ∀ k, (len (encode_runes n s) ≤ k)%nat → unquote k (encode_runes n s) = s.
Proof.
  revert s. induction n as [|n IH]; intros s Hl Hv.
  { destruct s; [|simpl in Hl; lia]. split; [done|]. by intros []. }
  destruct s as [|c s]; [split; [done|by intros []]|].
  cbn [encode_runes valid_runes] in *. destruct (utf8_len (String c s)) as [m|] eqn:Hm; [|done].
  destruct (encode_piece _ _ Hm) as ((Hne&Hscan&Hun)&Hlt&Hs).
  set (p := encode_rune m (String c s)) in *. set (t := take_string m (String c s)) in *.
  destruct (IH (drop_string m (String c s))) as [Hsc Huq]; [lia|done|].
  split.
  - intros rest. rewrite <-app_assoc_s, Hscan, Hsc. done.
  - intros k Hk. rewrite length_app_s in Hk.
    destruct k as [|k]; [destruct p; [done|simpl in Hk; lia]|].
    rewrite Hun, Huq; [by rewrite <-Hs|]. destruct p; [done|simpl in Hk; lia].
Qed.

Lemma parse_Marshal_string s rest :
  ValidString s = true →
  parse_string (encode_runes (len s) s +:+ String dquote rest) = Some (s, rest).
Proof.
  intros Hv. destruct (encode_scans (len s) s) as [Hs Hu]; [done..|].
  unfold parse_string. rewrite Hs. cbn [mbind option_bind]. by rewrite Hu.
Qed.

Lemma value_Marshal_string n s rest :
  ValidString s = true →
  parse_value (S n) (Marshal_string s +:+ rest) = Some (JString s, rest).
Proof.
  intros Hv. unfold Marshal_string. rewrite app_cons_s, <-app_assoc_s.
  change (String dquote "" +:+ rest) with (String dquote rest).
  pose proof (parse_Marshal_string s rest Hv) as Hp. revert Hp.
  generalize (encode_runes (len s) s +:+ String dquote rest). intros x Hp.
  cbn [parse_value]. change (skip_ws (String dquote x)) with (String dquote x). cbn iota.
  by rewrite bool_decide_false, bool_decide_false, bool_decide_true, Hp by done.
Qed.

Lemma elements_cons n s v r r' l r'' :
  parse_value n s = Some (v, r) → skip_ws r = String "," r' →
  parse_elements n r' = Some (l, r'') → parse_elements (S n) s = Some (v :: l, r'').
Proof.
  intros Hv Hr Hl. cbn [parse_elements]. rewrite Hv. cbn [mbind option_bind].
  by rewrite Hr, bool_decide_true, Hl by done.
Qed.

Lemma elements_Marshal n l x :
  Forall (λ s, ValidString s = true) (x :: l) → (length l < n)%nat →
  parse_elements (S n) (Join "," (Marshal_string <$> x :: l) +:+ "]") =
  Some (JString <$> x :: l, "").
Proof.
  revert n x. induction l as [|y l IH]; intros n x [Hx Hl]%Forall_cons Hn;
    (destruct n as [|n]; [lia|]).
  - cbn [parse_elements fmap list_fmap Join]. rewrite value_Marshal_string by done. done.
  - cbn [fmap list_fmap]. rewrite Join_cons, <-!app_assoc_s.
    remember (Join "," (Marshal_string y :: (Marshal_string <$> l)) +:+ "]") as rest eqn:Hrest.
    simpl in Hn. pose proof (IH n y Hl ltac:(lia)) as Hy. cbn [fmap list_fmap] in Hy.
    rewrite <-Hrest in Hy.
    eapply elements_cons; [by apply value_Marshal_string|reflexivity|exact Hy].
Qed.

Lemma length_Join_Marshal l : (length l ≤ len (Join "," (Marshal_string <$> l)))%nat.
Proof.
  induction l as [|x [|y l] IH]; [done| |].
  - simpl. lia.
  - cbn [fmap list_fmap length] in *. rewrite Join_cons, !length_app_s. simpl (len ","). lia.
Qed.

(** [json.Unmarshal] inverts [json.Marshal] on slices of valid strings. *)
Lemma Unmarshal_Marshal_strings (l : list string) :
  Forall (λ s, ValidString s = true) l → Unmarshal (Marshal_strings l) ([] : list string) = (l, None).
Proof.
  intros Hl. unfold Unmarshal.
  assert (parse_json (Marshal_strings l) = Some (JArray (JString <$> l))) as ->.
  { destruct l as [|x l]; [done|].
    apply (parse_json_fuel (S (S (S (length l))))).
    - pose proof (length_Join_Marshal (x :: l)) as Hj. unfold json_fuel, Marshal_strings.
      rewrite !length_app_s. simpl length in *. simpl (len "["). lia.
    - unfold Marshal_strings. pose proof (elements_Marshal (S (length l)) l x Hl ltac:(lia)) as He.
      assert (∃ t, Join "," (Marshal_string <$> x :: l) +:+ "]" = String dquote t) as [t Ht].
      { cbn [fmap list_fmap]. destruct l as [|y l].
        - cbn [fmap list_fmap Join]. unfold Marshal_string. rewrite app_cons_s. by eexists.
        - cbn [fmap list_fmap]. rewrite Join_cons. unfold Marshal_string at 1.
          rewrite !app_cons_s. by eexists. }
      rewrite Ht in *. change ("[" +:+ ?t) with (String "[" t).
      by eapply value_array; [reflexivity|reflexivity| |exact He]. }
  change (jdecode (JArray ?x) ?old) with (decode_elems x old). clear Hl.
  induction l as [|x l IH]; [done|].
  change (JString <$> x :: l) with (JString x :: (JString <$> l)).
  cbn [decode_elems tail]. by rewrite IH.
Qed.
