(* ===== verification/UrlFacts.v ===== *)
(** * URLs with a plain host and a plain path

    [url.Parse] of ["http://<host>/<path>"] for the characters that need no
    escaping. *)
From S2P Require Import Prelude GoStrings GoPath Machine GoUrl.

Open Scope Z_scope.

Lemma has_char_cons_false c d s :
  has_char c (String d s) = false → c ≠ d ∧ has_char c s = false.
Proof. simpl. intros [?%bool_decide_eq_false ?]%orb_false_iff. done. Qed.

(** Numbers, letters, dashes, dots and colons; in a path also slashes. *)
Definition plain_path (c : ascii) : bool := plain_host c || bool_decide (c = "/"%char).

Lemma plain_path_spec c :
  plain_path c = true → c ≠ "%"%char ∧ c ≠ "#"%char ∧ c ≠ "?"%char.
Proof.
  intros Hc. split_and!; intros ->; discriminate Hc.
Qed.

Lemma unescape_path s : all_chars plain_path s = true → unescape s encodePath = inr s.
Proof.
  induction s as [|c s IH]; [done|]. cbn [all_chars]. intros [Hc Hs]%andb_true_iff.
  rewrite unescape_cons by (by apply plain_path_spec). simpl. by rewrite IH.
Qed.

Lemma split_no_char d b s : has_char d s = false → split d b s = (s, "").
Proof.
  induction s as [|c s IH]; [done|]. intros [Hc Hs]%has_char_cons_false. simpl.
  rewrite bool_decide_false by congruence. by rewrite IH.
Qed.

Lemma count_no_char d s : has_char d s = false → count_char d s = O.
Proof.
  induction s as [|c s IH]; [done|]. intros [Hc Hs]%has_char_cons_false. simpl.
  rewrite bool_decide_false by congruence. by rewrite IH.
Qed.

Lemma split_at_slash a s :
  has_char "/" a = false → split "/" false (a +:+ String "/" s) = (a, String "/" s).
Proof.
  induction a as [|c a IH]; [done|]. intros [Hc Ha]%has_char_cons_false.
  rewrite app_cons_s. simpl. rewrite bool_decide_false by congruence. by rewrite IH.
Qed.

(** The path of a URL with a plain host and a plain path. *)
Lemma Parse_path host p :
  all_chars plain_host host = true → all_chars plain_path p = true →
  ∃ u, Parse ("http://" +:+ host +:+ String "/" p) = inr u ∧ Path u = String "/" p ∧ Host u = host.
Proof.
  intros Hh Hp.
  assert (∀ d, plain_path d = false → has_char d (host +:+ String "/" p) = false) as Hno.
  { intros d Hd. rewrite has_char_app. apply orb_false_iff. split.
    - apply (all_chars_has plain_host); [done|]. by apply orb_false_iff in Hd as [? _].
    - apply (all_chars_has plain_path); [|done]. simpl. by rewrite Hp. }
  assert (Parse ("http://" +:+ host +:+ String "/" p) =
    match parse_url ("http://" +:+ host +:+ String "/" p) with
    | inl e => inl ("parse " +:+ ("http://" +:+ host +:+ String "/" p) +:+ ": " +:+ e)
    | inr url => inr url end) as ->.
  { unfold Parse. rewrite split_no_char by (rewrite has_char_app, Hno; done).
    by destruct (parse_url _) as [|[]]. }
  unfold parse_url. rewrite bool_decide_false by done.
  change (getscheme ("http://" +:+ host +:+ String "/" p)) with
    (inr ("http", "//" +:+ host +:+ String "/" p) : string + string * string).
  change (ToLower "http") with "http". cbn iota.
  assert (cut_query ("//" +:+ host +:+ String "/" p) = ("//" +:+ host +:+ String "/" p, false, ""))
    as ->.
  { unfold cut_query. rewrite split_no_char by (rewrite has_char_app, Hno; done).
    rewrite count_no_char by (rewrite has_char_app, Hno; done). done. }
  change (HasPrefix ("//" +:+ ?x) "/") with true. change (HasPrefix ("//" +:+ ?x) "//") with true.
  cbn [negb andb]. rewrite bool_decide_false by done. cbn [negb orb andb].
  change (drop_string 2 ("//" +:+ ?x)) with x.
  rewrite split_at_slash by (by apply (all_chars_has plain_host)).
  rewrite parseAuthority_plain by done. cbn [sum_map]. unfold setPath.
  rewrite unescape_path by (simpl; by rewrite Hp). by eexists.
Qed.
