(* ===== verification/GoInt.v ===== *)
(** * Fixed-width integers

    [int32] as a number in [[-2^31, 2^31)] with wrap-around, and
    [sync/atomic.AddInt32]. *)
From S2P Require Import Prelude.

Open Scope Z_scope.

(** [int32(z)]. *)
Definition wrap32 (z : Z) : Z := (z + 2 ^ 31) mod 2 ^ 32 - 2 ^ 31.

(** [atomic.AddInt32(&x, delta)]: the new value of [x]. *)
Definition AddInt32 (x delta : Z) : Z := wrap32 (x + delta).

Lemma wrap32_range z : - 2 ^ 31 ≤ wrap32 z < 2 ^ 31.
Proof. unfold wrap32. pose proof (Z.mod_pos_bound (z + 2 ^ 31) (2 ^ 32)). lia. Qed.

Lemma wrap32_id z : - 2 ^ 31 ≤ z < 2 ^ 31 → wrap32 z = z.
Proof. intros ?. unfold wrap32. rewrite Z.mod_small by lia. lia. Qed.

(** Wrapping is congruent modulo [2^32], so it can be postponed. *)
Lemma wrap32_mod z : wrap32 z mod 2 ^ 32 = z mod 2 ^ 32.
Proof.
  unfold wrap32. rewrite Zminus_mod, Z.mod_mod, <-Zminus_mod by lia.
  f_equal. lia.
Qed.

Lemma wrap32_eq a b : a mod 2 ^ 32 = b mod 2 ^ 32 → wrap32 a = wrap32 b.
Proof. intros H. unfold wrap32. by rewrite (Z.add_mod a), (Z.add_mod b), H by lia. Qed.

Lemma AddInt32_wrap x d : AddInt32 (wrap32 x) d = wrap32 (x + d).
Proof.
  unfold AddInt32. apply wrap32_eq.
  rewrite (Z.add_mod (wrap32 x)), wrap32_mod, <-Z.add_mod by lia. done.
Qed.
