(* ===== verification/GoServe.v ===== *)
(** * Serving HTTP: the server side of [net/http] and [net/url] (Go 1.8)

    [http.ResponseWriter], [http.Error], the patterns of a [ServeMux], the
    query of a URL, and what a request sent to a server of this kind comes back
    with ([deliver]).  Headers are left out: no program here reads one. *)
From S2P Require Import Prelude GoStrings GoPath Machine GoUrl UrlFacts GoJson GoHttp.

Open Scope Z_scope.

(** ** Status codes *)

Definition StatusCreated : Z := 201.
Definition StatusNoContent : Z := 204.
Definition StatusMovedPermanently : Z := 301.
Definition StatusBadRequest : Z := 400.
Definition StatusNotFound : Z := 404.
Definition StatusMethodNotAllowed : Z := 405.
Definition StatusTeapot : Z := 418.
Definition StatusInternalServerError : Z := 500.

Definition status_texts : list (Z * string) := [
  (100, "Continue"); (101, "Switching Protocols"); (102, "Processing"); (200, "OK");
  (201, "Created"); (202, "Accepted"); (203, "Non-Authoritative Information");
  (204, "No Content"); (205, "Reset Content"); (206, "Partial Content"); (207, "Multi-Status");
  (208, "Already Reported"); (226, "IM Used"); (300, "Multiple Choices");
  (301, "Moved Permanently"); (302, "Found"); (303, "See Other"); (304, "Not Modified");
  (305, "Use Proxy"); (307, "Temporary Redirect"); (308, "Permanent Redirect");
  (400, "Bad Request"); (401, "Unauthorized"); (402, "Payment Required"); (403, "Forbidden");
  (404, "Not Found"); (405, "Method Not Allowed"); (406, "Not Acceptable");
  (407, "Proxy Authentication Required"); (408, "Request Timeout"); (409, "Conflict");
  (410, "Gone"); (411, "Length Required"); (412, "Precondition Failed");
  (413, "Request Entity Too Large"); (414, "Request URI Too Long");
  (415, "Unsupported Media Type"); (416, "Requested Range Not Satisfiable");
  (417, "Expectation Failed"); (418, "I'm a teapot"); (422, "Unprocessable Entity");
  (423, "Locked"); (424, "Failed Dependency"); (426, "Upgrade Required");
  (428, "Precondition Required"); (429, "Too Many Requests");
  (431, "Request Header Fields Too Large"); (451, "Unavailable For Legal Reasons");
  (500, "Internal Server Error"); (501, "Not Implemented"); (502, "Bad Gateway");
  (503, "Service Unavailable"); (504, "Gateway Timeout"); (505, "HTTP Version Not Supported");
  (506, "Variant Also Negotiates"); (507, "Insufficient Storage"); (508, "Loop Detected");
  (510, "Not Extended"); (511, "Network Authentication Required")].

(** [http.StatusText(code)]: empty for an unknown code. *)
Definition StatusText (code : Z) : string :=
  match first_match (λ p, bool_decide (p.1 = code)) status_texts with
  | Some p => p.2
  | None => ""
  end.

(** ** [http.ResponseWriter] *)

Record ResponseWriter := mkResponseWriter { rw_status : option Z; rw_body : string }.

Definition fresh_response : ResponseWriter := mkResponseWriter None "".

(** Only the first call counts. *)
Definition WriteHeader (code : Z) (rw : ResponseWriter) : ResponseWriter :=
  match rw_status rw with
  | None => mkResponseWriter (Some code) (rw_body rw)
  | Some _ => rw
  end.

(** [bodyAllowedForStatus]. *)
Definition bodyAllowed (status : Z) : bool :=
  negb (((100 <=? status) && (status <=? 199)) || (status =? 204) || (status =? 304)).

(** [Write] answers 200 if no status was written, and drops the data where the
    status allows no body. *)
Definition Write (data : string) (rw : ResponseWriter) : ResponseWriter :=
  let rw := WriteHeader StatusOK rw in
  if bodyAllowed (default StatusOK (rw_status rw)) then
    mkResponseWriter (rw_status rw) (rw_body rw +:+ data)
  else rw.

(** [http.Error(w, error, code)]. *)
Definition http_Error (error : string) (code : Z) (rw : ResponseWriter) : ResponseWriter :=
  Write (error +:+ String "010" "") (WriteHeader code rw).

(** What the client gets once the handler has returned. *)
Definition finished (rw : ResponseWriter) : Z * string :=
  (default StatusOK (rw_status rw), rw_body rw).

(** ** Requests and handlers *)

Record Request := mkRequest {
  req_Method : string;
  req_URL : URL;
  req_Body : string * option error     (* as [ioutil.ReadAll] reads it *)
}.

Definition Handler (X : Type) : Type := ResponseWriter → Request → M X ResponseWriter.

(** [defer d()] before the rest of a function, [m]: a panic runs it too, and so
    does a return. *)
Definition deferred {X A} (d : M X unit) (m : M X A) : M X A := λ w,
  match m w with
  | (Exited code, w') => (Exited code, w')
  | (o, w') =>
      match d w' with
      | (Val _, w'') => (o, w'')
      | (Panicked msg, w'') => (Panicked msg, w'')
      | (Exited code, w'') => (Exited code, w'')
      end
  end.

(** ** [ServeMux] *)

(** [cleanPath]: rooted, cleaned, with a slash at the end if there was one. *)
Definition ends_in_slash (p : string) : bool :=
  match last (Split "/" p) with Some "" => true | _ => false end.

Definition cleanPath (p : string) : string :=
  if bool_decide (p = "") then "/"
  else
    let p := if HasPrefix p "/" then p else "/" +:+ p in
    let np := Clean p in
    if ends_in_slash p && negb (bool_decide (np = "/")) then np +:+ "/" else np.

(** A pattern that ends in a slash stands for everything below it. *)
Definition pathMatch (pattern path : string) : bool :=
  if ends_in_slash pattern then HasPrefix path pattern else bool_decide (pattern = path).

Inductive target := ToPattern (pattern : string) | ToRedirect (path : string) | ToNotFound.

(** The longest pattern that matches. *)
Definition longest (patterns : list string) (path : string) : option string :=
  foldl (λ acc p,
    if pathMatch p path then
      match acc with
      | Some q => if (String.length q <? String.length p)%nat then Some p else acc
      | None => Some p
      end
    else acc) None patterns.

(** [mux.Handler]: a path that is not clean is redirected to the clean one, and
    a registered ["/tree/"] brings a redirect of ["/tree"] along. *)
Definition mux_target (patterns : list string) (path : string) : target :=
  let clean := cleanPath path in
  if negb (bool_decide (clean = path)) then ToRedirect clean
  else if negb (bool_decide (path ∈ patterns)) && bool_decide (path +:+ "/" ∈ patterns) then
    ToRedirect (path +:+ "/")
  else match longest patterns path with Some p => ToPattern p | None => ToNotFound end.

(** A mux with its handlers; a redirect is answered with its status. *)
Definition ServeMux {X} (handlers : list (string * Handler X)) : Handler X := λ rw req,
  match mux_target handlers.*1 (Path (req_URL req)) with
  | ToPattern p =>
      match first_match (λ h, bool_decide (h.1 = p)) handlers with
      | Some h => h.2 rw req
      | None => mret rw
      end
  | ToRedirect _ => mret (WriteHeader StatusMovedPermanently rw)
  | ToNotFound => mret (http_Error "404 page not found" StatusNotFound rw)
  end.

(** ** The URL of a request on its way *)

(** [u.RequestURI()]. *)
Definition RequestURI (u : URL) : string :=
  (if bool_decide (Opaque u = "") then
     let p := EscapedPath u in if bool_decide (p = "") then "/" else p
   else if HasPrefix (Opaque u) "//" then Scheme u +:+ ":" +:+ Opaque u else Opaque u) +:+
  (if ForceQuery u || negb (bool_decide (RawQuery u = "")) then "?" +:+ RawQuery u else "").

(** [url.ParseRequestURI(rawurl)]: on the left what is wrong with it. *)
Definition ParseRequestURI (rawurl : string) : string + URL :=
  if bool_decide (rawurl = "") then inl "empty url"
  else if bool_decide (rawurl = "*") then inr (mkURL "" "" None "" "*" "" false "" "") else
  match getscheme rawurl with
  | inl e => inl e
  | inr (scheme, rest) =>
      let scheme := ToLower scheme in
      let '(rest, force, query) := cut_query rest in
      if negb (HasPrefix rest "/") then
        if negb (bool_decide (scheme = "")) then
          inr (mkURL scheme rest None "" "" "" force query "")
        else inl "invalid URI for request"
      else
        match
          (if negb (bool_decide (scheme = "")) && HasPrefix rest "//" then
             let '(authority, rest) := split "/" false (drop_string 2 rest) in
             sum_map (λ uh, (uh, rest)) (parseAuthority authority)
           else inr ((None, ""), rest))
        with
        | inl e => inl e
        | inr ((user, host), rest) =>
            match setPath rest with
            | inl e => inl e
            | inr (path, rawpath) => inr (mkURL scheme "" user host path rawpath force query "")
            end
        end
  end.

(** ** A server on the network *)

(** The address a server listens at, whether it is up, and what it serves. *)
Record Server (X : Type) := mkServer {
  srv_host : string;
  srv_up : X → bool;
  srv_handler : Handler X
}.
Arguments mkServer {X} _ _ _.
Arguments srv_host {X} _.
Arguments srv_up {X} _.
Arguments srv_handler {X} _.

(** The address dialled for a host name or an IPv4 address. *)
Definition dial_address (host : string) : string :=
  if has_char ":" host then host else host +:+ ":80".

Definition refused (host : string) : string :=
  "dial tcp " +:+ dial_address host +:+ ": getsockopt: connection refused".

(** [GET] is reported as [Get], and so on. *)
Definition error_op (method : string) : string :=
  match method with "" => "Get" | String c s => String c (ToLower s) end.

(** A request of [http.Client] when [srv] is all there is: the URL is parsed and
    the server dialled; the server parses the request line and runs its handler;
    if that panics the connection ends without a response.  Following redirects
    is left out. *)
Definition deliver {X} (srv : Server X) (method url body : string) : M X (error + Response) :=
  match Parse url with
  | inl e => mret (inl (ErrorString e))
  | inr u =>
      let fail msg := inl (ErrorString (error_op method +:+ " " +:+ url +:+ ": " +:+ msg)) in
      if negb (bool_decide (Scheme u = "http")) then
        mret (fail ("unsupported protocol scheme " +:+ Quote (Scheme u)))
      else if bool_decide (Host u = "") then mret (fail "http: no Host in request URL")
      else
        x ← get_svc;
        if negb (srv_up srv x && bool_decide (Host u = srv_host srv)) then
          mret (fail (refused (Host u)))
        else
          match ParseRequestURI (RequestURI u) with
          | inl _ => mret (inr (mkResponse StatusBadRequest "400 Bad Request" None))
          | inr served => λ w,
              match srv_handler srv fresh_response (mkRequest method served (body, None)) w with
              | (Val rw, w') =>
                  let '(status, body) := finished rw in (Val (inr (mkResponse status body None)), w')
              | (_, w') => (Val (fail "EOF"), w')
              end
          end
  end.

(** [http.Get(url)] and a [PUT] of [http.DefaultClient] on such a network. *)
Class Putter (X : Type) := http_Put : string → string → M X (error + Response).

Definition network_Get {X} (srv : Server X) : Getter X := λ url, deliver srv "GET" url "".
Definition network_Put {X} (srv : Server X) : Putter X := λ url body, deliver srv "PUT" url body.

(** ** The query of a URL *)

(** [QueryUnescape]: as in a path, with [+] for a space. *)
Definition QueryUnescape (s : string) : string + string :=
  unescape (map_string (λ c, if bool_decide (c = "+"%char) then " "%char else c) s) encodePath.

(** The pairs of a query, cut at [&] and [;]. *)
Definition query_pairs (query : string) : list string :=
  Split "&" (replace_all ";" "&" query).

(** [u.Query()]: pairs that cannot be unescaped are skipped. *)
Definition Query (u : URL) : list (string * string) :=
  omap (λ pair,
    if bool_decide (pair = "") then None
    else
      let '(key, value) := split "=" true pair in
      match QueryUnescape key, QueryUnescape value with
      | inr key, inr value => Some (key, value)
      | _, _ => None
      end) (query_pairs (RawQuery u)).

(** [values[key]]: all values of a key, and [values.Get(key)]: the first. *)
Definition Values_at (values : list (string * string)) (key : string) : list string :=
  (filter (λ kv, kv.1 = key) values).*2.
Definition Values_Get (values : list (string * string)) (key : string) : string :=
  default "" (head (Values_at values key)).

(** ** Lemmas: plain requests *)

Lemma escape_path s : all_chars plain_path s = true → escape s encodePath = s.
Proof.
  induction s as [|c s IH]; [done|]. simpl. intros [Hc Hs]%andb_true_iff.
  assert (shouldEscape c encodePath = false) as ->; [|by rewrite IH].
  clear IH Hs. destruct c as [[] [] [] [] [] [] [] []]; revert Hc; by vm_compute.
Qed.

Lemma setPath_plain p : all_chars plain_path p = true → setPath p = inr (p, "").
Proof.
  intros Hp. unfold setPath. rewrite unescape_path by done. cbn. rewrite escape_path by done.
  by rewrite bool_decide_true.
Qed.

(** A query that can be cut off and put back. *)
Definition plain_query (c : ascii) : bool := negb (has_char c "?#").
Definition query_suffix (q : string) : string := if bool_decide (q = "") then "" else "?" +:+ q.

Lemma split_at_char d a s :
  has_char d a = false → split d true (a +:+ String d s) = (a, s).
Proof.
  induction a as [|c a IH]; intros Ha.
  - change ("" +:+ String d s) with (String d s). simpl. by rewrite bool_decide_true.
  - apply has_char_cons_false in Ha as [Hc Ha]. rewrite app_cons_s. simpl.
    rewrite bool_decide_false by congruence. by rewrite IH.
Qed.

Lemma count_char_app d a b : count_char d (a +:+ b) = (count_char d a + count_char d b)%nat.
Proof.
  induction a as [|c a IH]; [done|]. rewrite app_cons_s. simpl.
  case_bool_decide; simpl; unfold id; by rewrite IH.
Qed.

Lemma cut_query_suffix a q :
  has_char "?" a = false → has_char "?" q = false → cut_query (a +:+ query_suffix q) = (a, false, q).
Proof.
  intros Ha Hq. unfold cut_query, query_suffix. case_bool_decide as He.
  - subst. rewrite app_nil_s, split_no_char, count_no_char by done. done.
  - change ("?" +:+ q) with (String "?" q). rewrite split_at_char by done.
    by rewrite (bool_decide_false (q = "")), andb_false_r by done.
Qed.

Lemma plain_query_chars q :
  all_chars plain_query q = true → has_char "?" q = false ∧ has_char "#" q = false.
Proof. intros Hq. split; by apply (all_chars_has plain_query). Qed.

Lemma plain_path_chars d p :
  plain_path d = false → all_chars plain_path p = true → has_char d (String "/" p) = false.
Proof. intros Hd Hp. apply (all_chars_has plain_path); [|done]. simpl. by rewrite Hp. Qed.

Lemma query_suffix_no_hash q : all_chars plain_query q = true → has_char "#" (query_suffix q) = false.
Proof.
  intros [_ Hq]%plain_query_chars. unfold query_suffix. case_bool_decide; [done|].
  by rewrite has_char_app, Hq.
Qed.

(** Where a plain request goes: as the client and as the server see it. *)
Definition sent_URL (host p q : string) : URL :=
  mkURL "http" "" None host (String "/" p) "" false q "".
Definition served_URL (p q : string) : URL :=
  mkURL "" "" None "" (String "/" p) "" false q "".

Definition plain_url (host p q : string) : string :=
  "http://" +:+ host +:+ String "/" p +:+ query_suffix q.

Lemma Parse_plain host p q :
  all_chars plain_host host = true → all_chars plain_path p = true →
  all_chars plain_query q = true → Parse (plain_url host p q) = inr (sent_URL host p q).
Proof.
  intros Hh Hp Hq. unfold plain_url.
  assert (∀ d, plain_path d = false → has_char d (host +:+ String "/" p) = false) as Hno.
  { intros d Hd. rewrite has_char_app, plain_path_chars by done.
    rewrite (all_chars_has plain_host); [done..|]. by apply orb_false_iff in Hd as [? _]. }
  rewrite (app_assoc_s host). unfold Parse.
  rewrite split_no_char by (rewrite (has_char_app _ "http://"), (has_char_app _ (host +:+ _)), Hno,
    query_suffix_no_hash by done; done).
  assert (parse_url ("http://" +:+ (host +:+ String "/" p) +:+ query_suffix q) =
    inr (sent_URL host p q)) as ->; [|done].
  unfold parse_url. rewrite bool_decide_false by done.
  change (getscheme ("http://" +:+ ?x)) with
    (inr ("http", "//" +:+ x) : string + string * string).
  change (ToLower "http") with "http". cbn iota.
  rewrite (app_assoc_s "//").
  rewrite cut_query_suffix by (try (rewrite (has_char_app _ "//"), Hno by done; done);
    by apply plain_query_chars).
  cbn iota. change (HasPrefix ("//" +:+ ?x) "/") with true.
  change (HasPrefix ("//" +:+ ?x) "//") with true.
  cbn [negb andb]. rewrite bool_decide_false by done. cbn [negb orb andb].
  change (drop_string 2 ("//" +:+ ?x)) with x.
  rewrite split_at_slash by (by apply (all_chars_has plain_host)).
  rewrite parseAuthority_plain by done. cbn [sum_map].
  rewrite setPath_plain; [done|]. simpl. by rewrite Hp.
Qed.

Lemma RequestURI_sent host p q :
  all_chars plain_path p = true → RequestURI (sent_URL host p q) = String "/" p +:+ query_suffix q.
Proof.
  intros Hp. unfold RequestURI, EscapedPath, sent_URL.
  cbn [Opaque RawPath Path RawQuery ForceQuery Scheme].
  rewrite !(bool_decide_true ("" = "")) by done. cbn [negb andb orb].
  rewrite bool_decide_false by done. rewrite escape_path by (simpl; by rewrite Hp). cbv zeta.
  rewrite bool_decide_false by done. unfold query_suffix. by case_bool_decide.
Qed.

Lemma ParseRequestURI_plain p q :
  all_chars plain_path p = true → all_chars plain_query q = true →
  ParseRequestURI (String "/" p +:+ query_suffix q) = inr (served_URL p q).
Proof.
  intros Hp Hq. unfold ParseRequestURI. rewrite app_cons_s, !bool_decide_false by done.
  rewrite <-app_cons_s.
  assert (getscheme (String "/" p +:+ query_suffix q) =
    inr ("", String "/" p +:+ query_suffix q)) as -> by (by rewrite app_cons_s).
  cbn iota. change (ToLower "") with "".
  rewrite cut_query_suffix by (rewrite ?plain_path_chars; try done; by apply plain_query_chars).
  cbn iota. change (HasPrefix (String "/" ?x) "/") with true. cbn [negb].
  rewrite bool_decide_true by done. cbn [negb andb]. rewrite setPath_plain; [done|].
  simpl. by rewrite Hp.
Qed.

(** ** Lemmas: delivery *)

Section deliver.
Context {X : Type} (srv : Server X).
Hypothesis Hhost : all_chars plain_host (srv_host srv) = true.
Hypothesis Hname : srv_host srv ≠ "".

(** A server that is down refuses. *)
Lemma deliver_down method p q body (w : World X) :
  all_chars plain_path p = true → all_chars plain_query q = true → srv_up srv (svc w) = false →
  deliver srv method (plain_url (srv_host srv) p q) body w =
  (Val (inl (ErrorString (error_op method +:+ " " +:+ plain_url (srv_host srv) p q +:+ ": " +:+
     refused (srv_host srv)))), w).
Proof.
  intros Hp Hq Hup. unfold deliver. rewrite Parse_plain by done. cbn [Scheme sent_URL Host].
  rewrite bool_decide_true by done. cbn [negb]. rewrite bool_decide_false by done.
  unfold mbind, M_bind, get_svc. by rewrite Hup.
Qed.

(** A server that is up runs its handler, and what it wrote comes back. *)
Lemma deliver_up method p q body (w w' : World X) rw :
  all_chars plain_path p = true → all_chars plain_query q = true → srv_up srv (svc w) = true →
  srv_handler srv fresh_response (mkRequest method (served_URL p q) (body, None)) w = (Val rw, w') →
  deliver srv method (plain_url (srv_host srv) p q) body w =
  (Val (inr (mkResponse (finished rw).1 (finished rw).2 None)), w').
Proof.
  intros Hp Hq Hup Hrun. unfold deliver. rewrite Parse_plain by done. cbn [Scheme sent_URL Host].
  rewrite bool_decide_true by done. cbn [negb]. rewrite bool_decide_false by done.
  unfold mbind, M_bind, get_svc. rewrite Hup, (bool_decide_true (_ = _)) by done. cbn [negb andb].
  fold (sent_URL (srv_host srv) p q). rewrite RequestURI_sent, ParseRequestURI_plain by done.
  by rewrite Hrun.
Qed.
End deliver.

(** ** Lemmas: the query *)

Lemma QueryUnescape_plain s : all_chars plain_path s = true → QueryUnescape s = inr s.
Proof.
  intros Hs. unfold QueryUnescape.
  assert (map_string (λ c, if bool_decide (c = "+"%char) then " "%char else c) s = s) as ->;
    [|by apply unescape_path].
  induction s as [|c s IH]; [done|]. simpl in *. apply andb_true_iff in Hs as [Hc Hs].
  rewrite IH by done. rewrite bool_decide_false; [done|]. intros ->. discriminate Hc.
Qed.

(** One plain parameter. *)
Lemma Query_single key value u :
  RawQuery u = key +:+ "=" +:+ value → key ≠ "" →
  all_chars plain_path key = true → all_chars plain_path value = true →
  Query u = [(key, value)].
Proof.
  intros Hu Hk Hkp Hvp. unfold Query, query_pairs. rewrite Hu.
  assert (∀ d, d ≠ "="%char → plain_path d = false → has_char d (key +:+ "=" +:+ value) = false) as Hno.
  { intros d Hd Hd'. rewrite !has_char_app, (all_chars_has plain_path) by done. simpl.
    rewrite (all_chars_has plain_path d value), bool_decide_false by done. done. }
  rewrite replace_all_id by (by apply Hno). rewrite Split_id by (by apply Hno). simpl omap.
  rewrite bool_decide_false by (by destruct key). change ("=" +:+ value) with (String "=" value).
  rewrite split_at_char by (by apply (all_chars_has plain_path)).
  by rewrite !QueryUnescape_plain.
Qed.

Example mux_examples :
  mux_target ["/kv/"; "/leader"] "/kv/a-key" = ToPattern "/kv/" ∧
  mux_target ["/kv/"; "/leader"] "/leader" = ToPattern "/leader" ∧
  mux_target ["/kv/"; "/leader"] "/kv" = ToRedirect "/kv/" ∧
  mux_target ["/kv/"; "/leader"] "/kv//k" = ToRedirect "/kv/k" ∧
  mux_target ["/kv/"; "/leader"] "/leader/x" = ToNotFound ∧
  Query (served_URL "drop" "a=1&addr=10.0.0.1;b=%zz&c=x+y%21") =
    [("a", "1"); ("addr", "10.0.0.1"); ("c", "x y!")].
Proof. by vm_compute. Qed.
