(* ===== verification/EtcdBackend.v ===== *)
(** * The fake etcd process and its backend

    [src/etcdfab/fakes/etcd/main.go] is the program the application's tests run
    in place of etcd: it sends its arguments to a backend and waits.
    [src/etcdfab/fakes/etcd/backend/main.go] is that backend, a server that
    counts the calls and keeps the arguments of the last one. *)
From S2P Require Import Prelude GoStrings GoPath Machine GoJson JsonEncode GoHttp GoServe GoInt.

Open Scope Z_scope.

(** ** The backend *)

Module Backend.
Record etcdBackend := mkBackend {
  callCount : Z;           (* an [int32] *)
  args : list string;
  fastFail : bool;
  shouldExit : bool
}.

Definition with_callCount (n : Z) (b : etcdBackend) : etcdBackend :=
  mkBackend n (args b) (fastFail b) (shouldExit b).
Definition setArgs (l : list string) (b : etcdBackend) : etcdBackend :=
  mkBackend (callCount b) l (fastFail b) (shouldExit b).
Definition EnableFastFail (b : etcdBackend) : etcdBackend :=
  mkBackend (callCount b) (args b) true (shouldExit b).
Definition DisableFastFail (b : etcdBackend) : etcdBackend :=
  mkBackend (callCount b) (args b) false (shouldExit b).
Definition FastFail (b : etcdBackend) : bool := fastFail b.
Definition Exit (b : etcdBackend) : etcdBackend :=
  mkBackend (callCount b) (args b) (fastFail b) true.

(** [&etcdBackend{}]. *)
Definition zero_backend : etcdBackend := mkBackend 0 [] false false.
Definition Reset (b : etcdBackend) : etcdBackend := zero_backend.

(** The test server of the Go library, whose URL [httptest] chooses, and the
    backend. *)
Record EtcdBackendServer := mkBackendServer { server_URL : string; backend : etcdBackend }.
Definition NewEtcdBackendServer (url : string) : EtcdBackendServer := mkBackendServer url zero_backend.
Definition ServerURL (s : EtcdBackendServer) : string := server_URL s.

(** [GetCallCount]: an [int32] as an [int]. *)
Definition GetCallCount (b : etcdBackend) : Z := callCount b.
Definition GetArgs (b : etcdBackend) : list string := args b.

(** A handler's result: the status it writes, or the panic that makes the
    server drop the connection; the backend is what it leaves. *)
Definition handler : Type := etcdBackend → (string + Z) * etcdBackend.

(** [/call]: the body as read, with the error of reading it. *)
Definition call (body : string * option error) : handler := λ b,
  let b := with_callCount (AddInt32 (callCount b) 1) b in
  match body.2 with
  | Some err => (inl (Error err), b)
  | None =>
      let '(l, err) := Unmarshal body.1 ([] : list string) in
      match err with
      | Some err => (inl (Error err), b)
      | None =>
          let b := setArgs l b in
          (inr (if FastFail b then StatusInternalServerError else StatusOK), b)
      end
  end.

(** [/exit] sets the flag it has just found set. *)
Definition exit : handler := λ b,
  if shouldExit b then (inr StatusOK, mkBackend (callCount b) (args b) (fastFail b) true)
  else (inr StatusTeapot, b).

(** Other paths get an empty answer, which is a 200. *)
Definition ServeHTTP (path : string) (body : string * option error) : handler := λ b,
  if bool_decide (path = "/call") then call body b
  else if bool_decide (path = "/exit") then exit b
  else (inr StatusOK, b).

(** What can happen to a backend, one operation after another: the tests wait
    for a request to be answered before they go on. *)
Inductive op :=
  | OServe (path : string) (body : string * option error)
  | OEnableFastFail
  | ODisableFastFail
  | OExit
  | OReset.

Definition apply_op (b : etcdBackend) (o : op) : etcdBackend :=
  match o with
  | OServe path body => (ServeHTTP path body b).2
  | OEnableFastFail => EnableFastFail b
  | ODisableFastFail => DisableFastFail b
  | OExit => Exit b
  | OReset => Reset b
  end.
End Backend.

(** ** The fake etcd *)

(** [http.Post(url, contentType, body)]. *)
Class Poster (X : Type) := http_Post : string → string → string → M X (error + Response).

Module FakeEtcd.
(** [backendURL] is set when the program is linked; [args] is [os.Args[1:]]. *)
Definition main {X} `{Poster X} (backendURL : string) (args : list string) : M X unit :=
  _ ← tell (Stdout "starting fake etcd");
  _ ← tell (Stderr "fake error in stderr");
  let bodyContents := Marshal_strings args in
  r ← http_Post (backendURL +:+ "/call") "application/json" bodyContents;
  match r with
  | inl err =>
      _ ← tell (Stdout (backendURL +:+ "/call failed: " +:+ Error err));
      Machine.exit 1
  | inr response =>
      if negb (bool_decide (StatusCode response = StatusOK)) then Machine.exit 1
      else
        _ ← sleep (2 * Second);
        tell (Stdout "stopping fake etcd")
  end.
End FakeEtcd.
