(* ===== verification/EtcdBackendSpec.v ===== *)
(** * What the fake etcd and its backend do

    The arguments of the fake etcd arrive at the backend unchanged, through
    [json.Marshal], the request and [json.Unmarshal]; and the counter of calls. *)
From S2P Require Import Prelude GoStrings GoPath Machine GoJson JsonFuel JsonEncode GoUrl UrlFacts GoHttp GoServe GoInt.
From S2P Require Import Config Application EtcdBackend.
Import Backend.

Open Scope Z_scope.

(** ** The client connected to the backend *)

(** A POST that reaches the backend's [ServeHTTP] under the path of its URL; a
    handler that panics drops the connection. *)
Definition backend_Post : Poster etcdBackend := λ url _ body,
  b ← get_svc;
  match Parse url with
  | inl e => mret (inl (ErrorString e))
  | inr u =>
      match ServeHTTP (Path u) (body, None) b with
      | (inl _, b) => _ ← put_svc b; mret (inl (ErrorString ("Post " +:+ url +:+ ": EOF")))
      | (inr status, b) => _ ← put_svc b; mret (inr (mkResponse status "" None))
      end
  end.

Lemma call_strings l b :
  Forall (λ s, ValidString s = true) l →
  call (Marshal_strings l, None) b =
  (inr (if fastFail b then StatusInternalServerError else StatusOK),
   mkBackend (AddInt32 (callCount b) 1) l (fastFail b) (shouldExit b)).
Proof. intros Hl. unfold call. cbn [fst snd]. by rewrite Unmarshal_Marshal_strings. Qed.

Lemma post_call host l (w : World etcdBackend) :
  all_chars plain_host host = true → Forall (λ s, ValidString s = true) l →
  http_Post (Poster := backend_Post) (("http://" +:+ host) +:+ "/call") "application/json"
    (Marshal_strings l) w =
  (Val (inr (mkResponse (if fastFail (svc w) then StatusInternalServerError else StatusOK) "" None)),
   set_svc (mkBackend (AddInt32 (callCount (svc w)) 1) l (fastFail (svc w)) (shouldExit (svc w))) w).
Proof.
  intros Hh Hl. unfold http_Post, backend_Post.
  destruct (Parse_path host "call" Hh eq_refl) as (u&Hu&Hp&_).
  rewrite <-app_assoc_s. change ("/call") with (String "/" "call").
  unfold mbind, M_bind, get_svc. rewrite Hu, Hp. unfold ServeHTTP.
  rewrite bool_decide_true by done. by rewrite (call_strings l (svc w) Hl).
Qed.

(** ** The counter *)

(** The calls since the last reset. *)
Definition calls (ops : list op) : Z :=
  foldl (λ n o, match o with
                | OServe path _ => if bool_decide (path = "/call") then n + 1 else n
                | OReset => 0
                | _ => n
                end) 0 ops.

Lemma call_count body b : callCount (call body b).2 = AddInt32 (callCount b) 1.
Proof.
  unfold call. destruct (snd body); [done|]. destruct (Unmarshal _ _) as [l [e|]]; done.
Qed.

Lemma calls_spec ops :
  GetCallCount (foldl apply_op zero_backend ops) = wrap32 (calls ops) ∧ 0 ≤ calls ops.
Proof.
  induction ops as [|o ops [IH Hn]] using rev_ind; [split; [done|by apply Z.le_refl]|].
  unfold GetCallCount, calls in *. rewrite !foldl_app. cbn [foldl].
  set (b := foldl apply_op _ ops) in *. set (n := foldl _ 0 ops) in *.
  destruct o as [path body| | | |]; cbn [apply_op]; [|done..|split; [done|lia]].
  unfold ServeHTTP. case_bool_decide as Hpath.
  - rewrite call_count, IH, AddInt32_wrap. split; [done|lia].
  - case_bool_decide; [|done]. unfold exit. by destruct (shouldExit b).
Qed.

(** ** Theorems *)

(** Whatever valid strings the fake etcd is started with, the backend it is
    linked to keeps exactly these arguments and counts one more call; the fake
    ends with status 1 at once when the backend fails fast, and otherwise after
    two seconds without an error; files and processes are untouched. *)
Theorem fake_etcd_reports_args host args (w : World etcdBackend) :
  all_chars plain_host host = true → Forall (λ s, ValidString s = true) args →
  ∃ w', FakeEtcd.main (H := backend_Post) ("http://" +:+ host) args w =
      (if fastFail (svc w) then Exited 1 else Val tt, w') ∧
    GetArgs (svc w') = args ∧
    GetCallCount (svc w') = AddInt32 (GetCallCount (svc w)) 1 ∧
    FastFail (svc w') = FastFail (svc w) ∧ same_os w w' ∧
    log w' = log w ++ [Stdout "starting fake etcd"; Stderr "fake error in stderr"] ++
      (if fastFail (svc w) then [] else [Slept (2 * Second); Stdout "stopping fake etcd"]).
Proof.
  intros Hh Hl. unfold FakeEtcd.main.
  assert (∀ e (w0 : World etcdBackend), tell e w0 = (Val tt, emit e w0)) as Htell by done.
  step (Htell (Stdout "starting fake etcd") w).
  step (Htell (Stderr "fake error in stderr") (emit (Stdout "starting fake etcd") w)). cbv zeta.
  set (w2 := emit (Stderr _) _). step (post_call host args w2 Hh Hl). subst w2. cbn [StatusCode svc emit].
  destruct (fastFail (svc w)) eqn:Hff; eexists; (split; [reflexivity|]);
    (split_and!; [done..|]); cbn [log emit set_svc]; by rewrite <-!app_assoc.
Qed.

(** The call counter is the number of requests of [/call] since the last
    reset as an [int32]: exact below [2^31], and negative from there on,
    whatever else happened in between and whatever the bodies were. *)
Theorem call_count_bounds ops :
  let b := foldl apply_op zero_backend ops in
  GetCallCount b = wrap32 (calls ops) ∧ 0 ≤ calls ops ∧
  - 2 ^ 31 ≤ GetCallCount b < 2 ^ 31 ∧
  (calls ops < 2 ^ 31 → GetCallCount b = calls ops) ∧
  (2 ^ 31 ≤ calls ops < 2 ^ 32 → GetCallCount b = calls ops - 2 ^ 32).
Proof.
  cbv zeta. destruct (calls_spec ops) as [-> Hn]. split_and!; [done|done|apply wrap32_range..| |].
  - intros ?. apply wrap32_id. lia.
  - intros ?. rewrite <-(wrap32_id (calls ops - 2 ^ 32)) by lia.
    apply wrap32_eq. rewrite <-(Z_mod_plus_full (calls ops - 2 ^ 32) 1). f_equal. lia.
Qed.

(** The arguments [etcdfab] itself starts etcd with. *)
Definition example_args : list string :=
  etcd_args (mkConfig (mkNode "etcd" 0 "10.0.0.1") (cfg_Etcd defaultConfig)) ++
  ["--initial-cluster"; "etcd-0=http://10.0.0.1:7001"; "--initial-cluster-state"; "new"].

Lemma fake_etcd_reports_args_witness :
  (all_chars plain_host "127.0.0.1:40123" = true ∧ Forall (λ s, ValidString s = true) example_args) ∧
  ∃ w', FakeEtcd.main (H := backend_Post) ("http://" +:+ "127.0.0.1:40123") example_args
      (mkWorld ∅ ∅ permissive_kernel zero_backend []) = (Val tt, w') ∧
    GetArgs (svc w') = example_args ∧ GetCallCount (svc w') = 1.
Proof.
  assert (all_chars plain_host "127.0.0.1:40123" = true) as Hh by (vm_compute; reflexivity).
  assert (Forall (λ s, ValidString s = true) example_args) as Hv
    by (repeat (apply Forall_cons; split; [vm_compute; reflexivity|]); apply Forall_nil_2).
  split; [exact (conj Hh Hv)|].
  generalize (fake_etcd_reports_args "127.0.0.1:40123" example_args
    (mkWorld ∅ ∅ permissive_kernel zero_backend []) Hh Hv).
  generalize example_args "127.0.0.1:40123". intros args host (w'&H&Ha&Hc&_).
  exists w'. exact (conj H (conj Ha Hc)).
Defined.
