(* ===== verification/EtcdServer.v ===== *)
(** * [src/etcdfab/fakes/etcdserver/server.go]

    A fake of etcd's client API: the answers for the members and the keys are
    set by the test.  Listening, TLS and the test server of the Go library are
    parameters. *)
From S2P Require Import Prelude GoStrings GoPath Machine GoJson GoHttp GoServe EtcdBackend.

Open Scope Z_scope.

(** ** The server *)

Record etcdBackend := mkBackend {
  membersJSON : string;
  membersStatusCode : Z;
  addMemberJSON : string;
  addMemberStatusCode : Z;
  removeMemberJSON : string;
  removeMemberStatusCode : Z;
  keysStatusCode : Z;
  keysJSON : string
}.

Definition Reset (e : etcdBackend) : etcdBackend :=
  mkBackend "" StatusOK "" StatusCreated "" StatusNoContent 0 "".

Definition zero_backend : etcdBackend := mkBackend "" 0 "" 0 "" 0 0 "".

(** The test server of the Go library, of which the URL and whether it is closed
    are kept, and the backend. *)
Record EtcdServer := mkEtcdServer {
  server_URL : string;
  server_closed : bool;
  backend : etcdBackend
}.

Definition URL (s : EtcdServer) : string := server_URL s.
Definition Exit (s : EtcdServer) : EtcdServer := mkEtcdServer (server_URL s) true (backend s).

(** [NewEtcdServer]: the results of [net.Listen] and of loading the key pair are
    parameters; whether any certificate was read from the file is ignored. *)
Definition NewEtcdServer {X} (listen : option error)
    (LoadX509KeyPair : string → string → option error) (startTLS : bool) (certDir : string) :
    M X EtcdServer :=
  let backend := Reset zero_backend in
  match listen with
  | Some err => panic (Error err)
  | None =>
      if startTLS then
        '(serverCertPEM, err) ← ReadFile (certDir +:+ "/server-ca.crt");
        match err with
        | Some err => panic (Error err)
        | None =>
            match LoadX509KeyPair (certDir +:+ "/client.crt") (certDir +:+ "/client.key") with
            | Some err => panic (Error err)
            | None => mret (mkEtcdServer "https://127.0.0.1:4001" false backend)
            end
        end
      else mret (mkEtcdServer "http://127.0.0.1:4001" false backend)
  end.

(** ** Handlers *)

Definition handleMembers (e : etcdBackend) (method : string) (rw : ResponseWriter) :
    ResponseWriter :=
  if bool_decide (method = "GET") then
    Write (membersJSON e) (WriteHeader (membersStatusCode e) rw)
  else if bool_decide (method = "POST") then
    Write (addMemberJSON e) (WriteHeader (addMemberStatusCode e) rw)
  else if bool_decide (method = "DELETE") then
    Write (removeMemberJSON e) (WriteHeader (removeMemberStatusCode e) rw)
  else rw.

Definition handleRemoveMember (e : etcdBackend) (rw : ResponseWriter) : ResponseWriter :=
  Write (removeMemberJSON e) (WriteHeader (removeMemberStatusCode e) rw).

Definition handleKeys (e : etcdBackend) (rw : ResponseWriter) : ResponseWriter :=
  let '(body, status) :=
    if negb (keysStatusCode e =? 0) then (keysJSON e, keysStatusCode e) else ("{}", StatusTeapot) in
  Write body (WriteHeader status rw).

Definition ServeHTTP (e : etcdBackend) (method path : string) (rw : ResponseWriter) :
    ResponseWriter :=
  if bool_decide (path = "/v2/members") then handleMembers e method rw
  else if bool_decide (path = "/v2/members/member-id") then handleRemoveMember e rw
  else if bool_decide (path = "/v2/keys") then handleKeys e rw
  else rw.

(** The response to a request. *)
Definition serve (e : etcdBackend) (method path : string) : Z * string :=
  finished (ServeHTTP e method path fresh_response).

(** ** Setting the answers *)

Definition SetMembersReturn (json : string) (statusCode : Z) (e : etcdBackend) : etcdBackend :=
  mkBackend json statusCode (addMemberJSON e) (addMemberStatusCode e)
    (removeMemberJSON e) (removeMemberStatusCode e) (keysStatusCode e) (keysJSON e).

Definition SetAddMemberReturn (json : string) (statusCode : Z) (e : etcdBackend) : etcdBackend :=
  mkBackend (membersJSON e) (membersStatusCode e) json statusCode
    (removeMemberJSON e) (removeMemberStatusCode e) (keysStatusCode e) (keysJSON e).

Definition SetKeysReturn (statusCode : Z) (e : etcdBackend) : etcdBackend :=
  mkBackend (membersJSON e) (membersStatusCode e) (addMemberJSON e) (addMemberStatusCode e)
    (removeMemberJSON e) (removeMemberStatusCode e) statusCode "{}".

Definition SetRemoveMemberReturn (statusCode : Z) (e : etcdBackend) : etcdBackend :=
  mkBackend (membersJSON e) (membersStatusCode e) (addMemberJSON e) (addMemberStatusCode e)
    "{}" statusCode (keysStatusCode e) (keysJSON e).

(** ** The contract

    Abstractly the server is a table: an answer for each of its four endpoints,
    replaced one at a time. *)

Inductive endpoint := Members | AddMember | RemoveMember | Keys.

#[export] Instance endpoint_eq_dec : EqDecision endpoint.
Proof. solve_decision. Defined.

(** Which endpoint a request is for. *)
Definition route (method path : string) : option endpoint :=
  if bool_decide (path = "/v2/members") then
    if bool_decide (method = "GET") then Some Members
    else if bool_decide (method = "POST") then Some AddMember
    else if bool_decide (method = "DELETE") then Some RemoveMember
    else None
  else if bool_decide (path = "/v2/members/member-id") then Some RemoveMember
  else if bool_decide (path = "/v2/keys") then Some Keys
  else None.

Definition table : Type := endpoint → Z * string.

(** The initial table: the keys are a teapot's. *)
Definition initial : table := λ ep,
  match ep with
  | Members => (200, "")
  | AddMember => (201, "")
  | RemoveMember => (204, "")
  | Keys => (418, "{}")
  end.

Definition update (ep : endpoint) (a : Z * string) (t : table) : table :=
  λ ep', if bool_decide (ep = ep') then a else t ep'.

(** The answer of a table: nothing known is an empty 200, and statuses without
    a body lose it. *)
Definition answer (t : table) (ep : option endpoint) : Z * string :=
  match ep with
  | None => (200, "")
  | Some ep => let '(status, body) := t ep in (status, if bodyAllowed status then body else "")
  end.

(** The operations on the concrete and on the abstract server. *)
Inductive op :=
  | OReset
  | OSetMembers (json : string) (status : Z)
  | OSetAddMember (json : string) (status : Z)
  | OSetKeys (status : Z)
  | OSetRemoveMember (status : Z).

Definition concrete (e : etcdBackend) (o : op) : etcdBackend :=
  match o with
  | OReset => Reset e
  | OSetMembers json status => SetMembersReturn json status e
  | OSetAddMember json status => SetAddMemberReturn json status e
  | OSetKeys status => SetKeysReturn status e
  | OSetRemoveMember status => SetRemoveMemberReturn status e
  end.

(** Setting the keys to status 0 brings the teapot back. *)
Definition abstract (t : table) (o : op) : table :=
  match o with
  | OReset => initial
  | OSetMembers json status => update Members (status, json) t
  | OSetAddMember json status => update AddMember (status, json) t
  | OSetKeys status => update Keys (if status =? 0 then (418, "{}") else (status, "{}")) t
  | OSetRemoveMember status => update RemoveMember (status, "{}") t
  end.

(** What a backend stands for. *)
Definition table_of (e : etcdBackend) : table := λ ep,
  match ep with
  | Members => (membersStatusCode e, membersJSON e)
  | AddMember => (addMemberStatusCode e, addMemberJSON e)
  | RemoveMember => (removeMemberStatusCode e, removeMemberJSON e)
  | Keys => if keysStatusCode e =? 0 then (418, "{}") else (keysStatusCode e, keysJSON e)
  end.

Lemma table_of_concrete e o ep : table_of (concrete e o) ep = abstract (table_of e) o ep.
Proof.
  destruct o, ep; simpl; unfold update; simpl; try done;
    try (rewrite bool_decide_true by done; done); rewrite bool_decide_false by done; done.
Qed.

Lemma serve_table e method path : serve e method path = answer (table_of e) (route method path).
Proof.
  assert (∀ status body, finished (Write body (WriteHeader status fresh_response)) =
    (status, if bodyAllowed status then body else "")) as Hw.
  { intros status body. unfold Write, finished. simpl. destruct (bodyAllowed status); done. }
  unfold serve, ServeHTTP, handleMembers, handleRemoveMember, handleKeys, route.
  repeat case_bool_decide; try done; try apply Hw.
  simpl. destruct (keysStatusCode e =? 0) eqn:Hk; simpl; rewrite ?Hk; apply Hw.
Qed.

(** After any operations on a new server, a request is answered by the table
    the operations describe: the last answer set for its endpoint, or the
    initial one; setting one endpoint changes no other. *)
Theorem server_refines_table ops method path :
  serve (foldl concrete (Reset zero_backend) ops) method path =
  answer (foldl abstract initial ops) (route method path).
Proof.
  assert (∀ ep, table_of (foldl concrete (Reset zero_backend) ops) ep =
    foldl abstract initial ops ep) as Ht.
  { induction ops as [|o ops IH] using rev_ind; [by intros []|].
    intros ep. rewrite !foldl_app. simpl. rewrite table_of_concrete.
    destruct o; simpl; unfold update; try case_bool_decide; done. }
  rewrite serve_table. unfold answer. destruct (route method path); [|done]. by rewrite Ht.
Qed.
