(* ===== verification/GoRegexp.v ===== *)
(** * Go's [regexp] as the program uses it

    Regular expressions with captures: the syntax tree, what it matches (the
    relation [Match], and the language [InLang] of the tree without captures),
    the matcher with Go's leftmost-first preference, [FindSubmatch],
    [MatchString] and [ReplaceAllLiteralString], and [Compile], which reads the
    part of the pattern syntax the sources use.

    The matcher works on bytes.  Go decodes UTF-8, which makes a difference
    only where a single [.] or a negated class meets a multi-byte character:
    the patterns of the sources have [.] under a star only. *)
From S2P Require Import Prelude GoStrings GoPath Machine GoJson.

Open Scope Z_scope.

(** ** Syntax *)

(** What one character is matched against. *)
Inductive cset :=
  | CLit (c : ascii)
  | CAny
  | CClass (negated : bool) (ranges : list (ascii * ascii)).

Inductive re :=
  | REmpty
  | RChar (p : cset)
  | RSeq (a b : re)
  | RAlt (a b : re)
  | RStar (a : re)
  | RGroup (n : nat) (a : re).

Definition newline : ascii := "010".

Definition char_in (p : cset) (c : ascii) : bool :=
  match p with
  | CLit d => bool_decide (c = d)
  | CAny => negb (bool_decide (c = newline))
  | CClass neg ranges =>
      xorb neg (existsb (λ r, (code r.1 <=? code c) && (code c <=? code r.2)) ranges)
  end.

(** [x{min,max}] the way [syntax.Simplify] expands it: [min] copies, then
    either a star or nested optional copies. *)
Definition ROpt (a : re) : re := RAlt a REmpty.

Fixpoint ropts (a : re) (n : nat) : re :=
  match n with O => REmpty | S n => ROpt (RSeq a (ropts a n)) end.

Fixpoint RRepeat (a : re) (min : nat) (max : option nat) : re :=
  match min with
  | S min' => RSeq a (RRepeat a min' (pred <$> max))
  | O => match max with None => RStar a | Some k => ropts a k end
  end.

(** The literal string [s]. *)
Fixpoint rlit (s : string) : re :=
  match s with "" => REmpty | String c s' => RSeq (RChar (CLit c)) (rlit s') end.

(** ** What an expression matches *)

(** Captures, the latest first. *)
Definition caps : Type := list (nat * string).

(** The part of [s] before its suffix [s']. *)
Definition consumed (s s' : string) : string :=
  take_string (String.length s - String.length s') s.

(** [Match r s c s' c']: [r] matches a prefix of [s], leaving [s'], and turns
    the captures [c] into [c']. *)
Inductive Match : re → string → caps → string → caps → Prop :=
  | MEmpty s c : Match REmpty s c s c
  | MChar p x s c : char_in p x = true → Match (RChar p) (String x s) c s c
  | MSeq a b s c s1 c1 s2 c2 :
      Match a s c s1 c1 → Match b s1 c1 s2 c2 → Match (RSeq a b) s c s2 c2
  | MAltL a b s c s1 c1 : Match a s c s1 c1 → Match (RAlt a b) s c s1 c1
  | MAltR a b s c s1 c1 : Match b s c s1 c1 → Match (RAlt a b) s c s1 c1
  | MStarNil a s c : Match (RStar a) s c s c
  | MStarCons a s c s1 c1 s2 c2 :
      Match a s c s1 c1 → (String.length s1 < String.length s)%nat →
      Match (RStar a) s1 c1 s2 c2 → Match (RStar a) s c s2 c2
  | MGroup n a s c s1 c1 :
      Match a s c s1 c1 → Match (RGroup n a) s c s1 ((n, consumed s s1) :: c1).

(** The language of an expression. *)
Inductive InLang : re → string → Prop :=
  | LEmpty : InLang REmpty ""
  | LChar p x : char_in p x = true → InLang (RChar p) (String x "")
  | LSeq a b u v : InLang a u → InLang b v → InLang (RSeq a b) (u +:+ v)
  | LAltL a b u : InLang a u → InLang (RAlt a b) u
  | LAltR a b u : InLang b u → InLang (RAlt a b) u
  | LStarNil a : InLang (RStar a) ""
  | LStarCons a u v : InLang a u → InLang (RStar a) v → InLang (RStar a) (u +:+ v)
  | LGroup n a u : InLang a u → InLang (RGroup n a) u.

(** ** The matcher *)

(** The greedy star: one more round if it consumes something and the rest of
    the match goes through, otherwise on with [k]. *)
Definition star_loop {A} (body : string → caps → (string → caps → option A) → option A)
    (k : string → caps → option A) : nat → string → caps → option A :=
  fix go fuel s c :=
    match fuel with
    | O => k s c
    | S fuel =>
        match body s c (λ s' c',
          if (String.length s' <? String.length s)%nat then go fuel s' c' else None) with
        | Some x => Some x
        | None => k s c
        end
    end.

(** [run r s c k]: match [r] at the start of [s] and continue with [k];
    alternatives are tried in order of preference.  A star makes at most one
    round a character. *)
Fixpoint run {A} (r : re) (s : string) (c : caps) (k : string → caps → option A) : option A :=
  match r with
  | REmpty => k s c
  | RChar p =>
      match s with
      | String x s' => if char_in p x then k s' c else None
      | "" => None
      end
  | RSeq a b => run a s c (λ s1 c1, run b s1 c1 k)
  | RAlt a b => match run a s c k with Some x => Some x | None => run b s c k end
  | RStar a => star_loop (run a) k (String.length s) s c
  | RGroup n a => run a s c (λ s1 c1, k s1 ((n, consumed s s1) :: c1))
  end.

(** The first match: the text before it, the text matched, the text after it
    and the captures. *)
Record found := mkFound { f_pre : string; f_text : string; f_post : string; f_caps : caps }.

Definition match_here (r : re) (s : string) : option (string * caps) :=
  run r s [] (λ s' c', Some (s', c')).

Fixpoint search (r : re) (s : string) : option found :=
  match match_here r s with
  | Some (s', c) => Some (mkFound "" (consumed s s') s' c)
  | None =>
      match s with
      | String x t =>
          f ← search r t; Some (mkFound (String x (f_pre f)) (f_text f) (f_post f) (f_caps f))
      | "" => None
      end
  end.

(** ** [regexp] *)

Fixpoint groups (r : re) : nat :=
  match r with
  | REmpty | RChar _ => 0
  | RSeq a b | RAlt a b => Nat.max (groups a) (groups b)
  | RStar a => groups a
  | RGroup n a => Nat.max n (groups a)
  end.

Definition capture (c : caps) (n : nat) : string :=
  default "" (snd <$> first_match (λ p, bool_decide (p.1 = n)) c).

(** [re.FindSubmatch(s)]: [nil] without a match, otherwise the match and one
    text for every group. *)
Definition FindSubmatch (r : re) (s : string) : list string :=
  match search r s with
  | None => []
  | Some f => f_text f :: (capture (f_caps f) <$> seq 1 (groups r))
  end.

(** [re.MatchString(s)]. *)
Definition MatchString (r : re) (s : string) : bool :=
  bool_decide (is_Some (search r s)).

(** [re.ReplaceAllLiteralString(s, repl)].  [pend] is the text after the last
    match that the search has already passed (one character at most), [start]
    tells whether the search is at the start of the text.  An empty match next
    to the previous one is not replaced. *)
Fixpoint replace_loop (fuel : nat) (r : re) (repl : string) (start : bool) (pend s : string) :
    string :=
  match fuel with
  | O => pend +:+ s
  | S fuel =>
      match search r s with
      | None => pend +:+ s
      | Some f =>
          let before := pend +:+ f_pre f in
          let fresh := negb (bool_decide (before +:+ f_text f = "")) ||
                       (start && bool_decide (before = "")) in
          let out := before +:+ (if fresh then repl else "") in
          if bool_decide (f_pre f +:+ f_text f = "") then
            match s with
            | "" => out
            | String x t => out +:+ replace_loop fuel r repl false (String x "") t
            end
          else out +:+ replace_loop fuel r repl false "" (f_post f)
      end
  end.

Definition ReplaceAllLiteralString (r : re) (s repl : string) : string :=
  replace_loop (S (String.length s)) r repl true "" s.

(** ** [regexp.Compile]

    The syntax read: ASCII literals, [\ ] before a character that is neither a
    letter nor a digit, [.], classes of characters and ranges, groups, [|],
    and the greedy [*], [+], [?], [{n}], [{n,}] and [{n,m}].  [None] stands for
    the patterns Go rejects and also for the ones with other syntax: anchors,
    [(?...)], [\d] and other letter escapes, named classes, non-greedy or
    stacked repetition, a brace that does not start a repetition, and bytes
    outside ASCII. *)

Definition is_alnum (c : ascii) : bool :=
  in_range 48 57 c || in_range 65 90 c || in_range 97 122 c.

(** Characters that stand for themselves. *)
Definition is_plain (c : ascii) : bool :=
  (code c <? 128) && negb (existsb (λ d, bool_decide (c = d))
    ["\"; "."; "+"; "*"; "?"; "("; ")"; "|"; "["; "{"; "^"; "$"]%char).

Fixpoint parse_nat (acc : nat) (s : string) : nat * string :=
  match s with
  | String c s' =>
      if is_dec c then parse_nat (Z.to_nat (Z.of_nat acc * 10 + (code c - 48))) s' else (acc, s)
  | "" => (acc, "")
  end.

(** After an opening brace: the bounds and the text after the closing one.
    Repetition counts are at most 1000. *)
Definition parse_bounds (s : string) : option (nat * option nat * string) :=
  match s with
  | String d _ =>
      if negb (is_dec d) then None else
      let '(lo, s1) := parse_nat 0 s in
      if (1000 <? lo)%nat then None else
      match s1 with
      | String "}" s2 => Some (lo, Some lo, s2)
      | String "," (String "}" s2) => Some (lo, None, s2)
      | String "," (String e _ as s2) =>
          if negb (is_dec e) then None else
          let '(hi, s3) := parse_nat 0 s2 in
          if (1000 <? hi)%nat || (hi <? lo)%nat then None else
          match s3 with String "}" s4 => Some (lo, Some hi, s4) | _ => None end
      | _ => None
      end
  | "" => None
  end.

(** One character of a class, possibly escaped. *)
Definition class_char (s : string) : option (ascii * string) :=
  match s with
  | String "\" (String c s') => if is_alnum c || (128 <=? code c) then None else Some (c, s')
  | String c s' =>
      if existsb (λ d, bool_decide (c = d)) ["\"; "]"; "["; "-"; "^"]%char || (128 <=? code c)
      then None else Some (c, s')
  | "" => None
  end.

Fixpoint class_ranges (fuel : nat) (s : string) : option (list (ascii * ascii) * string) :=
  match fuel with
  | O => None
  | S fuel =>
      '(lo, s1) ← class_char s;
      '(hi, s2) ← match s1 with String "-" s2 => class_char s2 | _ => Some (lo, s1) end;
      if code hi <? code lo then None else
      match s2 with
      | String "]" s3 => Some ([(lo, hi)], s3)
      | _ => '(l, s3) ← class_ranges fuel s2; Some ((lo, hi) :: l, s3)
      end
  end.

(** A repetition operator after the atom [a]; a second one is refused. *)
Definition parse_repeat (a : re) (s : string) : option (re * string) :=
  '(r, s1) ←
    match s with
    | String "*" s' => Some (RStar a, s')
    | String "+" s' => Some (RSeq a (RStar a), s')
    | String "?" s' => Some (ROpt a, s')
    | String "{" s' => '(lo, hi, s'') ← parse_bounds s'; Some (RRepeat a lo hi, s'')
    | _ => Some (a, s)
    end;
  match s, s1 with
  | String c _, String d _ =>
      if existsb (λ x, bool_decide (c = x)) ["*"; "+"; "?"; "{"]%char &&
         existsb (λ x, bool_decide (d = x)) ["*"; "+"; "?"; "{"]%char
      then None else Some (r, s1)
  | _, _ => Some (r, s1)
  end.

(** [parse_re fuel n s]: alternatives up to a closing parenthesis or the end,
    [n] groups being open or closed before; with the number of groups after.
    Every call consumes a character or goes one level down. *)
Fixpoint parse_re (fuel : nat) (n : nat) (s : string) : option (re * nat * string) :=
  match fuel with
  | O => None
  | S fuel =>
      '(a, n1, s1) ← parse_concat fuel n s;
      match s1 with
      | String "|" s2 => '(b, n2, s3) ← parse_re fuel n1 s2; Some (RAlt a b, n2, s3)
      | _ => Some (a, n1, s1)
      end
  end
with parse_concat (fuel : nat) (n : nat) (s : string) : option (re * nat * string) :=
  match fuel with
  | O => None
  | S fuel =>
      match s with
      | "" | String "|" _ | String ")" _ => Some (REmpty, n, s)
      | _ =>
          '(a, n1, s1) ← parse_atom fuel n s;
          '(r, s2) ← parse_repeat a s1;
          '(b, n2, s3) ← parse_concat fuel n1 s2; Some (RSeq r b, n2, s3)
      end
  end
with parse_atom (fuel : nat) (n : nat) (s : string) : option (re * nat * string) :=
  match fuel with
  | O => None
  | S fuel =>
      match s with
      | String "(" (String "?" _) => None
      | String "(" s' =>
          '(a, n1, s1) ← parse_re fuel (S n) s';
          match s1 with String ")" s2 => Some (RGroup (S n) a, n1, s2) | _ => None end
      | String "." s' => Some (RChar CAny, n, s')
      | String "[" s' =>
          let '(neg, s1) := match s' with String "^" s1 => (true, s1) | _ => (false, s') end in
          '(l, s2) ← class_ranges (S (String.length s1)) s1; Some (RChar (CClass neg l), n, s2)
      | String "\" (String c s') =>
          if is_alnum c || (128 <=? code c) then None else Some (RChar (CLit c), n, s')
      | String c s' => if is_plain c then Some (RChar (CLit c), n, s') else None
      | "" => None
      end
  end.

Definition re_fuel (s : string) : nat := S (S (S (3 * String.length s))).

Definition Compile (s : string) : option re :=
  match parse_re (re_fuel s) 0 s with
  | Some (r, _, "") => Some r
  | _ => None
  end.

Example regexp_examples :
  let r p := default REmpty (Compile p) in
  FindSubmatch (r "a(b*)c([0-9]{1,3}|x)") "zzabbc1234" = ["abbc123"; "bb"; "123"] ∧
  FindSubmatch (r "(a|ab)(c|bcd)") "xabcd" = ["abcd"; "a"; "bcd"] ∧
  FindSubmatch (r "(a|ab)(c|bcd)") "xac" = ["ac"; "a"; "c"] ∧
  ReplaceAllLiteralString (r "\[.*\] ") "a [x] [y] b [z] c" "" = "a c" ∧
  ReplaceAllLiteralString (r "x*") "abxd" "-" = "-a-b-d-" ∧
  Compile "a**" = None ∧ Compile "(a" = None ∧ Compile "a)" = None ∧ Compile "[b-a]" = None.
Proof. by vm_compute. Qed.
