(* ===== verification/RegexpFacts.v ===== *)
(** * Facts about the regular expression matcher

    The matcher is sound and complete for the relation [Match], [Match]
    without captures is the language [InLang], and [MatchString] decides
    whether some part of the text is in the language.  Then what is needed to
    run patterns on texts with variables in them: literals, classes under a
    star, and the greedy star. *)
From S2P Require Import Prelude GoStrings GoPath Machine GoJson GoRegexp.

Open Scope Z_scope.

(** ** Consumed text *)

Lemma take_string_app u s : take_string (String.length u) (u +:+ s) = u.
Proof. induction u as [|x u IH]; [done|]. rewrite app_cons_s. simpl. by rewrite IH. Qed.

Lemma consumed_app u s : consumed (u +:+ s) s = u.
Proof.
  unfold consumed. rewrite length_app_s.
  replace (String.length u + String.length s - String.length s)%nat with (String.length u) by lia.
  apply take_string_app.
Qed.

Lemma consumed_self s : consumed s s = "".
Proof. exact (consumed_app "" s). Qed.

(** ** The matcher and the relation *)

Section matcher.
Context {A : Type}.
Implicit Types (k : string → caps → option A).

(** The star, given its body's lemma. *)
Lemma star_loop_sound (a : re) k fuel s c x :
  (∀ s c (k' : string → caps → option A) x, run a s c k' = Some x →
     ∃ s' c', Match a s c s' c' ∧ k' s' c' = Some x) →
  star_loop (run a) k fuel s c = Some x →
  ∃ s' c', Match (RStar a) s c s' c' ∧ k s' c' = Some x.
Proof.
  intros Ha. revert s c. induction fuel as [|fuel IH]; intros s c; simpl.
  { intros ?. exists s, c. split; [constructor|done]. }
  destruct (run a s c _) as [y|] eqn:Hr; intros Hx.
  - simplify_eq. apply Ha in Hr as (s1&c1&Hm&Hr).
    destruct (String.length s1 <? String.length s)%nat eqn:Hlt; [|done].
    apply Nat.ltb_lt in Hlt.
    apply IH in Hr as (s2&c2&Hm2&Hk). exists s2, c2. split; [|done]. by econstructor.
  - exists s, c. split; [constructor|done].
Qed.

Lemma match_run_sound (r : re) : ∀ s c k x, run r s c k = Some x →
  ∃ s' c', Match r s c s' c' ∧ k s' c' = Some x.
Proof.
  induction r as [|p|a IHa b IHb|a IHa b IHb|a IHa|n a IHa]; intros s c k x; simpl.
  - intros ?. exists s, c. split; [constructor|done].
  - destruct s as [|y s]; [done|]. destruct (char_in p y) eqn:Hp; [|done].
    intros ?. exists s, c. split; [by constructor|done].
  - intros (s1&c1&Hm1&(s2&c2&Hm2&Hk)%IHb)%IHa. exists s2, c2. split; [by econstructor|done].
  - destruct (run a s c k) as [y|] eqn:Ha; intros Hx.
    + simplify_eq. apply IHa in Ha as (s1&c1&?&?). exists s1, c1. split; [by apply MAltL|done].
    + apply IHb in Hx as (s1&c1&?&?). exists s1, c1. split; [by apply MAltR|done].
  - by apply star_loop_sound.
  - intros (s1&c1&?&?)%IHa. eexists s1, _. split; [by constructor|done].
Qed.

(** Completeness: a match the continuation accepts is not missed, although
    another one may be preferred. *)
Lemma run_complete (r : re) s c s' c' : Match r s c s' c' →
  ∀ k, is_Some (k s' c') → is_Some (run r s c k).
Proof.
  assert (∀ a s c s' c', Match (RStar a) s c s' c' →
    (∀ s0 c0 s1 c1, Match a s0 c0 s1 c1 → ∀ k, is_Some (k s1 c1) → is_Some (run a s0 c0 k)) →
    ∀ fuel k, (String.length s ≤ fuel)%nat → is_Some (k s' c') →
    is_Some (star_loop (run a) k fuel s c)) as Hstar.
  { intros a s0 c0 s1 c1 Hm Ha. remember (RStar a) as r0 eqn:Hr0.
    induction Hm as [| | | | |a' t d|a' t d t1 d1 t2 d2 Hm1 _ Hlt Hm2 IH2|];
      simplify_eq; intros fuel k Hf Hk.
    - destruct fuel; simpl; [done|]. by destruct (run a t d _).
    - destruct fuel as [|fuel]; [lia|]. simpl.
      match goal with |- is_Some (match ?e with _ => _ end) =>
        assert (is_Some e) as [y Hy]; [|by rewrite Hy] end.
      apply (Ha _ _ _ _ Hm1). rewrite (proj2 (Nat.ltb_lt _ _) Hlt). apply IH2; [done| |done].
      lia. }
  revert s c s' c'. induction r as [|p|a IHa b IHb|a IHa b IHb|a IHa|n a IHa];
    intros s c s' c' Hm k Hk.
  - by inversion Hm; subst.
  - inversion Hm; subst. simpl. by case_match.
  - inversion Hm; subst. simpl. eapply IHa; [done|]. by eapply IHb.
  - simpl. destruct (run a s c k) eqn:Ha; [done|]. inversion Hm; subst; [|by eapply IHb].
    assert (is_Some (run a s c k)) as [? ?] by (by eapply IHa). congruence.
  - simpl. by eapply Hstar.
  - inversion Hm; subst. simpl. by eapply IHa.
Qed.
End matcher.

(** ** The relation and the language *)

Fixpoint no_groups (r : re) : bool :=
  match r with
  | REmpty | RChar _ => true
  | RSeq a b | RAlt a b => no_groups a && no_groups b
  | RStar a => no_groups a
  | RGroup _ _ => false
  end.

Lemma Match_split r s c s' c' : Match r s c s' c' → ∃ u, s = u +:+ s' ∧ InLang r u.
Proof.
  induction 1 as [s c|p x s c Hp|a b s c s1 c1 s2 c2 _ (u&->&Hu) _ (v&->&Hv)
    |a b s c s1 c1 _ (u&->&Hu)|a b s c s1 c1 _ (u&->&Hu)|a s c
    |a s c s1 c1 s2 c2 _ (u&->&Hu) _ _ (v&->&Hv)|n a s c s1 c1 _ (u&->&Hu)].
  - exists "". split; [done|constructor].
  - exists (String x ""). split; [done|by constructor].
  - exists (u +:+ v). split; [by rewrite app_assoc_s|by constructor].
  - exists u. split; [done|by apply LAltL].
  - exists u. split; [done|by apply LAltR].
  - exists "". split; [done|constructor].
  - exists (u +:+ v). split; [by rewrite app_assoc_s|by constructor].
  - exists u. split; [done|by constructor].
Qed.

(** Without groups nothing is captured. *)
Lemma Match_caps r s c s' c' : Match r s c s' c' → no_groups r = true → c' = c.
Proof.
  induction 1; simpl; try done; rewrite ?andb_true_iff; intros Hn; destruct_and?;
    repeat match goal with H : ?P → _, H' : ?P |- _ => specialize (H H') end; congruence.
Qed.

Lemma InLang_Match r u : InLang r u → ∀ s c, ∃ c', Match r (u +:+ s) c s c'.
Proof.
  induction 1 as [|p x Hp|a b u v _ IHu _ IHv|a b u _ IH|a b u _ IH|a|a u v _ IHu _ IHv
    |n a u _ IH]; intros s c.
  - exists c. constructor.
  - exists c. rewrite app_cons_s. by constructor.
  - rewrite <-app_assoc_s. destruct (IHu (v +:+ s) c) as [c1 Hu]. destruct (IHv s c1) as [c2 Hv].
    exists c2. by econstructor.
  - destruct (IH s c) as [c1 ?]. exists c1. by apply MAltL.
  - destruct (IH s c) as [c1 ?]. exists c1. by apply MAltR.
  - exists c. constructor.
  - rewrite <-app_assoc_s. destruct u as [|x u]; [apply (IHv s c)|].
    destruct (IHu (v +:+ s) c) as [c1 Hu]. destruct (IHv s c1) as [c2 Hv].
    exists c2. eapply MStarCons; [done| |done].
    rewrite (length_app_s (String x u)). simpl. lia.
  - destruct (IH s c) as [c1 ?]. eexists. by constructor.
Qed.

(** ** Searching *)

Lemma match_here_Some r s s' c :
  match_here r s = Some (s', c) → ∃ u, s = u +:+ s' ∧ InLang r u ∧ Match r s [] s' c.
Proof.
  unfold match_here. intros (s1&c1&Hm&Hk)%match_run_sound. simplify_eq.
  destruct (Match_split _ _ _ _ _ Hm) as (u&->&Hu). eauto.
Qed.

Lemma match_here_complete r u s : InLang r u → is_Some (match_here r (u +:+ s)).
Proof.
  intros Hu. destruct (InLang_Match _ _ Hu s []) as [c Hm].
  by eapply run_complete.
Qed.

Lemma match_here_None r s u t : match_here r s = None → InLang r u → s ≠ u +:+ t.
Proof.
  intros Hn Hu ->. destruct (match_here_complete r u t Hu) as [? ?]. congruence.
Qed.

Lemma search_unfold r s :
  search r s =
  match match_here r s with
  | Some (s', c) => Some (mkFound "" (consumed s s') s' c)
  | None =>
      match s with
      | String x t =>
          f ← search r t; Some (mkFound (String x (f_pre f)) (f_text f) (f_post f) (f_caps f))
      | "" => None
      end
  end.
Proof. by destruct s. Qed.

Definition found_in (r : re) (s : string) (f : found) : Prop :=
  s = f_pre f +:+ f_text f +:+ f_post f ∧ InLang r (f_text f) ∧
  Match r (f_text f +:+ f_post f) [] (f_post f) (f_caps f) ∧
  ∀ p u t, s = p +:+ u +:+ t → InLang r u → (String.length (f_pre f) ≤ String.length p)%nat.

Lemma found_here r s s' c :
  match_here r s = Some (s', c) → found_in r s (mkFound "" (consumed s s') s' c).
Proof.
  intros (u&->&Hu&Hm)%match_here_Some. unfold found_in. simpl. rewrite consumed_app.
  split_and!; [done..|]. intros. lia.
Qed.

(** What is found is a matching part of the text, and the leftmost one. *)
Lemma search_Some r s f :
  search r s = Some f → found_in r s f.
Proof.
  revert f. induction s as [|x s IH]; intros f; rewrite search_unfold;
    destruct (match_here r _) as [[s' c]|] eqn:Hm; try done.
  1,2: intros [= <-]; by apply found_here.
  destruct (search r s) as [g|] eqn:Hg; [|done]. simpl. intros [= <-].
  destruct (IH g eq_refl) as (->&Hu&Hmt&Hleft). split_and!; [done..|].
  intros [|y p] u t Hs Hut.
  - by destruct (match_here_None r _ u t Hm Hut).
  - rewrite app_cons_s in Hs. injection Hs as -> Hs. simpl.
    pose proof (Hleft p u t Hs Hut). lia.
Qed.

Lemma search_None r s : search r s = None ↔ ∀ p u t, s = p +:+ u +:+ t → ¬ InLang r u.
Proof.
  split.
  - revert s. assert (∀ p s, search r s = None → ∀ u t, s = p +:+ u +:+ t → ¬ InLang r u) as H.
    { induction p as [|x p IH]; intros s Hs u t ->; rewrite search_unfold in Hs; intros Hu.
      - destruct (match_here r _) as [[]|] eqn:Hm; [done|].
        by destruct (match_here_None r _ u t Hm Hu).
      - destruct (match_here r _) as [[]|] eqn:Hm; [done|].
        rewrite app_cons_s in Hs. destruct (search r _) eqn:Hs'; [done|]. by eapply IH. }
    intros s Hs p u t. by apply H.
  - intros H. destruct (search r s) as [f|] eqn:Hf; [|done].
    apply search_Some in Hf as (Hs&Hu&_). by destruct (H _ _ _ Hs).
Qed.

(** [MatchString] decides whether some part of the text is in the language. *)
Lemma MatchString_spec r s :
  MatchString r s = true ↔ ∃ p u t, s = p +:+ u +:+ t ∧ InLang r u.
Proof.
  unfold MatchString. rewrite bool_decide_eq_true. split.
  - intros [f (Hs&Hu&_)%search_Some]. eauto.
  - intros (p&u&t&Hs&Hu). destruct (search r s) eqn:Hf; [done|].
    by destruct (proj1 (search_None r s) Hf p u t Hs).
Qed.

(** ** The language of the expressions in use *)

Lemma InLang_empty u : InLang REmpty u ↔ u = "".
Proof. split; [by inversion 1|intros ->; constructor]. Qed.

Lemma InLang_char p u : InLang (RChar p) u ↔ ∃ x, u = String x "" ∧ char_in p x = true.
Proof. split; [inversion 1; eauto|intros (x&->&?); by constructor]. Qed.

Lemma InLang_seq a b u : InLang (RSeq a b) u ↔ ∃ v w, u = v +:+ w ∧ InLang a v ∧ InLang b w.
Proof. split; [inversion 1; eauto|intros (v&w&->&?&?); by constructor]. Qed.

Lemma InLang_alt a b u : InLang (RAlt a b) u ↔ InLang a u ∨ InLang b u.
Proof.
  split; [inversion 1; eauto|intros [?|?]; [by apply LAltL|by apply LAltR]].
Qed.

Lemma InLang_group n a u : InLang (RGroup n a) u ↔ InLang a u.
Proof. split; [by inversion 1|by constructor]. Qed.

Lemma InLang_lit s u : InLang (rlit s) u ↔ u = s.
Proof.
  revert u. induction s as [|x s IH]; intros u; simpl; [apply InLang_empty|].
  rewrite InLang_seq. setoid_rewrite InLang_char. setoid_rewrite IH. split.
  - intros (v&w&->&(y&->&Hy)&->). apply bool_decide_eq_true in Hy as ->. done.
  - intros ->. exists (String x ""), s. split_and!; [done| |done].
    exists x. split; [done|]. by apply bool_decide_eq_true.
Qed.

Lemma InLang_star_char p u : InLang (RStar (RChar p)) u ↔ all_chars (char_in p) u = true.
Proof.
  split.
  - remember (RStar (RChar p)) as r eqn:Hr.
    induction 1 as [| | | | | |a u v Hu _ _ IH|]; simplify_eq; [done|].
    apply InLang_char in Hu as (x&->&Hx). rewrite all_chars_app, IH by done.
    simpl. by rewrite Hx.
  - induction u as [|x u IH]; simpl; [constructor|]. intros [Hx Hu]%andb_true_iff.
    change (String x u) with (String x "" +:+ u). constructor; [by constructor|auto].
Qed.

(** [x{min,max}] of one character. *)
Lemma InLang_ropts_char p n u :
  InLang (ropts (RChar p) n) u ↔ all_chars (char_in p) u = true ∧ (String.length u ≤ n)%nat.
Proof.
  revert u. induction n as [|n IH]; intros u; simpl.
  { rewrite InLang_empty. split; [by intros ->|]. intros [_ ?]. destruct u; simpl in *; [done|lia]. }
  unfold ROpt. rewrite InLang_alt, InLang_seq, InLang_empty.
  setoid_rewrite InLang_char. setoid_rewrite IH. split.
  - intros [(v&w&->&(x&->&Hx)&Hw&Hn)| ->]; [|simpl; split; [done|lia]].
    rewrite all_chars_app, Hw, length_app_s. simpl. rewrite Hx. split; [done|lia].
  - intros [Hu Hn]. destruct u as [|x u]; [by right|left]. simpl in *.
    apply andb_true_iff in Hu as [Hx Hu].
    exists (String x ""), u. split_and!; [done|eauto|done|lia].
Qed.

Lemma InLang_repeat_char p min max u :
  InLang (RRepeat (RChar p) min (Some max)) u ↔
  all_chars (char_in p) u = true ∧ (min ≤ String.length u ≤ Nat.max min max)%nat.
Proof.
  revert max u. induction min as [|min IH]; intros max u; simpl.
  { rewrite InLang_ropts_char. split; intros [??]; (split; [done|lia]). }
  rewrite InLang_seq. setoid_rewrite InLang_char. setoid_rewrite IH. split.
  - intros (v&w&->&(x&->&Hx)&Hw&Hn). rewrite all_chars_app, Hw, length_app_s. simpl.
    rewrite Hx. split; [done|]. destruct max; simpl in *; lia.
  - intros [Hu Hn]. destruct u as [|x u]; simpl in *; [lia|].
    apply andb_true_iff in Hu as [Hx Hu].
    exists (String x ""), u. split_and!; [done|eauto|done|lia|]. destruct max; simpl in *; lia.
Qed.

Lemma InLang_lit_char c u : InLang (RChar (CLit c)) u ↔ u = String c "".
Proof.
  rewrite InLang_char. split.
  - intros (x&->&Hx%bool_decide_eq_true). by rewrite Hx.
  - intros ->. exists c. split; [done|]. by apply bool_decide_eq_true.
Qed.

(** A literal character in front. *)
Lemma InLang_seq_char c r u :
  InLang (RSeq (RChar (CLit c)) r) u ↔ ∃ w, u = String c w ∧ InLang r w.
Proof.
  rewrite InLang_seq. setoid_rewrite InLang_lit_char. split.
  - intros (v&w&->&->&?). eauto.
  - intros (w&->&?). by exists (String c ""), w.
Qed.

Lemma Match_seq_char c r s cs s' cs' :
  Match (RSeq (RChar (CLit c)) r) s cs s' cs' →
  ∃ t, s = String c t ∧ Match r t cs s' cs'.
Proof.
  inversion 1 as [| |? ? ? ? ? ? ? ? Ha Hb| | | | |]; subst. inversion Ha as [|? ? ? ? Hx| | | | | |].
  simpl in Hx. apply bool_decide_eq_true in Hx. subst. eauto.
Qed.

Create Rewrite HintDb regexp.
#[export] Hint Rewrite InLang_empty InLang_char InLang_seq InLang_alt InLang_group InLang_lit
  InLang_star_char InLang_repeat_char : regexp.

(** ** Running a greedy star

    When the rest of the match succeeds at [t] and nowhere further on among
    the characters a star may take, the star stops exactly at [t]. *)
Lemma star_char_S {A} p (k : string → caps → option A) fuel s c :
  star_loop (run (RChar p)) k (S fuel) s c =
  match s with
  | String x s' =>
      if char_in p x then
        match star_loop (run (RChar p)) k fuel s' c with Some y => Some y | None => k s c end
      else k s c
  | "" => k s c
  end.
Proof.
  destruct s as [|x s]; [done|]. cbn [star_loop run]. destruct (char_in p x); [|done].
  by rewrite (proj2 (Nat.ltb_lt _ _)) by (simpl; lia).
Qed.

Lemma star_greedy {A} p (k : string → caps → option A) u t c x fuel :
  (String.length (u +:+ t) ≤ fuel)%nat →
  all_chars (char_in p) u = true → k t c = Some x →
  (∀ v w, t = v +:+ w → v ≠ "" → all_chars (char_in p) v = true → k w c = None) →
  star_loop (run (RChar p)) k fuel (u +:+ t) c = Some x.
Proof.
  intros Hf Hu Hk Hnone.
  assert (∀ v w n, t = v +:+ w → all_chars (char_in p) v = true → v ≠ "" →
    (String.length w ≤ n)%nat → star_loop (run (RChar p)) k n w c = None) as Hstop.
  { intros v w n. revert v w. induction n as [|n IH]; intros v w Ht Hv Hne Hn.
    { by eapply Hnone. }
    rewrite star_char_S. destruct w as [|y w]; [by eapply Hnone|].
    destruct (char_in p y) eqn:Hy; [|by eapply Hnone]. simpl in Hn.
    rewrite (IH (v +:+ String y "") w); [by eapply Hnone| | | |lia].
    - by rewrite Ht, <-app_assoc_s.
    - rewrite all_chars_app, Hv. simpl. by rewrite Hy.
    - by destruct v. }
  revert fuel Hf. induction u as [|y u IH]; intros fuel Hf.
  - change ("" +:+ t) with t in *. destruct fuel as [|fuel]; [done|]. rewrite star_char_S.
    destruct t as [|y t]; [done|]. destruct (char_in p y) eqn:Hy; [|done]. simpl in Hf.
    rewrite (Hstop (String y "") t fuel); [done|done| |done|lia]. simpl. by rewrite Hy.
  - rewrite app_cons_s in *. simpl in Hf, Hu. apply andb_true_iff in Hu as [Hy Hu].
    destruct fuel as [|fuel]; [lia|]. rewrite star_char_S, Hy, IH; [done|done|lia].
Qed.

Lemma run_seq_char {A} c r s cs (k : string → caps → option A) :
  run (RSeq (RChar (CLit c)) r) (String c s) cs k = run r s cs k.
Proof. simpl. by rewrite bool_decide_true. Qed.

Lemma run_seq_star {A} a r s cs (k : string → caps → option A) :
  run (RSeq (RStar a) r) s cs k =
  star_loop (run a) (λ s1 c1, run r s1 c1 k) (String.length s) s cs.
Proof. done. Qed.

(** ** Reading literal text into a pattern *)

Definition stacks (s : string) : bool :=
  match s with
  | String c _ => existsb (λ x, bool_decide (c = x)) ["*"; "+"; "?"; "{"]%char
  | "" => false
  end.

Lemma parse_repeat_none a s : stacks s = false → parse_repeat a s = Some (a, s).
Proof.
  destruct s as [|c s]; [done|]. unfold parse_repeat, stacks.
  intros Hc. rewrite Hc. simpl in Hc.
  repeat (apply orb_false_iff in Hc as [?%bool_decide_eq_false Hc]).
  destruct c as [[] [] [] [] [] [] [] []]; done || congruence.
Qed.

Definition closes (s : string) : bool :=
  match s with "" | String "|" _ | String ")" _ => true | _ => false end.

(** One element of a concatenation. *)
Lemma concat_step fuel n s a n1 s1 r s2 b n2 s3 :
  closes s = false → parse_atom fuel n s = Some (a, n1, s1) →
  parse_repeat a s1 = Some (r, s2) → parse_concat fuel n1 s2 = Some (b, n2, s3) →
  parse_concat (S fuel) n s = Some (RSeq r b, n2, s3).
Proof.
  intros Hc Ha Hr Hb.
  transitivity ('(a, n1, s1) ← parse_atom fuel n s;
    '(r, s2) ← parse_repeat a s1;
    '(b, n2, s3) ← parse_concat fuel n1 s2; Some (RSeq r b, n2, s3)).
  - destruct s as [|[[] [] [] [] [] [] [] []] s]; done.
  - rewrite Ha. cbn [mbind option_bind]. rewrite Hr. cbn [mbind option_bind]. by rewrite Hb.
Qed.

Lemma plain_char c s n fuel :
  is_plain c = true →
  parse_atom (S fuel) n (String c s) = Some (RChar (CLit c), n, s) ∧
  stacks (String c s) = false ∧ closes (String c s) = false.
Proof.
  destruct c as [[] [] [] [] [] [] [] []]; intros Hp; try discriminate Hp;
    (split_and!; reflexivity).
Qed.

Lemma plain_stacks s : all_chars is_plain s = true → stacks s = false.
Proof.
  destruct s as [|c s]; [done|]. simpl all_chars. intros [Hc _]%andb_true_iff.
  by destruct (plain_char c s 0 0 Hc) as (_&?&_).
Qed.

(** Plain characters read as themselves. *)
Lemma parse_concat_plain s n fuel :
  all_chars is_plain s = true → (S (String.length s) < fuel)%nat →
  parse_concat fuel n s = Some (rlit s, n, "").
Proof.
  revert fuel. induction s as [|c s IH]; intros fuel Hs Hf.
  { destruct fuel; [simpl in Hf; lia|done]. }
  simpl in Hs, Hf. apply andb_true_iff in Hs as [Hc Hs].
  destruct fuel as [|[|fuel]]; [lia..|].
  destruct (plain_char c s n fuel Hc) as (Ha&_&Hstep).
  eapply concat_step; [done|done|by apply parse_repeat_none, plain_stacks|].
  apply IH; [done|lia].
Qed.

Lemma Compile_concat s fuel n r :
  re_fuel s = S fuel → parse_concat fuel 0 s = Some (r, n, "") → Compile s = Some r.
Proof. intros Hf H. unfold Compile. rewrite Hf. cbn [parse_re]. by rewrite H. Qed.
