(* ===== verification/ErrorSet.v ===== *)
(** * [src/acceptance-tests/testing/helpers/error_set.go]

    A map from error texts to how often they occurred, itself an error.
    Counts are [Z]: they grow by at most a few units per iteration of a test
    and do not come near the bounds of a 64-bit [int]. *)
From S2P Require Import Prelude GoStrings GoPath Machine.

Open Scope Z_scope.

Notation ErrorSet := (gmap string Z).

(** The dynamic types of [error] in the acceptance tests. *)
Inductive test_error :=
  | Plain (e : error)
  | Errors (s : ErrorSet).

Definition add_count (v : Z) (k : string) (s : ErrorSet) : ErrorSet :=
  partial_alter (λ o, Some (default 0 o + v)) k s.

(** [e.Add(err)]. *)
Definition Add (e : ErrorSet) (err : test_error) : ErrorSet :=
  match err with
  | Errors s => union_with (λ a b, Some (a + b)) e s
  | Plain err => add_count 1 (Error err) e
  end.

(** [e.Error()], given the order in which [range] visits the map. *)
Definition ErrorSet_Error (order : list (string * Z)) : string :=
  foldl (λ message kv,
    message +:+ "  " +:+ kv.1 +:+ " : " +:+ Sprintf_d kv.2 +:+ String "010" "")
    ("The following errors occurred:" +:+ String "010" "") order.

(** The number of errors counted. *)
Definition total (s : ErrorSet) : Z := map_fold (λ _ v acc, v + acc) 0 s.

(** Only errors that occurred are listed. *)
Definition counts_positive (s : ErrorSet) : Prop := map_Forall (λ _ v, 0 < v) s.

(** ** Lemmas *)

Lemma total_empty : total ∅ = 0.
Proof. apply map_fold_empty. Qed.

Lemma total_insert_new (s : ErrorSet) k v : s !! k = None → total (<[k:=v]> s) = v + total s.
Proof. intros Hk. unfold total. apply map_fold_insert_L; [intros; lia|done]. Qed.

Lemma lookup_add_count v k (s : ErrorSet) k' :
  add_count v k s !! k' = if bool_decide (k = k') then Some (default 0 (s !! k) + v) else s !! k'.
Proof.
  unfold add_count. case_bool_decide as Hk.
  - rewrite Hk. exact (lookup_partial_alter_eq _ s k').
  - by apply (lookup_partial_alter_ne _ s k k').
Qed.

Lemma total_add_count v k (s : ErrorSet) : total (add_count v k s) = v + total s.
Proof.
  destruct (s !! k) as [n|] eqn:Hk.
  - assert (add_count v k s = <[k := n + v]> (delete k s)) as ->.
    { apply map_eq. intros k'. rewrite lookup_add_count. case_bool_decide; subst.
      - by rewrite lookup_insert_eq, Hk.
      - by rewrite lookup_insert_ne, lookup_delete_ne. }
    rewrite total_insert_new by apply lookup_delete_eq.
    rewrite <-(insert_delete_id s k n Hk) at 2.
    rewrite total_insert_new by apply lookup_delete_eq. lia.
  - assert (add_count v k s = <[k := v]> s) as ->; [|by apply total_insert_new].
    apply map_eq. intros k'. rewrite lookup_add_count. case_bool_decide; subst.
    + by rewrite lookup_insert_eq, Hk.
    + by rewrite lookup_insert_ne.
Qed.

(** Adding a set is adding its entries one by one, in any order. *)
Lemma union_add_count (e s : ErrorSet) k v :
  s !! k = None →
  union_with (λ a b, Some (a + b)) e (<[k:=v]> s) =
  add_count v k (union_with (λ a b, Some (a + b)) e s).
Proof.
  intros Hk. apply map_eq. intros k'. rewrite lookup_add_count.
  case_bool_decide; subst; rewrite !lookup_union_with.
  - rewrite lookup_insert_eq, Hk. by destruct (e !! k').
  - by rewrite lookup_insert_ne.
Qed.

Lemma total_union (e s : ErrorSet) :
  total (union_with (λ a b, Some (a + b)) e s) = total e + total s.
Proof.
  induction s as [|k v s Hk IH] using map_ind.
  - assert (union_with (λ a b, Some (a + b)) e ∅ = e) as ->; [|rewrite total_empty; lia].
    apply map_eq. intros k. rewrite lookup_union_with, lookup_empty. by destruct (e !! k).
  - rewrite union_add_count, total_add_count, IH, total_insert_new by done. lia.
Qed.

(** How much [Add] adds. *)
Definition weight (err : test_error) : Z :=
  match err with Plain _ => 1 | Errors s => total s end.

Lemma total_Add e err : total (Add e err) = total e + weight err.
Proof. destruct err; simpl; [rewrite total_add_count; lia|apply total_union]. Qed.

Lemma Add_positive e err :
  counts_positive e → match err with Errors s => counts_positive s | Plain _ => True end →
  counts_positive (Add e err).
Proof.
  intros He Hs k v. destruct err as [x|s]; simpl.
  - rewrite lookup_add_count. case_bool_decide; [|apply He].
    intros ?; simplify_eq. destruct (e !! _) as [n|] eqn:Hn; simpl; [|lia].
    pose proof (He _ _ Hn). simpl in *. lia.
  - rewrite lookup_union_with. destruct (e !! k) as [n|] eqn:Hn, (s !! k) as [n'|] eqn:Hn';
      simpl; intros ?; simplify_eq.
    + pose proof (He _ _ Hn). pose proof (Hs _ _ Hn'). simpl in *. lia.
    + by apply (He k).
    + by apply (Hs k).
Qed.

(** A set is empty exactly if it counts nothing. *)
Lemma total_nonneg s : counts_positive s → 0 ≤ total s.
Proof.
  induction s as [|k v s Hk IH] using map_ind; [rewrite total_empty; lia|].
  intros [Hv Hs]%map_Forall_insert; [|done]. rewrite total_insert_new by done.
  specialize (IH Hs). simpl in Hv. lia.
Qed.

Lemma total_zero s : counts_positive s → total s = 0 ↔ s = ∅.
Proof.
  intros Hp. split; [|intros ->; apply total_empty].
  destruct (map_choose_or_empty s) as [(k&v&Hk)|]; [|done].
  intros Ht. rewrite <-(insert_delete_id s k v Hk), total_insert_new in Ht by apply lookup_delete_eq.
  pose proof (Hp _ _ Hk) as Hv. simpl in Hv.
  pose proof (total_nonneg _ (map_Forall_delete _ _ k Hp)). lia.
Qed.

Lemma empty_positive : counts_positive ∅.
Proof. apply map_Forall_empty. Qed.

(** A set that counts exactly these texts, each as often as it is listed. *)
Definition tally (texts : list string) (e : ErrorSet) : Prop :=
  ∀ k, e !! k = if bool_decide (k ∈ texts) then Some (Z.of_nat (length (filter (λ t, t = k) texts))) else None.

Lemma tally_nil : tally [] ∅.
Proof. intros k. done. Qed.

Lemma tally_snoc texts e err : tally texts e → tally (texts ++ [Error err]) (Add e (Plain err)).
Proof.
  intros Ht k. cbn [Add]. rewrite lookup_add_count, filter_app, length_app. cbn [filter list_filter].
  destruct (decide (Error err = k)) as [->|Hne].
  - rewrite !bool_decide_true by (rewrite ?elem_of_app, ?list_elem_of_singleton; auto).
    rewrite Ht. simpl length. f_equal. case_bool_decide as Hin; simpl; [lia|].
    assert (filter (λ t, t = k) texts = []) as ->; [|done]. destruct (filter _ _) as [|x l] eqn:Hf; [done|].
    assert (x ∈ filter (λ t, t = k) texts) as [-> Hx]%list_elem_of_filter by (rewrite Hf; by left). done.
  - rewrite (bool_decide_false (Error err = k)), Ht by done. simpl length. rewrite Nat.add_0_r.
    assert (k ∈ texts ++ [Error err] ↔ k ∈ texts) as Hin.
    { rewrite elem_of_app, list_elem_of_singleton. naive_solver. }
    by rewrite (bool_decide_ext _ _ Hin).
Qed.

Lemma tally_foldl {A} (f : A → error) l :
  tally ((λ x, Error (f x)) <$> l) (foldl (λ acc x, Add acc (Plain (f x))) ∅ l).
Proof.
  induction l as [|x l IH] using rev_ind; [apply tally_nil|].
  rewrite fmap_app, foldl_app. by apply tally_snoc.
Qed.

Lemma tally_permutation l l' e : l ≡ₚ l' → tally l e → tally l' e.
Proof.
  intros Hp Ht k. rewrite Ht. assert (k ∈ l ↔ k ∈ l') as Hk by (by rewrite Hp).
  rewrite (bool_decide_ext _ _ Hk). by rewrite Hp.
Qed.

Lemma tally_empty l e : tally l e → e = ∅ ↔ l = [].
Proof.
  intros Ht. split.
  - intros ->. destruct l as [|x l]; [done|]. specialize (Ht x).
    rewrite bool_decide_true in Ht by (by left). done.
  - intros ->. apply map_eq. intros k. by rewrite Ht.
Qed.

#[export] Hint Resolve empty_positive Add_positive : gofx.
