(* ===== verification/GoFloat.v ===== *)
(** * Go's [float64] as the program uses it

    IEEE 754 binary64 arithmetic is [SpecFloat] of the Standard Library at 53
    bits of precision.  Here are the conversion from [int], the operations in
    use, and the shortest decimal text [%v] prints
    ([strconv.FormatFloat(x, 'g', -1, 64)]). *)
From Stdlib Require Import SpecFloat.
From S2P Require Import Prelude GoStrings.

Open Scope Z_scope.

Definition float64 : Type := spec_float.

Definition prec64 : Z := 53.
Definition emax64 : Z := 1024.

(** [m * 2^e], rounded to nearest, ties to even. *)
Definition round64 (m e : Z) : float64 := binary_normalize prec64 emax64 m e false.

(** [float64(z)]. *)
Definition float64_of_int (z : Z) : float64 := round64 z 0.

Definition fmul (x y : float64) : float64 := SFmul prec64 emax64 x y.
Definition fdiv (x y : float64) : float64 := SFdiv prec64 emax64 x y.

(** [x > y], [x == y]: false as soon as one of them is NaN. *)
Definition fgt (x y : float64) : bool := SFltb y x.
Definition feq (x y : float64) : bool := SFeqb x y.

(** The float nearest to the fraction [n / d] of positive integers: a quotient
    of more than 60 bits with its sticky bit, rounded. *)
Definition round_ratio (n d : Z) : float64 :=
  let s := Z.max 0 (64 + Z.log2 d - Z.log2 n) in
  let q := Z.shiftl n s / d in
  let sticky := if bool_decide (Z.shiftl n s mod d = 0) then 0 else 1 in
  round64 (2 * q + sticky) (- (s + 1)).

(** A decimal constant [d * 10^e] of the source. *)
Definition float_of_decimal (d e : Z) : float64 :=
  if bool_decide (d = 0) then S754_zero false
  else if 0 <=? e then round_ratio (d * 10 ^ e) 1 else round_ratio d (10 ^ (- e)).

(** ** Printing *)

(** The exponent [k] with [10^(k-1) <= n/d < 10^k], searched upwards from an
    estimate at most a few below it. *)
Fixpoint decimal_exponent (fuel : nat) (k n d : Z) : Z :=
  match fuel with
  | O => k
  | S fuel =>
      if (if 0 <=? k then n <? d * 10 ^ k else n * 10 ^ (- k) <? d) then k
      else decimal_exponent fuel (k + 1) n d
  end.

(** [n/d * 10^e] to the nearest integer, ties to even. *)
Definition scaled (n d e : Z) : Z :=
  let n := if 0 <=? e then n * 10 ^ e else n in
  let d := if 0 <=? e then d else d * 10 ^ (- e) in
  let q := n / d in
  match Z.compare (2 * (n - q * d)) d with
  | Lt => q
  | Gt => q + 1
  | Eq => if Z.even q then q else q + 1
  end.

(** The shortest digits that read back as [x], at most 17 of them, as an
    integer [z] and an exponent [e] with [x] near [z * 10^e]. *)
Fixpoint shortest (fuel : nat) (p : Z) (x : float64) (n d k : Z) : Z * Z :=
  let z := scaled n d (p - k) in
  match fuel with
  | O => (z, k - p)
  | S fuel =>
      if feq (float_of_decimal z (k - p)) x then (z, k - p)
      else shortest fuel (p + 1) x n d k
  end.

Fixpoint strip_zeros (fuel : nat) (z e : Z) : Z * Z :=
  match fuel with
  | O => (z, e)
  | S fuel => if bool_decide (z mod 10 = 0) then strip_zeros fuel (z / 10) (e + 1) else (z, e)
  end.

Fixpoint zeros (n : nat) : string := match n with O => "" | S n => String "0" (zeros n) end.

(** [%e] and [%f] of the digits [z * 10^e]. *)
Definition format_e (z e : Z) : string :=
  let digits := Sprintf_d z in
  let x := e + Z.of_nat (String.length digits) - 1 in
  let frac := drop_string 1 digits in
  let ex := Sprintf_d (Z.abs x) in
  match digits with String c _ => String c "" | "" => "" end +:+
  (if bool_decide (frac = "") then "" else "." +:+ frac) +:+
  (if x <? 0 then "e-" else "e+") +:+ (if Z.abs x <? 10 then "0" else "") +:+ ex.

Fixpoint insert_point (n : nat) (s : string) : string :=
  match n, s with
  | O, _ => String "." s
  | S n, String c s' => String c (insert_point n s')
  | S _, "" => "."
  end.

Definition format_f (z e : Z) : string :=
  let digits := Sprintf_d z in
  if 0 <=? e then digits +:+ zeros (Z.to_nat e)
  else
    let int := Z.of_nat (String.length digits) + e in
    if int <=? 0 then "0." +:+ zeros (Z.to_nat (- int)) +:+ digits
    else insert_point (Z.to_nat int) digits.

(** The exponent form is chosen for exponents below -4 and, with the shortest
    format, from 6 on. *)
Definition format_finite (m e : Z) : string :=
  let n := if 0 <=? e then m * 2 ^ e else m in
  let d := if 0 <=? e then 1 else 2 ^ (- e) in
  let k := decimal_exponent 5 ((Z.log2 n - Z.log2 d) * 30103 / 100000 - 1) n d in
  let '(z, x) := shortest 16 1 (round64 m e) n d k in
  let '(z, x) := strip_zeros 400 z x in
  let ex := x + Z.of_nat (String.length (Sprintf_d z)) - 1 in
  if (ex <? -4) || (6 <=? ex) then format_e z x else format_f z x.

(** [fmt.Sprintf("%v", x)]. *)
Definition Sprintf_v (x : float64) : string :=
  match x with
  | S754_nan => "NaN"
  | S754_infinity s => if s then "-Inf" else "+Inf"
  | S754_zero s => if s then "-0" else "0"
  | S754_finite s m e => (if s then "-" else "") +:+ format_finite (Z.pos m) e
  end.

Example format_examples :
  Sprintf_v (float_of_decimal 2 (-1)) = "0.2" ∧
  Sprintf_v (fdiv (float64_of_int 5) (float64_of_int 10)) = "0.5" ∧
  Sprintf_v (fdiv (float64_of_int 1) (float64_of_int 3)) = "0.3333333333333333" ∧
  Sprintf_v (fdiv (float64_of_int 2) (float64_of_int 3)) = "0.6666666666666666" ∧
  Sprintf_v (float64_of_int 100000) = "100000" ∧
  Sprintf_v (float64_of_int 1234567) = "1.234567e+06" ∧
  Sprintf_v (fdiv (float64_of_int 1) (float64_of_int 100000)) = "1e-05" ∧
  Sprintf_v (fdiv (float64_of_int 1) (float64_of_int 0)) = "+Inf" ∧
  Sprintf_v (fdiv (float64_of_int 0) (float64_of_int 0)) = "NaN" ∧
  Sprintf_v (fdiv (float64_of_int 11) (float64_of_int 10)) = "1.1" ∧
  Sprintf_v (float_of_decimal 5 (-324)) = "5e-324".
Proof. by vm_compute. Qed.
