(* ===== verification/SyslogChecker.v ===== *)
(** * [src/acceptance-tests/cf-tls-upgrade/syslogchecker/checker.go]

    The checker deploys a syslog drain application again and again while a
    Cloud Foundry deployment is being upgraded, sends a GUID through it, takes
    it down and counts what went wrong.  The [cf] command line tool, the GUID
    generator and HTTP are interfaces; the fields the [Checker] value shares by
    reference (the error set and the counter) are a record that is passed
    along. *)
From S2P Require Import Prelude GoStrings GoPath Machine GoJson GoHttp GoRegexp GoFloat GoInt ErrorSet.

Open Scope Z_scope.

(** ** Collaborators *)

(** [cfRunner.Run(args...)]. *)
Class CFRunner (X : Type) := cf_Run : list string → M X (string * option error).
(** [GuidGenerator.Generate()]. *)
Class GuidGenerator (X : Type) := guid_Generate : M X string.

(** ** State *)

Record Checker := mkChecker { syslogAppPrefix : string; retryAfter : Z }.

(** [errors] and [iterationCount], shared by all copies of the [Checker]. *)
Record Shared := mkShared { errors : ErrorSet; iterationCount : Z }.

(** [New]: fresh shared fields. *)
Definition New (syslogAppPrefix : string) (retryAfter : Z) : Checker * Shared :=
  (mkChecker syslogAppPrefix retryAfter, mkShared ∅ 0).

Definition totalErrorThreshold : float64 := float_of_decimal 2 (-1).
Definition maxErrsPerIteration : Z := 2.

(** ** Reading logs *)

Definition address_pattern : string :=
  "ADDRESS: \|([0-9]{1,3}\.[0-9]{1,3}\.[0-9]{1,3}\.[0-9]{1,3}\:[0-9]+)\|".

Definition getSyslogAddress (output : string) : string * option error :=
  match Compile address_pattern with
  | None => ("", Some (ErrorString "error parsing regexp"))
  | Some re =>
      match FindSubmatch re output with
      | _ :: address :: _ => (address, None)
      | _ => ("", Some (ErrorString "could not parse the IP address of syslog-drain app"))
      end
  end.

Section checker.
Context {X : Type} `{CFRunner X} `{GuidGenerator X} `{Getter X}.

Definition failed (message output : string) : option error :=
  Some (ErrorString (message +:+ output)).

(** The GUID becomes part of the pattern as it is; a pattern that does not
    compile panics. *)
Definition validateDrainerGotGuid (logContents guid : string) : M X (option error) :=
  match Compile ("\[APP.*\].*" +:+ guid) with
  | None => panic "regexp: Compile"
  | Some validLogLine =>
      mret (if negb (MatchString validLogLine logContents)
            then Some (ErrorString "could not validate the guid on syslog") else None)
  end.

Definition sendGetRequestToApp (url : string) : M X (option error) :=
  r ← http_Get url;
  match r with
  | inl err => mret (Some err)
  | inr resp =>
      let '(body, err) := ReadAll resp in
      match err with
      | Some err => mret (Some err)
      | None =>
          if negb (bool_decide (StatusCode resp = StatusOK)) then
            mret (failed "error sending get request to listener app: "
                    (Sprintf_d (StatusCode resp) +:+ " - " +:+ body))
          else mret None
      end
  end.

(** ** Deploying the drain *)

Definition manifest_path : string :=
  "src/github.com/cloudfoundry-incubator/etcd-release/src/acceptance-tests/cf-tls-upgrade/syslogchecker/assets/manifest.yml".

(** [gopath] is the value of the environment variable [GOPATH]. *)
Definition setupSyslogDrainerApp (gopath name : string) : M X (option error) :=
  '(output, err) ← cf_Run ["push"; name; "-f"; filepath_Join [gopath; manifest_path]; "--no-start"];
  match err with
  | Some _ => mret (failed "syslog drainer application push failed: " output)
  | None =>
  '(output, err) ← cf_Run ["app"; name; "--guid"];
  match err with
  | Some _ =>
      mret (failed ("failed to get the guid for the app " +:+ Quote name +:+ ": ") output)
  | None =>
  '(output, err) ← cf_Run ["curl"; "/v2/apps/" +:+ output; "-X"; "PUT"; "-d";
                            single_quoted "{'diego': true}"];
  match err with
  | Some _ =>
      mret (failed ("failed to get enable diego for the app " +:+ Quote name +:+ ": ") output)
  | None =>
  '(output, err) ← cf_Run ["start"; name];
  match err with
  | Some _ => mret (failed "could not start the syslog-drainer app: " output)
  | None => mret None
  end end end end.

Definition deploySyslogAndValidate (gopath name logSpinnerApp logSpinnerAppURL : string) :
    M X (option error) :=
  err ← setupSyslogDrainerApp gopath name;
  match err with
  | Some err => mret (Some err)
  | None =>
  '(output, err) ← cf_Run ["logs"; name; "--recent"];
  match err with
  | Some _ => mret (failed "could not retrieve the logs from syslog-drainer app: " output)
  | None =>
  let '(address, err) := getSyslogAddress output in
  match err with
  | Some err => mret (Some err)
  | None =>
  '(output, err) ← cf_Run ["cups"; name +:+ "-service"; "-l"; "syslog://" +:+ address];
  match err with
  | Some _ => mret (failed "could not create the logger service: " output)
  | None =>
  '(output, err) ← cf_Run ["bind-service"; logSpinnerApp; name +:+ "-service"];
  match err with
  | Some _ => mret (failed "could not bind the logger to the application: " output)
  | None =>
  '(output, err) ← cf_Run ["restage"; logSpinnerApp];
  match err with
  | Some _ => mret (failed "could not restage the app: " output)
  | None =>
  guid ← guid_Generate;
  err ← sendGetRequestToApp (logSpinnerAppURL +:+ "/log/" +:+ guid);
  match err with
  | Some err => mret (Some err)
  | None =>
  '(output, err) ← cf_Run ["logs"; name; "--recent"];
  match err with
  | Some _ => mret (failed "could not get the logs for syslog drainer app: " output)
  | None =>
  err ← validateDrainerGotGuid output guid;
  match err with Some err => mret (Some err) | None => mret None end
  end end end end end end end end.

(** ** Taking it down *)

(** One command of [cleanup]: its failure is added to [errs]. *)
Definition cleanup_step (errs : ErrorSet) (args : list string) (message : string) : M X ErrorSet :=
  '(output, err) ← cf_Run args;
  match err with
  | Some _ => mret (Add errs (Plain (ErrorString (message +:+ output))))
  | None => mret errs
  end.

Definition cleanup (logSpinnerApp appName : string) : M X (option test_error) :=
  errs ← cleanup_step ∅ ["unbind-service"; logSpinnerApp; appName +:+ "-service"]
           "could not unbind the logger from the application: ";
  errs ← cleanup_step errs ["delete-service"; appName +:+ "-service"; "-f"]
           "could not delete the service: ";
  errs ← cleanup_step errs ["delete"; appName; "-f"; "-r"]
           "could not delete the syslog drainer app: ";
  if (0 <? Z.of_nat (size errs)) then mret (Some (Errors errs)) else mret None.

(** ** The goroutine of [Start] *)

Definition add_if (errs : ErrorSet) (err : option test_error) : ErrorSet :=
  match err with Some err => Add errs err | None => errs end.

(** The body of the [time.After(c.retryAfter)] case. *)
Definition iteration (c : Checker) (gopath logSpinnerApp logSpinnerAppURL : string) (sh : Shared) :
    M X Shared :=
  _ ← sleep (retryAfter c);
  guid ← guid_Generate;
  let syslogDrainAppName := syslogAppPrefix c +:+ "-" +:+ guid in
  err ← deploySyslogAndValidate gopath syslogDrainAppName logSpinnerApp logSpinnerAppURL;
  let errs := add_if (errors sh) (Plain <$> err) in
  err ← cleanup logSpinnerApp syslogDrainAppName;
  mret (mkShared (add_if errs err) (AddInt32 (iterationCount sh) 1)).

(** Which case [select] takes: the timer, or the channel [Stop] sends on. *)
Inductive signal := Retry | Done.

(** The loop along the cases taken; [true] once the goroutine has returned. *)
Fixpoint Start (c : Checker) (gopath logSpinnerApp logSpinnerAppURL : string)
    (signals : list signal) (sh : Shared) : M X (bool * Shared) :=
  match signals with
  | [] => mret (false, sh)
  | Done :: _ => mret (true, sh)
  | Retry :: signals =>
      sh ← iteration c gopath logSpinnerApp logSpinnerAppURL sh;
      Start c gopath logSpinnerApp logSpinnerAppURL signals sh
  end.
End checker.

(** ** The verdict *)

Definition GetIterationCount (sh : Shared) : Z := iterationCount sh.

Definition errPercent (sh : Shared) : float64 :=
  fdiv (float64_of_int (total (errors sh)))
    (fmul (float64_of_int maxErrsPerIteration) (float64_of_int (GetIterationCount sh))).

Definition threshold_error (sh : Shared) : error :=
  ErrorString ("ran " +:+ Sprintf_d (GetIterationCount sh) +:+
    " times, exceeded total error threshold of " +:+ Sprintf_v totalErrorThreshold +:+ ": " +:+
    Sprintf_v (errPercent sh)).

(** The results are [ok], the count, the ratio and the error set, which is the
    set of the state after the call. *)
Definition Check (sh : Shared) : (bool * Z * float64) * Shared :=
  if fgt (errPercent sh) totalErrorThreshold then
    (false, GetIterationCount sh, errPercent sh,
     mkShared (Add (errors sh) (Plain (threshold_error sh))) (iterationCount sh))
  else (true, GetIterationCount sh, errPercent sh, sh).
