(* ===== verification/CfApps.v ===== *)
(** * The applications the [cf-tls-upgrade] tests push

    - [assets/logspinner/main.go]: prints the last part of a request path with
      a time stamp;
    - [syslogchecker/assets/syslog_drain.go]: prints its address again and again
      and everything it receives. *)
From S2P Require Import Prelude GoStrings GoPath Machine GoJson GoHttp GoServe.

Open Scope Z_scope.

(** ** [logspinner] *)

Module LogSpinner.
(** What [fmt.Printf] writes, without the line end; [now] is the text of
    [time.Now()]. *)
Definition line (now message : string) : string := "[" +:+ now +:+ "] " +:+ message.

(** The handler of every path: the status and what is printed.  A path without
    a slash has no second part, and indexing panics. *)
Definition handler {X} (now path : string) : M X Z :=
  let parts := Split "/" path in
  match parts !! 1%nat with
  | None => panic out_of_range
  | Some part =>
      if bool_decide (part = "log") then
        match parts !! 2%nat with
        | None => mret StatusBadRequest
        | Some message => _ ← tell (Stdout (line now message)); mret StatusOK
        end
      else mret StatusOK
  end.

(** [main]: [port] is the environment variable [PORT]; the handler is registered
    for every path. *)
Definition main {X} (port : string) (ListenAndServe : string → (string → string → M X Z) → M X (option error)) :
    M X unit :=
  _ ← tell (Stdout "starting logspinner");
  err ← ListenAndServe (":" +:+ port) handler;
  match err with
  | Some err => panic (Error err)
  | None => mret tt
  end.
End LogSpinner.

(** ** The syslog drain *)

Module SyslogDrain.
(** One line of [logIP]. *)
Definition address_line (ip port : string) : string := "ADDRESS: |" +:+ ip +:+ ":" +:+ port +:+ "|".

(** [n] rounds of the endless loop of [logIP]; [ip] and [port] are
    [CF_INSTANCE_IP] and [CF_INSTANCE_PORT]. *)
Fixpoint logIP {X} (ip port : string) (n : nat) : M X unit :=
  match n with
  | O => mret tt
  | S n =>
      _ ← tell (Stdout (address_line ip port));
      _ ← sleep (5 * Second);
      logIP ip port n
  end.

(** [io.EOF]. *)
Definition EOF : error := ErrorString "EOF".

(** [handleConnection] on the results of [conn.Read]; [true] once it has
    returned.  Data that comes with an error is dropped. *)
Fixpoint handleConnection {X} (reads : list (string * option error)) : M X bool :=
  match reads with
  | [] => mret false
  | (data, err) :: reads =>
      match err with
      | Some err =>
          if bool_decide (err = EOF) then _ ← tell (Stdout "connection closed"); mret true
          else panic (Error err)
      | None => _ ← tell (Stdout data); handleConnection reads
      end
  end.

(** [main] after the environment is read: the result of [net.Listen] and of the
    calls of [Accept] seen so far.  Every connection gets a goroutine of its
    own, whose steps are those of [handleConnection]; [go logIP()] runs beside. *)
Fixpoint accept_loop {X} (accepts : list (option error)) : M X unit :=
  match accepts with
  | [] => mret tt
  | Some err :: _ => panic (Error err)
  | None :: accepts => _ ← tell (Call "go handleConnection" []); accept_loop accepts
  end.

Definition main {X} (listen : option error) (accepts : list (option error)) : M X unit :=
  _ ← tell (Call "go logIP" []);
  match listen with
  | Some err => panic (Error err)
  | None => _ ← tell (Stdout "Listening for new connections"); accept_loop accepts
  end.
End SyslogDrain.

(** ** Lemmas *)

(** A request for [/log/<message>] prints the message, as far as the next
    slash. *)
Lemma handler_log {X} now message (w : World X) :
  has_char "/" message = false →
  LogSpinner.handler now ("/log/" +:+ message) w =
  (Val StatusOK, emit (Stdout (LogSpinner.line now message)) w).
Proof.
  intros Hm. unfold LogSpinner.handler.
  assert (Split "/" ("/log/" +:+ message) = [""; "log"; message]) as ->; [|done].
  change ("/log/" +:+ message) with ("/log" +:+ String "/" message).
  by rewrite Split_app_sep, (Split_id _ message).
Qed.
