(* ===== verification/CfFakes.v ===== *)
(** * [src/acceptance-tests/cf-tls-upgrade/syslogchecker/fakes/cf_runner.go]

    The recording runner, and an environment for the syslog checker made of it,
    a GUID source and an HTTP client: any behaviour of the surroundings is some
    choice of their answers. *)
From S2P Require Import Prelude GoStrings GoPath Machine GoJson GoHttp SyslogChecker.

Module CFRunner.
(** A stub is a Go closure; it may look at the commands recorded so far, the
    current one included. *)
Definition stub : Type := list (list string) → list string → string * option error.

Record t := mk {
  Commands : list (list string);
  Args : list string;
  Stub : option stub;
  ReturnsError : option error
}.

Definition Run (args : list string) (r : t) : (string * option error) * t :=
  let r := mk (Commands r ++ [args]) args (Stub r) (ReturnsError r) in
  (match Stub r with
   | Some stub => stub (Commands r) args
   | None => ("", ReturnsError r)
   end, r).
End CFRunner.

Module CFEnv.
Record state := mkState {
  runner : CFRunner.t;
  gets : list string;
  generated : nat
}.

Section env.
Variables (get : nat → string → error + Response) (guid : nat → string).

Definition runner_instance : CFRunner state := λ args,
  st ← get_svc;
  let '(res, r) := CFRunner.Run args (runner st) in
  _ ← put_svc (mkState r (gets st) (generated st)); mret res.

Definition guid_instance : GuidGenerator state :=
  st ← get_svc;
  _ ← put_svc (mkState (runner st) (gets st) (S (generated st))); mret (guid (generated st)).

Definition getter_instance : Getter state := λ url,
  st ← get_svc;
  _ ← put_svc (mkState (runner st) (gets st ++ [url]) (generated st));
  mret (get (length (gets st)) url).
End env.
End CFEnv.
