(* ===== verification/SyslogSpec.v ===== *)
(** * What the syslog checker does

    Reading the drain's address and the GUID out of the logs, what an iteration
    runs and counts, and the verdict. *)
From S2P Require Import Prelude GoStrings GoPath Machine GoJson GoHttp GoRegexp RegexpFacts.
From S2P Require Import GoFloat GoInt ErrorSet SyslogChecker CfApps CfFakes.

Open Scope Z_scope.

(** ** The address *)

Definition rseq (l : list re) : re := foldr RSeq REmpty l.

Definition digit_re : re := RChar (CClass false [("0", "9")]%char).
Definition octet_re : re := RRepeat digit_re 1 (Some 3%nat).
Definition dot_re : re := RChar (CLit ".").

Definition dotted_re : re :=
  rseq [octet_re; dot_re; octet_re; dot_re; octet_re; dot_re; octet_re;
        RChar (CLit ":"); RSeq digit_re (RStar digit_re)].

Definition address_re : re :=
  rseq (((λ c, RChar (CLit c)) <$> ["A"; "D"; "D"; "R"; "E"; "S"; "S"; ":"; " "; "|"]%char)
        ++ [RGroup 1 dotted_re; RChar (CLit "|")]).

Lemma compile_address : Compile address_pattern = Some address_re.
Proof. by vm_compute. Qed.

(** One to three digits; a port number. *)
Definition octet (s : string) : Prop :=
  all_chars is_dec s = true ∧ (1 ≤ String.length s ≤ 3)%nat.
Definition port (s : string) : Prop := all_chars is_dec s = true ∧ s ≠ "".

(** The texts the pattern takes for an address. *)
Definition dotted (a : string) : Prop :=
  ∃ o1 o2 o3 o4 p, octet o1 ∧ octet o2 ∧ octet o3 ∧ octet o4 ∧ port p ∧
    a = o1 +:+ "." +:+ o2 +:+ "." +:+ o3 +:+ "." +:+ o4 +:+ ":" +:+ p.

Lemma all_chars_ext p q s : (∀ c, p c = q c) → all_chars p s = all_chars q s.
Proof. intros H. induction s as [|c s IH]; simpl; [done|]. by rewrite H, IH. Qed.

Lemma digit_class c : char_in (CClass false [("0", "9")]%char) c = is_dec c.
Proof. unfold char_in. simpl. by rewrite orb_false_r. Qed.

Lemma InLang_octet u : InLang octet_re u ↔ octet u.
Proof.
  unfold octet_re, digit_re, octet. rewrite InLang_repeat_char.
  by rewrite (all_chars_ext _ _ u digit_class).
Qed.

Lemma InLang_port u : InLang (RSeq digit_re (RStar digit_re)) u ↔ port u.
Proof.
  unfold digit_re, port. rewrite InLang_seq. setoid_rewrite InLang_char.
  setoid_rewrite InLang_star_char.
  assert (∀ s, all_chars (char_in (CClass false [("0", "9")]%char)) s = all_chars is_dec s) as Hd.
  { intros s. apply all_chars_ext, digit_class. }
  split.
  - intros (v&w&->&(x&->&Hx)&Hw). rewrite Hd in Hw. rewrite digit_class in Hx.
    rewrite app_cons_s. simpl. by rewrite Hx.
  - intros [Hu Hne]. destruct u as [|x u]; [done|]. simpl in Hu.
    apply andb_true_iff in Hu as [Hx Hu]. exists (String x ""), u.
    rewrite <-digit_class in Hx. rewrite Hd. eauto.
Qed.

Lemma InLang_dotted u : InLang dotted_re u ↔ dotted u.
Proof.
  unfold dotted_re, rseq, dotted, dot_re. simpl foldr. split.
  - intros (o1&?&->&H1%InLang_octet&(?&->&H)%InLang_seq_char)%InLang_seq.
    apply InLang_seq in H as (o2&?&->&H2%InLang_octet&(?&->&H)%InLang_seq_char).
    apply InLang_seq in H as (o3&?&->&H3%InLang_octet&(?&->&H)%InLang_seq_char).
    apply InLang_seq in H as (o4&?&->&H4%InLang_octet&(?&->&H)%InLang_seq_char).
    apply InLang_seq in H as (p&?&->&Hp%InLang_port&->%InLang_empty).
    rewrite app_nil_s. by exists o1, o2, o3, o4, p.
  - intros (o1&o2&o3&o4&p&?&?&?&?&Hp&->).
    do 4 (apply InLang_seq; eexists _, _; split; [reflexivity|split; [by apply InLang_octet|]];
          apply InLang_seq_char; eexists; split; [reflexivity|]).
    apply InLang_seq. exists p, "". split_and!; [by rewrite app_nil_s|by apply InLang_port|].
    by apply InLang_empty.
Qed.

(** ** Finding the address *)

Lemma address_Match s s' c :
  Match address_re s [] s' c →
  ∃ a, s = "ADDRESS: |" +:+ a +:+ String "|" s' ∧ dotted a ∧ c = [(1%nat, a)].
Proof.
  unfold address_re. intros H.
  do 10 (apply Match_seq_char in H as (?&->&H)).
  inversion H as [| |? ? ? ? ? ? ? ? Hg Hr| | | | |]; subst.
  inversion Hg as [| | | | | | |? ? ? ? ? ? Hd]; subst.
  apply Match_seq_char in Hr as (?&->&Hr). inversion Hr; subst.
  rewrite (Match_caps _ _ _ _ _ Hd) by reflexivity.
  apply Match_split in Hd as (a&->&Ha%InLang_dotted).
  exists a. rewrite consumed_app. done.
Qed.

Lemma getSyslogAddress_search out :
  getSyslogAddress out =
  match search address_re out with
  | None => ("", Some (ErrorString "could not parse the IP address of syslog-drain app"))
  | Some f => (capture (f_caps f) 1, None)
  end.
Proof.
  unfold getSyslogAddress. rewrite compile_address. unfold FindSubmatch.
  by destruct (search address_re out).
Qed.

Lemma dotted_no_bar a : dotted a → has_char "|" a = false.
Proof.
  intros (o1&o2&o3&o4&p&[H1 _]&[H2 _]&[H3 _]&[H4 _]&[H5 _]&->).
  assert (∀ s, all_chars is_dec s = true → has_char "|" s = false) as Hd.
  { intros s Hs. by apply (all_chars_has is_dec). }
  rewrite !has_char_app. by rewrite (Hd o1), (Hd o2), (Hd o3), (Hd o4), (Hd p).
Qed.

Lemma address_InLang a : dotted a → InLang address_re ("ADDRESS: |" +:+ a +:+ "|").
Proof.
  intros Ha. unfold address_re.
  do 10 (apply InLang_seq_char; eexists; split; [reflexivity|]).
  apply InLang_seq. exists a, "|". split_and!; [done|by apply InLang_group, InLang_dotted|].
  apply InLang_seq_char. exists "". by rewrite InLang_empty.
Qed.

(** The text up to a character is determined. *)
Lemma app_char_inj x a b s t :
  has_char x a = false → has_char x b = false →
  a +:+ String x s = b +:+ String x t → a = b ∧ s = t.
Proof.
  revert b. induction a as [|y a IH]; intros [|z b] Ha Hb; rewrite ?app_cons_s.
  - change ("" +:+ ?x) with x. by intros [= ->].
  - change ("" +:+ ?x) with x. intros [= <- _]. simpl in Hb. by rewrite bool_decide_true in Hb.
  - change ("" +:+ ?x) with x. intros [= -> _]. simpl in Ha. by rewrite bool_decide_true in Ha.
  - simpl in Ha, Hb. apply orb_false_iff in Ha as [_ Ha], Hb as [_ Hb].
    intros [= -> [-> ->]%IH]; done.
Qed.

Lemma app_prefix_s a b s t :
  a +:+ s = b +:+ t → (String.length a ≤ String.length b)%nat → ∃ v, b = a +:+ v.
Proof.
  revert b. induction a as [|x a IH]; intros b; [by exists b|].
  destruct b as [|y b]; rewrite ?app_cons_s; simpl; [lia|].
  intros [= -> H] Hl. destruct (IH b H) as [v ->]; [lia|]. by exists v.
Qed.

(** Whatever is returned is a dotted address between bars, and the first one:
    it is returned exactly if no such text begins earlier. *)
Lemma getSyslogAddress_sound out a :
  getSyslogAddress out = (a, None) →
  dotted a ∧ ∃ pre post, out = pre +:+ "ADDRESS: |" +:+ a +:+ String "|" post.
Proof.
  rewrite getSyslogAddress_search. destruct (search address_re out) as [f|] eqn:Hf; [|done].
  apply search_Some in Hf as (Hout&_&Hm&_).
  apply address_Match in Hm as (b&Hb&Hd&Hc). rewrite Hc. intros [= <-]. simpl.
  split; [done|]. exists (f_pre f), (f_post f). by rewrite Hout, Hb.
Qed.

Lemma getSyslogAddress_complete a pre post :
  dotted a → has_char "|" pre = false →
  getSyslogAddress (pre +:+ "ADDRESS: |" +:+ a +:+ String "|" post) = (a, None).
Proof.
  intros Ha Hpre. rewrite getSyslogAddress_search.
  set (out := pre +:+ _).
  assert (out = pre +:+ ("ADDRESS: |" +:+ a +:+ "|") +:+ post) as Hout.
  { unfold out. by rewrite <-!app_assoc_s. }
  destruct (search address_re out) as [f|] eqn:Hf.
  2: { exfalso. exact (proj1 (search_None _ _) Hf _ _ _ Hout (address_InLang a Ha)). }
  apply search_Some in Hf as (Hf&_&Hm&Hleft).
  apply address_Match in Hm as (b&Hb&Hd&Hc). rewrite Hc. simpl.
  specialize (Hleft _ _ _ Hout (address_InLang a Ha)).
  assert (f_pre f +:+ "ADDRESS: " +:+ String "|" (b +:+ String "|" (f_post f)) =
          pre +:+ "ADDRESS: " +:+ String "|" (a +:+ String "|" post)) as He.
  { rewrite Hb in Hf. symmetry. exact Hf. }
  rewrite !(app_assoc_s _ "ADDRESS: ") in He. apply app_char_inj in He as [_ He].
  - apply app_char_inj in He as [-> _]; [done|by apply dotted_no_bar..].
  - unfold out in Hf. symmetry in Hf. apply app_prefix_s in Hf as [v ->]; [|done].
    rewrite has_char_app in Hpre. apply orb_false_iff in Hpre as [Hpre _].
    by rewrite has_char_app, Hpre.
  - by rewrite has_char_app, Hpre.
Qed.

(** The line the drain prints is read back. *)
Lemma address_line_read ip prt pre post :
  dotted (ip +:+ ":" +:+ prt) → has_char "|" pre = false →
  getSyslogAddress (pre +:+ SyslogDrain.address_line ip prt +:+ post) = (ip +:+ ":" +:+ prt, None).
Proof.
  intros Ha Hpre. rewrite <-(getSyslogAddress_complete _ pre post Ha Hpre).
  f_equal. unfold SyslogDrain.address_line. by rewrite <-!app_assoc_s.
Qed.

Lemma dotted_localhost : dotted "127.0.0.1:6514".
Proof.
  exists "127", "0", "0", "1", "6514". unfold octet, port. simpl. split_and!; try done; lia.
Qed.

(** ** The GUID *)

Definition no_newline (s : string) : Prop := has_char newline s = false.

Definition guid_re (guid : string) : re :=
  foldr RSeq (rlit guid)
    [RChar (CLit "["); RChar (CLit "A"); RChar (CLit "P"); RChar (CLit "P");
     RStar (RChar CAny); RChar (CLit "]"); RStar (RChar CAny)].

Lemma guid_pattern_fuel guid :
  ∃ m, re_fuel ("\[APP.*\].*" +:+ guid) = S (8 + m) ∧ (S (String.length guid) < S m)%nat.
Proof.
  unfold re_fuel. rewrite length_app_s. simpl String.length.
  exists (27 + 3 * String.length guid)%nat. lia.
Qed.

Lemma parse_guid_pattern guid m :
  all_chars is_plain guid = true → (S (String.length guid) < S m)%nat →
  parse_concat (8 + m) 0 ("\[APP.*\].*" +:+ guid) = Some (guid_re guid, 0%nat, "").
Proof.
  intros Hg Hl. pose proof (parse_concat_plain guid 0 (S m) Hg Hl) as Hp.
  assert (∀ a, parse_repeat a (String "*" guid) = Some (RStar a, guid)) as Hr.
  { intros a. apply plain_stacks in Hg. destruct guid as [|c s]; [done|].
    unfold parse_repeat, stacks in *. simpl in Hg |- *. by rewrite Hg. }
  do 6 (eapply concat_step; [reflexivity|reflexivity|reflexivity|]).
  eapply concat_step; [reflexivity|reflexivity|apply Hr|exact Hp].
Qed.

(** A GUID of plain characters stands for itself in the pattern. *)
Lemma compile_guid guid :
  all_chars is_plain guid = true → Compile ("\[APP.*\].*" +:+ guid) = Some (guid_re guid).
Proof.
  intros Hg. destruct (guid_pattern_fuel guid) as (m&Hm&Hl). apply Compile_concat with (8 + m)%nat 0%nat.
  - exact Hm.
  - by apply parse_guid_pattern.
Qed.

Lemma InLang_guid guid u :
  InLang (guid_re guid) u ↔
  ∃ a b, u = "[APP" +:+ a +:+ "]" +:+ b +:+ guid ∧ no_newline a ∧ no_newline b.
Proof.
  assert (∀ v, all_chars (char_in CAny) v = true ↔ no_newline v) as Hany.
  { intros v. unfold no_newline. induction v as [|c v IH]; [done|]. simpl.
    rewrite andb_true_iff, orb_false_iff, IH, negb_true_iff, !bool_decide_eq_false.
    split; intros [??]; split; congruence. }
  assert (∀ r v, InLang (RSeq (RStar (RChar CAny)) r) v ↔
    ∃ a w, v = a +:+ w ∧ no_newline a ∧ InLang r w) as Hstar.
  { intros r v. rewrite InLang_seq. setoid_rewrite InLang_star_char. by setoid_rewrite Hany. }
  unfold guid_re. simpl foldr. split.
  - do 4 (intros (?&->&H)%InLang_seq_char; revert H).
    intros (a&?&->&Ha&(?&->&H)%InLang_seq_char)%Hstar.
    apply Hstar in H as (b&?&->&Hb&->%InLang_lit). by exists a, b.
  - intros (a&b&->&Ha&Hb). do 4 (apply InLang_seq_char; eexists; split; [reflexivity|]).
    apply Hstar. eexists a, _. split_and!; [reflexivity|done|].
    apply InLang_seq_char. eexists. split; [reflexivity|].
    apply Hstar. exists b, guid. split_and!; [done..|]. by apply InLang_lit.
Qed.

(** The log shows that application [APP...] printed [guid]. *)
Definition shows_guid (logContents guid : string) : Prop :=
  ∃ pre a b post, logContents = pre +:+ "[APP" +:+ a +:+ "]" +:+ b +:+ guid +:+ post ∧
    no_newline a ∧ no_newline b.

Lemma validate_run {X} logs guid (w : World X) :
  all_chars is_plain guid = true →
  ∃ err, validateDrainerGotGuid logs guid w = (Val err, w) ∧
    (err = None ↔ shows_guid logs guid) ∧
    (err = None ∨ err = Some (ErrorString "could not validate the guid on syslog")).
Proof.
  intros Hg. unfold validateDrainerGotGuid. rewrite compile_guid by done.
  eexists. split; [reflexivity|].
  assert (MatchString (guid_re guid) logs = true ↔ shows_guid logs guid) as Hm.
  { rewrite MatchString_spec. setoid_rewrite InLang_guid. split.
    - intros (pre&u&post&->&a&b&->&Ha&Hb). exists pre, a, b, post.
      split; [by rewrite <-!app_assoc_s|done].
    - intros (pre&a&b&post&->&Ha&Hb). eexists pre, _, post.
      split; [|by exists a, b]. by rewrite <-!app_assoc_s. }
  rewrite <-Hm. destruct (MatchString _ _); simpl; naive_solver.
Qed.

(** ** An iteration against any surroundings *)





(** ** Surroundings in which every command fails *)

Definition all_fail (e : error) : CFEnv.state := CFEnv.mkState (CFRunner.mk [] [] None (Some e)) [] 0.

Section env.
Context (get : nat → string → error + Response) (guid : nat → string).
Context (guid_plain : ∀ n, all_chars is_plain (guid n) = true).

#[local] Existing Instance CFEnv.runner_instance.
#[local] Instance guid_source : GuidGenerator CFEnv.state := CFEnv.guid_instance guid.
#[local] Instance http : Getter CFEnv.state := CFEnv.getter_instance get.

Implicit Types w : World CFEnv.state.


















End env.

Section failing.
Context (get : nat → string → error + Response) (guid : nat → string) (e : error).

#[local] Existing Instance CFEnv.runner_instance.
#[local] Instance failing_guids : GuidGenerator CFEnv.state := CFEnv.guid_instance guid.
#[local] Instance failing_http : Getter CFEnv.state := CFEnv.getter_instance get.

Implicit Types w : World CFEnv.state.

Definition failing w : Prop :=
  CFRunner.Stub (CFEnv.runner (svc w)) = None ∧
  CFRunner.ReturnsError (CFEnv.runner (svc w)) = Some e.

Lemma cf_fails args w :
  failing w → ∃ w', cf_Run args w = (Val ("", Some e), w') ∧ failing w'.
Proof.
  intros [Hs He]. exists (cf_Run args w).2. split; [|by split].
  unfold cf_Run, CFEnv.runner_instance, CFRunner.Run, mbind, M_bind. simpl. by rewrite Hs, He.
Qed.

Lemma cleanup_step_fails errs args message w :
  failing w → ∃ errs' w', cleanup_step errs args message w = (Val errs', w') ∧ failing w' ∧
    total errs' = total errs + 1 ∧ (counts_positive errs → counts_positive errs').
Proof.
  intros Hf. unfold cleanup_step. destruct (cf_fails args w Hf) as (w'&H&Hf'). step H.
  eexists _, _. split; [reflexivity|]. split; [done|]. split; [apply total_Add|].
  intros ?. by apply Add_positive.
Qed.

Lemma deploy_fails gopath name app url w :
  failing w → ∃ err w', deploySyslogAndValidate gopath name app url w = (Val (Some err), w') ∧
    failing w'.
Proof.
  intros Hf.
  assert (∃ err w', setupSyslogDrainerApp gopath name w = (Val (Some err), w') ∧ failing w')
    as (err&w'&H&Hf').
  { unfold setupSyslogDrainerApp.
    match goal with |- context [mbind _ (cf_Run ?a) ?w0] =>
      destruct (cf_fails a w0 Hf) as (w'&H&Hf'); step H end. by eexists _, _. }
  unfold deploySyslogAndValidate. step H. by eexists _, _.
Qed.

Lemma cleanup_fails app name w :
  failing w → ∃ errs w', cleanup app name w = (Val (Some (Errors errs)), w') ∧ failing w' ∧
    total errs = 3.
Proof.
  intros Hf. unfold cleanup.
  match goal with |- context [mbind _ (cleanup_step ?e ?a ?m) ?w] =>
    destruct (cleanup_step_fails e a m w Hf) as (e1&w1&H1&Hf1&Ht1&Hp1); step H1 end.
  match goal with |- context [mbind _ (cleanup_step ?e ?a ?m) ?w] =>
    destruct (cleanup_step_fails e a m w Hf1) as (e2&w2&H2&Hf2&Ht2&Hp2); step H2 end.
  match goal with |- context [mbind _ (cleanup_step ?e ?a ?m) ?w] =>
    destruct (cleanup_step_fails e a m w Hf2) as (e3&w3&H3&Hf3&Ht3&Hp3); step H3 end.
  rewrite total_empty in Ht1. exists e3, w3.
  assert (0 < Z.of_nat (size e3)) as Hs%Z.ltb_lt; [|rewrite Hs; split_and!; [done..|lia]].
  destruct (decide (e3 = ∅)) as [->|Hne]; [rewrite total_empty in Ht3; lia|].
  apply map_size_non_empty_iff in Hne. lia.
Qed.

Lemma iteration_fails c gopath app url sh w :
  failing w → ∃ sh' w', iteration c gopath app url sh w = (Val sh', w') ∧ failing w' ∧
    total (errors sh') = total (errors sh) + 4 ∧
    iterationCount sh' = AddInt32 (iterationCount sh) 1.
Proof.
  intros Hf. unfold iteration. steps.
  match goal with |- context [mbind _ guid_Generate ?w0] =>
    assert (∃ g w1, guid_Generate w0 = (Val g, w1) ∧ failing w1) as (g&w1&Hg&Hf1);
      [by eexists _, _|]; step Hg end.
  match goal with |- context [mbind _ (deploySyslogAndValidate ?a ?b ?c ?d) ?w] =>
    destruct (deploy_fails a b c d w Hf1) as (err&w2&Hd&Hf2); step Hd end.
  match goal with |- context [mbind _ (cleanup ?a ?b) ?w] =>
    destruct (cleanup_fails a b w Hf2) as (errs&w3&Hc&Hf3&Ht); step Hc end.
  eexists _, _. split; [reflexivity|]. split_and!; [apply Hf3..| |done].
  simpl. rewrite total_union, total_add_count. lia.
Qed.

Lemma Start_fails c gopath app url n sh w z :
  failing w → iterationCount sh = wrap32 z →
  ∃ sh' w', Start c gopath app url (repeat Retry n) sh w = (Val (false, sh'), w') ∧
    total (errors sh') = total (errors sh) + 4 * Z.of_nat n ∧
    iterationCount sh' = wrap32 (z + Z.of_nat n).
Proof.
  revert sh w z. induction n as [|n IH]; intros sh w z Hf Hz.
  { exists sh, w. simpl. rewrite !Z.add_0_r. done. }
  destruct (iteration_fails c gopath app url sh w Hf) as (sh1&w1&H1&Hf1&Ht1&Hc1).
  destruct (IH sh1 w1 (z + 1) Hf1) as (sh2&w2&H2&Ht2&Hc2); [by rewrite Hc1, Hz, AddInt32_wrap|].
  exists sh2, w2. cbn [repeat Start]. step H1. split; [exact H2|].
  rewrite Ht2, Hc2. split; [lia|f_equal; lia].
Qed.
End failing.

(** ** Theorems *)

(** The address read from the drain's log is the address the drain printed:
    whatever lines come before (without a bar in them) and after, and for
    every dotted address with a port; and nothing but such an address between
    bars is ever returned. *)
Theorem syslog_address_roundtrip :
  (∀ ip port pre post, dotted (ip +:+ ":" +:+ port) → has_char "|" pre = false →
     getSyslogAddress (pre +:+ SyslogDrain.address_line ip port +:+ post) =
     (ip +:+ ":" +:+ port, None)) ∧
  (∀ out a, getSyslogAddress out = (a, None) →
     dotted a ∧ ∃ pre post, out = pre +:+ "ADDRESS: |" +:+ a +:+ String "|" post) ∧
  (∀ out a e, getSyslogAddress out = (a, Some e) →
     ¬ ∃ pre post b, out = pre +:+ "ADDRESS: |" +:+ b +:+ String "|" post ∧ dotted b).
Proof.
  split_and!.
  - apply address_line_read.
  - apply getSyslogAddress_sound.
  - intros out a e. rewrite getSyslogAddress_search.
    destruct (search address_re out) as [f|] eqn:Hf; [done|]. intros _ (pre&post&b&->&Hb).
    apply (proj1 (search_None _ _) Hf pre ("ADDRESS: |" +:+ b +:+ "|") post);
      [by rewrite <-!app_assoc_s|by apply address_InLang].
Qed.

Definition drain_log : string :=
  "2016-07-28T17:02:49.24-0700 [APP/PROC/WEB/0]      OUT ".

Lemma syslog_address_roundtrip_witness :
  dotted ("127.0.0.1" +:+ ":" +:+ "6514") ∧ has_char "|" drain_log = false ∧
  getSyslogAddress (drain_log +:+ SyslogDrain.address_line "127.0.0.1" "6514" +:+ "more") =
    ("127.0.0.1:6514", None).
Proof.
  pose proof (dotted_localhost : dotted ("127.0.0.1" +:+ ":" +:+ "6514")) as Hd.
  split; [exact Hd|split; [reflexivity|]].
  exact (proj1 syslog_address_roundtrip "127.0.0.1" "6514" drain_log "more" Hd eq_refl).
Defined.

(** C24: the GUID test accepts a log exactly when, on one line, [[APP] is followed
    by a closing bracket and that by the GUID, for GUIDs without pattern
    characters (hexadecimal digits and dashes in particular); it never panics
    on them. *)
Theorem validate_guid_spec {X} logs guid (w : World X) :
  all_chars is_plain guid = true →
  ∃ err, validateDrainerGotGuid logs guid w = (Val err, w) ∧
    (err = None ↔ shows_guid logs guid) ∧
    (err = None ∨ err = Some (ErrorString "could not validate the guid on syslog")).
Proof. apply validate_run. Qed.

Definition empty_world {X} (x : X) : World X := mkWorld ∅ ∅ permissive_kernel x [].

Lemma validate_guid_spec_witness :
  all_chars is_plain "37911525-ae36" = true ∧
  ∃ err, validateDrainerGotGuid "x [APP/0] got 37911525-ae36." "37911525-ae36" (empty_world tt) =
           (Val err, empty_world tt) ∧
    (err = None ↔ shows_guid "x [APP/0] got 37911525-ae36." "37911525-ae36") ∧
    (err = None ∨ err = Some (ErrorString "could not validate the guid on syslog")).
Proof. split; [reflexivity|]. by apply validate_guid_spec. Defined.


(** The bound of [4 n] is reached when every command fails: twice the
    [maxErrsPerIteration] the verdict divides by. *)
Theorem Start_counts_four get guid c gopath app url n e (w : World CFEnv.state) :
  svc w = all_fail e →
  ∃ sh w', Start (H := CFEnv.runner_instance) (H0 := CFEnv.guid_instance guid)
      (H1 := CFEnv.getter_instance get) c gopath app url (repeat Retry n)
      (New (syslogAppPrefix c) (retryAfter c)).2 w = (Val (false, sh), w') ∧
    total (errors sh) = 2 * (maxErrsPerIteration * Z.of_nat n) ∧
    GetIterationCount sh = wrap32 (Z.of_nat n).
Proof.
  intros Hw.
  destruct (Start_fails get guid e c gopath app url n (mkShared ∅ 0) w 0)
    as (sh&w'&H&Ht&Hc); [unfold failing; by rewrite Hw|done|].
  exists sh, w'. split; [exact H|]. rewrite Ht. unfold maxErrsPerIteration, GetIterationCount.
  simpl errors. rewrite total_empty. split; [lia|done].
Qed.


Lemma Start_counts_four_witness :
  ∃ sh w', Start (H := CFEnv.runner_instance) (H0 := CFEnv.guid_instance (λ _, "g"))
      (H1 := CFEnv.getter_instance (λ _ _, inl (ErrorString "down")))
      (mkChecker "p" 1) "/go" "app" "http://app" (repeat Retry 3)
      (New "p" 1).2 (empty_world (all_fail (ErrorString "x"))) = (Val (false, sh), w') ∧
    total (errors sh) = 12 ∧ GetIterationCount sh = 3.
Proof.
  exact (Start_counts_four (λ _ _, inl (ErrorString "down")) (λ _, "g")
    (mkChecker "p" 1) "/go" "app" "http://app" 3 (ErrorString "x")
    (empty_world (all_fail (ErrorString "x"))) eq_refl).
Defined.

(** ** The verdict *)

(** The comparison of the floats, tabulated. *)
Definition exceeds (t n : Z) : bool :=
  fgt (fdiv (float64_of_int t) (fmul (float64_of_int maxErrsPerIteration) (float64_of_int n)))
    totalErrorThreshold.

Lemma exceeds_table :
  forallb (λ n, forallb (λ t, eqb (exceeds (Z.of_nat t) (Z.of_nat n))
                                  (2 * Z.of_nat n <? 5 * Z.of_nat t))
            (seq 0 (4 * n + 5))) (seq 0 41) = true.
Proof. by vm_compute. Qed.

Lemma exceeds_exact t n :
  0 ≤ n ≤ 40 → 0 ≤ t ≤ 4 * (n + 1) → exceeds t n = (2 * n <? 5 * t).
Proof.
  intros Hn Ht. pose proof exceeds_table as H. rewrite forallb_forall in H.
  specialize (H (Z.to_nat n)). rewrite in_seq, forallb_forall in H.
  specialize (H ltac:(lia) (Z.to_nat t)). rewrite in_seq, !Z2Nat.id in H by lia.
  specialize (H ltac:(lia)). by apply eqb_prop in H.
Qed.

(** C27: for up to 40 iterations and any number of errors these can have left,
    the one in progress included, the float comparison is exact: the verdict is
    negative if and only if more than two errors were counted in five
    iterations (no iteration and no error is positive, 0/0 being NaN).  A
    positive verdict changes nothing, a negative one adds one error. *)
Theorem Check_verdict sh :
  0 ≤ GetIterationCount sh ≤ 40 → 0 ≤ total (errors sh) ≤ 4 * (GetIterationCount sh + 1) →
  (2 * GetIterationCount sh < 5 * total (errors sh) →
     ∃ sh', Check sh = ((false, GetIterationCount sh, errPercent sh), sh') ∧
       iterationCount sh' = iterationCount sh ∧
       errors sh' = Add (errors sh) (Plain (threshold_error sh)) ∧
       total (errors sh') = total (errors sh) + 1) ∧
  (5 * total (errors sh) ≤ 2 * GetIterationCount sh →
     Check sh = ((true, GetIterationCount sh, errPercent sh), sh)).
Proof.
  intros Hn Ht. pose proof (exceeds_exact _ _ Hn Ht) as He.
  unfold Check. change (fgt (errPercent sh) totalErrorThreshold) with
    (exceeds (total (errors sh)) (GetIterationCount sh)). rewrite He.
  split; intros Hc.
  - rewrite (proj2 (Z.ltb_lt _ _) Hc). eexists. split; [reflexivity|].
    split_and!; [done..|apply total_Add].
  - rewrite (proj2 (Z.ltb_ge _ _) Hc). done.
Qed.

Definition half_failed : Shared :=
  mkShared (<["could not restage the app: " := 5]> ∅) 5.

Lemma Check_verdict_witness :
  (0 ≤ GetIterationCount half_failed ≤ 40 ∧
   0 ≤ total (errors half_failed) ≤ 4 * (GetIterationCount half_failed + 1) ∧
   2 * GetIterationCount half_failed < 5 * total (errors half_failed)) ∧
  ∃ sh', Check half_failed = ((false, 5, errPercent half_failed), sh') ∧
    errors sh' !! "ran 5 times, exceeded total error threshold of 0.2: 0.5" = Some 1.
Proof.
  assert (0 ≤ GetIterationCount half_failed ≤ 40) as Hn by (split; vm_compute; congruence).
  assert (0 ≤ total (errors half_failed) ≤ 4 * (GetIterationCount half_failed + 1)) as Ht
    by (split; vm_compute; congruence).
  assert (2 * GetIterationCount half_failed < 5 * total (errors half_failed)) as Hc by reflexivity.
  split; [exact (conj Hn (conj Ht Hc))|].
  destruct (proj1 (Check_verdict half_failed Hn Ht) Hc) as (sh'&H&_&He&_).
  exists sh'. split; [exact H|]. rewrite He. vm_compute. reflexivity.
Defined.
