(* ===== verification/SyslogHealthy.v ===== *)
(** * The syslog checker on a platform that works

    The surroundings: every command succeeds, the drain's log shows its address
    and, once the application was restaged, the GUID sent last; every request is
    answered with 200.  Then no number of iterations counts an error. *)
From S2P Require Import Prelude GoStrings GoPath Machine GoJson GoHttp GoRegexp RegexpFacts.
From S2P Require Import GoFloat GoInt ErrorSet SyslogChecker CfApps CfFakes SyslogSpec.

Open Scope Z_scope.

Definition count (name : string) (l : list string) : nat :=
  length (filter (λ n, n = name) l).

Lemma count_app name l k : count name (l ++ k) = (count name l + count name k)%nat.
Proof. unfold count. by rewrite filter_app, length_app. Qed.

Definition names (commands : list (list string)) : list string :=
  (λ c, default "" (head c)) <$> commands.
Definition restages (commands : list (list string)) : nat := count "restage" (names commands).

(** [stub] answers the commands, [guid n] is the [n]-th GUID: the names of the
    drains have the even numbers, the GUIDs sent the odd ones. *)
Record working (stub : CFRunner.stub) (get : nat → string → error + Response)
    (guid : nat → string) : Prop := {
  w_plain n : all_chars is_plain (guid n) = true;
  w_succeeds commands args : (stub commands args).2 = None;
  w_address commands name : ∃ pre ip port post,
    (stub commands ["logs"; name; "--recent"]).1 =
      pre +:+ SyslogDrain.address_line ip port +:+ post ∧
    has_char "|" pre = false ∧ dotted (ip +:+ ":" +:+ port);
  w_guid commands name r : restages commands = S r →
    shows_guid (stub commands ["logs"; name; "--recent"]).1 (guid (2 * r + 1)%nat);
  w_get n url : ∃ resp, get n url = inr resp ∧ StatusCode resp = StatusOK ∧ BodyErr resp = None
}.

Section healthy.
Context (stub : CFRunner.stub) (get : nat → string → error + Response) (guid : nat → string).
Context (Hwork : working stub get guid).

#[local] Existing Instance CFEnv.runner_instance.
#[local] Instance healthy_guids : GuidGenerator CFEnv.state := CFEnv.guid_instance guid.
#[local] Instance healthy_http : Getter CFEnv.state := CFEnv.getter_instance get.

Implicit Types w : World CFEnv.state.

(** After [r] restages and [g] GUIDs. *)
Definition at_point (r g : nat) w : Prop :=
  CFRunner.Stub (CFEnv.runner (svc w)) = Some stub ∧
  restages (CFRunner.Commands (CFEnv.runner (svc w))) = r ∧ CFEnv.generated (svc w) = g.

Lemma cf_ok args r g w :
  at_point r g w → ∃ commands w', cf_Run args w = (Val ((stub commands args).1, None), w') ∧
    let r' := (if String.eqb (default "" (head args)) "restage" then S r else r) in
    restages commands = r' ∧ at_point r' g w'.
Proof.
  intros (Hs&Hr&Hg). exists (CFRunner.Commands (CFEnv.runner (svc w)) ++ [args]), (cf_Run args w).2.
  assert (restages (CFRunner.Commands (CFEnv.runner (svc w)) ++ [args]) =
    if String.eqb (default "" (head args)) "restage" then S r else r) as Hn.
  { unfold restages, names. rewrite fmap_app, count_app. unfold count at 2. simpl.
    unfold restages, names in Hr. rewrite Hr, filter_cons, filter_nil.
    destruct (String.eqb_spec (default "" (head args)) "restage");
      [rewrite decide_True|rewrite decide_False]; simpl; (done || lia). }
  split.
  - unfold cf_Run, CFEnv.runner_instance, CFRunner.Run, mbind, M_bind. simpl. rewrite Hs.
    rewrite (surjective_pairing (stub _ _)) at 1. by rewrite (w_succeeds _ _ _ Hwork).
  - split; [exact Hn|]. split_and!; [done|exact Hn|done].
Qed.

Lemma guid_ok r g w :
  at_point r g w → ∃ w', guid_Generate w = (Val (guid g), w') ∧ at_point r (S g) w'.
Proof. intros (?&?&<-). eexists. split; [reflexivity|done]. Qed.

Lemma get_ok url r g w :
  at_point r g w → ∃ w', sendGetRequestToApp url w = (Val None, w') ∧ at_point r g w'.
Proof.
  intros H. destruct (w_get _ _ _ Hwork (length (CFEnv.gets (svc w))) url) as (resp&Hget&Hs&He).
  assert (∃ w', http_Get url w = (Val (inr resp), w') ∧ at_point r g w') as (w'&Hr&H').
  { exists (http_Get url w).2. split; [by rewrite <-Hget|exact H]. }
  exists w'. split; [|done]. unfold sendGetRequestToApp. step Hr. simpl.
  by rewrite He, Hs.
Qed.

(** One command of a working platform. *)
Ltac next_ok :=
  match goal with
  | Hat : at_point ?r ?g ?w |- context [mbind _ (cf_Run ?args) ?w] =>
      let cmds := fresh "cmds" in let w' := fresh "w" in let H := fresh "Hrun" in
      let Hn := fresh "Hn" in let Hat' := fresh "Hat" in
      destruct (cf_ok args r g w Hat) as (cmds&w'&H&Hn&Hat'); cbn in Hn, Hat'; step H; clear Hat
  end.

Lemma deploy_ok gopath name app url r g w :
  at_point r g w → g = S (2 * r) →
  ∃ w', deploySyslogAndValidate gopath name app url w = (Val None, w') ∧
    at_point (S r) (S g) w'.
Proof.
  intros H Hg. unfold deploySyslogAndValidate.
  assert (∃ w', setupSyslogDrainerApp gopath name w = (Val None, w') ∧ at_point r g w')
    as (w1&H1&H1').
  { unfold setupSyslogDrainerApp. do 4 next_ok. by eexists. }
  step H1. clear H. next_ok.
  match goal with |- context [getSyslogAddress (stub ?c _).1] =>
    destruct (w_address _ _ _ Hwork c name) as (pre&ip&prt&post&Hlog&Hpre&Hd) end.
  rewrite Hlog, (address_line_read ip prt pre post Hd Hpre).
  do 3 next_ok.
  match goal with Hat : at_point ?r ?g ?w |- _ =>
    destruct (guid_ok r g w Hat) as (wg&H2&H2'); step H2 end.
  match goal with |- context [mbind _ (sendGetRequestToApp ?url) ?w] =>
    destruct (get_ok url _ _ w H2') as (wh&H3&H3'); step H3 end.
  next_ok.
  match goal with |- context [mbind _ (validateDrainerGotGuid ?logs ?gd) ?w] =>
    destruct (validate_run logs gd w (w_plain _ _ _ Hwork g)) as (err&Hv&Hiff&_); step Hv end.
  assert (err = None) as ->.
  { apply Hiff. subst g. rewrite <-Nat.add_1_r. by apply (w_guid _ _ _ Hwork). }
  by eexists.
Qed.

Lemma cleanup_step_ok errs args message r g w :
  at_point r g w → default "" (head args) ≠ "restage" →
  ∃ w', cleanup_step errs args message w = (Val errs, w') ∧ at_point r g w'.
Proof.
  intros H Hne. unfold cleanup_step.
  destruct (cf_ok args r g w H) as (cmds&w'&Hrun&_&H'). step Hrun.
  rewrite (proj2 (String.eqb_neq _ _) Hne) in H'. by eexists.
Qed.

Lemma cleanup_ok app name r g w :
  at_point r g w → ∃ w', cleanup app name w = (Val None, w') ∧ at_point r g w'.
Proof.
  intros H. unfold cleanup.
  do 3 match goal with Hat : at_point ?r ?g ?w |- context [mbind _ (cleanup_step ?e ?a ?m) ?w] =>
    let w' := fresh "w" in let H1 := fresh "H" in let H2 := fresh "H" in
    destruct (cleanup_step_ok e a m r g w Hat) as (w'&H1&H2); [done|]; step H1; clear Hat end.
  by eexists.
Qed.

Lemma iteration_ok c gopath app url sh r w :
  at_point r (2 * r) w →
  ∃ w', iteration c gopath app url sh w =
      (Val (mkShared (errors sh) (AddInt32 (iterationCount sh) 1)), w') ∧
    at_point (S r) (2 * S r) w'.
Proof.
  intros H. unfold iteration. steps.
  destruct (guid_ok r (2 * r)%nat (emit (Slept (retryAfter c)) w) H) as (w1&H1&H1'). step H1.
  match goal with |- context [mbind _ (deploySyslogAndValidate ?a ?b ?c ?d) ?w] =>
    destruct (deploy_ok a b c d r (S (2 * r)) w H1' eq_refl) as (w2&H2&H2'); step H2 end.
  match goal with |- context [mbind _ (cleanup ?a ?b) ?w] =>
    destruct (cleanup_ok a b _ _ w H2') as (w3&H3&H3'); step H3 end.
  exists w3. split; [reflexivity|]. replace (2 * S r)%nat with (S (S (2 * r))) by lia. done.
Qed.

Lemma Start_ok c gopath app url n sh r w z :
  at_point r (2 * r) w → iterationCount sh = wrap32 z →
  ∃ w', Start c gopath app url (repeat Retry n) sh w =
    (Val (false, mkShared (errors sh) (wrap32 (z + Z.of_nat n))), w').
Proof.
  revert sh r w z. induction n as [|n IH]; intros sh r w z H Hz.
  { exists w. simpl. rewrite Z.add_0_r, <-Hz. by destruct sh. }
  destruct (iteration_ok c gopath app url sh r w H) as (w1&H1&H1').
  destruct (IH (mkShared (errors sh) (AddInt32 (iterationCount sh) 1)) (S r) w1 (z + 1) H1')
    as (w2&H2); [simpl; by rewrite Hz, AddInt32_wrap|].
  exists w2. cbn [repeat Start]. step H1. rewrite H2. cbn [errors].
  by replace (z + Z.of_nat (S n)) with (z + 1 + Z.of_nat n) by lia.
Qed.
End healthy.

(** No errors never exceed the threshold, whatever the counter says. *)
Lemma Check_no_errors n :
  Check (mkShared ∅ n) = ((true, n, errPercent (mkShared ∅ n)), mkShared ∅ n).
Proof.
  unfold Check. assert (fgt (errPercent (mkShared ∅ n)) totalErrorThreshold = false) as ->; [|done].
  unfold errPercent. simpl errors. rewrite total_empty.
  by destruct (fmul _ _).
Qed.

(** C31: on a working platform the checker goes on for ever without counting an
    error, and its verdict is positive after any number of iterations. *)
Theorem healthy_platform stub get guid c gopath app url n (w : World CFEnv.state) :
  working stub get guid → svc w = CFEnv.mkState (CFRunner.mk [] [] (Some stub) None) [] 0 →
  ∃ sh w', Start (H := CFEnv.runner_instance) (H0 := CFEnv.guid_instance guid)
      (H1 := CFEnv.getter_instance get) c gopath app url (repeat Retry n)
      (New (syslogAppPrefix c) (retryAfter c)).2 w = (Val (false, sh), w') ∧
    errors sh = ∅ ∧ GetIterationCount sh = wrap32 (Z.of_nat n) ∧
    ∃ ratio, Check sh = ((true, GetIterationCount sh, ratio), sh).
Proof.
  intros Hwork Hw.
  destruct (Start_ok stub get guid Hwork c gopath app url n (mkShared ∅ 0) 0 w 0)
    as (w'&H); [unfold at_point; by rewrite Hw|done|].
  eexists _, w'. split; [exact H|]. split_and!; [done..|]. eexists. apply Check_no_errors.
Qed.

(** The surroundings of the checker's own tests. *)
Definition test_stub : CFRunner.stub := λ _ args,
  (if String.eqb (default "" (head args)) "logs" then
     "2016 [APP/PROC/WEB/0] OUT ADDRESS: |127.0.0.1:6514|" +:+ String newline
       "2016 [APP/PROC/WEB/0] OUT some-guid"
   else "37911525", None).

Definition ok_response : nat → string → error + Response :=
  λ _ _, inr (mkResponse StatusOK "" None).

Lemma healthy_platform_witness :
  working test_stub ok_response (λ _, "some-guid") ∧
  ∃ sh w', Start (H := CFEnv.runner_instance) (H0 := CFEnv.guid_instance (λ _, "some-guid"))
      (H1 := CFEnv.getter_instance ok_response) (mkChecker "p" 1) "/go" "app" "http://app"
      (repeat Retry 4) (New "p" 1).2
      (empty_world (CFEnv.mkState (CFRunner.mk [] [] (Some test_stub) None) [] 0)) =
      (Val (false, sh), w') ∧
    errors sh = ∅ ∧ GetIterationCount sh = wrap32 4 ∧
    ∃ ratio, Check sh = ((true, GetIterationCount sh, ratio), sh).
Proof.
  assert (working test_stub ok_response (λ _, "some-guid")) as Hw.
  { split; [done|done| | |].
    - intros cmds name. exists "2016 [APP/PROC/WEB/0] OUT ", "127.0.0.1", "6514",
        (String newline "2016 [APP/PROC/WEB/0] OUT some-guid").
      split_and!; [reflexivity..|]. exact dotted_localhost.
    - intros cmds name r _. exists ("2016 [APP/PROC/WEB/0] OUT ADDRESS: |127.0.0.1:6514|" +:+
        String newline "2016 "), "/PROC/WEB/0", " OUT ", "". done.
    - intros n url. by eexists. }
  split; [exact Hw|].
  exact (healthy_platform test_stub ok_response (λ _, "some-guid") (mkChecker "p" 1) "/go" "app"
    "http://app" 4 (empty_world _) Hw eq_refl).
Defined.
