(* ===== verification/LogSpammer.v ===== *)
(** * [src/acceptance-tests/cf-tls-upgrade/logspammer/logspammer.go]

    The spammer asks the log spinner again and again to log a numbered message,
    reads the application's log stream in a second goroutine, and reports the
    numbers that did not come back.

    The two goroutines, [Stop] and the surroundings are a labelled transition
    system; a label carries what the surroundings answered.  [Time] is
    [time.Time], [Format] its [Format(TimeFormat)], [zero] its zero value;
    [resp_text] is what [%+v] prints for a response.  [Start] is called once,
    as the callers do. *)
From S2P Require Import Prelude GoStrings GoPath Machine GoJson GoHttp GoRegexp ErrorSet.

Open Scope Z_scope.

(** ** The log stream ([sonde-go/events], the fields used) *)

Inductive LogMessage_MessageType := LogMessage_OUT | LogMessage_ERR.

Record LogMessage := mkLogMessage {
  SourceType : option string;
  MessageType : option LogMessage_MessageType;
  Message : string
}.

Record Envelope := mkEnvelope { env_LogMessage : option LogMessage }.

Section spammer.
Context {Time : Type} (Format : Time → string) (zero : Time) (resp_text : Response → string).

(** ** State *)

(** Where the sending goroutine is: before [Start], in its [select], in
    [doneWaitGroup.Wait()], or gone. *)
Inductive sender_at := SNone | SSelect | SWait | SReturned.
Inductive receiver_at := RNone | RSelect | RReturned.
(** Where the caller of [Stop] is. *)
Inductive stopper_at := PNone | PWait | PReturned.

Record Spammer := mkSpammer {
  appURL : string;
  prefix : string;
  logMessages : list string;
  logWritten : Z;
  logsWritten : gmap Z Time;
  errors : ErrorSet;
  streams : nat;           (* calls of [streamGenerator] so far *)
  doneGet : bool;          (* closed *)
  doneMsg : bool;          (* closed *)
  wg : Z;
  doneWaitGroup : Z;
  sender : sender_at;
  receiver : receiver_at;
  stopper : stopper_at
}.

(** [NewSpammer]; [rand] is the result of [rand.Int()]. *)
Definition NewSpammer (appURL : string) (rand : Z) : Spammer :=
  mkSpammer appURL ("spammer-" +:+ Sprintf_d rand) [] 0 ∅ ∅ 1 false false 0 0 SNone RNone PNone.

Definition set_errors (e : ErrorSet) (s : Spammer) : Spammer :=
  mkSpammer (appURL s) (prefix s) (logMessages s) (logWritten s) (logsWritten s) e (streams s)
    (doneGet s) (doneMsg s) (wg s) (doneWaitGroup s) (sender s) (receiver s) (stopper s).
Definition set_written (n : Z) (l : gmap Z Time) (s : Spammer) : Spammer :=
  mkSpammer (appURL s) (prefix s) (logMessages s) n l (errors s) (streams s)
    (doneGet s) (doneMsg s) (wg s) (doneWaitGroup s) (sender s) (receiver s) (stopper s).
Definition set_messages (l : list string) (s : Spammer) : Spammer :=
  mkSpammer (appURL s) (prefix s) l (logWritten s) (logsWritten s) (errors s) (streams s)
    (doneGet s) (doneMsg s) (wg s) (doneWaitGroup s) (sender s) (receiver s) (stopper s).
Definition set_streams (n : nat) (s : Spammer) : Spammer :=
  mkSpammer (appURL s) (prefix s) (logMessages s) (logWritten s) (logsWritten s) (errors s) n
    (doneGet s) (doneMsg s) (wg s) (doneWaitGroup s) (sender s) (receiver s) (stopper s).
Definition set_control (dg dm : bool) (g dw : Z) (a : sender_at) (b : receiver_at) (p : stopper_at)
    (s : Spammer) : Spammer :=
  mkSpammer (appURL s) (prefix s) (logMessages s) (logWritten s) (logsWritten s) (errors s)
    (streams s) dg dm g dw a b p.

(** ** [CheckStream] *)

(** The request, how closing the body went, and whether an envelope arrived
    within five milliseconds. *)
Definition CheckStream_url (s : Spammer) : string := appURL s +:+ "/log/TEST".

Definition CheckStream (answer : error + Response) (close : option error) (arrived : bool) : bool :=
  match answer with
  | inl _ => false
  | inr resp =>
      match (ReadAll resp).2 with
      | Some _ => false
      | None => match close with Some _ => false | None => arrived end
      end
  end.

(** ** The sending goroutine *)

Definition request_url (s : Spammer) : string :=
  appURL s +:+ "/log/" +:+ prefix s +:+ "-" +:+ Sprintf_d (logWritten s) +:+ "-".

(** The [time.After] case: the answer to the GET of [request_url], the result
    of closing the body and the time afterwards. *)
Definition send (answer : error + Response) (close : option error) (now : Time) (s : Spammer) :
    Spammer :=
  let fail err := set_errors (Add (errors s) (Plain err)) s in
  match answer with
  | inl err => fail err
  | inr resp =>
      let '(body, err) := ReadAll resp in
      match err with
      | Some err => fail err
      | None =>
          match close with
          | Some err => fail err
          | None =>
              if negb (bool_decide (StatusCode resp = StatusOK)) then
                fail (ErrorString (resp_text resp +:+ " -- " +:+ body))
              else
                set_written (logWritten s + 1) (<[logWritten s := now]> (logsWritten s)) s
          end
      end
  end.

(** ** The receiving goroutine *)

Inductive result := Running (s : Spammer) | Crashed (msg : string).

(** A value from [errChan]; a closed channel gives nil, whose [Error()]
    crashes. *)
Definition receive_error (err : option error) (s : Spammer) : result :=
  match err with
  | None => Crashed nil_dereference
  | Some err =>
      Running (if Contains (Error err) "Unauthorized" then set_streams (S (streams s)) s else s)
  end.

(** A value from [msgChan]: nil is ignored, and so is what is not printed by the
    application; the second condition is evaluated only if the first holds. *)
Definition receive_message (msg : option Envelope) (s : Spammer) : result :=
  match msg with
  | None => Running s
  | Some msg =>
      match env_LogMessage msg with
      | None => Running s
      | Some m =>
          match SourceType m with
          | None => Crashed nil_dereference
          | Some source =>
              if bool_decide (source = "APP/PROC/WEB") then
                match MessageType m with
                | None => Crashed nil_dereference
                | Some LogMessage_OUT => Running (set_messages (logMessages s ++ [Message m]) s)
                | Some LogMessage_ERR => Running s
                end
              else Running s
          end
      end
  end.

(** ** Steps *)

Inductive label :=
  | LStart
  | LSend (url : string) (answer : error + Response) (close : option error) (now : Time)
  | LSenderDone
  | LSenderReturn
  | LError (err : option error)
  | LMessage (msg : option Envelope)
  | LReceiverDone
  | LStop
  | LStopReturn.

Definition sender_eqb (a b : sender_at) : bool :=
  match a, b with
  | SNone, SNone | SSelect, SSelect | SWait, SWait | SReturned, SReturned => true
  | _, _ => false
  end.
Definition receiver_eqb (a b : receiver_at) : bool :=
  match a, b with RNone, RNone | RSelect, RSelect | RReturned, RReturned => true | _, _ => false end.

Definition guard (b : bool) (r : result) : option result := if b then Some r else None.

(** [None]: the step is not possible in this state. *)
Definition step (l : label) (s : Spammer) : option result :=
  match l with
  | LStart =>
      guard (sender_eqb (sender s) SNone)
        (Running (set_control (doneGet s) (doneMsg s) (wg s + 1) (doneWaitGroup s + 1)
                    SSelect RSelect (stopper s) s))
  | LSend url answer close now =>
      guard (sender_eqb (sender s) SSelect && bool_decide (url = request_url s))
        (Running (send answer close now s))
  | LSenderDone =>
      (* [s.wg.Done(); close(s.doneMsg)], then the wait group *)
      guard (sender_eqb (sender s) SSelect && doneGet s)
        (if doneMsg s then Crashed "close of closed channel"
         else Running (set_control (doneGet s) true (wg s - 1) (doneWaitGroup s)
                         SWait (receiver s) (stopper s) s))
  | LSenderReturn =>
      guard (sender_eqb (sender s) SWait && (doneWaitGroup s <=? 0))
        (Running (set_control (doneGet s) (doneMsg s) (wg s) (doneWaitGroup s)
                    SReturned (receiver s) (stopper s) s))
  | LError err => guard (receiver_eqb (receiver s) RSelect) (receive_error err s)
  | LMessage msg => guard (receiver_eqb (receiver s) RSelect) (receive_message msg s)
  | LReceiverDone =>
      guard (receiver_eqb (receiver s) RSelect && doneMsg s)
        (Running (set_control (doneGet s) (doneMsg s) (wg s) (doneWaitGroup s)
                    (sender s) RReturned (stopper s) s))
  | LStop =>
      Some (if doneGet s then Crashed "close of closed channel"
            else Running (set_control true (doneMsg s) (wg s) (doneWaitGroup s)
                            (sender s) (receiver s) PWait s))
  | LStopReturn =>
      guard (match stopper s with PWait => wg s <=? 0 | _ => false end)
        (Running (set_control (doneGet s) (doneMsg s) (wg s) (doneWaitGroup s)
                    (sender s) (receiver s) PReturned s))
  end.

(** A run: the labels in order; a crash ends the program. *)
Fixpoint run (ls : list label) (s : Spammer) : option result :=
  match ls with
  | [] => Some (Running s)
  | l :: ls =>
      match step l s with
      | Some (Running s') => run ls s'
      | Some (Crashed msg) => match ls with [] => Some (Crashed msg) | _ => None end
      | None => None
      end
  end.

(** ** [Check] *)

Definition LogMessages (s : Spammer) : list string := logMessages s.

Definition dropTimestamp : re := default REmpty (Compile "\[.*\] ").

(** The number in one message, if it has one. *)
Definition log_number (logMessage : string) : option Z :=
  if Contains logMessage "TEST" then None
  else
    let log := ReplaceAllLiteralString dropTimestamp logMessage "" in
    match Split "-" log with
    | _ :: _ :: msgIntStr :: _ =>
        match Atoi msgIntStr with inr msgInt => Some msgInt | inl _ => None end
    | _ => None
    end.

(** [getReceivedLogNumbers]: the keys of the map, whose values are all true. *)
Definition getReceivedLogNumbers (s : Spammer) : gset Z :=
  foldl (λ received logMessage,
    match log_number logMessage with Some n => {[n]} ∪ received | None => received end)
    ∅ (LogMessages s).

Definition missing_numbers (s : Spammer) : list Z :=
  filter (λ n, n ∉ getReceivedLogNumbers s) (seqZ 0 (logWritten s)).

Definition missing_error (log : Time) : error := ErrorString ("missing log entry: " +:+ Format log).

Definition non_empty (e : ErrorSet) : option ErrorSet :=
  if (0 <? Z.of_nat (size e)) then Some e else None.

(** The two errors, and what is written to the logger. *)
Definition Check (s : Spammer) : (option ErrorSet * option ErrorSet) * list string :=
  let received := getReceivedLogNumbers s in
  let missingLogs := (λ n, default zero (logsWritten s !! n)) <$> missing_numbers s in
  let written :=
    if (0 <? Z.of_nat (length missingLogs)) then
      ["total logs written " +:+ Sprintf_d (logWritten s) +:+ ", received logs " +:+
       Sprintf_d (Z.of_nat (size received)) +:+ ", diff " +:+
       Sprintf_d (logWritten s - Z.of_nat (size received)) +:+ String "010" ""]
    else [] in
  let logMissing := foldl (λ acc log, Add acc (Plain (missing_error log))) ∅ missingLogs in
  ((non_empty (errors s), non_empty logMissing), written).
End spammer.
