(* ===== verification/LogSpammerSpec.v ===== *)
(** * What the log spammer does

    The invariant of the transition system, the accounting of requests, that
    [Stop] returns, the round trip of a number through the log spinner, and
    [Check]. *)
From S2P Require Import Prelude GoStrings GoPath Machine GoJson GoHttp GoRegexp RegexpFacts.
From S2P Require Import GoUrl UrlFacts ErrorSet CfApps LogSpammer.

Open Scope Z_scope.

(** ** Dropping the time stamp *)

Lemma dropTimestamp_re :
  dropTimestamp =
  RSeq (RChar (CLit "[")) (RSeq (RStar (RChar CAny))
    (RSeq (RChar (CLit "]")) (RSeq (RChar (CLit " ")) REmpty))).
Proof. by vm_compute. Qed.

Lemma no_newline_any s : has_char newline s = false → all_chars (char_in CAny) s = true.
Proof.
  induction s as [|c s IH]; [done|]. intros [Hc Hs]%has_char_cons_false.
  simpl. rewrite IH by done. rewrite bool_decide_false by congruence. done.
Qed.

(** The greedy pattern takes everything up to the last closing bracket. *)
Lemma match_timestamp now msg :
  has_char newline now = false → has_char "]" msg = false →
  match_here dropTimestamp (LogSpinner.line now msg) = Some (msg, []).
Proof.
  intros Hn Hm. unfold match_here, LogSpinner.line. rewrite dropTimestamp_re.
  change ("[" +:+ now +:+ "] " +:+ msg) with (String "[" (now +:+ String "]" (String " " msg))).
  set (t := String "]" (String " " msg)). rewrite run_seq_char, run_seq_star.
  apply star_greedy; [done|by apply no_newline_any| |].
  { unfold t. by rewrite !run_seq_char. }
  intros v w Ht Hv _. destruct v as [|x v]; [done|]. rewrite app_cons_s in Ht.
  injection Ht as _ Ht. destruct w as [|y w]; [done|].
  assert (has_char "]" (v +:+ String y w) = false) as Hw by (rewrite <-Ht; exact Hm).
  rewrite has_char_app in Hw. apply orb_false_iff in Hw as [_ Hw].
  apply has_char_cons_false in Hw as [Hy _]. simpl. by rewrite bool_decide_false by congruence.
Qed.

Lemma search_no_bracket s : has_char "[" s = false → search dropTimestamp s = None.
Proof.
  intros Hs. apply search_None. intros p u t -> Hu. rewrite dropTimestamp_re in Hu.
  apply InLang_seq_char in Hu as (w&->&_).
  rewrite has_char_app, has_char_app in Hs. apply orb_false_iff in Hs as [_ Hs].
  apply orb_false_iff in Hs as [Hs _]. simpl in Hs. done.
Qed.

Lemma drop_no_bracket s :
  has_char "[" s = false → ReplaceAllLiteralString dropTimestamp s "" = s.
Proof.
  intros Hs. unfold ReplaceAllLiteralString. cbn [replace_loop].
  by rewrite search_no_bracket.
Qed.

Lemma drop_timestamp now msg :
  has_char newline now = false → has_char "]" msg = false → has_char "[" msg = false →
  ReplaceAllLiteralString dropTimestamp (LogSpinner.line now msg) "" = msg.
Proof.
  intros Hn Hm Hb. unfold ReplaceAllLiteralString.
  cbn [replace_loop]. rewrite search_unfold, match_timestamp by done. simpl f_pre. simpl f_text.
  assert (consumed (LogSpinner.line now msg) msg = String "[" (now +:+ "] ")) as ->.
  { unfold LogSpinner.line.
    change ("[" +:+ now +:+ "] " +:+ msg) with (String "[" (now +:+ "] " +:+ msg)).
    rewrite app_assoc_s. exact (consumed_app (String "[" (now +:+ "] ")) msg). }
  rewrite bool_decide_false by done. simpl f_post.
  change ("" +:+ ?x) with x. cbn [negb orb bool_decide decide_rel].
  match goal with |- context [if ?b then "" else ""] => destruct b end;
    change ("" +:+ ?x) with x;
    (destruct (String.length (LogSpinner.line now msg)) eqn:Hl; [done|]; cbn [replace_loop];
     by rewrite search_no_bracket).
Qed.

(** ** A number through the log spinner *)

(** The message of number [i]. *)
Definition own_message (prefix : string) (i : Z) : string := prefix +:+ "-" +:+ Sprintf_d i +:+ "-".

Lemma plain_digits z : 0 ≤ z → all_chars plain_host (Sprintf_d z) = true.
Proof.
  intros Hz. pose proof (Sprintf_d_digits z Hz) as Hd.
  induction (Sprintf_d z) as [|c s IH]; [done|]. simpl in *.
  apply andb_true_iff in Hd as [Hc Hd]. rewrite IH by done.
  assert (plain_host c = true) as ->; [|done].
  destruct c as [[] [] [] [] [] [] [] []]; done.
Qed.

Lemma own_message_plain rand i :
  0 ≤ rand → 0 ≤ i → all_chars plain_host (own_message ("spammer-" +:+ Sprintf_d rand) i) = true.
Proof.
  intros Hr Hi. unfold own_message. rewrite !all_chars_app, !plain_digits by done. done.
Qed.

Lemma split_own_message rand i :
  0 ≤ rand → 0 ≤ i →
  Split "-" (own_message ("spammer-" +:+ Sprintf_d rand) i) =
  ["spammer"; Sprintf_d rand; Sprintf_d i; ""].
Proof.
  intros Hr Hi. unfold own_message.
  assert (∀ z, 0 ≤ z → has_char "-" (Sprintf_d z) = false) as Hd.
  { intros z Hz. eapply all_chars_has; [by apply Sprintf_d_digits|done]. }
  change (("spammer-" +:+ Sprintf_d rand) +:+ "-" +:+ Sprintf_d i +:+ "-") with
    ("spammer" +:+ String "-" (Sprintf_d rand +:+ "-" +:+ Sprintf_d i +:+ "-")).
  rewrite Split_app_sep. change ("-" +:+ Sprintf_d i +:+ "-") with (String "-" (Sprintf_d i +:+ "-")).
  rewrite Split_app_sep, Split_app_sep, !(Split_id _ (Sprintf_d _)) by auto. done.
Qed.

Lemma log_number_own now rand i :
  0 ≤ rand → 0 ≤ i ≤ max_int → has_char newline now = false →
  Contains (LogSpinner.line now (own_message ("spammer-" +:+ Sprintf_d rand) i)) "TEST" = false →
  log_number (LogSpinner.line now (own_message ("spammer-" +:+ Sprintf_d rand) i)) = Some i.
Proof.
  intros Hr Hi Hn Ht. unfold log_number. rewrite Ht.
  pose proof (own_message_plain rand i Hr (proj1 Hi)) as Hp.
  rewrite drop_timestamp; [|done|by apply (all_chars_has plain_host)..].
  rewrite split_own_message by lia. rewrite Atoi_Sprintf_d; [done|].
  unfold in_int, min_int, max_int in *. apply andb_true_iff. lia.
Qed.

(** ** The invariant *)

Section spammer.
Context {Time : Type} (resp_text : Response → string).
Implicit Types (s : Spammer (Time := Time)) (ls : list (label (Time := Time))).

Notation step := (step resp_text).
Notation run := (LogSpammer.run resp_text).

(** The wait groups, the channels and the goroutines fit together; in
    particular nobody ever counts [doneWaitGroup] down, so that the sending
    goroutine stays in its last line. *)
Definition control_ok s : Prop :=
  match sender s with
  | SNone => wg s = 0 ∧ doneWaitGroup s = 0 ∧ doneMsg s = false ∧ receiver s = RNone
  | SSelect => wg s = 1 ∧ doneWaitGroup s = 1 ∧ doneMsg s = false ∧ receiver s = RSelect
  | SWait => wg s = 0 ∧ doneWaitGroup s = 1 ∧ doneMsg s = true ∧ doneGet s = true ∧ receiver s ≠ RNone
  | SReturned => False
  end ∧ (stopper s = PNone ↔ doneGet s = false).

(** The numbers written are [0 .. logWritten - 1], each with its time. *)
Definition numbers_ok s : Prop :=
  0 ≤ logWritten s ∧ ∀ i, is_Some (logsWritten s !! i) ↔ 0 ≤ i < logWritten s.

Definition Inv s : Prop := control_ok s ∧ numbers_ok s ∧ counts_positive (errors s).

Lemma Inv_New url rand : Inv (NewSpammer url rand).
Proof.
  split_and!; [by split|split; simpl; [done|]|apply empty_positive].
  intros i. rewrite lookup_empty. split; [by intros [? ?]|lia].
Qed.

Lemma guard_Some b r r' : guard (Time := Time) b r = Some r' → b = true ∧ r = r'.
Proof. destruct b; simpl; naive_solver. Qed.

Lemma sender_eqb_true a b : sender_eqb a b = true → a = b.
Proof. by destruct a, b. Qed.
Lemma receiver_eqb_true a b : receiver_eqb a b = true → a = b.
Proof. by destruct a, b. Qed.

(** [send] keeps the control state, and either writes the next number or counts
    one error. *)
Lemma send_cases answer close now s :
  (∃ err, send resp_text answer close now s = set_errors (Add (errors s) (Plain err)) s) ∨
  send resp_text answer close now s =
    set_written (logWritten s + 1) (<[logWritten s := now]> (logsWritten s)) s.
Proof.
  unfold send. destruct answer as [e|r]; [by left; exists e|]. simpl.
  destruct (BodyErr r) as [e|]; [by left; exists e|].
  destruct close as [e|]; [by left; exists e|]. destruct (negb _); [left|by right].
  by exists (ErrorString (resp_text r +:+ " -- " +:+ Body r)).
Qed.

Lemma receive_cases msg s r :
  receive_message msg s = r →
  r = Running s ∨ (∃ m, r = Running (set_messages (logMessages s ++ [m]) s)) ∨
  r = Crashed nil_dereference.
Proof.
  intros <-. unfold receive_message. repeat case_match; eauto.
Qed.

Lemma Inv_step l s s' : Inv s → step l s = Some (Running s') → Inv s'.
Proof.
  intros Hall Hs. pose proof Hall as ([Hc Hstop]&[Hn Hw]&He).
  destruct l as [|url answer close now| | |err|msg| | |]; simpl in Hs.
  - apply guard_Some in Hs as [Hg%sender_eqb_true [= <-]]. rewrite Hg in Hc.
    destruct Hc as (Hwg&Hdw&Hdm&_). split_and!; [split; simpl; [|done]|by split|done].
    rewrite Hwg, Hdw. by split_and!.
  - apply guard_Some in Hs as [_ [= <-]].
    destruct (send_cases answer close now s) as [[err ->]| ->].
    + split_and!; [by split|by split|by apply Add_positive].
    + split_and!; [by split| |done]. split; simpl; [lia|]. intros i.
      destruct (decide (i = logWritten s)) as [->|Hi].
      * rewrite lookup_insert_eq. split; [lia|eauto].
      * rewrite lookup_insert_ne by done. rewrite Hw. lia.
  - apply guard_Some in Hs as [[Hg%sender_eqb_true Hdg]%andb_true_iff Hs]. rewrite Hg in Hc.
    destruct Hc as (Hwg&Hdw&Hdm&Hr). rewrite Hdm in Hs. injection Hs as <-.
    split_and!; [|by split|done]. split; simpl; [|done]. split_and!; [lia|done..|by rewrite Hr].
  - apply guard_Some in Hs as [[Hg%sender_eqb_true Hdw]%andb_true_iff [= <-]].
    rewrite Hg in Hc. apply Z.leb_le in Hdw. lia.
  - apply guard_Some in Hs as [_ Hs]. destruct err as [err|]; [|done]. simpl in Hs.
    injection Hs as <-. destruct (Contains _ _); exact Hall.
  - apply guard_Some in Hs as [_ Hs].
    apply receive_cases in Hs as [[= ->]|[[m [= ->]]|]]; [exact Hall..|done].
  - apply guard_Some in Hs as [[Hr%receiver_eqb_true Hdm]%andb_true_iff [= <-]].
    split_and!; [split; simpl; [|done]|by split|done].
    destruct (sender s); try done; destruct_and!; split_and!; congruence.
  - destruct (doneGet s) eqn:Hdg; [done|]. injection Hs as <-.
    split_and!; [split; simpl; [|done]|by split|done].
    destruct (sender s); try done; destruct_and!; split_and!; congruence.
  - apply guard_Some in Hs as [Hp [= <-]]. destruct (stopper s); [done| |done].
    split_and!; [split; simpl; [done|]|by split|done].
    rewrite <-Hstop. done.
Qed.

Lemma run_inv' (P : Spammer (Time := Time) → Prop) ls s s' :
  (∀ l s s', P s → step l s = Some (Running s') → P s') →
  P s → run ls s = Some (Running s') → P s'.
Proof.
  intros Hstep. revert s. induction ls as [|l ls IH]; intros s Hs; simpl; [by intros [= <-]|].
  destruct (step l s) as [[s1|m]|] eqn:Hl; [|by destruct ls|done]. apply IH. by eapply Hstep.
Qed.

Lemma reachable_Inv url rand ls s :
  run ls (NewSpammer url rand) = Some (Running s) → Inv s.
Proof. apply run_inv'; [apply Inv_step|apply Inv_New]. Qed.

Definition is_send (l : label (Time := Time)) : bool :=
  match l with LSend _ _ _ _ => true | _ => false end.

(** Requests sent along a run. *)
Definition sends ls : Z := Z.of_nat (length (List.filter is_send ls)).

Lemma step_counts l s s' :
  step l s = Some (Running s') →
  logWritten s' + total (errors s') =
  logWritten s + total (errors s) + (if is_send l then 1 else 0).
Proof.
  intros Hs. destruct l as [|url answer close now| | |err|msg| | |]; simpl in Hs |- *;
    try (apply guard_Some in Hs as [_ Hs]).
  - injection Hs as <-. simpl. lia.
  - injection Hs as <-. destruct (send_cases answer close now s) as [[err ->]| ->]; simpl.
    + rewrite total_add_count. lia.
    + lia.
  - case_match; [done|]. injection Hs as <-. simpl. lia.
  - injection Hs as <-. simpl. lia.
  - destruct err as [err|]; [|done]. simpl in Hs. injection Hs as <-. case_match; simpl; lia.
  - apply receive_cases in Hs as [[= ->]|[[m [= ->]]|]]; [simpl; lia..|done].
  - injection Hs as <-. simpl. lia.
  - case_match; [done|]. injection Hs as <-. simpl. lia.
  - injection Hs as <-. simpl. lia.
Qed.

Lemma run_counts ls s s' :
  run ls s = Some (Running s') →
  logWritten s' + total (errors s') = logWritten s + total (errors s) + sends ls.
Proof.
  unfold sends. revert s. induction ls as [|l ls IH]; intros s; cbn [LogSpammer.run].
  { intros [= <-]. simpl. lia. }
  destruct (step l s) as [[s1|m]|] eqn:Hl; [|by destruct ls|done]. intros H%IH.
  apply step_counts in Hl. cbn [List.filter]. destruct (is_send l); cbn [length]; lia.
Qed.

End spammer.

(** ** [Check] *)

Section check.
Context {Time : Type}.
Implicit Types (s : Spammer (Time := Time)).

Lemma elem_of_received s n :
  n ∈ getReceivedLogNumbers s ↔ ∃ m, m ∈ logMessages s ∧ log_number m = Some n.
Proof.
  unfold getReceivedLogNumbers, LogMessages.
  assert (∀ l (acc : gset Z), n ∈ foldl (λ received logMessage,
    match log_number logMessage with Some n => {[n]} ∪ received | None => received end) acc l ↔
    n ∈ acc ∨ ∃ m, m ∈ l ∧ log_number m = Some n) as H.
  { induction l as [|x l IH]; intros acc; cbn [foldl]; [set_solver|].
    rewrite IH. destruct (log_number x) eqn:Hx; set_solver. }
  rewrite H. set_solver.
Qed.

Lemma elem_of_missing s n :
  n ∈ missing_numbers s ↔ 0 ≤ n < logWritten s ∧ n ∉ getReceivedLogNumbers s.
Proof. unfold missing_numbers. rewrite list_elem_of_filter, elem_of_seqZ. naive_solver lia. Qed.

Lemma non_empty_None e : non_empty e = None ↔ e = ∅.
Proof.
  unfold non_empty. rewrite <-map_size_empty_iff. destruct (Z.ltb_spec 0 (Z.of_nat (size e)));
    naive_solver lia.
Qed.

Lemma non_empty_Some e e' : non_empty e = Some e' → e' = e.
Proof. unfold non_empty. case_match; naive_solver. Qed.

Context (Format : Time → string) (zero : Time).

(** What a missing entry is reported as. *)
Definition missing_text (t : Time) : string := "missing log entry: " +:+ Format t.

(** The second error lists the missing numbers by the times they were written
    at, and the line for the logger is written with it. *)
Lemma Check_missing s (ts : list Time) :
  Forall2 (λ i t, logsWritten s !! i = Some t) (missing_numbers s) ts →
  ∃ e, tally (missing_text <$> ts) e ∧ (Check Format zero s).1.2 = non_empty e ∧
    (Check Format zero s).2 =
      if bool_decide (ts = []) then [] else
        ["total logs written " +:+ Sprintf_d (logWritten s) +:+ ", received logs " +:+
         Sprintf_d (Z.of_nat (size (getReceivedLogNumbers s))) +:+ ", diff " +:+
         Sprintf_d (logWritten s - Z.of_nat (size (getReceivedLogNumbers s))) +:+ String newline ""].
Proof.
  intros Hts. unfold Check. cbn [fst snd].
  assert ((λ n, default zero (logsWritten s !! n)) <$> missing_numbers s = ts) as ->.
  { induction Hts as [|i t ns ts Hi _ IH]; [done|]. rewrite fmap_cons, IH, Hi. done. }
  eexists. split; [apply (tally_foldl (missing_error Format))|]. split; [done|].
  destruct ts; [done|]. by rewrite bool_decide_false.
Qed.
End check.

(** ** Theorems *)

(** C23: whatever the servers answer and however the goroutines interleave, the
    numbers written are exactly those below [logWritten], each with its time;
    every request was either written or counted as one error; the wait groups
    and channels stay consistent.  In particular the sending goroutine never
    returns: nobody calls [doneWaitGroup.Done]. *)
Theorem spammer_invariant {Time} resp_text url rand ls (s : Spammer (Time := Time)) :
  LogSpammer.run resp_text ls (NewSpammer url rand) = Some (Running s) →
  (∀ i, is_Some (logsWritten s !! i) ↔ 0 ≤ i < logWritten s) ∧
  logWritten s + total (errors s) = sends ls ∧ counts_positive (errors s) ∧
  control_ok s ∧ sender s ≠ SReturned.
Proof.
  intros Hr. pose proof Hr as Hc. apply run_counts in Hc.
  pose proof Hr as (Hctl&[_ Hw]&He)%reachable_Inv.
  simpl in Hc. rewrite total_empty in Hc. split_and!; [done|lia|done|done|].
  intros Hs. destruct Hctl as [Hctl _]. by rewrite Hs in Hctl.
Qed.

(** [Stop] comes to an end: once it has closed [doneGet], either the wait
    group is free already or the sending goroutine frees it in one step; and
    afterwards no request can follow that step. *)
Theorem Stop_returns {Time} resp_text url rand ls (s : Spammer (Time := Time)) :
  LogSpammer.run resp_text ls (NewSpammer url rand) = Some (Running s) → stopper s = PWait →
  (∃ s', step resp_text LStopReturn s = Some (Running s') ∧ stopper s' = PReturned) ∨
  (∃ s1 s2, step resp_text LSenderDone s = Some (Running s1) ∧
     step resp_text LStopReturn s1 = Some (Running s2) ∧ stopper s2 = PReturned ∧
     ∀ u a c t, step resp_text (LSend u a c t) s2 = None).
Proof.
  intros Hr Hp.
  apply reachable_Inv in Hr as ([Hc Hs]&_&_).
  assert (doneGet s = true) as Hdg.
  { destruct (doneGet s); [done|]. destruct Hs as [_ Hs]. by rewrite Hs in Hp. }
  destruct (sender s) eqn:Hsend; [| | |done].
  - left. destruct Hc as (Hwg&_). cbn [step]. rewrite Hp, Hwg. by eexists.
  - right. destruct Hc as (Hwg&_&Hdm&_). eexists _, _. cbn [step].
    rewrite Hsend, Hdg, Hdm. split; [reflexivity|]. cbn [step stopper set_control wg].
    rewrite Hp, Hwg. split; [reflexivity|]. split; [done|]. intros. done.
  - left. destruct Hc as (Hwg&_). cbn [step]. rewrite Hp, Hwg. by eexists.
Qed.

(** C30: a number makes the round trip: the request the spammer sends for number
    [i] reaches the log spinner as a path for which it answers 200 and prints
    one line with its time stamp, and from that line [i] is read back. *)
Theorem spammer_number_roundtrip {Time X} host rand i now (s : Spammer (Time := Time)) (w : World X) :
  all_chars plain_host host = true → 0 ≤ rand → 0 ≤ i ≤ max_int →
  appURL s = "http://" +:+ host → prefix s = "spammer-" +:+ Sprintf_d rand → logWritten s = i →
  has_char newline now = false →
  Contains (LogSpinner.line now (own_message (prefix s) i)) "TEST" = false →
  ∃ u line, Parse (request_url s) = inr u ∧ Host u = host ∧
    LogSpinner.handler now (Path u) w = (Val StatusOK, emit (Stdout line) w) ∧
    log_number line = Some i.
Proof.
  intros Hh Hr Hi Hurl Hpre Hw Hn Ht.
  pose proof (own_message_plain rand i Hr (proj1 Hi)) as Hp. rewrite <-Hpre in Hp.
  destruct (Parse_path host ("log/" +:+ own_message (prefix s) i) Hh) as (u&Hu&Hpath&Hhost).
  { change ("log/" +:+ ?x) with ("log" +:+ String "/" x). rewrite all_chars_app. simpl.
    clear -Hp. induction (own_message (prefix s) i) as [|c m IH]; [done|]. simpl in *.
    apply andb_true_iff in Hp as [Hc Hm]. rewrite (IH Hm). unfold plain_path. by rewrite Hc. }
  exists u, (LogSpinner.line now (own_message (prefix s) i)). split_and!; [|done| |].
  - rewrite <-Hu. f_equal. unfold request_url, own_message. rewrite Hurl, Hw.
    by rewrite <-app_assoc_s.
  - rewrite Hpath. apply (handler_log now (own_message (prefix s) i)).
    by apply (all_chars_has plain_host).
  - rewrite Hpre in *. by apply log_number_own.
Qed.

(** C29: after any run, [Check] returns the errors of the requests, all of them
    and unchanged, or nothing if there is none; and an error that lists, each
    with the time at which it was written and as often as that time occurs, the
    numbers written that occur in no received message, or nothing if there is
    none; it writes one line to the logger exactly in the second case, with the
    numbers of entries written and of different numbers received. *)
Theorem Check_spec {Time} resp_text url rand ls (Format : Time → string) zero s :
  LogSpammer.run resp_text ls (NewSpammer url rand) = Some (Running s) →
  let '((spammerErr, missingErr), out) := Check Format zero s in
  spammerErr = (if bool_decide (errors s = ∅) then None else Some (errors s)) ∧
  ∃ (ns : list Z) (ts : list Time) (received : gset Z),
    NoDup ns ∧
    (∀ i, i ∈ ns ↔ 0 ≤ i < logWritten s ∧ ∀ m, m ∈ logMessages s → log_number m ≠ Some i) ∧
    Forall2 (λ i t, logsWritten s !! i = Some t) ns ts ∧
    (∀ i, i ∈ received ↔ ∃ m, m ∈ logMessages s ∧ log_number m = Some i) ∧
    (ns = [] → missingErr = None ∧ out = []) ∧
    (ns ≠ [] → ∃ e, missingErr = Some e ∧
       tally ((λ t, "missing log entry: " +:+ Format t) <$> ts) e ∧
       out = ["total logs written " +:+ Sprintf_d (logWritten s) +:+ ", received logs " +:+
              Sprintf_d (Z.of_nat (size received)) +:+ ", diff " +:+
              Sprintf_d (logWritten s - Z.of_nat (size received)) +:+ String newline ""]).
Proof.
  intros Hrun. apply reachable_Inv in Hrun as (_&[_ Hw]&_).
  assert (∃ ts, Forall2 (λ i t, logsWritten s !! i = Some t) (missing_numbers s) ts) as [ts Hts].
  { exists ((λ n, default zero (logsWritten s !! n)) <$> missing_numbers s).
    apply Forall2_fmap_r, Forall_Forall2_diag, Forall_forall. intros i [Hi _]%elem_of_missing.
    apply Hw in Hi as [t Ht]. simpl. by rewrite Ht. }
  destruct (Check_missing Format zero s ts Hts) as (e&He&Herr&Hout).
  destruct (Check Format zero s) as [[a b] out] eqn:Hc. cbn [fst snd] in Herr, Hout. subst b out.
  assert (a = non_empty (errors s)) as -> by (by injection Hc as <- _ _).
  pose proof (Forall2_length _ _ _ Hts) as Hlen. split.
  { destruct (bool_decide_reflect (errors s = ∅)) as [Hemp|Hemp]; [by apply non_empty_None|].
    destruct (non_empty (errors s)) as [e'|] eqn:Hne; [by apply non_empty_Some in Hne as ->|].
    by apply non_empty_None in Hne. }
  exists (missing_numbers s), ts, (getReceivedLogNumbers s).
  split; [apply NoDup_filter, NoDup_seqZ|]. split; [|split; [done|split; [apply elem_of_received|split]]].
  - intros i. rewrite elem_of_missing, elem_of_received. naive_solver.
  - intros Hns. rewrite Hns in Hlen. destruct ts; [|done]. split; [|done].
    apply non_empty_None. by apply (tally_empty _ _ He).
  - intros Hns. assert (ts ≠ []) as Hts0 by (intros ->; by destruct (missing_numbers s)).
    exists e. rewrite bool_decide_false by done. split; [|by split].
    destruct (non_empty e) as [e'|] eqn:Hne; [by apply non_empty_Some in Hne as ->|].
    apply non_empty_None in Hne. apply (tally_empty _ _ He) in Hne. by destruct ts.
Qed.

(** ** A run *)

Definition example_start : Spammer (Time := string) := NewSpammer "http://app.example.com" 42.

Definition example_labels : list (label (Time := string)) :=
  [LStart;
   LSend "http://app.example.com/log/spammer-42-0-" (inr (mkResponse StatusOK "" None)) None "t0";
   LMessage (Some (mkEnvelope (Some (mkLogMessage (Some "APP/PROC/WEB") (Some LogMessage_OUT)
     "[2016-10-12 17:47:49 +0000 UTC] spammer-42-0-"))));
   LSend "http://app.example.com/log/spammer-42-1-" (inl (ErrorString "EOF")) None "t1";
   LError (Some (ErrorString "Unauthorized"));
   LSend "http://app.example.com/log/spammer-42-1-" (inr (mkResponse StatusOK "" None)) None "t2";
   LStop].

Definition example_state : Spammer (Time := string) :=
  match LogSpammer.run (λ _, "resp") example_labels example_start with
  | Some (Running s) => s
  | _ => example_start
  end.

(** One number of two came back, one request failed. *)
Example example_check :
  let '((spammerErr, missingErr), out) := Check (λ t, t) "" example_state in
  map_to_list <$> spammerErr = Some [("EOF", 1)] ∧
  map_to_list <$> missingErr = Some [("missing log entry: t2", 1)] ∧
  out = ["total logs written 2, received logs 1, diff 1" +:+ String newline ""].
Proof. by vm_compute. Qed.

(** The number is all that is compared: a line of another spammer with the same
    number hides a lost one. *)
Example foreign_line_counts :
  let s := set_written 1 (<[0 := "t0"]> ∅) (set_messages ["spammer-7-0-"] example_start) in
  prefix s = "spammer-42" ∧ (Check (λ t, t) "" s).1 = (None, None).
Proof. by vm_compute. Qed.

Lemma spammer_invariant_witness :
  LogSpammer.run (λ _, "resp") example_labels (NewSpammer "http://app.example.com" 42) =
    Some (Running example_state) ∧
  (∀ i, is_Some (logsWritten example_state !! i) ↔ 0 ≤ i < logWritten example_state) ∧
  logWritten example_state + total (errors example_state) = sends example_labels ∧
  counts_positive (errors example_state) ∧ control_ok example_state ∧
  sender example_state ≠ SReturned.
Proof.
  split; [vm_compute; reflexivity|].
  apply (spammer_invariant (λ _, "resp") "http://app.example.com" 42 example_labels).
  vm_compute. reflexivity.
Defined.

Lemma Stop_returns_witness :
  stopper example_state = PWait ∧
  ∃ s1 s2, step (λ _, "resp") LSenderDone example_state = Some (Running s1) ∧
    step (λ _, "resp") LStopReturn s1 = Some (Running s2) ∧ stopper s2 = PReturned.
Proof.
  split; [reflexivity|].
  destruct (Stop_returns (λ _, "resp") "http://app.example.com" 42 example_labels example_state
    ltac:(vm_compute; reflexivity) eq_refl) as [(s'&H&_)|(s1&s2&H1&H2&H3&_)].
  - exfalso. vm_compute in H. discriminate H.
  - exists s1, s2. exact (conj H1 (conj H2 H3)).
Defined.

Definition sent_seven : Spammer (Time := string) := set_written 7 ∅ example_start.

Lemma spammer_number_roundtrip_witness :
  has_char newline "2016-10-12 17:47:49 +0000 UTC" = false ∧
  ∃ u line, Parse (request_url sent_seven) = inr u ∧ Host u = "app.example.com" ∧
    LogSpinner.handler "2016-10-12 17:47:49 +0000 UTC" (Path u)
      (mkWorld ∅ ∅ permissive_kernel tt []) =
      (Val StatusOK, emit (Stdout line) (mkWorld ∅ ∅ permissive_kernel tt [])) ∧
    log_number line = Some 7.
Proof.
  split; [reflexivity|].
  apply (spammer_number_roundtrip "app.example.com" 42 7 "2016-10-12 17:47:49 +0000 UTC" sent_seven);
    try reflexivity; unfold max_int; lia.
Defined.

Lemma Check_spec_witness :
  LogSpammer.run (λ _, "resp") example_labels (NewSpammer "http://app.example.com" 42) =
    Some (Running example_state) ∧
  ∃ e, (Check (λ t, t) "" example_state).1 = (Some (<["EOF" := 1]> ∅), Some e) ∧
    tally ["missing log entry: t2"] e.
Proof.
  assert (LogSpammer.run (λ _, "resp") example_labels (NewSpammer "http://app.example.com" 42) =
    Some (Running example_state)) as Hrun by (vm_compute; reflexivity).
  split; [exact Hrun|].
  pose proof (Check_spec (λ _, "resp") "http://app.example.com" 42 example_labels (λ t, t) "" example_state Hrun)
    as Hspec.
  destruct (Check (λ t, t) "" example_state) as [[a b] out] eqn:Hc.
  destruct Hspec as (->&ns&ts&received&_&Hns&Hts&_&_&He).
  assert (ns ≠ []) as Hne.
  { intros ->. assert (1 ∈ @nil Z) as Hin; [|by apply elem_of_nil in Hin]. apply Hns.
    split; [vm_compute; split; congruence|].
    apply (proj1 (Forall_forall (λ m, log_number m ≠ Some 1) (logMessages example_state))).
    repeat constructor. vm_compute. congruence. }
  destruct (He Hne) as (e&->&Ht&_). exists e.
  assert ((Check (λ t, t) "" example_state).1.2 = Some e) as Hb by (by rewrite Hc).
  assert (Some e = Some (<["missing log entry: t2" := 1]> ∅)) as [= ->]
    by (rewrite <-Hb; vm_compute; reflexivity).
  split; [vm_compute; reflexivity|]. apply (tally_snoc [] ∅ (ErrorString "missing log entry: t2") tally_nil).
Defined.
