(* ===== verification/Fakes.v ===== *)
(** * [src/src/etcdfab/fakes]: the recording doubles

    Every double counts the calls of each method, keeps what the last call
    received and gives canned answers.  The doubles of the etcd client are
    objects behind pointers ([Self] returns a client, in the tests another
    double): they live in a store, and a pointer is an index of it.  The call
    counters are [int]s that start at 0; no run makes [2^63] calls. *)
From S2P Require Import Prelude GoStrings GoPath Machine Config Client Sync Cluster Application.

Open Scope Z_scope.

(** ** The record of one method

    [XCall struct { CallCount int; Receives struct {...}; Returns struct {...} }] *)

Record Call (Recv Ret : Type) := mkCall {
  CallCount : Z;
  Receives : Recv;
  Returns : Ret
}.
Arguments mkCall {Recv Ret} _ _ _.
Arguments CallCount {Recv Ret} _.
Arguments Receives {Recv Ret} _.
Arguments Returns {Recv Ret} _.

(** [XCall.CallCount++], then the arguments are kept. *)
Definition called {Recv Ret} (r : Recv) (c : Call Recv Ret) : Call Recv Ret :=
  mkCall (CallCount c + 1) r (Returns c).

(** ** [config.go] *)

Module FakeConfig.
Record t := mk {
  EtcdClientSelfEndpointCall : Call unit string;
  EtcdClientEndpointsCall : Call unit (list string);
  RequireSSLCall : Call unit bool;
  CertDirCall : Call unit string
}.

Definition EtcdClientSelfEndpoint (c : t) : string * t :=
  let c := mk (called tt (EtcdClientSelfEndpointCall c)) (EtcdClientEndpointsCall c)
    (RequireSSLCall c) (CertDirCall c) in
  (Returns (EtcdClientSelfEndpointCall c), c).

Definition EtcdClientEndpoints (c : t) : list string * t :=
  let c := mk (EtcdClientSelfEndpointCall c) (called tt (EtcdClientEndpointsCall c))
    (RequireSSLCall c) (CertDirCall c) in
  (Returns (EtcdClientEndpointsCall c), c).

Definition RequireSSL (c : t) : bool * t :=
  let c := mk (EtcdClientSelfEndpointCall c) (EtcdClientEndpointsCall c)
    (called tt (RequireSSLCall c)) (CertDirCall c) in
  (Returns (RequireSSLCall c), c).

Definition CertDir (c : t) : string * t :=
  let c := mk (EtcdClientSelfEndpointCall c) (EtcdClientEndpointsCall c)
    (RequireSSLCall c) (called tt (CertDirCall c)) in
  (Returns (CertDirCall c), c).

(** What the four methods answer; the calls change counters only, so that a
    client can be configured from the double as from a configuration. *)
#[export] Instance configurer : ClientConfigurer t := {|
  cc_EtcdClientEndpoints c := (EtcdClientEndpoints c).1;
  cc_EtcdClientSelfEndpoint c := (EtcdClientSelfEndpoint c).1;
  cc_RequireSSL c := (RequireSSL c).1;
  cc_CertDir c := (CertDir c).1
|}.
End FakeConfig.

(** ** [command_wrapper.go] *)

Module FakeCommand.
(** The command path and arguments of [Start] (the writers are left out), the
    pid of [Kill]. *)
Record t := mk {
  StartCall : Call (string * list string) (Z * option error);
  KillCall : Call Z (option error)
}.

Definition Start (commandPath : string) (commandArgs : list string) (c : t) :
    (Z * option error) * t :=
  let c := mk (called (commandPath, commandArgs) (StartCall c)) (KillCall c) in
  (Returns (StartCall c), c).

Definition Kill (pid : Z) (c : t) : option error * t :=
  let c := mk (StartCall c) (called pid (KillCall c)) in
  (Returns (KillCall c), c).
End FakeCommand.

(** ** [cluster_controller.go] and [sync_controller.go] *)

Module FakeCluster.
Record t := mk {
  GetInitialClusterStateCall : Call (option Config) (InitialClusterState * option error)
}.

Definition GetInitialClusterState (etcdfabConfig : Config) (c : t) :
    (InitialClusterState * option error) * t :=
  let c := mk (called (Some etcdfabConfig) (GetInitialClusterStateCall c)) in
  (Returns (GetInitialClusterStateCall c), c).
End FakeCluster.

Module FakeSync.
Record t := mk { VerifySyncedCall : Call unit (option error) }.

Definition VerifySynced (s : t) : option error * t :=
  let s := mk (called tt (VerifySyncedCall s)) in (Returns (VerifySyncedCall s), s).
End FakeSync.

(** ** [logger.go] *)

Module FakeLogger.
Record LoggerMessage := mkMessage {
  Action : string;
  msg_Error : option error;
  Data : list data
}.

Record t := mk { messages : list LoggerMessage }.

Definition Info (action : string) (d : list data) (l : t) : t :=
  mk (messages l ++ [mkMessage action None d]).

Definition Error (action : string) (err : error) (d : list data) (l : t) : t :=
  mk (messages l ++ [mkMessage action (Some err) d]).

Definition Messages (l : t) : list LoggerMessage := messages l.

(** What a program logs, in the order of the log; a call without data passes
    none. *)
Definition hear (l : t) (e : event) : t :=
  match e with
  | Machine.Info action [] => Info action [] l
  | Machine.Info action d => Info action [d] l
  | LogError action err => Error action err [] l
  | _ => l
  end.

Definition replay (log : list event) : t := foldl hear (mk []) log.
End FakeLogger.

(** ** [etcd_client.go] *)

Module FakeClient.
(** The stub of [Keys] is a Go closure that may look at the number of calls of
    its client, the current one included. *)
Record t := mk {
  ConfigureCall : Call (option Config) (option error);
  SelfCall : Call unit (option nat * option error);
  MemberListCall : Call unit (list Member * option error);
  MemberAddCall : Call string (Member * option error);
  MemberRemoveCall : Call string (option error);
  KeysCall : Call unit (option error);
  Stub : option (Z → option error)
}.

Definition Configure (config : Config) (e : t) : option error * t :=
  let e := mk (called (Some config) (ConfigureCall e)) (SelfCall e) (MemberListCall e)
    (MemberAddCall e) (MemberRemoveCall e) (KeysCall e) (Stub e) in
  (Returns (ConfigureCall e), e).

Definition Self (e : t) : (option nat * option error) * t :=
  let e := mk (ConfigureCall e) (called tt (SelfCall e)) (MemberListCall e)
    (MemberAddCall e) (MemberRemoveCall e) (KeysCall e) (Stub e) in
  (Returns (SelfCall e), e).

Definition MemberList (e : t) : (list Member * option error) * t :=
  let e := mk (ConfigureCall e) (SelfCall e) (called tt (MemberListCall e))
    (MemberAddCall e) (MemberRemoveCall e) (KeysCall e) (Stub e) in
  (Returns (MemberListCall e), e).

Definition MemberAdd (peerURL : string) (e : t) : (Member * option error) * t :=
  let e := mk (ConfigureCall e) (SelfCall e) (MemberListCall e)
    (called peerURL (MemberAddCall e)) (MemberRemoveCall e) (KeysCall e) (Stub e) in
  (Returns (MemberAddCall e), e).

Definition MemberRemove (memberID : string) (e : t) : option error * t :=
  let e := mk (ConfigureCall e) (SelfCall e) (MemberListCall e)
    (MemberAddCall e) (called memberID (MemberRemoveCall e)) (KeysCall e) (Stub e) in
  (Returns (MemberRemoveCall e), e).

Definition Keys (e : t) : option error * t :=
  let e := mk (ConfigureCall e) (SelfCall e) (MemberListCall e)
    (MemberAddCall e) (MemberRemoveCall e) (called tt (KeysCall e)) (Stub e) in
  (match Stub e with
   | Some stub => stub (CallCount (KeysCall e))
   | None => Returns (KeysCall e)
   end, e).

(** [&fakes.EtcdClient{}] *)
Definition zero : t :=
  mk (mkCall 0 None None) (mkCall 0 tt (None, None)) (mkCall 0 tt ([], None))
    (mkCall 0 "" (zero_Member, None)) (mkCall 0 "" None) (mkCall 0 tt None) None.
End FakeClient.

(** ** The doubles of a test, as the program's collaborators *)

Record Fakes := mkFakes {
  clients : list FakeClient.t;
  command : FakeCommand.t;
  clusterController : FakeCluster.t;
  syncController : FakeSync.t
}.

Definition nil_dereference {X A} : M X A :=
  panic "runtime error: invalid memory address or nil pointer dereference".

(** A method call through a pointer; [nil] panics. *)
Definition on_client {A} (p : option nat) (m : FakeClient.t → A * FakeClient.t) : M Fakes A :=
  st ← get_svc;
  match p with
  | None => nil_dereference
  | Some p =>
      match clients st !! p with
      | None => nil_dereference
      | Some e =>
          let '(a, e) := m e in
          _ ← put_svc (mkFakes (<[p := e]> (clients st)) (command st) (clusterController st)
                         (syncController st));
          mret a
      end
  end.

Definition on_command {A} (m : FakeCommand.t → A * FakeCommand.t) : M Fakes A :=
  st ← get_svc;
  let '(a, c) := m (command st) in
  _ ← put_svc (mkFakes (clients st) c (clusterController st) (syncController st)); mret a.

Definition on_cluster {A} (m : FakeCluster.t → A * FakeCluster.t) : M Fakes A :=
  st ← get_svc;
  let '(a, c) := m (clusterController st) in
  _ ← put_svc (mkFakes (clients st) (command st) c (syncController st)); mret a.

Definition on_sync {A} (m : FakeSync.t → A * FakeSync.t) : M Fakes A :=
  st ← get_svc;
  let '(a, c) := m (syncController st) in
  _ ← put_svc (mkFakes (clients st) (command st) (clusterController st) c); mret a.

(** The client of the application is the one with pointer [0]. *)
Definition fake_Collaborators : Collaborators Fakes := {|
  command_Start path args := on_command (FakeCommand.Start path args);
  command_Kill pid := on_command (FakeCommand.Kill pid);
  etcdClient_Configure cfg := on_client (Some 0%nat) (FakeClient.Configure cfg);
  etcdClient_MemberRemove id := on_client (Some 0%nat) (FakeClient.MemberRemove id);
  etcdClient_MemberList := on_client (Some 0%nat) FakeClient.MemberList;
  clusterController_GetInitialClusterState cfg :=
    on_cluster (FakeCluster.GetInitialClusterState cfg);
  syncController_VerifySynced := on_sync FakeSync.VerifySynced
|}.

Definition fake_ClusterClient : ClusterClient Fakes := {|
  cl_MemberList := on_client (Some 0%nat) FakeClient.MemberList;
  cl_MemberAdd url := on_client (Some 0%nat) (FakeClient.MemberAdd url)
|}.

Definition fake_SyncClient : SyncClient Fakes nat := {|
  sy_Self := on_client (Some 0%nat) FakeClient.Self;
  sy_Keys p := on_client p FakeClient.Keys
|}.
