(* ===== verification/FakesSpec.v ===== *)
(** * What the doubles show of the programs that call them

    Both controllers over the doubles are the controllers over the answers the
    doubles give, with the calls counted.  The sync controller reads the keys
    through the pointer that [Self] answered, which may be the double it was
    given itself. *)
From S2P Require Import Prelude GoStrings GoPath Machine Delay Config Client Sync Cluster.
From S2P Require Import Application Lifecycle Fakes.

Open Scope Z_scope.

(** ** Simulation

    [lift] says which world of the doubles a world of a script stands for; it
    has the same files, processes and log. *)

Section plays.
Context {S : Type} (lift : World S → World Fakes).
Context (lift_emit : ∀ e ws, lift (emit e ws) = emit e (lift ws)).

Definition lifted {A} (r : outcome A * World S) : outcome A * World Fakes := (r.1, lift r.2).

(** A computation over the doubles does what one over the script does. *)
Definition plays {A} (m : M Fakes A) (m' : M S A) : Prop := ∀ ws, m (lift ws) = lifted (m' ws).

Lemma plays_bind {A B} (m : M Fakes A) m' (k : A → M Fakes B) k' :
  plays m m' → (∀ a, plays (k a) (k' a)) → plays (m ≫= k) (m' ≫= k').
Proof.
  intros Hm Hk ws. unfold mbind, M_bind. rewrite (Hm ws). unfold lifted.
  destruct (m' ws) as [[a| |] ws']; simpl; [apply Hk|done..].
Qed.

Lemma plays_if {A} (b : bool) (m1 m2 : M Fakes A) m1' m2' :
  plays m1 m1' → plays m2 m2' → plays (if b then m1 else m2) (if b then m1' else m2').
Proof. by destruct b. Qed.

Lemma plays_ret {A} (a : A) : plays (mret a) (mret a).
Proof. done. Qed.

Lemma plays_panic {A} msg : plays (panic msg : M Fakes A) (panic msg).
Proof. done. Qed.

Lemma plays_tell ev : plays (tell ev) (tell ev).
Proof. intros ws. unfold tell, lifted. simpl. by rewrite lift_emit. Qed.

Lemma plays_sleep disableDelay d : plays (Delay.sleep disableDelay d) (Delay.sleep disableDelay d).
Proof. unfold Delay.sleep. case_bool_decide; [apply plays_ret|apply plays_tell]. Qed.
End plays.

Definition set_client (st : Fakes) (p : nat) (e : FakeClient.t) : Fakes :=
  mkFakes (<[p := e]> (clients st)) (command st) (clusterController st) (syncController st).

(** The double behind [p] is [double x] in the script's state [x]. *)
Definition played {S} (st : Fakes) (p : nat) (double : S → FakeClient.t) (ws : World S) :
    World Fakes :=
  mkWorld (fs ws) (procs ws) (kernel ws) (set_client st p (double (svc ws))) (log ws).

Lemma set_client_same st p e : clients st !! p = Some e → set_client st p e = st.
Proof. intros H. destruct st. unfold set_client. simpl in *. by rewrite list_insert_id. Qed.

Lemma on_client_run {A} p (m : FakeClient.t → A * FakeClient.t) e (w : World Fakes) :
  clients (svc w) !! p = Some e →
  on_client (Some p) m w = (Val (m e).1, set_svc (set_client (svc w) p (m e).2) w).
Proof. intros H. unfold on_client, mbind, M_bind. simpl. rewrite H. by destruct (m e). Qed.

(** A method of the double in its place. *)
Lemma on_played {S A} st p double (m : FakeClient.t → A * FakeClient.t) (ws : World S) :
  (p < length (clients st))%nat →
  on_client (Some p) m (played st p double ws) =
  (Val (m (double (svc ws))).1,
   mkWorld (fs ws) (procs ws) (kernel ws) (set_client st p (m (double (svc ws))).2) (log ws)).
Proof.
  intros Hp. rewrite (on_client_run p m (double (svc ws)));
    [|by apply list_lookup_insert_eq].
  unfold played, set_client, set_svc. simpl. by rewrite list_insert_insert_eq.
Qed.

(** ** The sync controller *)

(** The double after [k] calls of [Keys]. *)
Definition keys_called (e : FakeClient.t) (k : nat) : FakeClient.t :=
  FakeClient.mk (FakeClient.ConfigureCall e) (FakeClient.SelfCall e)
    (FakeClient.MemberListCall e) (FakeClient.MemberAddCall e) (FakeClient.MemberRemoveCall e)
    (mkCall (CallCount (FakeClient.KeysCall e) + Z.of_nat k) tt
       (Returns (FakeClient.KeysCall e)))
    (FakeClient.Stub e).

(** Its answer to the next call. *)
Definition keys_answer (e : FakeClient.t) (k : nat) : option error :=
  (FakeClient.Keys (keys_called e k)).1.

Lemma keys_called_0 e : keys_called e 0 = e.
Proof.
  destruct e as [? ? ? ? ? [c [] r] ?]. unfold keys_called. simpl. by rewrite Z.add_0_r.
Qed.

Lemma keys_called_S e k : (FakeClient.Keys (keys_called e k)).2 = keys_called e (S k).
Proof.
  unfold keys_called, FakeClient.Keys, called. cbn -[Z.of_nat]. do 2 f_equal. lia.
Qed.

Lemma plays_verify_loop disableDelay st q e n err :
  (q < length (clients st))%nat →
  plays (played st q (keys_called e))
    (verify_loop (H := fake_SyncClient) (Delay.sleep disableDelay) (Some q) n err)
    (verify_loop (H := Script.client None (keys_answer e)) (Delay.sleep disableDelay)
       (Some tt) n err).
Proof.
  intros Hq. revert err. induction n as [|n IH]; intros err; [apply plays_ret|].
  apply plays_bind; [by apply plays_tell|intros _].
  apply plays_bind; [|intros [err'|]; [|apply plays_ret]].
  { intros ws. etrans; [exact (on_played st q (keys_called e) FakeClient.Keys ws Hq)|].
    by rewrite keys_called_S. }
  apply plays_bind; [by apply plays_tell|intros _].
  apply plays_bind; [by apply plays_sleep|intros _; apply IH].
Qed.

(** ** The cluster controller *)

(** The double after the calls of a script's state. *)
Definition members_called (e : FakeClient.t) (s : ClusterScript.state) : FakeClient.t :=
  FakeClient.mk (FakeClient.ConfigureCall e) (FakeClient.SelfCall e)
    (mkCall (CallCount (FakeClient.MemberListCall e) + Z.of_nat (ClusterScript.lists s)) tt
       (Returns (FakeClient.MemberListCall e)))
    (mkCall (CallCount (FakeClient.MemberAddCall e) + Z.of_nat (length (ClusterScript.adds s)))
       (default (Receives (FakeClient.MemberAddCall e)) (last (ClusterScript.adds s)))
       (Returns (FakeClient.MemberAddCall e)))
    (FakeClient.MemberRemoveCall e) (FakeClient.KeysCall e) (FakeClient.Stub e).

Lemma members_called_0 e : members_called e (ClusterScript.mkState 0 []) = e.
Proof.
  destruct e as [? ? [c [] r] [? ? ?] ? ? ?]. unfold members_called. simpl. by rewrite !Z.add_0_r.
Qed.

Lemma members_called_list e s :
  (FakeClient.MemberList (members_called e s)).2 =
  members_called e (ClusterScript.mkState (S (ClusterScript.lists s)) (ClusterScript.adds s)).
Proof.
  unfold members_called, FakeClient.MemberList, called. cbn -[Z.of_nat]. do 2 f_equal. lia.
Qed.

Lemma members_called_add e s url :
  (FakeClient.MemberAdd url (members_called e s)).2 =
  members_called e (ClusterScript.mkState (ClusterScript.lists s) (ClusterScript.adds s ++ [url])).
Proof.
  unfold members_called, FakeClient.MemberAdd, called. cbn -[Z.of_nat].
  rewrite last_snoc, length_app, Nat2Z.inj_add, Z.add_assoc. done.
Qed.

Section cluster.
Context (disableDelay : string) (st : Fakes) (e : FakeClient.t).
Context (Hst : (0 < length (clients st))%nat).

#[local] Instance doubles : ClusterClient Fakes := fake_ClusterClient.
#[local] Instance answers : ClusterClient ClusterScript.state :=
  ClusterScript.client (λ _, Returns (FakeClient.MemberListCall e))
    (λ _, (Returns (FakeClient.MemberAddCall e)).2).

Notation plays := (plays (played st 0 (members_called e))).

Lemma plays_MemberList : plays cl_MemberList cl_MemberList.
Proof.
  intros ws. etrans; [exact (on_played st 0 (members_called e) FakeClient.MemberList ws Hst)|].
  by rewrite members_called_list.
Qed.

(** The controller does not look at the member that [MemberAdd] returns. *)
Lemma plays_MemberAdd {A} url (k : option error → M Fakes A) k' :
  (∀ err, plays (k err) (k' err)) →
  plays ('(_, err) ← cl_MemberAdd url; k err) ('(_, err) ← cl_MemberAdd url; k' err).
Proof.
  intros Hk ws. set (err := (Returns (FakeClient.MemberAddCall e)).2).
  set (ws1 := set_svc (ClusterScript.mkState (ClusterScript.lists (svc ws))
    (ClusterScript.adds (svc ws) ++ [url])) ws).
  assert (cl_MemberAdd url (played st 0 (members_called e) ws) =
    (Val (Returns (FakeClient.MemberAddCall e)), played st 0 (members_called e) ws1)) as H1.
  { etrans; [exact (on_played st 0 (members_called e) (FakeClient.MemberAdd url) ws Hst)|].
    by rewrite members_called_add. }
  step H1. rewrite (surjective_pairing (Returns _)). exact (Hk err ws1).
Qed.

Lemma plays_member_list_loop n l :
  plays (member_list_loop (Delay.sleep disableDelay) n l)
    (member_list_loop (Delay.sleep disableDelay) n l).
Proof.
  revert l. induction n as [|n IH]; intros l; [apply plays_ret|].
  apply plays_bind; [by apply plays_tell|intros _].
  apply plays_bind; [apply plays_MemberList|intros [l' [err|]]; [|apply plays_ret]].
  apply plays_bind; [by apply plays_tell|intros _].
  apply plays_bind; [by apply plays_sleep|intros _; apply IH].
Qed.

Lemma plays_prior_entries c l acc b : plays (prior_entries c l acc b) (prior_entries c l acc b).
Proof.
  revert acc b. induction l as [|m l IH]; intros acc b; [apply plays_ret|]. cbn [prior_entries].
  destruct (m_PeerURLs m); [apply plays_panic|apply IH].
Qed.

Lemma plays_GetInitialClusterState c :
  plays (GetInitialClusterState (Delay.sleep disableDelay) c)
    (GetInitialClusterState (Delay.sleep disableDelay) c).
Proof.
  assert (∀ a d, plays (log_info a d) (log_info a d)) as Hlog by (intros; by apply plays_tell).
  apply plays_bind; [apply plays_member_list_loop|intros prior].
  apply plays_bind; [apply plays_if; [apply Hlog|apply plays_ret]|intros _].
  apply plays_bind.
  { apply plays_if; [apply plays_ret|]. apply plays_bind; [apply Hlog|intros _].
    apply plays_bind; [apply plays_prior_entries|intros [ms b]; apply plays_ret]. }
  intros [[state ms] b]. apply plays_bind.
  - destruct b; [apply plays_ret|]. apply plays_bind; [|intros [err|]; apply plays_ret].
    apply (plays_if _ (bool_decide (prior = []))); [apply plays_ret|].
    apply plays_MemberAdd. intros [err|]; [apply plays_ret|].
    apply plays_bind; [by apply plays_sleep|intros _; apply plays_ret].
  - intros [ms' [err|]]; [apply plays_ret|].
    apply plays_bind; [apply Hlog|intros _; apply plays_ret].
Qed.
End cluster.

(** The cluster controller over the doubles is the one over their answers: the
    same member list again and again, and one answer to [MemberAdd]. *)
Theorem fakes_GetInitialClusterState disableDelay c (w : World Fakes) e :
  clients (svc w) !! 0%nat = Some e →
  GetInitialClusterState (H := fake_ClusterClient) (Delay.sleep disableDelay) c w =
  lifted (played (svc w) 0 (members_called e))
    (GetInitialClusterState
       (H := ClusterScript.client (λ _, Returns (FakeClient.MemberListCall e))
               (λ _, (Returns (FakeClient.MemberAddCall e)).2)) (Delay.sleep disableDelay) c
       (mkWorld (fs w) (procs w) (kernel w) (ClusterScript.mkState 0 []) (log w))).
Proof.
  intros He. rewrite <-(plays_GetInitialClusterState disableDelay (svc w) e (lookup_lt_Some _ _ _ He)).
  unfold played. cbn [svc fs procs kernel log]. rewrite members_called_0.
  rewrite set_client_same by done. by destruct w.
Qed.

(** The sync controller over the doubles is the sync controller over the
    sequence of answers that the double behind [Self]'s pointer gives, whether
    that is another double or the same one: same result, same log, and as many
    calls of [Keys] counted as the script counts; every other double stays as
    it was, one call of [Self] apart.  An error of [Self] is returned without a
    call of [Keys], and a nil client without an error panics. *)
Theorem fakes_VerifySynced disableDelay (w : World Fakes) e0 :
  clients (svc w) !! 0%nat = Some e0 →
  let st := set_client (svc w) 0 (FakeClient.Self e0).2 in
  match Returns (FakeClient.SelfCall e0) with
  | (_, Some err) =>
      ∃ w', VerifySynced (H := fake_SyncClient) (Delay.sleep disableDelay) w =
        (Val (Some err), w') ∧ svc w' = st
  | (None, None) =>
      ∃ w', VerifySynced (H := fake_SyncClient) (Delay.sleep disableDelay) w =
        (Panicked "runtime error: invalid memory address or nil pointer dereference", w')
  | (Some q, None) =>
      ∀ e, clients st !! q = Some e →
      VerifySynced (H := fake_SyncClient) (Delay.sleep disableDelay) w =
      lifted (played st q (keys_called e))
        (VerifySynced (H := Script.client None (keys_answer e)) (Delay.sleep disableDelay)
           (mkWorld (fs w) (procs w) (kernel w) 0%nat (log w)))
  end.
Proof.
  intros He0 st. unfold VerifySynced. steps. set (w1 := emit _ w).
  pose proof (on_client_run 0 FakeClient.Self e0 w1 He0 :
    sy_Self (SyncClient := fake_SyncClient) w1 = _) as Hself.
  change ((FakeClient.Self e0).1) with (Returns (FakeClient.SelfCall e0)) in Hself.
  step Hself. destruct (Returns (FakeClient.SelfCall e0)) as [[q|] [err|]].
  - by eexists.
  - intros e He. pose proof (lookup_lt_Some _ _ _ He) as Hq.
    set (ws := emit (Info "sync.verify-synced" [("max-sync-calls", VInt (Z.of_nat maxSyncCalls))])
      (mkWorld (fs w) (procs w) (kernel w) 0%nat (log w))).
    etrans; [|exact (plays_verify_loop disableDelay st q e maxSyncCalls None Hq ws)].
    unfold played, ws. cbn [svc emit fs procs kernel log]. rewrite keys_called_0.
    by rewrite (set_client_same st q e He).
  - by eexists.
  - by eexists.
Qed.

(** The doubles of the controller's test: the client of the node itself answers
    the fifth call. *)
Definition fifth_call : FakeClient.t :=
  FakeClient.mk (mkCall 0 None None) (mkCall 0 tt (None, None)) (mkCall 0 tt ([], None))
    (mkCall 0 "" (zero_Member, None)) (mkCall 0 "" None) (mkCall 0 tt None)
    (Some (λ n, if 5 <=? n then None else Some (ErrorString "not synced"))).

Definition answering (p : nat) (e : FakeClient.t) : FakeClient.t :=
  FakeClient.mk (FakeClient.ConfigureCall e) (mkCall 0 tt (Some p, None))
    (FakeClient.MemberListCall e) (FakeClient.MemberAddCall e) (FakeClient.MemberRemoveCall e)
    (FakeClient.KeysCall e) (FakeClient.Stub e).

Definition test_world (l : list FakeClient.t) : World Fakes :=
  mkWorld ∅ ∅ permissive_kernel
    (mkFakes l (FakeCommand.mk (mkCall 0 ("", []) (0, None)) (mkCall 0 0 None))
       (FakeCluster.mk (mkCall 0 None (zero_InitialClusterState, None)))
       (FakeSync.mk (mkCall 0 tt None))) [].

Lemma fakes_VerifySynced_witness :
  let w := test_world [answering 1 FakeClient.zero; fifth_call] in
  ∃ w', VerifySynced (H := fake_SyncClient) (Delay.sleep "true") w = (Val None, w') ∧
    (λ e, (CallCount (FakeClient.SelfCall e), CallCount (FakeClient.KeysCall e))) <$>
      clients (svc w') = [(1, 0); (0, 5)] ∧
    length (FakeLogger.messages (FakeLogger.replay (log w'))) = 10%nat.
Proof.
  intros w.
  pose proof (fakes_VerifySynced "true" w (answering 1 FakeClient.zero) eq_refl fifth_call eq_refl) as H.
  eexists. split; [exact H|]. by vm_compute.
Defined.

(** One double for both roles counts both. *)
Example same_client :
  let '(r, w') := VerifySynced (H := fake_SyncClient) (Delay.sleep "true")
    (test_world [answering 0 fifth_call]) in
  r = Val None ∧
  (λ e, (CallCount (FakeClient.SelfCall e), CallCount (FakeClient.KeysCall e))) <$>
    clients (svc w') = [(1, 5)].
Proof. by vm_compute. Qed.
