(* ===== verification/FakesStart.v ===== *)
(** * The calls [Start] makes

    [Application.Start] over the doubles, which start and kill nothing: which
    methods it calls, once each, and with what. *)
From S2P Require Import Prelude GoStrings GoPath Machine GoJson Config Client Sync Cluster.
From S2P Require Import Application Lifecycle LifecycleSpec Fakes FakesSpec.

Open Scope Z_scope.




#[local] Existing Instance fake_Collaborators.

Section start.
Implicit Types w : World Fakes.












End start.

(** ** The calls *)


(** How far [Start] gets with these answers. *)
Section answers.
Context (st : Fakes) (e : FakeClient.t).



End answers.




