(* ===== verification/TestConsumer.v ===== *)
(** * [src/acceptance-tests/testing/testconsumer]

    The test consumer is a web server beside an etcd cluster: [/kv/<key>] reads
    and writes a key, [/leader] names the cluster's leader.

    - [Etcd]: [etcd/client.go], the wrapper of the go-etcd client;
    - [KV]: [handlers/kv_handler.go];
    - [Leader]: [handlers/leader_handler.go];
    - [Main]: [main.go].

    The go-etcd library, [tls.LoadX509KeyPair], [http.Client] and
    [http.ListenAndServe] are parameters. *)
From S2P Require Import Prelude GoStrings GoPath Machine GoFlag GoUrl GoJson GoHttp GoServe.

Open Scope Z_scope.

(** ** The go-etcd library *)

(** [goetcd.Node] and [goetcd.Response], the fields used; pointers may be nil. *)
Record Node := mkNode { Key : string; Value : string; ModifiedIndex : Z }.

#[export] Instance Node_eq_dec : EqDecision Node.
Proof. solve_decision. Defined.

Record EtcdResponse := mkEtcdResponse { resp_Node : option Node }.

(** The methods of a [*goetcd.Client]; [ge_Get] takes the key, [sort] and
    [recursive], [ge_Set] the key, the value and the time to live. *)
Record GoEtcd (X : Type) := mkGoEtcd {
  ge_Get : string → bool → bool → M X (option EtcdResponse * option error);
  ge_Set : string → string → Z → M X (option EtcdResponse * option error);
  ge_SetConsistency : string → M X (option error);
  ge_Close : M X unit
}.
Arguments mkGoEtcd {X} _ _ _ _.
Arguments ge_Get {X} _ _ _ _.
Arguments ge_Set {X} _ _ _ _.
Arguments ge_SetConsistency {X} _ _.
Arguments ge_Close {X} _.

(** The package: [NewTLSClient(machines, cert, key, caCert)],
    [NewClient(machines)] and a constant. *)
Record GoEtcdLib (X : Type) := mkGoEtcdLib {
  lib_NewTLSClient : list string → string → string → string → M X (error + GoEtcd X);
  lib_NewClient : list string → M X (GoEtcd X);
  STRONG_CONSISTENCY : string
}.
Arguments mkGoEtcdLib {X} _ _ _.
Arguments lib_NewTLSClient {X} _ _ _ _ _.
Arguments lib_NewClient {X} _ _.
Arguments STRONG_CONSISTENCY {X} _.

(** ** [etcd/client.go] *)

Module Etcd.
Definition KeySetError : error := ErrorString "failed to set key".

(** [None] is a nil interface. *)
Record Client (X : Type) := NewClient { goEtcdClient : option (GoEtcd X) }.
Arguments NewClient {X} _.
Arguments goEtcdClient {X} _.

Section client.
Context {X : Type}.
Implicit Types c : Client X.

(** [response.Node.Value]. *)
Definition node_value (response : option EtcdResponse) : M X string :=
  match response ≫= resp_Node with
  | Some n => mret (Value n)
  | None => panic nil_dereference
  end.

Definition Get c (key : string) : M X (string * option error) :=
  match goEtcdClient c with
  | None => panic nil_dereference
  | Some e =>
      '(response, err) ← ge_Get e key false false;
      match err with
      | Some err => mret ("", Some err)
      | None => value ← node_value response; mret (value, None)
      end
  end.

Definition Set_ c (key value : string) : M X (option error) :=
  match goEtcdClient c with
  | None => panic nil_dereference
  | Some e =>
      '(response, err) ← ge_Set e key value 6000;
      match err with
      | Some err => mret (Some err)
      | None =>
          got ← node_value response;
          mret (if negb (bool_decide (got = value)) then Some KeySetError else None)
      end
  end.

Definition Close c : M X unit :=
  match goEtcdClient c with Some e => ge_Close e | None => mret tt end.
End client.
End Etcd.

(** ** [handlers/kv_handler.go] *)

Module KV.
Definition KEY_NOT_FOUND : string := "Key not found".

Record KVHandler := NewKVHandler {
  etcdURLs : list string;
  caCert : string;
  clientCert : string;
  clientKey : string
}.

Section handler.
Context {X : Type} (lib : GoEtcdLib X).

(** All three files are given. *)
Definition with_tls (caCert clientCert clientKey : string) : bool :=
  negb (bool_decide (caCert = "")) && negb (bool_decide (clientCert = "")) &&
  negb (bool_decide (clientKey = "")).

(** The last part of the path. *)
Definition key_of (path : string) : string := default "" (last (Split "/" path)).

(** The [switch] over the method. *)
Definition answer (client : Etcd.Client X) (key : string) (rw : ResponseWriter) (req : Request) :
    M X ResponseWriter :=
  if bool_decide (req_Method req = "GET") then
    '(value, err) ← Etcd.Get client key;
    match err with
    | Some err =>
        mret (http_Error (Error err)
          (if Contains (Error err) KEY_NOT_FOUND then StatusNotFound
           else StatusInternalServerError) rw)
    | None => mret (Write value (WriteHeader StatusOK rw))
    end
  else if bool_decide (req_Method req = "PUT") then
    let '(value, err) := req_Body req in
    match err with
    | Some err => mret (http_Error (Error err) StatusInternalServerError rw)
    | None =>
        err ← Etcd.Set_ client key value;
        match err with
        | Some err => mret (http_Error (Error err) StatusInternalServerError rw)
        | None => mret (WriteHeader StatusCreated rw)
        end
    end
  else mret (WriteHeader StatusMethodNotAllowed rw).

Definition ServeHTTP (k : KVHandler) : Handler X := λ rw req,
  let key := key_of (Path (req_URL req)) in
  goEtcdClient ←
    (if with_tls (caCert k) (clientCert k) (clientKey k) then
       lib_NewTLSClient lib (etcdURLs k) (clientCert k) (clientKey k) (caCert k)
     else c ← lib_NewClient lib (etcdURLs k); mret (inr c));
  match goEtcdClient with
  | inl err => mret (http_Error (Error err) StatusInternalServerError rw)
  | inr goEtcdClient =>
      _ ← ge_SetConsistency goEtcdClient (STRONG_CONSISTENCY lib);
      let client := Etcd.NewClient (Some goEtcdClient) in
      deferred (Etcd.Close client) (answer client key rw req)
  end.
End handler.
End KV.

(** ** [handlers/leader_handler.go] *)

Module Leader.
Record LeaderInfo := mkLeaderInfo { li_Leader : string }.
Record Node := mkLeaderNode { n_LeaderInfo : LeaderInfo }.
Record Member := mkMember {
  ID : string;
  ClientURLs : list string;
  PeerURLs : list string;
  Name : string
}.
Record Members := mkMembers { ms_Members : list Member }.

Definition LeaderInfo_fields : list (jfield LeaderInfo) := [
  mk_field "leader" li_Leader (λ v _, mkLeaderInfo v)
].
#[global] Instance LeaderInfo_FromJson : FromJson LeaderInfo := {|
  jzero := mkLeaderInfo "";
  jtype := "handlers.LeaderInfo";
  jdecode := decode_struct "handlers.LeaderInfo" LeaderInfo_fields
|}.
Definition Node_fields : list (jfield Node) := [
  mk_field "leaderInfo" n_LeaderInfo (λ v _, mkLeaderNode v)
].
#[global] Instance Node_FromJson : FromJson Node := {|
  jzero := mkLeaderNode (mkLeaderInfo "");
  jtype := "handlers.Node";
  jdecode := decode_struct "handlers.Node" Node_fields
|}.
Definition Member_fields : list (jfield Member) := [
  mk_field "id" ID (λ v m, mkMember v (ClientURLs m) (PeerURLs m) (Name m));
  mk_field "clientURLs" ClientURLs (λ v m, mkMember (ID m) v (PeerURLs m) (Name m));
  mk_field "peerURLs" PeerURLs (λ v m, mkMember (ID m) (ClientURLs m) v (Name m));
  mk_field "name" Name (λ v m, mkMember (ID m) (ClientURLs m) (PeerURLs m) v)
].
Definition zero_Member : Member := mkMember "" [] [] "".
#[global] Instance Member_FromJson : FromJson Member := {|
  jzero := zero_Member;
  jtype := "handlers.Member";
  jdecode := decode_struct "handlers.Member" Member_fields
|}.
Definition Members_fields : list (jfield Members) := [
  mk_field "members" ms_Members (λ v _, mkMembers v)
].
#[global] Instance Members_FromJson : FromJson Members := {|
  jzero := mkMembers [];
  jtype := "handlers.Members";
  jdecode := decode_struct "handlers.Members" Members_fields
|}.

Record LeaderHandler := NewLeaderHandler {
  etcdURL : string;
  caCert : string;
  clientCert : string;
  clientKey : string
}.

(** The client built: without TLS, or from a key pair and the CA's file. *)
Record tlsConfig := mkTLSConfig { tc_cert : string; tc_key : string; tc_ca : string }.

Section handler.
Context {X : Type}.

Section client.
Context `{Getter X}.

(** GET of [endpoint], the whole body, the status and the JSON in it. *)
Definition fetch {T} `{FromJson T} (endpoint : string) : M X (T * option error) :=
  resp ← http_Get endpoint;
  match resp with
  | inl err => mret (jzero, Some err)
  | inr resp =>
      let '(buf, err) := ReadAll resp in
      match err with
      | Some err => mret (jzero, Some err)
      | None =>
          if negb (bool_decide (StatusCode resp = StatusOK)) then
            mret (jzero, Some (ErrorString ("unexpected status code " +:+
              Sprintf_d (StatusCode resp) +:+ " - " +:+ buf)))
          else
            let '(t, err) := Unmarshal buf jzero in
            match err with Some err => mret (jzero, Some err) | None => mret (t, None) end
      end
  end.

Definition getMembers (url : string) : M X (Members * option error) := fetch (url +:+ "/v2/members").

Definition getLeader (url : string) (members : Members) : M X (Member * option error) :=
  '(node, err) ← (fetch (url +:+ "/v2/stats/self") : M X (Node * option error));
  match err with
  | Some err => mret (zero_Member, Some err)
  | None =>
      match first_match (λ m, bool_decide (ID m = li_Leader (n_LeaderInfo node)))
              (ms_Members members) with
      | Some member => mret (member, None)
      | None => mret (zero_Member, Some (ErrorString "could not determine leader"))
      end
  end.
End client.

Context (LoadX509KeyPair : string → string → option error).
Context (http_Client : option tlsConfig → Getter X).

(** The client, or the error of a file; whether the CA's file holds a
    certificate is not looked at. *)
Definition new_client (h : LeaderHandler) : M X (error + option tlsConfig) :=
  if KV.with_tls (caCert h) (clientCert h) (clientKey h) then
    match LoadX509KeyPair (clientCert h) (clientKey h) with
    | Some err => mret (inl err)
    | None =>
        '(ca, err) ← ReadFile (caCert h);
        match err with
        | Some err => mret (inl err)
        | None => mret (inr (Some (mkTLSConfig (clientCert h) (clientKey h) ca)))
        end
    end
  else mret (inr None).

(** After a failure of [getLeader] the handler goes on: it writes a second
    status and the name of a zero member. *)
Definition ServeHTTP (h : LeaderHandler) : Handler X := λ rw req,
  client ← new_client h;
  match client with
  | inl err => mret (http_Error (Error err) StatusInternalServerError rw)
  | inr client =>
      let node := Values_at (Query (req_URL req)) "node" in
      let url := match node with n :: _ => n | [] => etcdURL h end in
      '(members, err) ← getMembers (H := http_Client client) url;
      match err with
      | Some err => mret (http_Error (Error err) StatusInternalServerError rw)
      | None =>
          '(member, err) ← getLeader (H := http_Client client) url members;
          let rw := match err with
                    | Some err => http_Error (Error err) StatusInternalServerError rw
                    | None => rw
                    end in
          mret (Write (Name member) (WriteHeader StatusOK rw))
      end
  end.
End handler.
End Leader.

(** ** [main.go] *)

Module Main.
(** [flag.Value] of a flag that may be repeated. *)
Definition stringSlice : Type := list string.
Definition stringSlice_Set (ss : stringSlice) (value : string) : stringSlice := ss ++ [value].
Definition Slice (ss : stringSlice) : list string := ss.

Record Flags := mkFlags {
  Port : string;
  EtcdURL : stringSlice;
  CACert : string;
  ClientCert : string;
  ClientKey : string
}.

Definition flag_defs : list flag_def := [
  mkFlag "port" "" "port to use for test consumer server";
  mkFlag "etcd-service" "" "url of the etcd service";
  mkFlag "ca-cert-file" "" "the file of the CA Certificate";
  mkFlag "client-ssl-cert-file" "" "the file of the Client SSL Certificate";
  mkFlag "client-ssl-key-file" "" "the file of the CLient SSL Key"
].

(** The flags of a command line that parses: [values] has the last value of
    each, the slice is given all of its own. *)
Definition flags_of (args : list string) (values : gmap string string) : Flags :=
  mkFlags (value_of values "port")
    (foldl stringSlice_Set [] (Values_at (flag_occurrences flag_defs args) "etcd-service"))
    (value_of values "ca-cert-file") (value_of values "client-ssl-cert-file")
    (value_of values "client-ssl-key-file").

Section main.
Context {X : Type}.

(** [flag.Parse] exits with 2 on a bad command line. *)
Definition parseCommandLineFlags (args : list string) : M X Flags :=
  values ← FlagSet_Parse (default "" (head args)) flag_defs (drop 1 args);
  match values with
  | None => exit 2
  | Some values => mret (flags_of (drop 1 args) values)
  end.

Definition stars : string :=
  "********************************************************************************".

(** One of the two commands: started, not waited for; [output] is what has
    arrived in the buffer by the time it is printed. *)
Definition run_step (name : string) (path : string) (args : list string) (output : string) :
    M X (option error) :=
  '(_, err) ← exec_start path args;
  _ ← tell (Stdout stars);
  _ ← tell (Stdout (match err with
                    | Some err => name +:+ " error:" +:+ String "010" (Error err)
                    | None => name +:+ " output:" +:+ String "010" output
                    end));
  _ ← tell (Stdout stars);
  mret err.

Definition setupStackdriver (output1 output2 : string) : M X (option error) :=
  err ← run_step "curl" "curl"
    ["-sSO"; "https://dl.google.com/cloudagents/install-logging-agent.sh"] output1;
  match err with
  | Some err => mret (Some err)
  | None =>
      err ← run_step "install-logging-agent" "bash" ["install-logging-agent.sh"] output2;
      match err with Some err => mret (Some err) | None => mret None end
  end.

Context (lib : GoEtcdLib X) (LoadX509KeyPair : string → string → option error)
  (http_Client : option Leader.tlsConfig → Getter X)
  (ListenAndServe : string → Handler X → M X error).

Definition kv_handler (flags : Flags) : KV.KVHandler :=
  KV.NewKVHandler (Slice (EtcdURL flags)) (CACert flags) (ClientCert flags) (ClientKey flags).
Definition leader_handler (url : string) (flags : Flags) : Leader.LeaderHandler :=
  Leader.NewLeaderHandler url (CACert flags) (ClientCert flags) (ClientKey flags).

Definition mux (kvHandler : KV.KVHandler) (leaderNameHandler : Leader.LeaderHandler) : Handler X :=
  ServeMux [("/kv/", KV.ServeHTTP lib kvHandler);
            ("/leader", Leader.ServeHTTP LoadX509KeyPair http_Client leaderNameHandler)].

(** [main]; [log.Fatal] prints and exits with 1. *)
Definition main (output1 output2 : string) (args : list string) : M X unit :=
  err ← setupStackdriver output1 output2;
  match err with
  | Some _ => exit 1
  | None =>
      flags ← parseCommandLineFlags args;
      match Slice (EtcdURL flags) !! 0%nat with
      | None => panic out_of_range
      | Some url =>
          err ← ListenAndServe ("0.0.0.0:" +:+ Port flags)
            (mux (kv_handler flags) (leader_handler url flags));
          _ ← tell (Stderr (Error err));
          exit 1
      end
  end.
End main.
End Main.
