(* ===== verification/TestConsumerSpec.v ===== *)
(** * What the test consumer does

    Routing, the key-value handler over an etcd client that keeps its promises,
    the leader handler, and the command line. *)
From S2P Require Import Prelude GoStrings GoPath Machine GoFlag GoUrl UrlFacts GoJson GoHttp GoServe.
From S2P Require Import TestConsumer.

Open Scope Z_scope.

(** ** Keys and routes *)

(** A key that is one plain part of a path. *)
Definition plain_key (k : string) : bool :=
  all_chars plain_host k && negb (bool_decide (k = "")) && negb (bool_decide (k = ".")) &&
  negb (bool_decide (k = "..")).

Lemma plain_key_spec k :
  plain_key k = true →
  all_chars plain_host k = true ∧ k ≠ "" ∧ k ≠ "." ∧ k ≠ ".." ∧ has_char "/" k = false.
Proof.
  unfold plain_key. intros [[[Hp Hk1%negb_true_iff]%andb_true_iff Hk2%negb_true_iff]%andb_true_iff
    Hk3%negb_true_iff]%andb_true_iff.
  apply bool_decide_eq_false in Hk1, Hk2, Hk3. split_and!; [done..|].
  by apply (all_chars_has plain_host).
Qed.

Lemma plain_host_path s : all_chars plain_host s = true → all_chars plain_path s = true.
Proof.
  induction s as [|c s IH]; [done|]. simpl. intros [Hc Hs]%andb_true_iff.
  rewrite (IH Hs), andb_true_r. unfold plain_path. by rewrite Hc.
Qed.

Lemma Split_kv k :
  has_char "/" k = false → Split "/" (String "/" ("kv/" +:+ k)) = [""; "kv"; k].
Proof.
  intros Hk. change (String "/" ("kv/" +:+ k)) with ("" +:+ String "/" ("kv" +:+ String "/" k)).
  by rewrite !Split_app_sep, (Split_id _ k).
Qed.

Lemma key_of_kv k : has_char "/" k = false → KV.key_of (String "/" ("kv/" +:+ k)) = k.
Proof. intros Hk. unfold KV.key_of. by rewrite Split_kv. Qed.

Lemma cleanPath_kv k :
  plain_key k = true → cleanPath (String "/" ("kv/" +:+ k)) = String "/" ("kv/" +:+ k).
Proof.
  intros (_&Hne&Hd&Hdd&Hs)%plain_key_spec. unfold cleanPath.
  rewrite bool_decide_false by done. change (HasPrefix (String "/" ?x) "/") with true. cbv zeta iota.
  assert (ends_in_slash (String "/" ("kv/" +:+ k)) = false) as ->.
  { unfold ends_in_slash. rewrite Split_kv by done. simpl. by destruct k. }
  cbn [andb]. unfold Clean. rewrite bool_decide_false by done.
  change (is_rooted (String "/" ?x)) with true. cbv zeta iota. unfold slash.
  rewrite Split_kv by done. cbn [foldl].
  unfold clean_step. rewrite !(bool_decide_false (k = _)) by done. done.
Qed.

Lemma mux_kv k :
  plain_key k = true → mux_target ["/kv/"; "/leader"] (String "/" ("kv/" +:+ k)) = ToPattern "/kv/".
Proof.
  intros Hk. pose proof (plain_key_spec k Hk) as (_&Hne&_&_&Hs). unfold mux_target. cbv zeta.
  rewrite cleanPath_kv, bool_decide_true by done. cbn [negb].
  assert (∀ t, String "/" ("kv/" +:+ k) +:+ t ∉ ["/kv/"; "/leader"]) as Hno.
  { intros t. rewrite !app_cons_s. rewrite list_elem_of_In. simpl. destruct k; [done|]. intros [Hx|[Hx|[]]].
    - discriminate Hx.
    - discriminate Hx. }
  rewrite (bool_decide_false (_ +:+ "/" ∈ _)) by apply Hno. rewrite andb_false_r.
  unfold longest. cbn [foldl].
  assert (pathMatch "/kv/" (String "/" ("kv/" +:+ k)) = true) as ->.
  { unfold pathMatch. change (ends_in_slash "/kv/") with true. cbv iota.
    change (String "/" ("kv/" +:+ k)) with ("/kv/" +:+ k). apply HasPrefix_app. }
  assert (pathMatch "/leader" (String "/" ("kv/" +:+ k)) = false) as ->; [|done].
  unfold pathMatch. change (ends_in_slash "/leader") with false. cbv iota.
  by apply bool_decide_false.
Qed.

(** ** An etcd that keeps its promises

    [E] is the state of etcd, [contents] what it holds and [reply] how it answers
    a read; the Boolean beside it says whether the test consumer is up. *)

Section store.
Context {E : Type} (contents : E → gmap string string).
Context (reply : E → string → option EtcdResponse * option error).
Notation X := (bool * E)%type.
Implicit Types w : World X.

Definition held w : gmap string string := contents (svc w).2.
Definition is_up w : bool := (svc w).1.

(** A read gives what is held, or an error that says there is nothing. *)
Definition reply_ok : Prop := ∀ e k, plain_key k = true →
  match contents e !! k with
  | Some v => (reply e k).2 = None ∧ Value <$> ((reply e k).1 ≫= resp_Node) = Some v
  | None => ∃ err, (reply e k).2 = Some err ∧ Contains (Error err) KV.KEY_NOT_FOUND = true
  end.

(** A client gives such replies and writes what it is told to. *)
Record client_ok (g : GoEtcd X) : Prop := {
  ok_consistency level w : ∃ e w', ge_SetConsistency g level w = (Val e, w') ∧ svc w' = svc w;
  ok_close w : ∃ w', ge_Close g w = (Val tt, w') ∧ svc w' = svc w;
  ok_get k w : plain_key k = true →
    ∃ w', ge_Get g k false false w = (Val (reply (svc w).2 k), w') ∧ svc w' = svc w;
  ok_set k v ttl w : plain_key k = true →
    ∃ r w', ge_Set g k v ttl w = (Val (r, None), w') ∧ is_up w' = is_up w ∧
      held w' = <[k := v]> (held w) ∧ Value <$> (r ≫= resp_Node) = Some v
}.

Class EtcdStore (lib : GoEtcdLib X) : Prop := {
  store_reply : reply_ok;
  store_client urls w :
    ∃ g w', lib_NewClient lib urls w = (Val g, w') ∧ svc w' = svc w ∧ client_ok g;
  store_tls_client urls cert key ca w :
    ∃ g w', lib_NewTLSClient lib urls cert key ca w = (Val (inr g), w') ∧ svc w' = svc w ∧ client_ok g
}.

(** *** The wrapper *)

Lemma node_value_Some r v w :
  Value <$> (r ≫= resp_Node) = Some v → Etcd.node_value r w = (Val v, w).
Proof.
  intros Hr. unfold Etcd.node_value. destruct (r ≫= resp_Node); [|done].
  injection Hr as ->. done.
Qed.

(** What a read of [k] comes to: the value, or the error. *)
Definition read (e : E) (k : string) : error + string :=
  match reply e k with
  | (_, Some err) => inl err
  | (r, None) => match r ≫= resp_Node with Some n => inr (Value n) | None => inr "" end
  end.

Lemma read_ok e k :
  reply_ok → plain_key k = true →
  match contents e !! k with
  | Some v => read e k = inr v
  | None => ∃ err, read e k = inl err ∧ Contains (Error err) KV.KEY_NOT_FOUND = true
  end.
Proof.
  intros Hr Hk. pose proof (Hr e k Hk) as He. unfold read.
  destruct (reply e k) as [r oerr], (contents e !! k) as [v|]; cbn in He.
  - destruct He as [-> Hv]. destruct (r ≫= resp_Node); [|done]. by injection Hv as ->.
  - destruct He as (err&->&He). by exists err.
Qed.

Lemma Etcd_Get_ok g k w :
  client_ok g → reply_ok → plain_key k = true →
  ∃ w', Etcd.Get (Etcd.NewClient (Some g)) k w =
      (Val (match read (svc w).2 k with inl err => ("", Some err) | inr v => (v, None) end), w') ∧
    svc w' = svc w.
Proof.
  intros Hg Hr Hk. destruct (ok_get g Hg k w Hk) as (w1&Hget&Hs).
  unfold Etcd.Get. cbn [Etcd.goEtcdClient]. step Hget. pose proof (Hr (svc w).2 k Hk) as He.
  unfold read. destruct (reply (svc w).2 k) as [r [err|]]; [by exists w1|].
  destruct (contents (svc w).2 !! k) as [v|]; [|by destruct He as (?&?&?)].
  destruct He as [_ Hv]. cbn [fst] in Hv. step (node_value_Some r v w1 Hv).
  destruct (r ≫= resp_Node); [|done]. injection Hv as ->. by exists w1.
Qed.

Lemma Etcd_Set_ok g k v w :
  client_ok g → plain_key k = true →
  ∃ w', Etcd.Set_ (Etcd.NewClient (Some g)) k v w = (Val None, w') ∧ is_up w' = is_up w ∧
    held w' = <[k := v]> (held w).
Proof.
  intros Hg Hk. destruct (ok_set g Hg k v 6000 w Hk) as (r&w1&Hset&Hu&Hh&Hv).
  unfold Etcd.Set_. cbn [Etcd.goEtcdClient]. step Hset. step (node_value_Some r v w1 Hv).
  rewrite bool_decide_true by done. by exists w1.
Qed.

(** *** The handler *)

Context (lib : GoEtcdLib X) `{!EtcdStore lib}.

(** Making the client, whichever way, and telling it the consistency. *)
Lemma serve_with_client h k rw req w :
  k = KV.key_of (Path (req_URL req)) →
  ∃ g w0, client_ok g ∧ svc w0 = svc w ∧
    KV.ServeHTTP lib h rw req w =
    deferred (Etcd.Close (Etcd.NewClient (Some g)))
      (KV.answer (Etcd.NewClient (Some g)) k rw req) w0.
Proof.
  intros ->. unfold KV.ServeHTTP. cbv zeta.
  assert (∃ g w1, (if KV.with_tls (KV.caCert h) (KV.clientCert h) (KV.clientKey h)
      then lib_NewTLSClient lib (KV.etcdURLs h) (KV.clientCert h) (KV.clientKey h) (KV.caCert h)
      else c ← lib_NewClient lib (KV.etcdURLs h); mret (inr c)) w = (Val (inr g), w1) ∧
    svc w1 = svc w ∧ client_ok g) as (g&w1&Hc&Hs&Hg).
  { destruct (KV.with_tls _ _ _).
    - apply store_tls_client.
    - destruct (store_client (KV.etcdURLs h) w) as (g&w1&Hc&?&?). exists g, w1. step Hc. done. }
  step Hc. destruct (ok_consistency g Hg (STRONG_CONSISTENCY lib) w1) as (e&w2&Hcons&Hs2). step Hcons.
  exists g, w2. split_and!; [done|congruence|done].
Qed.

Lemma run_deferred {A} (g : GoEtcd X) (m : M X A) w a w1 :
  client_ok g → m w = (Val a, w1) →
  ∃ w', deferred (Etcd.Close (Etcd.NewClient (Some g))) m w = (Val a, w') ∧ svc w' = svc w1.
Proof.
  intros Hg Hm. unfold deferred. rewrite Hm. unfold Etcd.Close. cbn [Etcd.goEtcdClient].
  destruct (ok_close g Hg w1) as (w2&->&Hs). by exists w2.
Qed.

Definition kv_request (method k body : string) : Request :=
  mkRequest method (served_URL ("kv/" +:+ k) "") (body, None).

Lemma KV_put_ok h k v w :
  plain_key k = true →
  ∃ w', KV.ServeHTTP lib h fresh_response (kv_request "PUT" k v) w =
      (Val (mkResponseWriter (Some StatusCreated) ""), w') ∧
    is_up w' = is_up w ∧ held w' = <[k := v]> (held w).
Proof.
  intros Hk. pose proof (plain_key_spec k Hk) as (_&_&_&_&Hs).
  destruct (serve_with_client h k fresh_response (kv_request "PUT" k v) w) as (g&w0&Hg&Hw0&->);
    [symmetry; by apply key_of_kv|].
  destruct (Etcd_Set_ok g k v w0 Hg Hk) as (w1&Hset&Hu&Hh).
  assert (KV.answer (Etcd.NewClient (Some g)) k fresh_response (kv_request "PUT" k v) w0 =
    (Val (mkResponseWriter (Some StatusCreated) ""), w1)) as Ha.
  { unfold KV.answer. cbn [req_Method kv_request req_Body].
    rewrite bool_decide_false, bool_decide_true by done. by step Hset. }
  destruct (run_deferred _ _ _ _ _ Hg Ha) as (w2&->&Hs2). exists w2.
  unfold is_up, held in *. rewrite Hs2, Hu, Hh, Hw0. done.
Qed.

(** The answer to a read. *)
Definition read_answer (e : E) (k : string) : ResponseWriter :=
  match read e k with
  | inr v => mkResponseWriter (Some StatusOK) v
  | inl err =>
      mkResponseWriter
        (Some (if Contains (Error err) KV.KEY_NOT_FOUND then StatusNotFound
               else StatusInternalServerError)) (Error err +:+ String "010" "")
  end.

Lemma KV_get_ok h k w :
  plain_key k = true →
  ∃ w', KV.ServeHTTP lib h fresh_response (kv_request "GET" k "") w =
      (Val (read_answer (svc w).2 k), w') ∧ svc w' = svc w.
Proof.
  intros Hk. pose proof (plain_key_spec k Hk) as (_&_&_&_&Hs).
  destruct (serve_with_client h k fresh_response (kv_request "GET" k "") w) as (g&w0&Hg&Hw0&->);
    [symmetry; by apply key_of_kv|].
  destruct (Etcd_Get_ok g k w0 Hg store_reply Hk) as (w1&Hget&Hs1).
  assert (KV.answer (Etcd.NewClient (Some g)) k fresh_response (kv_request "GET" k "") w0 =
    (Val (read_answer (svc w).2 k), w1)) as Ha.
  { unfold KV.answer. cbn [req_Method kv_request]. rewrite bool_decide_true by done. step Hget.
    rewrite Hw0. unfold read_answer. destruct (read (svc w).2 k) as [err|v]; [|done].
    by destruct (Contains (Error err) KV.KEY_NOT_FOUND). }
  destruct (run_deferred _ _ _ _ _ Hg Ha) as (w2&->&Hs2). exists w2. split; [done|congruence].
Qed.
End store.

(** ** The leader handler *)

Section leader.
Context (f : nat → string → error + Response) (LoadX509KeyPair : string → string → option error).
Notation X := HttpScript.state.
Implicit Types w : World X.

(** What a request for JSON gives. *)
Definition fetched {T} `{FromJson T} (r : error + Response) : error + T :=
  match r with
  | inl err => inl err
  | inr resp =>
      match BodyErr resp with
      | Some err => inl err
      | None =>
          if bool_decide (StatusCode resp = StatusOK) then
            match Unmarshal (Body resp) jzero with (t, None) => inr t | (_, Some err) => inl err end
          else inl (ErrorString ("unexpected status code " +:+ Sprintf_d (StatusCode resp) +:+
                 " - " +:+ Body resp))
      end
  end.

Definition leader_of (members : Leader.Members) (r : error + Response) : error + Leader.Member :=
  match (fetched r : error + Leader.Node) with
  | inl err => inl err
  | inr node =>
      match first_match (λ m, bool_decide (Leader.ID m = Leader.li_Leader (Leader.n_LeaderInfo node)))
              (Leader.ms_Members members) with
      | Some m => inr m
      | None => inl (ErrorString "could not determine leader")
      end
  end.

(** The name of the member with the leader's id, and the URLs asked; [n]
    requests were made before. *)
Definition leader_name (n : nat) (url : string) : (error + string) * list string :=
  let members_url := url +:+ "/v2/members" in
  let self_url := url +:+ "/v2/stats/self" in
  match (fetched (f n members_url) : error + Leader.Members) with
  | inl err => (inl err, [members_url])
  | inr members =>
      (match leader_of members (f (S n) self_url) with inl err => inl err | inr m => inr (Leader.Name m) end,
       [members_url; self_url])
  end.

(** The error of the TLS files, if they are used. *)
Definition files_error (h : Leader.LeaderHandler) w : option error :=
  if KV.with_tls (Leader.caCert h) (Leader.clientCert h) (Leader.clientKey h) then
    match LoadX509KeyPair (Leader.clientCert h) (Leader.clientKey h) with
    | Some err => Some err
    | None => (read_file (Leader.caCert h) w).2
    end
  else None.

Definition leader_spec (h : Leader.LeaderHandler) (req : Request) w : (error + string) * list string :=
  match files_error h w with
  | Some err => (inl err, [])
  | None =>
      leader_name (length (svc w))
        (match Values_at (Query (req_URL req)) "node" with n :: _ => n | [] => Leader.etcdURL h end)
  end.

(** What the handler writes for such a result. *)
Definition leader_written (r : error + string) : ResponseWriter :=
  match r with
  | inl err => mkResponseWriter (Some StatusInternalServerError) (Error err +:+ String "010" "")
  | inr name => mkResponseWriter (Some StatusOK) name
  end.

Lemma run_fetch {T} `{FromJson T} url w :
  Leader.fetch (H := HttpScript.client f) url w =
  (Val (match (fetched (f (length (svc w)) url) : error + T) with
        | inl err => (jzero, Some err)
        | inr t => (t, None)
        end), set_svc (svc w ++ [url]) w).
Proof.
  unfold Leader.fetch. step (run_scripted_Get f url w). unfold fetched, ReadAll.
  destruct (f _ url) as [err|resp]; [done|]. destruct (BodyErr resp); [done|].
  case_bool_decide; [|done]. cbn [negb]. by destruct (Unmarshal (Body resp) jzero) as [t [err|]].
Qed.

Lemma run_new_client h w :
  ∃ w', same_os w w' ∧ svc w' = svc w ∧
    match files_error h w with
    | Some err => Leader.new_client LoadX509KeyPair h w = (Val (inl err), w')
    | None => ∃ c, Leader.new_client LoadX509KeyPair h w = (Val (inr c), w')
    end.
Proof.
  unfold Leader.new_client, files_error. destruct (KV.with_tls _ _ _);
    [|exists w; split_and!; [done..|by eexists]].
  destruct (LoadX509KeyPair (Leader.clientCert h) (Leader.clientKey h)) as [e|]; [by exists w|].
  exists (emit (Call "ioutil.ReadFile" [Leader.caCert h]) w). split; [done|]. split; [done|].
  destruct (read_file (Leader.caCert h) w) as [ca [e|]] eqn:Hr; cbn [snd];
    unfold mbind, M_bind, ReadFile; rewrite Hr; [done|by eexists].
Qed.

Lemma run_getLeader url members w n :
  length (svc w) = n →
  Leader.getLeader (H := HttpScript.client f) url members w =
  (Val (match leader_of members (f n (url +:+ "/v2/stats/self")) with
        | inl err => (Leader.zero_Member, Some err)
        | inr m => (m, None)
        end), set_svc (svc w ++ [url +:+ "/v2/stats/self"]) w).
Proof.
  intros <-. unfold Leader.getLeader, leader_of. step (run_fetch (T := Leader.Node) (url +:+ "/v2/stats/self") w).
  destruct (fetched _) as [err|node]; [done|]. by destruct (first_match _ _).
Qed.

Lemma written_twice err :
  Write (Leader.Name Leader.zero_Member) (WriteHeader StatusOK
    (http_Error (Error err) StatusInternalServerError fresh_response)) = leader_written (inl err).
Proof.
  change (mkResponseWriter (Some StatusInternalServerError)
    (("" +:+ (Error err +:+ String "010" "")) +:+ "") = leader_written (inl err)).
  rewrite app_nil_s. done.
Qed.

(** On every branch the leader handler answers with the name of the member
    that has the leader's id, or with status 500 and the error; it asks the node
    named in the query if there is one, for its members and, if that worked,
    for its leader.  That the handler goes on after an error of [getLeader] and
    writes another status does not change the answer. *)
Lemma leader_handler_spec h req w :
  ∃ w', Leader.ServeHTTP LoadX509KeyPair (λ _, HttpScript.client f) h fresh_response req w =
      (Val (leader_written (leader_spec h req w).1), w') ∧
    svc w' = svc w ++ (leader_spec h req w).2 ∧ same_os w w'.
Proof.
  destruct (run_new_client h w) as (w1&Hos&Hsvc&Hc). unfold Leader.ServeHTTP, leader_spec.
  destruct (files_error h w) as [err|].
  { step Hc. exists w1. split_and!; [done|by rewrite app_nil_r|done]. }
  destruct Hc as [c Hc]. step Hc. cbv zeta. rewrite <-Hsvc.
  set (url := match Values_at _ _ with n :: _ => n | [] => _ end). unfold leader_name, Leader.getMembers.
  step (run_fetch (T := Leader.Members) (url +:+ "/v2/members") w1).
  destruct (fetched (f (length (svc w1)) (url +:+ "/v2/members"))) as [err|members].
  { eexists. split; [reflexivity|]. done. }
  set (w2 := set_svc (svc w1 ++ [url +:+ "/v2/members"]) w1).
  assert (length (svc w2) = S (length (svc w1))) as Hlen by (cbn; rewrite length_app; cbn; lia).
  step (run_getLeader url members w2 _ Hlen).
  destruct (leader_of members _) as [err|m];
    exists (set_svc (svc w2 ++ [url +:+ "/v2/stats/self"]) w2);
    (split; [|split; [symmetry; apply (app_assoc (svc w1) [_] [_])|done]]).
  - cbn [fst]. rewrite <-written_twice. reflexivity.
  - reflexivity.
Qed.
End leader.

(** ** [main] *)

(** A pid that is not in use. *)
Definition fresh_pids (k : Kernel) : Prop := ∀ ps, ps !! k_pid k ps = None.

(** [setupStackdriver] only starts its two commands: when it has succeeded, the
    download and the installation of what is being downloaded run side by side,
    unless they are done by then. *)
Lemma setupStackdriver_concurrent {X} output1 output2 (w : World X) :
  (∀ path args, k_exec (kernel w) path args = None) → fresh_pids (kernel w) →
  ∃ w' pid1 pid2, Main.setupStackdriver output1 output2 w = (Val None, w') ∧ pid1 ≠ pid2 ∧
    procs w' = <[pid2 := mkProcess "bash" ["install-logging-agent.sh"]]> (<[pid1 := mkProcess "curl"
      ["-sSO"; "https://dl.google.com/cloudagents/install-logging-agent.sh"]]> (procs w)).
Proof.
  intros Hexec Hfresh.
  set (curl := mkProcess "curl" ["-sSO"; "https://dl.google.com/cloudagents/install-logging-agent.sh"]).
  set (pid1 := k_pid (kernel w) (procs w)).
  set (pid2 := k_pid (kernel w) (<[pid1 := curl]> (procs w))).
  assert (pid1 ≠ pid2) as Hne.
  { intros Heq. pose proof (Hfresh (<[pid1 := curl]> (procs w))) as Hf. fold pid2 in Hf.
    by rewrite <-Heq, lookup_insert_eq in Hf. }
  assert (∀ name path args output (w0 : World X), kernel w0 = kernel w →
    ∃ w1, Main.run_step name path args output w0 = (Val None, w1) ∧ kernel w1 = kernel w ∧
      procs w1 = <[k_pid (kernel w) (procs w0) := mkProcess path args]> (procs w0)) as Hstep.
  { intros name path args output w0 Hk. unfold Main.run_step, mbind, M_bind, exec_start.
    rewrite Hk, Hexec. eexists. split; [reflexivity|]. by cbn. }
  unfold Main.setupStackdriver.
  destruct (Hstep "curl" (proc_path curl) (proc_args curl) output1 w eq_refl) as (w1&H1&Hk1&Hp1).
  step H1.
  destruct (Hstep "install-logging-agent" "bash" ["install-logging-agent.sh"] output2 w1 Hk1) as (w2&H2&_&Hp2).
  step H2. exists w2, pid1, pid2. split; [done|]. split; [done|]. by rewrite Hp2, Hp1.
Qed.

(** Every [-etcd-service] is kept, in order; of the other flags the last one. *)
Example flags_example :
  let args := ["-port"; "1"; "--etcd-service=http://a"; "-port=2"; "-etcd-service"; "http://b"] in
  match parse_flag_args Main.flag_defs args with
  | Parsed values _ => Main.flags_of args values = Main.mkFlags "2" ["http://a"; "http://b"] "" "" ""
  | _ => False
  end.
Proof. by vm_compute. Qed.
