(* ===== verification/KvClient.v ===== *)
(** * [src/acceptance-tests/testing/etcd/client.go]

    The client the acceptance tests use for the test consumer ([TestConsumer.v]). *)
From S2P Require Import Prelude GoStrings GoPath Machine GoUrl GoJson GoHttp GoServe.

Open Scope Z_scope.

Record Client := NewClient { testConsumerURL : string }.

Definition Address (c : Client) : string := testConsumerURL c.

Section client.
Context {X : Type} `{Getter X} `{Putter X}.

Definition unexpected (resp : Response) (body : string) : error :=
  ErrorString ("unexpected status: " +:+ Sprintf_d (StatusCode resp) +:+ " " +:+
    StatusText (StatusCode resp) +:+ " " +:+ body).

(** What [Get], [Leader] and [LeaderByNodeURL] do with their URL. *)
Definition get_body (endpoint : string) : M X (string * option error) :=
  resp ← http_Get endpoint;
  match resp with
  | inl err => mret ("", Some err)
  | inr resp =>
      let '(body, err) := ReadAll resp in
      match err with
      | Some err => mret ("", Some err)
      | None =>
          if negb (bool_decide (StatusCode resp = StatusOK)) then
            mret ("", Some (unexpected resp body))
          else mret (body, None)
      end
  end.

Definition Get (c : Client) (key : string) : M X (string * option error) :=
  get_body (testConsumerURL c +:+ "/kv/" +:+ key).

(** Making the request can fail for the URL only, which [http_Put] covers. *)
Definition Set_ (c : Client) (key value : string) : M X (option error) :=
  resp ← http_Put (testConsumerURL c +:+ "/kv/" +:+ key) value;
  match resp with
  | inl err => mret (Some err)
  | inr resp =>
      let '(body, err) := ReadAll resp in
      match err with
      | Some err => mret (Some err)
      | None =>
          if negb (bool_decide (StatusCode resp = StatusCreated)) then
            mret (Some (unexpected resp body))
          else mret None
      end
  end.

Definition Leader (c : Client) : M X (string * option error) :=
  get_body (testConsumerURL c +:+ "/leader").

Definition LeaderByNodeURL (c : Client) (nodeURL : string) : M X (string * option error) :=
  get_body (testConsumerURL c +:+ "/leader?node=" +:+ nodeURL).
End client.
