(* ===== verification/KvSpammer.v ===== *)
(** * [src/acceptance-tests/testing/helpers/spammer.go]

    The spammer writes numbered keys through a key-value client while a
    deployment is being changed, keeps what was acknowledged, and reads it all
    back at the end.

    The goroutine of [Spam], [Stop] and [ResetStore] are a labelled transition
    system; the label of a write carries the client's answer.  [Spam] is called
    once, as the tests do. *)
From S2P Require Import Prelude GoStrings GoPath Machine ErrorSet.

Open Scope Z_scope.

(** ** The client *)

(** The interface [kv]. *)
Class KV (X : Type) := {
  kv_Address : string;
  kv_Set : string → string → M X (option error);
  kv_Get : string → M X (string * option error)
}.

(** ** State *)

(** Where the goroutine is: before [Spam], in its [select], between an
    acknowledged write and [AddKVToStore], or gone. *)
Inductive spam_at := SpNone | SpSelect | SpAdd (key value : string) | SpReturned.

Record Spammer := mkSpammer {
  store : gmap string string;
  testConsumerConnectionErrorMessage : string;
  done_closed : bool;
  wg : Z;
  errors : ErrorSet;
  keyWriteAttempts : Z;
  prefix : string;
  attempts : Z;            (* [counts.attempts] of the goroutine *)
  at_ : spam_at
}.

Definition NewSpammer (address prefix : string) : Spammer :=
  mkSpammer ∅ ("dial tcp " +:+ TrimPrefix address "http://" +:+ ": getsockopt: connection refused")
    false 0 ∅ 0 prefix 0 SpNone.

Definition set_store (m : gmap string string) (s : Spammer) : Spammer :=
  mkSpammer m (testConsumerConnectionErrorMessage s) (done_closed s) (wg s) (errors s)
    (keyWriteAttempts s) (prefix s) (attempts s) (at_ s).
Definition set_errors (e : ErrorSet) (s : Spammer) : Spammer :=
  mkSpammer (store s) (testConsumerConnectionErrorMessage s) (done_closed s) (wg s) e
    (keyWriteAttempts s) (prefix s) (attempts s) (at_ s).
Definition set_attempts (n : Z) (a : spam_at) (s : Spammer) : Spammer :=
  mkSpammer (store s) (testConsumerConnectionErrorMessage s) (done_closed s) (wg s) (errors s)
    (keyWriteAttempts s) (prefix s) n a.
Definition set_control (d : bool) (g n : Z) (a : spam_at) (s : Spammer) : Spammer :=
  mkSpammer (store s) (testConsumerConnectionErrorMessage s) d g (errors s) n (prefix s)
    (attempts s) a.

(** ** Operations *)

Definition ResetStore (s : Spammer) : Spammer := set_store ∅ s.
Definition AddKVToStore (key value : string) (s : Spammer) : Spammer :=
  set_store (<[key := value]> (store s)) s.

(** The key and the value number [n]. *)
Definition key_at (prefix : string) (n : Z) : string := prefix +:+ "-some-key-" +:+ Sprintf_d n.
Definition value_at (prefix : string) (n : Z) : string := prefix +:+ "-some-value-" +:+ Sprintf_d n.

(** The [time.After] case up to [AddKVToStore]; [err] is what [kv.Set] returned.
    A test consumer that cannot be reached does not count. *)
Definition attempt (err : option error) (s : Spammer) : Spammer :=
  let counts := attempts s + 1 in
  match err with
  | Some err =>
      if Contains (Error err) (testConsumerConnectionErrorMessage s) then
        set_attempts (counts - 1) SpSelect s
      else set_errors (Add (errors s) (Plain err)) (set_attempts counts SpSelect s)
  | None =>
      set_attempts counts (SpAdd (key_at (prefix s) (counts - 1)) (value_at (prefix s) (counts - 1))) s
  end.

(** The write of the next attempt. *)
Definition next_key (s : Spammer) : string := key_at (prefix s) (attempts s).
Definition next_value (s : Spammer) : string := value_at (prefix s) (attempts s).

(** ** Steps *)

Inductive label :=
  | LSpam
  | LSet (key value : string) (err : option error)
  | LAdd
  | LDone
  | LStop
  | LStopReturn
  | LResetStore.

Inductive result := Running (s : Spammer) | Crashed (msg : string).

(** [None]: the step is not possible in this state.  When [done] is closed and
    the timer has fired, the [select] takes either. *)
Definition step (l : label) (s : Spammer) : option result :=
  match l, at_ s with
  | LSpam, SpNone =>
      Some (Running (set_control (done_closed s) (wg s + 1) (keyWriteAttempts s) SpSelect s))
  | LSet key value err, SpSelect =>
      if bool_decide (key = next_key s) && bool_decide (value = next_value s)
      then Some (Running (attempt err s)) else None
  | LAdd, SpAdd key value =>
      Some (Running (set_attempts (attempts s) SpSelect (AddKVToStore key value s)))
  | LDone, SpSelect =>
      if done_closed s then
        Some (Running (set_control true (wg s - 1) (attempts s) SpReturned s))
      else None
  | LStop, _ =>
      Some (if done_closed s then Crashed "close of closed channel"
            else Running (set_control true (wg s) (keyWriteAttempts s) (at_ s) s))
  | LStopReturn, _ => if done_closed s && (wg s =? 0) then Some (Running s) else None
  | LResetStore, _ => Some (Running (ResetStore s))
  | _, _ => None
  end.

(** A run that has not crashed. *)
Fixpoint run (ls : list label) (s : Spammer) : option Spammer :=
  match ls with
  | [] => Some s
  | l :: ls => match step l s with Some (Running s') => run ls s' | _ => None end
  end.

(** ** [Check] *)

Section check.
Context {X : Type} `{KV X}.

Definition mismatch (k v value : string) : error :=
  ErrorString ("value for key " +:+ Quote k +:+ " does not match: expected " +:+ Quote v +:+
    ", got " +:+ Quote value).

(** The loop over the store, in the order [range] gives. *)
Fixpoint check_loop (order : list (string * string)) (errs : ErrorSet) : M X ErrorSet :=
  match order with
  | [] => mret errs
  | (k, v) :: order =>
      '(value, err) ← kv_Get k;
      match err with
      | Some err => check_loop order (Add errs (Plain err))
      | None =>
          if negb (bool_decide (v = value)) then
            check_loop order (Add errs (Plain (mismatch k v value)))
          else check_loop order errs
      end
  end.

Definition NoKeysWritten : error := ErrorString "0 keys have been written".

(** The error returned and the spammer afterwards: the errors stay in it. *)
Definition Check (order : list (string * string)) (s : Spammer) : M X (option test_error * Spammer) :=
  if keyWriteAttempts s =? 0 then mret (Some (Plain NoKeysWritten), s)
  else
    errs ← check_loop order (errors s);
    mret (if (0 <? Z.of_nat (size errs)) then Some (Errors errs) else None, set_errors errs s).

(** ** One round of the goroutine, with its client *)

Definition spam_round (s : Spammer) : M X Spammer :=
  err ← kv_Set (next_key s) (next_value s);
  let s := attempt err s in
  mret (match at_ s with
        | SpAdd key value => set_attempts (attempts s) SpSelect (AddKVToStore key value s)
        | _ => s
        end).
End check.
