(* ===== verification/KvSpammerSpec.v ===== *)
(** * What the key-value spammer does

    The invariant of its transition system, and [Check] for every client that
    answers reads from a fixed function. *)
From S2P Require Import Prelude GoStrings GoPath Machine ErrorSet KvSpammer.

Open Scope Z_scope.

(** ** Keys *)

Lemma Sprintf_d_nonneg_inj y z : 0 ≤ y → 0 ≤ z → Sprintf_d y = Sprintf_d z → y = z.
Proof.
  intros (u&Hu&<-)%Sprintf_d_nonneg (v&Hv&<-)%Sprintf_d_nonneg Heq.
  pose proof (parse_digits_NilZero u) as Hp.
  rewrite <-Hu, Heq, Hv, parse_digits_NilZero in Hp. by injection Hp.
Qed.

Lemma key_at_inj p i j : 0 ≤ i → 0 ≤ j → key_at p i = key_at p j → i = j.
Proof. intros Hi Hj Heq. apply Sprintf_d_nonneg_inj; [done..|]. by do 2 apply app_inj_l_s in Heq. Qed.

(** ** Accounting *)

(** What became of the writes of a run. *)
Definition acked (ls : list label) : list (string * string) :=
  omap (λ l, match l with LSet k v None => Some (k, v) | _ => None end) ls.

(** Failures other than those to reach the test consumer. *)
Definition rejected (msg : string) (ls : list label) : list error :=
  omap (λ l, match l with
             | LSet _ _ (Some err) => if Contains (Error err) msg then None else Some err
             | _ => None
             end) ls.

(** The steps after the last reset of the store. *)
Definition since_reset (ls : list label) : list label :=
  foldl (λ acc l, match l with LResetStore => [] | _ => acc ++ [l] end) [] ls.

Lemma since_reset_snoc ls l :
  since_reset (ls ++ [l]) = match l with LResetStore => [] | _ => since_reset ls ++ [l] end.
Proof. unfold since_reset. by rewrite foldl_app. Qed.

Lemma acked_snoc ls l : acked (ls ++ [l]) = acked ls ++ acked [l].
Proof. apply omap_app. Qed.
Lemma rejected_snoc msg ls l : rejected msg (ls ++ [l]) = rejected msg ls ++ rejected msg [l].
Proof. apply omap_app. Qed.

Lemma run_snoc ls l s :
  run (ls ++ [l]) s = run ls s ≫= λ s', match step l s' with Some (Running s'') => Some s'' | _ => None end.
Proof.
  revert s. induction ls as [|l' ls IH]; intros s; simpl.
  - destruct (step l s) as [[]|]; done.
  - destruct (step l' s) as [[]|]; done.
Qed.

Lemma acked_since_reset ls kv : kv ∈ acked (since_reset ls) → kv ∈ acked ls.
Proof.
  induction ls as [|l ls IH] using rev_ind; [done|].
  rewrite since_reset_snoc, acked_snoc, elem_of_app.
  destruct l; rewrite ?acked_snoc, ?elem_of_app;
    first [by intros ?%elem_of_nil|intros [?|?]; auto].
Qed.

(** A step that neither writes nor resets. *)
Lemma acked_silent ls l :
  acked [l] = [] → l ≠ LResetStore → acked (since_reset (ls ++ [l])) = acked (since_reset ls).
Proof.
  intros Hl Hr. rewrite since_reset_snoc. destruct l; try done; by rewrite acked_snoc, Hl, app_nil_r.
Qed.

(** ** The invariant *)

Section spammer.
Context (address pre : string).

(** The flags and the goroutine fit together. *)
Definition control_ok (s : Spammer) : Prop :=
  match at_ s with
  | SpNone => wg s = 0 ∧ keyWriteAttempts s = 0 ∧ attempts s = 0
  | SpSelect | SpAdd _ _ => wg s = 1 ∧ keyWriteAttempts s = 0
  | SpReturned => wg s = 0 ∧ keyWriteAttempts s = attempts s ∧ done_closed s = true
  end.

Definition message : string := testConsumerConnectionErrorMessage (NewSpammer address pre).

(** The numbers are counted, ... *)
Definition counted (ls : list label) (s : Spammer) : Prop :=
  attempts s = Z.of_nat (length (acked ls)) + Z.of_nat (length (rejected message ls)) ∧
  errors s = foldl Add ∅ (Plain <$> rejected message ls).

(** ... every acknowledged write has a number of its own, ... *)
Definition numbered (ls : list label) (s : Spammer) : Prop :=
  (∀ k v, (k, v) ∈ acked ls → ∃ i, 0 ≤ i < attempts s ∧ k = key_at pre i ∧ v = value_at pre i) ∧
  NoDup (acked ls).*1.

(** ... and the store has acknowledged writes only, and all of those since the
    last reset but one that is just being added. *)
Definition kept (ls : list label) (s : Spammer) : Prop :=
  (∀ k v, store s !! k = Some v → (k, v) ∈ acked ls) ∧
  (∀ k v, at_ s = SpAdd k v → (k, v) ∈ acked ls) ∧
  (∀ k v, (k, v) ∈ acked (since_reset ls) → at_ s = SpAdd k v ∨ store s !! k = Some v).

Record Inv (ls : list label) (s : Spammer) : Prop := {
  inv_prefix : prefix s = pre;
  inv_message : testConsumerConnectionErrorMessage s = message;
  inv_control : control_ok s;
  inv_counted : counted ls s;
  inv_numbered : numbered ls s;
  inv_kept : kept ls s
}.

Lemma attempts_nonneg ls s : counted ls s → 0 ≤ attempts s.
Proof. intros [-> _]. lia. Qed.

(** A step that writes nothing keeps the accounts. *)
Lemma Inv_silent ls l s s' :
  Inv ls s → acked [l] = [] → rejected message [l] = [] →
  prefix s' = prefix s → testConsumerConnectionErrorMessage s' = testConsumerConnectionErrorMessage s →
  attempts s' = attempts s → errors s' = errors s → control_ok s' → kept (ls ++ [l]) s' →
  Inv (ls ++ [l]) s'.
Proof.
  intros [Hp Hm Hc [Ha He] [Hn Hd] Hk] Hl Hr Hp' Hm' Ha' He' Hc' Hk'.
  split; [congruence|congruence|done| | |done].
  - unfold counted. rewrite acked_snoc, rejected_snoc, Hl, Hr, !app_nil_r. by rewrite Ha', He'.
  - unfold numbered. rewrite acked_snoc, Hl, app_nil_r, Ha'. done.
Qed.

(** Steps other than a reset that keep the store and the place. *)
Lemma kept_same ls l s s' :
  kept ls s → acked [l] = [] → l ≠ LResetStore → store s' = store s →
  (∀ k v, at_ s = SpAdd k v ↔ at_ s' = SpAdd k v) → kept (ls ++ [l]) s'.
Proof.
  intros (Hs&Ha&Hr) Hl Hne Hst Hat. unfold kept.
  rewrite acked_silent, acked_snoc, Hl, app_nil_r, Hst by done.
  split_and!; [done| |].
  - intros k v Hk. by apply Ha, Hat.
  - intros k v Hkv. rewrite <-Hat. by apply Hr.
Qed.

Lemma Inv_set ls k v err s :
  Inv ls s → at_ s = SpSelect → k = next_key s → v = next_value s →
  Inv (ls ++ [LSet k v err]) (attempt err s).
Proof.
  intros [Hp Hm Hc [Ha He] [Hn Hd] (Hs&Hat&Hr)] Hsel Hk Hv.
  pose proof (attempts_nonneg _ _ (conj Ha He)) as Hnn.
  assert (wg s = 1 ∧ keyWriteAttempts s = 0) as Hw by (unfold control_ok in Hc; by rewrite Hsel in Hc).
  unfold next_key, next_value in *. rewrite Hp in Hk, Hv.
  destruct err as [err|].
  - assert (acked [LSet k v (Some err)] = []) as Hl by done.
    unfold attempt. destruct (Contains (Error err) (testConsumerConnectionErrorMessage s)) eqn:Hcon.
    + apply (Inv_silent ls _ s); try done; simpl.
      * rewrite Hm in Hcon. by rewrite Hcon.
      * lia.
      * apply (kept_same ls _ s); [done..|]. intros ??. simpl. by rewrite Hsel.
    + split; [done..| | |].
      * unfold counted. rewrite acked_snoc, rejected_snoc, Hl, app_nil_r. simpl.
        rewrite Hm in Hcon. rewrite Hcon, fmap_app, foldl_app, length_app, <-He. simpl. split; [lia|done].
      * unfold numbered. rewrite acked_snoc, Hl, app_nil_r. split; [|done]. simpl.
        intros ?? (i&?&?)%Hn. exists i. split; [lia|done].
      * apply (kept_same ls _ s); [done..|]. intros ??. simpl. by rewrite Hsel.
  - unfold attempt. replace (attempts s + 1 - 1) with (attempts s) by lia. rewrite Hp, <-Hk, <-Hv.
    assert (acked [LSet k v None] = [(k, v)]) as Hl by done.
    split; [done..| | |].
    + unfold counted. rewrite acked_snoc, rejected_snoc, Hl, length_app, app_nil_r. simpl.
      split; [lia|done].
    + unfold numbered. rewrite acked_snoc, Hl, fmap_app. simpl. split.
      * intros k' v' [(i&?&?)%Hn|[= -> ->]%list_elem_of_singleton]%elem_of_app;
          [exists i|exists (attempts s)]; (split; [lia|done]).
      * apply NoDup_app. split; [done|]. split; [|apply NoDup_singleton].
        intros k' Hk' ->%list_elem_of_singleton.
        apply list_elem_of_fmap in Hk' as ([k'' v']&Heq&(i&Hi&Hki&_)%Hn). simpl in Heq. subst.
        apply key_at_inj in Hki; lia.
    + unfold kept. rewrite since_reset_snoc, !acked_snoc, Hl. simpl. split_and!.
      * intros ???%Hs. set_solver.
      * intros ?? [= <- <-]. set_solver.
      * intros k' v' [Hin|[= -> ->]%list_elem_of_singleton]%elem_of_app; [|by left].
        destruct (Hr k' v' Hin) as [|]; [congruence|by right].
Qed.

(** A step of the control only. *)
Ltac silent :=
  eapply Inv_silent; [eassumption|reflexivity..| |];
  [unfold control_ok; cbn; first [assumption|by intuition (eauto; lia)|by destruct (at_ _); intuition (eauto; lia)]
  |eapply kept_same; [eapply inv_kept; eassumption|reflexivity|discriminate|reflexivity|intros ??; cbn; first [done|split; congruence]]].

Lemma Inv_add ls k v s :
  Inv ls s → at_ s = SpAdd k v →
  Inv (ls ++ [LAdd]) (set_attempts (attempts s) SpSelect (AddKVToStore k v s)).
Proof.
  intros HI Hpos. pose proof HI as [Hp Hm Hc _ [Hn _] (Hs&Hat&Hr)].
  unfold control_ok in Hc. rewrite Hpos in Hc.
  apply (Inv_silent ls _ s); try done. unfold kept.
  rewrite acked_silent, acked_snoc, app_nil_r by done. cbn. split_and!; [|done|].
  - intros k' v' [[<- <-]|[_ ?]]%lookup_insert_Some; [by apply Hat|by apply Hs].
  - intros k' v' Hin. right. destruct (Hr k' v' Hin) as [Heq|Hk'].
    + rewrite Hpos in Heq. injection Heq as -> ->. apply lookup_insert_eq.
    + destruct (decide (k = k')) as [<-|]; [|by rewrite lookup_insert_ne].
      rewrite lookup_insert_eq. f_equal.
      destruct (Hn _ _ (acked_since_reset _ _ Hin)) as (i&Hi&Hki&->), (Hn _ _ (Hat _ _ Hpos)) as (j&Hj&Hkj&->).
      rewrite Hki in Hkj. apply key_at_inj in Hkj; [by subst|lia..].
Qed.

Lemma Inv_reset ls s : Inv ls s → Inv (ls ++ [LResetStore]) (ResetStore s).
Proof.
  intros HI. pose proof HI as [Hp Hm Hc _ _ (_&Hat&_)].
  apply (Inv_silent ls _ s); try done. unfold kept.
  rewrite since_reset_snoc, acked_snoc, app_nil_r. cbn.
  split_and!; [done|done|]. by intros ?? ?%elem_of_nil.
Qed.

Lemma spammer_Inv_step ls l s s' : Inv ls s → step l s = Some (Running s') → Inv (ls ++ [l]) s'.
Proof.
  intros HI Hstep. pose proof (inv_control _ _ HI) as Hc. unfold control_ok in Hc.
  destruct l as [|key value err| | | | |].
  - destruct (at_ s) eqn:Hpos; simpl in Hstep; rewrite Hpos in Hstep; try done. simplify_eq.
    silent.
  - destruct (at_ s) eqn:Hpos; simpl in Hstep; rewrite Hpos in Hstep; try done.
    destruct (bool_decide_reflect (key = next_key s)) as [Hk|]; [|done].
    destruct (bool_decide_reflect (value = next_value s)) as [Hv|]; [|done].
    simplify_eq/=. by apply Inv_set.
  - destruct (at_ s) eqn:Hpos; simpl in Hstep; rewrite Hpos in Hstep; try done. simplify_eq.
    by apply Inv_add.
  - destruct (at_ s) eqn:Hpos; simpl in Hstep; rewrite Hpos in Hstep; try done.
    destruct (done_closed s); simplify_eq. silent.
  - simpl in Hstep. destruct (done_closed s) eqn:Hd; simplify_eq. silent.
  - simpl in Hstep. destruct (done_closed s && (wg s =? 0)); simplify_eq. silent.
  - simpl in Hstep. simplify_eq. by apply Inv_reset.
Qed.

Lemma Inv_run ls s : run ls (NewSpammer address pre) = Some s → Inv ls s.
Proof.
  revert s. induction ls as [|l ls IH] using rev_ind; intros s.
  - intros [= <-]. split; try done.
    + split; [|apply NoDup_nil_2]. by intros ?? ?%elem_of_nil.
    + split_and!; [done..|]. by intros ?? ?%elem_of_nil.
  - rewrite run_snoc. destruct (run ls _) as [s1|]; [|done]. simpl.
    destruct (step l s1) as [[s'|]|] eqn:Hstep; [|done..]. intros [= <-].
    by apply (spammer_Inv_step ls l s1); [apply IH|].
Qed.
End spammer.

(** ** [Check] *)

(** What an entry of the store is worth when reads are answered by [rd]. *)
Definition bad (rd : string → string * option error) (kv : string * string) : option error :=
  let '(k, v) := kv in
  match rd k with
  | (_, Some err) => Some err
  | (value, None) => if bool_decide (v = value) then None else Some (mismatch k v value)
  end.

Lemma bad_None rd k v : bad rd (k, v) = None ↔ rd k = (v, None).
Proof.
  unfold bad. destruct (rd k) as [value [err|]]; [split; congruence|].
  case_bool_decide; split; congruence.
Qed.

Definition add_all (e : ErrorSet) (errs : list error) : ErrorSet := foldl Add e (Plain <$> errs).

Lemma add_all_cons e err errs : add_all e (err :: errs) = add_all (Add e (Plain err)) errs.
Proof. done. Qed.

Lemma add_all_app e l k : add_all e (l ++ k) = add_all (add_all e l) k.
Proof. unfold add_all. by rewrite fmap_app, foldl_app. Qed.

Lemma add_all_permutation e l k : l ≡ₚ k → add_all e l = add_all e k.
Proof.
  intros Hp. revert e. induction Hp as [|x l k _ IH|x y l|l1 l2 l3 _ IH1 _ IH2]; intros e.
  - done.
  - rewrite !add_all_cons. apply IH.
  - rewrite !add_all_cons. f_equal. apply map_eq. intros i. cbn.
    rewrite !lookup_add_count. repeat case_bool_decide; subst; cbn; try done; congruence.
  - by rewrite IH1.
Qed.

Lemma total_add_all e l : total (add_all e l) = total e + Z.of_nat (length l).
Proof.
  revert e. induction l as [|x l IH]; intros e; [cbn; lia|].
  rewrite add_all_cons, IH, total_Add. cbn. lia.
Qed.

Lemma add_all_positive e l : counts_positive e → counts_positive (add_all e l).
Proof.
  revert e. induction l as [|x l IH]; intros e He; [done|].
  rewrite add_all_cons. apply IH. by apply Add_positive.
Qed.

Lemma add_all_empty l : add_all ∅ l = ∅ ↔ l = [].
Proof.
  rewrite <-total_zero by (by apply add_all_positive). rewrite total_add_all, total_empty.
  destruct l; simpl; split; [done..|lia|done].
Qed.

Lemma omap_nil {A B} (f : A → option B) l : omap f l = [] ↔ ∀ x, x ∈ l → f x = None.
Proof.
  split.
  - intros Hl x Hx. destruct (f x) as [y|] eqn:Hf; [|done].
    assert (y ∈ omap f l) as Hy by (apply list_elem_of_omap; eauto). rewrite Hl in Hy. set_solver.
  - induction l as [|x l IH]; intros H; [done|]. cbn. rewrite H by set_solver. apply IH. set_solver.
Qed.

Section check.
Context {X : Type} `{KV X} (Good : World X → Prop) (rd : string → string * option error).
Context (P : string → Prop).
Hypothesis Hread : ∀ k w, P k → Good w → ∃ w', kv_Get k w = (Val (rd k), w') ∧ Good w'.

Lemma run_check_loop order errs w :
  Forall (λ kv, P kv.1) order → Good w →
  ∃ w', check_loop order errs w = (Val (add_all errs (omap (bad rd) order)), w') ∧ Good w'.
Proof.
  intros HP. revert errs w. induction HP as [|[k v] order Hk _ IH]; intros errs w Hw; [by exists w|].
  destruct (Hread k w Hk Hw) as (w1&Hg&Hw1). cbn [check_loop]. step Hg. cbn [omap list_omap bad].
  destruct (rd k) as [value [err|]]; cbn -[Add]; [by apply IH|].
  case_bool_decide; cbn -[Add]; by apply IH.
Qed.
End check.

(** The whole of [Check] after an attempt. *)
Lemma run_Check {X} `{KV X} (Good : World X → Prop) rd order s w
    (Hread : ∀ k w, is_Some (store s !! k) → Good w → ∃ w', kv_Get k w = (Val (rd k), w') ∧ Good w') :
  order ≡ₚ map_to_list (store s) → Good w → keyWriteAttempts s ≠ 0 →
  let errs := add_all (errors s) (omap (bad rd) (map_to_list (store s))) in
  ∃ w', Check order s w =
      (Val (if bool_decide (errs = ∅) then None else Some (Errors errs), set_errors errs s), w') ∧ Good w'.
Proof.
  intros Horder Hw Hk errs.
  assert (Forall (λ kv, is_Some (store s !! kv.1)) order) as HP.
  { rewrite Horder. apply Forall_forall. intros [k v] Hkv%elem_of_map_to_list. by exists v. }
  destruct (run_check_loop Good rd _ Hread order (errors s) w HP Hw) as (w'&Hloop&Hw').
  assert (add_all (errors s) (omap (bad rd) order) = errs) as Heq
    by (apply add_all_permutation; by rewrite Horder).
  rewrite Heq in Hloop. exists w'. split; [|done].
  unfold Check. rewrite (proj2 (Z.eqb_neq _ _) Hk). step Hloop.
  assert ((0 <? Z.of_nat (size errs)) = negb (bool_decide (errs = ∅))) as ->; [|by case_bool_decide].
  case_bool_decide as Hemp; [rewrite Hemp, map_size_empty; done|].
  apply map_size_non_empty_iff in Hemp. apply Z.ltb_lt. lia.
Qed.

(** When it finds nothing. *)
Lemma no_errors rd (l : list error) (m : gmap string string) :
  add_all (add_all ∅ l) (omap (bad rd) (map_to_list m)) = ∅ ↔
  l = [] ∧ ∀ k v, m !! k = Some v → rd k = (v, None).
Proof.
  rewrite <-add_all_app, add_all_empty, app_nil, omap_nil. split; (intros [? Hb]; split; [done|]).
  - intros k v Hkv. apply bad_None, Hb. by apply elem_of_map_to_list.
  - intros [k v] Hkv%elem_of_map_to_list. by apply bad_None, Hb.
Qed.

(** ** Theorems *)

(** C34: in every run of the goroutine, [Stop] and [ResetStore] against any
    answers of the client, the attempts counted are the acknowledged and the
    rejected writes, refused connections apart; every rejected write and
    nothing else is an error; acknowledged writes have keys of their own; the
    store has acknowledged writes only, and all of those since the last reset
    but one that is just being added; [Stop] returns only when the goroutine is
    gone, and then [Check] sees all attempts. *)
Theorem kv_spammer_invariant address pre ls s :
  run ls (NewSpammer address pre) = Some s →
  let msg := "dial tcp " +:+ TrimPrefix address "http://" +:+ ": getsockopt: connection refused" in
  attempts s = Z.of_nat (length (acked ls)) + Z.of_nat (length (rejected msg ls)) ∧
  errors s = add_all ∅ (rejected msg ls) ∧
  total (errors s) = Z.of_nat (length (rejected msg ls)) ∧
  NoDup (acked ls).*1 ∧
  (∀ k v, store s !! k = Some v → (k, v) ∈ acked ls) ∧
  (∀ k v, (k, v) ∈ acked (since_reset ls) → at_ s = SpAdd k v ∨ store s !! k = Some v) ∧
  (is_Some (step LStopReturn s) →
     (at_ s = SpNone ∨ at_ s = SpReturned) ∧ keyWriteAttempts s = attempts s).
Proof.
  intros Hrun msg. destruct (Inv_run _ _ _ _ Hrun) as [_ _ Hc [Ha He] [_ Hd] (Hs&_&Hr)].
  fold (add_all ∅ (rejected (message address pre) ls)) in He.
  split_and!; try done.
  - rewrite He. rewrite total_add_all, total_empty. done.
  - intros [r Hstep]. simpl in Hstep. unfold control_ok in Hc.
    destruct (done_closed s) eqn:Hdone, (wg s =? 0) eqn:Hw; try done. apply Z.eqb_eq in Hw.
    destruct (at_ s); [split; [by left|]|lia|lia|split; [by right|]]; destruct Hc as (?&?&?); congruence.
Qed.

(** [Check] of a spammer that was run, when reads are answered by a fixed
    function: without an attempt it says so and reads nothing; otherwise it
    adds one error for each entry that is not read back, in whatever order the
    store is visited, and it finds nothing exactly if no write was rejected
    and every entry is read back. *)
Theorem kv_Check_spec {X} `{KV X} (Good : World X → Prop) (rd : string → string * option error)
    address pre ls s order w
    (Hread : ∀ k w, is_Some (store s !! k) → Good w → ∃ w', kv_Get k w = (Val (rd k), w') ∧ Good w')
    (Hrun : run ls (NewSpammer address pre) = Some s)
    (Horder : order ≡ₚ map_to_list (store s)) (Hw : Good w) :
  if keyWriteAttempts s =? 0 then Check order s w = (Val (Some (Plain NoKeysWritten), s), w)
  else
    let errs := add_all (errors s) (omap (bad rd) (map_to_list (store s))) in
    ∃ verdict w', Check order s w = (Val (verdict, set_errors errs s), w') ∧ Good w' ∧
      verdict = (if bool_decide (errs = ∅) then None else Some (Errors errs)) ∧
      total errs = Z.of_nat (length (rejected (message address pre) ls)) +
        Z.of_nat (length (omap (bad rd) (map_to_list (store s)))) ∧
      (verdict = None ↔ rejected (message address pre) ls = [] ∧
         ∀ k v, store s !! k = Some v → rd k = (v, None)).
Proof.
  destruct (inv_counted _ _ _ _ (Inv_run _ _ _ _ Hrun)) as [_ He].
  fold (add_all ∅ (rejected (message address pre) ls)) in He.
  destruct (keyWriteAttempts s =? 0) eqn:Hk; [unfold Check; by rewrite Hk|]. intros errs.
  apply Z.eqb_neq in Hk. destruct (run_Check Good rd order s w Hread Horder Hw Hk) as (w'&Hc&Hw').
  exists (if bool_decide (errs = ∅) then None else Some (Errors errs)), w'. split_and!; [done..| |].
  - unfold errs. rewrite He, !total_add_all, total_empty. lia.
  - unfold errs. rewrite He, <-no_errors.
    by match goal with |- _ ↔ ?P => destruct (bool_decide_reflect P) end.
Qed.

(** ** Witnesses *)

(** A client over a map. *)
Definition map_KV : KV (gmap string string) := {|
  kv_Address := "http://10.0.0.1:6769";
  kv_Set k v := m ← get_svc; _ ← put_svc (<[k := v]> m); mret None;
  kv_Get k := m ← get_svc; mret (match m !! k with
                                 | Some v => (v, None)
                                 | None => ("", Some (ErrorString "Key not found"))
                                 end)
|}.

(** A run with a write, a refused connection, a rejected and another write. *)
Definition example_run : list label :=
  let no := ErrorString "dial tcp 10.0.0.1:6769: getsockopt: connection refused" in
  [LSpam; LSet (key_at "p" 0) (value_at "p" 0) None; LAdd;
   LSet (key_at "p" 1) (value_at "p" 1) (Some no);
   LSet (key_at "p" 1) (value_at "p" 1) (Some (ErrorString "unexpected status: 500"));
   LStop; LSet (key_at "p" 2) (value_at "p" 2) None; LAdd; LDone; LStopReturn].

Lemma kv_spammer_invariant_witness :
  ∃ s, run example_run (NewSpammer "http://10.0.0.1:6769" "p") = Some s ∧
    attempts s = 3 ∧ total (errors s) = 1 ∧ keyWriteAttempts s = 3.
Proof.
  destruct (run example_run (NewSpammer "http://10.0.0.1:6769" "p")) as [s|] eqn:Hrun;
    [|by vm_compute in Hrun].
  exists s. destruct (kv_spammer_invariant _ _ _ _ Hrun) as (Ha&_&Ht&_).
  split_and!; [done|rewrite Ha; by vm_compute|rewrite Ht; by vm_compute|].
  assert (keyWriteAttempts <$> run example_run (NewSpammer "http://10.0.0.1:6769" "p") = Some 3) as Hk
    by (by vm_compute).
  rewrite Hrun in Hk. by injection Hk.
Defined.

(** The second key was lost; the rejected write counts too. *)
Lemma kv_Check_spec_witness :
  ∃ s errs w', run example_run (NewSpammer "http://10.0.0.1:6769" "p") = Some s ∧
    Check (H := map_KV) (map_to_list (store s)) s
      (mkWorld ∅ ∅ permissive_kernel {[key_at "p" 0 := value_at "p" 0]} []) =
    (Val (Some (Errors errs), set_errors errs s), w') ∧ total errs = 2.
Proof.
  set (w := mkWorld ∅ ∅ permissive_kernel {[key_at "p" 0 := value_at "p" 0]} [] : World (gmap string string)).
  set (rd := λ k, match svc w !! k with Some v => (v, None) | None => ("", Some (ErrorString "Key not found")) end).
  destruct (run example_run (NewSpammer "http://10.0.0.1:6769" "p")) as [s|] eqn:Hrun;
    [|by vm_compute in Hrun].
  pose proof (kv_Check_spec (H := map_KV) (λ w0, svc w0 = svc w) rd _ _ _ s (map_to_list (store s)) w
    ltac:(intros k w0 _ Hw0; exists w0; split; [|done]; unfold kv_Get, map_KV, mbind, M_bind, get_svc; rewrite Hw0; reflexivity)
    Hrun (reflexivity _) (reflexivity _)) as Hc.
  assert ((λ s, (keyWriteAttempts s,
      length (omap (bad rd) (map_to_list (store s))))) <$>
    run example_run (NewSpammer "http://10.0.0.1:6769" "p") = Some (3, 1%nat)) as Hk by (by vm_compute).
  rewrite Hrun in Hk. injection Hk as Hk Hb. rewrite Hk in Hc. simpl in Hc.
  destruct Hc as (verdict&w'&Hc&_&Hv&Ht&_). rewrite Hb in Ht.
  exists s, (add_all (errors s) (omap (bad rd) (map_to_list (store s)))), w'.
  split; [done|]. split; [|rewrite Ht; by vm_compute].
  rewrite Hc, Hv, bool_decide_false; [done|]. intros He. rewrite He, total_empty in Ht.
  by vm_compute in Ht.
Defined.
