(* ===== verification/KvStack.v ===== *)
(** * The spammer, its client and the test consumer together

    The client of [KvClient.v] talks over the network of [GoServe.v] to the test
    consumer of [TestConsumer.v], whose etcd keeps its promises ([EtcdStore]);
    the spammer of [KvSpammer.v] runs on that client. *)
From S2P Require Import Prelude GoStrings GoPath Machine GoUrl UrlFacts GoJson GoHttp GoServe.
From S2P Require Import ErrorSet TestConsumer TestConsumerSpec KvSpammer KvSpammerSpec.
From S2P Require KvClient.

Open Scope Z_scope.

Section stack.
Context {E : Type} (contents : E → gmap string string).
Context (reply : E → string → option EtcdResponse * option error).
Notation X := (bool * E)%type.
Context (lib : GoEtcdLib X) `{!EtcdStore contents reply lib}.
Context (LoadX509KeyPair : string → string → option error)
  (http_Client : option Leader.tlsConfig → Getter X).
Context (flags : Main.Flags) (url host : string).
Implicit Types (w : World X) (e : E).

(** ** The wiring *)

Definition consumer : Server X :=
  mkServer host fst
    (Main.mux lib LoadX509KeyPair http_Client (Main.kv_handler flags) (Main.leader_handler url flags)).

Definition client : KvClient.Client := KvClient.NewClient ("http://" +:+ host).

Definition stack_Set (k v : string) : M X (option error) :=
  KvClient.Set_ (H0 := network_Put consumer) client k v.
Definition stack_Get (k : string) : M X (string * option error) :=
  KvClient.Get (H := network_Get consumer) client k.

Definition stack_KV : KV X := {|
  kv_Address := KvClient.Address client;
  kv_Set := stack_Set;
  kv_Get := stack_Get
|}.

(** ** Requests *)

Hypothesis Hhost : all_chars plain_host host = true.
Hypothesis Hport : has_char ":" host = true.

Lemma host_not_empty : host ≠ "".
Proof. intros Hn. by rewrite Hn in Hport. Qed.

Lemma kv_url k : KvClient.testConsumerURL client +:+ "/kv/" +:+ k = plain_url host ("kv/" +:+ k) "".
Proof.
  unfold plain_url. change (query_suffix "") with "". rewrite app_nil_s.
  cbn [KvClient.testConsumerURL client]. by rewrite <-app_assoc_s.
Qed.

Lemma kv_path k : plain_key k = true → all_chars plain_path ("kv/" +:+ k) = true.
Proof. intros (Hp&_)%plain_key_spec. rewrite (all_chars_app _ "kv/"), (plain_host_path k) by done. reflexivity. Qed.

(** A request of a plain key reaches the key-value handler. *)
Lemma deliver_kv method k v w w' rw :
  plain_key k = true → is_up w = true →
  KV.ServeHTTP lib (Main.kv_handler flags) fresh_response (kv_request method k v) w = (Val rw, w') →
  deliver consumer method (KvClient.testConsumerURL client +:+ "/kv/" +:+ k) v w =
  (Val (inr (mkResponse (finished rw).1 (finished rw).2 None)), w').
Proof.
  intros Hk Hup Hrun. rewrite kv_url.
  apply (deliver_up consumer Hhost host_not_empty method ("kv/" +:+ k) "" v w w' rw);
    [by apply kv_path|done|done|].
  cbn [consumer srv_handler]. unfold Main.mux, ServeMux. cbn [req_URL served_URL Path fmap list_fmap fst].
  rewrite mux_kv by done. exact Hrun.
Qed.

(** What a read of [k] in the state [e] of etcd gives. *)
Definition stack_read e (k : string) : string * option error :=
  let rw := read_answer reply e k in
  if bool_decide ((finished rw).1 = StatusOK) then ((finished rw).2, None)
  else ("", Some (KvClient.unexpected (mkResponse (finished rw).1 (finished rw).2 None) (finished rw).2)).

Lemma run_stack_Get k w :
  plain_key k = true → is_up w = true →
  ∃ w', stack_Get k w = (Val (stack_read (svc w).2 k), w') ∧ svc w' = svc w.
Proof.
  intros Hk Hup.
  destruct (KV_get_ok contents reply lib (Main.kv_handler flags) k w Hk) as (w1&Hserve&Hs).
  exists w1. split; [|done]. unfold stack_Get, KvClient.Get, KvClient.get_body.
  step (deliver_kv "GET" k "" w w1 _ Hk Hup Hserve). unfold stack_read.
  cbn [ReadAll StatusCode Body BodyErr]. by case_bool_decide.
Qed.

Lemma run_stack_Set k v w :
  plain_key k = true → is_up w = true →
  ∃ w', stack_Set k v w = (Val None, w') ∧ is_up w' = true ∧
    held contents w' = <[k := v]> (held contents w).
Proof.
  intros Hk Hup.
  destruct (KV_put_ok contents reply lib (Main.kv_handler flags) k v w Hk) as (w1&Hserve&Hu&Hh).
  exists w1. split; [|split; [congruence|done]]. unfold stack_Set, KvClient.Set_.
  step (deliver_kv "PUT" k v w w1 _ Hk Hup Hserve). done.
Qed.

(** A consumer that is down is recognised by the spammer. *)
Lemma run_stack_Set_down k v w :
  plain_key k = true → is_up w = false →
  ∃ err, stack_Set k v w = (Val (Some err), w) ∧
    ∀ pre, Contains (Error err) (message (KvClient.Address client) pre) = true.
Proof.
  intros Hk Hup. unfold stack_Set, KvClient.Set_.
  pose proof (deliver_down consumer Hhost host_not_empty "PUT" ("kv/" +:+ k) "" v w
    (kv_path k Hk) eq_refl Hup) as Hd.
  unfold http_Put, network_Put. rewrite kv_url. step Hd. eexists. split; [reflexivity|].
  intros pre. cbn [Error]. unfold message. cbn [testConsumerConnectionErrorMessage NewSpammer KvClient.Address client KvClient.testConsumerURL].
  rewrite TrimPrefix_app. unfold refused, dial_address. cbn [consumer srv_host]. rewrite Hport.
  set (msg := "dial tcp " +:+ host +:+ ": getsockopt: connection refused").
  rewrite !(app_assoc_s _ _ msg). rewrite <-(app_nil_s msg) at 1. apply Contains_app.
Qed.

Lemma stack_read_ok e k v :
  reply_ok contents reply → plain_key k = true → stack_read e k = (v, None) ↔ contents e !! k = Some v.
Proof.
  intros Hr Hk. pose proof (read_ok contents reply e k Hr Hk) as Hread.
  unfold stack_read, read_answer. destruct (contents e !! k) as [v'|].
  - rewrite Hread. cbn [finished rw_status rw_body default fst snd].
    rewrite bool_decide_true by done. split; congruence.
  - destruct Hread as (err&->&Hc). rewrite Hc. cbn [finished rw_status rw_body default fst snd].
    rewrite bool_decide_false by done. split; congruence.
Qed.

(** ** Sequences of reads and writes *)

Inductive op := OGet (k : string) | OSet (k v : string).

Definition op_key (o : op) : string := match o with OGet k | OSet k _ => k end.

(** What the caller sees: the value read or written, unless there was an error. *)
Fixpoint run_ops (ops : list op) : M X (list (option string)) :=
  match ops with
  | [] => mret []
  | OGet k :: ops =>
      '(value, err) ← stack_Get k;
      rest ← run_ops ops;
      mret (match err with None => Some value | Some _ => None end :: rest)
  | OSet k v :: ops =>
      err ← stack_Set k v;
      rest ← run_ops ops;
      mret (match err with None => Some v | Some _ => None end :: rest)
  end.

(** The same on a map. *)
Fixpoint map_ops (ops : list op) (m : gmap string string) : list (option string) * gmap string string :=
  match ops with
  | [] => ([], m)
  | OGet k :: ops => let '(rest, m') := map_ops ops m in (m !! k :: rest, m')
  | OSet k v :: ops => let '(rest, m') := map_ops ops (<[k := v]> m) in (Some v :: rest, m')
  end.

Lemma run_ops_map ops w :
  Forall (λ o, plain_key (op_key o) = true) ops → is_up w = true →
  ∃ w', run_ops ops w = (Val (map_ops ops (held contents w)).1, w') ∧ is_up w' = true ∧
    held contents w' = (map_ops ops (held contents w)).2.
Proof.
  intros Hops. revert w. induction Hops as [|o ops Hk _ IH]; intros w Hup; [by exists w|].
  destruct o as [k|k v]; cbn [op_key] in Hk; cbn [run_ops map_ops].
  - destruct (run_stack_Get k w Hk Hup) as (w1&Hget&Hs). step Hget.
    assert (is_up w1 = true ∧ held contents w1 = held contents w) as [Hup1 Hh1]
      by (unfold is_up, held in *; by rewrite Hs).
    destruct (IH w1 Hup1) as (w2&Hrun&Hup2&Hh2). rewrite Hh1 in Hrun, Hh2.
    destruct (stack_read (svc w).2 k) as [value err] eqn:Hread. step Hrun.
    destruct (map_ops ops (held contents w)) as [rest m']. exists w2. split; [|done].
    assert (match err with None => Some value | Some _ => None end = held contents w !! k) as ->; [|done].
    pose proof (stack_read_ok (svc w).2 k) as Hok. rewrite Hread in Hok. unfold held.
    destruct err as [err|].
    + destruct (contents (svc w).2 !! k) as [v|] eqn:Hc; [|done].
      destruct (Hok v (@store_reply E contents reply lib _) Hk) as [_ Hv]. by discriminate (Hv eq_refl).
    + symmetry. by apply (Hok value (@store_reply E contents reply lib _) Hk).
  - destruct (run_stack_Set k v w Hk Hup) as (w1&Hset&Hup1&Hh1). step Hset.
    destruct (IH w1 Hup1) as (w2&Hrun&Hup2&Hh2). rewrite Hh1 in Hrun, Hh2. step Hrun.
    destruct (map_ops ops (<[k:=v]> (held contents w))) as [rest m']. by exists w2.
Qed.

(** ** A campaign *)

(** The test consumer comes and goes between the rounds. *)
Definition set_up (up : bool) : M X unit := x ← get_svc; put_svc (up, x.2).

Fixpoint campaign (ups : list bool) (s : Spammer) : M X Spammer :=
  match ups with
  | [] => mret s
  | up :: ups => _ ← set_up up; s ← spam_round (H := stack_KV) s; campaign ups s
  end.

(** The spammer when its goroutine has started, and when [Stop] has returned. *)
Definition spamming (pre : string) : Spammer :=
  set_control false 1 0 SpSelect (NewSpammer (KvClient.Address client) pre).
Definition stopped (s : Spammer) : Spammer := set_control true 0 (attempts s) SpReturned s.

(** The keys written so far. *)
Fixpoint written (pre : string) (n : nat) : gmap string string :=
  match n with
  | O => ∅
  | S n => <[key_at pre (Z.of_nat n) := value_at pre (Z.of_nat n)]> (written pre n)
  end.

(** The state of the spammer after [n] acknowledged writes and no other error. *)
Definition spammed (pre : string) (n : nat) (s : Spammer) : Prop :=
  s = set_attempts (Z.of_nat n) SpSelect (set_store (written pre n) (spamming pre)).

Lemma spammed_0 pre : spammed pre 0 (spamming pre).
Proof. done. Qed.

Lemma plain_key_at pre n :
  all_chars plain_host pre = true → plain_key (key_at pre (Z.of_nat n)) = true.
Proof.
  intros Hp. unfold plain_key, key_at. rewrite !all_chars_app, Hp.
  assert (all_chars plain_host (Sprintf_d (Z.of_nat n)) = true) as ->.
  { pose proof (Sprintf_d_digits (Z.of_nat n) ltac:(lia)) as Hd.
    induction (Sprintf_d (Z.of_nat n)) as [|c s IH]; [done|]. simpl in *.
    apply andb_true_iff in Hd as [Hc Hd]. rewrite IH by done.
    assert (plain_host c = true) as ->; [|done].
    destruct c as [[] [] [] [] [] [] [] []]; done. }
  assert (∀ a b : string, (3 < String.length b)%nat → negb (bool_decide (a +:+ b = "")) = true ∧
    negb (bool_decide (a +:+ b = ".")) = true ∧ negb (bool_decide (a +:+ b = "..")) = true) as Hne.
  { intros a b Hb. pose proof (length_app_s a b) as Hl.
    rewrite !bool_decide_false; [done|..]; intros He; rewrite He in Hl; simpl in Hl; lia. }
  destruct (Hne pre ("-some-key-" +:+ Sprintf_d (Z.of_nat n))) as (->&->&->); [|done].
  rewrite length_app_s. simpl. lia.
Qed.

Lemma run_set_up up w :
  ∃ w', set_up up w = (Val tt, w') ∧ is_up w' = up ∧ held contents w' = held contents w.
Proof. by eexists. Qed.

(** One round of a spammer that has had no error. *)
Lemma run_spam_round pre n s up w :
  all_chars plain_host pre = true → spammed pre n s → is_up w = up →
  ∃ s' w', spam_round (H := stack_KV) s w = (Val s', w') ∧
    spammed pre (if up then S n else n) s' ∧
    held contents w' =
      (if up then <[key_at pre (Z.of_nat n) := value_at pre (Z.of_nat n)]> (held contents w)
       else held contents w).
Proof.
  intros Hp -> Hup. pose proof (plain_key_at pre n Hp) as Hk. unfold spam_round.
  cbn [kv_Set stack_KV]. unfold next_key, next_value.
  cbn [prefix attempts set_attempts set_store spamming set_control NewSpammer].
  destruct up.
  - destruct (run_stack_Set _ (value_at pre (Z.of_nat n)) w Hk Hup) as (w1&Hset&_&Hh). step Hset.
    eexists _, w1. split; [reflexivity|]. split; [|exact Hh]. unfold spammed, attempt.
    cbn [at_ set_attempts attempts prefix set_store spamming set_control NewSpammer AddKVToStore store
      testConsumerConnectionErrorMessage done_closed wg errors keyWriteAttempts].
    replace (Z.of_nat n + 1 - 1) with (Z.of_nat n) by lia.
    replace (Z.of_nat n + 1) with (Z.of_nat (S n)) by lia. done.
  - destruct (run_stack_Set_down _ (value_at pre (Z.of_nat n)) w Hk Hup) as (err&Hset&Hc). step Hset.
    eexists _, w. split; [reflexivity|]. split; [|done]. unfold spammed, attempt.
    cbn [testConsumerConnectionErrorMessage set_attempts set_store spamming set_control].
    specialize (Hc pre). unfold message in Hc. rewrite Hc.
    cbn [at_ set_attempts attempts prefix set_store spamming set_control NewSpammer store
      testConsumerConnectionErrorMessage done_closed wg errors keyWriteAttempts].
    by replace (Z.of_nat n + 1 - 1) with (Z.of_nat n) by lia.
Qed.

Definition rounds (ups : list bool) : nat := length (filter (λ up, up = true) ups).

Lemma run_campaign pre ups n s m w :
  all_chars plain_host pre = true → spammed pre n s → held contents w = written pre n ∪ m →
  ∃ s' w', campaign ups s w = (Val s', w') ∧ spammed pre (n + rounds ups) s' ∧
    held contents w' = written pre (n + rounds ups) ∪ m.
Proof.
  intros Hp. revert n s w. induction ups as [|up ups IH]; intros n s w Hs Hh.
  { exists s, w. unfold rounds. cbn. by rewrite Nat.add_0_r. }
  cbn [campaign]. destruct (run_set_up up w) as (w1&Hset&Hup&Hh1). step Hset.
  destruct (run_spam_round pre n s up w1 Hp Hs Hup) as (s2&w2&Hround&Hs2&Hh2). step Hround.
  destruct (IH (if up then S n else n) s2 w2 Hs2) as (s3&w3&Hrun&Hs3&Hh3).
  { rewrite Hh2, Hh1, Hh. destruct up; [|done]. cbn [written]. by rewrite insert_union_l. }
  exists s3, w3. unfold rounds in *. destruct up; cbn [filter list_filter] in *.
  - rewrite decide_True by done. cbn [length]. by rewrite <-Nat.add_succ_comm.
  - rewrite decide_False by done. done.
Qed.

(** *** Reading back *)

(** The numbers below [n] whose key is not there with its value. *)
Definition lost (pre : string) (n : nat) (m : gmap string string) : list nat :=
  filter (λ i, m !! key_at pre (Z.of_nat i) ≠ Some (value_at pre (Z.of_nat i))) (seq 0 n).

Lemma written_Some pre n k v :
  written pre n !! k = Some v →
  ∃ i, (i < n)%nat ∧ k = key_at pre (Z.of_nat i) ∧ v = value_at pre (Z.of_nat i).
Proof.
  induction n as [|n IH]; [done|]. cbn [written].
  intros [[<- <-]|[_ (i&?&?)%IH]]%lookup_insert_Some; [exists n|exists i]; (split; [lia|done]).
Qed.

Lemma written_new pre n : written pre n !! key_at pre (Z.of_nat n) = None.
Proof.
  destruct (written pre n !! _) as [v|] eqn:Hk; [|done]. exfalso.
  apply written_Some in Hk as (i&Hi&Hk&_). apply key_at_inj in Hk; lia.
Qed.

(** What a key that is not there with its value is reported as: it is named,
    with both values, if etcd holds another value for it; otherwise the text is
    that of etcd's answer for it, as the test consumer passes it on. *)
Definition lost_text (pre : string) e (i : nat) : string :=
  let k := key_at pre (Z.of_nat i) in
  let v := value_at pre (Z.of_nat i) in
  match contents e !! k with
  | Some v' =>
      "value for key " +:+ Quote k +:+ " does not match: expected " +:+ Quote v +:+ ", got " +:+ Quote v'
  | None =>
      "unexpected status: 404 Not Found " +:+ default "" (Error <$> (reply e k).2) +:+ String "010" ""
  end.

Lemma stack_read_missing e k :
  reply_ok contents reply → plain_key k = true → contents e !! k = None →
  stack_read e k = ("", Some (ErrorString ("unexpected status: 404 Not Found " +:+
    default "" (Error <$> (reply e k).2) +:+ String "010" ""))).
Proof.
  intros Hr Hk Hc. pose proof (Hr e k Hk) as Herr. rewrite Hc in Herr. destruct Herr as (err&He&Hnf).
  unfold stack_read, read_answer, read. destruct (reply e k) as [r oerr]. cbn [snd] in He. subst oerr.
  rewrite Hnf. cbn [finished rw_status rw_body default fst snd]. by rewrite bool_decide_false by done.
Qed.

Lemma bad_lost e pre n :
  reply_ok contents reply → all_chars plain_host pre = true →
  Error <$> omap (bad (stack_read e)) (map_to_list (written pre n)) ≡ₚ
  lost_text pre e <$> lost pre n (contents e).
Proof.
  intros Hr Hp. induction n as [|n IH]; [done|]. unfold lost in *.
  rewrite seq_S, filter_app, fmap_app, <-IH. cbn [written]. clear IH.
  rewrite (map_to_list_insert _ _ _ (written_new pre n)). cbn [omap list_omap].
  rewrite Nat.add_0_l. cbn [filter list_filter].
  pose proof (plain_key_at pre n Hp) as Hk. set (k := key_at pre (Z.of_nat n)) in *.
  set (v := value_at pre (Z.of_nat n)). destruct (decide (contents e !! k = Some v)) as [Hin|Hout].
  - assert (bad (stack_read e) (k, v) = None) as -> by (by apply bad_None, stack_read_ok).
    rewrite decide_False by (by intros []). cbn. by rewrite app_nil_r.
  - rewrite decide_True by done.
    assert (∃ err, bad (stack_read e) (k, v) = Some err ∧ Error err = lost_text pre e n) as (err&->&Herr).
    { unfold bad, lost_text. fold k v. destruct (contents e !! k) as [v'|] eqn:Hc.
      - apply (stack_read_ok e k v' Hr Hk) in Hc as ->.
        rewrite bool_decide_false by congruence. by eexists.
      - rewrite (stack_read_missing e k Hr Hk Hc). by eexists. }
    cbn [fmap list_fmap]. rewrite Herr. apply Permutation_cons_append.
Qed.

Lemma lost_nil pre n m :
  lost pre n m = [] ↔ ∀ i, (i < n)%nat → m !! key_at pre (Z.of_nat i) = Some (value_at pre (Z.of_nat i)).
Proof.
  unfold lost. split.
  - intros Hl i Hi. destruct (decide (m !! key_at pre (Z.of_nat i) = Some (value_at pre (Z.of_nat i))))
      as [|Hne]; [done|]. exfalso.
    assert (i ∈ filter (λ i, m !! key_at pre (Z.of_nat i) ≠ Some (value_at pre (Z.of_nat i))) (seq 0 n)) as Hin
      by (apply list_elem_of_filter; split; [done|]; apply elem_of_seq; lia).
    rewrite Hl in Hin. by apply elem_of_nil in Hin.
  - intros H. destruct (filter _ _) as [|i l] eqn:Hf; [done|]. exfalso.
    assert (i ∈ i :: l) as Hi by apply list_elem_of_here. rewrite <-Hf in Hi.
    apply list_elem_of_filter in Hi as [Hne Hi%elem_of_seq]. apply Hne, H. lia.
Qed.

Lemma run_stack_Check pre n s order w :
  all_chars plain_host pre = true → spammed pre n s → n ≠ O → is_up w = true →
  order ≡ₚ map_to_list (store s) →
  ∃ errs w', Check (H := stack_KV) order (stopped s) w =
      (Val (if bool_decide (errs = ∅) then None else Some (Errors errs), set_errors errs (stopped s)), w') ∧
    tally (lost_text pre (svc w).2 <$> lost pre n (held contents w)) errs.
Proof.
  intros Hp Hs Hn Hup Horder. unfold spammed in Hs. subst s.
  set (s0 := set_attempts (Z.of_nat n) SpSelect (set_store (written pre n) (spamming pre))) in *.
  destruct (run_Check (H := stack_KV) (λ w0, svc w0 = svc w) (stack_read (svc w).2) order (stopped s0) w)
    as (w'&Hc&_); [| |done| |].
  - intros k w0 [v (i&_&->&_)%written_Some] Hw0. cbn [kv_Get stack_KV].
    destruct (run_stack_Get (key_at pre (Z.of_nat i)) w0) as (w1&Hget&Hs1);
      [by apply plain_key_at|unfold is_up in *; by rewrite Hw0|].
    exists w1. rewrite Hget, Hw0. split; [done|congruence].
  - exact Horder.
  - cbn. lia.
  - set (errs := add_all _ _) in Hc. exists errs, w'. split; [exact Hc|].
    eapply tally_permutation; [apply (bad_lost (svc w).2 pre n (@store_reply E contents reply lib _) Hp)|].
    unfold errs, add_all. cbn [errors stopped set_control s0 set_attempts set_store spamming NewSpammer].
    rewrite foldl_fmap. apply (tally_foldl (λ x, x)).
Qed.

(** ** Theorems *)

(** C32: any sequence of reads and writes of plain keys through the client, HTTP,
    the mux, the handler and the wrapper of go-etcd returns what a map returns,
    and etcd ends up holding that map. *)
Theorem stack_refines_map ops w
    (Hops : Forall (λ o, plain_key (op_key o) = true) ops) (Hup : is_up w = true) :
  ∃ w', run_ops ops w = (Val (map_ops ops (held contents w)).1, w') ∧
    held contents w' = (map_ops ops (held contents w)).2.
Proof. destruct (run_ops_map ops w Hops Hup) as (w'&?&_&?). by exists w'. Qed.

(** C33: while the test consumer comes and goes, the spammer writes one key in
    every round in which it is up and counts nothing in the others; without an
    error, etcd holds these keys.  Whatever etcd holds when [Check] runs, it
    reports exactly the keys that are no longer there with their values, once
    each: a key that has another value by its name and both values, a key that
    is gone by etcd's answer for it; and nothing if and only if there is none. *)
Theorem campaign_checked pre ups w (Hpre : all_chars plain_host pre = true) :
  let n := rounds ups in
  ∃ s w', campaign ups (spamming pre) w = (Val s, w') ∧
    attempts s = Z.of_nat n ∧ errors s = ∅ ∧ store s = written pre n ∧
    held contents w' = written pre n ∪ held contents w ∧
    ∀ order w2, is_up w2 = true → order ≡ₚ map_to_list (store s) →
      if bool_decide (n = O) then
        Check (H := stack_KV) order (stopped s) w2 = (Val (Some (Plain NoKeysWritten), stopped s), w2)
      else
        ∃ errs w3, Check (H := stack_KV) order (stopped s) w2 =
            (Val (if bool_decide (errs = ∅) then None else Some (Errors errs),
                  set_errors errs (stopped s)), w3) ∧
          tally (lost_text pre (svc w2).2 <$> lost pre n (held contents w2)) errs ∧
          (errs = ∅ ↔ ∀ i, (i < n)%nat →
             held contents w2 !! key_at pre (Z.of_nat i) = Some (value_at pre (Z.of_nat i))).
Proof.
  intros n. destruct (run_campaign pre ups 0 (spamming pre) (held contents w) w Hpre (spammed_0 pre))
    as (s&w'&Hrun&Hs&Hh); [symmetry; apply (left_id_L ∅ (∪))|].
  change (0 + rounds ups)%nat with n in Hs, Hh. exists s, w'.
  split; [done|]. pose proof Hs as Hs'. unfold spammed in Hs'.
  split; [by rewrite Hs'|]. split; [by rewrite Hs'|]. split; [by rewrite Hs'|]. split; [done|].
  intros order w2 Hup Horder. case_bool_decide as Hn.
  - unfold Check. assert (keyWriteAttempts (stopped s) = 0) as ->; [|done].
    cbn. rewrite Hs'. cbn. by rewrite Hn.
  - destruct (run_stack_Check pre n s order w2 Hpre Hs Hn Hup Horder) as (errs&w3&Hc&Ht).
    exists errs, w3. split; [done|]. split; [done|].
    rewrite (tally_empty _ _ Ht), <-lost_nil. by destruct (lost pre n _).
Qed.
End stack.

(** ** An etcd in memory *)

Module MemEtcd.
Definition E : Type := gmap string string.
Definition contents (e : E) : gmap string string := e.

Definition reply (e : E) (k : string) : option EtcdResponse * option error :=
  match contents e !! k with
  | Some v => (Some (mkEtcdResponse (Some (mkNode ("/" +:+ k) v 1))), None)
  | None => (None, Some (ErrorString ("100: Key not found (/" +:+ k +:+ ") [1]")))
  end.

Definition goclient : GoEtcd (bool * E) := mkGoEtcd
  (λ k _ _, x ← get_svc; mret (reply x.2 k))
  (λ k v _, x ← get_svc; _ ← put_svc (x.1, <[k := v]> x.2);
     mret (Some (mkEtcdResponse (Some (mkNode ("/" +:+ k) v 1))), None))
  (λ _, mret None)
  (mret tt).

Definition lib : GoEtcdLib (bool * E) :=
  mkGoEtcdLib (λ _ _ _ _, mret (inr goclient)) (λ _, mret goclient) "STRONG".

#[global] Instance store : EtcdStore contents reply lib.
Proof.
  assert (client_ok contents reply goclient) as Hok.
  { split.
    - intros level w. by exists None, w.
    - intros w. by exists w.
    - intros k w _. by exists w.
    - intros k v ttl w _. eexists _, _. split; [reflexivity|]. split_and!; reflexivity. }
  split.
  - intros e k _. unfold reply. destruct (contents e !! k) as [v|]; [split; reflexivity|].
    eexists. split; [reflexivity|].
    exact (Contains_app "100: " "Key not found" (" (/" +:+ k +:+ ") [1]")).
  - intros urls w. exists goclient, w. done.
  - intros urls cert key ca w. exists goclient, w. done.
Qed.
End MemEtcd.

Definition no_http : Getter (bool * MemEtcd.E) := λ _, mret (inl (ErrorString "unreachable")).
Definition example_flags : Main.Flags := Main.mkFlags "6769" ["http://10.0.0.2:4001"] "" "" "".

Definition example_world (up : bool) : World (bool * MemEtcd.E) :=
  mkWorld ∅ ∅ permissive_kernel (up, ∅) [].

Lemma stack_refines_map_witness :
  ∃ w', run_ops MemEtcd.lib (λ _ _, None) (λ _, no_http) example_flags "http://10.0.0.2:4001"
      "10.0.0.1:6769" [OSet "a-1" "x/y z"; OGet "a-1"; OGet "b"] (example_world true) =
    (Val [Some "x/y z"; Some "x/y z"; None], w').
Proof.
  destruct (stack_refines_map MemEtcd.contents MemEtcd.reply MemEtcd.lib (λ _ _, None) (λ _, no_http)
    example_flags "http://10.0.0.2:4001" "10.0.0.1:6769" ltac:(vm_compute; reflexivity)
    ltac:(vm_compute; reflexivity) [OSet "a-1" "x/y z"; OGet "a-1"; OGet "b"] (example_world true)
    ltac:(repeat (apply Forall_cons; split; [vm_compute; reflexivity|]); apply Forall_nil_2)
    ltac:(reflexivity)) as (w'&Hrun&_).
  exists w'. exact Hrun.
Defined.

(** Two rounds with the consumer up and one with it down; later etcd has lost
    the first key and holds another value for the second. *)
Lemma campaign_checked_witness :
  ∃ s w' errs w3,
    campaign MemEtcd.lib (λ _ _, None) (λ _, no_http) example_flags "http://10.0.0.2:4001"
      "10.0.0.1:6769" [true; false; true] (spamming "10.0.0.1:6769" "p") (example_world true) =
      (Val s, w') ∧ attempts s = 2 ∧
    Check (H := stack_KV MemEtcd.lib (λ _ _, None) (λ _, no_http) example_flags
        "http://10.0.0.2:4001" "10.0.0.1:6769") (map_to_list (store s)) (stopped s)
      (mkWorld ∅ ∅ permissive_kernel (true, {["p-some-key-1" := "x"]}) []) =
    (Val (Some (Errors errs), set_errors errs (stopped s)), w3) ∧
    tally ["unexpected status: 404 Not Found 100: Key not found (/p-some-key-0) [1]" +:+ String "010" "";
           "value for key " +:+ Quote "p-some-key-1" +:+ " does not match: expected " +:+
             Quote "p-some-value-1" +:+ ", got " +:+ Quote "x"] errs.
Proof.
  destruct (campaign_checked MemEtcd.contents MemEtcd.reply MemEtcd.lib (λ _ _, None) (λ _, no_http)
    example_flags "http://10.0.0.2:4001" "10.0.0.1:6769" ltac:(vm_compute; reflexivity)
    ltac:(vm_compute; reflexivity) "p" [true; false; true] (example_world true)
    ltac:(vm_compute; reflexivity)) as (s&w'&Hrun&Ha&_&_&_&Hcheck).
  destruct (Hcheck (map_to_list (store s))
    (mkWorld ∅ ∅ permissive_kernel (true, {["p-some-key-1" := "x"]}) [])
    (reflexivity _) (reflexivity _)) as (errs&w3&Hc&Ht&_).
  exists s, w', errs, w3. split; [exact Hrun|]. split; [rewrite Ha; reflexivity|].
  split; [|vm_compute in Ht |- *; exact Ht].
  rewrite bool_decide_false in Hc; [exact Hc|]. rewrite (tally_empty _ _ Ht).
  intros He. vm_compute in He. discriminate He.
Defined.

(** ** Asking for the leader *)

Section leader.
Context (f : nat → string → error + Response) (LoadX509KeyPair : string → string → option error).
Notation X := HttpScript.state.
Context (lib : GoEtcdLib X) (kvHandler : KV.KVHandler) (h : Leader.LeaderHandler) (host : string).
Implicit Types w : World X.

(** The same server, whose requests to etcd are answered by [f]. *)
Definition leader_consumer : Server X :=
  mkServer host (λ _, true)
    (Main.mux lib LoadX509KeyPair (λ _, HttpScript.client f) kvHandler h).

Definition leader_query (node : option string) : string :=
  match node with Some url => "node=" +:+ url | None => "" end.

(** [Leader], or [LeaderByNodeURL] of a node. *)
Definition ask_leader (node : option string) : M X (string * option error) :=
  match node with
  | Some url => KvClient.LeaderByNodeURL (H := network_Get leader_consumer) (client host) url
  | None => KvClient.Leader (H := network_Get leader_consumer) (client host)
  end.

Lemma ask_leader_url node :
  ask_leader node =
  KvClient.get_body (H := network_Get leader_consumer) (plain_url host "leader" (leader_query node)).
Proof.
  unfold ask_leader, KvClient.LeaderByNodeURL, KvClient.Leader, plain_url.
  destruct node as [url|]; cbn [leader_query client KvClient.testConsumerURL]; f_equal; by rewrite <-!app_assoc_s.
Qed.

Lemma leader_query_plain node :
  default true (all_chars plain_path <$> node) = true →
  all_chars plain_query (leader_query node) = true ∧
  Values_at (Query (served_URL "leader" (leader_query node))) "node" =
    match node with Some url => [url] | None => [] end.
Proof.
  destruct node as [url|]; [|done]. cbn [fmap option_fmap option_map default leader_query]. intros Hu. split.
  - rewrite (all_chars_app _ "node="). apply andb_true_iff. split; [done|].
    induction url as [|c s IH]; [done|]. simpl in *. apply andb_true_iff in Hu as [Hc Hs].
    rewrite (IH Hs), andb_true_r. apply plain_path_spec in Hc as (_&H1&H2).
    unfold plain_query. simpl. by rewrite !bool_decide_false by done.
  - rewrite (Query_single "node" url) by done. done.
Qed.

Lemma with_tls_spec ca cert key :
  KV.with_tls ca cert key = bool_decide (ca ≠ "" ∧ cert ≠ "" ∧ key ≠ "").
Proof. unfold KV.with_tls. repeat case_bool_decide; naive_solver. Qed.

(** C40: asking the test consumer for the leader, in general or as one node sees
    it, gives the name of the member that has the leader's id in the answers of
    the node asked, which is the one named or the configured one; every failure,
    one of the key pair and the CA's file with TLS included, after which no
    request is made, comes back as a status 500 with the reason. *)
Theorem leader_by_node node w
    (Hhost : all_chars plain_host host = true) (Hname : host ≠ "")
    (Hnode : default true (all_chars plain_path <$> node) = true) :
  let asked := default (Leader.etcdURL h) node in
  let files :=
    if bool_decide (Leader.caCert h ≠ "" ∧ Leader.clientCert h ≠ "" ∧ Leader.clientKey h ≠ "") then
      match LoadX509KeyPair (Leader.clientCert h) (Leader.clientKey h) with
      | Some err => Some err
      | None => (read_file (Leader.caCert h) w).2
      end
    else None in
  let '(result, urls) :=
    match files with
    | Some err => (inl err, [])
    | None => leader_name f (length (svc w)) asked
    end in
  ∃ w', ask_leader node w =
      (Val (match result with
            | inr name => (name, None)
            | inl err =>
                let body := Error err +:+ String "010" "" in
                ("", Some (ErrorString ("unexpected status: 500 Internal Server Error " +:+ body)))
            end), w') ∧
    svc w' = svc w ++ urls ∧ same_os w w'.
Proof.
  intros asked files. destruct (leader_query_plain node Hnode) as [Hq Hv].
  assert (files_error LoadX509KeyPair h w = files) as Hfiles.
  { unfold files_error, files. by rewrite with_tls_spec. }
  set (req := mkRequest "GET" (served_URL "leader" (leader_query node)) ("", None)).
  destruct (leader_handler_spec f LoadX509KeyPair h req w) as (w'&Hserve&Hs&Hos).
  unfold leader_spec in Hserve, Hs. rewrite Hfiles in Hserve, Hs. cbn [req_URL req] in Hserve, Hs.
  rewrite Hv in Hserve, Hs.
  assert (match match node with Some url => [url] | None => [] end with
          | [] => Leader.etcdURL h | n :: _ => n end = asked) as Hasked by (by destruct node).
  rewrite Hasked in Hserve, Hs.
  destruct (match files with Some err => _ | None => leader_name f (length (svc w)) asked end) as [result urls].
  exists w'. split; [|done]. rewrite ask_leader_url. unfold KvClient.get_body.
  assert (http_Get (Getter := network_Get leader_consumer) (plain_url host "leader" (leader_query node)) w =
    (Val (inr (mkResponse (finished (leader_written result)).1 (finished (leader_written result)).2 None)), w'))
    as Hget by exact (deliver_up leader_consumer Hhost Hname "GET" "leader" (leader_query node) "" w w' _
      eq_refl Hq eq_refl Hserve).
  step Hget. destruct result as [err|name]; [|done].
  cbn [leader_written finished rw_status rw_body default fst snd ReadAll StatusCode Body BodyErr].
  rewrite bool_decide_false by done. done.
Qed.
End leader.

Definition example_answers (n : nat) (url : string) : error + Response :=
  inr (mkResponse 200 (single_quoted (if bool_decide (n = O)
    then "{'members':[{'id':'a','name':'etcd-0'},{'id':'b','name':'etcd-1'}]}"
    else "{'leaderInfo':{'leader':'b'}}")) None).

(** Asked with and without TLS; the key pair is the one of other files. *)
Lemma leader_by_node_witness :
  (∃ w', ask_leader example_answers (λ _ _, None)
      (mkGoEtcdLib (λ _ _ _ _, mret (inl (ErrorString "unused"))) (λ _, panic "unused") "STRONG")
      (KV.NewKVHandler [] "" "" "") (Leader.NewLeaderHandler "http://10.0.0.2:4001" "" "" "")
      "10.0.0.1:6769" (Some "http://10.0.0.3:4001") (mkWorld ∅ ∅ permissive_kernel [] []) =
    (Val ("etcd-1", None), w') ∧
    svc w' = ["http://10.0.0.3:4001/v2/members"; "http://10.0.0.3:4001/v2/stats/self"]) ∧
  (∃ w', ask_leader example_answers (λ _ _, Some (ErrorString "tls: private key does not match public key"))
      (mkGoEtcdLib (λ _ _ _ _, mret (inl (ErrorString "unused"))) (λ _, panic "unused") "STRONG")
      (KV.NewKVHandler [] "" "" "") (Leader.NewLeaderHandler "https://10.0.0.2:4001" "/ca" "/cert" "/key")
      "10.0.0.1:6769" None (mkWorld ∅ ∅ permissive_kernel [] []) =
    (Val ("", Some (ErrorString ("unexpected status: 500 Internal Server Error " +:+
       "tls: private key does not match public key" +:+ String "010" ""))), w') ∧ svc w' = []).
Proof.
  split.
  - pose proof (leader_by_node example_answers (λ _ _, None)
      (mkGoEtcdLib (λ _ _ _ _, mret (inl (ErrorString "unused"))) (λ _, panic "unused") "STRONG")
      (KV.NewKVHandler [] "" "" "") (Leader.NewLeaderHandler "http://10.0.0.2:4001" "" "" "")
      "10.0.0.1:6769" (Some "http://10.0.0.3:4001") (mkWorld ∅ ∅ permissive_kernel [] [])
      ltac:(vm_compute; reflexivity) ltac:(done) ltac:(vm_compute; reflexivity)) as H.
    cbv zeta in H. cbn [Leader.caCert] in H. rewrite bool_decide_false in H by (intros [Hca _]; done).
    assert (leader_name example_answers 0 "http://10.0.0.3:4001" =
      (inr "etcd-1", ["http://10.0.0.3:4001/v2/members"; "http://10.0.0.3:4001/v2/stats/self"])) as Hn
      by (vm_compute; reflexivity).
    cbn [default from_option id svc length] in H. rewrite Hn in H.
    destruct H as (w'&Hrun&Hs&_). exists w'. exact (conj Hrun Hs).
  - pose proof (leader_by_node example_answers
      (λ _ _, Some (ErrorString "tls: private key does not match public key"))
      (mkGoEtcdLib (λ _ _ _ _, mret (inl (ErrorString "unused"))) (λ _, panic "unused") "STRONG")
      (KV.NewKVHandler [] "" "" "") (Leader.NewLeaderHandler "https://10.0.0.2:4001" "/ca" "/cert" "/key")
      "10.0.0.1:6769" None (mkWorld ∅ ∅ permissive_kernel [] [])
      ltac:(vm_compute; reflexivity) ltac:(done) ltac:(vm_compute; reflexivity)) as H.
    cbv zeta in H. cbn [Leader.caCert Leader.clientCert Leader.clientKey] in H.
    rewrite bool_decide_true in H by (split; [done|split; done]).
    destruct H as (w'&Hrun&Hs&_). exists w'. exact (conj Hrun Hs).
Defined.
