(* ===== verification/Watcher.v ===== *)
(** * [src/acceptance-tests/testing/helpers/watcher.go]

    The watcher keeps a map up to date with the events etcd reports for a
    prefix, and asks again after the last one whenever etcd breaks off.

    Its two goroutines, the one that calls [Watch] of the library and the one
    that receives, and the library are a transition system.  The channels are
    unbuffered: a send and its receive are one step.  The library closes the
    receiver when [Watch] returns. *)
From S2P Require Import Prelude GoStrings GoPath Machine TestConsumer.

Open Scope Z_scope.

Section watcher.
(** The events under the prefix that ever happen, in their order. *)
Context (history : list Node).

(** ** State *)

(** The goroutine of [Watch]: at the top of its loop, in the library's [Watch],
    which will report what has at least the index [next], waiting for
    [stopListening], or gone. *)
Inductive caller_at := CTop | CWatching (next : Z) | CReturned (err : option error) | CGone.

(** The listener: not there, in its receive, with a response, or sending on
    [stopListening]. *)
Inductive listener_at := LNone | LReady | LGot (r : option EtcdResponse) | LStopping.

Record Watcher := mkWatcher {
  data : gmap string string;
  lastModifiedIndex : Z;      (* a [uint64] *)
  stopped : bool;
  caller : caller_at;
  listener : listener_at
}.

(** [Watch]: the watcher as it is returned, with its goroutine started. *)
Definition Watch : Watcher := mkWatcher ∅ 0 false CTop LNone.

Definition set_caller (c : caller_at) (l : listener_at) (w : Watcher) : Watcher :=
  mkWatcher (data w) (lastModifiedIndex w) (stopped w) c l.

(** ** Operations *)

Definition succ64 (z : Z) : Z := (z + 1) mod 2 ^ 64.

Definition getLastModifiedIndex (w : Watcher) : Z := lastModifiedIndex w.
Definition IsStopped (w : Watcher) : bool := stopped w.
Definition Data (w : Watcher) : gmap string string := data w.
Definition setStopped (b : bool) (w : Watcher) : Watcher :=
  mkWatcher (data w) (lastModifiedIndex w) b (caller w) (listener w).
Definition AddData (key value : string) (modifiedIndex : Z) (w : Watcher) : Watcher :=
  mkWatcher (<[key := value]> (data w)) modifiedIndex (stopped w) (caller w) (listener w).

(** What the listener does with a response; nil is ignored.  The event of a
    deletion has an empty value, which is entered like any other. *)
Definition listen_response (r : option EtcdResponse) (w : Watcher) : Watcher :=
  match r ≫= resp_Node with
  | Some n => AddData (Key n) (Value n) (ModifiedIndex n) w
  | None => w
  end.

(** ** The library

    [Watch] with a wait index reports the first event that has at least this
    index, and goes on behind it. *)

Definition next_event (next : Z) : option Node := first_match (λ n, next <=? ModifiedIndex n) history.

(** The cursor after sending [r]; [None]: it would not send this. *)
Definition sends (next : Z) (r : option EtcdResponse) : option Z :=
  match r ≫= resp_Node with
  | None => Some next
  | Some n =>
      match next_event next with
      | Some n' =>
          if bool_decide (n = n') then Some (succ64 (ModifiedIndex n)) else None
      | None => None
      end
  end.

(** ** Steps *)

Inductive label :=
  | SLoop (waitIndex : Z)                  (* [go listenForResponses]; [Watch(...)] is called *)
  | SSend (r : option EtcdResponse)        (* the library sends, the listener receives *)
  | SAdd                                   (* the listener handles what it got *)
  | SReturn (err : option error)           (* [Watch] closes the receiver and returns *)
  | SClosed                                (* the listener finds the channel closed *)
  | SJoin.                                 (* [<-w.stopListening] and what follows *)

Definition step (l : label) (w : Watcher) : option Watcher :=
  match l, caller w, listener w with
  | SLoop waitIndex, CTop, LNone =>
      if waitIndex =? succ64 (getLastModifiedIndex w)
      then Some (set_caller (CWatching waitIndex) LReady w) else None
  | SSend r, CWatching next, LReady =>
      match sends next r with
      | Some next' => Some (set_caller (CWatching next') (LGot r) w)
      | None => None
      end
  | SAdd, c, LGot r => Some (set_caller c LReady (listen_response r w))
  | SReturn err, CWatching _, l => Some (set_caller (CReturned err) l w)
  | SClosed, CReturned err, LReady => Some (set_caller (CReturned err) LStopping w)
  | SJoin, CReturned err, LStopping =>
      match err with
      | None => Some (set_caller CGone LNone (setStopped true w))
      | Some _ => Some (set_caller CTop LNone w)
      end
  | _, _, _ => None
  end.

Fixpoint run (ls : list label) (w : Watcher) : option Watcher :=
  match ls with
  | [] => Some w
  | l :: ls => match step l w with Some w' => run ls w' | None => None end
  end.

(** ** What it is for

    A cursor over the history: the first [n] events have been entered. *)

Definition replay (l : list Node) : gmap string string :=
  foldl (λ m n, <[Key n := Value n]> m) ∅ l.

Definition index_of (n : nat) : Z :=
  match n with O => 0 | S n => from_option ModifiedIndex 0 (history !! n) end.

Definition at_event (n : nat) (w : Watcher) : Prop :=
  (n ≤ length history)%nat ∧ data w = replay (take n history) ∧ lastModifiedIndex w = index_of n.

(** Indices grow along the history. *)
Definition increasing : Prop :=
  ∀ i j a b, history !! i = Some a → history !! j = Some b → (i < j)%nat →
    ModifiedIndex a < ModifiedIndex b.

Definition in_uint64 : Prop := Forall (λ n, 0 < ModifiedIndex n < 2 ^ 64 - 1) history.

(** ** Lemmas: the cursor *)

Section cursor.
Hypothesis Hsorted : increasing.
Hypothesis Hrange : in_uint64.

Lemma event_range i e : history !! i = Some e → 0 < ModifiedIndex e < 2 ^ 64 - 1.
Proof. intros He. exact (proj1 (Forall_lookup _ _) Hrange i e He). Qed.

Lemma index_of_S i e : history !! i = Some e → index_of (S i) = ModifiedIndex e.
Proof. intros He. unfold index_of. by rewrite He. Qed.

Lemma succ64_event i e : history !! i = Some e → succ64 (ModifiedIndex e) = ModifiedIndex e + 1.
Proof. intros He%event_range. unfold succ64. apply Z.mod_small. lia. Qed.

Lemma succ64_index n : (n ≤ length history)%nat → succ64 (index_of n) = index_of n + 1.
Proof.
  intros Hn. destruct n as [|n]; [done|].
  destruct (lookup_lt_is_Some_2 history n ltac:(lia)) as [e He].
  rewrite (index_of_S n e He). by apply (succ64_event n).
Qed.

(** The events entered are those up to the index. *)
Lemma index_entered n i a :
  (n ≤ length history)%nat → history !! i = Some a → ModifiedIndex a ≤ index_of n ↔ (i < n)%nat.
Proof.
  intros Hn Ha. pose proof (event_range i a Ha). destruct n as [|n]; [simpl; lia|].
  destruct (lookup_lt_is_Some_2 history n ltac:(lia)) as [e He]. rewrite (index_of_S n e He).
  destruct (decide (i = n)) as [->|]; [rewrite He in Ha; injection Ha as ->; lia|].
  destruct (decide (i < n)%nat).
  - pose proof (Hsorted i n a e Ha He). lia.
  - pose proof (Hsorted n i e a He Ha). lia.
Qed.

(** A watch from behind the last event gives the next one. *)
Lemma next_event_index n :
  (n ≤ length history)%nat → next_event (index_of n + 1) = history !! n.
Proof.
  intros Hn. unfold next_event. destruct (history !! n) as [e|] eqn:He.
  - apply first_match_Some. exists (take n history), (drop (S n) history). split_and!.
    + symmetry. by apply take_drop_middle.
    + apply Z.leb_le. pose proof (index_entered n n e Hn He). lia.
    + intros y Hy. apply elem_of_take in Hy as (i&Hi&Hin). apply Z.leb_gt.
      pose proof (index_entered n i y Hn Hi). lia.
  - apply first_match_None. intros y Hy. apply list_elem_of_lookup in Hy as [i Hi].
    apply Z.leb_gt. apply lookup_ge_None in He. pose proof (lookup_lt_Some _ _ _ Hi).
    pose proof (index_entered n i y Hn Hi). lia.
Qed.

(** ** The invariant *)

(** What the two goroutines are in the middle of: the library's cursor is behind
    the last event entered, or behind the one just received; nobody listens
    while nothing is watched. *)
Definition pending_ok (n : nat) (w : Watcher) : Prop :=
  match listener w with
  | LNone => caller w = CTop ∨ (caller w = CGone ∧ stopped w = true)
  | LReady =>
      match caller w with
      | CWatching next => next = index_of n + 1
      | CReturned _ => True
      | _ => False
      end
  | LGot r =>
      match r ≫= resp_Node with
      | None => match caller w with CWatching next => next = index_of n + 1 | CReturned _ => True | _ => False end
      | Some e =>
          history !! n = Some e ∧
          match caller w with
          | CWatching next => next = ModifiedIndex e + 1
          | CReturned _ => True
          | _ => False
          end
      end
  | LStopping => ∃ err, caller w = CReturned err
  end ∧ (stopped w = true → caller w = CGone).

Definition Inv (n : nat) (w : Watcher) : Prop := at_event n w ∧ pending_ok n w.

Lemma watcher_init : Inv 0 Watch.
Proof. split; [split_and!; [lia|done|done]|]. split; [by left|done]. Qed.

(** The position moves by the handling of an event only. *)
Definition moves (l : label) (w : Watcher) : nat :=
  match l, listener w with
  | SAdd, LGot r => match r ≫= resp_Node with Some _ => 1 | None => 0 end
  | _, _ => 0
  end.

Lemma at_event_add n w e :
  at_event n w → history !! n = Some e →
  at_event (S n) (AddData (Key e) (Value e) (ModifiedIndex e) w).
Proof.
  intros (Hn&Hd&Hi) He. pose proof (lookup_lt_Some _ _ _ He).
  split_and!; [lia| |by rewrite (index_of_S n e He)].
  cbn [data AddData]. rewrite Hd, (take_S_r _ _ _ He). unfold replay. by rewrite foldl_app.
Qed.

Lemma watcher_step n l w w' : Inv n w → step l w = Some w' → Inv (n + moves l w) w'.
Proof.
  intros [Hat [Hp Hstop]] Hstep. pose proof Hat as (Hn&_&Hi).
  unfold moves. destruct l as [idx|r| |err| |]; cbn [step] in Hstep.
  - destruct (caller w) eqn:Hc, (listener w) eqn:Hl; try done.
    destruct (idx =? _) eqn:Heq; [|done]. injection Hstep as <-. rewrite Nat.add_0_r.
    apply Z.eqb_eq in Heq. split; [done|]. split; [|intros Hs; cbn in Hs; by apply Hstop in Hs].
    cbn. rewrite Heq. unfold getLastModifiedIndex. rewrite Hi. by apply succ64_index.
  - destruct (caller w) as [|next| |] eqn:Hc, (listener w) eqn:Hl; try done.
    destruct (sends next r) as [next'|] eqn:Hs; [|done]. injection Hstep as <-. rewrite Nat.add_0_r.
    split; [done|]. split; [|intros Hs'; cbn in Hs'; by apply Hstop in Hs'].
    cbn. unfold sends in Hs. subst next. destruct (r ≫= resp_Node) as [e|]; [|congruence].
    rewrite next_event_index in Hs by done. destruct (history !! n) as [e'|] eqn:He; [|done].
    case_bool_decide; [|done]. subst e'. split; [done|]. injection Hs as <-. by apply (succ64_event n).
  - destruct (listener w) as [| |r|] eqn:Hl; try (by destruct (caller w)).
    assert (w' = set_caller (caller w) LReady (listen_response r w)) as ->
      by (destruct (caller w); by injection Hstep).
    unfold listen_response. destruct (r ≫= resp_Node) as [e|].
    + destruct Hp as [He Hc]. rewrite Nat.add_1_r. split.
      * destruct (at_event_add n w e Hat He) as (?&?&?). done.
      * split; [|intros Hs; cbn in Hs; apply Hstop in Hs; by rewrite Hs in Hc].
        cbn [listener caller set_caller]. rewrite (index_of_S n e He). done.
    + rewrite Nat.add_0_r. split; [done|]. split; [done|].
      intros Hs; cbn in Hs; apply Hstop in Hs; by rewrite Hs in Hp.
  - destruct (caller w) as [|next| |] eqn:Hc; try done. injection Hstep as <-.
    rewrite Nat.add_0_r. split; [done|]. split; [|intros Hs; cbn in Hs; by apply Hstop in Hs].
    cbn [listener caller set_caller]. destruct (listener w) as [| |r|]; [|done| |].
    + by destruct Hp as [|[]].
    + destruct (r ≫= resp_Node); [|done]. by destruct Hp.
    + by destruct Hp.
  - destruct (caller w) eqn:Hc, (listener w) eqn:Hl; try done. injection Hstep as <-.
    rewrite Nat.add_0_r. split; [done|]. split; [by eexists|]. intros Hs; cbn in Hs; by apply Hstop in Hs.
  - destruct (caller w) as [| |err|] eqn:Hc, (listener w) eqn:Hl; try done. rewrite Nat.add_0_r.
    destruct err; injection Hstep as <-.
    + split; [done|]. split; [by left|]. intros Hs; cbn in Hs; by apply Hstop in Hs.
    + split; [done|]. split; [by right|done].
Qed.

Lemma watcher_run_snoc ls l w :
  run (ls ++ [l]) w = run ls w ≫= step l.
Proof.
  revert w. induction ls as [|l' ls IH]; intros w; simpl.
  - by destruct (step l w).
  - destruct (step l' w); [apply IH|done].
Qed.

Lemma watcher_run ls w : run ls Watch = Some w → ∃ n, Inv n w.
Proof.
  revert w. induction ls as [|l ls IH] using rev_ind; intros w.
  - intros [= <-]. exists 0%nat. apply watcher_init.
  - rewrite watcher_run_snoc. destruct (run ls Watch) as [w1|]; [|done]. simpl. intros Hstep.
    destruct (IH w1 eq_refl) as [n Hn]. eexists. by apply (watcher_step n l w1).
Qed.

(** ** Progress *)

Lemma run_app ls1 ls2 w : run (ls1 ++ ls2) w = run ls1 w ≫= run ls2.
Proof. revert w. induction ls1 as [|l ls1 IH]; intros w; simpl; [done|]. by destruct (step l w). Qed.

Lemma run_Inv n ls w w' : Inv n w → run ls w = Some w' → ∃ m, Inv m w'.
Proof.
  revert n w. induction ls as [|l ls IH]; intros n w Hn; simpl; [intros [= ->]; eauto|].
  destruct (step l w) as [w1|] eqn:Hs; [|done]. by apply (IH _ _ (watcher_step n l w w1 Hn Hs)).
Qed.

Definition watching (w : Watcher) : Prop := listener w = LReady ∧ ∃ next, caller w = CWatching next.

(** A watch that is going on can report all there is. *)
Lemma drain k n w :
  Inv n w → watching w → (length history - n)%nat = k →
  ∃ ls w', run ls w = Some w' ∧ at_event (length history) w'.
Proof.
  revert n w. induction k as [|k IH]; intros n w Hn [Hl [next Hc]] Hk.
  - exists [], w. split; [done|]. destruct Hn as [Hat _]. pose proof (proj1 Hat).
    by replace (length history) with n by lia.
  - destruct (lookup_lt_is_Some_2 history n ltac:(lia)) as [e He].
    pose proof Hn as [[Hle _] [Hp _]]. rewrite Hl, Hc in Hp.
    set (r := Some (mkEtcdResponse (Some e))).
    set (w1 := set_caller (CWatching (succ64 (ModifiedIndex e))) (LGot r) w).
    set (w2 := set_caller (CWatching (succ64 (ModifiedIndex e))) LReady (listen_response r w1)).
    assert (step (SSend r) w = Some w1) as H1.
    { cbn [step]. rewrite Hc, Hl. unfold sends. cbn [r mbind option_bind resp_Node].
      rewrite Hp, next_event_index, He, bool_decide_true by done. done. }
    assert (step SAdd w1 = Some w2) as H2 by done.
    pose proof (watcher_step _ _ _ _ (watcher_step _ _ _ _ Hn H1) H2) as Hn2.
    destruct (IH _ w2 Hn2) as (ls&w'&Hrun&Hend).
    + split; [done|by eexists].
    + cbn. lia.
    + exists (SSend r :: SAdd :: ls), w'. split; [|done]. cbn [run]. by rewrite H1, H2.
Qed.

(** Unless it has been told to stop, the watcher gets there. *)
Lemma reach_watching n w :
  Inv n w → caller w ≠ CGone → caller w ≠ CReturned None →
  ∃ ls w', run ls w = Some w' ∧ watching w'.
Proof.
  intros Hn Hgone Hnone. pose proof Hn as [_ [Hp _]].
  assert (∀ w1, caller w1 = CTop → listener w1 = LNone → ∃ ls w', run ls w1 = Some w' ∧ watching w') as Htop.
  { intros w1 Hc Hl. exists [SLoop (succ64 (getLastModifiedIndex w1))].
    eexists. cbn. rewrite Hc, Hl, Z.eqb_refl. split; [reflexivity|]. split; [done|by eexists]. }
  assert (∀ w1 err, caller w1 = CReturned (Some err) → listener w1 = LStopping →
    ∃ ls w', run ls w1 = Some w' ∧ watching w') as Hjoin.
  { intros w1 err Hc Hl. destruct (Htop (set_caller CTop LNone w1)) as (ls&w'&Hrun&Hw); [done..|].
    exists (SJoin :: ls), w'. cbn [run step]. by rewrite Hc, Hl. }
  assert (∀ w1 err, caller w1 = CReturned (Some err) → listener w1 = LReady →
    ∃ ls w', run ls w1 = Some w' ∧ watching w') as Hclosed.
  { intros w1 err Hc Hl.
    destruct (Hjoin (set_caller (CReturned (Some err)) LStopping w1) err) as (ls&w'&Hrun&Hw); [done..|].
    exists (SClosed :: ls), w'. cbn [run step]. by rewrite Hc, Hl. }
  destruct (listener w) as [| |r|] eqn:Hl.
  - destruct Hp as [Hc|[Hc _]]; [by apply Htop|done].
  - destruct (caller w) as [|next|[err|]|] eqn:Hc; try done.
    + exists [], w. split; [done|]. split; [done|by eexists].
    + by apply (Hclosed w err).
  - set (w1 := set_caller (caller w) LReady (listen_response r w)).
    assert (step SAdd w = Some w1) as H1 by (cbn [step]; rewrite Hl; by destruct (caller w)).
    destruct (caller w) as [|next|[err|]|] eqn:Hc.
    + by destruct (r ≫= resp_Node); [destruct Hp|].
    + exists [SAdd], w1. cbn [run]. rewrite H1. split; [done|]. split; [done|by exists next].
    + destruct (Hclosed w1 err) as (ls&w'&Hrun&Hw); [done..|]. exists (SAdd :: ls), w'.
      cbn [run]. by rewrite H1.
    + done.
    + done.
  - destruct Hp as [[err|] Hc]; [by apply (Hjoin w err)|done].
Qed.
End cursor.

(** Only a [Watch] without an error stops the watcher. *)
Lemma stop_cause l w w' :
  step l w = Some w' →
  (IsStopped w' = true → IsStopped w = true ∨ caller w = CReturned None) ∧
  (caller w' = CReturned None → l = SReturn None ∨ caller w = CReturned None).
Proof.
  intros Hstep. destruct l as [idx|r| |err| |]; cbn [step] in Hstep;
    destruct (caller w) as [|next|[err1|]|] eqn:Hc, (listener w) as [| |r'|] eqn:Hl; try done;
    repeat case_match; try discriminate Hstep; injection Hstep as <-; cbn; unfold listen_response;
    (split; intros Hs; [|first [discriminate Hs|by right|left; by injection Hs as ->]]);
    first [by right|left; revert Hs; by destruct (r' ≫= resp_Node)|by left].
Qed.

(** What a map of the events is. *)
Lemma replay_lookup l k :
  replay l !! k = Value <$> last_match (λ n, bool_decide (Key n = k)) l.
Proof.
  induction l as [|n l IH] using rev_ind; [done|]. unfold replay in *.
  rewrite foldl_app, last_match_snoc. cbn [foldl]. case_bool_decide as Hk.
  - subst k. by rewrite lookup_insert_eq.
  - by rewrite lookup_insert_ne.
Qed.
End watcher.

(** ** Theorems *)

(** C35: however often etcd breaks off, and wherever the goroutines are, the
    watcher has entered exactly the first events of the history: every key has
    the value of its last event among them, the index is that of the last one,
    and the next call of [Watch] continues right behind it.  It is stopped only
    after a [Watch] without an error. *)
Theorem watcher_replays history ls w
    (Hsorted : increasing history) (Hrange : in_uint64 history)
    (Hrun : run history ls Watch = Some w) :
  ∃ n, (n ≤ length history)%nat ∧
    (∀ k, Data w !! k = Value <$> last_match (λ e, bool_decide (Key e = k)) (take n history)) ∧
    getLastModifiedIndex w = from_option ModifiedIndex 0 (last (take n history)) ∧
    (∀ idx w', step history (SLoop idx) w = Some w' → next_event history idx = history !! n) ∧
    (IsStopped w = true → SReturn None ∈ ls).
Proof.
  destruct (watcher_run history Hsorted Hrange ls w Hrun) as (n&(Hn&Hd&Hi)&_). exists n.
  split; [done|]. split; [intros k; unfold Data; rewrite Hd; apply replay_lookup|]. split.
  { unfold getLastModifiedIndex. rewrite Hi. destruct n as [|n]; [done|].
    destruct (lookup_lt_is_Some_2 history n Hn) as [e He].
    rewrite (take_S_r _ _ _ He), last_snoc. by rewrite (index_of_S history n e He). }
  split.
  - intros idx w' Hstep. cbn [step] in Hstep. destruct (caller w), (listener w); try done.
    destruct (idx =? _) eqn:Heq; [|done]. apply Z.eqb_eq in Heq. unfold getLastModifiedIndex in Heq.
    rewrite Heq, Hi, succ64_index, next_event_index by done. done.
  - clear Hd Hi Hn n. revert w Hrun.
    assert (∀ ls w, run history ls Watch = Some w →
      (IsStopped w = true → SReturn None ∈ ls) ∧ (caller w = CReturned None → SReturn None ∈ ls)) as H;
      [|intros w Hw; by apply H].
    clear ls. intros ls. induction ls as [|l ls IH] using rev_ind; intros w; [by intros [= <-]|].
    rewrite watcher_run_snoc. destruct (run history ls Watch) as [w1|]; [|done]. cbn [mbind option_bind].
    intros Hstep. destruct (IH w1 eq_refl) as [IH1 IH2], (stop_cause history l w1 w Hstep) as [H1 H2].
    rewrite !elem_of_app. split.
    + intros [?|?]%H1; left; auto.
    + intros [->|?]%H2; [right; apply list_elem_of_here|left; auto].
Qed.

(** C36: nothing blocks the watcher for good: from every state it can be in,
    unless a [Watch] has ended without an error, it can go on and enter all
    events there are. *)
Theorem watcher_catches_up history ls w
    (Hsorted : increasing history) (Hrange : in_uint64 history)
    (Hrun : run history ls Watch = Some w) (Hstop : SReturn None ∉ ls) :
  ∃ ls' w', run history ls' w = Some w' ∧ Data w' = replay history ∧
    getLastModifiedIndex w' = from_option ModifiedIndex 0 (last history).
Proof.
  destruct (watcher_run history Hsorted Hrange ls w Hrun) as (n&Hn).
  assert (caller w ≠ CGone ∧ caller w ≠ CReturned None) as [Hgone Hnone].
  { clear n Hn. revert w Hrun Hstop. induction ls as [|l ls IH] using rev_ind; intros w; [by intros [= <-]|].
    rewrite watcher_run_snoc. destruct (run history ls Watch) as [w1|]; [|done]. cbn [mbind option_bind].
    rewrite not_elem_of_app, list_elem_of_singleton. intros Hstep [Hls Hl].
    destruct (IH w1 eq_refl Hls) as [IH1 IH2]. clear IH.
    destruct l as [idx|r| |err| |]; cbn [step] in Hstep;
      destruct (caller w1) as [|next|[err1|]|] eqn:Hc, (listener w1) eqn:Hli; try done;
      repeat case_match; try discriminate Hstep; injection Hstep as <-; cbn; split; congruence. }
  destruct (reach_watching history n w Hn Hgone Hnone) as (ls1&w1&Hrun1&Hw1).
  destruct (run_Inv history Hsorted Hrange n ls1 w w1 Hn Hrun1) as (m&Hm).
  destruct (drain history Hsorted Hrange _ m w1 Hm Hw1 eq_refl) as (ls2&w2&Hrun2&(_&Hd&Hi)).
  exists (ls1 ++ ls2), w2. rewrite run_app, Hrun1. split; [done|].
  unfold Data, getLastModifiedIndex. rewrite Hd, Hi, firstn_all. split; [done|].
  destruct (length history) as [|k] eqn:Hk.
  - by rewrite (nil_length_inv _ Hk).
  - unfold index_of. rewrite last_lookup, Hk. done.
Qed.

(** ** Witnesses *)

Definition example_history : list Node :=
  [mkNode "/a" "1" 3; mkNode "/b" "2" 5; mkNode "/a" "" 9].

(** The connection breaks while the second event is being handled. *)
Definition example_interrupted : list label :=
  let got n := Some (mkEtcdResponse (Some n)) in
  [SLoop 1; SSend (got (mkNode "/a" "1" 3)); SAdd; SSend None; SAdd;
   SSend (got (mkNode "/b" "2" 5)); SReturn (Some (ErrorString "EOF")); SAdd; SClosed; SJoin].

Lemma example_increasing : increasing example_history ∧ in_uint64 example_history.
Proof.
  split; [|by repeat constructor].
  intros i j a b Ha Hb Hij.
  destruct i as [|[|[|i]]], j as [|[|[|j]]]; try discriminate; simpl in *; simplify_eq; simpl; lia.
Qed.

Lemma watcher_replays_witness :
  ∃ w, run example_history example_interrupted Watch = Some w ∧
    getLastModifiedIndex w = 5 ∧ Data w !! "/b" = Some "2" ∧ IsStopped w = false.
Proof.
  destruct example_increasing as [Hs Hr].
  destruct (run example_history example_interrupted Watch) as [w|] eqn:Hrun; [|by vm_compute in Hrun].
  destruct (watcher_replays example_history example_interrupted w Hs Hr Hrun) as (n&Hn&Hd&Hi&_&Hst).
  assert (IsStopped w = false) as Hstop.
  { destruct (IsStopped w); [|done]. specialize (Hst eq_refl).
    repeat (apply elem_of_cons in Hst as [Hx|Hst]; [discriminate Hx|]). by apply elem_of_nil in Hst. }
  assert (getLastModifiedIndex <$> run example_history example_interrupted Watch = Some 5) as Hk
    by (by vm_compute).
  rewrite Hrun in Hk. injection Hk as Hk. exists w. split; [done|]. split; [done|]. split; [|done].
  rewrite Hd. rewrite Hk in Hi. destruct n as [|[|[|[|n]]]]; try (by vm_compute in Hi).
Defined.

Lemma watcher_catches_up_witness :
  ∃ w ls' w', run example_history example_interrupted Watch = Some w ∧
    run example_history ls' w = Some w' ∧ Data w' !! "/a" = Some "" ∧ getLastModifiedIndex w' = 9.
Proof.
  destruct example_increasing as [Hs Hr].
  destruct (run example_history example_interrupted Watch) as [w|] eqn:Hrun; [|by vm_compute in Hrun].
  destruct (watcher_catches_up example_history example_interrupted w Hs Hr Hrun) as (ls'&w'&Hrun'&Hd&Hi).
  { intros Hst. repeat (apply elem_of_cons in Hst as [Hx|Hst]; [discriminate Hx|]). by apply elem_of_nil in Hst. }
  exists w, ls', w'. split; [done|]. split; [done|]. split; [rewrite Hd; by vm_compute|]. rewrite Hi. by vm_compute.
Defined.
