(* ===== verification/IptablesAgent.v ===== *)
(** * [src/acceptance-tests/testing/iptables_agent]

    The agent drops the traffic between its machine and an address:
    [PUT /drop?addr=...] adds two rules, [DELETE] takes them away.  The
    [iptables] command is an interface; [RealIPTables] runs a command, whose
    output and error are a parameter.  What the commands do to the rules and the
    rules to packets is stated apart from the agent ([RuleTable], [dropped]). *)
From S2P Require Import Prelude GoStrings GoPath Machine GoFlag GoUrl UrlFacts GoJson GoHttp GoServe.

Open Scope Z_scope.

(** ** [handlers/drop_handler.go] *)

(** [IPTablesWrapper]. *)
Class IPTables (X : Type) := ipTables_Run : list string → M X (string * option error).

(** [RealIPTables.Run]: the output counts only if the command failed; [command]
    is the result of running it, its combined output and the error. *)
Definition RealIPTables {X} (command : list string → M X (string * option error)) : IPTables X :=
  λ args,
    '(output, err) ← command args;
    match err with
    | Some err => mret (output, Some err)
    | None => mret ("", None)
    end.

Section handler.
Context {X : Type} `{IPTables X}.

(** The logger writes its prefix and the line. *)
Definition log_line (s : string) : M X unit := tell (Stdout ("[drop handler] " +:+ s)).

Definition queryParams (url : URL) : string * option error :=
  let addr := Values_Get (Query url) "addr" in
  if bool_decide (addr = "") then ("", Some (ErrorString "must provide addr param"))
  else (addr, None).

(** The answer to a failing command. *)
Definition failure (output : string) (err : error) (rw : ResponseWriter) : M X ResponseWriter :=
  _ ← log_line ("error: iptables failed (" +:+ Error err +:+ ")");
  _ ← log_line ("error: iptables failed output: " +:+ output);
  mret (Write ("error: " +:+ Error err +:+ String "010" "iptables output: " +:+ output)
    (WriteHeader StatusInternalServerError rw)).

Definition input_rule (command addr : string) : list string :=
  [command; "INPUT"; "-s"; addr; "-j"; "DROP"].
Definition output_rule (command addr : string) : list string :=
  [command; "OUTPUT"; "-d"; addr; "-j"; "DROP"].

Definition ServeHTTP : Handler X := λ rw req,
  _ ← log_line ("received request: " +:+ req_Method req +:+ " " +:+ URL_String (req_URL req));
  if negb (bool_decide (req_Method req = "PUT")) && negb (bool_decide (req_Method req = "DELETE")) then
    _ ← log_line "error: not a PUT or DELETE request";
    mret (WriteHeader StatusNotFound rw)
  else
    let '(addr, err) := queryParams (req_URL req) in
    match err with
    | Some err =>
        _ ← log_line ("error: missing required params (" +:+ Error err +:+ ")");
        mret (Write (Error err) (WriteHeader StatusBadRequest rw))
    | None =>
        let command := if bool_decide (req_Method req = "DELETE") then "-D" else "-A" in
        '(output, err) ← ipTables_Run (input_rule command addr);
        match err with
        | Some err => failure output err rw
        | None =>
            '(output, err) ← ipTables_Run (output_rule command addr);
            match err with
            | Some err => failure output err rw
            | None => _ ← log_line "request successful"; mret rw
            end
        end
    end.
End handler.

(** ** [main.go] *)

Module IptablesMain.
Definition flag_defs : list flag_def := [
  mkFlag "port" "" "port to use for iptables agent server";
  mkFlag "iptablesCommand" "iptables" "command to use for iptables agent server"
].

(** [run_command path args] runs a command to its end. *)
Definition main {X} (run_command : string → list string → M X (string * option error))
    (ListenAndServe : string → Handler X → M X error) (args : list string) : M X unit :=
  values ← FlagSet_Parse (default "" (head args)) flag_defs (drop 1 args);
  match values with
  | None => exit 2
  | Some values =>
      let H := RealIPTables (run_command (value_of values "iptablesCommand")) in
      err ← ListenAndServe ("0.0.0.0:" +:+ value_of values "port") (ServeMux [("/drop", ServeHTTP (H := H))]);
      _ ← tell (Stderr (Error err));
      exit 1
  end.
End IptablesMain.

(** ** A packet filter *)

(** The rules of a chain, as far as the agent's commands need them: the packets
    from or to an address are dropped or let through. *)
Inductive field := Source | Destination.
Inductive target := DROP | ACCEPT.
Record rule := mkRule { r_field : field; r_addr : string; r_target : target }.
Inductive chain := INPUT | OUTPUT.
Record rules := mkRules { input_chain : list rule; output_chain : list rule }.

#[export] Instance field_eq_dec : EqDecision field.
Proof. solve_decision. Defined.
#[export] Instance target_eq_dec : EqDecision target.
Proof. solve_decision. Defined.
#[export] Instance rule_eq_dec : EqDecision rule.
Proof. solve_decision. Defined.

Definition get_chain (c : chain) (t : rules) : list rule :=
  match c with INPUT => input_chain t | OUTPUT => output_chain t end.
Definition set_chain (c : chain) (l : list rule) (t : rules) : rules :=
  match c with INPUT => mkRules l (output_chain t) | OUTPUT => mkRules (input_chain t) l end.

(** How a chain and a rule are written on iptables' command line. *)
Definition chain_arg (c : chain) : string := match c with INPUT => "INPUT" | OUTPUT => "OUTPUT" end.
Definition rule_args (r : rule) : list string :=
  [match r_field r with Source => "-s" | Destination => "-d" end; r_addr r;
   "-j"; match r_target r with DROP => "DROP" | ACCEPT => "ACCEPT" end].

(** What iptables promises: [held] is what it holds in a state, [valid] the
    addresses it takes.  [-A] appends the rule to the chain, [-D] takes the first
    such rule away and fails if there is none; with an address that is not taken
    both fail; a command that fails changes no rule. *)
Class RuleTable (X : Type) `{IPTables X} (held : X → rules) (valid : string → bool) : Prop := {
  table_append c r w : valid (r_addr r) = true →
    ∃ w', ipTables_Run ("-A" :: chain_arg c :: rule_args r) w = (Val ("", None), w') ∧
      held (svc w') = set_chain c (get_chain c (held (svc w)) ++ [r]) (held (svc w));
  table_delete c r l1 l2 w : valid (r_addr r) = true →
    get_chain c (held (svc w)) = l1 ++ r :: l2 → r ∉ l1 →
    ∃ w', ipTables_Run ("-D" :: chain_arg c :: rule_args r) w = (Val ("", None), w') ∧
      held (svc w') = set_chain c (l1 ++ l2) (held (svc w));
  table_delete_missing c r w : valid (r_addr r) = true → r ∉ get_chain c (held (svc w)) →
    ∃ output err w', ipTables_Run ("-D" :: chain_arg c :: rule_args r) w = (Val (output, Some err), w') ∧
      held (svc w') = held (svc w);
  table_invalid command c r w : command ∈ ["-A"; "-D"] → valid (r_addr r) = false →
    ∃ output err w', ipTables_Run (command :: chain_arg c :: rule_args r) w = (Val (output, Some err), w') ∧
      held (svc w') = held (svc w)
}.



(** ** Lemmas *)

Section agent.
Context {X : Type} `{IPTables X}.

Lemma run_log_line s (w : World X) : log_line s w = (Val tt, emit (Stdout ("[drop handler] " +:+ s)) w).
Proof. done. Qed.

Definition drop_request (method addr : string) : Request :=
  mkRequest method (served_URL "drop" ("addr=" +:+ addr)) ("", None).

Lemma queryParams_addr method addr :
  all_chars plain_path addr = true → addr ≠ "" →
  queryParams (req_URL (drop_request method addr)) = (addr, None).
Proof.
  intros Hp Hne. unfold queryParams. rewrite (Query_single "addr" addr) by done.
  assert (Values_Get [("addr", addr)] "addr" = addr) as -> by done. by rewrite bool_decide_false.
Qed.

Context (held : X → rules) (valid : string → bool) `{!RuleTable X held valid}.
Implicit Types w : World X.


(** ** The contract

    A list of blocked addresses; an address may be blocked more than once. *)

Fixpoint remove_first {A} `{EqDecision A} (x : A) (l : list A) : list A :=
  match l with
  | [] => []
  | y :: l => if bool_decide (y = x) then l else y :: remove_first x l
  end.

Lemma remove_first_at {A} `{EqDecision A} (x : A) l1 l2 : x ∉ l1 → remove_first x (l1 ++ x :: l2) = l1 ++ l2.
Proof.
  induction l1 as [|y l1 IH]; intros Hl; simpl; [by rewrite bool_decide_true|].
  apply not_elem_of_cons in Hl as [? ?]. rewrite bool_decide_false by congruence. by rewrite IH.
Qed.






(** One request, and a sequence of them. *)
Definition serve_request (put : bool) (addr : string) : M X ResponseWriter :=
  ServeHTTP fresh_response (drop_request (if put then "PUT" else "DELETE") addr).


(** The two commands of a request that is in order. *)
Lemma serve_request_run put addr w :
  all_chars plain_path addr = true → addr ≠ "" →
  ∃ w', svc w' = svc w ∧
    serve_request put addr w =
    ('(output, err) ← ipTables_Run (input_rule (if put then "-A" else "-D") addr);
     match err with
     | Some err => failure output err fresh_response
     | None =>
         '(output, err) ← ipTables_Run (output_rule (if put then "-A" else "-D") addr);
         match err with
         | Some err => failure output err fresh_response
         | None => _ ← log_line "request successful"; mret fresh_response
         end
     end) w'.
Proof.
  intros Hp Hne. unfold serve_request, ServeHTTP. set (req := drop_request _ addr).
  step (run_log_line ("received request: " +:+ req_Method req +:+ " " +:+ URL_String (req_URL req)) w).
  set (w1 := emit _ w). exists w1. split; [done|].
  assert (queryParams (req_URL req) = (addr, None)) as -> by (by apply queryParams_addr).
  unfold req. by destruct put.
Qed.


End agent.

(** ** Theorems *)


(** If the second command fails the first one is not undone, whatever the
    request was: the rule stays in one chain. *)
Lemma second_failure_keeps_first {X} `{IPTables X} (put : bool) (addr output : string) (err : error) (w : World X) :
  all_chars plain_path addr = true → addr ≠ "" →
  ∀ w1 w2 : World X, (∀ w0 : World X, svc w0 = svc w → ipTables_Run (input_rule (if put then "-A" else "-D") addr) w0 =
      (Val ("", None), w1)) →
    ipTables_Run (output_rule (if put then "-A" else "-D") addr) w1 = (Val (output, Some err), w2) →
  ∃ rw w', serve_request put addr w = (Val rw, w') ∧ (finished rw).1 = StatusInternalServerError ∧
    svc w' = svc w2.
Proof.
  intros Hp Hne w1 w2 H1 H2. destruct (serve_request_run put addr w Hp Hne) as (w0&Hs&->).
  step (H1 w0 Hs). step H2. eexists _, _. split; [reflexivity|]. done.
Qed.

(** ** A packet filter in memory *)

Module MemTables.
Definition bad_rule : string * option error := ("iptables: Bad rule", Some (ErrorString "exit status 1")).

(** The addresses it takes are numbers and dots. *)
Definition valid (addr : string) : bool := all_chars (λ c, is_dec c || bool_decide (c = "."%char)) addr.

(** The chain or the rule an argument list stands for. *)
Definition read_chain (arg : string) : option chain :=
  if bool_decide (arg = "INPUT") then Some INPUT
  else if bool_decide (arg = "OUTPUT") then Some OUTPUT else None.
Definition read_rule (args : list string) : option rule :=
  match args with
  | [option; addr; "-j"; to] =>
      if valid addr then
        f ← (if bool_decide (option = "-s") then Some Source
             else if bool_decide (option = "-d") then Some Destination else None);
        t ← (if bool_decide (to = "DROP") then Some DROP
             else if bool_decide (to = "ACCEPT") then Some ACCEPT else None);
        Some (mkRule f addr t)
      else None
  | _ => None
  end.

Definition update (command : string) (r : rule) (l : list rule) : option (list rule) :=
  if bool_decide (command = "-A") then Some (l ++ [r])
  else if bool_decide (r ∈ l) then Some (remove_first r l) else None.

#[global] Instance run : IPTables rules := λ args,
  t ← get_svc;
  match args with
  | command :: chain :: args =>
      match read_chain chain, read_rule args with
      | Some c, Some r =>
          match update command r (get_chain c t) with
          | Some l => _ ← put_svc (set_chain c l t); mret ("", None)
          | None => mret bad_rule
          end
      | _, _ => mret bad_rule
      end
  | _ => mret bad_rule
  end.

Lemma read_chain_arg c : read_chain (chain_arg c) = Some c.
Proof. by destruct c. Qed.
Lemma read_rule_args r : read_rule (rule_args r) = if valid (r_addr r) then Some r else None.
Proof. unfold read_rule. by destruct r as [[] addr []]; cbn; destruct (valid addr). Qed.

Lemma run_command command c r (w : World rules) :
  ipTables_Run (command :: chain_arg c :: rule_args r) w =
  match (if valid (r_addr r) then update command r (get_chain c (svc w)) else None) with
  | Some l => (Val ("", None), set_svc (set_chain c l (svc w)) w)
  | None => (Val bad_rule, w)
  end.
Proof.
  unfold ipTables_Run, run, mbind, M_bind. cbn [get_svc]. rewrite read_chain_arg, read_rule_args.
  cbn. by destruct (valid (r_addr r)); [destruct (update _ _ _)|].
Qed.

#[global] Instance table : RuleTable rules (λ t, t) valid.
Proof.
  split; intros; rewrite run_command; repeat match goal with H : valid _ = _ |- _ => rewrite H end.
  - by eexists.
  - unfold update. rewrite bool_decide_false by done. rewrite H0, bool_decide_true by set_solver.
    rewrite remove_first_at by done. by eexists.
  - unfold update. rewrite !bool_decide_false by done. by eexists _, _, w.
  - by eexists _, _, w.
Qed.
End MemTables.

