(* ===== verification/MonitAgent.v ===== *)
(** * [src/acceptance-tests/testing/monit_agent]

    The agent runs [monit] for the tests: [/start], [/stop] and [/restart] of a
    job, on request with its store emptied, and [/job_status].

    - [handlers/monit_handler.go], [handlers/monit_job_status_handler.go];
    - [utils/monit_wrapper.go], [utils/remove_store.go];
    - [main.go].

    Running a command to its end is a parameter. *)
From stdpp Require Import sorting.
From S2P Require Import Prelude GoStrings GoPath Machine GoFlag GoUrl UrlFacts GoJson GoHttp GoServe.

Open Scope Z_scope.

(** ** [utils] *)

(** [ioutil.ReadDir(p)], the names: sorted. *)
Definition name_le (a b : string) : Prop := String.leb a b = true.
#[export] Instance name_le_dec a b : Decision (name_le a b).
Proof. unfold name_le. apply _. Defined.

Definition ReadDir {X} (p : string) : M X (list string * option error) :=
  '(f, err) ← Open p;
  match err with
  | Some err => mret ([], Some err)
  | None =>
      '(names, err) ← Readdirnames f;
      match err with
      | Some err => mret ([], Some err)
      | None => mret (merge_sort name_le names, None)
      end
  end.

(** The interfaces [monitWrapper] and [removeStore]. *)
Class MonitWrapper (X : Type) := {
  monit_Run : list string → M X (option error);
  monit_Output : list string → M X (string * option error)
}.
Class RemoveStore (X : Type) := store_DeleteContents : string → M X (option error).

(** Stops at the first name that cannot be removed. *)
Fixpoint remove_names {X} (dir : string) (names : list string) : M X (option error) :=
  match names with
  | [] => mret None
  | name :: names =>
      err ← RemoveAll (filepath_Join [dir; name]);
      match err with
      | Some err => mret (Some err)
      | None => remove_names dir names
      end
  end.

#[global] Instance DeleteContents {X} : RemoveStore X := λ dir,
  '(dirContents, err) ← ReadDir dir;
  match err with
  | Some err => mret (Some err)
  | None => remove_names dir dirContents
  end.

(** [NewMonitWrapper]; [run_command path args] is the output of a command that was
    waited for, and the error. *)
Definition NewMonitWrapper {X} (run_command : string → list string → M X (string * option error))
    (command : string) : MonitWrapper X := {|
  monit_Run args := '(_, err) ← run_command command args; mret err;
  monit_Output args :=
    '(output, err) ← run_command command args;
    match err with
    | Some err => mret ("", Some err)
    | None => mret (output, None)
    end
|}.

(** ** [handlers] *)

Section handlers.
Context {X : Type} `{MonitWrapper X} `{RemoveStore X}.

(** [logger.Println]: the logger of [main] writes its prefix and the line. *)
Definition Println (s : string) : M X unit := tell (Stdout ("[MonitAgent]" +:+ s)).

Definition log_error_line (err : option error) : M X unit :=
  match err with Some err => Println ("[ERR] " +:+ Error err) | None => mret tt end.

Definition store_dir (job : string) : string := "/var/vcap/store/" +:+ job.

(** [MonitHandler.ServeHTTP]: nothing is written to the response, so that it is
    an empty 200 in every case. *)
Definition Monit_ServeHTTP (command : string) : Handler X := λ rw req,
  let queryVals := Query (req_URL req) in
  let job := Values_Get queryVals "job" in
  let deleteStore := bool_decide (Values_Get queryVals "delete_store" = "true") in
  _ ← Println ("[INFO] monit " +:+ command +:+ " " +:+ job);
  err ← monit_Run [command; job];
  _ ← log_error_line err;
  if deleteStore then
    _ ← Println ("[INFO] deleting /var/vcap/store/" +:+ job +:+ " contents");
    err ← store_DeleteContents (store_dir job);
    _ ← log_error_line err;
    mret rw
  else mret rw.

Definition getJobStatusFromMonitSummaryOutput (job output : string) : string :=
  let lines := Split "010" output in
  let jobLine := default "" (last_match (λ line, Contains line ("Process '" +:+ job +:+ "'")) lines) in
  let tokens := Split "'" jobLine in
  TrimSpace (default "" (last tokens)).

(** [MonitJobStatusHandler.ServeHTTP]; writing does not fail. *)
Definition Status_ServeHTTP : Handler X := λ rw req,
  let job := Values_Get (Query (req_URL req)) "job" in
  _ ← Println ("[INFO] get job status of " +:+ job +:+ " using monit summary");
  '(output, err) ← monit_Output ["summary"];
  _ ← log_error_line err;
  _ ← Println ("[INFO] monit summary output: " +:+ output);
  mret (Write (getJobStatusFromMonitSummaryOutput job output) rw).
End handlers.

(** ** [main.go] *)

Module MonitMain.
Definition flag_defs : list flag_def := [
  mkFlag "port" "" "port to use for monit agent server";
  mkFlag "monitCommand" "/var/vcap/bosh/bin/monit" "command to use for monit agent server"
].

Definition mux {X} (monit : MonitWrapper X) : Handler X :=
  ServeMux [("/start", Monit_ServeHTTP "start"); ("/stop", Monit_ServeHTTP "stop");
            ("/restart", Monit_ServeHTTP "restart"); ("/job_status", Status_ServeHTTP)].

Definition main {X} (run_command : string → list string → M X (string * option error))
    (ListenAndServe : string → Handler X → M X error) (args : list string) : M X unit :=
  values ← FlagSet_Parse (default "" (head args)) flag_defs (drop 1 args);
  match values with
  | None => exit 2
  | Some values =>
      err ← ListenAndServe ("0.0.0.0:" +:+ value_of values "port")
        (mux (NewMonitWrapper run_command (value_of values "monitCommand")));
      _ ← tell (Stderr (Error err));
      exit 1
  end.
End MonitMain.
