(* ===== verification/MonitAgentSpec.v ===== *)
(** * What the monit agent does

    A job's status is read out of the summary, and a request that asks for it
    empties the job's store and nothing else. *)
From stdpp Require Import sorting.
From S2P Require Import Prelude GoStrings GoPath Machine GoUrl UrlFacts GoJson GoHttp GoServe.
From S2P Require Import Application Lifecycle MonitAgent.

Open Scope Z_scope.

(** ** The status *)

Lemma last_Split sep a b :
  has_char sep b = false → last (Split sep (a +:+ String sep b)) = Some b.
Proof. intros Hb. by rewrite Split_app_sep, (Split_id _ b), last_snoc. Qed.

(** A line of [monit summary]. *)
Definition process_line (job pad status : string) : string :=
  "Process '" +:+ job +:+ "'" +:+ pad +:+ status.

Definition one_line (s : string) : Prop := has_char "010" s = false.

Lemma has_char_spaces c s :
  all_chars is_space s = true → is_space c = false → has_char c s = false.
Proof. intros Hs Hc. by apply (all_chars_has is_space). Qed.

Lemma status_of_lines job pad status before after :
  Forall one_line (before ++ process_line job pad status :: after) →
  all_chars is_space pad = true → has_char "'" status = false → trimmed status →
  (∀ l, l ∈ after → Contains l ("Process '" +:+ job +:+ "'") = false) →
  getJobStatusFromMonitSummaryOutput job
    (Join (String "010" "") (before ++ process_line job pad status :: after)) = status.
Proof.
  intros Hlines Hpad Hq Ht Hafter. unfold getJobStatusFromMonitSummaryOutput.
  rewrite Split_Join; [|by destruct before|by apply Forall_forall].
  set (f := λ line, Contains line ("Process '" +:+ job +:+ "'")).
  assert (f (process_line job pad status) = true) as Hf.
  { unfold f, process_line. rewrite (app_assoc_s job "'"), (app_assoc_s "Process '").
    exact (Contains_app "" ("Process '" +:+ job +:+ "'") (pad +:+ status)). }
  assert (last_match f (before ++ process_line job pad status :: after) =
    Some (process_line job pad status)) as ->.
  { unfold last_match. rewrite foldl_app. cbn [foldl]. rewrite Hf.
    rewrite foldl_last_match. assert (last_match f after = None) as ->; [|done].
    by apply last_match_None. }
  cbn [default from_option id]. unfold process_line.
  rewrite (app_assoc_s "Process '"). change ("'" +:+ ?x) with (String "'" x).
  rewrite last_Split by (rewrite has_char_app, Hq, (has_char_spaces "'" pad) by done; done).
  cbn [default from_option id]. by rewrite TrimSpace_spaces.
Qed.

Lemma status_missing job output :
  (∀ l, l ∈ Split "010" output → Contains l ("Process '" +:+ job +:+ "'") = false) →
  getJobStatusFromMonitSummaryOutput job output = "".
Proof.
  intros H. unfold getJobStatusFromMonitSummaryOutput.
  assert (last_match (λ line, Contains line ("Process '" +:+ job +:+ "'")) (Split "010" output) = None)
    as ->; [by apply last_match_None|done].
Qed.

(** ** Emptying a directory *)

Section delete.
Context {X : Type}.
Implicit Types w : World X.

(** The names up to the first the kernel does not let go. *)
Fixpoint allowed_prefix w (d : list string) (names : list string) : list string :=
  match names with
  | [] => []
  | c :: names =>
      match deny w "removeall" (d ++ [c]) with
      | Some _ => []
      | None => c :: allowed_prefix w d names
      end
  end.

Lemma allowed_prefix_kernel w w' d names :
  kernel w' = kernel w → allowed_prefix w' d names = allowed_prefix w d names.
Proof. intros Hk. induction names as [|c names IH]; [done|]. cbn. unfold deny. by rewrite Hk, IH. Qed.

Lemma run_RemoveAll_deny dir c w d :
  dir ≠ "" → valid_name c → resolve (k_cwd (kernel w)) dir = d →
  ∃ w', RemoveAll (filepath_Join [dir; c]) w =
      (Val (match deny w "removeall" (d ++ [c]) with
            | Some errno => Some (PathError "remove" (filepath_Join [dir; c]) errno)
            | None => None
            end), w') ∧
    procs w' = procs w ∧ kernel w' = kernel w ∧ svc w' = svc w ∧
    fs w' = (if deny w "removeall" (d ++ [c]) then fs w else prune (d ++ [c]) (fs w)).
Proof.
  intros Hdir Hc Hd. unfold RemoveAll, locate.
  rewrite bool_decide_false, resolve_Join, Hd by first [done|by apply Join_not_empty].
  destruct (deny w "removeall" (d ++ [c])) as [e|]; by eexists.
Qed.

Lemma remove_names_run dir names w d :
  dir ≠ "" → Forall valid_name names → resolve (k_cwd (kernel w)) dir = d →
  ∃ r w', remove_names dir names w = (Val r, w') ∧
    procs w' = procs w ∧ kernel w' = kernel w ∧ svc w' = svc w ∧
    fs w' = foldl (λ f c, prune (d ++ [c]) f) (fs w) (allowed_prefix w d names) ∧
    (r = None ↔ allowed_prefix w d names = names).
Proof.
  intros Hdir Hn. revert w. induction Hn as [|c names Hc _ IH]; intros w Hd; [by exists None, w|].
  destruct (run_RemoveAll_deny dir c w d Hdir Hc Hd) as (w1&Hrun&Hp&Hk&Hs&Hf).
  cbn [remove_names allowed_prefix]. step Hrun.
  destruct (deny w "removeall" (d ++ [c])) as [e|]; [eexists _, w1; by split_and!|].
  destruct (IH w1) as (r&w2&Hrun2&Hp2&Hk2&Hs2&Hf2&Hr); [by rewrite Hk|].
  rewrite (allowed_prefix_kernel w w1) in Hf2, Hr by done.
  exists r, w2. split; [done|]. split_and!; [congruence..|by rewrite Hf2, Hf|].
  rewrite Hr. split; [by intros ->|by intros [= ->]].
Qed.

Lemma run_ReadDir dir w :
  let d := resolve (k_cwd (kernel w)) dir in
  ∃ names err w', ReadDir dir w = (Val (names, err), w') ∧ same_os w w' ∧ svc w' = svc w ∧
    match err with
    | Some _ => ¬ clearable w dir d
    | None => dir ≠ "" ∧ names = merge_sort name_le (child_names (fs w) d)
    end.
Proof.
  intros d. unfold ReadDir, mbind, M_bind, Open, locate, clearable. case_bool_decide as Hdir.
  { eexists _, _, _. split; [reflexivity|]. split_and!; [done..|]. by intros [? _]. }
  fold d. destruct (deny w "open" d) as [e|] eqn:Hopen.
  { eexists _, _, _. split; [reflexivity|]. split_and!; [done..|]. by intros (_&_&?&_). }
  destruct (fs w !! d) as [n|] eqn:Hd.
  2: { eexists _, _, _. split; [reflexivity|]. split_and!; [done..|]. by intros (_&?&_). }
  unfold Readdirnames. set (w1 := emit (Call "os.Open" [dir]) w).
  change (deny w1 "readdir" d) with (deny w "readdir" d). change (fs w1) with (fs w). rewrite Hd.
  destruct (deny w "readdir" d) as [e|] eqn:Hread; [|destruct n as [c|]];
    (eexists _, _, _; split; [reflexivity|]; split_and!; [done..|]).
  - by intros (_&_&_&?&_).
  - by intros (_&?&_).
  - done.
Qed.

(** What [DeleteContents] does to the directory [d]. *)
Lemma DeleteContents_run dir w :
  names_ok (fs w) →
  let d := resolve (k_cwd (kernel w)) dir in
  ∃ r w', store_DeleteContents dir w = (Val r, w') ∧ procs w' = procs w ∧ kernel w' = kernel w ∧
    svc w' = svc w ∧ cleared d (fs w) (fs w') ∧
    (r = None → ∀ l, below d l = true → fs w' !! l = None) ∧
    (clearable w dir d → r = None).
Proof.
  intros Hok d. unfold store_DeleteContents, DeleteContents.
  destruct (run_ReadDir dir w) as (names&err&w1&Hread&(Hf1&Hp1&Hk1)&Hs1&Herr). fold d in Herr.
  step Hread. destruct err as [err|].
  { exists (Some err), w1. rewrite Hf1. split_and!; [done..|apply cleared_refl|done|done]. }
  destruct Herr as [Hdir ->]. set (names := merge_sort name_le (child_names (fs w) d)).
  assert (∀ c, c ∈ names ↔ c ∈ child_names (fs w) d) as Hin
    by (intros c; unfold names; by rewrite merge_sort_Permutation).
  assert (Forall valid_name names) as Hv.
  { apply Forall_forall. intros c Hc%Hin. pose proof (child_names_valid _ d Hok) as Hall.
    rewrite Forall_forall in Hall. by apply Hall. }
  destruct (remove_names_run dir names w1 d Hdir Hv) as (r&w2&Hrun&Hp2&Hk2&Hs2&Hf2&Hr);
    [by rewrite Hk1|].
  rewrite (allowed_prefix_kernel w w1) in Hf2, Hr by done. rewrite Hf1 in Hf2.
  exists r, w2. split; [done|]. split_and!; [congruence..| | |].
  - intros l. rewrite Hf2, lookup_prune_children. split; [|destruct (existsb _ _); eauto].
    intros Hb. destruct (existsb _ _) eqn:He; [|done]. exfalso.
    apply existsb_exists in He as (c&_&Hc).
    assert (below d l = true) by (apply below_child; eauto). congruence.
  - intros Hall%Hr l Hb. rewrite Hf2, Hall, lookup_prune_children.
    destruct (fs w !! l) as [n|] eqn:Hl; [|by destruct (existsb _ _)].
    apply below_child in Hb as [c Hc].
    assert (existsb (λ c, at_or_below (d ++ [c]) l) names = true) as ->; [|done].
    apply existsb_exists. exists c. split; [|done]. apply list_elem_of_In, Hin, elem_of_child_names. eauto.
  - intros (_&_&_&_&Hdeny). apply Hr. generalize names. intros l. induction l as [|c l IH]; [done|].
    cbn. by rewrite Hdeny, IH.
Qed.
End delete.

(** ** Requests *)

Lemma run_Println {X} s (w : World X) : Println s w = (Val tt, emit (Stdout ("[MonitAgent]" +:+ s)) w).
Proof. done. Qed.

Definition monit_query (job : string) (delete_store : bool) : string :=
  "job=" +:+ job +:+ (if delete_store then "&delete_store=true" else "").

Definition monit_request (path job : string) (delete_store : bool) : Request :=
  mkRequest "GET" (served_URL path (monit_query job delete_store)) ("", None).

Lemma monit_values path job delete_store :
  all_chars plain_path job = true →
  let values := Query (req_URL (monit_request path job delete_store)) in
  Values_Get values "job" = job ∧
  bool_decide (Values_Get values "delete_store" = "true") = delete_store.
Proof.
  intros Hj. cbv zeta. destruct delete_store.
  - assert (Query (req_URL (monit_request path job true)) = [("job", job); ("delete_store", "true")])
      as ->; [|by split].
    unfold Query, query_pairs. cbn [req_URL monit_request served_URL RawQuery]. unfold monit_query.
    assert (∀ d, plain_path d = false → has_char d job = false) as Hno
      by (intros d Hd; by apply (all_chars_has plain_path)).
    rewrite replace_all_id by (rewrite !has_char_app, Hno; done).
    rewrite (app_assoc_s "job="). change ("&delete_store=true") with (String "&" "delete_store=true").
    rewrite Split_app_sep, Split_id by (rewrite has_char_app, Hno; done). cbn [app omap list_omap].
    rewrite bool_decide_false by done. change ("job=" +:+ job) with ("job" +:+ String "=" job).
    rewrite split_at_char by done. rewrite !QueryUnescape_plain by done. done.
  - assert (Query (req_URL (monit_request path job false)) = [("job", job)]) as ->; [|by split].
    apply (Query_single "job" job); try done.
    cbn [req_URL monit_request served_URL RawQuery]. unfold monit_query. by rewrite (app_nil_s job).
Qed.

(** ** Theorems *)

(** C38: the status of a job is read from the output of [monit summary]: the text
    behind the name in the last line of a process of that name, without the
    spaces around it; without such a line the answer is empty.  What monit
    prints for a job is what the caller gets. *)
Theorem job_status_roundtrip {X} `{MonitWrapper X} job pad status before after w
    (Hsummary : ∀ w, ∃ w', monit_Output ["summary"] w =
      (Val (Join (String "010" "") (before ++ process_line job pad status :: after), None), w'))
    (Hjob : all_chars plain_path job = true)
    (Hlines : Forall one_line (before ++ process_line job pad status :: after))
    (Hpad : all_chars is_space pad = true) (Hq : has_char "'" status = false) (Ht : trimmed status)
    (Hafter : ∀ l, l ∈ after → Contains l ("Process '" +:+ job +:+ "'") = false) :
  ∃ w', Status_ServeHTTP fresh_response (monit_request "job_status" job false) w =
    (Val (mkResponseWriter (Some StatusOK) status), w').
Proof.
  unfold Status_ServeHTTP. destruct (monit_values "job_status" job false Hjob) as [Hj _].
  cbv zeta in *. rewrite Hj.
  rewrite (bind_Val _ _ _ _ _ (run_Println _ w)).
  destruct (Hsummary (emit (Stdout ("[MonitAgent]" +:+ "[INFO] get job status of " +:+ job +:+
    " using monit summary")) w)) as (w1&Hout). step Hout.
  rewrite status_of_lines by done. by eexists.
Qed.

(** C39: whatever monit does and answers, the agent then empties the store of the
    job, [/var/vcap/store/<job>], exactly if it was asked to: nothing outside that
    directory changes, and the directory ends up empty unless the kernel refuses something; the
    answer is an empty 200 in every case. *)
Theorem monit_clears_own_store {X} `{MonitWrapper X} command job delete_store w err w1
    (Hrun : monit_Run [command; job]
      (emit (Stdout ("[MonitAgent]" +:+ "[INFO] monit " +:+ command +:+ " " +:+ job)) w) = (Val err, w1))
    (Hjob : all_chars plain_path job = true) (Hok : names_ok (fs w1)) :
  let dir := "/var/vcap/store/" +:+ job in
  let d := resolve (k_cwd (kernel w1)) dir in
  ∃ w', Monit_ServeHTTP command fresh_response (monit_request command job delete_store) w =
      (Val fresh_response, w') ∧
    (finished fresh_response).1 = StatusOK ∧ procs w' = procs w1 ∧ svc w' = svc w1 ∧
    (delete_store = false → fs w' = fs w1) ∧ cleared d (fs w1) (fs w') ∧
    (delete_store = true → clearable w1 dir d → ∀ l, below d l = true → fs w' !! l = None).
Proof.
  intros dir d. change dir with (store_dir job) in *. unfold Monit_ServeHTTP.
  destruct (monit_values command job delete_store Hjob) as [Hj Hd]. cbv zeta in *. rewrite Hj, Hd.
  rewrite (bind_Val _ _ _ _ _ (run_Println _ w)). step Hrun.
  assert (∀ (err : option error) (w0 : World X), ∃ w',
    log_error_line err w0 = (Val tt, w') ∧ same_os w0 w' ∧ svc w' = svc w0) as Hlog
    by (intros [e|] w0; by eexists).
  destruct (Hlog err w1) as (w3&Hl&(Hf&Hp&Hk)&Hs). step Hl.
  destruct delete_store; [|exists w3; rewrite Hf; split_and!; [done..|apply cleared_refl|done]].
  rewrite (bind_Val _ _ _ _ _ (run_Println _ w3)). set (w4 := emit _ w3).
  destruct (DeleteContents_run (store_dir job) w4) as (r&w5&Hdel&Hp5&_&Hs5&Hc5&Hn5&Hr5);
    [change (fs w4) with (fs w3); by rewrite Hf|].
  unfold clearable, deny in Hr5.
  change (kernel w4) with (kernel w3) in *. change (fs w4) with (fs w3) in *.
  rewrite Hk, Hf in *. fold d in Hc5, Hn5, Hr5.
  step Hdel. destruct (Hlog r w5) as (w6&Hl6&(Hf6&Hp6&_)&Hs6). step Hl6.
  exists w6. rewrite Hf6, Hp6, Hp5, Hs6, Hs5. split_and!; [done|done|exact Hp|exact Hs|done|done|].
  intros _ Hclear. by apply Hn5, Hr5.
Qed.

(** ** Witnesses *)

Definition example_summary : list string :=
  ["The Monit daemon 5.2.5 uptime: 3h 2m"; ""; "Process 'etcd_consistency_checker'  running"].

(** A monit that prints a summary and does what it is told. *)
Definition example_monit (output : string) : MonitWrapper unit := {|
  monit_Run args := tell (Call "monit" args) ≫= (λ _, mret None);
  monit_Output args := mret (output, None)
|}.

Lemma job_status_roundtrip_witness :
  ∃ w', Status_ServeHTTP (H := example_monit (Join (String "010" "")
        (example_summary ++ process_line "etcd" "                " "not monitored" :: ["System 'x' running"])))
      fresh_response (monit_request "job_status" "etcd" false) (mkWorld ∅ ∅ permissive_kernel tt []) =
    (Val (mkResponseWriter (Some 200) "not monitored"), w').
Proof.
  apply (job_status_roundtrip (H := example_monit (Join (String "010" "")
        (example_summary ++ process_line "etcd" "                " "not monitored" :: ["System 'x' running"])))
    "etcd" "                " "not monitored" example_summary ["System 'x' running"]).
  - intros w. by exists w.
  - vm_compute. reflexivity.
  - repeat (apply Forall_cons; split; [vm_compute; reflexivity|]); apply Forall_nil_2.
  - vm_compute. reflexivity.
  - vm_compute. reflexivity.
  - vm_compute. reflexivity.
  - intros l ->%list_elem_of_singleton. vm_compute. reflexivity.
Defined.

Definition example_store : gmap (list string) node :=
  list_to_map [([], Dir); (["var"], Dir); (["var"; "vcap"], Dir); (["var"; "vcap"; "store"], Dir);
    (["var"; "vcap"; "store"; "etcd"], Dir); (["var"; "vcap"; "store"; "etcd"; "member"], Dir);
    (["var"; "vcap"; "store"; "etcd"; "member"; "wal"], File "x");
    (["var"; "vcap"; "store"; "consul"], File "y")].

Lemma monit_clears_own_store_witness :
  ∃ w', Monit_ServeHTTP (H := example_monit "") "stop" fresh_response (monit_request "stop" "etcd" true)
      (mkWorld example_store ∅ permissive_kernel tt []) = (Val fresh_response, w') ∧
    fs w' !! ["var"; "vcap"; "store"; "etcd"; "member"; "wal"] = None ∧
    fs w' !! ["var"; "vcap"; "store"; "consul"] = Some (File "y").
Proof.
  set (w := mkWorld example_store ∅ permissive_kernel tt []).
  destruct (monit_clears_own_store (H := example_monit "") "stop" "etcd" true w None
    (emit (Call "monit" ["stop"; "etcd"]) (emit (Stdout "[MonitAgent][INFO] monit stop etcd") w)) eq_refl eq_refl)
    as (w'&Hrun&_&_&_&_&Hc&Hn).
  { apply names_ok_decide. vm_compute. reflexivity. }
  exists w'. split; [exact Hrun|].
  split; [apply Hn; [done|by split_and!|by vm_compute]|].
  destruct (Hc ["var"; "vcap"; "store"; "consul"]) as [Hout _]. rewrite Hout by (by vm_compute).
  by vm_compute.
Defined.
