(* ===== verification/EatsConfig.v ===== *)
(** * [src/acceptance-tests/testing/helpers/config.go] and [guid.go]

    The configuration of a run of the acceptance tests, and the GUIDs its
    deployments are named with.  Environment variables and random bytes are
    parameters. *)
From S2P Require Import Prelude GoStrings GoPath Machine GoJson GoUrl.

Open Scope Z_scope.

(** ** [config.go] *)

Record ConfigBOSH := mkConfigBOSH {
  Target : string;
  BOSH_Host : string;
  Username : string;
  Password : string;
  DirectorCACert : string;
  DeploymentVarsPath : string
}.
Record ConfigAWS := mkConfigAWS {
  Subnet : string;
  AccessKeyID : string;
  SecretAccessKey : string;
  DefaultKeyName : string;
  DefaultSecurityGroups : list string;
  Region : string
}.
Record ConfigRegistry := mkConfigRegistry {
  Registry_Host : string;
  Registry_Port : Z;
  Registry_Username : string;
  Registry_Password : string
}.
Record ConfigCF := mkConfigCF { Domain : string }.
Record Config := mkConfig {
  BOSH : ConfigBOSH;
  AWS : ConfigAWS;
  Registry : ConfigRegistry;
  TurbulenceReleaseName : string;
  IPTablesAgent : bool;
  CF : ConfigCF
}.

Definition zero_BOSH : ConfigBOSH := mkConfigBOSH "" "" "" "" "" "".
Definition zero_AWS : ConfigAWS := mkConfigAWS "" "" "" "" [] "".
Definition zero_Registry : ConfigRegistry := mkConfigRegistry "" 0 "" "".
Definition zero_Config : Config := mkConfig zero_BOSH zero_AWS zero_Registry "" false (mkConfigCF "").

Definition BOSH_fields : list (jfield ConfigBOSH) := [
  mk_field "target" Target (λ v '(mkConfigBOSH _ b c d e f), mkConfigBOSH v b c d e f);
  mk_field "host" BOSH_Host (λ v '(mkConfigBOSH a _ c d e f), mkConfigBOSH a v c d e f);
  mk_field "username" Username (λ v '(mkConfigBOSH a b _ d e f), mkConfigBOSH a b v d e f);
  mk_field "password" Password (λ v '(mkConfigBOSH a b c _ e f), mkConfigBOSH a b c v e f);
  mk_field "director_ca_cert" DirectorCACert
    (λ v '(mkConfigBOSH a b c d _ f), mkConfigBOSH a b c d v f);
  mk_field "deployment_vars_path" DeploymentVarsPath
    (λ v '(mkConfigBOSH a b c d e _), mkConfigBOSH a b c d e v)
].
#[export] Instance BOSH_FromJson : FromJson ConfigBOSH := {|
  jzero := zero_BOSH;
  jtype := "helpers.ConfigBOSH";
  jdecode := decode_struct "helpers.ConfigBOSH" BOSH_fields
|}.

Definition AWS_fields : list (jfield ConfigAWS) := [
  mk_field "subnet" Subnet (λ v '(mkConfigAWS _ b c d e f), mkConfigAWS v b c d e f);
  mk_field "access_key_id" AccessKeyID (λ v '(mkConfigAWS a _ c d e f), mkConfigAWS a v c d e f);
  mk_field "secret_access_key" SecretAccessKey
    (λ v '(mkConfigAWS a b _ d e f), mkConfigAWS a b v d e f);
  mk_field "default_key_name" DefaultKeyName
    (λ v '(mkConfigAWS a b c _ e f), mkConfigAWS a b c v e f);
  mk_field "default_security_groups" DefaultSecurityGroups
    (λ v '(mkConfigAWS a b c d _ f), mkConfigAWS a b c d v f);
  mk_field "region" Region (λ v '(mkConfigAWS a b c d e _), mkConfigAWS a b c d e v)
].
#[export] Instance AWS_FromJson : FromJson ConfigAWS := {|
  jzero := zero_AWS;
  jtype := "helpers.ConfigAWS";
  jdecode := decode_struct "helpers.ConfigAWS" AWS_fields
|}.

Definition Registry_fields : list (jfield ConfigRegistry) := [
  mk_field "host" Registry_Host (λ v '(mkConfigRegistry _ b c d), mkConfigRegistry v b c d);
  mk_field "port" Registry_Port (λ v '(mkConfigRegistry a _ c d), mkConfigRegistry a v c d);
  mk_field "username" Registry_Username (λ v '(mkConfigRegistry a b _ d), mkConfigRegistry a b v d);
  mk_field "password" Registry_Password (λ v '(mkConfigRegistry a b c _), mkConfigRegistry a b c v)
].
#[export] Instance Registry_FromJson : FromJson ConfigRegistry := {|
  jzero := zero_Registry;
  jtype := "helpers.ConfigRegistry";
  jdecode := decode_struct "helpers.ConfigRegistry" Registry_fields
|}.

Definition CF_fields : list (jfield ConfigCF) := [
  mk_field "domain" Domain (λ v _, mkConfigCF v)
].
#[export] Instance CF_FromJson : FromJson ConfigCF := {|
  jzero := mkConfigCF "";
  jtype := "helpers.ConfigCF";
  jdecode := decode_struct "helpers.ConfigCF" CF_fields
|}.

(** Fields without a tag go by their names. *)
Definition Config_fields : list (jfield Config) := [
  mk_field "bosh" BOSH (λ v '(mkConfig _ b c d e f), mkConfig v b c d e f);
  mk_field "aws" AWS (λ v '(mkConfig a _ c d e f), mkConfig a v c d e f);
  mk_field "registry" Registry (λ v '(mkConfig a b _ d e f), mkConfig a b v d e f);
  mk_field "TurbulenceReleaseName" TurbulenceReleaseName
    (λ v '(mkConfig a b c _ e f), mkConfig a b c v e f);
  mk_field "IPTablesAgent" IPTablesAgent (λ v '(mkConfig a b c d _ f), mkConfig a b c d v f);
  mk_field "cf" CF (λ v '(mkConfig a b c d e _), mkConfig a b c d e v)
].
#[export] Instance Config_FromJson : FromJson Config := {|
  jzero := zero_Config;
  jtype := "helpers.Config";
  jdecode := decode_struct "helpers.Config" Config_fields
|}.

(** [u.Hostname()]: the host without its port or its brackets. *)
Definition Hostname (u : URL) : string :=
  let hostport := Host u in
  if negb (has_char ":" hostport) then hostport
  else if has_char "]" hostport then TrimPrefix (split "]" true hostport).1 "["
  else (split ":" true hostport).1.

Definition checkAbsolutePath (configValue jsonKey : string) : option error :=
  if negb (HasPrefix configValue "/") then
    Some (ErrorString ("invalid `" +:+ jsonKey +:+ "` " +:+ Quote configValue +:+
      " - must be an absolute path"))
  else None.

Definition addBOSHHost (target : string) : string * option error :=
  match Parse target with
  | inl err => ("", Some (ErrorString err))
  | inr u => (Hostname u, None)
  end.

Definition missing (key hint : string) : error :=
  ErrorString ("missing `" +:+ key +:+ "` - " +:+ hint).

(** What [LoadConfig] sets once the file is checked. *)
Definition with_host (host : string) (c : Config) : Config :=
  let '(mkConfigBOSH t _ u p ca vars) := BOSH c in
  mkConfig (mkConfigBOSH t host u p ca vars) (AWS c) (Registry c) (TurbulenceReleaseName c)
    (IPTablesAgent c) (CF c).
Definition or_default (s d : string) : string := if bool_decide (s = "") then d else s.
Definition with_defaults (c : Config) : Config :=
  let '(mkConfigAWS s i k key g r) := AWS c in
  mkConfig (BOSH c) (mkConfigAWS s i k (or_default key "bosh") g (or_default r "us-east-1"))
    (Registry c) "turbulence" (IPTablesAgent c) (CF c).

Section config.
Context {X : Type}.

(** A file that was opened can be read. *)
Definition loadConfigJsonFromPath (configFilePath : string) : M X (Config * option error) :=
  '(text, err) ← ReadFile configFilePath;
  match err with
  | Some err => mret (zero_Config, Some err)
  | None =>
      let '(config, err) := Decode text zero_Config in
      match err with
      | Some err => mret (zero_Config, Some err)
      | None => mret (config, None)
      end
  end.

Definition LoadConfig (configFilePath : string) : M X (Config * option error) :=
  '(config, err) ← loadConfigJsonFromPath configFilePath;
  match err with
  | Some err => mret (zero_Config, Some err)
  | None =>
  if bool_decide (Target (BOSH config) = "") then
    mret (zero_Config, Some (missing "bosh.target" "e.g. 'lite' or '192.168.50.4'"))
  else
  let '(host, err) := addBOSHHost (Target (BOSH config)) in
  match err with
  | Some err => mret (zero_Config, Some err)
  | None =>
  let config := with_host host config in
  if bool_decide (Username (BOSH config) = "") then
    mret (zero_Config, Some (missing "bosh.username" "specify username for authenticating with BOSH"))
  else if bool_decide (Password (BOSH config) = "") then
    mret (zero_Config, Some (missing "bosh.password" "specify password for authenticating with BOSH"))
  else mret (with_defaults config, None)
  end end.
End config.

(** [getenv] is the environment. *)
Definition ConfigPath (getenv : string → string) : string * option error :=
  let path := getenv "EATS_CONFIG" in
  if bool_decide (path = "") || negb (HasPrefix path "/") then
    ("", Some (ErrorString ("$EATS_CONFIG " +:+ Quote path +:+
      " does not specify an absolute path to test config file")))
  else (path, None).

Definition EtcdDevReleaseVersion (getenv : string → string) : string :=
  let version := getenv "ETCD_RELEASE_VERSION" in
  if bool_decide (version = "") then "latest" else version.

(** ** [guid.go] *)

Definition hex_digit (n : Z) : ascii := ascii_of_N (Z.to_N (if n <? 10 then 48 + n else 87 + n)).
(** [%x] of bytes. *)
Definition hex_bytes (l : list Z) : string :=
  foldr (λ b s, String (hex_digit (b / 16)) (String (hex_digit (b mod 16)) s)) "" l.

(** [read]: the result of [rand.Read] into 16 bytes. *)
Definition NewGUID (read : error + list Z) : string * option error :=
  match read with
  | inl err => ("", Some err)
  | inr buf =>
      (hex_bytes (take 4 buf) +:+ "-" +:+ hex_bytes (take 2 (drop 4 buf)) +:+ "-" +:+
       hex_bytes (take 2 (drop 6 buf)) +:+ "-" +:+ hex_bytes (take 2 (drop 8 buf)) +:+ "-" +:+
       hex_bytes (drop 10 buf), None)
  end.

(** ** What a configuration that is accepted has *)

Definition complete (c : Config) : Prop :=
  Target (BOSH c) ≠ "" ∧ Username (BOSH c) ≠ "" ∧ Password (BOSH c) ≠ "" ∧
  DefaultKeyName (AWS c) ≠ "" ∧ Region (AWS c) ≠ "" ∧ TurbulenceReleaseName c = "turbulence".

(** The settings of a file that the program does not touch. *)
Definition same_settings (c c' : Config) : Prop :=
  Target (BOSH c') = Target (BOSH c) ∧ Username (BOSH c') = Username (BOSH c) ∧
  Password (BOSH c') = Password (BOSH c) ∧ DirectorCACert (BOSH c') = DirectorCACert (BOSH c) ∧
  DeploymentVarsPath (BOSH c') = DeploymentVarsPath (BOSH c) ∧
  (DefaultKeyName (AWS c) ≠ "" → DefaultKeyName (AWS c') = DefaultKeyName (AWS c)) ∧
  (Region (AWS c) ≠ "" → Region (AWS c') = Region (AWS c)) ∧
  Subnet (AWS c') = Subnet (AWS c) ∧ AccessKeyID (AWS c') = AccessKeyID (AWS c) ∧
  SecretAccessKey (AWS c') = SecretAccessKey (AWS c) ∧
  DefaultSecurityGroups (AWS c') = DefaultSecurityGroups (AWS c) ∧
  Registry c' = Registry c ∧ IPTablesAgent c' = IPTablesAgent c ∧ CF c' = CF c.

Lemma or_default_nonempty s d : d ≠ "" → or_default s d ≠ "".
Proof. intros Hd. unfold or_default. by case_bool_decide. Qed.

Lemma or_default_given s d : s ≠ "" → or_default s d = s.
Proof. intros Hs. unfold or_default. by rewrite bool_decide_false. Qed.

Lemma run_loadConfigJson {X} p (w : World X) :
  loadConfigJsonFromPath p w =
  (Val (match read_file p w with
        | (_, Some e) => (zero_Config, Some e)
        | (text, None) =>
            match Decode text zero_Config with
            | (_, Some e) => (zero_Config, Some e)
            | (c, None) => (c, None)
            end
        end), emit (Call "ioutil.ReadFile" [p]) w).
Proof.
  unfold loadConfigJsonFromPath. steps. destruct (read_file p w) as [text [e|]]; [done|].
  by destruct (Decode text zero_Config) as [c0 [e|]].
Qed.

(** A file that is refused. *)
Ltac refuse :=
  eexists _, _, _; split_and!; try done; split; [done|];
  intros (?&?&?&?&?&?&?&?&?); simplify_eq; try done;
  try match goal with
  | H : Decode _ _ = _, H' : Decode _ _ = _ |- _ => rewrite H in H'; simplify_eq/=
  end; congruence.

(** A file is accepted exactly if it can be read, is JSON of the right types, and
    has a target that parses, a user and a password; the result is complete, has
    the host of the target, whatever host the file names, and keeps every other
    setting. *)
Theorem LoadConfig_accepts {X} p (w : World X) :
  ∃ c err w', LoadConfig p w = (Val (c, err), w') ∧ same_os w w' ∧
    (err = None ↔ ∃ text c0 u, read_file p w = (text, None) ∧
      Decode text zero_Config = (c0, None) ∧ Target (BOSH c0) ≠ "" ∧
      Parse (Target (BOSH c0)) = inr u ∧ Username (BOSH c0) ≠ "" ∧ Password (BOSH c0) ≠ "") ∧
    (err ≠ None → c = zero_Config) ∧
    (err = None → complete c ∧ ∃ text c0 u, read_file p w = (text, None) ∧
      Decode text zero_Config = (c0, None) ∧ same_settings c0 c ∧
      Parse (Target (BOSH c0)) = inr u ∧ BOSH_Host (BOSH c) = Hostname u).
Proof.
  unfold LoadConfig. step (run_loadConfigJson p w).
  destruct (read_file p w) as [text [e|]]; cbn iota beta; [refuse|].
  destruct (Decode text zero_Config) as [c0 [e|]] eqn:Hd; cbn iota beta; [refuse|].
  case_bool_decide as Ht; [refuse|].
  unfold addBOSHHost. destruct (Parse (Target (BOSH c0))) as [e|u] eqn:Hu; [refuse|].
  destruct c0 as [[t h us pw ca vars] [sn i k key g r] reg tur ip cf]. simpl in Ht, Hu. simpl.
  case_bool_decide as Hus; [refuse|]. case_bool_decide as Hpw; [refuse|].
  eexists _, _, _. split_and!; try done; [by split; [eauto 12|]|]. intros _. split.
  - unfold complete. simpl. split_and!; try done; by apply or_default_nonempty.
  - eexists _, _, u. split_and!; try done. unfold same_settings. simpl.
    split_and!; try done; apply or_default_given.
Qed.

(** The host of a director's URL, with or without a port, is found ... *)
Theorem director_host (tls : bool) host port :
  all_chars plain_host host = true → has_char ":" host = false →
  (port = "" ∨ ∃ n, port = ":" +:+ n ∧ all_chars plain_host n = true) →
  addBOSHHost ((if tls then "https" else "http") +:+ "://" +:+ host +:+ port) = (host, None).
Proof.
  intros Hh Hc Hp.
  assert (∀ n, split ":" true (host +:+ String ":" n) = (host, n)) as Hs.
  { intros n. clear Hh Hp. induction host as [|c host IH]; [done|]. rewrite app_cons_s. simpl in *.
    apply orb_false_iff in Hc as [Hc Hc']. apply bool_decide_eq_false in Hc.
    rewrite bool_decide_false by congruence. by rewrite IH. }
  assert (has_char "]" host = false) as Hb by (by apply (all_chars_has plain_host)).
  assert (port = "" ∨ ∃ n, port = String ":" n ∧ all_chars plain_host n = true) as Hp'
    by (destruct Hp as [->|(n&->&?)]; [by left|right; by exists n]).
  clear Hp. unfold addBOSHHost. rewrite Parse_authority.
  - unfold Hostname. cbn [Host authority_URL]. destruct Hp' as [->|(n&->&Hn)].
    + by rewrite app_nil_s, Hc.
    + rewrite !has_char_app, Hc, Hb. simpl.
      rewrite (all_chars_has plain_host "]" _ Hn) by done. by rewrite Hs.
  - rewrite all_chars_app, Hh. destruct Hp' as [->|(n&->&Hn)]; [done|exact Hn].
Qed.

(** ... but the two examples the error message gives have none. *)
Theorem suggested_targets :
  addBOSHHost "lite" = ("", None) ∧ addBOSHHost "192.168.50.4" = ("", None).
Proof. by vm_compute. Qed.

(** ** GUIDs *)

Definition byte (b : Z) : Prop := 0 <= b < 256.

(** Reading a GUID back. *)
Fixpoint read_guid (s : string) : option (list Z) :=
  match s with
  | "" => Some []
  | String "-" s => read_guid s
  | String a (String b s) =>
      match hex a, hex b with
      | Some x, Some y => cons (16 * x + y) <$> read_guid s
      | _, _ => None
      end
  | _ => None
  end.

Lemma hex_hex_digit n : 0 <= n < 16 → hex (hex_digit n) = Some n.
Proof.
  intros Hn. assert (forallb (λ n, bool_decide (hex (hex_digit n) = Some n)) (seqZ 0 16) = true) as H
    by (by vm_compute).
  rewrite forallb_forall in H. specialize (H n). rewrite <-list_elem_of_In, elem_of_seqZ in H.
  apply (bool_decide_eq_true_1 _ (H Hn)).
Qed.

Lemma hex_digit_not_dash n : 0 <= n < 16 → hex_digit n ≠ "-"%char.
Proof. intros Hn Heq. pose proof (hex_hex_digit n Hn) as H. by rewrite Heq in H. Qed.

Lemma digits b : byte b → 0 <= b / 16 < 16 ∧ 0 <= b mod 16 < 16.
Proof. unfold byte. intros Hb. Z.to_euclidean_division_equations. lia. Qed.

Lemma read_digits a b s : a ≠ "-"%char →
  read_guid (String a (String b s)) =
  match hex a, hex b with
  | Some x, Some y => cons (16 * x + y) <$> read_guid s
  | _, _ => None
  end.
Proof. intros Ha. destruct a as [[] [] [] [] [] [] [] []]; try done. Qed.

Lemma read_hex_bytes l s :
  Forall byte l → read_guid (hex_bytes l +:+ s) = app l <$> read_guid s.
Proof.
  induction 1 as [|b l Hb _ IH].
  { change (hex_bytes [] +:+ s) with s. by destruct (read_guid s). }
  destruct (digits b Hb) as [H1 H2]. simpl hex_bytes.
  change (read_guid (String (hex_digit (b / 16)) (String (hex_digit (b mod 16)) (hex_bytes l)) +:+ s) =
    app (b :: l) <$> read_guid s).
  rewrite !app_cons_s, (read_digits (hex_digit (b / 16))) by (by apply hex_digit_not_dash).
  rewrite !hex_hex_digit, IH by done.
  rewrite <-(Z_div_mod_eq_full b 16). by destruct (read_guid s).
Qed.

Lemma hex_bytes_chars p l :
  (∀ n, 0 <= n < 16 → p (hex_digit n) = true) → Forall byte l → all_chars p (hex_bytes l) = true.
Proof.
  intros Hp. induction 1 as [|b l Hb _ IH]; [done|]. destruct (digits b Hb). simpl.
  by rewrite !Hp, IH by done.
Qed.

Lemma length_hex_bytes l : String.length (hex_bytes l) = (2 * length l)%nat.
Proof. induction l as [|b l IH]; [done|]. simpl. rewrite IH. lia. Qed.

(** A GUID has 36 characters, lower-case hexadecimal digits and dashes, and can be
    read back: different random bytes give different GUIDs. *)
Theorem guid_roundtrip buf :
  length buf = 16%nat → Forall byte buf →
  ∃ s, NewGUID (inr buf) = (s, None) ∧ read_guid s = Some buf ∧ String.length s = 36%nat ∧
    all_chars (λ c, is_num c || between "a" "f" c || bool_decide (c = "-"%char)) s = true.
Proof.
  intros Hlen Hb. eexists. split; [reflexivity|].
  assert (∀ n m, Forall byte (take n (drop m buf))) as Hpart
    by (intros; by apply Forall_take, Forall_drop).
  assert (∀ s, read_guid ("-" +:+ s) = read_guid s) as Hdash by done.
  split; [|split].
  - rewrite !read_hex_bytes, Hdash, !read_hex_bytes, Hdash, !read_hex_bytes, Hdash, !read_hex_bytes,
      Hdash by (try apply Hpart; by apply Forall_take || by apply Forall_drop).
    rewrite <-(app_nil_s (hex_bytes (drop 10 buf))), read_hex_bytes by (by apply Forall_drop).
    simpl. f_equal. rewrite app_nil_r. do 16 (destruct buf as [|? buf]; [done|]).
    by destruct buf.
  - do 16 (destruct buf as [|? buf]; [done|]). by destruct buf.
  - rewrite !all_chars_app, !hex_bytes_chars; try done;
      try (by apply Forall_take); try (by apply Forall_drop); try apply Hpart;
      (intros n Hn; assert (forallb (λ n, is_num (hex_digit n) || between "a" "f" (hex_digit n) ||
        bool_decide (hex_digit n = "-"%char)) (seqZ 0 16) = true) as H by (by vm_compute);
       rewrite forallb_forall in H; apply H; rewrite <-list_elem_of_In; by apply elem_of_seqZ).
Qed.

Lemma guid_roundtrip_witness :
  ∃ s, NewGUID (inr (seqZ 250 6 ++ seqZ 0 10)) = (s, None) ∧ String.length s = 36%nat.
Proof.
  destruct (guid_roundtrip (seqZ 250 6 ++ seqZ 0 10) eq_refl) as (s&Hs&_&Hl&_).
  - repeat (apply Forall_cons; split; [unfold byte; lia|]). constructor.
  - by exists s.
Defined.
