(* ===== verification/BoshHelpers.v ===== *)
(** * [src/acceptance-tests/testing/helpers]: [deploy_etcd.go],
    [deploy_turbulence.go] and [manifest.go]

    The deployments of the acceptance tests: building a manifest, having the
    director resolve and deploy it, and reading back what the director runs.
    The director's client ([bosh-test]) is an interface; the libraries that
    build, patch and read manifests ([destiny]) are parameters. *)
From S2P Require Import Prelude GoStrings GoPath Machine EatsConfig.

Open Scope Z_scope.

(** ** Data: the fields the helpers use of the libraries' types *)

Record VM := mkVM { JobName : string; Index : Z; State : string; IPs : list string; ID : string }.
Record Release := mkRelease { Release_Name : string; Versions : list string }.
Record BoshDeployment := mkBoshDeployment { Deployment_Name : string; Releases : list Release }.
Record InstanceGroup := mkInstanceGroup { ig_Name : string; Instances : Z; ig_Lifecycle : string }.
Record BoshConfig := mkBoshConfig { bc_Host : string; bc_Username : string; bc_Password : string; bc_DirectorCACert : string }.

#[export] Instance VM_eq_dec : EqDecision VM.
Proof. solve_decision. Defined.

(** [ops.Op]: its value is a string or an integer here. *)
Inductive OpValue := OpStr (s : string) | OpInt (z : Z).
Record Op := mkOp { Type_ : string; Path_ : string; Value_ : OpValue }.

(** [etcd.ConfigV2] and [turbulence.ConfigV2]. *)
Record EtcdConfigV2 := mkEtcdConfigV2 { ec_Name : string; ec_AZs : list string; ec_EnableSSL : bool }.
Record TurbulenceConfigV2 := mkTurbulenceConfigV2 {
  tc_Name : string; tc_AZs : list string; tc_DirectorHost : string; tc_DirectorUsername : string;
  tc_DirectorPassword : string; tc_DirectorCACert : string }.

(** What the helpers call of [bosh.Client]. *)
Class BoshClient (X : Type) := {
  GetConfig : M X BoshConfig;
  ResolveManifestVersionsV2 : string → M X (string * option error);
  bosh_Deploy : string → M X (string * option error);
  Deployments : M X (list BoshDeployment * option error);
  bosh_DeploymentVMs : string → M X (list VM * option error)
}.

Section helpers.
Context {X : Type} `{BoshClient X}.
(** [etcd.NewManifestV2], [turbulence.NewManifestV2], [ops.ApplyOp] and
    [ops.InstanceGroups]. *)
Context (etcd_NewManifestV2 : EtcdConfigV2 → string * option error).
Context (turbulence_NewManifestV2 : TurbulenceConfigV2 → string * option error).
Context (ApplyOp : string → Op → string * option error).
Context (InstanceGroups : string → list InstanceGroup * option error).

(** ** [deploy_etcd.go] *)

Definition NewEtcdManifestWithInstanceCountAndReleaseVersion (deploymentPrefix : string)
    (instanceCount : Z) (enableSSL : bool) (releaseVersion : string) : M X (string * option error) :=
  let manifestName := "etcd-" +:+ deploymentPrefix in
  match etcd_NewManifestV2 (mkEtcdConfigV2 manifestName ["z1"; "z2"] enableSSL) with
  | (_, Some err) => mret ("", Some err)
  | (manifest, None) =>
  match ApplyOp manifest (mkOp "replace" "/releases/name=etcd/version" (OpStr releaseVersion)) with
  | (_, Some err) => mret ("", Some err)
  | (manifest, None) =>
  match ApplyOp manifest (mkOp "replace" "/instance_groups/name=etcd/instances" (OpInt instanceCount)) with
  | (_, Some err) => mret ("", Some err)
  | (manifest, None) =>
  '(manifestYAML, err) ← ResolveManifestVersionsV2 manifest;
  match err with
  | Some err => mret ("", Some err)
  | None => mret (manifestYAML, None)
  end end end end.

Definition NewEtcdManifestWithInstanceCount (getenv : string → string) (deploymentPrefix : string)
    (instanceCount : Z) (enableSSL : bool) : M X (string * option error) :=
  NewEtcdManifestWithInstanceCountAndReleaseVersion deploymentPrefix instanceCount enableSSL
    (EtcdDevReleaseVersion getenv).

Definition DeployEtcdWithInstanceCountAndReleaseVersion (deploymentPrefix : string)
    (instanceCount : Z) (enableSSL : bool) (releaseVersion : string) : M X (string * option error) :=
  '(manifest, err) ← NewEtcdManifestWithInstanceCountAndReleaseVersion deploymentPrefix instanceCount
    enableSSL releaseVersion;
  match err with
  | Some err => mret ("", Some err)
  | None =>
  '(_, err) ← bosh_Deploy manifest;
  match err with
  | Some err => mret ("", Some err)
  | None => mret (manifest, None)
  end end.

Definition DeployEtcdWithInstanceCount (getenv : string → string) (deploymentPrefix : string)
    (instanceCount : Z) (enableSSL : bool) : M X (string * option error) :=
  DeployEtcdWithInstanceCountAndReleaseVersion deploymentPrefix instanceCount enableSSL
    (EtcdDevReleaseVersion getenv).

(** The switch in the innermost loop: it may overwrite [err]. *)
Definition verify_release (releaseVersion : string) (err : option error) (release : Release) : option error :=
  if bool_decide (Release_Name release = "etcd") then
    match Versions release with
    | _ :: _ :: _ => Some (ErrorString "too many releases")
    | [version] =>
        if bool_decide (version = releaseVersion) then err
        else Some (ErrorString ("expected etcd-release version " +:+ Quote releaseVersion +:+
          " but got " +:+ Quote version))
    | [] => err
    end
  else err.

Definition verify_deployment (deploymentName releaseVersion : string) (err : option error)
    (deployment : BoshDeployment) : option error :=
  if bool_decide (Deployment_Name deployment = deploymentName)
  then foldl (verify_release releaseVersion) err (Releases deployment) else err.

Definition VerifyDeploymentRelease (deploymentName releaseVersion : string) : M X (option error) :=
  '(deployments, err) ← Deployments;
  match err with
  | Some err => mret (Some err)
  | None => mret (foldl (verify_deployment deploymentName releaseVersion) None deployments)
  end.

(** ** [deploy_turbulence.go] *)

Definition DeployTurbulence (suffix : string) : M X (string * option error) :=
  boshConfig ← GetConfig;
  match turbulence_NewManifestV2 (mkTurbulenceConfigV2 ("turbulence-" +:+ suffix) ["z1"]
      (bc_Host boshConfig) (bc_Username boshConfig) (bc_Password boshConfig) (bc_DirectorCACert boshConfig)) with
  | (_, Some err) => mret ("", Some err)
  | (manifest, None) =>
  '(yaml, err) ← ResolveManifestVersionsV2 manifest;
  match err with
  | Some err => mret ("", Some err)
  | None =>
  '(_, err) ← bosh_Deploy yaml;
  match err with
  | Some err => mret ("", Some err)
  | None => mret (yaml, None)
  end end end.

(** ** [manifest.go] *)

(** [vms[index].IPs = nil; vms[index].ID = ""] *)
Definition blank (vm : VM) : VM := mkVM (JobName vm) (Index vm) (State vm) [] "".

(** The loop assigns to the elements of the slice it got, one index at a time. *)
Definition DeploymentVMs (deploymentName : string) : M X (list VM * option error) :=
  '(vms, err) ← bosh_DeploymentVMs deploymentName;
  match err with
  | Some err => mret ([], Some err)
  | None => mret (foldl (λ vms index, alter blank index vms) vms (seq 0 (length vms)), None)
  end.

(** The inner loop: [i] from 0 while it is below [ig.Instances]. *)
Definition instance_vms (ig : InstanceGroup) : list VM :=
  (λ i, mkVM (ig_Name ig) i "running" [] "") <$> seqZ 0 (Instances ig).

Definition GetVMsFromManifest (manifest : string) : M X (list VM) :=
  match InstanceGroups manifest with
  | (_, Some err) => panic (Error err)
  | (instanceGroups, None) => mret (foldl (λ vms ig, vms ++ instance_vms ig) [] instanceGroups)
  end.

Definition GetNonErrandVMsFromManifest (manifest : string) : M X (list VM) :=
  match InstanceGroups manifest with
  | (_, Some err) => panic (Error err)
  | (instanceGroups, None) =>
      mret (foldl (λ vms ig, if negb (bool_decide (ig_Lifecycle ig = "errand"))
                             then vms ++ instance_vms ig else vms) [] instanceGroups)
  end.

Definition GetVMIPs (deploymentName jobName : string) : M X (list string * option error) :=
  '(vms, err) ← bosh_DeploymentVMs deploymentName;
  match err with
  | Some err => mret ([], Some err)
  | None => mret (foldl (λ ips vm, if bool_decide (JobName vm = jobName) then ips ++ IPs vm else ips) [] vms, None)
  end.

(** Whether this is the VM that is looked for. *)
Definition is_instance (jobName : string) (index : Z) (vm : VM) : bool :=
  bool_decide (JobName vm = jobName) && bool_decide (Index vm = index).

(** The loop goes on after a match; [vm.IPs[0]] panics without addresses. *)
Fixpoint ip_loop (jobName : string) (index : Z) (ip : string) (vms : list VM) : M X string :=
  match vms with
  | [] => mret ip
  | vm :: vms =>
      if is_instance jobName index vm then
        match IPs vm with
        | [] => panic out_of_range
        | first :: _ => ip_loop jobName index first vms
        end
      else ip_loop jobName index ip vms
  end.

Definition GetVMIPByIndex (deploymentName jobName : string) (index : Z) : M X (string * option error) :=
  '(vms, err) ← bosh_DeploymentVMs deploymentName;
  match err with
  | Some err => mret ("", Some err)
  | None => ip ← ip_loop jobName index "" vms; mret (ip, None)
  end.

Definition GetVMIDByIndices (deploymentName jobName : string) (indices : list Z) : M X (list string * option error) :=
  '(vms, err) ← bosh_DeploymentVMs deploymentName;
  match err with
  | Some err => mret ([], Some err)
  | None =>
      mret (foldl (λ vmIDs vm,
        if bool_decide (JobName vm = jobName)
        then foldl (λ vmIDs index, if bool_decide (index = Index vm) then vmIDs ++ [ID vm] else vmIDs) vmIDs indices
        else vmIDs) [] vms, None)
  end.
End helpers.

(** ** Lemmas *)

Lemma foldl_append {A B} (f : A → list B) acc l :
  foldl (λ acc x, acc ++ f x) acc l = acc ++ (l ≫= f).
Proof.
  revert acc. induction l as [|x l IH]; intros acc; simpl; [by rewrite app_nil_r|].
  by rewrite IH, <-app_assoc.
Qed.

Lemma foldl_append_if {A B} (p : A → bool) (f : A → list B) acc l :
  foldl (λ acc x, if p x then acc ++ f x else acc) acc l = acc ++ (List.filter p l ≫= f).
Proof.
  revert acc. induction l as [|x l IH]; intros acc; simpl; [by rewrite app_nil_r|].
  rewrite IH. by destruct (p x); simpl; rewrite <-?app_assoc.
Qed.

(** A loop that overwrites an error leaves the last one it finds. *)
Lemma foldl_overwrite {A E} (f : A → option E) (g : option E → A → option E) err l :
  (∀ err x, g err x = match f x with Some e => Some e | None => err end) →
  foldl g err l = match last (omap f l) with Some e => Some e | None => err end.
Proof.
  intros Hg. revert err. induction l as [|x l IH]; intros err; simpl; [done|].
  rewrite IH, Hg. simpl. destruct (f x) as [e|]; [|done]. rewrite last_cons.
  change (list_omap A E f l) with (omap f l). by destruct (last (omap f l)).
Qed.

Lemma alter_blank_all vms :
  foldl (λ vms index, alter blank index vms) vms (seq 0 (length vms)) = blank <$> vms.
Proof.
  assert (∀ k l, foldl (λ vms index, alter blank index vms) (k ++ l) (seq (length k) (length l)) =
    k ++ (blank <$> l)) as H; [|by apply (H [])].
  intros k l. revert k. induction l as [|vm l IH]; intros k; [done|]. simpl.
  assert (alter blank (length k) (k ++ vm :: l) = (k ++ [blank vm]) ++ l) as ->.
  { rewrite <-app_assoc. simpl. clear IH. induction k as [|x k IHk]; [done|]. simpl. by f_equal. }
  specialize (IH (k ++ [blank vm])). rewrite length_app, Nat.add_1_r in IH. rewrite IH.
  by rewrite <-app_assoc.
Qed.

(** ** Theorems: reading back what runs *)

(** What [VerifyDeploymentRelease] has against a release. *)
Definition complaint (releaseVersion : string) (release : Release) : option error :=
  verify_release releaseVersion None release.

(** The releases that are looked at. *)
Definition releases_of (deploymentName : string) (deployments : list BoshDeployment) : list Release :=
  List.filter (λ d, bool_decide (Deployment_Name d = deploymentName)) deployments ≫= Releases.

Lemma verify_release_complaint v err r :
  verify_release v err r = match complaint v r with Some e => Some e | None => err end.
Proof.
  unfold complaint, verify_release. case_bool_decide; [|done].
  destruct (Versions r) as [|x [|y l]]; try done. by case_bool_decide.
Qed.

Lemma verify_deployments_last name v ds :
  foldl (verify_deployment name v) None ds = last (omap (complaint v) (releases_of name ds)).
Proof.
  assert (∀ err, foldl (verify_deployment name v) err ds =
    match last (omap (complaint v) (releases_of name ds)) with Some e => Some e | None => err end) as H.
  { induction ds as [|d ds IH]; intros err; [done|]. simpl. rewrite IH.
    unfold verify_deployment, releases_of. simpl. case_bool_decide; [|done]. csimpl.
    rewrite (foldl_overwrite (complaint v)), omap_app, last_app by apply verify_release_complaint.
    by destruct (last (omap (complaint v) (_ ≫= Releases))). }
  rewrite H. by destruct (last (omap (complaint v) (releases_of name ds))).
Qed.

(** The release of a deployment is verified exactly if no release called etcd of
    a deployment of that name has several versions or another version; a deployment
    that is not there, and one without an etcd release, pass, too. *)
Theorem VerifyDeploymentRelease_passes {X} `{BoshClient X} name v ds (w w1 : World X) :
  Deployments w = (Val (ds, None), w1) →
  VerifyDeploymentRelease name v w = (Val None, w1) ↔
  ∀ d r, d ∈ ds → Deployment_Name d = name → r ∈ Releases d → Release_Name r = "etcd" →
    Versions r = [] ∨ Versions r = [v].
Proof.
  intros Hd. unfold VerifyDeploymentRelease. step Hd. rewrite verify_deployments_last.
  assert (∀ r, complaint v r = None ↔ (Release_Name r = "etcd" → Versions r = [] ∨ Versions r = [v])) as Hc.
  { intros r. unfold complaint, verify_release. case_bool_decide; [|naive_solver].
    destruct (Versions r) as [|x [|y l]]; try naive_solver.
    case_bool_decide; naive_solver. }
  assert (∀ d r, d ∈ ds → Deployment_Name d = name → r ∈ Releases d → r ∈ releases_of name ds) as Hin.
  { intros d r ???. unfold releases_of. apply list_elem_of_bind. exists d. split; [done|].
    apply list_elem_of_In, filter_In. split; [by apply list_elem_of_In|by apply bool_decide_eq_true]. }
  split.
  - intros [= Hl] d r ????. apply Hc; [|done]. destruct (complaint v r) as [e|] eqn:He; [|done].
    apply last_None in Hl. assert (e ∈ omap (complaint v) (releases_of name ds)) as Hin'.
    { apply list_elem_of_omap. eauto. }
    rewrite Hl in Hin'. set_solver.
  - intros Hall. assert (omap (complaint v) (releases_of name ds) = []) as ->; [|done].
    apply elem_of_nil_inv. intros e (r&Hr&He)%list_elem_of_omap.
    apply list_elem_of_bind in Hr as (d&Hrd&Hd')%id.
    apply list_elem_of_In, filter_In in Hd' as [Hds%list_elem_of_In Hn%bool_decide_eq_true].
    assert (complaint v r = None) by (apply Hc; eauto). congruence.
Qed.

(** The address of an instance: of the last VM that answers to the name and the
    index, and "" without an error if there is none.  One of them without an
    address is a panic. *)
Theorem GetVMIPByIndex_spec {X} `{BoshClient X} deployment job index vms (w w1 : World X) :
  bosh_DeploymentVMs deployment w = (Val (vms, None), w1) →
  GetVMIPByIndex deployment job index w =
  (if forallb (λ vm, negb (is_instance job index vm && bool_decide (IPs vm = []))) vms
   then Val (default "" (last_match (is_instance job index) vms ≫= head ∘ IPs), None)
   else Panicked out_of_range, w1).
Proof.
  intros Hv. unfold GetVMIPByIndex. step Hv.
  assert (∀ ip, ip_loop job index ip vms w1 =
    (if forallb (λ vm, negb (is_instance job index vm && bool_decide (IPs vm = []))) vms
     then Val (match last_match (is_instance job index) vms with
               | Some vm => default "" (head (IPs vm)) | None => ip end)
     else Panicked out_of_range, w1)) as Hl.
  { clear Hv. induction vms as [|vm vms IH]; intros ip; [done|]. simpl.
    unfold last_match. simpl. rewrite foldl_last_match.
    destruct (is_instance job index vm); simpl.
    - destruct (IPs vm) as [|first l] eqn:Hi; simpl; [done|]. rewrite IH.
      destruct (forallb _ vms); [|done]. destruct (last_match _ vms); [done|]. by rewrite Hi.
    - rewrite IH. destruct (forallb _ vms); [|done]. by destruct (last_match _ vms). }
  unfold mbind, M_bind. rewrite Hl. destruct (forallb _ vms); [|done].
  by destruct (last_match _ vms).
Qed.

(** The ids of instances come in the director's order, not in that of the
    indices; an index without a VM is left out. *)
Theorem GetVMIDByIndices_spec {X} `{BoshClient X} deployment job indices vms (w w1 : World X) :
  bosh_DeploymentVMs deployment w = (Val (vms, None), w1) → NoDup indices →
  GetVMIDByIndices deployment job indices w =
  (Val (ID <$> List.filter (λ vm, bool_decide (JobName vm = job) && bool_decide (Index vm ∈ indices)) vms, None), w1).
Proof.
  intros Hv Hnd. unfold GetVMIDByIndices. step Hv. unfold mret, M_ret. do 3 f_equal.
  set (picked vm := List.filter (λ index, bool_decide (index = Index vm)) indices).
  assert (∀ acc, foldl (λ vmIDs vm, if bool_decide (JobName vm = job)
      then foldl (λ vmIDs index, if bool_decide (index = Index vm) then vmIDs ++ [ID vm] else vmIDs) vmIDs indices
      else vmIDs) acc vms = acc ++ (ID <$> List.filter
        (λ vm, bool_decide (JobName vm = job) && bool_decide (Index vm ∈ indices)) vms)) as H1;
    [|by apply (H1 [])].
  clear Hv. induction vms as [|vm vms IH]; intros acc; simpl; [by rewrite app_nil_r|].
  rewrite IH. case_bool_decide; simpl; [|done].
  rewrite (foldl_append_if (λ index, bool_decide (index = Index vm)) (λ _, [ID vm])), <-app_assoc. f_equal.
  fold (picked vm). assert (picked vm = if bool_decide (Index vm ∈ indices) then [Index vm] else []) as ->.
  { unfold picked. clear picked IH. induction Hnd as [|i l Hi Hnd IHl]; [done|]. simpl. rewrite IHl.
    destruct (decide (i = Index vm)) as [->|Hne].
    - rewrite bool_decide_true by done. rewrite (bool_decide_false (Index vm ∈ l)), bool_decide_true by set_solver.
      done.
    - rewrite (bool_decide_false (i = Index vm)) by done.
      apply (f_equal (λ b : bool, if b then [Index vm] else [])), bool_decide_ext. set_solver. }
  by case_bool_decide.
Qed.

(** ** Theorems: deploying *)

(** The VMs that instance groups describe. *)
Definition group_vms (groups : list InstanceGroup) : list VM :=
  List.filter (λ ig, negb (bool_decide (ig_Lifecycle ig = "errand"))) groups ≫= instance_vms.

Lemma elem_of_group_vms groups vm :
  vm ∈ group_vms groups ↔ ∃ ig, ig ∈ groups ∧ ig_Lifecycle ig ≠ "errand" ∧
    JobName vm = ig_Name ig ∧ 0 <= Index vm < Instances ig ∧ State vm = "running" ∧ IPs vm = [] ∧ ID vm = "".
Proof.
  unfold group_vms. rewrite list_elem_of_bind. split.
  - intros (ig&Hvm&[Hig Hl]%list_elem_of_In%filter_In).
    apply list_elem_of_fmap in Hvm as (i&->&Hi%elem_of_seqZ). exists ig. simpl.
    apply negb_true_iff, bool_decide_eq_false in Hl. split_and!; try done; try lia.
    by apply list_elem_of_In.
  - intros (ig&Hig&Hl&Hn&Hi&Hs&Hips&Hid). exists ig. split.
    + apply list_elem_of_fmap. exists (Index vm). rewrite elem_of_seqZ. split; [|lia].
      destruct vm; simpl in *. congruence.
    + apply list_elem_of_In, filter_In. split; [by apply list_elem_of_In|].
      by apply negb_true_iff, bool_decide_eq_false.
Qed.

Lemma NoDup_group_vms groups : NoDup (ig_Name <$> groups) → NoDup (group_vms groups).
Proof.
  unfold group_vms. induction groups as [|ig groups IH]; [constructor|]. csimpl.
  intros [Hn Hnd]%NoDup_cons. destruct (bool_decide _); simpl; [by apply IH|].
  apply NoDup_app. split; [|split; [|by apply IH]].
  - apply NoDup_fmap_2_strong; [|apply NoDup_seqZ]. intros i j _ _ Heq. by injection Heq.
  - intros vm (i&->&_)%list_elem_of_fmap (ig'&Hvm&[Hig _]%list_elem_of_In%filter_In)%list_elem_of_bind.
    apply list_elem_of_fmap in Hvm as (j&Heq&_). injection Heq as Heq _.
    apply Hn. rewrite Heq. apply list_elem_of_fmap_2. by apply list_elem_of_In.
Qed.

Lemma non_errand_vms {X} InstanceGroups manifest groups (w : World X) :
  InstanceGroups manifest = (groups, None) →
  GetNonErrandVMsFromManifest InstanceGroups manifest w = (Val (group_vms groups), w).
Proof.
  intros Hg. unfold GetNonErrandVMsFromManifest. rewrite Hg. unfold mret, M_ret. do 2 f_equal.
  exact (foldl_append_if (λ ig, negb (bool_decide (ig_Lifecycle ig = "errand"))) instance_vms [] groups).
Qed.

(** What runs for instance groups: each instance of a group that is no errand
    once, whatever its addresses and its id are. *)
Definition runs (groups : list InstanceGroup) (vms : list VM) : Prop :=
  NoDup (blank <$> vms) ∧
  ∀ vm, vm ∈ blank <$> vms ↔ ∃ ig, ig ∈ groups ∧ ig_Lifecycle ig ≠ "errand" ∧
    JobName vm = ig_Name ig ∧ 0 <= Index vm < Instances ig ∧ State vm = "running" ∧ IPs vm = [] ∧ ID vm = "".

(** The director: it reads the name and the groups of a manifest with [planned],
    a successful deployment makes its groups run under its name, and listing VMs
    tells what runs and changes nothing. *)
Class Director (X : Type) `{BoshClient X} (planned : string → option (string * list InstanceGroup))
    (held : X → gmap string (list VM)) : Prop := {
  director_deploy m out (w w1 : World X) : bosh_Deploy m w = (Val (out, None), w1) →
    ∃ name groups vms, planned m = Some (name, groups) ∧ runs groups vms ∧
      held (svc w1) = <[name := vms]> (held (svc w));
  director_vms name vms (w w1 : World X) : bosh_DeploymentVMs name w = (Val (vms, None), w1) →
    held (svc w1) = held (svc w) ∧ default [] (held (svc w) !! name) ≡ₚ vms
}.

Section director.
Context {X : Type} `{HD : Director X planned held}.
Context (etcd_NewManifestV2 : EtcdConfigV2 → string * option error).
Context (ApplyOp : string → Op → string * option error).
Context (InstanceGroups : string → list InstanceGroup * option error).

Notation deploy := (DeployEtcdWithInstanceCountAndReleaseVersion etcd_NewManifestV2 ApplyOp).

(** The manifest that is returned is the one that was deployed. *)
Lemma deploy_inv prefix n ssl v m (w w1 : World X) :
  deploy prefix n ssl v w = (Val (m, None), w1) →
  ∃ w0 out, bosh_Deploy m w0 = (Val (out, None), w1).
Proof.
  unfold DeployEtcdWithInstanceCountAndReleaseVersion. intros Hrun.
  apply bind_inv in Hrun as ([m' err]&w0&_&Hrun). destruct err as [e|]; [by apply ret_inv in Hrun as [? _]|].
  apply bind_inv in Hrun as ([out err]&w2&Hd&Hrun).
  destruct err as [e|]; apply ret_inv in Hrun as [[= ->] ->]. eauto.
Qed.

(** Once a deployment has succeeded, the VMs the director lists for it are, in
    some order, those that the tests expect from the manifest they were given. *)
Theorem deployed_vms_expected prefix n ssl v m name groups vms (w w1 w2 : World X) :
  planned m = Some (name, groups) → InstanceGroups m = (groups, None) →
  NoDup (ig_Name <$> groups) →
  deploy prefix n ssl v w = (Val (m, None), w1) →
  DeploymentVMs name w1 = (Val (vms, None), w2) →
  ∃ expected, GetNonErrandVMsFromManifest InstanceGroups m w2 = (Val expected, w2) ∧ vms ≡ₚ expected.
Proof.
  intros Hp Hg Hnd (w0&out&Hd)%deploy_inv Hvms. exists (group_vms groups).
  split; [by apply non_errand_vms|].
  destruct (director_deploy _ _ _ _ Hd) as (name'&groups'&vms0&Hp'&(Hnd0&Hin)&Hheld). simplify_eq.
  unfold DeploymentVMs in Hvms. apply bind_inv in Hvms as ([vms1 err]&w3&Hv&Hret).
  destruct err as [e|]; [by apply ret_inv in Hret as [? _]|]. apply ret_inv in Hret as [[= <-] ->].
  destruct (director_vms _ _ _ _ Hv) as [_ Hperm].
  rewrite Hheld, lookup_insert_eq in Hperm. rewrite alter_blank_all, <-Hperm. simpl.
  apply NoDup_Permutation; [done|by apply NoDup_group_vms|].
  intros vm. by rewrite Hin, elem_of_group_vms.
Qed.
End director.

(** ** Witness: a director that keeps one machine per instance *)

Module DirectorWitness.
Definition groups : list InstanceGroup := [mkInstanceGroup "etcd" 3 ""; mkInstanceGroup "smoke" 1 "errand"].
Definition planned (m : string) : option (string * list InstanceGroup) :=
  if bool_decide (m = "resolved") then Some ("etcd-x", groups) else None.
Definition machine (vm : VM) : VM :=
  mkVM (JobName vm) (Index vm) (State vm) ["10.0.0." +:+ Sprintf_d (Index vm)] "vm".
Definition machines : list VM := machine <$> group_vms groups.

#[global] Instance client : BoshClient (gmap string (list VM)) := {|
  GetConfig := mret (mkBoshConfig "" "" "" "");
  ResolveManifestVersionsV2 _ := mret ("resolved", None);
  bosh_Deploy m := λ w, match planned m with
    | Some (name, _) => (Val ("", None), set_svc (<[name := machines]> (svc w)) w)
    | None => (Val ("", Some (ErrorString "bad manifest")), w)
    end;
  Deployments := mret ([], None);
  bosh_DeploymentVMs name := λ w, (Val (default [] (svc w !! name), None), w)
|}.

Lemma blank_machines (l : list VM) : (∀ vm, vm ∈ l → IPs vm = [] ∧ ID vm = "") → blank <$> (machine <$> l) = l.
Proof.
  intros H. rewrite <-list_fmap_compose. rewrite <-(list_fmap_id l) at 2. apply list_fmap_ext.
  intros i vm Hi. destruct (H vm (list_elem_of_lookup_2 _ _ _ Hi)). destruct vm; simpl in *. by subst.
Qed.

Lemma runs_machines : runs groups machines.
Proof.
  assert (blank <$> machines = group_vms groups) as Heq.
  { apply blank_machines. intros vm (ig&_&_&_&_&_&?&?)%elem_of_group_vms. done. }
  unfold runs. rewrite Heq. split; [|apply elem_of_group_vms].
  apply NoDup_group_vms, (bool_decide_unpack _). by vm_compute.
Qed.

#[global] Instance director : Director (gmap string (list VM)) planned id.
Proof.
  split.
  - intros m out w w1. simpl. unfold planned. case_bool_decide; [|done].
    intros [= _ <-]. exists "etcd-x", groups, machines. split_and!; [done|apply runs_machines|done].
  - by intros name vms w w1 [= <- <-].
Qed.
End DirectorWitness.

Lemma deployed_vms_expected_witness :
  let w := mkWorld ∅ ∅ permissive_kernel ({["etcd-x" := DirectorWitness.machines]} : gmap string (list VM)) [] in
  ∃ expected, GetNonErrandVMsFromManifest (λ _, (DirectorWitness.groups, None)) "resolved" w =
    (Val expected, w) ∧ length expected = 3%nat.
Proof.
  intros w1. set (w := mkWorld ∅ ∅ permissive_kernel ∅ [] : World (gmap string (list VM))).
  destruct (deployed_vms_expected (planned := DirectorWitness.planned) (held := id)
    (λ _, ("m", None)) (λ m _, (m, None)) (λ _, (DirectorWitness.groups, None))
    "x" 3 true "1" "resolved" "etcd-x" DirectorWitness.groups (group_vms DirectorWitness.groups)
    w w1 w1 eq_refl eq_refl) as (expected&He&Hp).
  - apply (bool_decide_unpack _). by vm_compute.
  - reflexivity.
  - unfold DeploymentVMs. step (eq_refl : bosh_DeploymentVMs "etcd-x" w1 =
      (Val (DirectorWitness.machines, None), w1)). reflexivity.
  - exists expected. split; [exact He|]. by rewrite <-Hp.
Defined.
