(* ===== verification/AcceptFakes.v ===== *)
(** * The doubles of the acceptance tests' programs

    [acceptance-tests/testing/testconsumer/etcd/fakes/client.go],
    [acceptance-tests/testing/monit_agent/fakes] and
    [acceptance-tests/testing/helpers/fakes]: they keep what the last call
    received and give canned answers.  The theorems run the wrapper of go-etcd,
    the handlers of the monit agent and the watcher over them. *)
From S2P Require Import Prelude GoStrings GoPath Machine GoUrl UrlFacts GoJson GoHttp GoServe TestConsumer.
From S2P Require Import Watcher MonitAgent MonitAgentSpec Fakes.

Open Scope Z_scope.

(** ** [testconsumer/etcd/fakes/client.go] *)

Module FakeGoEtcd.
Record t := mk {
  GetReturnsValue : string → string;
  GetReturnsError : option error;
  SetReceives : string * string * Z;
  SetReturns : option EtcdResponse * option error;
  CloseCallCount : Z
}.

Definition NewClient : t := mk (λ _, "") None ("", "", 0) (None, None) 0.

(** The response is there in the error case, too. *)
Definition Get (key : string) (sort recursive : bool) : M t (option EtcdResponse * option error) :=
  c ← get_svc;
  mret (Some (mkEtcdResponse (Some (mkNode "" (GetReturnsValue c key) 0))), GetReturnsError c).

Definition Set_ (key value : string) (ttl : Z) : M t (option EtcdResponse * option error) :=
  c ← get_svc;
  _ ← put_svc (mk (GetReturnsValue c) (GetReturnsError c) (key, value, ttl) (SetReturns c) (CloseCallCount c));
  mret (SetReturns c).

Definition Close : M t unit :=
  c ← get_svc;
  put_svc (mk (GetReturnsValue c) (GetReturnsError c) (SetReceives c) (SetReturns c) (CloseCallCount c + 1)).
End FakeGoEtcd.

(** The wrapper over the double; [SetConsistency] is no method of the interface
    and is never called. *)
Definition over_double (consistency : string → M FakeGoEtcd.t (option error)) : Etcd.Client FakeGoEtcd.t :=
  Etcd.NewClient (Some (mkGoEtcd FakeGoEtcd.Get FakeGoEtcd.Set_ consistency FakeGoEtcd.Close)).

(** ** [monit_agent/fakes] *)

Module FakeLogger.
(** [CallCount] is a field that no method changes. *)
Record t := mk { PrintlnCallCount : Z; PrintlnReceives : list value; PrintlnAllValues : list (list value) }.

Definition Println (v : list value) (l : t) : t := mk (PrintlnCallCount l) v (PrintlnAllValues l ++ [v]).
End FakeLogger.

Module FakeMonit.
Record t := mk {
  RunCall : Call (list string) (option error);
  OutputCall : Call (list string) (string * option error)
}.

Definition Output (args : list string) (m : t) : (string * option error) * t :=
  let m := mk (RunCall m) (called args (OutputCall m)) in (Returns (OutputCall m), m).
Definition Run (args : list string) (m : t) : option error * t :=
  let m := mk (called args (RunCall m)) (OutputCall m) in (Returns (RunCall m), m).
End FakeMonit.

Module FakeStore.
Record t := mk { DeleteContentsCall : Call string (option error) }.

Definition DeleteContents (storeDir : string) (r : t) : option error * t :=
  let r := mk (called storeDir (DeleteContentsCall r)) in (Returns (DeleteContentsCall r), r).
End FakeStore.

(** ** [helpers/fakes/etcd_watcher.go]

    [Watch] blocks twice on channels of its test: it tells that it was called, and
    waits to be stopped.  [Watch_called] is what it does before, [Watch_returns]
    what it gives afterwards; the two channels it receives and keeps are left out. *)

Module FakeWatcher.
Record t := mk { WatchCall : Call (string * Z * bool) (option EtcdResponse * option error) }.

Definition Watch_called (prefix : string) (waitIndex : Z) (recursive : bool) (w : t) : t :=
  mk (called (prefix, waitIndex, recursive) (WatchCall w)).
Definition Watch_returns (w : t) : option EtcdResponse * option error := Returns (WatchCall w).
End FakeWatcher.

(** The double after the calls of a run of the watcher. *)
Definition watched (ls : list Watcher.label) (w : FakeWatcher.t) : FakeWatcher.t :=
  foldl (λ w l, match l with
                | Watcher.SLoop waitIndex => FakeWatcher.Watch_called "/" waitIndex true w
                | _ => w
                end) w ls.

(** The doubles a handler of the agent is made with. *)
Record doubles := mkDoubles { monit : FakeMonit.t; store : FakeStore.t }.

Definition monit_double : MonitWrapper doubles := {|
  monit_Run args := d ← get_svc; let '(r, m) := FakeMonit.Run args (monit d) in
    _ ← put_svc (mkDoubles m (store d)); mret r;
  monit_Output args := d ← get_svc; let '(r, m) := FakeMonit.Output args (monit d) in
    _ ← put_svc (mkDoubles m (store d)); mret r
|}.
Definition store_double : RemoveStore doubles := λ dir,
  d ← get_svc; let '(r, s) := FakeStore.DeleteContents dir (store d) in
  _ ← put_svc (mkDoubles (monit d) s); mret r.

(** ** Theorems *)

(** Reading a key through the wrapper gives what the double was told to answer,
    and nothing in the error case. *)
Theorem Get_over_double consistency key (w : World FakeGoEtcd.t) :
  Etcd.Get (over_double consistency) key w =
  (Val (match FakeGoEtcd.GetReturnsError (svc w) with
        | Some err => ("", Some err)
        | None => (FakeGoEtcd.GetReturnsValue (svc w) key, None)
        end), w).
Proof.
  unfold Etcd.Get, over_double, FakeGoEtcd.Get, mbind, M_bind. simpl.
  by destruct (FakeGoEtcd.GetReturnsError (svc w)).
Qed.

(** Writing a key sends it with a time to live of 6000 seconds; an answer with
    another value is an error, an answer without a node (which is what a new
    double gives) a panic. *)
Theorem Set_over_double consistency key value (w : World FakeGoEtcd.t) :
  let c := svc w in
  Etcd.Set_ (over_double consistency) key value w =
  (match FakeGoEtcd.SetReturns c with
   | (_, Some err) => Val (Some err)
   | (Some (mkEtcdResponse (Some n)), None) =>
       Val (if bool_decide (Value n = value) then None else Some Etcd.KeySetError)
   | (_, None) => Panicked Machine.nil_dereference
   end,
   set_svc (FakeGoEtcd.mk (FakeGoEtcd.GetReturnsValue c) (FakeGoEtcd.GetReturnsError c)
     (key, value, 6000) (FakeGoEtcd.SetReturns c) (FakeGoEtcd.CloseCallCount c)) w).
Proof.
  unfold Etcd.Set_, over_double, FakeGoEtcd.Set_, mbind, M_bind. simpl.
  destruct (FakeGoEtcd.SetReturns (svc w)) as [[[[n|]]|] [err|]]; try done.
  simpl. by case_bool_decide.
Qed.

(** A request of the monit agent runs one command of monit for the job, and has
    the job's store emptied, once, exactly if it was asked to, whatever monit
    answers; the response is left alone. *)
Theorem Monit_over_doubles command job delete_store (w : World doubles) :
  all_chars plain_path job = true →
  ∃ w', Monit_ServeHTTP (H := monit_double) (H0 := store_double) command fresh_response
      (monit_request command job delete_store) w = (Val fresh_response, w') ∧
    svc w' = mkDoubles (FakeMonit.Run [command; job] (monit (svc w))).2
      (if delete_store : bool then (FakeStore.DeleteContents (store_dir job) (store (svc w))).2 else store (svc w)).
Proof.
  intros Hj. destruct (monit_values command job delete_store Hj) as [Hjob Hd]. cbv zeta in *.
  unfold Monit_ServeHTTP. rewrite Hjob, Hd.
  rewrite (bind_Val _ _ _ _ _ (run_Println _ w)).
  assert (∀ (err : option error) (w0 : World doubles), ∃ w', log_error_line err w0 = (Val tt, w') ∧
    svc w' = svc w0) as Hlog by (intros [e|] w0; by eexists).
  set (w0 := emit _ w).
  assert (∃ w1, monit_Run (MonitWrapper := monit_double) [command; job] w0 =
    (Val (Returns (FakeMonit.RunCall (monit (svc w)))), w1) ∧
    svc w1 = mkDoubles (FakeMonit.Run [command; job] (monit (svc w))).2 (store (svc w)))
    as (w1&H1&Hs1) by by eexists.
  step H1. destruct (Hlog (Returns (FakeMonit.RunCall (monit (svc w)))) w1) as (w2&H2&Hs2). step H2.
  destruct delete_store; [|exists w2; split; [done|]; by rewrite Hs2, Hs1].
  rewrite (bind_Val _ _ _ _ _ (run_Println _ w2)). set (w3 := emit _ w2).
  assert (∃ err w4, store_DeleteContents (RemoveStore := store_double) (store_dir job) w3 = (Val err, w4) ∧
    svc w4 = mkDoubles (monit (svc w2)) (FakeStore.DeleteContents (store_dir job) (store (svc w2))).2)
    as (err&w4&H4&Hs4) by by eexists _, _.
  step H4. destruct (Hlog err w4) as (w5&H5&Hs5). step H5. exists w5. split; [done|].
  by rewrite Hs5, Hs4, Hs2, Hs1.
Qed.

(** When the watcher calls [Watch] again, the double receives the index after the
    last event that was entered before. *)
Theorem watcher_asks_double history ls waitIndex (w w' : Watcher.Watcher) (d : FakeWatcher.t) :
  Watcher.run history (ls ++ [Watcher.SLoop waitIndex]) Watcher.Watch = Some w' →
  Watcher.run history ls Watcher.Watch = Some w →
  Receives (FakeWatcher.WatchCall (watched (ls ++ [Watcher.SLoop waitIndex]) d)) =
    ("/", succ64 (getLastModifiedIndex w), true) ∧
  CallCount (FakeWatcher.WatchCall (watched (ls ++ [Watcher.SLoop waitIndex]) d)) =
    CallCount (FakeWatcher.WatchCall (watched ls d)) + 1.
Proof.
  intros Hrun Hw. unfold watched. rewrite foldl_app. simpl. split; [|done].
  assert (∀ ls w0 w1, Watcher.run history ls w0 = Some w1 →
    Watcher.run history (ls ++ [Watcher.SLoop waitIndex]) w0 = Watcher.step history (Watcher.SLoop waitIndex) w1)
    as Happ.
  { clear. induction ls as [|l ls IH]; intros w0 w1; cbn [Watcher.run app].
    - intros [= ->]. by destruct (Watcher.step history (Watcher.SLoop waitIndex) w1).
    - destruct (Watcher.step history l w0) as [w2|]; [apply IH|done]. }
  rewrite (Happ _ _ _ Hw) in Hrun. simpl in Hrun.
  destruct (caller w), (listener w); try done.
  destruct (Z.eqb_spec waitIndex (succ64 (getLastModifiedIndex w))) as [->|]; [done|discriminate].
Qed.
