(* ===== verification/EtcdClients.v ===== *)
(** * [src/acceptance-tests/testing/helpers/etcd_client.go]

    The clients of the tests: the wrapper of go-etcd with strong consistency, in
    the clear or with TLS, and the watcher of all keys. *)
From S2P Require Import Prelude GoStrings GoPath Machine TestConsumer Watcher.

Section clients.
Context {X : Type} (lib : GoEtcdLib X).

Definition watcher_addresses (machines : list string) : list string :=
  foldl (λ addresses machine, addresses ++ ["http://" +:+ machine +:+ ":4001"]) [] machines.

(** The client of the watcher, the prefix, and the watcher as it is returned. *)
Definition NewEtcdWatcher (machines : list string) : M X (GoEtcd X * string * Watcher) :=
  client ← lib_NewClient lib (watcher_addresses machines);
  mret (client, "/", Watch).

Definition NewEtcdClient (machines : list string) : M X (Etcd.Client X) :=
  client ← lib_NewClient lib machines;
  _ ← ge_SetConsistency client (STRONG_CONSISTENCY lib);
  mret (Etcd.NewClient (Some client)).

Definition NewEtcdTLSClient (machines : list string) (certFile keyFile caCertFile : string) :
    M X (Etcd.Client X * option error) :=
  client ← lib_NewTLSClient lib machines certFile keyFile caCertFile;
  match client with
  | inl err => mret (Etcd.NewClient None, Some err)
  | inr client =>
      _ ← ge_SetConsistency client (STRONG_CONSISTENCY lib);
      mret (Etcd.NewClient (Some client), None)
  end.

(** ** Lemmas *)

Lemma watcher_addresses_map machines :
  watcher_addresses machines = (λ machine, "http://" +:+ machine +:+ ":4001") <$> machines.
Proof.
  unfold watcher_addresses.
  assert (∀ acc, foldl (λ addresses machine, addresses ++ ["http://" +:+ machine +:+ ":4001"]) acc machines =
    acc ++ ((λ machine, "http://" +:+ machine +:+ ":4001") <$> machines)) as H; [|apply (H [])].
  induction machines as [|m l IH]; intros acc; simpl; [by rewrite app_nil_r|].
  by rewrite IH, <-app_assoc.
Qed.

(** A client that was not made has no go-etcd client inside: [Close] does nothing,
    reading a key is a nil dereference. *)
Theorem NewEtcdTLSClient_error machines certFile keyFile caCertFile err (w w1 : World X) :
  lib_NewTLSClient lib machines certFile keyFile caCertFile w = (Val (inl err), w1) →
  ∃ c, NewEtcdTLSClient machines certFile keyFile caCertFile w = (Val (c, Some err), w1) ∧
    Etcd.Close c w1 = (Val tt, w1) ∧ ∀ key, Etcd.Get c key w1 = (Panicked nil_dereference, w1).
Proof. intros H. unfold NewEtcdTLSClient. step H. by eexists. Qed.

(** A client that was made reads a key, without sorting or recursion, after the
    consistency was set. *)
Theorem NewEtcdClient_reads machines client key e n (w w1 w2 w3 : World X) :
  lib_NewClient lib machines w = (Val client, w1) →
  ge_SetConsistency client (STRONG_CONSISTENCY lib) w1 = (Val e, w2) →
  ge_Get client key false false w2 = (Val (Some (mkEtcdResponse (Some n)), None), w3) →
  (c ← NewEtcdClient machines; Etcd.Get c key) w = (Val (Value n, None), w3).
Proof.
  intros H1 H2 H3. unfold NewEtcdClient. rewrite bind_assoc. step H1. rewrite bind_assoc. step H2.
  rewrite ret_bind. unfold Etcd.Get. simpl. by step H3.
Qed.
End clients.
